(* ===== verification/_CoqProject ===== *)
-Q . S2P
Prelude.v
GoLib.v
Common.v
Agreement.v
Database.v
StateRedeem.v
StateDB.v
State.v
Vault.v
ChainTxMgrDB.v
ChainTxMgr.v
ChainTxMgrDue.v
BtcAction.v
BtcTx.v
BtcRpc.v
BtcUser.v
BtcTxManager.v
BtcSync.v
SyncSystem.v
ChainSync.v
Aptosman.v
AptosUtils.v
AptosAccounts.v
Etherman.v
EthSync.v
EthTxManagerDB.v
EthTxManager.v
Signers.v
EthUser.v
Reporter.v
ServedWorker.v
Server.v
ServerSetup.v
EndToEnd.v
RedeemFlow.v
Custody.v
