(* ===== verification/Prelude.v ===== *)
(** * The TEENet BTC bridge: a verification development (root file)

    The program (Go, under src/) is a custodial bridge between Bitcoin and a token chain (Ethereum or
    Aptos). A user sends BTC to the bridge wallet with an OP_RETURN payload that names a receiver; the
    bridge sees the deposit, records a mint and mints TWBTC. In the other direction a user burns TWBTC in
    a redeem request; the bridge allocates UTXOs of its wallet, publishes them in a prepare transaction
    and pays the redeem on Bitcoin. The development models the packages that decide what is minted,
    what is allocated and what is paid, and the goroutines and channels that connect them.

    ** How the parts interact

    - Bitcoin in: the monitor of [btcsync] scans blocks of a node ([BtcRpc]), classifies transactions
      ([BtcTx]) and notifies observers, which write deposits ([BtcAction]), UTXOs ([Vault]) and mints
      ([State]).
    - Token chain in: a synchronizer ([ChainSync] with the Aptos worker of [Aptosman], or [EthSync] with
      the Ethereum client of [Etherman]) reads finalized events and sends them on the channels of the
      state; the state's loop ([State]) applies them to its tables ([StateDB]).
    - Token chain out: a manager ([ChainTxMgr], or [EthTxManager] for Ethereum) reads unminted deposits
      and requested redeems from the state's tables, asks the vault for outpoints and the signer for a
      signature, sends the transaction and tracks it in a table of its own ([ChainTxMgrDB],
      [EthTxManagerDB]).
    - Bitcoin out: [BtcTxManager] reads prepared redeems, builds and signs the payment ([BtcTx]) from the
      outpoints of the vault, sends it and records it ([BtcAction]).
    - Tools: a user's account on Bitcoin ([BtcUser]), on Ethereum ([EthUser]) and on Aptos
      ([AptosUtils], [AptosAccounts]) makes the deposits and the redeem requests.

    ** Files, in dependency order

    - Prelude: this header; bytes, machine integers ([wrap], [swrap] at 16, 32 and 64 bits), Go's results
      ([outcome]: a value, an error or a panic), the state monad [M] in which a failure keeps the writes
      made before it, and its rewriting lemmas.
    - GoLib: the parts of [strings], [encoding/hex], [math/big] and [strconv] the bridge uses, executable;
      the class [EthLib] of go-ethereum's helpers, its laws, and a concrete instance.
    - Common (src/common), Agreement (src/agreement), Database (src/database/stmtcache.go and what is
      relied on of [database/sql]).
    - StateRedeem (state/redeem.go, mint.go, sqlredeem.go, utils.go, types.go), StateDB (state/schema.go,
      statedb*.go), State (state/state.go, state_eth2btc.go): records and their rows, tables with their
      constraints, and [Start]'s select loop as a transition system over buffered channels.
    - Vault (src/btcvault): the storage interface as a type class with laws, the vault proved against it,
      the SQLite storage as an instance.
    - ChainTxMgrDB (src/chaintxmgrdb), ChainTxMgr and ChainTxMgrDue (src/chaintxmgr).
    - BtcAction (src/btcaction), BtcTx (src/btcman/utxo, assembler, utils), BtcRpc (src/btcman/rpc),
      BtcTxManager (src/btctxmanager), BtcSync (src/btcsync); BtcUser (src/cmd/btc_user.go and
      src/cmd/btc_user_cmd).
    - SyncSystem: a synchronizer beside the state's loop, as an interface ([Synchronizer], its laws, and
      the delivery invariant that follows from them, over a record of what each fetch answered); ChainSync (src/chainsync) and EthSync (src/ethsync,
      src/aptossync) are its instances.
    - Aptosman (src/aptosman), Etherman (src/etherman): the two chain clients; AptosUtils
      (src/aptosman/aptos_utils.go and its copy in src/cmd/aptos_user_cmd), AptosAccounts
      (src/aptosman/utils.go, src/cmd/aptos_user_cmd), EthUser (src/cmd/eth_user.go,
      src/cmd/eth_user_cmd, src/etherman/real.go and utils.go): accounts, deployment and tools.
    - EthTxManagerDB, EthTxManager (src/ethtxmanager).
    - Signers (src/multisig_client, src/signers): the local and the remote signer behind one interface.
    - Reporter (src/reporter): the HTTP reports as the responses they write, their routes, and the reader
      that asks for them.
    - ServedWorker (the manager methods of [AptosSyncWorker], src/aptosman/aptosman.go), Server
      (src/cmd/server.go): the parts wired together as the bridge server runs them, the goroutines as a
      step relation on the shared stores; ServerSetup (src/cmd/server_cmd/main.go, the connector of
      src/multisig_client, src/aptosman/simulated.go): from the configuration to the started server.
    - EndToEnd, RedeemFlow: what follows when the parts are composed, in each direction. Custody: the
      vault, the loop of the state and the payments interleaved in any way, as a refinement of a bank
      that has a pool of outpoints, what was given to which request and what was paid.

    A definition has the name of the Go function or type it translates; where two packages share a
    name, one has a prefix (e for Ethereum, a for Aptos, sqlite_ for an implementation of an interface).
    A Go method that writes is a computation of [M] over the record of its receiver; a select loop or a
    goroutine is a step function on its program counter, channels being lists with a capacity.

    ** What the theorems show

    - End to end: a deposit the user's tool sends is scanned, recorded and submitted as one mint of its
      amount and receiver (deposit_is_minted); a redeem that is requested is stored, prepared with
      outpoints the vault locks for it and paid from exactly these (redeem_is_funded).
    - Custody: however the components interleave, the outpoints follow the bank of [Custody]
      (custody_refines), so no outpoint is ever spent by two payments and each payment spends what its
      request was given (payments_disjoint). Assumed: the token chain emits preparations of what the
      vault gave, the storages do not fail. No code under src/ calls [ReleaseByExpire] or
      [ReleaseByCommand], so what the vault locks stays locked.
    - Bitcoin in: a user-built deposit in the scanned window ends as an unminted mint of its amount and
      receiver (deposit_reaches_mint), scans cover exactly their range and notify each kind of observer of
      exactly what is in it, in chain order (Scan_spec), the publisher neither loses nor duplicates
      (publisher_delivers), a payload a user builds is recognised (deposit_roundtrip).
    - Token chain in: in every interleaving with the state's loop the events handled, queued and in hand
      are exactly what the worker answered for consecutive ranges of the ledger, whatever the worker
      (sync_delivers), and for Ethereum exactly what the contract emitted in the finalized blocks
      (eth_sync_delivers: the only reliance on the node is that it returns the logs of a block it has
      reported as finalized), once each and in order; ticks terminate
      (tick_terminates), every listed Aptos event is decoded (aptos_sync_events), and the redeem life cycle
      holds along every run (redeem_lifecycle, redeem_events_commute, updateFromPreparedEvent_spec); the
      loop ends only with errors it names (loop_errors_handled); also the lemmas
      finalized_block_monotone and restart_recovers of State.
    - Token chain out: in the life of a process no deposit is minted and no redeem prepared by two accepted
      submissions, whatever the chain answers (submissions_unique); every deposit and every request that
      is due is submitted and tracked by the next tick on a chain that accepts, that is, when every call
      succeeds and the ledger number of a submission is known (due_mints_submitted, due_redeems_prepared);
      a tick of the Ethereum manager sends one transaction for each item whose tracked transactions have
      all timed out, and none for any other (sent_not_resent); the locks and the error channel of the Ethereum
      manager (locks_released, node_down_blocks), the status a pending transaction gets (monitor_spec,
      lemma final_status_stable), and a signature comes back whole from its two numbers (signature_roundtrip).
    - Bitcoin out: no outpoint is allocated twice (no_double_allocation, ChooseAndLock_spec), an allocation
      always funds its payment and fee (allocation_funds_withdrawal), a payment spends what it was given
      and loses only the fee (redeem_tx_conserves), and no request is paid twice (withdraw_once).
    - Storage and encodings: constraints are preserved by every write (StateDB_writes_preserve,
      redeem_tracking), a new mint is reported until its event is observed (lemma mint_flow), rows, BCS strings and
      fixed-width integers are read back (sqlRedeem_roundtrip, bcs_roundtrip, BigInt2Bytes32_roundtrip; an
      empty slice of outpoints is read back as nil).
    - Reports and tools: the report on redeems shows what the state and the payments say of the redeems
      of one requester (redeems_reported); what the tools send and when they refuse (deposit_tool,
      redeem_request_guarded), and that the hand-written contract calls are those of the client
      (utils_agree).
    - The server as it is wired: it can be stopped and started again on its file (server_restarts), but it
      does not follow the token chain (served_chain_unfollowed).
    - Lemmas on behaviours that are not what the code means: served_mint_receiver, served_mint_unseen,
      served_prepare_fails, other_network_refused, aptos_prepared_unmatched, failed_fetch_loses_events,
      aptossync_repeats, reobserved_deposit_lost, start_may_block, bare_return_stops_monitor. Further
      lemmas: signed hashes bind what is signed (mint_hash_binds, prepare_hash_binds) and the statement
      cache is transparent (StmtCache_transparent).

    The theorems about a component hold of it whoever uses it: redeem_lifecycle speaks of
    a state whose loop runs, served_chain_unfollowed of the server, where it does not.

    Code outside src/ (go-ethereum, btcd, the Aptos SDK, SQLite, gob and RLP, the contracts' generated
    bindings) appears as type classes; what is relied on of it is a class of laws with an instance, or
    a named hypothesis, and every theorem with a hypothesis has a witness at a concrete instance.

    ** Bounds and fuel

    - [digits_fuel] runs for one more step than the binary length of its number (digits_fuel_spec).
    - [WaitForTxReceipt_loop] runs for [retryTimes] queries, the bound of the code's own loop.
    - No other recursion has fuel: loops over lists are structural, goroutines are step relations, and
      that a tick of a synchronizer ends is a theorem (tick_terminates).

    ** Not modelled

    - Interleavings inside one critical section or one goroutine body: a procedure that holds a lock, and
      the body of a goroutine of a tick, is one step; mutexes of the clients are not modelled.
    - Time: a ticker may fire whenever its select is waiting; the wall clock is an argument.
    - Logging, [Close] functions, READMEs, the simulated Ethereum chain and the mocks used by tests
      (etherman/simulated.go, mock_state.go), generated code (src/contracts, src/rpc/*.pb.go), the Move
      contracts, and main_bak_eth.go, which is commented out.
    - Of the command-line tools, the flags and files their main functions read (the server's
      configuration is modelled), the prompts they print, and signals with the shutdown they cause.
    - The float conversions of src/btcman/utils/convert.go and the random generators of src/common, which
      only tests and simulations call; MainNetParams and other functions that only name a constant of a
      library. *)
From Stdlib Require Export ZArith Lia.
From Stdlib Require Export Ascii String.
From stdpp Require Export base tactics option list strings gmap sets relations.
#[global] Open Scope Z_scope.


Create HintDb golib.
Create Rewrite HintDb golib_rw.
Declare Scope go_scope.
Delimit Scope go_scope with go.

(** ** Bytes and hashes *)
Abbreviation byte := Ascii.ascii.
Abbreviation bytes := (list Ascii.ascii).

(** Go's [string(b)] and [[]byte(s)]: a Go string is a byte sequence. *)
Definition string_of_bytes (b : bytes) : string := String.string_of_list_ascii b.
Definition bytes_of_string (s : string) : bytes := String.list_ascii_of_string s.

Lemma bytes_of_string_of_bytes b : bytes_of_string (string_of_bytes b) = b.
Proof. apply String.list_ascii_of_string_of_list_ascii. Qed.
Lemma string_of_bytes_of_string s : string_of_bytes (bytes_of_string s) = s.
Proof. apply String.string_of_list_ascii_of_string. Qed.

Lemma string_of_bytes_app a b :
  string_of_bytes (a ++ b) = (string_of_bytes a +:+ string_of_bytes b)%string.
Proof. unfold string_of_bytes. induction a as [|x a IH]; [done|]. cbn. by rewrite IH. Qed.

Lemma string_length_bytes s : String.length s = length (bytes_of_string s).
Proof. unfold bytes_of_string. induction s as [|x s IH]; [done|]. cbn. by rewrite IH. Qed.

#[global] Instance string_of_bytes_inj : Inj (=) (=) string_of_bytes.
Proof. intros a b H. rewrite <-(bytes_of_string_of_bytes a), H. apply bytes_of_string_of_bytes. Qed.
#[global] Instance bytes_of_string_inj : Inj (=) (=) bytes_of_string.
Proof. intros a b H. rewrite <-(string_of_bytes_of_string a), H. apply string_of_bytes_of_string. Qed.

(** ** Machine integers *)
Definition wrap (w : Z) (z : Z) : Z := z mod 2 ^ w.
Definition swrap (w : Z) (z : Z) : Z := (z + 2 ^ (w - 1)) mod 2 ^ w - 2 ^ (w - 1).
Abbreviation u64 := (wrap 64).
Abbreviation u16 := (wrap 16).
Abbreviation i64 := (swrap 64).
Abbreviation i32 := (swrap 32).

Lemma wrap_small w z : 0 <= z < 2 ^ w -> wrap w z = z.
Proof. intros. by apply Z.mod_small. Qed.
Lemma wrap_bounds w z : 0 <= w -> 0 <= wrap w z < 2 ^ w.
Proof. intros. apply Z.mod_pos_bound. lia. Qed.
Lemma swrap_small w z : 0 < w -> - 2 ^ (w - 1) <= z < 2 ^ (w - 1) -> swrap w z = z.
Proof.
  intros Hw Hz. unfold swrap.
  assert (2 ^ w = 2 * 2 ^ (w - 1)) as E.
  { rewrite <-Z.pow_succ_r by lia. f_equal; lia. }
  rewrite Z.mod_small; lia.
Qed.
Lemma swrap_bounds w z : 0 < w -> - 2 ^ (w - 1) <= swrap w z < 2 ^ (w - 1).
Proof.
  intros Hw. unfold swrap.
  assert (2 ^ w = 2 * 2 ^ (w - 1)) as E.
  { rewrite <-Z.pow_succ_r by lia. f_equal; lia. }
  pose proof (Z.mod_pos_bound (z + 2 ^ (w - 1)) (2 ^ w)). lia.
Qed.

(** ** Go results: a value, an [error], or a panic of the goroutine *)
Abbreviation error := string (only parsing).
Inductive outcome (A : Type) : Type :=
  | Ok (a : A)
  | Err (e : error)
  | Panic (why : string).
Arguments Ok {A} a.
Arguments Err {A} e.
Arguments Panic {A} why.

#[global] Instance outcome_eq_dec `{EqDecision A} : EqDecision (outcome A).
Proof. solve_decision. Defined.

#[global] Instance outcome_ret : MRet outcome := @Ok.
#[global] Instance outcome_bind : MBind outcome := fun A B f m =>
  match m with Ok a => f a | Err e => Err e | Panic w => Panic w end.
#[global] Instance outcome_fmap : FMap outcome := fun A B f m =>
  match m with Ok a => Ok (f a) | Err e => Err e | Panic w => Panic w end.

(** [ok] of a lookup *)
Definition is_Some_b {A} (o : option A) : bool := match o with Some _ => true | None => false end.
Definition is_ok {A} (o : outcome A) : bool := match o with Ok _ => true | _ => false end.

(** [if err != nil { return E }]: every error is replaced by [E]. *)
Definition map_err {A} (E : error) (o : outcome A) : outcome A :=
  match o with Err _ => Err E | o => o end.
(** [if err != nil { return nil, fmt.Errorf(pre + "%v", err) }] *)
Definition wrap_err {A} (pre : string) (o : outcome A) : outcome A :=
  match o with Err e => Err (pre +:+ e)%string | o => o end.

(** ** Stateful Go code: state passing where a failure keeps the writes made
    before it (Go has no rollback). *)
Definition M (S A : Type) : Type := S -> outcome A * S.

#[global] Instance M_ret {S} : MRet (M S) := fun A a s => (Ok a, s).
#[global] Instance M_bind {S} : MBind (M S) := fun A B f m s =>
  match m s with
  | (Ok a, s') => f a s'
  | (Err e, s') => (Err e, s')
  | (Panic w, s') => (Panic w, s')
  end.

Section monad.
Context {S : Type}.
Definition get : M S S := fun s => (Ok s, s).
Definition put (s : S) : M S unit := fun _ => (Ok tt, s).
Definition modify (f : S -> S) : M S unit := fun s => (Ok tt, f s).
Definition gets {A} (f : S -> A) : M S A := fun s => (Ok (f s), s).
Definition throw {A} (e : error) : M S A := fun s => (Err e, s).
Definition panic {A} (w : string) : M S A := fun s => (Panic w, s).
Definition lift {A} (o : outcome A) : M S A := fun s => (o, s).
(** run a read-only computation on the current state *)
Definition ask {A} (f : S -> outcome A) : M S A := fun s => (f s, s).
(** [v, err := m(); if err != nil { ... }] with the error inspected *)
Definition try {A} (m : M S A) : M S (error + A) := fun s =>
  match m s with
  | (Ok a, s') => (Ok (inr a), s')
  | (Err e, s') => (Ok (inl e), s')
  | (Panic w, s') => (Panic w, s')
  end.
(** [if err != nil { panic(pre + err.Error()) }], and [logger.Fatalf], which ends the process *)
Definition or_panic {A} (pre : string) (m : M S A) : M S A := fun s =>
  match m s with (Err e, s') => (Panic (pre +:+ e)%string, s') | r => r end.
Definition with_err {A} (E : error) (m : M S A) : M S A := fun s =>
  let '(o, s') := m s in (map_err E o, s').
(** [for _, x := range l { body }] *)
Fixpoint for_each {A} (body : A -> M S unit) (l : list A) : M S unit :=
  match l with
  | [] => mret tt
  | x :: l => body x ;; for_each body l
  end.
(** [m()] with its result and its error dropped *)
Definition ignore {A} (m : M S A) : M S unit := try m ;; mret tt.
Definition run {A} (m : M S A) (s : S) : S := (m s).2.
Definition result {A} (m : M S A) (s : S) : outcome A := (m s).1.
End monad.

(** Focus a computation on a part of the state. *)
Definition zoom {S T A} (g : S -> T) (p : T -> S -> S) (m : M T A) : M S A := fun s =>
  let '(o, t) := m (g s) in (o, p t s).

Lemma bind_eq {S A B} (m : M S A) (f : A -> M S B) s :
  (m ≫= f) s = match m s with
               | (Ok a, s') => f a s'
               | (Err e, s') => (Err e, s')
               | (Panic w, s') => (Panic w, s')
               end.
Proof. reflexivity. Qed.
Lemma ret_eq {S A} (a : A) (s : S) : (mret a : M S A) s = (Ok a, s).
Proof. reflexivity. Qed.
Lemma lift_eq {S A} (o : outcome A) (s : S) : lift o s = (o, s).
Proof. reflexivity. Qed.
Lemma gets_eq {S A} (f : S -> A) (s : S) : gets f s = (Ok (f s), s).
Proof. reflexivity. Qed.
Lemma run_bind_try {S A B} (m : M S A) (f : error + A -> M S B) s :
  run (try m ≫= f) s = match m s with
                       | (Ok a, s') => run (f (inr a)) s'
                       | (Err e, s') => run (f (inl e)) s'
                       | (Panic w, s') => s'
                       end.
Proof. unfold run. rewrite bind_eq. unfold try. by destruct (m s) as [[a|e|w] s']. Qed.
Lemma run_ignore {S A} (m : M S A) s : run (ignore m) s = run m s.
Proof. unfold ignore. rewrite run_bind_try. unfold run. by destruct (m s) as [[a|e|w] s']. Qed.
(** Run a monadic computation symbolically, one primitive at a time. *)
Ltac mstep := rewrite ?bind_eq, ?ret_eq, ?lift_eq, ?gets_eq; cbn beta iota.

Lemma NoDup_snoc {A} (l : list A) x : NoDup (l ++ [x]) <-> NoDup l /\ x ∉ l.
Proof.
  rewrite NoDup_app. split.
  - intros (Hl & Hx & _). split; [done|]. intros Hin. apply (Hx x Hin), list_elem_of_here.
  - intros [Hl Hx]. split_and!; [done| |apply NoDup_singleton].
    intros y Hy ->%list_elem_of_singleton. done.
Qed.
Lemma forallb_Forall {A} (f : A -> bool) l : forallb f l = true <-> Forall (fun x => f x = true) l.
Proof.
  induction l as [|x l IH]; cbn; [by split|]. by rewrite andb_true_iff, IH, Forall_cons.
Qed.
