(* ===== verification/GoLib.v ===== *)
(** * GoLib: the parts of Go's standard library the bridge uses
    ([strings], [encoding/hex], [math/big], [strconv]) as executable functions,
    and the interface of go-ethereum's [common]/[crypto]/[math] packages, which
    are not part of the repository: the class [EthLib] lists the functions the
    bridge calls, [EthLibLaws] their documented behaviour. *)
From S2P Require Export Prelude.

(** ** strings *)
Definition HasPrefix (s p : string) : bool := String.prefix p s.
Definition drop_string (n : nat) (s : string) : string :=
  String.substring n (String.length s - n) s.
Definition TrimPrefix (s p : string) : string :=
  if HasPrefix s p then drop_string (String.length p) s else s.
(** [strings.Contains] *)
Definition Contains (s sub : string) : bool :=
  match String.index 0 sub s with Some _ => true | None => false end.
Definition lower_ascii (c : byte) : byte :=
  let n := Ascii.nat_of_ascii c in
  if ((65 <=? n) && (n <=? 90))%nat then Ascii.ascii_of_nat (n + 32) else c.
Definition ToLower (s : string) : string :=
  string_of_bytes (lower_ascii <$> bytes_of_string s).

Lemma prefix_app p s : String.prefix p (p +:+ s) = true.
Proof.
  induction p as [|c p IH]; [by destruct s|]. simpl.
  destruct (Ascii.ascii_dec c c); [done|congruence].
Qed.
Lemma substring_all s : String.substring 0 (String.length s) s = s.
Proof. induction s as [|c s IH]; cbn; [done|]. by rewrite IH. Qed.
Lemma drop_string_app p s : drop_string (String.length p) (p +:+ s) = s.
Proof.
  unfold drop_string. induction p as [|c p IH]; cbn.
  - rewrite Nat.sub_0_r. apply substring_all.
  - exact IH.
Qed.
Lemma TrimPrefix_app p s : TrimPrefix (p +:+ s) p = s.
Proof. unfold TrimPrefix, HasPrefix. rewrite prefix_app. apply drop_string_app. Qed.
Lemma TrimPrefix_no s p : HasPrefix s p = false -> TrimPrefix s p = s.
Proof. unfold TrimPrefix. by intros ->. Qed.

(** ** Digits in a base: the common core of [big.Int.Bytes], [Text], [SetBytes],
    [SetString] and of [strconv] *)
Fixpoint digits_fuel (f : nat) (b n : Z) (acc : list Z) : list Z :=
  match f with
  | O => acc
  | S f => if n =? 0 then acc else digits_fuel f b (n / b) (n mod b :: acc)
  end.
Definition digits (b n : Z) : list Z := digits_fuel (S (Z.to_nat (Z.log2 n))) b n [].
Definition of_digits (b : Z) (l : list Z) : Z := foldl (fun a d => a * b + d) 0 l.
#[global] Arguments of_digits : simpl never.

Lemma of_digits_app b l d : of_digits b (l ++ [d]) = of_digits b l * b + d.
Proof. unfold of_digits. by rewrite foldl_app. Qed.

Lemma of_digits_acc b l a :
  foldl (fun a d => a * b + d) a l = a * b ^ Z.of_nat (length l) + of_digits b l.
Proof.
  unfold of_digits. revert a. induction l as [|d l IH] using rev_ind; intros a.
  - cbn. lia.
  - rewrite !foldl_app. cbn. rewrite IH, length_app. cbn.
    replace (Z.of_nat (length l + 1)) with (Z.of_nat (length l) + 1) by lia.
    rewrite Z.pow_add_r by lia. lia.
Qed.
Lemma of_digits_cons b d l :
  of_digits b (d :: l) = d * b ^ Z.of_nat (length l) + of_digits b l.
Proof. unfold of_digits at 1. cbn. rewrite of_digits_acc. lia. Qed.

Lemma div_log2 b n : 2 <= b -> 0 < n -> n / b = 0 \/ Z.log2 (n / b) < Z.log2 n.
Proof.
  intros Hb Hn. destruct (decide (n / b = 0)) as [|Hne]; [by left|right].
  assert (0 <= n / b) by (apply Z.div_pos; lia).
  assert (n / b * 2 <= n).
  { pose proof (Z.mul_div_le n b ltac:(lia)). nia. }
  apply Z.log2_lt_pow2; [lia|].
  pose proof (Z.log2_spec n ltac:(lia)) as [_ Hs].
  rewrite Z.pow_succ_r in Hs by apply Z.log2_nonneg. lia.
Qed.

Lemma digits_fuel_spec f b n acc :
  2 <= b -> 0 <= n -> (n = 0 \/ Z.log2 n < Z.of_nat f) ->
  of_digits b (digits_fuel f b n acc) = n * b ^ Z.of_nat (length acc) + of_digits b acc.
Proof.
  intros Hb. revert n acc. induction f as [|f IH]; intros n acc Hn Hf.
  - destruct Hf as [->|Hf]; [cbn; lia|]. pose proof (Z.log2_nonneg n). lia.
  - cbn. destruct (Z.eqb_spec n 0) as [->|Hne]; [lia|].
    rewrite IH; [| apply Z.div_pos; lia |].
    + rewrite of_digits_cons. cbn [length].
      rewrite Nat2Z.inj_succ, Z.pow_succ_r by lia.
      pose proof (Z.div_mod n b ltac:(lia)). nia.
    + pose proof (div_log2 b n Hb ltac:(lia)). lia.
Qed.

Lemma of_digits_digits b n : 2 <= b -> 0 <= n -> of_digits b (digits b n) = n.
Proof.
  intros Hb Hn. unfold digits. rewrite digits_fuel_spec; [change (of_digits b []) with 0; cbn; lia|lia|lia|].
  right. pose proof (Z.log2_nonneg n). lia.
Qed.

Lemma digits_fuel_range f b n acc :
  2 <= b -> 0 <= n -> Forall (fun d => 0 <= d < b) acc ->
  Forall (fun d => 0 <= d < b) (digits_fuel f b n acc).
Proof.
  intros Hb. revert n acc. induction f as [|f IH]; intros n acc Hn Ha; cbn; [done|].
  destruct (n =? 0); [done|]. apply IH; [apply Z.div_pos; lia|].
  constructor; [apply Z.mod_pos_bound; lia|done].
Qed.
Lemma digits_range b n : 2 <= b -> 0 <= n -> Forall (fun d => 0 <= d < b) (digits b n).
Proof. intros. apply digits_fuel_range; [done..|constructor]. Qed.

Lemma digits_fuel_length f b n acc k :
  2 <= b -> 0 <= n < b ^ Z.of_nat k -> (length (digits_fuel f b n acc) <= k + length acc)%nat.
Proof.
  intros Hb. revert n acc k. induction f as [|f IH]; intros n acc k Hn; cbn; [lia|].
  destruct (Z.eqb_spec n 0) as [->|Hne]; [lia|].
  destruct k as [|k]; [cbn in Hn; lia|].
  rewrite Nat2Z.inj_succ, Z.pow_succ_r in Hn by lia.
  etrans; [apply (IH _ _ k)|cbn; lia].
  split; [apply Z.div_pos; lia|]. apply Z.div_lt_upper_bound; lia.
Qed.
Lemma digits_length b n k :
  2 <= b -> 0 <= n < b ^ Z.of_nat k -> (length (digits b n) <= k)%nat.
Proof. intros Hb Hn. pose proof (digits_fuel_length (S (Z.to_nat (Z.log2 n))) b n [] k Hb Hn).
  cbn in *. unfold digits. cbn. lia. Qed.

Lemma of_digits_zeros b k l : of_digits b (replicate k 0 ++ l) = of_digits b l.
Proof. induction k as [|k IH]; [done|]. cbn. exact IH. Qed.

Lemma of_digits_bound b l :
  2 <= b -> Forall (fun d => 0 <= d < b) l -> 0 <= of_digits b l < b ^ Z.of_nat (length l).
Proof.
  intros Hb. induction l as [|d l IH]; intros Hl; [change (of_digits b []) with 0; cbn; lia|].
  apply Forall_cons in Hl as [Hd Hl]. rewrite of_digits_cons. cbn [length].
  rewrite Nat2Z.inj_succ, Z.pow_succ_r by lia. specialize (IH Hl). nia.
Qed.

(** Two digit strings of one length with one value are equal. *)
Lemma of_digits_inj b l1 l2 :
  2 <= b -> Forall (fun d => 0 <= d < b) l1 -> Forall (fun d => 0 <= d < b) l2 ->
  length l1 = length l2 -> of_digits b l1 = of_digits b l2 -> l1 = l2.
Proof.
  intros Hb. revert l2. induction l1 as [|d1 l1 IH]; intros [|d2 l2] H1 H2 Hlen E; try done.
  apply Forall_cons in H1 as [Hd1 H1], H2 as [Hd2 H2]. injection Hlen as Hlen.
  rewrite !of_digits_cons, Hlen in E.
  pose proof (of_digits_bound b l1 Hb H1) as B1. pose proof (of_digits_bound b l2 Hb H2) as B2.
  rewrite Hlen in B1. assert (d1 = d2) as -> by nia.
  f_equal. apply IH; [done..|lia].
Qed.

(** ** Bytes as numbers *)
Definition Z_of_byte (c : byte) : Z := Z.of_N (Ascii.N_of_ascii c).
(** [byte(n)]: the low 8 bits *)
Definition byte_of_Z (z : Z) : byte := Ascii.ascii_of_N (Z.to_N (wrap 8 z)).

Lemma Z_of_byte_range c : 0 <= Z_of_byte c < 256.
Proof. unfold Z_of_byte. pose proof (Ascii.N_ascii_bounded c). lia. Qed.
Lemma byte_of_Z_of_byte c : byte_of_Z (Z_of_byte c) = c.
Proof.
  unfold byte_of_Z. rewrite wrap_small by apply Z_of_byte_range.
  unfold Z_of_byte. rewrite N2Z.id. apply Ascii.ascii_N_embedding.
Qed.
Lemma Z_of_byte_of_Z z : Z_of_byte (byte_of_Z z) = wrap 8 z.
Proof.
  unfold Z_of_byte, byte_of_Z. pose proof (wrap_bounds 8 z ltac:(lia)).
  rewrite Ascii.N_ascii_embedding by lia. lia.
Qed.
#[global] Instance Z_of_byte_inj : Inj (=) (=) Z_of_byte.
Proof. intros a b H. by rewrite <-(byte_of_Z_of_byte a), H, byte_of_Z_of_byte. Qed.

Definition zero_byte : byte := Ascii.zero.
Definition zeros (n : nat) : bytes := replicate n zero_byte.

(** [big.Int.Bytes]: the absolute value, big-endian, no leading zero *)
Definition big_Bytes (n : Z) : bytes := byte_of_Z <$> digits 256 (Z.abs n).
(** [new(big.Int).SetBytes] *)
Definition big_SetBytes (b : bytes) : Z := of_digits 256 (Z_of_byte <$> b).
(** [big.Int.Uint64], [big.Int.Int64]: the low 64 bits *)
Definition big_Uint64 (n : Z) : Z := u64 (Z.abs n).
Definition big_Int64 (n : Z) : Z :=
  let v := i64 (Z.abs n) in if n <? 0 then i64 (- v) else v.

Lemma big_Int64_small n : 0 <= n < 2 ^ 63 -> big_Int64 n = n.
Proof.
  intros Hn. unfold big_Int64. rewrite (proj2 (Z.ltb_ge _ _)), Z.abs_eq by lia.
  apply swrap_small; lia.
Qed.

Lemma Z_of_byte_digits l :
  Forall (fun d => 0 <= d < 256) l -> Z_of_byte <$> (byte_of_Z <$> l) = l.
Proof.
  induction 1 as [|d l Hd Hl IH]; [done|]. rewrite !fmap_cons, IH.
  by rewrite Z_of_byte_of_Z, wrap_small.
Qed.
Lemma big_SetBytes_Bytes n : 0 <= n -> big_SetBytes (big_Bytes n) = n.
Proof.
  intros Hn. unfold big_SetBytes, big_Bytes. rewrite Z.abs_eq by done.
  rewrite Z_of_byte_digits by (apply digits_range; lia). by apply of_digits_digits.
Qed.
Lemma big_Bytes_length n k :
  0 <= n < 256 ^ Z.of_nat k -> (length (big_Bytes n) <= k)%nat.
Proof.
  intros. unfold big_Bytes. rewrite length_fmap, Z.abs_eq by lia. apply digits_length; lia.
Qed.
Lemma Z_of_byte_zeros k : Z_of_byte <$> zeros k = replicate k 0.
Proof. unfold zeros. by rewrite fmap_replicate. Qed.
Lemma big_SetBytes_zeros k b : big_SetBytes (zeros k ++ b) = big_SetBytes b.
Proof. unfold big_SetBytes. rewrite fmap_app, Z_of_byte_zeros. apply of_digits_zeros. Qed.
Lemma Z_of_bytes_range b : Forall (fun d => 0 <= d < 256) (Z_of_byte <$> b).
Proof. apply Forall_fmap, Forall_true. intros c. apply Z_of_byte_range. Qed.
Lemma big_SetBytes_bound b : 0 <= big_SetBytes b < 256 ^ Z.of_nat (length b).
Proof.
  unfold big_SetBytes. rewrite <-(length_fmap Z_of_byte b).
  apply of_digits_bound; [lia|apply Z_of_bytes_range].
Qed.
Lemma big_SetBytes_inj a b :
  length a = length b -> big_SetBytes a = big_SetBytes b -> a = b.
Proof.
  intros Hl He. apply (inj (fmap Z_of_byte)).
  apply (of_digits_inj 256); [lia|apply Z_of_bytes_range..| by rewrite !length_fmap|done].
Qed.

(** ** encoding/hex *)
Definition hexdigit (d : Z) : byte := byte_of_Z (if d <? 10 then 48 + d else 87 + d).
Definition hexval (c : byte) : option Z :=
  let n := Z_of_byte c in
  if (48 <=? n) && (n <=? 57) then Some (n - 48)
  else if (97 <=? n) && (n <=? 102) then Some (n - 87)
  else if (65 <=? n) && (n <=? 70) then Some (n - 55)
  else None.

(** [hex.EncodeToString]: two lower-case digits a byte *)
Fixpoint hex_bytes (b : bytes) : bytes :=
  match b with
  | [] => []
  | c :: b => hexdigit (Z_of_byte c / 16) :: hexdigit (Z_of_byte c mod 16) :: hex_bytes b
  end.
Definition hex_encode (b : bytes) : string := string_of_bytes (hex_bytes b).
Lemma ToLower_hex b : ToLower (hex_encode b) = hex_encode b.
Proof.
  unfold ToLower, hex_encode, bytes_of_string, string_of_bytes. rewrite list_ascii_of_string_of_list_ascii. f_equal.
  induction b as [|c b IH]; [done|]. cbn [hex_bytes]. rewrite !fmap_cons, IH.
  repeat f_equal; destruct c as [[] [] [] [] [] [] [] []]; reflexivity.
Qed.

(** [hex.DecodeString]: the bytes decoded before the first malformed digit, and
    whether the whole string was well formed ([err == nil]). *)
Fixpoint unhex_bytes (l : bytes) : bytes * bool :=
  match l with
  | [] => ([], true)
  | [_] => ([], false)
  | a :: b :: l =>
      match hexval a, hexval b with
      | Some x, Some y => let '(r, ok) := unhex_bytes l in (byte_of_Z (16 * x + y) :: r, ok)
      | _, _ => ([], false)
      end
  end.
Definition hex_decode (s : string) : bytes * bool := unhex_bytes (bytes_of_string s).

Lemma hexval_hexdigit d : 0 <= d < 16 -> hexval (hexdigit d) = Some d.
Proof.
  intros Hd. unfold hexval, hexdigit. rewrite Z_of_byte_of_Z.
  destruct (Z.ltb_spec d 10); rewrite wrap_small by lia.
  - replace (48 <=? 48 + d) with true by lia. replace (48 + d <=? 57) with true by lia.
    cbn. f_equal; lia.
  - replace (87 + d <=? 57) with false by lia. replace (97 <=? 87 + d) with true by lia.
    replace (87 + d <=? 102) with true by lia. rewrite andb_false_r. cbn. f_equal; lia.
Qed.

Lemma unhex_hex b : unhex_bytes (hex_bytes b) = (b, true).
Proof.
  induction b as [|c b IH]; [done|]. cbn [hex_bytes unhex_bytes].
  pose proof (Z_of_byte_range c) as Hc.
  rewrite !hexval_hexdigit by
    (first [apply Z.mod_pos_bound; lia
           | split; [apply Z.div_pos; lia | apply Z.div_lt_upper_bound; lia]]).
  rewrite IH. do 2 f_equal.
  replace (16 * (Z_of_byte c / 16) + Z_of_byte c mod 16) with (Z_of_byte c)
    by (apply Z.div_mod; lia).
  apply byte_of_Z_of_byte.
Qed.
Lemma hex_decode_encode b : hex_decode (hex_encode b) = (b, true).
Proof. unfold hex_decode, hex_encode. rewrite bytes_of_string_of_bytes. apply unhex_hex. Qed.
#[global] Instance hex_encode_inj : Inj (=) (=) hex_encode.
Proof.
  intros a b H. pose proof (hex_decode_encode a) as Ha.
  rewrite H, hex_decode_encode in Ha. congruence.
Qed.

(** The digits of [hex_encode] are never an [x]: a pure hex string has no prefix. *)
Lemma hexdigit_small d : 0 <= d < 16 -> In (hexdigit d) (bytes_of_string "0123456789abcdef").
Proof.
  intros Hd. assert (d = 0 \/ d = 1 \/ d = 2 \/ d = 3 \/ d = 4 \/ d = 5 \/ d = 6 \/ d = 7
    \/ d = 8 \/ d = 9 \/ d = 10 \/ d = 11 \/ d = 12 \/ d = 13 \/ d = 14 \/ d = 15) as H by lia.
  repeat destruct H as [->|H]; [vm_compute; tauto..|]. subst d. vm_compute. tauto.
Qed.
Lemma hex_encode_no_prefix b p :
  p = "0x"%string \/ p = "0X"%string -> HasPrefix (hex_encode b) p = false.
Proof.
  intros Hp. unfold hex_encode. destruct b as [|c b]; [by destruct Hp as [-> | ->]|].
  cbn [hex_bytes]. pose proof (Z_of_byte_range c) as Hc.
  pose proof (hexdigit_small (Z_of_byte c mod 16) ltac:(apply Z.mod_pos_bound; lia)) as Hin.
  generalize dependent (hexdigit (Z_of_byte c mod 16)). intros y Hin.
  generalize (hexdigit (Z_of_byte c / 16)). intros x. cbn in Hin.
  destruct Hp as [-> | ->]; unfold HasPrefix; simpl; (case_match; [|done]);
    repeat destruct Hin as [<-|Hin]; done.
Qed.
Lemma hex_bytes_length b : length (hex_bytes b) = (2 * length b)%nat.
Proof. induction b as [|c b IH]; cbn; lia. Qed.
Lemma hex_bytes_app a b : hex_bytes (a ++ b) = hex_bytes a ++ hex_bytes b.
Proof. induction a as [|c a IH]; [done|]. cbn. by rewrite IH. Qed.

(** ** strconv and [big.Int] text *)
Definition digit_text (b n : Z) : string :=
  if n =? 0 then "0"%string else string_of_bytes (hexdigit <$> digits b n).
(** [big.Int.Text(base)], [strconv.FormatInt(n, base)], for base at most 16 *)
Definition int_Text (b n : Z) : string :=
  if n <? 0 then ("-" +:+ digit_text b (- n))%string else digit_text b n.
Definition digits_of (b : Z) (s : string) : option (list Z) :=
  match bytes_of_string s with
  | [] => None
  | l => mapM (fun c => d ← hexval c; if d <? b then Some d else None) l
  end.
(** [strconv.ParseUint(s, 10, bits)] *)
Definition ParseUint (s : string) (bits : Z) : outcome Z :=
  match digits_of 10 s with
  | None => Err "strconv.ParseUint: invalid syntax"
  | Some l => if of_digits 10 l <? 2 ^ bits then Ok (of_digits 10 l)
              else Err "strconv.ParseUint: value out of range"
  end.
(** [new(big.Int).SetString(s, base)], for base at most 16 *)
Definition big_SetString (s : string) (b : Z) : option Z :=
  match s with
  | String "-"%char s => l ← digits_of b s; Some (- of_digits b l)
  | String "+"%char s => l ← digits_of b s; Some (of_digits b l)
  | _ => l ← digits_of b s; Some (of_digits b l)
  end.

(** [strconv.Atoi]: an optional sign and decimal digits, in the range of [int] *)
Definition Atoi (s : string) : outcome Z :=
  match big_SetString s 10 with
  | None => Err "strconv.Atoi: invalid syntax"
  | Some n => if (- 2 ^ 63 <=? n) && (n <? 2 ^ 63) then Ok n
              else Err "strconv.Atoi: value out of range"
  end.
(** [strings.TrimSpace], on ASCII: tab to carriage return, and space *)
Definition is_space (c : byte) : bool :=
  let n := Z_of_byte c in ((9 <=? n) && (n <=? 13)) || (n =? 32).
Fixpoint trim_left (b : bytes) : bytes :=
  match b with c :: b' => if is_space c then trim_left b' else b | [] => [] end.
Definition TrimSpace (s : string) : string :=
  string_of_bytes (rev (trim_left (rev (trim_left (bytes_of_string s))))).

Lemma digits_of_text b l :
  2 <= b <= 16 -> l <> [] -> Forall (fun d => 0 <= d < b) l ->
  digits_of b (string_of_bytes (hexdigit <$> l)) = Some l.
Proof.
  intros Hb Hne Hl. unfold digits_of. rewrite bytes_of_string_of_bytes.
  destruct l as [|d l]; [done|].
  assert (forall k, Forall (fun d => 0 <= d < b) k ->
    mapM (fun c => d ← hexval c; if d <? b then Some d else None) (hexdigit <$> k) = Some k)
    as Hk; [|exact (Hk (d :: l) Hl)].
  induction 1 as [|x k Hx Hk IH]; [done|]. rewrite fmap_cons. cbn.
  rewrite hexval_hexdigit by lia. cbn. replace (x <? b) with true by lia. cbn.
  by rewrite IH.
Qed.
Lemma digits_nonempty b n : 2 <= b -> 0 < n -> digits b n <> [].
Proof.
  intros Hb Hn E. pose proof (of_digits_digits b n Hb ltac:(lia)) as H.
  rewrite E in H. change (of_digits b []) with 0 in H. lia.
Qed.
Lemma digits_of_digit_text b n :
  2 <= b <= 16 -> 0 <= n -> exists l, digits_of b (digit_text b n) = Some l /\ of_digits b l = n.
Proof.
  intros Hb Hn. unfold digit_text. destruct (Z.eqb_spec n 0) as [->|Hne].
  - exists [0]. split; [|done]. change "0"%string with (string_of_bytes (hexdigit <$> [0])).
    apply digits_of_text; [done..|]. repeat constructor; lia.
  - exists (digits b n). split; [|apply of_digits_digits; lia].
    apply digits_of_text; [done|apply digits_nonempty; lia|apply digits_range; lia].
Qed.
Lemma hexdigits_no_prefix l p :
  Forall (fun d => 0 <= d < 16) l -> p = "0x"%string \/ p = "0X"%string ->
  HasPrefix (string_of_bytes (hexdigit <$> l)) p = false.
Proof.
  intros Hl Hp. destruct Hl as [|x l Hx Hl]; [by destruct Hp as [-> | ->]|].
  rewrite fmap_cons. generalize (hexdigit x). intros c. destruct Hl as [|y l Hy Hl].
  - unfold HasPrefix. destruct Hp as [-> | ->]; simpl; by case_match.
  - rewrite fmap_cons. pose proof (hexdigit_small y Hy) as Hin.
    generalize dependent (hexdigit y). intros d Hin. cbn in Hin.
    destruct Hp as [-> | ->]; unfold HasPrefix; simpl; (case_match; [|done]);
      repeat destruct Hin as [<-|Hin]; done.
Qed.
Lemma int_Text_no_prefix n p :
  0 <= n -> p = "0x"%string \/ p = "0X"%string -> HasPrefix (int_Text 16 n) p = false.
Proof.
  intros Hn Hp. unfold int_Text, digit_text. replace (n <? 0) with false by lia.
  case_match; [by destruct Hp as [-> | ->]|].
  apply hexdigits_no_prefix; [|done]. apply digits_range; lia.
Qed.
Lemma big_SetString_Text n : 0 <= n -> big_SetString (int_Text 16 n) 16 = Some n.
Proof.
  intros Hn. destruct (digits_of_digit_text 16 n) as (l & Hd & Ho); [lia..|].
  unfold int_Text. replace (n <? 0) with false by lia.
  assert (big_SetString (digit_text 16 n) 16 = l ← digits_of 16 (digit_text 16 n);
            Some (of_digits 16 l)) as ->; [|by rewrite Hd; cbn; rewrite Ho].
  clear Hd Ho. unfold digit_text. case_match eqn:E; [done|].
  pose proof (digits_range 16 n ltac:(lia) Hn) as Hr.
  destruct Hr as [|x k Hx Hk]; [done|]. rewrite fmap_cons.
  pose proof (hexdigit_small x Hx) as Hin. generalize dependent (hexdigit x). intros c Hin.
  cbn in Hin. repeat destruct Hin as [<-|Hin]; done.
Qed.
Lemma ParseUint_Text n bits :
  0 <= n < 2 ^ bits -> ParseUint (int_Text 10 n) bits = Ok n.
Proof.
  intros Hn. unfold int_Text, ParseUint. replace (n <? 0) with false by lia.
  destruct (digits_of_digit_text 10 n) as (l & -> & ->); [lia..|].
  by replace (n <? 2 ^ bits) with true by lia.
Qed.

(** ** go-ethereum *)
(** Fixed-size conversions pad with zeros, or crop, on the left. *)
Definition take_last {A} (n : nat) (l : list A) : list A := drop (length l - n) l.
Definition pad_crop (n : nat) (b : bytes) : bytes :=
  zeros (n - length b) ++ take_last n b.
Class EthLib := {
  (** [common.Bytes2Hex], [Hex2Bytes], [Hex2BytesFixed], [LeftPadBytes] *)
  Bytes2Hex : bytes -> string;
  Hex2Bytes : string -> bytes;
  Hex2BytesFixed : string -> nat -> bytes;
  LeftPadBytes : bytes -> nat -> bytes;
  (** [common.Hash.String], [BytesToHash], [HexToHash] *)
  HashString : bytes -> string;
  BytesToHash : bytes -> bytes;
  HexToHash : string -> bytes;
  (** [common.HexToAddress], [BytesToAddress] and [Address.Hex] (EIP-55) *)
  HexToAddress : string -> bytes;
  BytesToAddress : bytes -> bytes;
  AddressHex : bytes -> string;
  (** [crypto.Keccak256Hash], [math.U256Bytes] *)
  Keccak256Hash : bytes -> bytes;
  U256Bytes : Z -> bytes;
}.

Class EthLibLaws `{E : EthLib} : Prop := {
  Bytes2Hex_spec b : Bytes2Hex b = hex_encode b;
  Hex2Bytes_spec s b : hex_decode s = (b, true) -> Hex2Bytes s = b;
  Hex2BytesFixed_length s n : length (Hex2BytesFixed s n) = n;
  Hex2BytesFixed_spec s b n :
    hex_decode s = (b, true) -> (length b <= n)%nat ->
    Hex2BytesFixed s n = zeros (n - length b) ++ b;
  LeftPadBytes_spec b n : LeftPadBytes b n = zeros (n - length b) ++ b;
  HashString_spec h : HashString h = ("0x" +:+ hex_encode h)%string;
  BytesToHash_length b : length (BytesToHash b) = 32%nat;
  BytesToHash_spec b : (length b <= 32)%nat -> BytesToHash b = zeros (32 - length b) ++ b;
  HexToHash_length s : length (HexToHash s) = 32%nat;
  HexToHash_spec s b :
    hex_decode s = (b, true) -> (length b <= 32)%nat -> HexToHash s = zeros (32 - length b) ++ b;
  HexToAddress_length s : length (HexToAddress s) = 20%nat;
  HexToAddress_hex b : HexToAddress ("0x" +:+ hex_encode b) = pad_crop 20 b;
  HexToAddress_AddressHex a : length a = 20%nat -> HexToAddress (AddressHex a) = a;
  BytesToAddress_spec a : length a = 20%nat -> BytesToAddress a = a;
  Keccak256Hash_length b : length (Keccak256Hash b) = 32%nat;
  U256Bytes_spec n :
    U256Bytes n = zeros (32 - length (big_Bytes (n mod 2 ^ 256))) ++ big_Bytes (n mod 2 ^ 256);
}.

(** What [Hex2BytesFixed] does with a malformed string: it keeps the bytes that
    [hex.DecodeString] decoded before the error. Only the statements about malformed
    input assume it. *)
Class EthLibLenient `{E : EthLib} : Prop :=
  Hex2BytesFixed_lenient s n :
    (length (hex_decode s).1 <= n)%nat ->
    Hex2BytesFixed s n = zeros (n - length (hex_decode s).1) ++ (hex_decode s).1.

(** A concrete instance, used to evaluate the model on closed inputs. *)
Definition strip0x (s : string) : string := if HasPrefix s "0x" then drop_string 2 s else s.
#[global] Instance eth_model : EthLib := {|
  Bytes2Hex := hex_encode;
  Hex2Bytes s := (hex_decode s).1;
  Hex2BytesFixed s n := pad_crop n (hex_decode s).1;
  LeftPadBytes b n := zeros (n - length b) ++ b;
  HashString h := ("0x" +:+ hex_encode h)%string;
  BytesToHash := pad_crop 32;
  HexToHash s := pad_crop 32 (hex_decode (strip0x s)).1;
  HexToAddress s := pad_crop 20 (hex_decode (strip0x s)).1;
  BytesToAddress := pad_crop 20;
  AddressHex a := ("0x" +:+ hex_encode a)%string;
  Keccak256Hash b := pad_crop 32 (big_Bytes (1 + big_SetBytes b));
  U256Bytes n := zeros (32 - length (big_Bytes (n mod 2 ^ 256))) ++ big_Bytes (n mod 2 ^ 256);
|}.

Lemma pad_crop_length n b : length (pad_crop n b) = n.
Proof.
  unfold pad_crop, take_last, zeros. rewrite length_app, length_replicate, length_drop. lia.
Qed.
Lemma pad_crop_small n b : (length b <= n)%nat -> pad_crop n b = zeros (n - length b) ++ b.
Proof. intros. unfold pad_crop, take_last. by replace (length b - n)%nat with 0%nat by lia. Qed.
Lemma pad_crop_exact n b : length b = n -> pad_crop n b = b.
Proof. intros <-. rewrite pad_crop_small by lia. by rewrite Nat.sub_diag. Qed.

Lemma hex_decode_no_0x s b : hex_decode s = (b, true) -> HasPrefix s "0x" = false.
Proof.
  destruct s as [|c1 [|c2 s]]; [done|by cbn|]. intros H. unfold HasPrefix. simpl.
  repeat (case_match; [subst|done]). by cbn in H.
Qed.
Lemma strip0x_no s b : hex_decode s = (b, true) -> strip0x s = s.
Proof. intros H. unfold strip0x. by rewrite (hex_decode_no_0x _ _ H). Qed.
Lemma strip0x_hex b : (hex_decode (strip0x ("0x" +:+ hex_encode b))).1 = b.
Proof.
  unfold strip0x, HasPrefix. rewrite prefix_app.
  change 2%nat with (String.length "0x"). by rewrite drop_string_app, hex_decode_encode.
Qed.

#[global] Instance eth_model_laws : EthLibLaws.
Proof.
  split; cbn -[pad_crop hex_decode hex_encode big_Bytes]; intros.
  all: try apply pad_crop_length; try done.
  - by rewrite H.
  - rewrite H. by apply pad_crop_small.
  - by apply pad_crop_small.
  - rewrite (strip0x_no _ _ H), H. by apply pad_crop_small.
  - by rewrite (strip0x_hex b).
  - change (pad_crop 20 (hex_decode (strip0x ("0x" +:+ hex_encode a))).1 = a).
    rewrite strip0x_hex. by apply pad_crop_exact.
  - by apply pad_crop_exact.
Qed.
#[global] Instance eth_model_lenient : EthLibLenient.
Proof. intros s n H. by apply pad_crop_small. Qed.

#[export] Hint Rewrite @Bytes2Hex_spec @HashString_spec hex_decode_encode
  bytes_of_string_of_bytes string_of_bytes_of_string TrimPrefix_app : golib_rw.
