(* ===== verification/Common.v ===== *)
(** * Common: the package [common] (utils.go, abi.go, btc2evm_deposit.go,
    evm2btc_redeem.go, btcutils.go, constants.go).

    Conversions between byte arrays, hex strings and big integers, the packed
    encoding that is hashed and signed, and the OP_RETURN payload of a deposit.
    [[32]byte] arrays are byte lists; [length = 32] is their type invariant. *)
From S2P Require Export GoLib.

Section utils.
Context `{E : EthLib}.

(** [copy(a[:], b)] into a fresh array of [n] bytes *)
Definition copy_array (n : nat) (b : bytes) : bytes := take n b ++ zeros (n - length b).

Definition Trim0xPrefix (str : string) : string :=
  let s := TrimPrefix str "0x" in TrimPrefix s "0X".
Definition Prepend0xPrefix (str : string) : string :=
  if HasPrefix str "0x" || HasPrefix str "0X" then str else ("0x" +:+ str)%string.

Definition ByteSliceToPureHexStr (b : bytes) : string := Trim0xPrefix (Bytes2Hex b).
Definition HexStrToByteSlice (hexStr : string) : bytes := Hex2Bytes (Trim0xPrefix hexStr).
Definition HexStrToBytes32 (hexStr : string) : bytes :=
  copy_array 32 (Hex2BytesFixed (Trim0xPrefix hexStr) 32).
Definition HexStrToHash (hexStr : string) : bytes := HexToHash hexStr.
Definition Bytes32ToHexStr (bytes32 : bytes) : string := Bytes2Hex bytes32.
Definition ArrayHexStrToHashes (hexStrs : list string) : list bytes := HexStrToHash <$> hexStrs.
(** [nil] is [None] *)
Definition HexStrToBigInt (hexStr : string) : option Z := big_SetString (Trim0xPrefix hexStr) 16.

(** The conversion of a slice to [[32]byte] keeps the first 32 bytes, and panics on
    a shorter slice. *)
Definition to_array32 (b : bytes) : outcome bytes :=
  if (length b <? 32)%nat then Panic "cannot convert slice to array" else Ok (take 32 b).
Definition BigInt2Bytes32 (bigInt : Z) : outcome bytes :=
  to_array32 (LeftPadBytes (big_Bytes bigInt) 32).
Definition BigIntToHexStr (bigInt : Z) : string := Prepend0xPrefix (int_Text 16 bigInt).

(** [str[:n]] and [s[i:]] on Go strings *)
Definition slice_to (s : string) (n : Z) : outcome string :=
  if (0 <=? n) && (n <=? Z.of_nat (String.length s))
  then Ok (String.substring 0 (Z.to_nat n) s) else Panic "slice bounds out of range".
Definition slice_from (s : string) (n : Z) : outcome string :=
  if (0 <=? n) && (n <=? Z.of_nat (String.length s))
  then Ok (drop_string (Z.to_nat n) s) else Panic "slice bounds out of range".
Definition Shorten (hexStr : string) (n : Z) : outcome string :=
  let str := Trim0xPrefix hexStr in
  if Z.of_nat (String.length str) <=? n * 2 then Ok (Prepend0xPrefix str)
  else
    a ← slice_to str n;
    b ← slice_from hexStr (Z.of_nat (String.length str) - n);
    Ok (Prepend0xPrefix (a +:+ "..." +:+ b)%string).

(** [new(big.Int).Set(x)] dereferences [x]. *)
Definition BigIntClone (bigInt : option Z) : outcome Z :=
  match bigInt with Some n => Ok n | None => Panic "nil pointer dereference" end.

Fixpoint CompareSlices_loop (a b : bytes) : bool :=
  match a, b with
  | x :: a, y :: b => if negb (bool_decide (x = y)) then false else CompareSlices_loop a b
  | _, _ => true
  end.
Definition CompareSlices (a b : bytes) : bool :=
  if negb (length a =? length b)%nat then false else CompareSlices_loop a b.

Definition IsHexChar (c : byte) : bool :=
  match hexval c with Some _ => true | None => false end.
Definition EnsureSafeAddressHexString (hexStr : string) : bool :=
  if (String.length hexStr <? 2)%nat then false
  else if (100 <? String.length hexStr)%nat then false
  else
    let hexStr := if HasPrefix hexStr "0x" || HasPrefix hexStr "0X"
                  then drop_string 2 hexStr else hexStr in
    forallb IsHexChar (bytes_of_string hexStr).

(** constants.go, params.go *)
Definition EmptyHash : bytes := BytesToHash [].
Definition EthStartingBlock : Z := 1.
End utils.

(** ** abi.go *)
Inductive packed :=
  | PString (v : string)
  | PBytes (v : bytes)
  | PBytes32 (v : bytes)
  | PBytes32s (v : list bytes)
  | PStrings (v : list string)
  | PBigInt (v : Z)
  | PBigInts (v : list Z)
  | PHash (v : bytes)
  | PHashes (v : list bytes)
  | PAddress (v : bytes)
  | PAddresses (v : list bytes)
  | POther.   (** any other dynamic type: no case of the switch *)

Section abi.
Context `{E : EthLib}.

Definition encodeRawString (v : string) : bytes := bytes_of_string v.
(** [logger.Fatal] ends the process *)
Definition encodeHexString (v : string) : outcome bytes :=
  match hex_decode (TrimPrefix v "0x") with
  | (decoded, true) => Ok decoded
  | (_, false) => Panic "encoding/hex: malformed"
  end.
Definition encodeString (v : string) : outcome bytes :=
  if HasPrefix v "0x" then encodeHexString v else Ok (encodeRawString v).
Fixpoint joinM {A} (f : A -> outcome bytes) (l : list A) : outcome bytes :=
  match l with
  | [] => Ok []
  | x :: l => b ← f x; r ← joinM f l; Ok (b ++ r)
  end.
Definition encodeStringArray (arr : list string) : outcome bytes := joinM encodeString arr.
Definition encodeAddressArray (arr : list bytes) : outcome bytes :=
  joinM (fun v => encodeString (AddressHex v)) arr.
Definition encodeHashArray (arr : list bytes) : bytes := concat arr.
Definition encodeBytes32Array (arr : list bytes) : bytes := concat arr.
Definition encodeBigIntArray (arr : list Z) : bytes := concat (U256Bytes <$> arr).
Definition encode_value (v : packed) : outcome bytes :=
  match v with
  | PString v => encodeString v
  | PBytes v => Ok v
  | PBytes32 v => Ok v
  | PBytes32s v => Ok (encodeBytes32Array v)
  | PStrings v => encodeStringArray v
  | PBigInt v => Ok (U256Bytes v)
  | PBigInts v => Ok (encodeBigIntArray v)
  | PHash v => Ok v
  | PHashes v => Ok (encodeHashArray v)
  | PAddress v => encodeString (AddressHex v)
  | PAddresses v => encodeAddressArray v
  | POther => Ok []
  end.
Definition EncodePacked (values : list packed) : outcome bytes := joinM encode_value values.
End abi.

(** ** btc2evm_deposit.go: the OP_RETURN data of a deposit *)
Record DepositData := { EVM_CHAIN_ID : bytes; EVM_ADDR : bytes }.
#[global] Instance DepositData_eq_dec : EqDecision DepositData.
Proof. solve_decision. Defined.
(** The Go types [[4]byte] and [[20]byte] *)
Definition DepositData_wf (d : DepositData) : Prop :=
  length (EVM_CHAIN_ID d) = 4%nat /\ length (EVM_ADDR d) = 20%nat.

(** go-ethereum's [rlp] on [DepositData]: a list of a 4-byte and a 20-byte string
    takes 1 + 5 + 21 bytes. *)
Class RlpLib := {
  rlp_EncodeToBytes : DepositData -> bytes;
  rlp_DecodeBytes : bytes -> option DepositData;
}.
Class RlpLaws `{R : RlpLib} : Prop := {
  rlp_decode_encode d : DepositData_wf d -> rlp_DecodeBytes (rlp_EncodeToBytes d) = Some d;
  rlp_encode_length d : DepositData_wf d -> length (rlp_EncodeToBytes d) = 27%nat;
  rlp_decode_wf b d : rlp_DecodeBytes b = Some d -> DepositData_wf d;
}.
#[global] Instance rlp_model : RlpLib := {|
  rlp_EncodeToBytes d :=
    byte_of_Z 218 :: byte_of_Z 132 :: EVM_CHAIN_ID d ++ byte_of_Z 148 :: EVM_ADDR d;
  rlp_DecodeBytes b :=
    let d := {| EVM_CHAIN_ID := take 4 (drop 2 b); EVM_ADDR := drop 7 b |} in
    if bool_decide (length b = 27%nat) then Some d else None;
|}.
#[global] Instance rlp_model_laws : RlpLaws.
Proof.
  split; cbn -[take drop].
  - intros [c a] [Hc Ha]; cbn in *.
    rewrite bool_decide_eq_true_2 by (cbn; rewrite length_app; cbn; lia).
    do 2 f_equal; cbn.
    + change (take 4 (c ++ byte_of_Z 148 :: a) = c). by rewrite <-Hc, take_app_length.
    + change (drop 5 (c ++ byte_of_Z 148 :: a) = a).
      rewrite drop_app_ge by lia. by rewrite Hc.
  - intros [c a] [Hc Ha]; cbn in *. rewrite length_app. cbn. lia.
  - intros b d. case_bool_decide; [|done]. intros [= <-]. split; cbn.
    + rewrite length_take, length_drop. lia.
    + rewrite length_drop. lia.
Qed.

Section deposit.
Context `{E : EthLib, R : RlpLib}.

Definition DepositData_Serialize (dd : DepositData) : outcome bytes := Ok (rlp_EncodeToBytes dd).

(** [n] is a 64-bit [int] *)
Definition IntToByteArray (n : Z) : outcome bytes :=
  if (n <? 0) || (n >? 4294967295)
  then Err "integer overflow: value must be between 0 and 4294967295"
  else Ok [byte_of_Z (Z.land (Z.shiftr n 24) 255); byte_of_Z (Z.land (Z.shiftr n 16) 255);
           byte_of_Z (Z.land (Z.shiftr n 8) 255); byte_of_Z (Z.land n 255)].
Definition ByteArrayToInt (b : bytes) : Z :=
  let at_ i := Z_of_byte (default zero_byte (b !! i)) in
  Z.lor (Z.lor (Z.lor (Z.shiftl (at_ 0%nat) 24) (Z.shiftl (at_ 1%nat) 16))
               (Z.shiftl (at_ 2%nat) 8)) (at_ 3%nat).
Definition EvmAddrToByteArray (evm_addr : string) : outcome bytes :=
  let byteSlice := HexToAddress evm_addr in
  if negb (length byteSlice =? 20)%nat then Err "cannot convert to 20 bytes"
  else Ok (copy_array 20 byteSlice).
Definition ByteArrayToHexString (b : bytes) : string := AddressHex (BytesToAddress b).
Definition MakeDepositOpReturnData (evm_chain_id : Z) (evm_addr : string) : outcome bytes :=
  evmId ← IntToByteArray evm_chain_id;
  evmAddr ← EvmAddrToByteArray evm_addr;
  DepositData_Serialize {| EVM_CHAIN_ID := evmId; EVM_ADDR := evmAddr |}.
Definition DecodeOpReturnData (data : bytes) : outcome DepositData :=
  if (length data <? 2)%nat then Panic "slice bounds out of range"
  else match rlp_DecodeBytes (drop 2 data) with
       | Some dd => Ok dd
       | None => Err "rlp: decode error"
       end.
End deposit.

(** evm2btc_redeem.go *)
Definition RedeemData_Serialize (rd : bytes) : outcome bytes := Ok rd.
Definition MakeRedeemOpReturnData (rd : bytes) : outcome bytes := RedeemData_Serialize rd.

(** ** btcutils.go, over btcd's address and Schnorr libraries *)
Class SchnorrLib := {
  pubkey : Type; signature : Type;
  ParsePubKey : bytes -> option pubkey;
  ParseSignature : bytes -> option signature;
  SigVerify : signature -> bytes -> pubkey -> bool;
}.
Section verify.
Context `{E : EthLib, SL : SchnorrLib}.
Definition Verify (pub msg : bytes) (rx s : Z) : outcome bool :=
  RX ← BigInt2Bytes32 rx;
  S ← BigInt2Bytes32 s;
  match ParsePubKey (byte_of_Z 2 :: pub) with
  | None => Ok false
  | Some pubKey =>
      match ParseSignature (RX ++ S) with
      | None => Ok false
      | Some sig => Ok (SigVerify sig msg pubKey)
      end
  end.
End verify.

(** ** Lemmas *)
Section facts.
Context `{EL : EthLibLaws}.

Lemma Trim0xPrefix_hex b : Trim0xPrefix (hex_encode b) = hex_encode b.
Proof.
  unfold Trim0xPrefix. rewrite (TrimPrefix_no _ "0x") by (apply hex_encode_no_prefix; auto).
  apply TrimPrefix_no, hex_encode_no_prefix. auto.
Qed.
Lemma Trim0xPrefix_0x b : Trim0xPrefix ("0x" +:+ hex_encode b) = hex_encode b.
Proof.
  unfold Trim0xPrefix. rewrite TrimPrefix_app.
  apply TrimPrefix_no, hex_encode_no_prefix. auto.
Qed.
Lemma copy_array_exact n b : length b = n -> copy_array n b = b.
Proof.
  intros <-. unfold copy_array. rewrite Nat.sub_diag, firstn_all. apply app_nil_r.
Qed.
Lemma copy_array_length n b : length (copy_array n b) = n.
Proof. unfold copy_array, zeros. rewrite length_app, length_take, length_replicate. lia. Qed.
Lemma Hex2BytesFixed_hex b n : length b = n -> Hex2BytesFixed (hex_encode b) n = b.
Proof.
  intros <-. rewrite (Hex2BytesFixed_spec _ b) by (rewrite ?hex_decode_encode; done).
  by rewrite Nat.sub_diag.
Qed.
Lemma HexStrToBytes32_length s : length (HexStrToBytes32 s) = 32%nat.
Proof. apply copy_array_length. Qed.
Lemma HexStrToBytes32_hex h : length h = 32%nat -> HexStrToBytes32 (hex_encode h) = h.
Proof.
  intros Hh. unfold HexStrToBytes32.
  rewrite Trim0xPrefix_hex, Hex2BytesFixed_hex by done. by apply copy_array_exact.
Qed.
Lemma HexStrToBytes32_0x h :
  length h = 32%nat -> HexStrToBytes32 ("0x" +:+ hex_encode h) = h.
Proof.
  intros Hh. unfold HexStrToBytes32.
  rewrite Trim0xPrefix_0x, Hex2BytesFixed_hex by done. by apply copy_array_exact.
Qed.
Lemma ByteSliceToPureHexStr_eq b : ByteSliceToPureHexStr b = hex_encode b.
Proof. unfold ByteSliceToPureHexStr. rewrite Bytes2Hex_spec. apply Trim0xPrefix_hex. Qed.
Lemma HexStrToByteSlice_pure b : HexStrToByteSlice (ByteSliceToPureHexStr b) = b.
Proof.
  rewrite ByteSliceToPureHexStr_eq. unfold HexStrToByteSlice.
  rewrite Trim0xPrefix_hex. by apply Hex2Bytes_spec, hex_decode_encode.
Qed.
Lemma HexStrToByteSlice_hex b : HexStrToByteSlice (hex_encode b) = b.
Proof. rewrite <-ByteSliceToPureHexStr_eq. apply HexStrToByteSlice_pure. Qed.
Lemma HexToHash_hex h : length h = 32%nat -> HexToHash (hex_encode h) = h.
Proof.
  intros Hh. rewrite (HexToHash_spec _ h) by (rewrite ?hex_decode_encode; done || lia).
  by rewrite Hh.
Qed.
(** [h.String()[2:]] *)
Lemma HashString_drop h : drop_string 2 (HashString h) = hex_encode h.
Proof. rewrite HashString_spec. exact (drop_string_app "0x" _). Qed.
Lemma EmptyHash_zeros : EmptyHash = zeros 32.
Proof. unfold EmptyHash. rewrite BytesToHash_spec by (cbn; lia). by rewrite app_nil_r. Qed.

Lemma CompareSlices_loop_eq a b :
  length a = length b -> CompareSlices_loop a b = bool_decide (a = b).
Proof.
  revert b. induction a as [|x a IH]; intros [|y b] Hl; try done. cbn.
  injection Hl as Hl. case_bool_decide as Hx; cbn.
  - subst. rewrite IH by done. apply bool_decide_ext. naive_solver.
  - symmetry. apply bool_decide_eq_false_2. naive_solver.
Qed.
Lemma CompareSlices_eq a b : CompareSlices a b = bool_decide (a = b).
Proof.
  unfold CompareSlices. destruct (Nat.eqb_spec (length a) (length b)) as [H|H]; cbn.
  - by apply CompareSlices_loop_eq.
  - symmetry. apply bool_decide_eq_false_2. naive_solver.
Qed.

Lemma BigInt2Bytes32_ok n :
  0 <= n < 2 ^ 256 ->
  BigInt2Bytes32 n = Ok (zeros (32 - length (big_Bytes n)) ++ big_Bytes n).
Proof.
  intros Hn. pose proof (big_Bytes_length n 32 ltac:(exact Hn)) as Hl.
  unfold BigInt2Bytes32, to_array32. rewrite LeftPadBytes_spec.
  assert (length (zeros (32 - length (big_Bytes n)) ++ big_Bytes n) = 32%nat) as El.
  { unfold zeros. rewrite length_app, length_replicate. lia. }
  rewrite El. cbn [Nat.ltb Nat.leb]. f_equal. rewrite <-El at 1. apply firstn_all.
Qed.
Lemma BigInt2Bytes32_total n : exists b, BigInt2Bytes32 n = Ok b /\ length b = 32%nat.
Proof.
  unfold BigInt2Bytes32, to_array32. rewrite LeftPadBytes_spec.
  set (b := _ ++ _).
  assert (32 <= length b)%nat.
  { subst b. unfold zeros. rewrite length_app, length_replicate. lia. }
  destruct (Nat.ltb_spec (length b) 32); [lia|].
  eexists; split; [done|]. rewrite length_take. lia.
Qed.

Lemma U256Bytes_length n : length (U256Bytes n) = 32%nat.
Proof.
  rewrite U256Bytes_spec.
  pose proof (big_Bytes_length (n mod 2 ^ 256) 32 ltac:(apply Z.mod_pos_bound; lia)).
  unfold zeros. rewrite length_app, length_replicate. lia.
Qed.
Lemma U256Bytes_value n : big_SetBytes (U256Bytes n) = n mod 2 ^ 256.
Proof.
  rewrite U256Bytes_spec, big_SetBytes_zeros. apply big_SetBytes_Bytes.
  apply Z.mod_pos_bound. lia.
Qed.

Lemma lor_shift x k a : 0 <= k -> 0 <= a < 2 ^ k -> Z.lor (Z.shiftl x k) a = x * 2 ^ k + a.
Proof.
  intros Hk Ha. assert (Z.land (Z.shiftl x k) a = 0) as H0.
  { apply Z.bits_inj'. intros i Hi. rewrite Z.land_spec, Z.bits_0.
    destruct (decide (i < k)).
    - by rewrite Z.shiftl_spec_low.
    - rewrite <-(Z.mod_small a (2 ^ k)) by done.
      rewrite (Z.mod_pow2_bits_high a k i) by lia. apply andb_false_r. }
  rewrite <-Z.lxor_lor, <-Z.add_nocarry_lxor by done. by rewrite Z.shiftl_mul_pow2.
Qed.
Lemma byte_land z : byte_of_Z (Z.land z 255) = byte_of_Z z.
Proof.
  unfold byte_of_Z. change 255 with (Z.ones 8). rewrite Z.land_ones by lia.
  unfold wrap. by rewrite Zmod_mod.
Qed.

Lemma ByteArrayToInt_4 a b c d :
  ByteArrayToInt [a; b; c; d] =
  Z.lor (Z.lor (Z.lor (Z.shiftl (Z_of_byte a) 24) (Z.shiftl (Z_of_byte b) 16))
               (Z.shiftl (Z_of_byte c) 8)) (Z_of_byte d).
Proof. reflexivity. Qed.

Lemma IntToByteArray_cases n :
  if (0 <=? n) && (n <? 2 ^ 32)
  then exists b, IntToByteArray n = Ok b /\ length b = 4%nat /\ ByteArrayToInt b = n
  else IntToByteArray n =
       Err "integer overflow: value must be between 0 and 4294967295".
Proof.
  unfold IntToByteArray. destruct ((0 <=? n) && (n <? 2 ^ 32)) eqn:Hn.
  - replace ((n <? 0) || (n >? 4294967295)) with false by lia.
    eexists; split_and!; [done..|]. rewrite ByteArrayToInt_4, !byte_land, !Z_of_byte_of_Z. unfold wrap. rewrite !Z.shiftr_div_pow2 by lia.
    assert (forall z, 0 <= z mod 2 ^ 8 < 256) as Hb by (intros; apply Z.mod_pos_bound; lia).
    pose proof (Hb (n / 2 ^ 24)). pose proof (Hb (n / 2 ^ 16)).
    pose proof (Hb (n / 2 ^ 8)). pose proof (Hb n).
    rewrite <-!Z.lor_assoc.
    rewrite (lor_shift _ 8) by lia.
    rewrite (lor_shift _ 16) by lia.
    rewrite (lor_shift _ 24) by lia.
    Z.div_mod_to_equations. lia.
  - by replace ((n <? 0) || (n >? 4294967295)) with true by lia.
Qed.

(** On every 64-bit [int] the chain id of a deposit is either rejected with the
    overflow error, exactly when it is outside [0, 2^32), or encoded in four
    big-endian bytes that [ByteArrayToInt] decodes to the same number. *)
Theorem IntToByteArray_roundtrip n :
  if (0 <=? n) && (n <? 2 ^ 32)
  then exists b, IntToByteArray n = Ok b /\ length b = 4%nat /\ ByteArrayToInt b = n
  else IntToByteArray n =
       Err "integer overflow: value must be between 0 and 4294967295".
Proof. apply IntToByteArray_cases. Qed.

(** A 32-byte hash written as a hex string, with or without the [0x] prefix, is
    read back unchanged, and so is a byte slice. *)
Theorem hex_roundtrip h b :
  length h = 32%nat ->
  HexStrToBytes32 (Bytes32ToHexStr h) = h /\
  HexStrToBytes32 (HashString h) = h /\
  HexStrToByteSlice (ByteSliceToPureHexStr b) = b.
Proof.
  intros Hh. unfold Bytes32ToHexStr. rewrite Bytes2Hex_spec, HashString_spec.
  auto using HexStrToBytes32_hex, HexStrToBytes32_0x, HexStrToByteSlice_pure.
Qed.

(** C38: a big integer below 2^256 survives the conversion to [[32]byte] and back; from
    2^256 on the conversion keeps the wrong end of the number and loses it. *)
Theorem BigInt2Bytes32_roundtrip n :
  0 <= n ->
  exists b, BigInt2Bytes32 n = Ok b /\ length b = 32%nat /\
    (big_SetBytes b = n <-> n < 2 ^ 256).
Proof.
  intros Hn. destruct (decide (n < 2 ^ 256)) as [Hlt|Hge].
  - destruct (BigInt2Bytes32_total n) as (b & Hb & Hl). exists b. split_and!; [done..|].
    rewrite BigInt2Bytes32_ok in Hb by done. injection Hb as <-.
    rewrite big_SetBytes_zeros, big_SetBytes_Bytes by done. done.
  - destruct (BigInt2Bytes32_total n) as (b & Hb & Hl). exists b. split_and!; [done..|].
    pose proof (big_SetBytes_bound b) as Hbd. rewrite Hl in Hbd.
    change (256 ^ Z.of_nat 32) with (2 ^ 256) in Hbd. lia.
Qed.
End facts.

Lemma hex_roundtrip_witness :
  length (zeros 31 ++ [byte_of_Z 171]) = 32%nat /\
  HexStrToBytes32 (Bytes32ToHexStr (zeros 31 ++ [byte_of_Z 171])) = zeros 31 ++ [byte_of_Z 171].
Proof.
  split; [reflexivity|].
  exact (proj1 (hex_roundtrip (zeros 31 ++ [byte_of_Z 171]) [] eq_refl)).
Defined.
Lemma BigInt2Bytes32_roundtrip_witness :
  exists b, BigInt2Bytes32 1337 = Ok b /\ length b = 32%nat /\
    (big_SetBytes b = 1337 <-> 1337 < 2 ^ 256).
Proof. apply (BigInt2Bytes32_roundtrip 1337). lia. Defined.
