(* ===== verification/Agreement.v ===== *)
(** * Agreement: the types the components exchange (package [agreement], types.go).

    Events the chain synchronizers send to the state, the parameters of the [mint] and
    [prepare] calls with the hashes that are signed for them, and the status of a
    submitted transaction. A nil [*big.Int] is [None]; the parameters of a call are
    always built with a non-nil amount. *)
From S2P Require Export Common.

Definition ethcommon_Hash_zero : bytes := zeros 32.

Record MintedEvent := {
  me_MintTxHash : bytes; me_BtcTxId : bytes; me_Receiver : bytes; me_Amount : option Z }.
Record RedeemRequestedEvent := {
  rr_RequestTxHash : bytes; rr_Requester : bytes; rr_Receiver : string;
  rr_Amount : option Z; rr_IsValidReceiver : bool }.
Record RedeemPreparedEvent := {
  rp_RequestTxHash : bytes; rp_PrepareTxHash : bytes; rp_Requester : bytes;
  rp_Receiver : string; rp_Amount : option Z;
  rp_OutpointTxIds : list bytes; rp_OutpointIdxs : list Z }.
Record BtcOutpoint := { BtcTxId : bytes; BtcIdx : Z }.
Record JSONBtcOutpoint := { j_BtcTxId : string; j_BtcIdx : Z }.
Record SignatureRequest := {
  sr_Id : bytes; sr_SigningHash : bytes; sr_Outpoints : list BtcOutpoint;
  sr_Rx : option Z; sr_S : option Z }.

#[global] Instance BtcOutpoint_eq_dec : EqDecision BtcOutpoint.
Proof. solve_decision. Defined.
#[global] Instance RedeemRequestedEvent_eq_dec : EqDecision RedeemRequestedEvent.
Proof. solve_decision. Defined.
#[global] Instance RedeemPreparedEvent_eq_dec : EqDecision RedeemPreparedEvent.
Proof. solve_decision. Defined.
#[global] Instance MintedEvent_eq_dec : EqDecision MintedEvent.
Proof. solve_decision. Defined.

(** The Go type of an outpoint: [[32]byte] and [uint16] *)
Definition BtcOutpoint_wf (o : BtcOutpoint) : Prop :=
  length (BtcTxId o) = 32%nat /\ 0 <= BtcIdx o < 2 ^ 16.

Record MintParameter := { mp_BtcTxId : bytes; mp_Amount : Z; mp_Receiver : bytes }.
Record PrepareParameter := {
  pp_RequestTxHash : bytes; pp_Requester : bytes; pp_Receiver : string; pp_Amount : Z;
  pp_OutpointTxIds : list bytes; pp_OutpointIdxs : list Z;
  pp_Rx : option Z; pp_S : option Z }.

Section hashes.
Context `{E : EthLib}.

(** The message that [GenerateMsgHash] hashes *)
Definition mint_packed (params : MintParameter) : outcome bytes :=
  EncodePacked [PHash (mp_BtcTxId params); PBytes (mp_Receiver params);
                PBigInt (mp_Amount params)].
Definition MintParameter_GenerateMsgHash (params : MintParameter) : outcome bytes :=
  Keccak256Hash <$> mint_packed params.

(** [big.NewInt(int64(idx))] of each index *)
Definition prepare_packed (p : PrepareParameter) : outcome bytes :=
  let outpointIdxs := (fun idx => i64 idx) <$> pp_OutpointIdxs p in
  EncodePacked [PHash (pp_RequestTxHash p); PBytes (pp_Requester p);
                PString (pp_Receiver p); PBigInt (pp_Amount p);
                PHashes (pp_OutpointTxIds p); PBigInts outpointIdxs].
Definition PrepareParameter_GenerateMsgHash (p : PrepareParameter) : outcome bytes :=
  Keccak256Hash <$> prepare_packed p.
End hashes.

Definition ConvertOutpoints (bop : list BtcOutpoint) : list bytes * list Z :=
  (BtcTxId <$> bop, BtcIdx <$> bop).

(** [type MonitoredTxStatus string] *)
Abbreviation MonitoredTxStatus := string (only parsing).
Definition MalForm : MonitoredTxStatus := "malform".
Definition Limbo : MonitoredTxStatus := "limbo".
Definition Pending : MonitoredTxStatus := "pending".
Definition Success : MonitoredTxStatus := "success".
Definition Reverted : MonitoredTxStatus := "reverted".
Definition Timeout : MonitoredTxStatus := "timeout".
Definition Reorg : MonitoredTxStatus := "reorg".

Fixpoint UtilContains (slice : list MonitoredTxStatus) (item : MonitoredTxStatus) : bool :=
  match slice with
  | [] => false
  | v :: slice => if String.eqb v item then true else UtilContains slice item
  end.

Lemma UtilContains_spec l x : UtilContains l x = true <-> x ∈ l.
Proof.
  induction l as [|v l IH]; cbn.
  - by rewrite elem_of_nil.
  - rewrite elem_of_cons. destruct (String.eqb_spec v x) as [->|]; [intuition|]. rewrite IH. intuition congruence.
Qed.

(** ** What the signed message determines *)
Definition PrepareParameter_wf (p : PrepareParameter) : Prop :=
  length (pp_RequestTxHash p) = 32%nat /\ 0 <= pp_Amount p < 2 ^ 256 /\
  Forall (fun h => length h = 32%nat) (pp_OutpointTxIds p) /\
  Forall (fun i => 0 <= i < 2 ^ 16) (pp_OutpointIdxs p) /\
  length (pp_OutpointTxIds p) = length (pp_OutpointIdxs p).
(** the fields the call to the contract carries besides the signature *)
Definition PrepareParameter_content (p : PrepareParameter) :=
  (pp_RequestTxHash p, pp_Requester p, pp_Receiver p, pp_Amount p,
   pp_OutpointTxIds p, pp_OutpointIdxs p).

Section facts.
Context `{EL : EthLibLaws}.

Lemma mint_packed_eq p :
  mint_packed p = Ok (mp_BtcTxId p ++ mp_Receiver p ++ U256Bytes (mp_Amount p)).
Proof. unfold mint_packed, EncodePacked. cbn. by rewrite app_nil_r. Qed.

Lemma encodeString_raw s : HasPrefix s "0x" = false -> encodeString s = Ok (bytes_of_string s).
Proof. intros H. unfold encodeString. by rewrite H. Qed.

Lemma prepare_packed_eq p :
  HasPrefix (pp_Receiver p) "0x" = false ->
  prepare_packed p =
  Ok (pp_RequestTxHash p ++ pp_Requester p ++ bytes_of_string (pp_Receiver p) ++
      U256Bytes (pp_Amount p) ++ concat (pp_OutpointTxIds p) ++
      concat (U256Bytes <$> (i64 <$> pp_OutpointIdxs p))).
Proof.
  intros H. unfold prepare_packed, EncodePacked. cbn. rewrite encodeString_raw by done.
  cbn. by rewrite app_nil_r.
Qed.

(** it can be packed as soon as its receiver can *)
Lemma prepare_packed_ok p : is_ok (encodeString (pp_Receiver p)) = true -> exists b, prepare_packed p = Ok b.
Proof.
  intros H. unfold prepare_packed, EncodePacked. cbn. destruct (encodeString (pp_Receiver p)) as [b|e|w]; [|done..].
  cbn. by eexists.
Qed.
Lemma U256Bytes_inj a b :
  0 <= a < 2 ^ 256 -> 0 <= b < 2 ^ 256 -> U256Bytes a = U256Bytes b -> a = b.
Proof.
  intros Ha Hb H. apply (f_equal big_SetBytes) in H. rewrite !U256Bytes_value in H.
  by rewrite !Z.mod_small in H.
Qed.
Lemma i64_idx i : 0 <= i < 2 ^ 16 -> i64 i = i.
Proof. intros. apply swrap_small; lia. Qed.

Lemma concat_length k (l : list bytes) :
  Forall (fun h => length h = k) l -> length (concat l) = (k * length l)%nat.
Proof. induction 1; cbn; [lia|]. rewrite length_app. lia. Qed.
Lemma concat_inj k (l1 l2 : list bytes) :
  Forall (fun h => length h = k) l1 -> Forall (fun h => length h = k) l2 ->
  length l1 = length l2 -> concat l1 = concat l2 -> l1 = l2.
Proof.
  intros H1. revert l2. induction H1 as [|x l1 Hx H1 IH]; intros [|y l2] H2 Hl Hc; try done.
  cbn in Hc. apply app_inj_1 in Hc as [-> Hc].
  - f_equal. apply IH; [by inversion H2|by injection Hl|done].
  - inversion H2. congruence.
Qed.

Lemma idxs_length l :
  length (concat (U256Bytes <$> (i64 <$> l))) = (32 * length l)%nat.
Proof.
  rewrite (concat_length 32), !length_fmap; [done|].
  rewrite Forall_fmap. apply Forall_true. intros. apply U256Bytes_length.
Qed.
Lemma idxs_inj l1 l2 :
  Forall (fun i => 0 <= i < 2 ^ 16) l1 -> Forall (fun i => 0 <= i < 2 ^ 16) l2 ->
  length l1 = length l2 ->
  concat (U256Bytes <$> (i64 <$> l1)) = concat (U256Bytes <$> (i64 <$> l2)) -> l1 = l2.
Proof.
  intros H1. revert l2. induction H1 as [|x l1 Hx H1 IH]; intros [|y l2] H2 Hl Hc; try done.
  apply Forall_cons in H2 as [Hy H2]. cbn in Hc.
  apply app_inj_1 in Hc as [Hu Hc]; [|by rewrite !U256Bytes_length].
  rewrite !i64_idx in Hu by done. apply U256Bytes_inj in Hu as ->; [|lia..].
  f_equal. apply IH; [done|by injection Hl|done].
Qed.

(** Two mint requests with the same message hash carry the same Bitcoin
    transaction, receiver and amount, unless their packed messages are a collision
    of the hash: a signature cannot be replayed for another mint. *)
Theorem mint_hash_binds p q :
  length (mp_BtcTxId p) = 32%nat -> length (mp_BtcTxId q) = 32%nat ->
  0 <= mp_Amount p < 2 ^ 256 -> 0 <= mp_Amount q < 2 ^ 256 ->
  MintParameter_GenerateMsgHash p = MintParameter_GenerateMsgHash q ->
  p = q \/
  exists a b, mint_packed p = Ok a /\ mint_packed q = Ok b /\ a <> b /\
              Keccak256Hash a = Keccak256Hash b.
Proof.
  intros Hp Hq Ap Aq. unfold MintParameter_GenerateMsgHash. rewrite !mint_packed_eq.
  set (a := mp_BtcTxId p ++ _). set (b := mp_BtcTxId q ++ _). cbn. intros [= Hk].
  destruct (decide (a = b)) as [Hab|]; [left|right; by eauto 6]. subst a b.
  apply app_inj_1 in Hab as [E1 Hab]; [|congruence].
  apply app_inj_2 in Hab as [E2 E3]; [|by rewrite !U256Bytes_length].
  apply U256Bytes_inj in E3; [|done..]. destruct p, q; cbn in *. congruence.
Qed.

(** Two prepare requests with the same message hash, requesters of the same kind
    (20-byte EVM or 32-byte Aptos address) and the same number of outpoints, have
    the same content, unless their packed messages are a collision of the hash. The
    receivers are Bitcoin addresses, which do not start with [0x]. *)
Theorem prepare_hash_binds p q :
  PrepareParameter_wf p -> PrepareParameter_wf q ->
  HasPrefix (pp_Receiver p) "0x" = false -> HasPrefix (pp_Receiver q) "0x" = false ->
  length (pp_Requester p) = length (pp_Requester q) ->
  length (pp_OutpointTxIds p) = length (pp_OutpointTxIds q) ->
  PrepareParameter_GenerateMsgHash p = PrepareParameter_GenerateMsgHash q ->
  PrepareParameter_content p = PrepareParameter_content q \/
  exists a b, prepare_packed p = Ok a /\ prepare_packed q = Ok b /\ a <> b /\
              Keccak256Hash a = Keccak256Hash b.
Proof.
  intros (Hr1 & Ha1 & Ht1 & Hi1 & Hl1) (Hr2 & Ha2 & Ht2 & Hi2 & Hl2) P1 P2 Hreq Hn.
  unfold PrepareParameter_GenerateMsgHash. rewrite !prepare_packed_eq by done.
  set (a := pp_RequestTxHash p ++ _). set (b := pp_RequestTxHash q ++ _).
  cbn. intros [= Hk]. destruct (decide (a = b)) as [Hab|]; [left|right; by eauto 6].
  subst a b. apply app_inj_1 in Hab as [E1 Hab]; [|congruence].
  apply app_inj_1 in Hab as [E2 Hab]; [|done].
  apply app_inj_2 in Hab as [E3 Hab].
  2: { rewrite !length_app, !U256Bytes_length, !idxs_length.
     rewrite (concat_length 32 (pp_OutpointTxIds p)) by done.
     rewrite (concat_length 32 (pp_OutpointTxIds q)) by done. lia. }
  apply app_inj_1 in Hab as [E4 Hab]; [|by rewrite !U256Bytes_length].
  apply app_inj_1 in Hab as [E5 E6]; [|by rewrite !(concat_length 32), Hn].
  apply U256Bytes_inj in E4; [|done..]. apply concat_inj with (k := 32%nat) in E5; [|done..].
  apply idxs_inj in E6; [|done..|congruence]. apply (inj bytes_of_string) in E3.
  unfold PrepareParameter_content. congruence.
Qed.
End facts.

Definition sample_hash (n : Z) : bytes := zeros 31 ++ [byte_of_Z n].
Definition sample_prepare : PrepareParameter := {|
  pp_RequestTxHash := sample_hash 1; pp_Requester := replicate 20 (byte_of_Z 7);
  pp_Receiver := "bc1q"; pp_Amount := 100; pp_OutpointTxIds := [sample_hash 2];
  pp_OutpointIdxs := [0]; pp_Rx := None; pp_S := None |}.

Lemma mint_hash_binds_witness :
  let p := {| mp_BtcTxId := sample_hash 1; mp_Amount := 5; mp_Receiver := [] |} in
  MintParameter_GenerateMsgHash p = MintParameter_GenerateMsgHash p /\
  (p = p \/ exists a b, mint_packed p = Ok a /\ mint_packed p = Ok b /\ a <> b /\
                        Keccak256Hash a = Keccak256Hash b).
Proof.
  intros p. split; [reflexivity|].
  apply (mint_hash_binds p p); solve [reflexivity | cbn; lia].
Defined.

Lemma sample_prepare_wf : PrepareParameter_wf sample_prepare.
Proof. split_and!; [reflexivity|cbn; lia..| | |reflexivity]; repeat constructor; cbn; lia. Qed.
Lemma prepare_hash_binds_witness :
  PrepareParameter_content sample_prepare = PrepareParameter_content sample_prepare \/
  exists a b, prepare_packed sample_prepare = Ok a /\ prepare_packed sample_prepare = Ok b /\
              a <> b /\ Keccak256Hash a = Keccak256Hash b.
Proof.
  apply (prepare_hash_binds sample_prepare sample_prepare);
    first [apply sample_prepare_wf | reflexivity].
Defined.

(** Without the fixed requester length the packed message is ambiguous: the boundary
    between [Requester] and [Receiver] is not encoded. *)
Lemma prepare_hash_ambiguous `{EthLib} :
  exists p q, PrepareParameter_wf p /\ PrepareParameter_wf q /\
    PrepareParameter_content p <> PrepareParameter_content q /\
    length (pp_Requester p) = 20%nat /\ length (pp_Requester q) = 32%nat /\
    PrepareParameter_GenerateMsgHash p = PrepareParameter_GenerateMsgHash q.
Proof.
  pose (mk req recv := {|
    pp_RequestTxHash := sample_hash 1; pp_Requester := req; pp_Receiver := recv;
    pp_Amount := 100; pp_OutpointTxIds := [sample_hash 2]; pp_OutpointIdxs := [0];
    pp_Rx := None; pp_S := None |}).
  exists (mk (replicate 20 (byte_of_Z 7)) "bc1qaaaaaaaabbbb"%string),
         (mk (replicate 20 (byte_of_Z 7) ++ bytes_of_string "bc1qaaaaaaaa") "bbbb"%string).
  split_and!; try done;
    try (split_and!; [reflexivity|cbn; lia..| | |reflexivity]; repeat constructor; cbn; lia).
Qed.

(** A receiver that starts with [0x] and is not hex stops the process. *)
Lemma prepare_hash_fatal `{EthLib} :
  PrepareParameter_GenerateMsgHash
    {| pp_RequestTxHash := sample_hash 1; pp_Requester := []; pp_Receiver := "0xzz";
       pp_Amount := 100; pp_OutpointTxIds := []; pp_OutpointIdxs := [];
       pp_Rx := None; pp_S := None |} = Panic "encoding/hex: malformed".
Proof. reflexivity. Qed.
