(* ===== verification/Database.v ===== *)
(** * Database: the statement cache (database/stmtcache.go) and what the components rely
    on of [database/sql] over SQLite.

    A table is the list of its rows in insertion (rowid) order. A write statement builds
    the table it would leave and commits it when every constraint of the schema holds,
    and fails with the table unchanged otherwise. Errors of the driver (I/O, a closed
    database) are the function [fault] of the statement's text. *)
From S2P Require Export Agreement.

(** ** The statement cache *)
Section stmtcache.
Context {Stmt : Type}.

(** [m] maps a query to its prepared statement; [db_Prepare] is the driver's. *)
Record StmtCache := { db_Prepare : string -> outcome Stmt; sc_m : gmap string Stmt }.
Definition NewStmtCache (db : string -> outcome Stmt) : StmtCache :=
  {| db_Prepare := db; sc_m := empty |}.
Definition StmtCache_Prepare (query : string) : M StmtCache Stmt := fun sc =>
  match sc_m sc !! query with
  | Some cached => (Ok cached, sc)
  | None =>
      match db_Prepare sc query with
      | Ok stmt => (Ok stmt, {| db_Prepare := db_Prepare sc; sc_m := <[query := stmt]> (sc_m sc) |})
      | o => (o, sc)
      end
  end.
Definition StmtCache_Clear : M StmtCache unit :=
  modify (fun sc => {| db_Prepare := db_Prepare sc; sc_m := empty |}).

(** every cached statement is the one the driver prepares for its query *)
Definition StmtCache_coherent (sc : StmtCache) : Prop :=
  map_Forall (fun q s => db_Prepare sc q = Ok s) (sc_m sc).

Lemma NewStmtCache_coherent db : StmtCache_coherent (NewStmtCache db).
Proof. apply map_Forall_empty. Qed.

(** The cache is transparent: on a coherent cache [Prepare] answers what the driver
    answers, never caches a failure, keeps the cache coherent and only ever adds the
    query it was asked for; clearing keeps coherence. *)
Theorem StmtCache_transparent sc q :
  StmtCache_coherent sc ->
  let '(o, sc') := StmtCache_Prepare q sc in
  o = db_Prepare sc q /\ StmtCache_coherent sc' /\ db_Prepare sc' = db_Prepare sc /\
  (forall s, sc_m sc' !! q = Some s <-> o = Ok s) /\
  (forall q', q' <> q -> sc_m sc' !! q' = sc_m sc !! q') /\
  StmtCache_coherent (run StmtCache_Clear sc').
Proof.
  intros Hc. unfold StmtCache_Prepare. destruct (sc_m sc !! q) as [s|] eqn:Hq.
  - pose proof (Hc _ _ Hq) as Hs. rewrite Hs. split_and!; try done.
    intros s'. rewrite Hq. split; congruence.
  - assert (forall o : outcome Stmt, db_Prepare sc q = o -> (forall s, o <> Ok s) ->
      o = o /\ StmtCache_coherent sc /\ db_Prepare sc = db_Prepare sc /\
      (forall s, sc_m sc !! q = Some s <-> o = Ok s) /\
      (forall q', q' <> q -> sc_m sc !! q' = sc_m sc !! q') /\
      StmtCache_coherent (run StmtCache_Clear sc)) as Hfail.
    { intros o _ Ho. split_and!; try done.
      intros s. rewrite Hq. split; [done|]. intros ->. by destruct (Ho s). }
    destruct (db_Prepare sc q) as [s|e|w] eqn:Hs; [|by apply Hfail..].
    split_and!; cbn; try done.
    + by apply map_Forall_insert_2.
    + intros s'. rewrite lookup_insert_eq. split; congruence.
    + intros q' Hne. by rewrite lookup_insert_ne.
Qed.
End stmtcache.
Arguments StmtCache Stmt : clear implicits.

Definition sample_driver (q : string) : outcome nat :=
  if String.eqb q "SELECT 1" then Ok 1%nat else Err "syntax error".
Lemma StmtCache_transparent_witness :
  StmtCache_coherent (NewStmtCache sample_driver) /\
  (StmtCache_Prepare "SELECT 1" (NewStmtCache sample_driver)).1 = sample_driver "SELECT 1".
Proof.
  split; [apply NewStmtCache_coherent|].
  exact (proj1 (StmtCache_transparent (NewStmtCache sample_driver) "SELECT 1"
                  (NewStmtCache_coherent sample_driver))).
Defined.

(** ** Executing statements *)
Inductive phase := Preparing | Executing.
Abbreviation faults := (phase -> string -> option error).
Definition no_faults : faults := fun _ _ => None.

Section exec.
Context {S : Type}.
(** the driver's error for this statement in this phase, if any *)
Definition may_fail (f : S -> faults) (p : phase) (q : string) : M S unit := fun s =>
  match f s p q with Some e => (Err e, s) | None => (Ok tt, s) end.
End exec.

(** [database/sql] refuses an argument of type uint64 with its high bit set. *)
Definition bind_uint64 (n : Z) : outcome Z :=
  if n <? 2 ^ 63 then Ok n else Err "uint64 values with high bit set are not supported".

(** ** UNIQUE columns and rows found by a key *)
Definition nodupb {A} `{EqDecision A} (l : list A) : bool := bool_decide (NoDup l).
Section rows.
Context {R K : Type} `{EqDecision K}.
Variable key : R -> K.
Definition find_row (t : list R) (k : K) : option R :=
  list_find (fun r => key r = k) t ≫= fun p => Some p.2.
(** [UPDATE t SET ... WHERE key = k] *)
Definition update_rows (t : list R) (k : K) (f : R -> R) : list R :=
  (fun r => if decide (key r = k) then f r else r) <$> t.

Lemma find_row_None t k : find_row t k = None <-> k ∉ key <$> t.
Proof.
  unfold find_row. destruct (list_find _ t) as [[i r]|] eqn:Hf; cbn.
  - split; [done|]. intros Hn. exfalso. apply Hn.
    apply list_find_Some in Hf as (Hl & <- & _). apply list_elem_of_fmap.
    exists r. split; [done|]. by eapply list_elem_of_lookup_2.
  - apply list_find_None in Hf. split; [|done]. intros _ (r & -> & Hr)%list_elem_of_fmap.
    rewrite Forall_forall in Hf. by apply (Hf r).
Qed.
Lemma find_row_Some t k r : find_row t k = Some r -> r ∈ t /\ key r = k.
Proof.
  unfold find_row. destruct (list_find _ t) as [[i r']|] eqn:Hf; cbn; [|done].
  intros [= ->]. apply list_find_Some in Hf as (Hl & Hk & _). split; [|done].
  by eapply list_elem_of_lookup_2.
Qed.
Lemma find_row_elem t r :
  NoDup (key <$> t) -> r ∈ t -> find_row t (key r) = Some r.
Proof.
  intros Hn Hr. destruct (find_row t (key r)) as [r'|] eqn:Hf.
  - apply find_row_Some in Hf as [Hr' Hk]. f_equal.
    apply list_elem_of_lookup in Hr as [i Hi]. apply list_elem_of_lookup in Hr' as [j Hj].
    assert (i = j) as ->; [|congruence].
    eapply (NoDup_lookup _ _ _ (key r) Hn); rewrite list_lookup_fmap.
    + by rewrite Hi.
    + rewrite Hj. cbn. by rewrite Hk.
  - apply find_row_None in Hf. exfalso. apply Hf, list_elem_of_fmap. eauto.
Qed.
Lemma find_row_cons r t k :
  find_row (r :: t) k = if decide (key r = k) then Some r else find_row t k.
Proof.
  unfold find_row. cbn. destruct (decide (key r = k)) as [Hk|Hk]; [done|].
  by destruct (list_find _ t) as [[i r']|].
Qed.
Lemma find_row_app t1 t2 k :
  find_row (t1 ++ t2) k =
  match find_row t1 k with Some r => Some r | None => find_row t2 k end.
Proof.
  induction t1 as [|r t1 IH]; [done|]. cbn [app]. rewrite !find_row_cons.
  by destruct (decide (key r = k)).
Qed.

Section update.
Variable f : R -> R.
Hypothesis f_key : forall r, key (f r) = key r.
Lemma update_rows_keys t k : key <$> update_rows t k f = key <$> t.
Proof.
  unfold update_rows. rewrite <-list_fmap_compose. apply list_fmap_ext.
  intros i r _. cbn. by destruct (decide (key r = k)); rewrite ?f_key.
Qed.
Lemma find_row_update t k k' :
  find_row (update_rows t k f) k' =
  (if decide (k' = k) then f <$> find_row t k' else find_row t k').
Proof.
  induction t as [|r t IH]; [by destruct (decide (k' = k))|].
  change (update_rows (r :: t) k f) with
    ((if decide (key r = k) then f r else r) :: update_rows t k f).
  rewrite !find_row_cons, IH.
  destruct (decide (key r = k)) as [Hr|Hr]; rewrite ?f_key;
    destruct (decide (key r = k')) as [Hr'|Hr']; destruct (decide (k' = k)); try done; congruence.
Qed.
End update.
Lemma update_rows_notin t k f : k ∉ key <$> t -> update_rows t k f = t.
Proof.
  intros Hk. unfold update_rows. rewrite <-(list_fmap_id t) at 2.
  apply list_fmap_ext. intros i r Hr. cbn.
  destruct (decide (key r = k)) as [<-|]; [|done]. exfalso. apply Hk, list_elem_of_fmap.
  exists r. split; [done|]. by eapply list_elem_of_lookup_2.
Qed.
Lemma update_rows_app t1 t2 k f :
  update_rows (t1 ++ t2) k f = update_rows t1 k f ++ update_rows t2 k f.
Proof. apply fmap_app. Qed.
End rows.

(** ** Invariants of stateful code *)
(** A computation keeps a property of the state whatever its outcome. *)
Definition keeps {S A} (P : S -> Prop) (m : M S A) : Prop := forall s, P s -> P (run m s).
Definition keeps_if {S A} (P : S -> Prop) (m : M S A) (Q : A -> Prop) : Prop :=
  forall s, P s -> P (run m s) /\ forall a, result m s = Ok a -> Q a.
Section keeps.
Context {S : Type} (P : S -> Prop).
Lemma keeps_bind {A B} (m : M S A) (f : A -> M S B) :
  keeps P m -> (forall a, keeps P (f a)) -> keeps P (m ≫= f).
Proof.
  intros Hm Hf s Hs. specialize (Hm s Hs). unfold run in *. rewrite bind_eq.
  destruct (m s) as [[a|e|w] s']; cbn in *; [|done..]. exact (Hf a s' Hm).
Qed.
Lemma keeps_bind_if {A B} (m : M S A) Q (f : A -> M S B) :
  keeps_if P m Q -> (forall a, Q a -> keeps P (f a)) -> keeps P (m ≫= f).
Proof.
  intros Hm Hf s Hs. destruct (Hm s Hs) as [H1 H2]. unfold run, result in *. rewrite bind_eq.
  destruct (m s) as [[a|e|w] s']; cbn in *; [|done..].
  exact (Hf a (H2 a eq_refl) s' H1).
Qed.
Lemma keeps_ret {A} (a : A) : keeps P (mret a).
Proof. intros s Hs. exact Hs. Qed.
Lemma keeps_lift {A} (o : outcome A) : keeps P (lift o).
Proof. intros s Hs. exact Hs. Qed.
Lemma keeps_gets {A} (f : S -> A) : keeps P (gets f).
Proof. intros s Hs. exact Hs. Qed.
Lemma keeps_may_fail f p q : keeps P (may_fail f p q).
Proof. intros s Hs. unfold run, may_fail. by destruct (f s p q). Qed.
Lemma keeps_try {A} (m : M S A) : keeps P m -> keeps P (try m).
Proof. intros Hm s Hs. specialize (Hm s Hs). unfold run, try in *. by destruct (m s) as [[a|e|w] s']. Qed.
Lemma keeps_throw {A} e : keeps P (throw e : M S A).
Proof. by intros s. Qed.
Lemma keeps_ignore {A} (m : M S A) : keeps P m -> keeps P (ignore m).
Proof. intros Hm s Hs. rewrite run_ignore. by apply Hm. Qed.
Lemma keeps_for_each {A} (f : A -> M S unit) l :
  (forall x, keeps P (f x)) -> keeps P (for_each f l).
Proof. intros Hf. induction l as [|x l IH]; [by intros s|]. cbn. apply keeps_bind; auto. Qed.
Lemma keeps_for_each_Forall {A} (Q : A -> Prop) (f : A -> M S unit) l :
  (forall x, Q x -> keeps P (f x)) -> Forall Q l -> keeps P (for_each f l).
Proof.
  intros Hf. induction 1 as [|x l Hx _ IH]; [by intros s|]. cbn. apply keeps_bind; auto.
Qed.
Lemma keeps_lift_if {A} (o : outcome A) : keeps_if P (lift o) (fun a => o = Ok a).
Proof. intros s Hs. by split. Qed.
Lemma keeps_gets_if {A} (f : S -> A) : keeps_if P (gets f) (fun a => exists s, P s /\ a = f s).
Proof. intros s Hs. split; [done|]. intros a [= <-]. eauto. Qed.
End keeps.
#[export] Hint Resolve keeps_bind keeps_ret keeps_lift keeps_gets keeps_may_fail keeps_try keeps_throw
  keeps_ignore : golib.
Ltac keeps_auto := repeat (apply keeps_bind; [auto with golib|intros]); auto with golib.

