(* ===== verification/StateRedeem.v ===== *)
(** * StateRedeem: the records of the bridge state (state/redeem.go, mint.go, sqlredeem.go,
    utils.go, types.go) and their conversions to database rows and to JSON. *)
From S2P Require Export Database.

(** [type RedeemStatus string] *)
Definition RedeemStatusRequested : string := "requested".
Definition RedeemStatusPrepared : string := "prepared".
Definition RedeemStatusCompleted : string := "completed".
Definition RedeemStatusInvalid : string := "invalid".

Definition ErrorAmountInvalid : error := "amount invalid".
Definition ErrorRequestTxHashInvalid : error := "redeem request tx hash invalid".
Definition ErrorRequestTxHashUnmatched : error := "redeem request tx hash unmatched".
Definition ErrorRequesterUnmatched : error := "requester unmatched".
Definition ErrorAmountUnmatched : error := "amount unmatched".
Definition ErrorReceiverUnmatched : error := "receiver unmatched".
Definition ErrorOutpointsInvalid : error := "outpoints invalid".
Definition ErrorOutpointTxIdInvalid : error := "outpoint tx id invalid".
Definition ErrorPrepareTxHashEmpty : error := "prepare tx hash is empty".

(** [Outpoints] distinguishes a nil slice ([None]) from an empty one. *)
Record Redeem := {
  RequestTxHash : bytes; PrepareTxHash : bytes; r_BtcTxId : bytes; Requester : bytes;
  Receiver : string; Amount : option Z; Outpoints : option (list BtcOutpoint);
  Status : string }.
#[global] Instance Redeem_eq_dec : EqDecision Redeem.
Proof. solve_decision. Defined.
(** [&Redeem{}] *)
Definition Redeem_empty : Redeem := {|
  RequestTxHash := zeros 32; PrepareTxHash := zeros 32; r_BtcTxId := zeros 32;
  Requester := []; Receiver := ""; Amount := None; Outpoints := None; Status := "" |}.

(** [x.Cmp(y)] on pointers: equal pointers compare equal before they are read. *)
Definition big_Cmp (x y : option Z) : outcome comparison :=
  match x, y with
  | Some x, Some y => Ok (x ?= y)
  | None, None => Ok Eq
  | _, _ => Panic "nil pointer dereference"
  end.
Lemma big_Cmp_same x y : x = y -> big_Cmp x y = Ok Eq.
Proof. intros ->. destruct y; [|done]. cbn. by rewrite Z.compare_refl. Qed.
Definition is_zero_hash (h : bytes) : bool := bool_decide (h = zeros 32).

Definition createRedeemFromRequestedEvent (ev : RedeemRequestedEvent) : outcome Redeem :=
  if is_zero_hash (rr_RequestTxHash ev) then Err ErrorRequestTxHashInvalid else
  match rr_Amount ev with
  | None => Err ErrorAmountInvalid
  | Some amount =>
      if amount <=? 0 then Err ErrorAmountInvalid else
      Ok {| RequestTxHash := rr_RequestTxHash ev; PrepareTxHash := zeros 32;
            r_BtcTxId := zeros 32; Requester := rr_Requester ev; Receiver := rr_Receiver ev;
            Amount := Some amount; Outpoints := None;
            Status := if rr_IsValidReceiver ev then RedeemStatusRequested
                      else RedeemStatusInvalid |}
  end.

Definition updateFromPreparedEvent (r : Redeem) (ev : RedeemPreparedEvent) : outcome Redeem :=
  if negb (bool_decide (rp_RequestTxHash ev = RequestTxHash r))
  then Err ErrorRequestTxHashUnmatched
  else if negb (CompareSlices (rp_Requester ev) (Requester r)) then Err ErrorRequesterUnmatched
  else
    c ← big_Cmp (rp_Amount ev) (Amount r);
    if negb (bool_decide (c = Eq)) then Err ErrorAmountUnmatched
    else if negb (String.eqb (rp_Receiver ev) (Receiver r)) then Err ErrorReceiverUnmatched
    else if is_zero_hash (rp_PrepareTxHash ev) then Err ErrorPrepareTxHashEmpty
    else if (length (rp_OutpointTxIds ev) =? 0)%nat || (length (rp_OutpointIdxs ev) =? 0)%nat
            || negb (length (rp_OutpointTxIds ev) =? length (rp_OutpointIdxs ev))%nat
    then Err ErrorOutpointsInvalid
    else if existsb is_zero_hash (rp_OutpointTxIds ev) then Err ErrorOutpointTxIdInvalid
    else Ok {| RequestTxHash := RequestTxHash r; PrepareTxHash := rp_PrepareTxHash ev;
               r_BtcTxId := r_BtcTxId r; Requester := Requester r; Receiver := Receiver r;
               Amount := Amount r;
               Outpoints := Some (zip_with Build_BtcOutpoint (rp_OutpointTxIds ev)
                                    (rp_OutpointIdxs ev));
               Status := RedeemStatusPrepared |}.

Definition createRedeemFromPreparedEvent (ev : RedeemPreparedEvent) : outcome Redeem :=
  amount ← BigIntClone (rp_Amount ev);
  r ← createRedeemFromRequestedEvent
        {| rr_RequestTxHash := rp_RequestTxHash ev; rr_Requester := rp_Requester ev;
           rr_Receiver := rp_Receiver ev; rr_Amount := Some amount;
           rr_IsValidReceiver := true |};
  updateFromPreparedEvent r ev.

Definition HasPrepared (r : Redeem) : bool :=
  negb (is_zero_hash (PrepareTxHash r)) && String.eqb (Status r) RedeemStatusPrepared.
Definition HasCompleted (r : Redeem) : bool :=
  negb (is_zero_hash (r_BtcTxId r)) && String.eqb (Status r) RedeemStatusCompleted.
Definition IsValid (r : Redeem) : bool := negb (String.eqb (Status r) RedeemStatusInvalid).
(** The copy shares the slices with the original; neither is written afterwards. *)
Definition Redeem_Clone (r : Redeem) : outcome Redeem :=
  amount ← BigIntClone (Amount r);
  Ok {| RequestTxHash := RequestTxHash r; PrepareTxHash := PrepareTxHash r;
        r_BtcTxId := r_BtcTxId r; Requester := Requester r; Receiver := Receiver r;
        Amount := Some amount; Outpoints := Outpoints r; Status := Status r |}.

(** ** The stored form of the outpoints: [encoding/gob] *)
Class GobLib := {
  gob_Encode : list BtcOutpoint -> bytes;
  gob_Decode : bytes -> option (list BtcOutpoint);   (** [None]: a decoding error *)
}.
Class GobLaws `{G : GobLib} : Prop := {
  gob_decode_encode l : Forall BtcOutpoint_wf l -> gob_Decode (gob_Encode l) = Some l;
  gob_encode_nonempty l : gob_Encode l <> [];
}.
(** A concrete instance: a tag byte, then 34 bytes for each outpoint. *)
Definition gob_model_item (o : BtcOutpoint) : bytes :=
  BtcTxId o ++ [byte_of_Z (BtcIdx o / 256); byte_of_Z (BtcIdx o)].
Definition gob_model_read (b : bytes) : BtcOutpoint :=
  {| BtcTxId := take 32 b;
     BtcIdx := match drop 32 b with
               | [h; l] => Z_of_byte h * 256 + Z_of_byte l
               | _ => 0
               end |}.
Fixpoint gob_model_items (fuel : nat) (b : bytes) : list BtcOutpoint :=
  match fuel, b with
  | S fuel, _ :: _ => gob_model_read (take 34 b) :: gob_model_items fuel (drop 34 b)
  | _, _ => []
  end.
#[global] Instance gob_model : GobLib := {|
  gob_Encode l := byte_of_Z 255 :: concat (gob_model_item <$> l);
  gob_Decode b := match b with _ :: b => Some (gob_model_items (length b) b) | [] => None end;
|}.
Lemma gob_model_read_item o : BtcOutpoint_wf o -> gob_model_read (gob_model_item o) = o.
Proof.
  destruct o as [t i]. unfold gob_model_read, gob_model_item, BtcOutpoint_wf. cbn -[Z.pow take drop].
  intros [Ht Hi].
  rewrite <-Ht, take_app_length, drop_app_length, !Z_of_byte_of_Z. unfold wrap.
  f_equal. change (2 ^ 8) with 256. rewrite (Z.mod_small (i / 256)).
  - pose proof (Z.div_mod i 256). lia.
  - split; [apply Z.div_pos; lia|apply Z.div_lt_upper_bound; lia].
Qed.
Lemma gob_model_items_concat l fuel :
  Forall BtcOutpoint_wf l -> (length l <= fuel)%nat ->
  gob_model_items fuel (concat (gob_model_item <$> l)) = l.
Proof.
  revert l. induction fuel as [|fuel IH]; intros l Hl Hf.
  - destruct l; [done|cbn in Hf; lia].
  - destruct Hl as [|o l Ho Hl]; [done|]. rewrite fmap_cons. cbn [concat].
    assert (length (gob_model_item o) = 34%nat) as Hlen.
    { destruct Ho as [Ho1 _]. unfold gob_model_item. rewrite length_app, Ho1. done. }
    set (rest := concat _). assert (take 34 (gob_model_item o ++ rest) = gob_model_item o) as Ht.
    { by rewrite <-Hlen, take_app_length. }
    assert (drop 34 (gob_model_item o ++ rest) = rest) as Hd.
    { by rewrite <-Hlen, drop_app_length. }
    destruct (gob_model_item o ++ rest) as [|c b] eqn:E.
    { apply (f_equal length) in E. rewrite length_app, Hlen in E. cbn in E. lia. }
    cbn [gob_model_items]. rewrite Ht, Hd, gob_model_read_item by done.
    f_equal. apply IH; [done|]. cbn in Hf. lia.
Qed.
#[global] Instance gob_model_laws : GobLaws.
Proof.
  split; [|done]. intros l Hl. cbn. f_equal. apply gob_model_items_concat; [done|].
  induction Hl as [|o l Ho Hl IH]; [cbn; lia|]. rewrite fmap_cons. cbn [length concat].
  rewrite length_app. unfold gob_model_item at 1. rewrite length_app. cbn [length]. lia.
Qed.

Section outpoints.
Context `{G : GobLib}.
Definition EncodeOutpoints (outpoints : option (list BtcOutpoint)) : outcome (option bytes) :=
  match outpoints with
  | None => Ok None
  | Some l => Ok (Some (gob_Encode l))
  end.
(** [Decode] into a nil slice variable leaves it nil for a slice of length 0. *)
Definition decoded_slice (l : list BtcOutpoint) : option (list BtcOutpoint) :=
  match l with [] => None | _ :: _ => Some l end.
Definition DecodeOutpoints (data : option bytes) : outcome (option (list BtcOutpoint)) :=
  match data with
  | None => Ok None
  | Some [] => Err "expect non-empty bytes"
  | Some b => match gob_Decode b with
              | Some l => Ok (decoded_slice l)
              | None => Err "gob: decode error"
              end
  end.
End outpoints.

(** ** Rows: sqlredeem.go *)
Record sqlRedeem := {
  s_RequestTxHash : string; s_PrepareTxHash : string; s_BtcTxId : string;
  s_Requester : string; s_Receiver : string; s_Amount : Z; s_Outpoints : option bytes;
  s_Status : string }.
#[global] Instance sqlRedeem_eq_dec : EqDecision sqlRedeem.
Proof. solve_decision. Defined.

(** [x.Uint64()] reads through the pointer. *)
Definition big_Uint64_ptr (x : option Z) : outcome Z :=
  match x with Some n => Ok (big_Uint64 n) | None => Panic "nil pointer dereference" end.

Section rows_of_redeem.
Context `{E : EthLib, G : GobLib}.
Definition sqlRedeem_encode (r : Redeem) : outcome sqlRedeem :=
  outpoints ← EncodeOutpoints (Outpoints r);
  amount ← big_Uint64_ptr (Amount r);
  Ok {| s_RequestTxHash := drop_string 2 (HashString (RequestTxHash r));
        s_PrepareTxHash := drop_string 2 (HashString (PrepareTxHash r));
        s_BtcTxId := drop_string 2 (HashString (r_BtcTxId r));
        s_Requester := ByteSliceToPureHexStr (Requester r);
        s_Receiver := Receiver r; s_Amount := amount; s_Outpoints := outpoints;
        s_Status := Status r |}.
Definition sqlRedeem_decode (r : sqlRedeem) : outcome Redeem :=
  outpoints ← DecodeOutpoints (s_Outpoints r);
  Ok {| RequestTxHash := HexStrToBytes32 ("0x" +:+ s_RequestTxHash r);
        PrepareTxHash := HexStrToBytes32 ("0x" +:+ s_PrepareTxHash r);
        r_BtcTxId := HexStrToBytes32 ("0x" +:+ s_BtcTxId r);
        Requester := HexStrToByteSlice (s_Requester r);
        Receiver := s_Receiver r; Amount := Some (s_Amount r);
        Outpoints := outpoints; Status := s_Status r |}.
End rows_of_redeem.

(** ** mint.go *)
Record Mint := {
  m_BtcTxId : bytes; m_MintTxHash : bytes; m_Receiver : bytes; m_Amount : option Z }.
#[global] Instance Mint_eq_dec : EqDecision Mint.
Proof. solve_decision. Defined.
Definition createMintFromMintedEvent (ev : MintedEvent) : Mint := {|
  m_BtcTxId := me_BtcTxId ev; m_MintTxHash := me_MintTxHash ev;
  m_Receiver := me_Receiver ev; m_Amount := me_Amount ev |}.
Record sqlMint := {
  sm_BtcTxId : string; sm_MintTxHash : string; sm_Receiver : string; sm_Amount : Z }.

Section rows_of_mint.
Context `{E : EthLib}.
Definition sqlMint_encode (m : Mint) : outcome sqlMint :=
  amount ← big_Uint64_ptr (m_Amount m);
  Ok {| sm_BtcTxId := drop_string 2 (HashString (m_BtcTxId m));
        sm_MintTxHash := drop_string 2 (HashString (m_MintTxHash m));
        sm_Receiver := ByteSliceToPureHexStr (m_Receiver m); sm_Amount := amount |}.
Definition sqlMint_decode (s : sqlMint) : Mint := {|
  m_BtcTxId := HexStrToBytes32 ("0x" +:+ sm_BtcTxId s);
  m_MintTxHash := HexStrToBytes32 ("0x" +:+ sm_MintTxHash s);
  m_Receiver := HexStrToByteSlice (sm_Receiver s); m_Amount := Some (sm_Amount s) |}.
End rows_of_mint.

(** ** JSON (types.go, [MarshalJSON], [UnmarshalJSON]) *)
Record JSONRedeem := {
  j_RequestTxHash : string; j_PrepareTxHash : string; jr_BtcTxId : string;
  j_Requester : string; j_Amount : string; j_Outpoints : list JSONBtcOutpoint;
  j_Receiver : string; j_Status : string }.
(** [encoding/json] on [JSONRedeem]; it keeps strings that are valid UTF-8. *)
Class JsonLib := {
  json_text : Type;
  json_Marshal : JSONRedeem -> outcome json_text;
  json_Unmarshal : json_text -> outcome JSONRedeem;
}.

Section json.
Context `{E : EthLib, J : JsonLib}.
Definition redeem_to_json (r : Redeem) : outcome JSONRedeem :=
  amount ← BigIntClone (Amount r);
  Ok {| j_RequestTxHash := HashString (RequestTxHash r);
        j_PrepareTxHash := HashString (PrepareTxHash r);
        jr_BtcTxId := HashString (r_BtcTxId r);
        j_Requester := Prepend0xPrefix (ByteSliceToPureHexStr (Requester r));
        j_Amount := BigIntToHexStr amount;
        j_Outpoints := (fun o => {| j_BtcTxId := HashString (BtcTxId o); j_BtcIdx := BtcIdx o |})
                         <$> default [] (Outpoints r);
        j_Receiver := Receiver r; j_Status := Status r |}.
Definition MarshalJSON (r : Redeem) : outcome json_text :=
  j ← redeem_to_json r; json_Marshal j.
(** The outpoints are appended to the ones of the receiver [r]. *)
Definition redeem_of_json (r : Redeem) (j : JSONRedeem) : Redeem := {|
  RequestTxHash := HexStrToBytes32 (j_RequestTxHash j);
  PrepareTxHash := HexStrToBytes32 (j_PrepareTxHash j);
  r_BtcTxId := HexStrToBytes32 (jr_BtcTxId j);
  Requester := HexToAddress (j_Requester j);
  Receiver := j_Receiver j;
  Amount := HexStrToBigInt (j_Amount j);
  Outpoints :=
    match j_Outpoints j with
    | [] => Outpoints r
    | l => Some (default [] (Outpoints r) ++
             ((fun o => {| BtcTxId := HexStrToBytes32 (j_BtcTxId o); BtcIdx := j_BtcIdx o |}) <$> l))
    end;
  Status := j_Status j |}.
Definition UnmarshalJSON (r : Redeem) (data : json_text) : outcome Redeem :=
  jRedeem ← json_Unmarshal data; Ok (redeem_of_json r jRedeem).
End json.

(** ** Lemmas and properties *)
(** The Go types of the fields, with an amount that fits the column *)
Definition Redeem_wf (r : Redeem) : Prop :=
  length (RequestTxHash r) = 32%nat /\ length (PrepareTxHash r) = 32%nat /\
  length (r_BtcTxId r) = 32%nat /\
  (exists a, Amount r = Some a /\ 0 <= a < 2 ^ 64) /\
  (forall l, Outpoints r = Some l -> Forall BtcOutpoint_wf l).
Definition Mint_wf (m : Mint) : Prop :=
  length (m_BtcTxId m) = 32%nat /\ length (m_MintTxHash m) = 32%nat /\
  (exists a, m_Amount m = Some a /\ 0 <= a < 2 ^ 64).

Lemma is_zero_hash_true h : is_zero_hash h = true <-> h = zeros 32.
Proof. apply bool_decide_eq_true. Qed.
Lemma is_zero_hash_false h : is_zero_hash h = false <-> h <> zeros 32.
Proof. apply bool_decide_eq_false. Qed.
Lemma existsb_zero l : existsb is_zero_hash l = false <-> Forall (fun h => h <> zeros 32) l.
Proof.
  induction l as [|h l IH]; cbn; [by split|].
  rewrite orb_false_iff, IH, Forall_cons, is_zero_hash_false. done.
Qed.

(** what a prepared event must satisfy by itself, and against the stored request *)
Definition prepared_event_ok (ev : RedeemPreparedEvent) : Prop :=
  rp_PrepareTxHash ev <> zeros 32 /\ rp_OutpointTxIds ev <> [] /\
  length (rp_OutpointTxIds ev) = length (rp_OutpointIdxs ev) /\
  Forall (fun h => h <> zeros 32) (rp_OutpointTxIds ev).
Definition prepared_event_matches (r : Redeem) (ev : RedeemPreparedEvent) : Prop :=
  rp_RequestTxHash ev = RequestTxHash r /\ rp_Requester ev = Requester r /\
  rp_Amount ev = Amount r /\ rp_Receiver ev = Receiver r.
Definition prepared (r : Redeem) (ev : RedeemPreparedEvent) : Redeem := {|
  RequestTxHash := RequestTxHash r; PrepareTxHash := rp_PrepareTxHash ev;
  r_BtcTxId := r_BtcTxId r; Requester := Requester r; Receiver := Receiver r;
  Amount := Amount r;
  Outpoints := Some (zip_with Build_BtcOutpoint (rp_OutpointTxIds ev) (rp_OutpointIdxs ev));
  Status := RedeemStatusPrepared |}.

(** the amounts are compared, and one of the two pointers is nil *)
Definition compares_nil (r : Redeem) (ev : RedeemPreparedEvent) : Prop :=
  rp_RequestTxHash ev = RequestTxHash r /\ rp_Requester ev = Requester r /\
  ~ (is_Some (rp_Amount ev) <-> is_Some (Amount r)).

(** The checks after the comparison of the amounts *)
Lemma update_after_amount r ev :
  rp_RequestTxHash ev = RequestTxHash r -> rp_Requester ev = Requester r ->
  rp_Amount ev = Amount r ->
  (prepared_event_matches r ev /\ prepared_event_ok ev /\
   updateFromPreparedEvent r ev = Ok (prepared r ev)) \/
  (~ (prepared_event_matches r ev /\ prepared_event_ok ev) /\
   exists e, updateFromPreparedEvent r ev = Err e).
Proof.
  intros H1 H2 H3. unfold prepared_event_matches, prepared_event_ok, updateFromPreparedEvent.
  rewrite CompareSlices_eq, big_Cmp_same by done. unfold prepared. cbn [mbind outcome_bind].
  rewrite !bool_decide_eq_true_2 by done. cbn [negb].
  destruct (String.eqb_spec (rp_Receiver ev) (Receiver r)); cbn [negb]; [|right; naive_solver].
  destruct (is_zero_hash (rp_PrepareTxHash ev)) eqn:Hz.
  { apply is_zero_hash_true in Hz. right. naive_solver. }
  apply is_zero_hash_false in Hz.
  destruct (rp_OutpointTxIds ev) as [|h hs]; cbn [length Nat.eqb orb]; [right; naive_solver|].
  destruct (rp_OutpointIdxs ev) as [|i idxs]; cbn [length Nat.eqb orb]; [right; naive_solver|].
  destruct (Nat.eqb_spec (length hs) (length idxs)) as [Hl|Hl]; cbn [negb];
    [|right; split; [naive_solver|by eauto]].
  destruct (existsb is_zero_hash (h :: hs)) eqn:Hx.
  - right. split; [|by eauto]. intros (_ & _ & _ & _ & Hf). apply existsb_zero in Hf. congruence.
  - apply existsb_zero in Hx. left. split_and!; try done; congruence.
Qed.
Lemma updateFromPreparedEvent_total r ev :
  match updateFromPreparedEvent r ev with
  | Ok r' => prepared_event_matches r ev /\ prepared_event_ok ev /\ r' = prepared r ev
  | Err _ => ~ (prepared_event_matches r ev /\ prepared_event_ok ev) /\ ~ compares_nil r ev
  | Panic _ => compares_nil r ev
  end.
Proof.
  destruct (decide (rp_RequestTxHash ev = RequestTxHash r)) as [H1|H1]; [|
    unfold updateFromPreparedEvent, prepared_event_matches, compares_nil;
    rewrite bool_decide_eq_false_2 by done; cbn [negb]; naive_solver].
  destruct (decide (rp_Requester ev = Requester r)) as [H2|H2]; [|
    unfold updateFromPreparedEvent, prepared_event_matches, compares_nil;
    rewrite bool_decide_eq_true_2, CompareSlices_eq, bool_decide_eq_false_2 by done;
    cbn [negb]; naive_solver].
  destruct (decide (rp_Amount ev = Amount r)) as [H3|H3].
  - assert (~ compares_nil r ev) by (unfold compares_nil; rewrite H3; naive_solver).
    by destruct (update_after_amount r ev H1 H2 H3) as [(? & ? & ->)|(? & e & ->)].
  - unfold updateFromPreparedEvent, prepared_event_matches, compares_nil.
    rewrite CompareSlices_eq, !bool_decide_eq_true_2 by done. cbn [negb].
    destruct (rp_Amount ev) as [x|], (Amount r) as [y|]; cbn [big_Cmp mbind outcome_bind];
      [|by split_and!; try done; unfold is_Some; naive_solver..|done].
    rewrite bool_decide_eq_false_2 by (intros ->%Z.compare_eq; done). cbn [negb].
    split; [naive_solver|]. unfold is_Some. naive_solver.
Qed.
Lemma updateFromPreparedEvent_cases r ev a b :
  Amount r = Some a -> rp_Amount ev = Some b ->
  (prepared_event_matches r ev /\ prepared_event_ok ev /\
   updateFromPreparedEvent r ev = Ok (prepared r ev)) \/
  (~ (prepared_event_matches r ev /\ prepared_event_ok ev) /\
   exists e, updateFromPreparedEvent r ev = Err e).
Proof.
  intros Ha Hb. pose proof (updateFromPreparedEvent_total r ev) as H.
  destruct (updateFromPreparedEvent r ev) as [r'|e|w].
  - left. naive_solver.
  - right. naive_solver.
  - destruct H as (_ & _ & []). rewrite Ha, Hb. naive_solver.
Qed.

(** C24: a prepared event is applied to a redeem exactly when it names the same request,
    requester, amount and receiver, carries a prepare hash, and at least one outpoint
    with as many ids as indices and no zero id; the result keeps the request and takes
    the hash, the outpoints and the status [prepared].  It panics exactly when the
    request and the requester match and one of the two amounts, but not the other, is a
    nil pointer ([ev.Amount.Cmp(r.Amount)] reads it).  Every other event is refused with
    an error. *)
Theorem updateFromPreparedEvent_spec r ev :
  match updateFromPreparedEvent r ev with
  | Ok r' => prepared_event_matches r ev /\ prepared_event_ok ev /\ r' = prepared r ev
  | Err _ => ~ (prepared_event_matches r ev /\ prepared_event_ok ev) /\ ~ compares_nil r ev
  | Panic _ => compares_nil r ev
  end.
Proof. exact (updateFromPreparedEvent_total r ev). Qed.

Lemma big_Uint64_small n : 0 <= n < 2 ^ 64 -> big_Uint64 n = n.
Proof. intros. unfold big_Uint64. rewrite Z.abs_eq by lia. by apply wrap_small. Qed.

Section facts.
Context `{EL : EthLibLaws, GL : GobLaws}.

Lemma HashString_hash h : length h = 32%nat -> HexStrToBytes32 ("0x" +:+ drop_string 2 (HashString h)) = h.
Proof. intros. rewrite HashString_drop. by apply HexStrToBytes32_0x. Qed.
Lemma HexStrToBytes32_empty : HexStrToBytes32 ("0x" +:+ "") = zeros 32.
Proof.
  unfold HexStrToBytes32. change (Trim0xPrefix _) with ""%string.
  rewrite (Hex2BytesFixed_spec "" []) by (done || cbn; lia). by apply copy_array_exact.
Qed.
Lemma DecodeOutpoints_encode o :
  (forall l, o = Some l -> Forall BtcOutpoint_wf l) ->
  (b ← EncodeOutpoints o; DecodeOutpoints b) = Ok (o ≫= decoded_slice).
Proof.
  destruct o as [l|]; [|done]. intros Hl. cbn [EncodeOutpoints mbind outcome_bind option_bind].
  unfold DecodeOutpoints.
  pose proof (gob_encode_nonempty l). destruct (gob_Encode l) as [|c b] eqn:Hg; [done|].
  rewrite <-Hg, gob_decode_encode by auto. done.
Qed.

Lemma DecodeOutpoints_nonempty l :
  l <> [] -> Forall BtcOutpoint_wf l -> DecodeOutpoints (Some (gob_Encode l)) = Ok (Some l).
Proof.
  intros Hn Hl. pose proof (DecodeOutpoints_encode (Some l) ltac:(by intros ? [= <-])) as H.
  cbn [EncodeOutpoints mbind outcome_bind option_bind] in H. rewrite H. by destruct l.
Qed.

(** the redeem that is read back: an empty slice of outpoints becomes a nil one *)
Definition read_back (r : Redeem) : Redeem := {|
  RequestTxHash := RequestTxHash r; PrepareTxHash := PrepareTxHash r; r_BtcTxId := r_BtcTxId r;
  Requester := Requester r; Receiver := Receiver r; Amount := Amount r;
  Outpoints := Outpoints r ≫= decoded_slice; Status := Status r |}.
Lemma read_back_id r : Outpoints r <> Some [] -> read_back r = r.
Proof. destruct r as [rq pr bt re rc am [[|o l]|] st]; done. Qed.

(** C36: the conversion of a redeem to the row struct [sqlRedeem] and back: for a
    well-formed redeem both conversions succeed and give the redeem back, except that
    an empty, non-nil slice of outpoints comes back nil (gob), so the round trip is
    exact just when the outpoints are not the empty slice.  The row has the amount of
    the redeem, and the database driver accepts it as a parameter just when it is below
    2^63. *)
Theorem sqlRedeem_roundtrip r :
  Redeem_wf r ->
  exists s, sqlRedeem_encode r = Ok s /\ sqlRedeem_decode s = Ok (read_back r) /\
    (sqlRedeem_decode s = Ok r <-> Outpoints r <> Some []) /\
    Amount r = Some (s_Amount s) /\
    (is_ok (bind_uint64 (s_Amount s)) = true <-> s_Amount s < 2 ^ 63).
Proof.
  destruct r as [rq pr bt re rc am op st]. intros (H1 & H2 & H3 & (a & Ha & Hr) & Ho).
  unfold sqlRedeem_encode, sqlRedeem_decode. cbn in *. subst am.
  pose proof (DecodeOutpoints_encode op Ho) as Hop.
  destruct (EncodeOutpoints op) as [b| |]; [|done..]. cbn in *.
  rewrite big_Uint64_small by done. eexists. split; [done|]. cbn. rewrite Hop. cbn.
  rewrite !HashString_hash, HexStrToByteSlice_pure by done. split_and!; [done| |done|].
  - destruct op as [[|o l]|]; cbn; naive_solver.
  - unfold bind_uint64. destruct (Z.ltb_spec a (2 ^ 63)); cbn; naive_solver lia.
Qed.

Lemma Prepend0xPrefix_hex b : Prepend0xPrefix (hex_encode b) = ("0x" +:+ hex_encode b)%string.
Proof. unfold Prepend0xPrefix. by rewrite !hex_encode_no_prefix by auto. Qed.
Lemma HexStrToBigInt_hex n : 0 <= n -> HexStrToBigInt (BigIntToHexStr n) = Some n.
Proof.
  intros Hn. unfold HexStrToBigInt, BigIntToHexStr, Prepend0xPrefix, Trim0xPrefix.
  rewrite !int_Text_no_prefix by auto. cbn [orb].
  rewrite TrimPrefix_app, TrimPrefix_no by (apply int_Text_no_prefix; auto).
  by apply big_SetString_Text.
Qed.
Lemma outpoints_json l :
  Forall BtcOutpoint_wf l ->
  (fun o => {| BtcTxId := HexStrToBytes32 (j_BtcTxId o); BtcIdx := j_BtcIdx o |}) <$>
    ((fun o => {| j_BtcTxId := HashString (BtcTxId o); j_BtcIdx := BtcIdx o |}) <$> l) = l.
Proof.
  induction 1 as [|[t i] l [Ht Hi] Hl IH]; [done|]. rewrite !fmap_cons, IH. cbn in *.
  by rewrite HashString_spec, HexStrToBytes32_0x.
Qed.
Lemma redeem_json_fields r :
  Redeem_wf r -> Outpoints r <> Some [] ->
  exists j, redeem_to_json r = Ok j /\
    redeem_of_json Redeem_empty j =
      {| RequestTxHash := RequestTxHash r; PrepareTxHash := PrepareTxHash r;
         r_BtcTxId := r_BtcTxId r; Requester := pad_crop 20 (Requester r);
         Receiver := Receiver r; Amount := Amount r; Outpoints := Outpoints r;
         Status := Status r |}.
Proof.
  destruct r as [rq pr bt re rc am op st]. intros (H1 & H2 & H3 & (a & Ha & Hr) & Ho) Hne.
  cbn in *. subst am. eexists. split; [done|]. unfold redeem_of_json. cbn -[HashString].
  rewrite !HashString_spec, !HexStrToBytes32_0x, ByteSliceToPureHexStr_eq by done.
  rewrite Prepend0xPrefix_hex, HexToAddress_hex, HexStrToBigInt_hex by lia.
  f_equal. destruct op as [[|o l]|]; [done| |done].
  exact (f_equal Some (outpoints_json (o :: l) (Ho _ eq_refl))).
Qed.

(** A redeem survives JSON: unmarshalling its marshalled form gives it back, except
    that the requester is cropped or padded to the 20 bytes of an EVM address; so the
    round trip is exact for a 20-byte requester and loses a 32-byte (Aptos) one. *)
Theorem redeem_json_roundtrip `{J : JsonLib} r j :
  Redeem_wf r -> Outpoints r <> Some [] ->
  redeem_to_json r = Ok j -> (t ← json_Marshal j; json_Unmarshal t) = Ok j ->
  exists r', (t ← MarshalJSON r; UnmarshalJSON Redeem_empty t) = Ok r' /\
    Requester r' = pad_crop 20 (Requester r) /\
    (r' = r <-> length (Requester r) = 20%nat).
Proof.
  intros Hw Hne Hj Hlaw. destruct (redeem_json_fields r Hw Hne) as (j' & Hj' & Hf).
  rewrite Hj in Hj'. injection Hj' as <-. eexists. split; [|split].
  - unfold MarshalJSON. rewrite Hj. cbn. destruct (json_Marshal j) as [t| |]; [|done..].
    cbn in *. unfold UnmarshalJSON. rewrite Hlaw. cbn. by rewrite Hf.
  - done.
  - destruct r as [rq pr bt re rc am op st]. cbn -[pad_crop]. split.
    + intros [= Hp]. rewrite <-Hp. apply pad_crop_length.
    + intros Hl. by rewrite pad_crop_exact.
Qed.

Lemma sqlMint_roundtrip m :
  Mint_wf m -> (fun s => sqlMint_decode s) <$> sqlMint_encode m = Ok m.
Proof.
  destruct m as [b t r am]. intros (H1 & H2 & a & Ha & Hr). cbn in *. subst am. cbn.
  unfold sqlMint_decode. cbn.
  by rewrite !HashString_hash, HexStrToByteSlice_pure, big_Uint64_small.
Qed.
End facts.

(** ** Concrete inputs *)
Definition sample_redeem : Redeem := {|
  RequestTxHash := sample_hash 1; PrepareTxHash := sample_hash 2; r_BtcTxId := zeros 32;
  Requester := replicate 20 (byte_of_Z 7); Receiver := "bc1q"; Amount := Some 100;
  Outpoints := Some [{| BtcTxId := sample_hash 3; BtcIdx := 1 |}];
  Status := RedeemStatusPrepared |}.
Lemma sample_redeem_wf : Redeem_wf sample_redeem.
Proof.
  split_and!; [reflexivity..| |].
  - exists 100. split; [done|lia].
  - intros l [= <-]. repeat constructor; cbn; lia.
Qed.
Lemma sqlRedeem_roundtrip_witness :
  exists s, sqlRedeem_encode sample_redeem = Ok s /\
    sqlRedeem_decode s = Ok (read_back sample_redeem) /\
    (sqlRedeem_decode s = Ok sample_redeem <-> Outpoints sample_redeem <> Some []) /\
    Amount sample_redeem = Some (s_Amount s) /\
    (is_ok (bind_uint64 (s_Amount s)) = true <-> s_Amount s < 2 ^ 63).
Proof. apply (sqlRedeem_roundtrip sample_redeem sample_redeem_wf). Defined.
Definition sample_prepared_event : RedeemPreparedEvent := {|
  rp_RequestTxHash := sample_hash 1; rp_PrepareTxHash := sample_hash 2;
  rp_Requester := replicate 20 (byte_of_Z 7); rp_Receiver := "bc1q"; rp_Amount := Some 100;
  rp_OutpointTxIds := [sample_hash 3]; rp_OutpointIdxs := [1] |}.
Example sample_prepared_applied :
  updateFromPreparedEvent sample_redeem sample_prepared_event = Ok sample_redeem.
Proof. vm_compute. reflexivity. Qed.

#[local] Instance json_model : JsonLib :=
  {| json_text := JSONRedeem; json_Marshal := Ok; json_Unmarshal := Ok |}.
Lemma redeem_json_roundtrip_witness :
  exists r', (t ← MarshalJSON sample_redeem; UnmarshalJSON Redeem_empty t) = Ok r' /\
    Requester r' = pad_crop 20 (Requester sample_redeem) /\
    (r' = sample_redeem <-> length (Requester sample_redeem) = 20%nat).
Proof.
  eapply (redeem_json_roundtrip sample_redeem); [exact sample_redeem_wf|done|reflexivity..].
Defined.
