(* ===== verification/StateDB.v ===== *)
(** * StateDB: the tables behind the bridge state (state/schema.go, statedb.go,
    statedb_eth2btc.go, statedb_btc2eth.go): redeems, mints and a key-value table. *)
From S2P Require Export StateRedeem.

(** ** schema.go *)
Fixpoint string_repeat (n : nat) (c : byte) : string :=
  match n with O => EmptyString | S n => String c (string_repeat n c) end.
Definition strZeroBytes32 : string := string_repeat 64 "0"%char.
Definition strZeroBytes20 : string := string_repeat 40 "0"%char.

Record redeem_row := {
  row_requestTxHash : string; row_prepareTxHash : option string; row_btcTxId : option string;
  row_requester : string; row_receiver : string; row_amount : Z;
  row_outpoints : option bytes; row_status : string }.
#[global] Instance redeem_row_eq_dec : EqDecision redeem_row.
Proof. solve_decision. Defined.
Record mint_row := {
  mr_btcTxId : string; mr_mintTxHash : option string; mr_receiver : string; mr_amount : Z }.
#[global] Instance mint_row_eq_dec : EqDecision mint_row.
Proof. solve_decision. Defined.

(** The CHECK constraints of [redeemTable] and [mintTable] *)
Definition not_null_zero (o : option string) : bool :=
  match o with None => true | Some s => negb (String.eqb s strZeroBytes32) end.
Definition redeem_check (r : redeem_row) : bool :=
  (String.eqb (row_status r) "requested" || String.eqb (row_status r) "prepared"
   || String.eqb (row_status r) "completed" || String.eqb (row_status r) "invalid")
  && (0 <? row_amount r)
  && negb (String.eqb (row_requestTxHash r) strZeroBytes32)
  && not_null_zero (row_prepareTxHash r)
  && not_null_zero (row_btcTxId r)
  && negb (String.eqb (row_requester r) strZeroBytes20).
Definition mint_check (m : mint_row) : bool :=
  (0 <? mr_amount m)
  && negb (String.eqb (mr_btcTxId m) strZeroBytes32)
  && negb (String.eqb (mr_receiver m) strZeroBytes20).
(** All constraints of a table: CHECK on each row, PRIMARY KEY, UNIQUE (NULLs are
    distinct). *)
Definition redeemTable (t : list redeem_row) : bool :=
  forallb redeem_check t && nodupb (row_requestTxHash <$> t)
  && nodupb (omap row_prepareTxHash t) && nodupb (omap row_btcTxId t).
Definition mintTable (t : list mint_row) : bool :=
  forallb mint_check t && nodupb (mr_btcTxId <$> t) && nodupb (omap mr_mintTxHash t).

(** ** statedb.go *)
Record StateDB := {
  redeem_table : list redeem_row; kv_table : gmap string string;
  mint_table : list mint_row; db_fault : faults }.
Definition set_redeems (t : list redeem_row) (s : StateDB) : StateDB :=
  {| redeem_table := t; kv_table := kv_table s; mint_table := mint_table s;
     db_fault := db_fault s |}.
Definition set_kv (t : gmap string string) (s : StateDB) : StateDB :=
  {| redeem_table := redeem_table s; kv_table := t; mint_table := mint_table s;
     db_fault := db_fault s |}.
Definition set_mints (t : list mint_row) (s : StateDB) : StateDB :=
  {| redeem_table := redeem_table s; kv_table := kv_table s; mint_table := t;
     db_fault := db_fault s |}.
(** An empty database after [db.Exec(redeemTable + kvTable + mintTable)] *)
Definition NewStateDB (f : faults) : StateDB :=
  {| redeem_table := []; kv_table := empty; mint_table := []; db_fault := f |}.

Definition prepare (q : string) : M StateDB unit := may_fail db_fault Preparing q.
Definition exec (q : string) : M StateDB unit := may_fail db_fault Executing q.
Definition commit_redeems (t : list redeem_row) : M StateDB unit := fun s =>
  if redeemTable t then (Ok tt, set_redeems t s) else (Err "constraint failed", s).
Definition commit_mints (t : list mint_row) : M StateDB unit := fun s =>
  if mintTable t then (Ok tt, set_mints t s) else (Err "constraint failed", s).
(** [INSERT OR IGNORE] skips a row that violates a constraint. *)
Definition insert_or_ignore_redeem (row : redeem_row) : M StateDB unit := fun s =>
  let t := redeem_table s ++ [row] in
  (Ok tt, if redeemTable t then set_redeems t s else s).

Section statedb.
Context `{E : EthLib, G : GobLib}.

(** [h.String()[2:]] *)
Definition hash_key (h : bytes) : string := drop_string 2 (HashString h).

Definition GetKeyedValue (key : bytes) : M StateDB (option bytes) :=
  let query := "SELECT value FROM kv WHERE key = ?"%string in
  prepare query ;; exec query ;;
  t ← gets kv_table;
  match t !! hash_key key with
  | None => mret None
  | Some value => mret (Some (HexStrToBytes32 value))
  end.
Definition SetKeyedValue (key value : bytes) : M StateDB unit :=
  let query := "INSERT OR REPLACE INTO kv (key, value) VALUES (?, ?)"%string in
  prepare query ;; exec query ;;
  modify (fun s => set_kv (<[hash_key key := hash_key value]> (kv_table s)) s).

(** ** statedb_eth2btc.go *)
(** [rows.Scan] of a redeem row, NULL strings left empty *)
Definition scan_redeem (row : redeem_row) : sqlRedeem := {|
  s_RequestTxHash := row_requestTxHash row;
  s_PrepareTxHash := default EmptyString (row_prepareTxHash row);
  s_BtcTxId := default EmptyString (row_btcTxId row);
  s_Requester := row_requester row; s_Receiver := row_receiver row;
  s_Amount := row_amount row; s_Outpoints := row_outpoints row; s_Status := row_status row |}.
Definition read_redeem (row : redeem_row) : outcome Redeem := sqlRedeem_decode (scan_redeem row).

Definition InsertAfterRequested (redeem : Redeem) : M StateDB unit :=
  let query := "INSERT OR IGNORE INTO redeem ( requestTxHash, requester, receiver, amount, status ) VALUES (?, ?, ?, ?, ?)"%string in
  prepare query ;;
  r ← lift (sqlRedeem_encode redeem);
  amount ← lift (bind_uint64 (s_Amount r));
  exec query ;;
  insert_or_ignore_redeem
    {| row_requestTxHash := s_RequestTxHash r; row_prepareTxHash := None; row_btcTxId := None;
       row_requester := s_Requester r; row_receiver := s_Receiver r; row_amount := amount;
       row_outpoints := None; row_status := s_Status r |}.

Definition GetRedeem (requestTxHash : bytes) : M StateDB (option Redeem) :=
  let query := "SELECT * FROM redeem WHERE requestTxHash = ?;"%string in
  prepare query ;; exec query ;;
  t ← gets redeem_table;
  match find_row row_requestTxHash t (hash_key requestTxHash) with
  | None => mret None
  | Some row => r ← lift (read_redeem row); mret (Some r)
  end.

Definition set_prepared (r : sqlRedeem) (row : redeem_row) : redeem_row :=
  {| row_requestTxHash := row_requestTxHash row; row_prepareTxHash := Some (s_PrepareTxHash r);
     row_btcTxId := row_btcTxId row; row_requester := row_requester row;
     row_receiver := row_receiver row; row_amount := row_amount row;
     row_outpoints := s_Outpoints r; row_status := s_Status r |}.
Definition UpdateAfterPrepared (redeem : Redeem) : M StateDB unit :=
  found ← GetRedeem (RequestTxHash redeem);
  let ok := is_Some_b found in
  let query :=
    (if ok then "UPDATE redeem SET prepareTxHash = ?, outpoints = ?, status = ? WHERE requestTxHash = ?"
     else "INSERT OR IGNORE INTO redeem ( requestTxHash, prepareTxHash, requester, receiver, amount, outpoints, status ) VALUES (?, ?, ?, ?, ?, ?, ?)")%string in
  prepare query ;;
  r ← lift (sqlRedeem_encode redeem);
  if ok : bool then
    exec query ;;
    t ← gets redeem_table;
    commit_redeems (update_rows row_requestTxHash t (s_RequestTxHash r) (set_prepared r))
  else
    amount ← lift (bind_uint64 (s_Amount r));
    exec query ;;
    insert_or_ignore_redeem
      {| row_requestTxHash := s_RequestTxHash r; row_prepareTxHash := Some (s_PrepareTxHash r);
         row_btcTxId := None; row_requester := s_Requester r; row_receiver := s_Receiver r;
         row_amount := amount; row_outpoints := s_Outpoints r; row_status := s_Status r |}.

Definition set_redeemed (r : sqlRedeem) (row : redeem_row) : redeem_row :=
  {| row_requestTxHash := row_requestTxHash row; row_prepareTxHash := row_prepareTxHash row;
     row_btcTxId := Some (s_BtcTxId r); row_requester := row_requester row;
     row_receiver := row_receiver row; row_amount := row_amount row;
     row_outpoints := row_outpoints row; row_status := s_Status r |}.
Definition UpdateAfterRedeemed (redeem : Redeem) : M StateDB unit :=
  let query := "UPDATE redeem SET btcTxId = ?, status = ? WHERE requestTxHash = ?"%string in
  prepare query ;;
  r ← lift (sqlRedeem_encode redeem);
  exec query ;;
  t ← gets redeem_table;
  commit_redeems (update_rows row_requestTxHash t (s_RequestTxHash r) (set_redeemed r)).

Definition GetRedeemsByStatus (status : string) : M StateDB (list Redeem) :=
  let query := "SELECT * FROM redeem WHERE status = ?"%string in
  prepare query ;; exec query ;;
  t ← gets redeem_table;
  lift (mapM read_redeem (filter (fun row => row_status row = status) t)).
Definition GetRedeemsByRequester (requester : string) : M StateDB (list Redeem) :=
  let query := "SELECT * FROM redeem WHERE LOWER(requester) = LOWER(?)"%string in
  prepare query ;;
  let requesterStr := Trim0xPrefix requester in
  exec query ;;
  t ← gets redeem_table;
  lift (mapM read_redeem
    (filter (fun row => ToLower (row_requester row) = ToLower requesterStr) t)).
(** found with its status, or not *)
Definition HasRedeem (requestTxHash : bytes) : M StateDB (option string) :=
  let query := "SELECT status FROM redeem WHERE requestTxHash = ?"%string in
  prepare query ;; exec query ;;
  t ← gets redeem_table;
  mret (row_status <$> find_row row_requestTxHash t (hash_key requestTxHash)).

(** ** statedb_btc2eth.go *)
Definition scan_mint (row : mint_row) : sqlMint := {|
  sm_BtcTxId := mr_btcTxId row; sm_MintTxHash := default EmptyString (mr_mintTxHash row);
  sm_Receiver := mr_receiver row; sm_Amount := mr_amount row |}.
Definition InsertMint (m : Mint) : M StateDB unit :=
  let query := "INSERT INTO mint (BtcTxId, mintTxHash, receiver, amount) VALUES (?, ?, ?, ?)"%string in
  prepare query ;;
  s ← lift (sqlMint_encode m);
  let mintTxHash := if negb (bool_decide (m_MintTxHash m = EmptyHash))
                    then Some (hash_key (m_MintTxHash m)) else None in
  amount ← lift (bind_uint64 (sm_Amount s));
  exec query ;;
  t ← gets mint_table;
  commit_mints (t ++ [{| mr_btcTxId := sm_BtcTxId s; mr_mintTxHash := mintTxHash;
                         mr_receiver := sm_Receiver s; mr_amount := amount |}]).
(** The SELECT leaves out [mintTxHash]: it is read as the empty string. *)
Definition scan_unminted (row : mint_row) : sqlMint := {|
  sm_BtcTxId := mr_btcTxId row; sm_MintTxHash := EmptyString;
  sm_Receiver := mr_receiver row; sm_Amount := mr_amount row |}.
Definition GetUnMinted : M StateDB (list Mint) :=
  let query := "SELECT BtcTxId, receiver, amount FROM mint WHERE mintTxHash IS NULL"%string in
  prepare query ;; exec query ;;
  t ← gets mint_table;
  mret ((fun row => sqlMint_decode (scan_unminted row))
          <$> filter (fun row => mr_mintTxHash row = None) t).
Definition GetMint (BtcTxId : bytes) : M StateDB (option Mint) :=
  let query := "SELECT BtcTxId, mintTxHash, receiver, amount FROM mint WHERE BtcTxId = ?"%string in
  prepare query ;; exec query ;;
  t ← gets mint_table;
  mret ((fun row => sqlMint_decode (scan_mint row)) <$> find_row mr_btcTxId t (hash_key BtcTxId)).
Definition set_minted (h : string) (row : mint_row) : mint_row :=
  {| mr_btcTxId := mr_btcTxId row; mr_mintTxHash := Some h;
     mr_receiver := mr_receiver row; mr_amount := mr_amount row |}.
Definition UpdateMint (m : Mint) : M StateDB unit :=
  found ← GetMint (m_BtcTxId m);
  match found with
  | None => InsertMint m
  | Some _ =>
      let query := "UPDATE mint SET mintTxHash = ? WHERE BtcTxId = ?"%string in
      prepare query ;;
      s ← lift (sqlMint_encode m);
      exec query ;;
      t ← gets mint_table;
      commit_mints (update_rows mr_btcTxId t (sm_BtcTxId s) (set_minted (sm_MintTxHash s)))
  end.
End statedb.

(** ** The database invariant *)
Definition hex_of (n : nat) (s : string) : Prop := exists h, length h = n /\ s = hex_encode h.
Definition redeem_row_wf `{GobLib} (row : redeem_row) : Prop :=
  hex_of 32 (row_requestTxHash row) /\
  (forall s, row_prepareTxHash row = Some s -> hex_of 32 s) /\
  (forall s, row_btcTxId row = Some s -> hex_of 32 s) /\
  (exists b, row_requester row = hex_encode b) /\
  row_amount row < 2 ^ 63 /\
  (forall b, row_outpoints row = Some b -> exists l, Forall BtcOutpoint_wf l /\ b = gob_Encode l).
Definition mint_row_wf (row : mint_row) : Prop :=
  hex_of 32 (mr_btcTxId row) /\ (forall s, mr_mintTxHash row = Some s -> hex_of 32 s) /\
  (exists b, mr_receiver row = hex_encode b) /\ mr_amount row < 2 ^ 63.
Definition StateDB_inv `{GobLib} (s : StateDB) : Prop :=
  redeemTable (redeem_table s) = true /\ mintTable (mint_table s) = true /\
  Forall redeem_row_wf (redeem_table s) /\ Forall mint_row_wf (mint_table s) /\
  map_Forall (fun _ v => hex_of 32 v) (kv_table s).

(** The Go types of a redeem and a mint, with any amount or none *)
Definition Redeem_typed (r : Redeem) : Prop :=
  length (RequestTxHash r) = 32%nat /\ length (PrepareTxHash r) = 32%nat /\
  length (r_BtcTxId r) = 32%nat /\
  (forall l, Outpoints r = Some l -> Forall BtcOutpoint_wf l).
Definition Mint_typed (m : Mint) : Prop :=
  length (m_BtcTxId m) = 32%nat /\ length (m_MintTxHash m) = 32%nat.

(** The write operations of the package, as one step *)
Inductive statedb_write :=
  | WSetKeyedValue (key value : bytes)
  | WInsertAfterRequested (r : Redeem)
  | WUpdateAfterPrepared (r : Redeem)
  | WUpdateAfterRedeemed (r : Redeem)
  | WInsertMint (m : Mint)
  | WUpdateMint (m : Mint).
Definition write_typed (w : statedb_write) : Prop :=
  match w with
  | WSetKeyedValue k v => length k = 32%nat /\ length v = 32%nat
  | WInsertAfterRequested r | WUpdateAfterPrepared r | WUpdateAfterRedeemed r => Redeem_typed r
  | WInsertMint m | WUpdateMint m => Mint_typed m
  end.
Definition apply_write `{EthLib, GobLib} (w : statedb_write) : M StateDB unit :=
  match w with
  | WSetKeyedValue k v => SetKeyedValue k v
  | WInsertAfterRequested r => InsertAfterRequested r
  | WUpdateAfterPrepared r => UpdateAfterPrepared r
  | WUpdateAfterRedeemed r => UpdateAfterRedeemed r
  | WInsertMint m => InsertMint m
  | WUpdateMint m => UpdateMint m
  end.

Lemma keeps_prepare P q : keeps P (prepare q).
Proof. apply keeps_may_fail. Qed.
Lemma keeps_exec P q : keeps P (exec q).
Proof. apply keeps_may_fail. Qed.
#[export] Hint Resolve keeps_prepare keeps_exec : golib.

Section inv.
Context `{EL : EthLibLaws, GL : GobLaws}.

Lemma hash_key_hex h : hash_key h = hex_encode h.
Proof. apply HashString_drop. Qed.
Lemma hex_of_key h : length h = 32%nat -> hex_of 32 (hash_key h).
Proof. intros. exists h. by rewrite hash_key_hex. Qed.

Lemma redeemTable_spec t :
  redeemTable t = true <->
  Forall (fun r => redeem_check r = true) t /\ NoDup (row_requestTxHash <$> t) /\
  NoDup (omap row_prepareTxHash t) /\ NoDup (omap row_btcTxId t).
Proof.
  unfold redeemTable, nodupb. rewrite !andb_true_iff, !bool_decide_eq_true, forallb_Forall. tauto.
Qed.
Lemma mintTable_spec t :
  mintTable t = true <->
  Forall (fun r => mint_check r = true) t /\ NoDup (mr_btcTxId <$> t) /\
  NoDup (omap mr_mintTxHash t).
Proof.
  unfold mintTable, nodupb. rewrite !andb_true_iff, !bool_decide_eq_true, forallb_Forall. tauto.
Qed.

Lemma inv_set_redeems t s :
  StateDB_inv s -> redeemTable t = true -> Forall redeem_row_wf t -> StateDB_inv (set_redeems t s).
Proof. intros (? & ? & ? & ? & ?) ? ?. by split_and!. Qed.
Lemma inv_set_mints t s :
  StateDB_inv s -> mintTable t = true -> Forall mint_row_wf t -> StateDB_inv (set_mints t s).
Proof. intros (? & ? & ? & ? & ?) ? ?. by split_and!. Qed.
Lemma keeps_commit_redeems t : Forall redeem_row_wf t -> keeps StateDB_inv (commit_redeems t).
Proof.
  intros Hw s Hs. unfold run, commit_redeems. destruct (redeemTable t) eqn:Ht; [|done].
  by apply inv_set_redeems.
Qed.
Lemma keeps_commit_mints t : Forall mint_row_wf t -> keeps StateDB_inv (commit_mints t).
Proof.
  intros Hw s Hs. unfold run, commit_mints. destruct (mintTable t) eqn:Ht; [|done].
  by apply inv_set_mints.
Qed.
Lemma keeps_insert_or_ignore row :
  redeem_row_wf row -> keeps StateDB_inv (insert_or_ignore_redeem row).
Proof.
  intros Hw s Hs. unfold run, insert_or_ignore_redeem. cbn.
  destruct (redeemTable _) eqn:Ht; [|done]. apply inv_set_redeems; [done..|].
  apply Forall_app. split; [by destruct Hs as (_ & _ & ? & _)|by constructor].
Qed.

(** what an encoded redeem looks like *)
Lemma sqlRedeem_encode_Ok r s :
  Redeem_typed r -> sqlRedeem_encode r = Ok s ->
  hex_of 32 (s_RequestTxHash s) /\ hex_of 32 (s_PrepareTxHash s) /\ hex_of 32 (s_BtcTxId s) /\
  (exists b, s_Requester s = hex_encode b) /\
  (forall b, s_Outpoints s = Some b -> exists l, Forall BtcOutpoint_wf l /\ b = gob_Encode l).
Proof.
  intros (H1 & H2 & H3 & H4). unfold sqlRedeem_encode.
  destruct (Amount r) as [a|]; cbn; [|by destruct (Outpoints r)].
  assert (forall o : option bytes,
    (forall b, o = Some b -> exists l, Forall BtcOutpoint_wf l /\ b = gob_Encode l) ->
    Ok {| s_RequestTxHash := hash_key (RequestTxHash r); s_PrepareTxHash := hash_key (PrepareTxHash r);
          s_BtcTxId := hash_key (r_BtcTxId r); s_Requester := ByteSliceToPureHexStr (Requester r);
          s_Receiver := Receiver r; s_Amount := big_Uint64 a; s_Outpoints := o;
          s_Status := Status r |} = Ok s ->
    hex_of 32 (s_RequestTxHash s) /\ hex_of 32 (s_PrepareTxHash s) /\ hex_of 32 (s_BtcTxId s) /\
    (exists b, s_Requester s = hex_encode b) /\
    (forall b, s_Outpoints s = Some b -> exists l, Forall BtcOutpoint_wf l /\ b = gob_Encode l))
    as Hgen.
  { intros o Ho [= <-]. cbn. rewrite ByteSliceToPureHexStr_eq.
    split_and!; [by apply hex_of_key..|by eexists|done]. }
  destruct (Outpoints r) as [l|] eqn:Ho; apply Hgen.
  - intros b [= <-]. eauto.
  - done.
Qed.
Lemma bind_uint64_Ok n m : bind_uint64 n = Ok m -> m = n /\ n < 2 ^ 63.
Proof. unfold bind_uint64. destruct (Z.ltb_spec n (2 ^ 63)); [|done]. intros [= <-]. done. Qed.

Lemma update_rows_wf t k f :
  (forall row, redeem_row_wf row -> redeem_row_wf (f row)) ->
  Forall redeem_row_wf t -> Forall redeem_row_wf (update_rows row_requestTxHash t k f).
Proof.
  intros Hf Ht. unfold update_rows. rewrite Forall_fmap. eapply Forall_impl; [done|].
  intros row Hrow. cbn. destruct (decide _); auto.
Qed.

Lemma keeps_GetRedeem h : keeps StateDB_inv (GetRedeem h).
Proof.
  unfold GetRedeem. repeat (apply keeps_bind; [auto with golib|intros]).
  case_match; auto with golib.
Qed.
Lemma keeps_InsertAfterRequested r :
  Redeem_typed r -> keeps StateDB_inv (InsertAfterRequested r).
Proof.
  intros Hr. apply keeps_bind; [auto with golib|intros _].
  eapply keeps_bind_if; [apply keeps_lift_if|intros q Hq].
  eapply keeps_bind_if; [apply keeps_lift_if|intros a Ha].
  apply keeps_bind; [auto with golib|intros _]. apply keeps_insert_or_ignore.
  destruct (sqlRedeem_encode_Ok _ _ Hr Hq) as (? & ? & ? & ? & ?).
  apply bind_uint64_Ok in Ha as [-> ?]. by split_and!.
Qed.
Lemma keeps_UpdateAfterPrepared r :
  Redeem_typed r -> keeps StateDB_inv (UpdateAfterPrepared r).
Proof.
  intros Hr. apply keeps_bind; [apply keeps_GetRedeem|intros o].
  apply keeps_bind; [auto with golib|intros _].
  eapply keeps_bind_if; [apply keeps_lift_if|intros q Hq].
  destruct (sqlRedeem_encode_Ok _ _ Hr Hq) as (? & ? & ? & ? & ?).
  destruct o as [o|]; cbn [is_Some_b].
  - apply keeps_bind; [auto with golib|intros _].
    eapply keeps_bind_if; [apply keeps_gets_if|intros t (s & Hs & ->)].
    apply keeps_commit_redeems, update_rows_wf; [|by destruct Hs as (_ & _ & ? & _)].
    intros row (? & ? & ? & ? & ? & ?). split_and!; try done. by intros ? [= <-].
  - eapply keeps_bind_if; [apply keeps_lift_if|intros a Ha].
    apply keeps_bind; [auto with golib|intros _]. apply keeps_insert_or_ignore.
    apply bind_uint64_Ok in Ha as [-> ?]. split_and!; try done. by intros ? [= <-].
Qed.
Lemma keeps_UpdateAfterRedeemed r :
  Redeem_typed r -> keeps StateDB_inv (UpdateAfterRedeemed r).
Proof.
  intros Hr. apply keeps_bind; [auto with golib|intros _].
  eapply keeps_bind_if; [apply keeps_lift_if|intros q Hq].
  destruct (sqlRedeem_encode_Ok _ _ Hr Hq) as (? & ? & ? & ? & ?).
  apply keeps_bind; [auto with golib|intros _].
  eapply keeps_bind_if; [apply keeps_gets_if|intros t (s & Hs & ->)].
  apply keeps_commit_redeems, update_rows_wf; [|by destruct Hs as (_ & _ & ? & _)].
  intros row (? & ? & ? & ? & ? & ?). split_and!; try done. by intros ? [= <-].
Qed.
Lemma sqlMint_encode_Ok m s :
  sqlMint_encode m = Ok s ->
  exists a, m_Amount m = Some a /\
    s = {| sm_BtcTxId := hash_key (m_BtcTxId m); sm_MintTxHash := hash_key (m_MintTxHash m);
           sm_Receiver := hex_encode (m_Receiver m); sm_Amount := big_Uint64 a |}.
Proof.
  unfold sqlMint_encode. destruct (m_Amount m) as [a|]; [|done]. cbn.
  rewrite ByteSliceToPureHexStr_eq. intros [= <-]. eauto.
Qed.
Lemma keeps_InsertMint m : Mint_typed m -> keeps StateDB_inv (InsertMint m).
Proof.
  intros [H1 H2]. apply keeps_bind; [auto with golib|intros _].
  eapply keeps_bind_if; [apply keeps_lift_if|intros q Hq].
  apply sqlMint_encode_Ok in Hq as (am & _ & ->).
  eapply keeps_bind_if; [apply keeps_lift_if|intros a Ha].
  apply keeps_bind; [auto with golib|intros _].
  eapply keeps_bind_if; [apply keeps_gets_if|intros t (s & Hs & ->)].
  apply keeps_commit_mints, Forall_app. split; [by destruct Hs as (_ & _ & _ & ? & _)|].
  apply bind_uint64_Ok in Ha as [-> ?]. constructor; [|done].
  split_and!; cbn; try done; [by apply hex_of_key| |eauto].
  intros k. case_bool_decide; cbn; [done|]. intros [= <-]. by apply hex_of_key.
Qed.
Lemma keeps_UpdateMint m : Mint_typed m -> keeps StateDB_inv (UpdateMint m).
Proof.
  intros Hm. apply keeps_bind.
  { unfold GetMint. repeat (apply keeps_bind; [auto with golib|intros]). auto with golib. }
  intros [o|]; [|by apply keeps_InsertMint].
  apply keeps_bind; [auto with golib|intros _].
  eapply keeps_bind_if; [apply keeps_lift_if|intros q Hq].
  apply sqlMint_encode_Ok in Hq as (am & _ & ->).
  apply keeps_bind; [auto with golib|intros _].
  eapply keeps_bind_if; [apply keeps_gets_if|intros t (s & Hs & ->)].
  apply keeps_commit_mints. unfold update_rows. rewrite Forall_fmap.
  destruct Hs as (_ & _ & _ & Hw & _). eapply Forall_impl; [done|].
  intros row Hrow. cbn. destruct (decide _); [|done]. destruct Hrow as (? & ? & ? & ?).
  split_and!; try done. intros ? [= <-]. apply hex_of_key. by destruct Hm.
Qed.

(** C32: every write of the state database, whatever its outcome (success, a constraint
    violation, a driver error or a panic), leaves tables that satisfy all CHECK, PRIMARY
    KEY and UNIQUE constraints and whose rows are all well formed. *)
Theorem StateDB_writes_preserve w s :
  write_typed w -> StateDB_inv s -> StateDB_inv (run (apply_write w) s).
Proof.
  intros Hw. revert s. destruct w; cbn in Hw |- *.
  - destruct Hw as [Hk Hv]. repeat (apply keeps_bind; [auto with golib|intros]).
    intros s (? & ? & ? & ? & ?). split_and!; try done. cbn.
    apply map_Forall_insert_2; [by apply hex_of_key|done].
  - by apply keeps_InsertAfterRequested.
  - by apply keeps_UpdateAfterPrepared.
  - by apply keeps_UpdateAfterRedeemed.
  - by apply keeps_InsertMint.
  - by apply keeps_UpdateMint.
Qed.
End inv.

(** ** What the operations do, on a driver that does not fail *)
Section spec.
Context `{EL : EthLibLaws, GL : GobLaws}.

Definition redeem_at (s : StateDB) (h : bytes) : option redeem_row :=
  find_row row_requestTxHash (redeem_table s) (hex_encode h).
Definition mint_at (s : StateDB) (h : bytes) : option mint_row :=
  find_row mr_btcTxId (mint_table s) (hex_encode h).

Lemma prepare_ok s q : db_fault s = no_faults -> prepare q s = (Ok tt, s).
Proof. intros H. unfold prepare, may_fail. by rewrite H. Qed.
Lemma exec_ok s q : db_fault s = no_faults -> exec q s = (Ok tt, s).
Proof. intros H. unfold exec, may_fail. by rewrite H. Qed.

Lemma GetKeyedValue_eq s k :
  db_fault s = no_faults ->
  GetKeyedValue k s = (Ok (HexStrToBytes32 <$> kv_table s !! hex_encode k), s).
Proof.
  intros Hf. unfold GetKeyedValue. mstep. rewrite prepare_ok by done. mstep.
  rewrite exec_ok by done. mstep. rewrite hash_key_hex. by destruct (_ !! _).
Qed.
Lemma SetKeyedValue_eq s k v :
  db_fault s = no_faults ->
  SetKeyedValue k v s =
    (Ok tt, set_kv (<[hex_encode k := hex_encode v]> (kv_table s)) s).
Proof.
  intros Hf. unfold SetKeyedValue. mstep. rewrite prepare_ok by done. mstep.
  rewrite exec_ok by done. mstep. by rewrite !hash_key_hex.
Qed.
Lemma GetRedeem_eq s h :
  db_fault s = no_faults ->
  GetRedeem h s = (match redeem_at s h with
                   | None => Ok None
                   | Some row => Some <$> read_redeem row
                   end, s).
Proof.
  intros Hf. unfold GetRedeem, redeem_at. mstep. rewrite prepare_ok by done. mstep.
  rewrite exec_ok by done. mstep. rewrite hash_key_hex.
  destruct (find_row _ _ _) as [row|]; [|done]. mstep. by destruct (read_redeem row).
Qed.
Lemma HasRedeem_eq s h :
  db_fault s = no_faults -> HasRedeem h s = (Ok (row_status <$> redeem_at s h), s).
Proof.
  intros Hf. unfold HasRedeem, redeem_at. mstep. rewrite prepare_ok by done. mstep.
  rewrite exec_ok by done. mstep. by rewrite hash_key_hex.
Qed.
Lemma GetMint_eq s h :
  db_fault s = no_faults ->
  GetMint h s = (Ok ((fun row => sqlMint_decode (scan_mint row)) <$> mint_at s h), s).
Proof.
  intros Hf. unfold GetMint, mint_at. mstep. rewrite prepare_ok by done. mstep.
  rewrite exec_ok by done. mstep. by rewrite hash_key_hex.
Qed.
Lemma GetUnMinted_eq s :
  db_fault s = no_faults ->
  GetUnMinted s = (Ok ((fun row => sqlMint_decode (scan_unminted row))
                         <$> filter (fun row => mr_mintTxHash row = None) (mint_table s)), s).
Proof.
  intros Hf. unfold GetUnMinted. mstep. rewrite prepare_ok by done. mstep.
  rewrite exec_ok by done. done.
Qed.

Lemma read_redeem_Ok row :
  redeem_row_wf row -> redeem_check row = true ->
  exists r, read_redeem row = Ok r /\ Redeem_wf r /\ Status r = row_status row /\
    hash_key (RequestTxHash r) = row_requestTxHash row /\ Receiver r = row_receiver row /\
    Amount r = Some (row_amount row).
Proof.
  intros ((h & Hh & Hk) & Hp & Hb & _ & Ha & Ho) Hc. unfold read_redeem, sqlRedeem_decode.
  assert (0 < row_amount row) as Hpos.
  { unfold redeem_check in Hc. rewrite !andb_true_iff in Hc. lia. }
  destruct row as [rq pr bt re rc am op st]. cbn in *. subst rq.
  assert (exists o, DecodeOutpoints op = Ok o /\ forall l, o = Some l -> Forall BtcOutpoint_wf l)
    as (o & Hd & Hol).
  { destruct op as [b|]; [|by exists None]. destruct (Ho b eq_refl) as (l & Hl & ->).
    exists (decoded_slice l). split; [exact (DecodeOutpoints_encode (Some l) ltac:(by intros ? [= <-]))|].
    destruct l; [done|]. by intros ? [= <-]. }
  rewrite Hd. eexists. split; [done|]. split_and!; try done; cbn.
  - unfold Redeem_wf. cbn. split_and!; try apply HexStrToBytes32_length; [|done].
    exists am. split; [done|lia].
  - rewrite hash_key_hex. f_equal. by apply HexStrToBytes32_0x.
Qed.

(** the row that [InsertAfterRequested] inserts *)
Definition requested_row (r : Redeem) (a : Z) : redeem_row := {|
  row_requestTxHash := hex_encode (RequestTxHash r); row_prepareTxHash := None;
  row_btcTxId := None; row_requester := hex_encode (Requester r);
  row_receiver := Receiver r; row_amount := a; row_outpoints := None; row_status := Status r |}.
Definition requested_part (r : Redeem) : Redeem := {|
  RequestTxHash := RequestTxHash r; PrepareTxHash := zeros 32; r_BtcTxId := zeros 32;
  Requester := Requester r; Receiver := Receiver r; Amount := Amount r; Outpoints := None;
  Status := Status r |}.

Lemma sqlRedeem_encode_eq r a :
  Amount r = Some a -> 0 <= a < 2 ^ 64 ->
  sqlRedeem_encode r = Ok {|
    s_RequestTxHash := hex_encode (RequestTxHash r); s_PrepareTxHash := hex_encode (PrepareTxHash r);
    s_BtcTxId := hex_encode (r_BtcTxId r); s_Requester := hex_encode (Requester r);
    s_Receiver := Receiver r; s_Amount := a; s_Outpoints := gob_Encode <$> Outpoints r;
    s_Status := Status r |}.
Proof.
  intros Ha Hr. unfold sqlRedeem_encode. rewrite Ha. cbn.
  rewrite !HashString_drop, ByteSliceToPureHexStr_eq, big_Uint64_small by done.
  by destruct (Outpoints r).
Qed.
Lemma bind_uint64_small n : n < 2 ^ 63 -> bind_uint64 n = Ok n.
Proof. intros. unfold bind_uint64. by replace (n <? 2 ^ 63) with true by lia. Qed.

Lemma InsertAfterRequested_eq s r a :
  db_fault s = no_faults -> Amount r = Some a -> 0 <= a < 2 ^ 63 ->
  InsertAfterRequested r s = insert_or_ignore_redeem (requested_row r a) s.
Proof.
  intros Hf Ha Hr. unfold InsertAfterRequested. mstep. rewrite prepare_ok by done. mstep.
  rewrite (sqlRedeem_encode_eq r a) by (done || lia). cbn [s_Amount].
  mstep. rewrite bind_uint64_small by lia. mstep. rewrite exec_ok by done. mstep. done.
Qed.

Lemma redeemTable_snoc t row :
  redeemTable t = true -> row_btcTxId row = None ->
  (forall p, row_prepareTxHash row = Some p -> p ∉ omap row_prepareTxHash t) ->
  redeemTable (t ++ [row]) =
    redeem_check row && bool_decide (row_requestTxHash row ∉ row_requestTxHash <$> t).
Proof.
  intros Ht Hb Hp. apply redeemTable_spec in Ht as (H1 & H2 & H3 & H4).
  apply eq_true_iff_eq. rewrite redeemTable_spec, andb_true_iff, bool_decide_eq_true.
  rewrite Forall_app, Forall_singleton, fmap_app, !omap_app. cbn. rewrite Hb, app_nil_r.
  assert (NoDup (omap row_prepareTxHash t ++
    match row_prepareTxHash row with Some y => [y] | None => [] end)) as H5.
  { destruct (row_prepareTxHash row) as [p|]; [|by rewrite app_nil_r].
    apply NoDup_app. split_and!; [done| |apply NoDup_singleton].
    intros x Hx ->%list_elem_of_singleton. by apply (Hp p). }
  rewrite NoDup_app. split.
  - intros ((_ & Hc) & (_ & Hd & _) & _). split; [done|]. intros Hin. by apply (Hd _ Hin); left.
  - intros [Hc Hn]. split_and!; try done; [|apply NoDup_singleton].
    intros x Hx ->%list_elem_of_singleton. done.
Qed.

Lemma hex_zero_32 h : length h = 32%nat -> (hex_encode h = strZeroBytes32 <-> h = zeros 32).
Proof.
  intros Hh. change strZeroBytes32 with (hex_encode (zeros 32)).
  split; [apply (inj hex_encode)|by intros ->].
Qed.
Lemma hex_zero_20 h : hex_encode h = strZeroBytes20 <-> h = zeros 20.
Proof.
  change strZeroBytes20 with (hex_encode (zeros 20)).
  split; [apply (inj hex_encode)|by intros ->].
Qed.
Definition status_known (st : string) : Prop :=
  st ∈ [RedeemStatusRequested; RedeemStatusPrepared; RedeemStatusCompleted; RedeemStatusInvalid].
Lemma status_known_check st :
  (String.eqb st "requested" || String.eqb st "prepared" || String.eqb st "completed"
   || String.eqb st "invalid") = true <-> status_known st.
Proof.
  unfold status_known. rewrite !orb_true_iff, !String.eqb_eq.
  rewrite !elem_of_cons, elem_of_nil. tauto.
Qed.
(** the CHECK constraints on the row of a request *)
Lemma requested_row_check r a :
  length (RequestTxHash r) = 32%nat ->
  redeem_check (requested_row r a) = true <->
  status_known (Status r) /\ 0 < a /\ RequestTxHash r <> zeros 32 /\ Requester r <> zeros 20.
Proof.
  intros Hl. unfold redeem_check. cbn [requested_row row_status row_amount row_requestTxHash
    row_prepareTxHash row_btcTxId row_requester not_null_zero].
  rewrite !andb_true_iff, status_known_check, !negb_true_iff, !String.eqb_neq, Z.ltb_lt.
  rewrite hex_zero_32, hex_zero_20 by done. tauto.
Qed.
Lemma read_requested_row r a :
  length (RequestTxHash r) = 32%nat -> Amount r = Some a ->
  read_redeem (requested_row r a) = Ok (requested_part r).
Proof.
  intros Hl Ha. unfold read_redeem, sqlRedeem_decode. cbn -[HexStrToBytes32 HexStrToByteSlice].
  unfold requested_part. rewrite HexStrToBytes32_0x by done.
  change ("0x" +:+ default "" None)%string with ("0x" +:+ "")%string.
  rewrite HexStrToBytes32_empty, HexStrToByteSlice_hex. by rewrite Ha.
Qed.
Lemma redeem_at_app s row h :
  redeem_at (set_redeems (redeem_table s ++ [row]) s) h =
  match redeem_at s h with
  | Some r => Some r
  | None => if decide (row_requestTxHash row = hex_encode h) then Some row else None
  end.
Proof. unfold redeem_at. cbn [redeem_table set_redeems]. by rewrite find_row_app, find_row_cons. Qed.

(** Inserting a requested redeem always succeeds. It is stored, and read back with
    empty prepare and Bitcoin fields, exactly when its status is known, its amount is
    positive, its hash and its requester are not zero and the hash is new; otherwise it is
    silently dropped and nothing changes. All other redeems are unaffected. *)
Theorem InsertAfterRequested_spec s r a :
  StateDB_inv s -> db_fault s = no_faults ->
  length (RequestTxHash r) = 32%nat -> Amount r = Some a -> 0 <= a < 2 ^ 63 ->
  let '(o, s') := InsertAfterRequested r s in
  o = Ok tt /\
  (redeem_at s (RequestTxHash r) = None ->
   status_known (Status r) /\ 0 < a /\ RequestTxHash r <> zeros 32 /\ Requester r <> zeros 20 ->
   result (GetRedeem (RequestTxHash r)) s' = Ok (Some (requested_part r)) /\
   forall h, h <> RequestTxHash r -> result (GetRedeem h) s' = result (GetRedeem h) s) /\
  (redeem_at s (RequestTxHash r) <> None \/
   ~ (status_known (Status r) /\ 0 < a /\ RequestTxHash r <> zeros 32 /\ Requester r <> zeros 20) ->
   s' = s).
Proof.
  intros Hinv Hf Hl Ha Hr. rewrite (InsertAfterRequested_eq s r a) by done.
  unfold insert_or_ignore_redeem. destruct Hinv as (Ht & _).
  rewrite redeemTable_snoc by done. pose proof (requested_row_check r a Hl) as Hc.
  split; [done|]. split.
  - intros Hn Hv. rewrite (proj2 Hc Hv).
    rewrite bool_decide_eq_true_2 by (by apply find_row_None in Hn). cbn [andb].
    unfold result. split; [|intros h Hh]; rewrite !GetRedeem_eq by done; cbn [fst];
      rewrite redeem_at_app.
    + rewrite Hn, decide_True by done. by rewrite (read_requested_row r a).
    + destruct (redeem_at s h); [done|]. rewrite decide_False; [done|].
      cbn. intros ?%(inj hex_encode). done.
  - intros Hv. destruct (redeem_check _) eqn:Hck; [|done].
    destruct Hv as [Hn|Hn]; [|by destruct Hn; apply Hc].
    rewrite bool_decide_eq_false_2; [done|]. intros Hm. apply Hn, find_row_None, Hm.
Qed.

(** ** Mints *)
Lemma mint_at_read s m row :
  StateDB_inv s -> mint_at s m = Some row ->
  mint_row_wf row /\ mint_check row = true /\ row ∈ mint_table s /\ mr_btcTxId row = hex_encode m.
Proof.
  intros (_ & Ht & _ & Hw & _) [Hin Hk]%find_row_Some.
  apply mintTable_spec in Ht as (Hc & _). rewrite Forall_forall in Hw, Hc. auto.
Qed.
Definition minted_row (m : Mint) (a : Z) : mint_row := {|
  mr_btcTxId := hex_encode (m_BtcTxId m);
  mr_mintTxHash := if decide (m_MintTxHash m = zeros 32) then None
                   else Some (hex_encode (m_MintTxHash m));
  mr_receiver := hex_encode (m_Receiver m); mr_amount := a |}.

Lemma InsertMint_eq s m a :
  db_fault s = no_faults -> m_Amount m = Some a -> 0 <= a < 2 ^ 63 ->
  InsertMint m s = commit_mints (mint_table s ++ [minted_row m a]) s.
Proof.
  intros Hf Ha Hr. unfold InsertMint. mstep. rewrite prepare_ok by done. mstep.
  unfold sqlMint_encode. rewrite Ha. cbn [big_Uint64_ptr mbind outcome_bind].
  rewrite big_Uint64_small by lia. cbn [sm_Amount]. mstep.
  rewrite bind_uint64_small by lia. mstep. rewrite exec_ok by done. mstep.
  cbn [sm_BtcTxId sm_Receiver]. rewrite EmptyHash_zeros, ByteSliceToPureHexStr_eq, !HashString_drop, hash_key_hex.
  unfold minted_row. case_bool_decide; cbn [negb]; by case_decide.
Qed.
Lemma UpdateMint_found s m a row :
  db_fault s = no_faults -> mint_at s (m_BtcTxId m) = Some row -> m_Amount m = Some a ->
  UpdateMint m s =
  commit_mints (update_rows mr_btcTxId (mint_table s) (hex_encode (m_BtcTxId m))
                  (set_minted (hex_encode (m_MintTxHash m)))) s.
Proof.
  intros Hf Hrow Ha. unfold UpdateMint. mstep. rewrite GetMint_eq, Hrow by done.
  cbn [fmap option_fmap option_map]. mstep. rewrite prepare_ok by done. mstep.
  unfold sqlMint_encode. rewrite Ha. cbn [big_Uint64_ptr mbind outcome_bind].
  mstep. rewrite exec_ok by done. mstep. cbn [sm_BtcTxId sm_MintTxHash]. by rewrite !HashString_drop.
Qed.
Lemma UpdateMint_new s m :
  db_fault s = no_faults -> mint_at s (m_BtcTxId m) = None -> UpdateMint m s = InsertMint m s.
Proof. intros Hf Hrow. unfold UpdateMint. mstep. by rewrite GetMint_eq, Hrow. Qed.

Lemma mintTable_snoc t row :
  mintTable t = true -> mint_check row = true -> mr_btcTxId row ∉ mr_btcTxId <$> t ->
  (forall p, mr_mintTxHash row = Some p -> p ∉ omap mr_mintTxHash t) ->
  mintTable (t ++ [row]) = true.
Proof.
  intros Ht Hc Hk Hp. apply mintTable_spec in Ht as (H1 & H2 & H3). apply mintTable_spec.
  rewrite Forall_app, Forall_singleton, fmap_app, omap_app. cbn.
  split_and!; [done..| |].
  - apply NoDup_app. split_and!; [done| |apply NoDup_singleton].
    by intros x Hx ->%list_elem_of_singleton.
  - destruct (mr_mintTxHash row) as [p|]; [|by rewrite app_nil_r].
    apply NoDup_app. split_and!; [done| |apply NoDup_singleton].
    intros x Hx ->%list_elem_of_singleton. by apply (Hp p).
Qed.

(** A deposit that is not minted yet, and a mint that is *)
Definition pending_mint (m : Mint) (a : Z) : Prop :=
  length (m_BtcTxId m) = 32%nat /\ m_BtcTxId m <> zeros 32 /\ m_MintTxHash m = zeros 32 /\
  m_Receiver m <> zeros 20 /\ m_Amount m = Some a /\ 0 < a < 2 ^ 63.
Definition with_hash (m : Mint) (h : bytes) : Mint := {|
  m_BtcTxId := m_BtcTxId m; m_MintTxHash := h; m_Receiver := m_Receiver m;
  m_Amount := m_Amount m |}.
Definition unminted (s : StateDB) : list Mint :=
  (fun row => sqlMint_decode (scan_unminted row))
    <$> filter (fun row => mr_mintTxHash row = None) (mint_table s).
Definition pending_row (m : Mint) (a : Z) (h : option string) : mint_row := {|
  mr_btcTxId := hex_encode (m_BtcTxId m); mr_mintTxHash := h;
  mr_receiver := hex_encode (m_Receiver m); mr_amount := a |}.

Section flow.
Variables (s : StateDB) (m : Mint) (a : Z).
Hypotheses (Hinv : StateDB_inv s) (Hf : db_fault s = no_faults) (Hm : pending_mint m a).
Hypothesis Hnew : mint_at s (m_BtcTxId m) = None.

Lemma pending_row_check h : mint_check (pending_row m a h) = true.
Proof.
  destruct Hm as (Hl & Hz & _ & Hrc & _ & Ha). unfold mint_check. cbn [pending_row mr_amount mr_btcTxId mr_receiver].
  rewrite !andb_true_iff, !negb_true_iff, !String.eqb_neq, Z.ltb_lt, hex_zero_32, hex_zero_20 by done.
  tauto.
Qed.
Lemma pending_table h :
  (forall p, h = Some p -> p ∉ omap mr_mintTxHash (mint_table s)) ->
  mintTable (mint_table s ++ [pending_row m a h]) = true.
Proof.
  intros Hh. apply mintTable_snoc; [by destruct Hinv as (_ & ? & _)|apply pending_row_check| |done].
  by apply find_row_None in Hnew.
Qed.
Definition with_pending (h : option string) : StateDB :=
  set_mints (mint_table s ++ [pending_row m a h]) s.
Lemma pending_at h : mint_at (with_pending h) (m_BtcTxId m) = Some (pending_row m a h).
Proof.
  unfold mint_at, with_pending. cbn [set_mints mint_table]. rewrite find_row_app, find_row_cons.
  unfold mint_at in Hnew. rewrite Hnew. by rewrite decide_True.
Qed.
Lemma update_pending h h' :
  update_rows mr_btcTxId (mint_table (with_pending h)) (hex_encode (m_BtcTxId m)) (set_minted h')
  = mint_table s ++ [pending_row m a (Some h')].
Proof.
  cbn [with_pending set_mints mint_table]. rewrite update_rows_app.
  rewrite update_rows_notin by (by apply find_row_None in Hnew). f_equal.
  cbn. by rewrite decide_True.
Qed.
Lemma pending_insert : UpdateMint m s = (Ok tt, with_pending None).
Proof.
  destruct Hm as (Hl & Hz & Hh & Hrc & Ha & Hr).
  rewrite UpdateMint_new, (InsertMint_eq s m a) by (done || lia).
  unfold minted_row. rewrite decide_True by done. unfold commit_mints.
  change {| mr_btcTxId := _ |} with (pending_row m a None). by rewrite pending_table.
Qed.
Lemma pending_update h :
  hex_encode h ∉ omap mr_mintTxHash (mint_table s) ->
  UpdateMint (with_hash m h) (with_pending None) = (Ok tt, with_pending (Some (hex_encode h))).
Proof.
  intros Hn. destruct Hm as (Hl & Hz & Hh & Hrc & Ha & Hr).
  rewrite (UpdateMint_found _ _ a (pending_row m a None)); [|done|exact (pending_at None)|done].
  cbn [with_hash m_BtcTxId m_MintTxHash]. rewrite update_pending. unfold commit_mints.
  rewrite pending_table; [done|]. by intros p [= <-].
Qed.
Lemma pending_read h :
  length h = 32%nat ->
  sqlMint_decode (scan_mint (pending_row m a (Some (hex_encode h)))) = with_hash m h.
Proof.
  intros Hh. destruct Hm as (Hl & Hz & _ & Hrc & Ha & Hr). unfold sqlMint_decode, with_hash.
  cbn [pending_row scan_mint sm_BtcTxId sm_MintTxHash sm_Receiver sm_Amount mr_btcTxId mr_mintTxHash
       mr_receiver mr_amount default id].
  rewrite !HexStrToBytes32_0x, HexStrToByteSlice_hex, Ha by done.
  done.
Qed.
Lemma pending_read_unminted :
  sqlMint_decode (scan_unminted (pending_row m a None)) = m.
Proof.
  destruct m as [bt mh rc am]. destruct Hm as (Hl & Hz & Hh & Hrc & Ha & Hr).
  unfold sqlMint_decode. cbn in Hl, Hh, Ha. subst.
  cbn [pending_row scan_unminted sm_BtcTxId sm_MintTxHash sm_Receiver sm_Amount mr_btcTxId
       mr_receiver mr_amount m_BtcTxId m_Receiver].
  change ("0x" +:+ EmptyString)%string with ("0x" +:+ "")%string. rewrite HexStrToBytes32_empty.
  rewrite !HexStrToBytes32_0x, HexStrToByteSlice_hex by done.
  done.
Qed.
Lemma unminted_pending h :
  unminted (with_pending h) = unminted s ++ match h with None => [m] | Some _ => [] end.
Proof.
  unfold unminted, with_pending. cbn [set_mints mint_table]. rewrite filter_app, fmap_app. f_equal.
  destruct h as [h|]; [done|]. rewrite filter_cons_True by done. cbn. f_equal.
  apply pending_read_unminted.
Qed.

(** A new deposit is queued and reported by [GetUnMinted] after the ones already
    waiting; once its mint is observed it is no longer reported and [GetMint] returns it
    with the hash of the mint transaction. *)
Theorem mint_flow h :
  length h = 32%nat -> hex_encode h ∉ omap mr_mintTxHash (mint_table s) ->
  exists s1 s2,
    UpdateMint m s = (Ok tt, s1) /\ UpdateMint (with_hash m h) s1 = (Ok tt, s2) /\
    result GetUnMinted s1 = Ok (unminted s ++ [m]) /\
    result GetUnMinted s2 = Ok (unminted s) /\
    result (GetMint (m_BtcTxId m)) s2 = Ok (Some (with_hash m h)).
Proof.
  intros Hl Hn. exists (with_pending None), (with_pending (Some (hex_encode h))).
  unfold result. rewrite !GetUnMinted_eq, GetMint_eq, pending_at by done.
  split_and!; [apply pending_insert|by apply pending_update| | |].
  - exact (f_equal Ok (unminted_pending None)).
  - cbn [fst]. f_equal. etrans; [apply unminted_pending|apply app_nil_r].
  - cbn [fst fmap option_fmap option_map]. do 2 f_equal. by apply pending_read.
Qed.

(** Observing the same deposit twice before it is minted loses it: the second
    [UpdateMint] writes the zero hash into the row, so [GetUnMinted] no longer reports the
    deposit although [GetMint] still returns it without a mint transaction. *)
Theorem reobserved_deposit_lost :
  hex_encode (zeros 32) ∉ omap mr_mintTxHash (mint_table s) ->
  exists s1 s2,
    UpdateMint m s = (Ok tt, s1) /\ UpdateMint m s1 = (Ok tt, s2) /\
    result GetUnMinted s1 = Ok (unminted s ++ [m]) /\
    result GetUnMinted s2 = Ok (unminted s) /\
    result (GetMint (m_BtcTxId m)) s2 = Ok (Some m).
Proof.
  intros Hn. assert (with_hash m (zeros 32) = m) as Hw.
  { destruct m, Hm as (_ & _ & ? & _). unfold with_hash. cbn in *. congruence. }
  exists (with_pending None), (with_pending (Some (hex_encode (zeros 32)))).
  unfold result. rewrite !GetUnMinted_eq, GetMint_eq, pending_at by done.
  split_and!; [apply pending_insert|rewrite <-Hw at 1; by apply pending_update| | |].
  - exact (f_equal Ok (unminted_pending None)).
  - cbn [fst]. f_equal. etrans; [apply unminted_pending|apply app_nil_r].
  - cbn [fst fmap option_fmap option_map]. do 2 f_equal. rewrite pending_read by done. done.
Qed.
End flow.
End spec.

(** ** Concrete inputs *)
Definition sample_mint : Mint := {|
  m_BtcTxId := sample_hash 9; m_MintTxHash := zeros 32;
  m_Receiver := replicate 20 (byte_of_Z 7); m_Amount := Some 500 |}.
Lemma sample_pending : pending_mint sample_mint 500.
Proof. unfold pending_mint. split_and!; try done. Qed.
Definition sample_db : StateDB := NewStateDB no_faults.
Lemma sample_db_inv : StateDB_inv sample_db.
Proof. split_and!; try done; constructor. Qed.

Lemma StateDB_writes_preserve_witness :
  StateDB_inv (run (apply_write (WUpdateMint sample_mint)) sample_db) /\
  mint_table (run (apply_write (WUpdateMint sample_mint)) sample_db) <> [].
Proof.
  split; [|vm_compute; done].
  apply (StateDB_writes_preserve (WUpdateMint sample_mint) sample_db); [done|exact sample_db_inv].
Defined.
Lemma InsertAfterRequested_spec_witness :
  exists s', InsertAfterRequested sample_redeem sample_db = (Ok tt, s') /\
    result (GetRedeem (sample_hash 1)) s' = Ok (Some (requested_part sample_redeem)).
Proof.
  pose proof (InsertAfterRequested_spec sample_db sample_redeem 100 sample_db_inv eq_refl
    eq_refl eq_refl ltac:(lia)) as H.
  destruct (InsertAfterRequested sample_redeem sample_db) as [o s']. destruct H as (-> & H & _).
  exists s'. split; [done|]. apply H; [done|]. split_and!; try done.
  unfold status_known. set_solver.
Defined.
Lemma mint_flow_witness :
  exists s1 s2,
    UpdateMint sample_mint sample_db = (Ok tt, s1) /\
    UpdateMint (with_hash sample_mint (sample_hash 3)) s1 = (Ok tt, s2) /\
    result GetUnMinted s1 = Ok (unminted sample_db ++ [sample_mint]) /\
    result GetUnMinted s2 = Ok (unminted sample_db) /\
    result (GetMint (m_BtcTxId sample_mint)) s2 = Ok (Some (with_hash sample_mint (sample_hash 3))).
Proof.
  apply (mint_flow sample_db sample_mint 500 sample_db_inv eq_refl sample_pending eq_refl
    (sample_hash 3) eq_refl). apply not_elem_of_nil.
Defined.
Lemma reobserved_deposit_lost_witness :
  exists s1 s2,
    UpdateMint sample_mint sample_db = (Ok tt, s1) /\ UpdateMint sample_mint s1 = (Ok tt, s2) /\
    result GetUnMinted s1 = Ok (unminted sample_db ++ [sample_mint]) /\
    result GetUnMinted s2 = Ok (unminted sample_db) /\
    result (GetMint (m_BtcTxId sample_mint)) s2 = Ok (Some sample_mint).
Proof.
  apply (reobserved_deposit_lost sample_db sample_mint 500 sample_db_inv eq_refl sample_pending
    eq_refl). apply not_elem_of_nil.
Defined.
