(* ===== verification/State.v ===== *)
(** * State: the bridge state (state/state.go, state_eth2btc.go, config.go).

    One definition per operation of [State], over its database and its in-memory cache, and
    [Start]'s select loop as a transition system: the buffered channels are queues, the
    environment may append to a queue that is not full, and the loop takes one ready
    case at a time. A send on a full channel blocks the goroutine. *)
From S2P Require Export StateDB.

(** ** The state *)
Record StateConfig := { ChannelSize : nat; UniqueChainId : Z }.
Record State := {
  statedb : StateDB; cfg : StateConfig;
  newEthFinalizedBlockCh : list Z; newBtcFinalizedBlockCh : list Z;
  newMintedEventCh : list MintedEvent; newRedeemRequestedEvCh : list RedeemRequestedEvent;
  newRedeemPreparedEvCh : list RedeemPreparedEvent;
  (** the cache: [atomic.Value]s that hold a big-endian byte slice once stored *)
  lastEthFinalized : option bytes; ethChainId : option bytes; lastBtcFinalized : option bytes }.

Definition set_statedb (d : StateDB) (st : State) : State := {|
  statedb := d; cfg := cfg st; newEthFinalizedBlockCh := newEthFinalizedBlockCh st;
  newBtcFinalizedBlockCh := newBtcFinalizedBlockCh st; newMintedEventCh := newMintedEventCh st;
  newRedeemRequestedEvCh := newRedeemRequestedEvCh st;
  newRedeemPreparedEvCh := newRedeemPreparedEvCh st; lastEthFinalized := lastEthFinalized st;
  ethChainId := ethChainId st; lastBtcFinalized := lastBtcFinalized st |}.
Definition set_cache (eth chain btc : option bytes) (st : State) : State := {|
  statedb := statedb st; cfg := cfg st; newEthFinalizedBlockCh := newEthFinalizedBlockCh st;
  newBtcFinalizedBlockCh := newBtcFinalizedBlockCh st; newMintedEventCh := newMintedEventCh st;
  newRedeemRequestedEvCh := newRedeemRequestedEvCh st;
  newRedeemPreparedEvCh := newRedeemPreparedEvCh st; lastEthFinalized := eth;
  ethChainId := chain; lastBtcFinalized := btc |}.
Definition set_channels (blk btc : list Z) (mi : list MintedEvent)
    (rq : list RedeemRequestedEvent) (pr : list RedeemPreparedEvent) (st : State) : State := {|
  statedb := statedb st; cfg := cfg st; newEthFinalizedBlockCh := blk;
  newBtcFinalizedBlockCh := btc; newMintedEventCh := mi; newRedeemRequestedEvCh := rq;
  newRedeemPreparedEvCh := pr; lastEthFinalized := lastEthFinalized st;
  ethChainId := ethChainId st; lastBtcFinalized := lastBtcFinalized st |}.

Definition on_db {A} (m : M StateDB A) : M State A := zoom statedb set_statedb m.

Definition ErrSetEthFinalizedBlockNumber : error := "failed to set eth finalized block number in statedb".
Definition ErrGetEthFinalizedBlockNumber : error := "failed to get eth finalized block number from statedb".
Definition ErrStoredEthFinalizedBlockNumberInvalid : error := "stored eth finalized block number is invalid".
Definition ErrKeyValueNotFound : error := "key value not found".
Definition ErrGetEthChainId : error := "failed to get eth chain id from statedb".
Definition ErrSetEthChainId : error := "failed to set eth chain id in statedb".
Definition ErrEthChainIdUnmatchedStored : error := "current chain id does not match the stored".
Definition ErrUpdateInvalidRedeem : error := "redeem is invalid and cannot be updated".
Definition ErrPreparedEventUnmatched : error := "redeem prepared event is unmatched with stored requested redeem".
Definition ErrPreparedEventInvalid : error := "redeem prepared event is invalid".
Definition ErrRequestedEventInvalid : error := "redeem requested event is invalid".
Definition ErrDBOpUpdateRedeem : error := "failed to update redeem in statedb".
Definition ErrDBOpGetRedeem : error := "failed to get redeem from statedb".
Definition ErrDBOpHasRedeem : error := "failed to check redeem existence".
Definition ErrDBOpInsertRedeem : error := "failed to insert redeem in statedb".
Definition ErrDBOpUpdateMint : error := "failed to update mint in statedb".

Section state.
Context `{E : EthLib, G : GobLib}.

Definition KeyEthFinalizedBlock : bytes := Keccak256Hash (bytes_of_string "KeyEthFinalizedBlock").
Definition KeyBtcFinalizedBlock : bytes := Keccak256Hash (bytes_of_string "KeyBtcFinalizedBlock").
Definition KeyEthChainId : bytes := Keccak256Hash (bytes_of_string "KeyEthChainId").

Definition store_eth (b : bytes) : M State unit :=
  modify (fun st => set_cache (Some b) (ethChainId st) (lastBtcFinalized st) st).
Definition store_chain (b : bytes) : M State unit :=
  modify (fun st => set_cache (lastEthFinalized st) (Some b) (lastBtcFinalized st) st).
Definition store_btc (b : bytes) : M State unit :=
  modify (fun st => set_cache (lastEthFinalized st) (ethChainId st) (Some b) st).

(** ** state_eth2btc.go *)
Definition initEthFinalizedBlock : M State unit :=
  stored ← with_err ErrGetEthFinalizedBlockNumber (on_db (GetKeyedValue KeyEthFinalizedBlock));
  match stored with
  | None =>
      b ← lift (BigInt2Bytes32 EthStartingBlock);
      with_err ErrSetEthFinalizedBlockNumber (on_db (SetKeyedValue KeyEthFinalizedBlock b)) ;;
      store_eth (big_Bytes EthStartingBlock)
  | Some storedBytes32 =>
      let stored := big_SetBytes storedBytes32 in
      if stored <? EthStartingBlock then throw ErrStoredEthFinalizedBlockNumberInvalid
      else store_eth (big_Bytes stored)
  end.
Definition initEthChainID : M State unit :=
  stored ← with_err ErrGetEthChainId (on_db (GetKeyedValue KeyEthChainId));
  chainId ← gets (fun st => UniqueChainId (cfg st));
  match stored with
  | None =>
      b ← lift (BigInt2Bytes32 chainId);
      with_err ErrSetEthChainId (on_db (SetKeyedValue KeyEthChainId b)) ;;
      store_chain (big_Bytes chainId)
  | Some storedBytes32 =>
      let stored := big_SetBytes storedBytes32 in
      if negb (stored =? chainId) then throw ErrEthChainIdUnmatchedStored
      else store_chain (big_Bytes stored)
  end.

(** ** state.go *)
Definition State_init (db : StateDB) (c : StateConfig) : State := {|
  statedb := db; cfg := c; newEthFinalizedBlockCh := []; newBtcFinalizedBlockCh := [];
  newMintedEventCh := []; newRedeemRequestedEvCh := []; newRedeemPreparedEvCh := [];
  lastEthFinalized := None; ethChainId := None; lastBtcFinalized := None |}.
(** The state is returned only when both steps succeed; the database keeps their writes. *)
Definition New (db : StateDB) (c : StateConfig) : outcome State * StateDB :=
  let '(o, st) := (initEthFinalizedBlock ;; initEthChainID) (State_init db c) in
  ((fun _ => st) <$> o, statedb st).

Definition GetBlockchainFinalizedBlockNumber : M State Z :=
  v ← gets lastEthFinalized;
  match v with
  | Some v => mret (big_SetBytes v)
  | None =>
      b ← on_db (GetKeyedValue KeyEthFinalizedBlock);
      match b with
      | None => throw ErrKeyValueNotFound
      | Some b => store_eth (big_Bytes (big_SetBytes b)) ;; mret (big_SetBytes b)
      end
  end.
Definition setEthFinalizedBlockNumber (fbNum : Z) : M State unit :=
  b ← lift (BigInt2Bytes32 fbNum);
  on_db (SetKeyedValue KeyEthFinalizedBlock b) ;;
  store_eth (big_Bytes fbNum).
Definition GetBtcFinalizedBlockNumber : M State Z :=
  v ← gets lastBtcFinalized;
  match v with
  | Some v => mret (big_SetBytes v)
  | None =>
      b ← on_db (GetKeyedValue KeyBtcFinalizedBlock);
      match b with
      | None => throw ErrKeyValueNotFound
      | Some b => store_btc (big_Bytes (big_SetBytes b)) ;; mret (big_SetBytes b)
      end
  end.
Definition SetBtcFinalizedBlockNumber (fbNum : Z) : M State unit :=
  b ← lift (BigInt2Bytes32 fbNum);
  on_db (SetKeyedValue KeyBtcFinalizedBlock b) ;;
  store_btc (big_Bytes fbNum).
Definition SetNewBTC2EVMMint (m : Mint) : M State unit := on_db (UpdateMint m).
Definition GetPreparedRedeems : M State (list Redeem) :=
  on_db (GetRedeemsByStatus RedeemStatusPrepared).
Definition SetRedeemCompleted (ethReqTxHash btcTxHash : bytes) : M State unit :=
  on_db (UpdateAfterRedeemed
    {| RequestTxHash := ethReqTxHash; PrepareTxHash := zeros 32; r_BtcTxId := btcTxHash;
       Requester := []; Receiver := EmptyString; Amount := None; Outpoints := None;
       Status := RedeemStatusCompleted |}).

(** *** The handlers of [Start] *)
Definition handleNewBlockNumber (blkNum : Z) : M State unit :=
  lastFinalized ← with_err ErrGetEthFinalizedBlockNumber GetBlockchainFinalizedBlockNumber;
  if lastFinalized <=? blkNum
  then with_err ErrSetEthFinalizedBlockNumber (setEthFinalizedBlockNumber blkNum)
  else mret tt.
Definition handleMintedEvent (ev : MintedEvent) : M State unit :=
  let mint := createMintFromMintedEvent ev in
  with_err ErrDBOpUpdateMint (on_db (UpdateMint mint)).
Definition handleRedeemRequestEvent (ev : RedeemRequestedEvent) : M State unit :=
  found ← with_err ErrDBOpHasRedeem (on_db (HasRedeem (rr_RequestTxHash ev)));
  match found with
  | Some _ => mret tt
  | None =>
      redeem ← lift (map_err ErrRequestedEventInvalid (createRedeemFromRequestedEvent ev));
      with_err ErrDBOpInsertRedeem (on_db (InsertAfterRequested redeem))
  end.
Definition handlePreparedEvent (ev : RedeemPreparedEvent) : M State unit :=
  found ← with_err ErrDBOpHasRedeem (on_db (HasRedeem (rp_RequestTxHash ev)));
  match found with
  | Some status =>
      if String.eqb status RedeemStatusPrepared || String.eqb status RedeemStatusCompleted
      then mret tt
      else if String.eqb status RedeemStatusInvalid then throw ErrUpdateInvalidRedeem
      else
        stored ← with_err ErrDBOpGetRedeem (on_db (GetRedeem (rp_RequestTxHash ev)));
        match stored with
        | None => throw ErrDBOpGetRedeem
        | Some redeem =>
            redeem ← lift (map_err ErrPreparedEventUnmatched (updateFromPreparedEvent redeem ev));
            with_err ErrDBOpUpdateRedeem (on_db (UpdateAfterPrepared redeem))
        end
  | None =>
      redeem ← lift (map_err ErrPreparedEventInvalid (createRedeemFromPreparedEvent ev));
      with_err ErrDBOpUpdateRedeem (on_db (UpdateAfterPrepared redeem))
  end.

(** *** The loop of [Start] *)
Inductive control :=
  | Running
  | Blocked (e : error)     (** waits to send [e] on the full [errCh] *)
  | Returned (e : error)
  | Died (why : string).    (** a panic, or [logger.Fatal] *)
Record loop := { l_st : State; errCh : list error; ctl : control }.

(** the errors the switch names; any other one is fatal *)
Definition handled_errors : list error :=
  [ErrGetEthFinalizedBlockNumber; ErrSetEthFinalizedBlockNumber; ErrDBOpUpdateMint;
   ErrDBOpHasRedeem; ErrDBOpInsertRedeem; ErrRequestedEventInvalid; ErrDBOpGetRedeem;
   ErrDBOpUpdateRedeem; ErrPreparedEventInvalid; ErrPreparedEventUnmatched;
   ErrUpdateInvalidRedeem].

(** [if err := handle(); err != nil { errCh <- err }], [errCh] with one slot *)
Definition after_handler (r : outcome unit * State) (errs : list error) : loop :=
  let '(o, st) := r in
  match o with
  | Ok _ => {| l_st := st; errCh := errs; ctl := Running |}
  | Err e => if (length errs <? 1)%nat
             then {| l_st := st; errCh := errs ++ [e]; ctl := Running |}
             else {| l_st := st; errCh := errs; ctl := Blocked e |}
  | Panic w => {| l_st := st; errCh := errs; ctl := Died w |}
  end.

(** the cases of the select *)
Inductive select_case := CtxDone | RecvErr | RecvBlk | RecvMinted | RecvRequested | RecvPrepared.
Definition select_step (c : select_case) (l : loop) : option loop :=
  let st := l_st l in
  match ctl l with
  | Running =>
      match c with
      | CtxDone => Some {| l_st := st; errCh := errCh l; ctl := Returned "context canceled" |}
      | RecvErr =>
          match errCh l with
          | [] => None
          | err :: errs =>
              Some {| l_st := st; errCh := errs;
                      ctl := if bool_decide (err ∈ handled_errors) then Returned err else Died err |}
          end
      | RecvBlk =>
          match newEthFinalizedBlockCh st with
          | [] => None
          | b :: q => Some (after_handler (handleNewBlockNumber b
              (set_channels q (newBtcFinalizedBlockCh st) (newMintedEventCh st)
                 (newRedeemRequestedEvCh st) (newRedeemPreparedEvCh st) st)) (errCh l))
          end
      | RecvMinted =>
          match newMintedEventCh st with
          | [] => None
          | ev :: q => Some (after_handler (handleMintedEvent ev
              (set_channels (newEthFinalizedBlockCh st) (newBtcFinalizedBlockCh st) q
                 (newRedeemRequestedEvCh st) (newRedeemPreparedEvCh st) st)) (errCh l))
          end
      | RecvRequested =>
          match newRedeemRequestedEvCh st with
          | [] => None
          | ev :: q => Some (after_handler (handleRedeemRequestEvent ev
              (set_channels (newEthFinalizedBlockCh st) (newBtcFinalizedBlockCh st)
                 (newMintedEventCh st) q (newRedeemPreparedEvCh st) st)) (errCh l))
          end
      | RecvPrepared =>
          match newRedeemPreparedEvCh st with
          | [] => None
          | ev :: q => Some (after_handler (handlePreparedEvent ev
              (set_channels (newEthFinalizedBlockCh st) (newBtcFinalizedBlockCh st)
                 (newMintedEventCh st) (newRedeemRequestedEvCh st) q st)) (errCh l))
          end
      end
  | _ => None
  end.

(** what other goroutines do: send on a channel that is not full, or call a method *)
Inductive input :=
  | SendBlk (b : Z) | SendBtcBlk (b : Z) | SendMinted (ev : MintedEvent)
  | SendRequested (ev : RedeemRequestedEvent) | SendPrepared (ev : RedeemPreparedEvent)
  | CallNewMint (m : Mint) | CallCompleted (req btc : bytes).
Definition env_step (i : input) (l : loop) : option loop :=
  let st := l_st l in
  let size := ChannelSize (cfg st) in
  let set st := {| l_st := st; errCh := errCh l; ctl := ctl l |} in
  let blk := newEthFinalizedBlockCh st in let btc := newBtcFinalizedBlockCh st in
  let mi := newMintedEventCh st in let rq := newRedeemRequestedEvCh st in
  let pr := newRedeemPreparedEvCh st in
  match i with
  | SendBlk b => if (length blk <? 1)%nat
                 then Some (set (set_channels (blk ++ [b]) btc mi rq pr st)) else None
  | SendBtcBlk b => if (length btc <? 1)%nat
                    then Some (set (set_channels blk (btc ++ [b]) mi rq pr st)) else None
  | SendMinted ev => if (length mi <? size)%nat
                     then Some (set (set_channels blk btc (mi ++ [ev]) rq pr st)) else None
  | SendRequested ev => if (length rq <? size)%nat
                        then Some (set (set_channels blk btc mi (rq ++ [ev]) pr st)) else None
  | SendPrepared ev => if (length pr <? size)%nat
                       then Some (set (set_channels blk btc mi rq (pr ++ [ev]) st)) else None
  | CallNewMint m => Some (set (run (SetNewBTC2EVMMint m) st))
  | CallCompleted req btcTx => Some (set (run (SetRedeemCompleted req btcTx) st))
  end.

Inductive step : loop -> loop -> Prop :=
  | step_select c l l' : select_step c l = Some l' -> step l l'
  | step_env i l l' : env_step i l = Some l' -> step l l'.
Definition start (st : State) : loop := {| l_st := st; errCh := []; ctl := Running |}.
End state.

(** ** Finalized block numbers *)
Lemma on_db_eq {A} (m : M StateDB A) st :
  on_db m st = let '(o, d) := m (statedb st) in (o, set_statedb d st).
Proof. reflexivity. Qed.
Lemma set_statedb_same st : set_statedb (statedb st) st = st.
Proof. by destruct st. Qed.
Lemma with_err_eq {S A} E (m : M S A) s :
  with_err E m s = let '(o, s') := m s in (map_err E o, s').
Proof. reflexivity. Qed.

Section finalized.
Context `{EL : EthLibLaws, GL : GobLaws}.

Definition pad32 (n : Z) : bytes := zeros (32 - length (big_Bytes n)) ++ big_Bytes n.
Lemma pad32_length n : 0 <= n < 2 ^ 256 -> length (pad32 n) = 32%nat.
Proof.
  intros Hn. pose proof (big_Bytes_length n 32 ltac:(exact Hn)).
  unfold pad32, zeros. rewrite length_app, length_replicate. lia.
Qed.
Lemma pad32_value n : 0 <= n -> big_SetBytes (pad32 n) = n.
Proof. intros. unfold pad32. rewrite big_SetBytes_zeros. by apply big_SetBytes_Bytes. Qed.

(** the last finalized block is [n], in the cache and in the database *)
Definition finalized_is (st : State) (n : Z) : Prop :=
  lastEthFinalized st = Some (big_Bytes n) /\
  kv_table (statedb st) !! hex_encode KeyEthFinalizedBlock = Some (hex_encode (pad32 n)).

Lemma setEth_eq st n :
  db_fault (statedb st) = no_faults -> 0 <= n < 2 ^ 256 ->
  exists st', setEthFinalizedBlockNumber n st = (Ok tt, st') /\ finalized_is st' n /\
    redeem_table (statedb st') = redeem_table (statedb st) /\
    mint_table (statedb st') = mint_table (statedb st) /\
    db_fault (statedb st') = no_faults /\ cfg st' = cfg st /\
    (forall k, k <> hex_encode KeyEthFinalizedBlock -> kv_table (statedb st') !! k = kv_table (statedb st) !! k).
Proof.
  intros Hf Hn. unfold setEthFinalizedBlockNumber. mstep. rewrite BigInt2Bytes32_ok by done. mstep.
  rewrite on_db_eq, SetKeyedValue_eq by done. eexists. split; [reflexivity|].
  split_and!; try done; [split; [done|]; apply lookup_insert_eq|].
  intros k Hk. cbn. by rewrite lookup_insert_ne.
Qed.

Lemma GetBlockchain_finalized st n :
  0 <= n -> finalized_is st n -> GetBlockchainFinalizedBlockNumber st = (Ok n, st).
Proof.
  intros Hn [Hc _]. unfold GetBlockchainFinalizedBlockNumber. mstep. rewrite Hc. mstep.
  by rewrite big_SetBytes_Bytes.
Qed.

Lemma handleNewBlockNumber_finalized st n b :
  db_fault (statedb st) = no_faults -> 0 <= n < 2 ^ 256 -> 0 <= b < 2 ^ 256 ->
  finalized_is st n ->
  exists st', handleNewBlockNumber b st = (Ok tt, st') /\ finalized_is st' (Z.max n b) /\
    result GetBlockchainFinalizedBlockNumber st' = Ok (Z.max n b) /\
    redeem_table (statedb st') = redeem_table (statedb st) /\
    mint_table (statedb st') = mint_table (statedb st) /\
    db_fault (statedb st') = no_faults /\ cfg st' = cfg st /\
    (forall k, k <> hex_encode KeyEthFinalizedBlock -> kv_table (statedb st') !! k = kv_table (statedb st) !! k).
Proof.
  intros Hf Hn Hb Hfin. unfold handleNewBlockNumber. mstep.
  rewrite with_err_eq, (GetBlockchain_finalized st n) by (done || lia). cbn [map_err].
  destruct (Z.leb_spec n b).
  - destruct (setEth_eq st b Hf Hb) as (st' & Heq & Hfin' & ? & ? & ? & ? & ?). exists st'.
    rewrite with_err_eq, Heq, Z.max_r by done. unfold result. rewrite (GetBlockchain_finalized st' b) by (done || lia). done.
  - exists st. rewrite Z.max_l by lia. unfold result. rewrite (GetBlockchain_finalized st n) by (done || lia). done.
Qed.

(** The last finalized block only grows: after the handler has taken block [b] the
    recorded block is the larger of the two, in the cache and in the database, and the
    redeem and mint tables are untouched. *)
Theorem finalized_block_monotone st n b :
  db_fault (statedb st) = no_faults -> 0 <= n < 2 ^ 256 -> 0 <= b < 2 ^ 256 ->
  finalized_is st n ->
  exists st', handleNewBlockNumber b st = (Ok tt, st') /\ finalized_is st' (Z.max n b) /\
    result GetBlockchainFinalizedBlockNumber st' = Ok (Z.max n b) /\
    redeem_table (statedb st') = redeem_table (statedb st) /\
    mint_table (statedb st') = mint_table (statedb st).
Proof.
  intros Hf Hn Hb Hfin.
  destruct (handleNewBlockNumber_finalized st n b Hf Hn Hb Hfin) as (st' & ? & ? & ? & ? & ? & _). eauto 10.
Qed.

Lemma initEthFinalizedBlock_eq st n :
  db_fault (statedb st) = no_faults -> 1 <= n < 2 ^ 256 ->
  kv_table (statedb st) !! hex_encode KeyEthFinalizedBlock = Some (hex_encode (pad32 n)) ->
  initEthFinalizedBlock st =
    (Ok tt, set_cache (Some (big_Bytes n)) (ethChainId st) (lastBtcFinalized st) st).
Proof.
  intros Hf Hn Hk. unfold initEthFinalizedBlock. mstep. rewrite with_err_eq, on_db_eq.
  rewrite GetKeyedValue_eq, Hk by done. cbn [fmap option_fmap option_map map_err].
  rewrite set_statedb_same, HexStrToBytes32_hex, pad32_value by (apply pad32_length || idtac; lia).
  unfold EthStartingBlock. replace (n <? 1) with false by lia. done.
Qed.

Lemma New_recovers st n c c' :
  db_fault (statedb st) = no_faults -> 1 <= n < 2 ^ 256 -> 0 <= UniqueChainId c < 2 ^ 256 ->
  kv_table (statedb st) !! hex_encode KeyEthChainId = Some (hex_encode (pad32 (UniqueChainId c))) ->
  finalized_is st n ->
  (UniqueChainId c' = UniqueChainId c ->
   exists st', New (statedb st) c' = (Ok st', statedb st) /\ finalized_is st' n /\
     result GetBlockchainFinalizedBlockNumber st' = Ok n) /\
  (UniqueChainId c' <> UniqueChainId c ->
   New (statedb st) c' = (Err ErrEthChainIdUnmatchedStored, statedb st)).
Proof.
  intros Hf Hn Hc Hk [_ Hfin]. unfold New.
  rewrite bind_eq. rewrite (initEthFinalizedBlock_eq _ n) by done.
  unfold initEthChainID. mstep. rewrite with_err_eq, on_db_eq.
  cbn [statedb set_cache State_init].
  rewrite GetKeyedValue_eq, Hk by done. cbn [fmap option_fmap option_map map_err].
  rewrite HexStrToBytes32_hex, pad32_value by (apply pad32_length || idtac; lia).
  mstep. cbn [set_statedb cfg set_cache State_init].
  split; intros Hid.
  - rewrite Hid, Z.eqb_refl. cbn [negb]. eexists. split; [reflexivity|].
    split; [split; [done|exact Hfin]|]. unfold result, GetBlockchainFinalizedBlockNumber. mstep. cbn.
    f_equal. apply big_SetBytes_Bytes. lia.
  - apply Z.eqb_neq in Hid. rewrite Z.eqb_sym, Hid. done.
Qed.

(** The state survives a restart: re-opening the database of a running bridge with the
    same chain id succeeds and reports the same finalized block; with another chain id it
    is refused and the database is unchanged. *)
Theorem restart_recovers st n c c' :
  db_fault (statedb st) = no_faults -> 1 <= n < 2 ^ 256 -> 0 <= UniqueChainId c < 2 ^ 256 ->
  kv_table (statedb st) !! hex_encode KeyEthChainId = Some (hex_encode (pad32 (UniqueChainId c))) ->
  finalized_is st n ->
  (UniqueChainId c' = UniqueChainId c ->
   exists st', New (statedb st) c' = (Ok st', statedb st) /\ finalized_is st' n /\
     result GetBlockchainFinalizedBlockNumber st' = Ok n) /\
  (UniqueChainId c' <> UniqueChainId c ->
   New (statedb st) c' = (Err ErrEthChainIdUnmatchedStored, statedb st)).
Proof. apply New_recovers. Qed.
End finalized.

(** ** What each operation can do to the tables, with any driver errors *)
Section runs.
Context `{EL : EthLibLaws, GL : GobLaws}.

Lemma prepare_run s q : exists o, prepare q s = (o, s).
Proof. unfold prepare, may_fail. destruct (db_fault s Preparing q); eauto. Qed.
Lemma exec_run s q : exists o, exec q s = (o, s).
Proof. unfold exec, may_fail. destruct (db_fault s Executing q); eauto. Qed.

Lemma HasRedeem_run s h :
  (exists x, HasRedeem h s = (Err x, s)) \/
  HasRedeem h s = (Ok (row_status <$> redeem_at s h), s).
Proof.
  unfold HasRedeem, redeem_at, prepare, exec, may_fail. rewrite hash_key_hex.
  mstep. destruct (db_fault s Preparing _); [by left; eauto|].
  mstep. destruct (db_fault s Executing _); [by left; eauto|]. by right.
Qed.
Lemma GetRedeem_run s h :
  (exists x, GetRedeem h s = (Err x, s)) \/ (exists w, GetRedeem h s = (Panic w, s)) \/
  (GetRedeem h s = (Ok None, s) /\ redeem_at s h = None) \/
  (exists row r, redeem_at s h = Some row /\ read_redeem row = Ok r /\
                 GetRedeem h s = (Ok (Some r), s)).
Proof.
  unfold GetRedeem, redeem_at, prepare, exec, may_fail. rewrite hash_key_hex.
  mstep. destruct (db_fault s Preparing _); [by left; eauto|].
  mstep. destruct (db_fault s Executing _); [by left; eauto|]. mstep.
  destruct (find_row _ _ _) as [row|] eqn:Hrow; [|by auto].
  mstep. destruct (read_redeem row) as [r|e|w] eqn:Hr; mstep; [|by eauto..].
  do 3 right. by exists row, r.
Qed.

(** an insertion appends one row with the redeem's key and status, and its outpoints when it is prepared *)
Definition outpoints_kept (r : Redeem) (row : redeem_row) : Prop :=
  Status r = RedeemStatusPrepared -> EncodeOutpoints (Outpoints r) = Ok (row_outpoints row).
Definition appended (r : Redeem) (s s' : StateDB) : Prop :=
  exists row, row_requestTxHash row = hex_encode (RequestTxHash r) /\
    row_status row = Status r /\ outpoints_kept r row /\ redeemTable (redeem_table s ++ [row]) = true /\
    s' = set_redeems (redeem_table s ++ [row]) s.

Lemma insert_or_ignore_run row r s :
  row_requestTxHash row = hex_encode (RequestTxHash r) -> row_status row = Status r -> outpoints_kept r row ->
  run (insert_or_ignore_redeem row) s = s \/ appended r s (run (insert_or_ignore_redeem row) s).
Proof.
  intros Hk Hs Ho. unfold run, insert_or_ignore_redeem. cbn.
  destruct (redeemTable _) eqn:Ht; [right|by left]. by exists row.
Qed.
Lemma sqlRedeem_encode_key r q :
  sqlRedeem_encode r = Ok q ->
  s_RequestTxHash q = hex_encode (RequestTxHash r) /\ s_Status q = Status r /\
  s_PrepareTxHash q = hex_encode (PrepareTxHash r) /\ EncodeOutpoints (Outpoints r) = Ok (s_Outpoints q).
Proof.
  unfold sqlRedeem_encode. destruct (Outpoints r), (Amount r); cbn; intros [= <-]; cbn;
    by rewrite !HashString_drop.
Qed.

Lemma InsertAfterRequested_run r s : Status r <> RedeemStatusPrepared ->
  run (InsertAfterRequested r) s = s \/ appended r s (run (InsertAfterRequested r) s).
Proof.
  intros Hst. unfold run, InsertAfterRequested, prepare, exec, may_fail. mstep.
  destruct (db_fault s Preparing _); [by left|]. mstep.
  destruct (sqlRedeem_encode r) as [q|e|w] eqn:Hq; [|by left..]. mstep.
  apply sqlRedeem_encode_key in Hq as (Hk & Hs & _).
  destruct (bind_uint64 _); [|by left..]. mstep.
  destruct (db_fault s Executing _); [by left|]. by apply insert_or_ignore_run; [..|intros ?].
Qed.

(** an update rewrites the row of the redeem *)
Definition updated (r : Redeem) (s s' : StateDB) : Prop :=
  exists q, sqlRedeem_encode r = Ok q /\
    s' = set_redeems (update_rows row_requestTxHash (redeem_table s)
                        (hex_encode (RequestTxHash r)) (set_prepared q)) s.

Lemma UpdateAfterPrepared_run r s :
  run (UpdateAfterPrepared r) s = s \/
  (redeem_at s (RequestTxHash r) <> None /\ updated r s (run (UpdateAfterPrepared r) s)) \/
  (redeem_at s (RequestTxHash r) = None /\ appended r s (run (UpdateAfterPrepared r) s)).
Proof.
  unfold run, UpdateAfterPrepared. rewrite bind_eq.
  destruct (GetRedeem_run s (RequestTxHash r))
    as [[x ->]|[[w ->]|[[-> Hn]|(row & r' & Hrow & _ & ->)]]]; [by left..| |].
  - unfold prepare, exec, may_fail. mstep. cbn [is_Some_b].
    destruct (db_fault s Preparing _); [by left|]. mstep.
    destruct (sqlRedeem_encode r) as [q|e|w] eqn:Hq; [|by left..]. mstep.
    apply sqlRedeem_encode_key in Hq as (Hk & Hs & _ & Ho).
    destruct (bind_uint64 _); [|by left..]. mstep.
    destruct (db_fault s Executing _); [by left|]. mstep.
    match goal with |- context [insert_or_ignore_redeem ?row] =>
      destruct (insert_or_ignore_run row r s Hk Hs (fun _ => Ho)) as [Hr|Hr] end; [by left|].
    right. right. split; [done|exact Hr].
  - unfold prepare, exec, may_fail. mstep. cbn [is_Some_b].
    destruct (db_fault s Preparing _); [by left|]. mstep.
    destruct (sqlRedeem_encode r) as [q|e|w] eqn:Hq; [|by left..]. mstep.
    destruct (db_fault s Executing _); [by left|]. mstep. unfold commit_redeems.
    destruct (redeemTable _); [|by left]. right. left. split; [by rewrite Hrow|].
    exists q. split; [done|]. apply sqlRedeem_encode_key in Hq as (-> & _). done.
Qed.

Lemma UpdateMint_redeems m s : redeem_table (run (UpdateMint m) s) = redeem_table s.
Proof.
  revert s. assert (forall t, keeps (fun s' => redeem_table s' = t) (UpdateMint m)) as H.
  2: { intros s. by apply (H (redeem_table s) s). }
  intros t. assert (forall l, keeps (fun s' => redeem_table s' = t) (commit_mints l)) as Hc.
  { intros l s Hs. unfold run, commit_mints. by destruct (mintTable l). }
  apply keeps_bind.
  { unfold GetMint. repeat (apply keeps_bind; [auto with golib|intros]). auto with golib. }
  intros [o|].
  - repeat (apply keeps_bind; [auto with golib|intros]). apply Hc.
  - unfold InsertMint. repeat (apply keeps_bind; [auto with golib|intros]). apply Hc.
Qed.
Lemma SetKeyedValue_redeems k v s : redeem_table (run (SetKeyedValue k v) s) = redeem_table s.
Proof.
  unfold run, SetKeyedValue, prepare, exec, may_fail. mstep.
  destruct (db_fault s Preparing _); [done|]. mstep. by destruct (db_fault s Executing _).
Qed.
End runs.

(** ** What each handler can do *)
Section handlers.
Context `{EL : EthLibLaws, GL : GobLaws}.

(** what a redeem has of the event that prepared it *)
Definition event_outpoints (ev : RedeemPreparedEvent) : list BtcOutpoint :=
  zip_with Build_BtcOutpoint (rp_OutpointTxIds ev) (rp_OutpointIdxs ev).
Definition of_prepared (ev : RedeemPreparedEvent) (r : Redeem) : Prop :=
  Status r = RedeemStatusPrepared /\ Outpoints r = Some (event_outpoints ev) /\
  event_outpoints ev <> [].
Lemma updateFromPreparedEvent_Ok r ev r' :
  updateFromPreparedEvent r ev = Ok r' -> of_prepared ev r' /\ RequestTxHash r' = rp_RequestTxHash ev.
Proof.
  intros H. pose proof (updateFromPreparedEvent_total r ev) as Ht. rewrite H in Ht.
  destruct Ht as ((Hh & _) & (_ & Hne & Hl & _) & ->). split; [|done]. split_and!; [done|done|].
  unfold event_outpoints. by destruct (rp_OutpointTxIds ev), (rp_OutpointIdxs ev).
Qed.
Lemma createRedeemFromRequestedEvent_Ok ev r :
  createRedeemFromRequestedEvent ev = Ok r ->
  RequestTxHash r = rr_RequestTxHash ev /\ Status r <> RedeemStatusPrepared.
Proof.
  unfold createRedeemFromRequestedEvent. destruct (is_zero_hash _); [done|].
  destruct (rr_Amount ev); [|done]. destruct (_ <=? _); [done|]. intros [= <-]. cbn. by destruct (rr_IsValidReceiver ev).
Qed.
Lemma createRedeemFromPreparedEvent_Ok ev r :
  createRedeemFromPreparedEvent ev = Ok r -> of_prepared ev r /\ RequestTxHash r = rp_RequestTxHash ev.
Proof.
  unfold createRedeemFromPreparedEvent. destruct (BigIntClone _); [|done..].
  cbn [mbind outcome_bind]. destruct (createRedeemFromRequestedEvent _) as [r0| |]; [|done..].
  apply updateFromPreparedEvent_Ok.
Qed.

(** a handler that stored a redeem under the key of its event *)
Definition stored_new (P : Redeem -> Prop) (h : bytes) (st st' : State) : Prop :=
  redeem_at (statedb st) h = None /\
  exists r d', RequestTxHash r = h /\ P r /\ appended r (statedb st) d' /\ st' = set_statedb d' st.
Definition stored_prepared (ev : RedeemPreparedEvent) (st st' : State) : Prop :=
  let h := rp_RequestTxHash ev in
  exists row r d', redeem_at (statedb st) h = Some row /\
    row_status row <> RedeemStatusPrepared /\ row_status row <> RedeemStatusCompleted /\
    row_status row <> RedeemStatusInvalid /\ RequestTxHash r = h /\
    of_prepared ev r /\ updated r (statedb st) d' /\ st' = set_statedb d' st.
(** the first query of the event handlers did not fail *)
Definition has_redeem_ok (st : State) (h : bytes) : Prop :=
  HasRedeem h (statedb st) = (Ok (row_status <$> redeem_at (statedb st) h), statedb st).

Lemma handleRedeemRequestEvent_run ev st :
  run (handleRedeemRequestEvent ev) st = st \/
  (has_redeem_ok st (rr_RequestTxHash ev) /\
   stored_new (fun r => Status r <> RedeemStatusPrepared) (rr_RequestTxHash ev) st (run (handleRedeemRequestEvent ev) st)).
Proof.
  unfold run, handleRedeemRequestEvent. rewrite bind_eq, with_err_eq, on_db_eq.
  destruct (HasRedeem_run (statedb st) (rr_RequestTxHash ev)) as [[x ->]|Hh].
  { left. apply set_statedb_same. }
  rewrite Hh, set_statedb_same. cbn [map_err].
  destruct (redeem_at (statedb st) (rr_RequestTxHash ev)) eqn:Hn; cbn; [by left|].
  mstep. destruct (createRedeemFromRequestedEvent ev) as [r| |] eqn:Hr; cbn [map_err]; [|by left..].
  apply createRedeemFromRequestedEvent_Ok in Hr as [Hk Hs].
  rewrite with_err_eq, on_db_eq. pose proof (InsertAfterRequested_run r (statedb st) Hs) as Hrun.
  unfold run in Hrun. destruct (InsertAfterRequested r (statedb st)) as [o d]. cbn in *.
  destruct Hrun as [->|Happ]; [left; apply set_statedb_same|right].
  split; [unfold has_redeem_ok; by rewrite Hn|]. split; [done|].
  exists r, d. by split_and!.
Qed.

Lemma UpdateAfterPrepared_state r st er :
  run (with_err er (on_db (UpdateAfterPrepared r))) st =
    set_statedb (run (UpdateAfterPrepared r) (statedb st)) st.
Proof.
  unfold run. rewrite with_err_eq, on_db_eq. by destruct (UpdateAfterPrepared _ _).
Qed.
Lemma handlePreparedEvent_run ev st :
  run (handlePreparedEvent ev) st = st \/
  (has_redeem_ok st (rp_RequestTxHash ev) /\
   (stored_new (of_prepared ev) (rp_RequestTxHash ev) st (run (handlePreparedEvent ev) st) \/
    stored_prepared ev st (run (handlePreparedEvent ev) st))).
Proof.
  remember (run (handlePreparedEvent ev) st) as st' eqn:Hst.
  unfold run, handlePreparedEvent in Hst. rewrite bind_eq, with_err_eq, on_db_eq in Hst.
  destruct (HasRedeem_run (statedb st) (rp_RequestTxHash ev)) as [[x Hh]|Hh];
    rewrite Hh, set_statedb_same in Hst; cbn [map_err] in Hst; [by left|].
  unfold has_redeem_ok. rewrite Hh.
  destruct (redeem_at (statedb st) (rp_RequestTxHash ev)) as [row|] eqn:Hn;
    cbn [fmap option_fmap option_map] in Hst.
  - destruct (String.eqb_spec (row_status row) RedeemStatusPrepared); [by left|].
    destruct (String.eqb_spec (row_status row) RedeemStatusCompleted); [by left|].
    destruct (String.eqb_spec (row_status row) RedeemStatusInvalid); [by left|]. cbn [orb] in Hst.
    rewrite bind_eq, with_err_eq, on_db_eq in Hst.
    destruct (GetRedeem_run (statedb st) (rp_RequestTxHash ev))
      as [[x Hg]|[[w Hg]|[[Hg _]|(row' & r0 & _ & _ & Hg)]]];
      rewrite Hg, set_statedb_same in Hst; [by left..|].
    cbn [map_err] in Hst. rewrite bind_eq, lift_eq in Hst.
    destruct (updateFromPreparedEvent r0 ev) as [r| |] eqn:Hr; cbn [map_err] in Hst; [|by left..].
    apply updateFromPreparedEvent_Ok in Hr as [Hs Hk].
    rewrite (UpdateAfterPrepared_state r st ErrDBOpUpdateRedeem : (_ _).2 = _) in Hst.
    destruct (UpdateAfterPrepared_run r (statedb st)) as [Hr|[[_ Hup]|[Hno _]]];
      [left; by rewrite Hst, Hr, set_statedb_same| |by rewrite Hk, Hn in Hno].
    right. split; [done|]. right.
    exists row, r, (run (UpdateAfterPrepared r) (statedb st)). by split_and!.
  - rewrite bind_eq, lift_eq in Hst.
    destruct (createRedeemFromPreparedEvent ev) as [r| |] eqn:Hr; cbn [map_err] in Hst; [|by left..].
    apply createRedeemFromPreparedEvent_Ok in Hr as [Hs Hk].
    rewrite (UpdateAfterPrepared_state r st ErrDBOpUpdateRedeem : (_ _).2 = _) in Hst.
    destruct (UpdateAfterPrepared_run r (statedb st)) as [Hr|[[Hne _]|[_ Happ]]];
      [left; by rewrite Hst, Hr, set_statedb_same|by rewrite Hk, Hn in Hne|].
    right. split; [done|]. left. split; [done|].
    exists r, (run (UpdateAfterPrepared r) (statedb st)). by split_and!.
Qed.
End handlers.

(** ** Events may be delivered more than once *)
Section events.
Context `{EL : EthLibLaws, GL : GobLaws}.

Lemma has_redeem_ok_same st d h :
  has_redeem_ok st h -> db_fault d = db_fault (statedb st) ->
  has_redeem_ok (set_statedb d st) h.
Proof.
  unfold has_redeem_ok, HasRedeem, prepare, exec, may_fail, redeem_at.
  cbn [set_statedb statedb]. intros H Hd. revert H. mstep. rewrite Hd.
  destruct (db_fault (statedb st) Preparing _); [done|]. mstep. rewrite Hd.
  destruct (db_fault (statedb st) Executing _); [done|]. mstep. by rewrite hash_key_hex.
Qed.
Lemma redeem_at_appended r d d' :
  redeem_at d (RequestTxHash r) = None -> appended r d d' ->
  exists row, redeem_at d' (RequestTxHash r) = Some row /\ row_status row = Status r.
Proof.
  intros Hn (row & Hk & Hs & _ & _ & ->). exists row. by rewrite redeem_at_app, Hn, decide_True.
Qed.
Lemma redeem_at_updated r d d' row h :
  updated r d d' -> redeem_at d h = Some row ->
  exists q, sqlRedeem_encode r = Ok q /\
    redeem_at d' h = Some (if decide (h = RequestTxHash r) then set_prepared q row else row).
Proof.
  intros (q & Hq & ->) Hrow. exists q. split; [done|]. unfold redeem_at in *.
  cbn [set_redeems redeem_table]. rewrite find_row_update by done. rewrite Hrow.
  destruct (decide (hex_encode h = _)) as [He|He]; [apply (inj hex_encode) in He as ->|];
    [by rewrite decide_True|]. rewrite decide_False; [done|]. by intros ->.
Qed.
Lemma appended_fault r d d' : appended r d d' -> db_fault d' = db_fault d.
Proof. by intros (row & _ & _ & _ & _ & ->). Qed.
Lemma updated_fault r d d' : updated r d d' -> db_fault d' = db_fault d.
Proof. by intros (q & _ & ->). Qed.

Lemma handleRedeemRequestEvent_found ev st s :
  has_redeem_ok st (rr_RequestTxHash ev) ->
  row_status <$> redeem_at (statedb st) (rr_RequestTxHash ev) = Some s ->
  handleRedeemRequestEvent ev st = (Ok tt, st).
Proof.
  intros Hh Hs. unfold handleRedeemRequestEvent. rewrite bind_eq, with_err_eq, on_db_eq, Hh, Hs.
  cbn [map_err]. mstep. by rewrite set_statedb_same.
Qed.
Lemma handlePreparedEvent_found ev st :
  has_redeem_ok st (rp_RequestTxHash ev) ->
  row_status <$> redeem_at (statedb st) (rp_RequestTxHash ev) = Some RedeemStatusPrepared ->
  handlePreparedEvent ev st = (Ok tt, st).
Proof.
  intros Hh Hs. unfold handlePreparedEvent. rewrite bind_eq, with_err_eq, on_db_eq, Hh, Hs.
  cbn [map_err]. rewrite set_statedb_same. done.
Qed.

(** Handling the same requested or prepared event a second time changes nothing,
    whatever happened the first time (stored, refused, dropped, failed): the
    synchronizers may deliver events again after a restart. *)
Theorem redeem_events_idempotent st rq pr :
  run (handleRedeemRequestEvent rq) (run (handleRedeemRequestEvent rq) st) =
    run (handleRedeemRequestEvent rq) st /\
  run (handlePreparedEvent pr) (run (handlePreparedEvent pr) st) =
    run (handlePreparedEvent pr) st.
Proof.
  split.
  - destruct (handleRedeemRequestEvent_run rq st) as [He|(Hh & Hn & r & d & Hk & _ & Ha & Hst)];
      [by rewrite !He|]. rewrite Hst. rewrite <-Hk in Hn.
    destruct (redeem_at_appended r _ d Hn Ha) as (row & Hrow & _). rewrite Hk in Hrow.
    unfold run. rewrite (handleRedeemRequestEvent_found _ _ (row_status row)); [done| |].
    + by apply has_redeem_ok_same; [|eapply appended_fault].
    + cbn [set_statedb statedb]. by rewrite Hrow.
  - destruct (handlePreparedEvent_run pr st)
      as [He|(Hh & [(Hn & r & d & Hk & Hs & Ha & Hst)|
                    (row & r & d & Hrow & _ & _ & _ & Hk & [Hs _] & Hu & Hst)])]; [by rewrite !He| |];
      rewrite Hst; unfold run; (rewrite handlePreparedEvent_found; [done| |]).
    + by apply has_redeem_ok_same; [|eapply appended_fault].
    + rewrite <-Hk in Hn. destruct (redeem_at_appended r _ d Hn Ha) as (row & Hrow & Hrs).
      rewrite Hk in Hrow. cbn [set_statedb statedb]. rewrite Hrow. cbn. by rewrite Hrs, (proj1 Hs).
    + by apply has_redeem_ok_same; [|eapply updated_fault].
    + destruct (redeem_at_updated r _ d row _ Hu Hrow) as (q & Hq & Hd).
      rewrite decide_True in Hd by done. apply sqlRedeem_encode_key in Hq as (_ & Hqs & _).
      cbn [set_statedb statedb]. rewrite Hd. cbn. by rewrite Hqs, Hs.
Qed.

(** ** The life of a redeem *)
Definition evolves (row row' : redeem_row) : Prop :=
  row' = row \/
  (row_status row <> RedeemStatusPrepared /\ row_status row <> RedeemStatusCompleted /\
   row_status row <> RedeemStatusInvalid /\ row_status row' = RedeemStatusPrepared /\
   row_requestTxHash row' = row_requestTxHash row /\ row_btcTxId row' = row_btcTxId row /\
   row_requester row' = row_requester row /\ row_receiver row' = row_receiver row /\
   row_amount row' = row_amount row).
Definition db_evolves (d d' : StateDB) : Prop :=
  forall h row, redeem_at d h = Some row ->
  exists row', redeem_at d' h = Some row' /\ evolves row row'.
#[global] Instance db_evolves_preorder : PreOrder db_evolves.
Proof.
  split.
  - intros d h row Hr. exists row. split; [done|by left].
  - intros d1 d2 d3 H12 H23 h row Hr. destruct (H12 h row Hr) as (r2 & Hr2 & E12).
    destruct (H23 h r2 Hr2) as (r3 & Hr3 & E23). exists r3. split; [done|].
    destruct E12 as [->|(? & ? & ? & Hs & ? & ? & ? & ? & ?)]; [done|]. destruct E23 as [->|(? & _)]; [|done].
    right. by split_and!.
Qed.
Lemma db_evolves_redeems d d' :
  redeem_table d' = redeem_table d -> db_evolves d d'.
Proof. intros Heq h row Hr. exists row. unfold redeem_at in *. rewrite Heq. split; [done|by left]. Qed.
Lemma appended_evolves r d d' : appended r d d' -> db_evolves d d'.
Proof.
  intros (row & _ & _ & _ & _ & ->) h row' Hr. exists row'. rewrite redeem_at_app, Hr.
  split; [done|by left].
Qed.

Lemma stored_prepared_evolves ev st st' :
  stored_prepared ev st st' -> db_evolves (statedb st) (statedb st').
Proof.
  intros (row & r & d & Hrow & N1 & N2 & N3 & Hk & [Hs _] & Hu & ->) h' row' Hr'.
  destruct (redeem_at_updated r _ d row' h' Hu Hr') as (q & Hq & Hd). eexists. split; [exact Hd|].
  destruct (decide (h' = RequestTxHash r)) as [->|]; [|by left]. right.
  rewrite Hk, Hrow in Hr'. injection Hr' as <-.
  apply sqlRedeem_encode_key in Hq as (_ & Hqs & _). split_and!; try done. cbn. by rewrite Hqs.
Qed.
Lemma stored_new_evolves P h st st' :
  stored_new P h st st' -> db_evolves (statedb st) (statedb st').
Proof. intros (_ & r & d & _ & _ & Ha & ->). by eapply appended_evolves. Qed.

Lemma handleNewBlockNumber_redeems b st :
  redeem_table (statedb (run (handleNewBlockNumber b) st)) = redeem_table (statedb st).
Proof.
  set (t := redeem_table (statedb st)).
  assert (keeps (fun st => redeem_table (statedb st) = t) (handleNewBlockNumber b)) as H;
    [|exact (H st eq_refl)].
  assert (forall {A} e (m : M State A), keeps (fun st => redeem_table (statedb st) = t) m ->
    keeps (fun st => redeem_table (statedb st) = t) (with_err e m)) as Hw.
  { intros A e m Hm s Hs. specialize (Hm s Hs). unfold run in *. rewrite with_err_eq.
    by destruct (m s). }
  assert (forall {A} (m : M StateDB A), (forall s, redeem_table (run m s) = redeem_table s) ->
    keeps (fun st => redeem_table (statedb st) = t) (on_db m)) as Hd.
  { intros A m Hm s Hs. specialize (Hm (statedb s)). unfold run in *. rewrite on_db_eq.
    destruct (m (statedb s)). cbn in *. congruence. }
  assert (forall f, (forall s, statedb (f s) = statedb s) ->
    keeps (fun st => redeem_table (statedb st) = t) (modify f)) as Hm.
  { intros f Hf s Hs. unfold run. cbn. by rewrite Hf. }
  apply keeps_bind.
  - apply Hw. unfold GetBlockchainFinalizedBlockNumber. apply keeps_bind; [auto with golib|].
    intros [v|]; [auto with golib|]. apply keeps_bind.
    + apply Hd. intros s. unfold run, GetKeyedValue, prepare, exec, may_fail. mstep.
      destruct (db_fault s Preparing _); [done|]. mstep.
      destruct (db_fault s Executing _); [done|]. mstep. by destruct (_ !! _).
    + intros [v|]; [|by intros s Hs]. apply keeps_bind; [by apply Hm|auto with golib].
  - intros n. destruct (n <=? b); [|auto with golib]. apply Hw.
    apply keeps_bind; [auto with golib|intros b']. apply keeps_bind; [|intros; by apply Hm].
    apply Hd. intros s. apply SetKeyedValue_redeems.
Qed.
Lemma UpdateMint_evolves m st : db_evolves (statedb st) (statedb (run (on_db (UpdateMint m)) st)).
Proof.
  apply db_evolves_redeems. pose proof (UpdateMint_redeems m (statedb st)) as Hm.
  unfold run in *. rewrite on_db_eq. by destruct (UpdateMint m (statedb st)).
Qed.
Lemma SetRedeemCompleted_run req btc st :
  (exists e, SetRedeemCompleted req btc st = (Err e, st)) \/
  SetRedeemCompleted req btc st = (Panic "nil pointer dereference", st).
Proof.
  unfold SetRedeemCompleted. rewrite on_db_eq. unfold UpdateAfterRedeemed, prepare, may_fail.
  mstep. destruct (db_fault (statedb st) Preparing _) as [e|].
  - left. exists e. f_equal. apply set_statedb_same.
  - right. mstep. cbn. f_equal. apply set_statedb_same.
Qed.
End events.

(** ** The loop *)
Create HintDb nildb.
Section loop.
Context `{EL : EthLibLaws, GL : GobLaws}.

Lemma after_handler_st r errs : l_st (after_handler r errs) = r.2.
Proof. destruct r as [[|e|w] st]; cbn; [done| |done]. by case_match. Qed.

Lemma handlePreparedEvent_evolves ev st :
  db_evolves (statedb st) (statedb (run (handlePreparedEvent ev) st)).
Proof.
  destruct (handlePreparedEvent_run ev st) as [->|(_ & [Hn|Hp])];
    [reflexivity|by eapply stored_new_evolves|by eapply stored_prepared_evolves].
Qed.
Lemma handleRedeemRequestEvent_evolves ev st :
  db_evolves (statedb st) (statedb (run (handleRedeemRequestEvent ev) st)).
Proof.
  destruct (handleRedeemRequestEvent_run ev st) as [->|(_ & Hn)];
    [reflexivity|by eapply stored_new_evolves].
Qed.
Lemma handleMintedEvent_evolves ev st :
  db_evolves (statedb st) (statedb (run (handleMintedEvent ev) st)).
Proof.
  pose proof (UpdateMint_evolves (createMintFromMintedEvent ev) st) as H.
  unfold run, handleMintedEvent in *. rewrite with_err_eq. by destruct (on_db _ st).
Qed.

Lemma step_evolves l l' : step l l' -> db_evolves (statedb (l_st l)) (statedb (l_st l')).
Proof.
  intros [c l1 l2 Hs|i l1 l2 Hs].
  - unfold select_step in Hs. destruct (ctl _); [|done..]. destruct c.
    + by injection Hs as <-.
    + destruct (errCh _); [done|]. by injection Hs as <-.
    + destruct (newEthFinalizedBlockCh _); [done|]. injection Hs as <-. rewrite after_handler_st.
      by apply db_evolves_redeems; etrans; [apply handleNewBlockNumber_redeems|].
    + destruct (newMintedEventCh _); [done|]. injection Hs as <-. rewrite after_handler_st.
      by etrans; [|apply handleMintedEvent_evolves].
    + destruct (newRedeemRequestedEvCh _); [done|]. injection Hs as <-. rewrite after_handler_st.
      by etrans; [|apply handleRedeemRequestEvent_evolves].
    + destruct (newRedeemPreparedEvCh _); [done|]. injection Hs as <-. rewrite after_handler_st.
      by etrans; [|apply handlePreparedEvent_evolves].
  - unfold env_step in Hs. destruct i; try (case_match; [|done]); injection Hs as <-; try done.
    + apply UpdateMint_evolves.
    + cbn [l_st]. unfold run. destruct (SetRedeemCompleted_run req btc (l_st l1)) as [[e Hr]|Hr]; by rewrite Hr.
Qed.

(** C11: from any state of a well-formed database, along every interleaving of the loop with the other
    goroutines, a stored redeem is never lost; its request, requester, receiver and amount never change,
    from [requested] it can only become [prepared], and it changes at most once. The last step of
    the documented life cycle, from [prepared] to [completed], never happens: [SetRedeemCompleted], which
    is to take it, leaves every state as it was, because it fails in the database or dies on the amount it
    does not set. *)
Theorem redeem_lifecycle l l' h row :
  redeemTable (redeem_table (statedb (l_st l))) = true ->
  rtc step l l' -> redeem_at (statedb (l_st l)) h = Some row ->
  exists row', redeem_at (statedb (l_st l')) h = Some row' /\
    (row' = row \/
     (row_status row = RedeemStatusRequested /\ row_status row' = RedeemStatusPrepared /\
      row_requester row' = row_requester row /\ row_receiver row' = row_receiver row /\
      row_amount row' = row_amount row /\ row_btcTxId row' = row_btcTxId row)) /\
  forall req btc st, is_ok (result (SetRedeemCompleted req btc) st) = false /\ run (SetRedeemCompleted req btc) st = st.
Proof.
  intros Ht Hsteps Hrow.
  assert (forall req btc st, is_ok (result (SetRedeemCompleted req btc) st) = false /\
    run (SetRedeemCompleted req btc) st = st) as Hcomp.
  { intros req btc st. unfold result, run. by destruct (SetRedeemCompleted_run req btc st) as [[e ->]| ->]. }
  assert (db_evolves (statedb (l_st l)) (statedb (l_st l'))) as Hev.
  { clear Ht Hrow. induction Hsteps as [|l1 l2 l3 H12 _ IH]; [done|]. etrans; [|exact IH].
    by apply step_evolves. }
  destruct (Hev h row Hrow) as (row' & Hrow' & He). exists row'. split; [done|]. split; [|exact Hcomp].
  destruct He as [->|(N1 & N2 & N3 & Hs & ? & ? & ? & ? & ?)]; [by left|right].
  split_and!; try done. apply find_row_Some in Hrow as [Hin _].
  apply redeemTable_spec in Ht as (Hc & _). rewrite Forall_forall in Hc. specialize (Hc _ Hin).
  unfold redeem_check in Hc. rewrite !andb_true_iff, status_known_check in Hc.
  destruct Hc as [[[[[Hk _] _] _] _] _]. unfold status_known in Hk.
  rewrite !elem_of_cons, elem_of_nil in Hk. naive_solver.
Qed.

(** *** Errors and panics of the loop *)
Definition handler_safe (m : M State unit) : Prop := forall st,
  (forall e, result m st = Err e -> e ∈ handled_errors) /\
  (forall w, result m st = Panic w -> w = "nil pointer dereference"%string).
Definition only_nil_panics {S A} (m : M S A) : Prop := forall s w,
  result m s = Panic w -> w = "nil pointer dereference"%string.

Lemma nil_bind {S A B} (m : M S A) (f : A -> M S B) :
  only_nil_panics m -> (forall a, only_nil_panics (f a)) -> only_nil_panics (m ≫= f).
Proof.
  intros Hm Hf s w. unfold result. rewrite bind_eq. specialize (Hm s). unfold result in Hm.
  destruct (m s) as [[a|e|w'] s']; [apply Hf|done|]. cbn. intros [= ->]. by apply Hm.
Qed.
Lemma nil_lift {S A} (o : outcome A) :
  (forall w, o = Panic w -> w = "nil pointer dereference"%string) -> only_nil_panics (S := S) (lift o).
Proof. intros Ho s w. apply Ho. Qed.
Lemma nil_may_fail {S} f p q : only_nil_panics (S := S) (may_fail f p q).
Proof. intros s w. unfold result, may_fail. by destruct (f s p q). Qed.
Lemma nil_gets {S A} (f : S -> A) : only_nil_panics (gets f).
Proof. by intros s w. Qed.
Lemma nil_ret {S A} (a : A) : only_nil_panics (S := S) (mret a).
Proof. by intros s w. Qed.
Lemma nil_on_db {A} (m : M StateDB A) : only_nil_panics m -> only_nil_panics (on_db m).
Proof.
  intros Hm st w. specialize (Hm (statedb st) w). unfold result in *. rewrite on_db_eq.
  by destruct (m (statedb st)).
Qed.
Lemma nil_encode r w : sqlRedeem_encode r = Panic w -> w = "nil pointer dereference"%string.
Proof. unfold sqlRedeem_encode. destruct (Outpoints r), (Amount r); cbn; congruence. Qed.
Lemma nil_encode_mint m w : sqlMint_encode m = Panic w -> w = "nil pointer dereference"%string.
Proof. unfold sqlMint_encode. destruct (m_Amount m); cbn; congruence. Qed.
Lemma nil_bind_uint64 n w : bind_uint64 n = Panic w -> w = "nil pointer dereference"%string.
Proof. unfold bind_uint64. by destruct (_ <? _). Qed.
Lemma nil_commit_mints t : only_nil_panics (commit_mints t).
Proof. intros s w. unfold result, commit_mints. by destruct (mintTable t). Qed.
Lemma nil_commit_redeems t : only_nil_panics (commit_redeems t).
Proof. intros s w. unfold result, commit_redeems. by destruct (redeemTable t). Qed.
Lemma nil_insert row : only_nil_panics (insert_or_ignore_redeem row).
Proof. by intros s w. Qed.

Lemma nil_read_redeem row w : read_redeem row = Panic w -> w = "nil pointer dereference"%string.
Proof.
  unfold read_redeem, sqlRedeem_decode. destruct (s_Outpoints _) as [[|c b]|]; cbn; try congruence.
  destruct (gob_Decode _); cbn; congruence.
Qed.
#[local] Hint Resolve nil_bind nil_lift nil_may_fail nil_gets nil_ret nil_encode nil_encode_mint
  nil_bind_uint64 nil_commit_mints nil_commit_redeems nil_insert nil_read_redeem : nildb.
Ltac nil_auto := repeat (apply nil_bind; [eauto with nildb|intros]); eauto with nildb.

Lemma nil_prepare q : only_nil_panics (prepare q).
Proof. apply nil_may_fail. Qed.
Lemma nil_exec q : only_nil_panics (exec q).
Proof. apply nil_may_fail. Qed.
#[local] Hint Resolve nil_prepare nil_exec : nildb.
Lemma nil_HasRedeem h : only_nil_panics (HasRedeem h).
Proof. unfold HasRedeem. nil_auto. Qed.
Lemma nil_GetRedeem h : only_nil_panics (GetRedeem h).
Proof. unfold GetRedeem. nil_auto. case_match; nil_auto. Qed.
Lemma nil_InsertAfterRequested r : only_nil_panics (InsertAfterRequested r).
Proof. unfold InsertAfterRequested. nil_auto. Qed.
Lemma nil_UpdateAfterPrepared r : only_nil_panics (UpdateAfterPrepared r).
Proof.
  unfold UpdateAfterPrepared. apply nil_bind; [apply nil_GetRedeem|intros o].
  apply nil_bind; [nil_auto|intros _]. apply nil_bind; [nil_auto|intros q].
  destruct (is_Some_b o); nil_auto.
Qed.
Lemma nil_UpdateMint m : only_nil_panics (UpdateMint m).
Proof.
  unfold UpdateMint. apply nil_bind; [unfold GetMint; nil_auto|intros [o|]]; [nil_auto|].
  unfold InsertMint. nil_auto.
Qed.
Lemma nil_kv k v : only_nil_panics (GetKeyedValue k) /\ only_nil_panics (SetKeyedValue k v).
Proof. split; [unfold GetKeyedValue|unfold SetKeyedValue]; nil_auto; [by case_match|done]. Qed.

(** a step of a handler whose error is replaced by one of the handled errors *)
Lemma safe_with_err e (m : M State unit) :
  e ∈ handled_errors -> only_nil_panics m -> handler_safe (with_err e m).
Proof.
  intros He Hm st. specialize (Hm st). unfold result in *. rewrite with_err_eq.
  destruct (m st) as [[a|e'|w] s']; cbn in *; split; intros ? [= <-]; auto.
Qed.
Lemma safe_bind {A} e (m : M State A) (f : A -> M State unit) :
  e ∈ handled_errors -> only_nil_panics m -> (forall a, handler_safe (f a)) ->
  handler_safe (with_err e m ≫= f).
Proof.
  intros He Hm Hf st. specialize (Hm st). unfold result in *. rewrite bind_eq, with_err_eq.
  destruct (m st) as [[a|e'|w] s']; cbn in *; [apply Hf|..]; split; intros ? [= <-]; auto.
Qed.
Lemma safe_lift {A} e (o : outcome A) (f : A -> M State unit) :
  e ∈ handled_errors -> (forall w, o = Panic w -> w = "nil pointer dereference"%string) ->
  (forall a, handler_safe (f a)) -> handler_safe (lift (map_err e o) ≫= f).
Proof.
  intros He Ho Hf st. unfold result. rewrite bind_eq, lift_eq.
  destruct o as [a|e'|w]; cbn; [apply Hf|..]; split; intros ? [= <-]; auto.
Qed.
Lemma safe_ret : handler_safe (mret tt).
Proof. by intros st. Qed.
Lemma safe_throw e : e ∈ handled_errors -> handler_safe (throw e).
Proof. intros He st. split; [by intros ? [= <-]|done]. Qed.
Ltac handled := unfold handled_errors; set_solver.

Lemma nil_update r ev w :
  updateFromPreparedEvent r ev = Panic w -> w = "nil pointer dereference"%string.
Proof.
  unfold updateFromPreparedEvent. do 2 (case_match; [done|]).
  destruct (rp_Amount ev), (Amount r); cbn; try congruence; repeat case_match; congruence.
Qed.
Lemma nil_create ev w :
  createRedeemFromRequestedEvent ev = Panic w -> w = "nil pointer dereference"%string.
Proof. unfold createRedeemFromRequestedEvent. repeat case_match; congruence. Qed.
Lemma nil_create_prepared ev w :
  createRedeemFromPreparedEvent ev = Panic w -> w = "nil pointer dereference"%string.
Proof.
  unfold createRedeemFromPreparedEvent. destruct (rp_Amount ev); cbn; [|congruence].
  destruct (createRedeemFromRequestedEvent _) eqn:Hc; cbn;
    [apply nil_update|done|intros [= <-]; by eapply nil_create].
Qed.

Lemma handlers_safe :
  (forall b, handler_safe (handleNewBlockNumber b)) /\
  (forall ev, handler_safe (handleMintedEvent ev)) /\
  (forall ev, handler_safe (handleRedeemRequestEvent ev)) /\
  (forall ev, handler_safe (handlePreparedEvent ev)).
Proof.
  split_and!; intros ev.
  - apply safe_bind; [handled| |intros n].
    + apply nil_bind; [nil_auto|intros [v|]]; [nil_auto|].
      apply nil_bind; [apply nil_on_db, (nil_kv _ [])|intros [v|]]; [|done].
      by apply nil_bind.
    + destruct (n <=? ev); [|apply safe_ret]. apply safe_with_err; [handled|].
      destruct (BigInt2Bytes32_total ev) as (b & Hb & _). unfold setEthFinalizedBlockNumber.
      rewrite Hb. apply nil_bind; [by intros s w|intros b'].
      apply nil_bind; [apply nil_on_db, nil_kv|done].
  - apply safe_with_err; [handled|apply nil_on_db, nil_UpdateMint].
  - apply safe_bind; [handled|apply nil_on_db, nil_HasRedeem|intros [x|]]; [apply safe_ret|].
    apply safe_lift; [handled|apply nil_create|intros r].
    apply safe_with_err; [handled|apply nil_on_db, nil_InsertAfterRequested].
  - apply safe_bind; [handled|apply nil_on_db, nil_HasRedeem|intros [x|]].
    + case_match; [apply safe_ret|]. case_match; [apply safe_throw; handled|].
      apply safe_bind; [handled|apply nil_on_db, nil_GetRedeem|intros [r|]];
        [|apply safe_throw; handled].
      apply safe_lift; [handled|apply nil_update|intros r'].
      apply safe_with_err; [handled|apply nil_on_db, nil_UpdateAfterPrepared].
    + apply safe_lift; [handled|apply nil_create_prepared|intros r].
      apply safe_with_err; [handled|apply nil_on_db, nil_UpdateAfterPrepared].
Qed.

Definition loop_inv (l : loop) : Prop :=
  (length (errCh l) <= 1)%nat /\ Forall (fun e => e ∈ handled_errors) (errCh l) /\
  match ctl l with
  | Running => True
  | Blocked e => e ∈ handled_errors
  | Returned e => e = "context canceled"%string \/ e ∈ handled_errors
  | Died w => w = "nil pointer dereference"%string
  end.
Lemma after_handler_inv m st l :
  handler_safe m -> loop_inv l -> loop_inv (after_handler (m st) (errCh l)).
Proof.
  intros Hm (Hl & Hf & _). destruct (Hm st) as [He Hp]. unfold result in *.
  destruct (m st) as [[a|e|w] st']; cbn in *;
    [by split_and!| |split_and!; cbn; auto].
  specialize (He e eq_refl). destruct (errCh l) as [|e0 errs]; unfold loop_inv; cbn;
    split_and!; auto.
Qed.

(** C31: whatever events arrive and in whatever order the select takes them, at most one
    error is queued, every error is one the switch of [Start] names, so its fatal default
    is never taken: [Start] ends only with the context's error or with one of those
    errors, and the process dies only of a nil dereference in a handler (an event or a
    mint without an amount). *)
Theorem loop_errors_handled st l : rtc step (start st) l -> loop_inv l.
Proof.
  assert (loop_inv (start st)) as H0 by (split_and!; cbn; [lia|constructor|done]).
  intros Hsteps. remember (start st) as l0 eqn:Hl0. clear Hl0. revert H0.
  induction Hsteps as [|l1 l2 l3 H12 _ IH]; [done|]. intros H1. apply IH. clear IH l3 st.
  destruct handlers_safe as (S1 & S2 & S3 & S4). destruct H12 as [c l l' Hs|i l l' Hs].
  - unfold select_step in Hs. destruct (ctl l) eqn:Hctl; [|done..]. destruct c.
    + injection Hs as <-. destruct H1 as (? & ? & _). split_and!; cbn; auto.
    + destruct (errCh l) as [|e errs] eqn:Herr; [done|]. injection Hs as <-.
      destruct H1 as (Hlen & Hf & _). rewrite Herr in Hlen, Hf. cbn in Hlen.
      apply Forall_cons in Hf as [He Hf]. rewrite bool_decide_eq_true_2 by done.
      split_and!; cbn; [lia|done|by right].
    + destruct (newEthFinalizedBlockCh _); [done|]. injection Hs as <-. by apply after_handler_inv.
    + destruct (newMintedEventCh _); [done|]. injection Hs as <-. by apply after_handler_inv.
    + destruct (newRedeemRequestedEvCh _); [done|]. injection Hs as <-. by apply after_handler_inv.
    + destruct (newRedeemPreparedEvCh _); [done|]. injection Hs as <-. by apply after_handler_inv.
  - unfold env_step in Hs. destruct i; try (case_match; [|done]); by injection Hs as <-.
Qed.

(** Marking a redeem completed always fails: the record it builds has no amount, so
    encoding it dereferences a nil pointer; the database is unchanged. *)
Theorem SetRedeemCompleted_panics st req btc :
  db_fault (statedb st) = no_faults ->
  SetRedeemCompleted req btc st = (Panic "nil pointer dereference", st).
Proof.
  intros Hf. destruct (SetRedeemCompleted_run req btc st) as [[e He]|H]; [exfalso|done].
  unfold SetRedeemCompleted in He. rewrite on_db_eq in He. unfold UpdateAfterRedeemed in He.
  rewrite bind_eq, prepare_ok in He by done. done.
Qed.
End loop.

(** ** A prepared event may overtake its requested event *)
Section order.
Context `{EL : EthLibLaws, GL : GobLaws}.
Variables (st : State) (rq : RedeemRequestedEvent) (pr : RedeemPreparedEvent) (a : Z).

(** a valid request and the prepared event that answers it, neither seen before *)
Definition matching_events : Prop :=
  length (rr_RequestTxHash rq) = 32%nat /\ rr_RequestTxHash rq <> zeros 32 /\
  rr_Requester rq <> zeros 20 /\ rr_Amount rq = Some a /\ 0 < a < 2 ^ 63 /\
  rr_IsValidReceiver rq = true /\
  rp_RequestTxHash pr = rr_RequestTxHash rq /\ rp_Requester pr = rr_Requester rq /\
  rp_Receiver pr = rr_Receiver rq /\ rp_Amount pr = Some a /\
  length (rp_PrepareTxHash pr) = 32%nat /\ prepared_event_ok pr.
Hypothesis Hev : matching_events.
Hypothesis Hinv : redeemTable (redeem_table (statedb st)) = true.
Hypothesis Hf : db_fault (statedb st) = no_faults.
Hypothesis Hnew : redeem_at (statedb st) (rr_RequestTxHash rq) = None.
Hypothesis Hfresh :
  hex_encode (rp_PrepareTxHash pr) ∉ omap row_prepareTxHash (redeem_table (statedb st)).

Definition request_redeem : Redeem := {|
  RequestTxHash := rr_RequestTxHash rq; PrepareTxHash := zeros 32; r_BtcTxId := zeros 32;
  Requester := rr_Requester rq; Receiver := rr_Receiver rq; Amount := Some a;
  Outpoints := None; Status := RedeemStatusRequested |}.
Definition prepared_row : redeem_row := {|
  row_requestTxHash := hex_encode (rr_RequestTxHash rq);
  row_prepareTxHash := Some (hex_encode (rp_PrepareTxHash pr)); row_btcTxId := None;
  row_requester := hex_encode (rr_Requester rq); row_receiver := rr_Receiver rq;
  row_amount := a;
  row_outpoints := Some (gob_Encode (zip_with Build_BtcOutpoint (rp_OutpointTxIds pr)
                                       (rp_OutpointIdxs pr)));
  row_status := RedeemStatusPrepared |}.
Definition st_with (row : redeem_row) : State :=
  set_statedb (set_redeems (redeem_table (statedb st) ++ [row]) (statedb st)) st.

Lemma has_redeem_no_faults st0 h : db_fault (statedb st0) = no_faults -> has_redeem_ok st0 h.
Proof. intros H. by apply HasRedeem_eq. Qed.
Lemma create_request : createRedeemFromRequestedEvent rq = Ok request_redeem.
Proof using Hev.
  destruct Hev as (_ & Hz & _ & Ha & Hr & Hv & _). unfold createRedeemFromRequestedEvent.
  rewrite (proj2 (is_zero_hash_false _) Hz), Ha, Hv. by replace (a <=? 0) with false by lia.
Qed.
Lemma request_row_ok :
  redeemTable (redeem_table (statedb st) ++ [requested_row request_redeem a]) = true.
Proof using All.
  destruct Hev as (Hl & Hz & Hrq & _ & Hr & _). rewrite redeemTable_snoc by done.
  rewrite (proj2 (requested_row_check request_redeem a Hl)).
  - apply bool_decide_eq_true_2. by apply find_row_None in Hnew.
  - split_and!; try done; [|lia]. unfold status_known. set_solver.
Qed.
Lemma prepared_row_check : redeem_check prepared_row = true.
Proof using All.
  destruct Hev as (Hl & Hz & Hrq & _ & Hr & _ & _ & _ & _ & _ & Hpl & Hpz & _).
  unfold redeem_check. cbn [prepared_row row_status row_amount row_requestTxHash
    row_prepareTxHash row_btcTxId row_requester not_null_zero].
  rewrite !andb_true_iff, !negb_true_iff, !String.eqb_neq, Z.ltb_lt, !hex_zero_32, hex_zero_20 by done.
  split_and!; done || lia.
Qed.
Lemma prepared_row_ok : redeemTable (redeem_table (statedb st) ++ [prepared_row]) = true.
Proof using All.
  rewrite redeemTable_snoc; [|done|done|by intros p [= <-]].
  rewrite prepared_row_check. apply bool_decide_eq_true_2. by apply find_row_None in Hnew.
Qed.
Lemma prepared_encode :
  exists q, sqlRedeem_encode (prepared request_redeem pr) = Ok q /\
    set_prepared q (requested_row request_redeem a) = prepared_row /\
    s_RequestTxHash q = hex_encode (rr_RequestTxHash rq) /\ s_Amount q = a /\
    {| row_requestTxHash := s_RequestTxHash q; row_prepareTxHash := Some (s_PrepareTxHash q);
       row_btcTxId := None; row_requester := s_Requester q; row_receiver := s_Receiver q;
       row_amount := a; row_outpoints := s_Outpoints q; row_status := s_Status q |} = prepared_row.
Proof using Hev EL.
  destruct Hev as (_ & _ & _ & _ & Hr & _).
  eexists. split; [apply (sqlRedeem_encode_eq _ a); [done|lia]|]. done.
Qed.

Lemma request_first : handleRedeemRequestEvent rq st = (Ok tt, st_with (requested_row request_redeem a)).
Proof using All.
  unfold handleRedeemRequestEvent. rewrite bind_eq, with_err_eq, on_db_eq.
  rewrite (has_redeem_no_faults st) by done. rewrite Hnew, set_statedb_same. cbn [map_err fmap option_fmap option_map].
  rewrite create_request. cbn [map_err]. mstep. rewrite with_err_eq, on_db_eq.
  rewrite (InsertAfterRequested_eq _ _ a); [|done|done|destruct Hev as (_ & _ & _ & _ & ? & _); lia].
  unfold insert_or_ignore_redeem. by rewrite request_row_ok.
Qed.
Lemma prepare_second :
  handlePreparedEvent pr (st_with (requested_row request_redeem a)) = (Ok tt, st_with prepared_row).
Proof using All.
  destruct Hev as (Hl & Hz & Hrq & Ha & Hr & Hv & E1 & E2 & E3 & E4 & Hpl & Hok).
  set (st1 := st_with _). assert (db_fault (statedb st1) = no_faults) as Hf1 by done.
  assert (redeem_at (statedb st1) (rr_RequestTxHash rq) = Some (requested_row request_redeem a)) as Hrow.
  { subst st1. cbn [st_with set_statedb statedb]. by rewrite redeem_at_app, Hnew, decide_True. }
  unfold handlePreparedEvent. rewrite bind_eq, with_err_eq, on_db_eq, E1.
  rewrite (has_redeem_no_faults st1), Hrow, set_statedb_same by done.
  cbn [map_err fmap option_fmap option_map]. mstep.
  change (String.eqb _ RedeemStatusPrepared || String.eqb _ RedeemStatusCompleted) with false.
  change (String.eqb _ RedeemStatusInvalid) with false. cbn iota.
  rewrite bind_eq, with_err_eq, on_db_eq, GetRedeem_eq, Hrow by done.
  rewrite (read_requested_row request_redeem a) by done. cbn [fmap outcome_fmap map_err].
  rewrite set_statedb_same. mstep.
  destruct (updateFromPreparedEvent_cases (requested_part request_redeem) pr a a eq_refl E4)
    as [(_ & _ & ->)|[Hno _]]; [|by destruct Hno].
  cbn [map_err]. rewrite with_err_eq, on_db_eq. unfold UpdateAfterPrepared.
  rewrite bind_eq, GetRedeem_eq by done. cbn [prepared RequestTxHash requested_part request_redeem].
  rewrite Hrow, (read_requested_row request_redeem a) by done.
  cbn [fmap outcome_fmap is_Some_b]. rewrite bind_eq, prepare_ok by done.
  rewrite bind_eq, lift_eq. destruct prepared_encode as (q & Hq & Hset & Hkey & _).
  change (sqlRedeem_encode _) with (sqlRedeem_encode (prepared request_redeem pr)). rewrite Hq.
  rewrite bind_eq, exec_ok by done. mstep. rewrite Hkey. unfold commit_redeems.
  assert (update_rows row_requestTxHash (redeem_table (statedb st1))
            (hex_encode (rr_RequestTxHash rq)) (set_prepared q)
          = redeem_table (statedb st) ++ [prepared_row]) as ->.
  { subst st1. cbn [st_with set_statedb statedb set_redeems redeem_table].
    rewrite update_rows_app, update_rows_notin by (by apply find_row_None in Hnew).
    f_equal. cbn. by rewrite decide_True, <-Hset. }
  rewrite prepared_row_ok. done.
Qed.
Lemma prepare_first : handlePreparedEvent pr st = (Ok tt, st_with prepared_row).
Proof using All.
  destruct Hev as (Hl & Hz & Hrq & Ha & Hr & Hv & E1 & E2 & E3 & E4 & Hpl & Hok).
  unfold handlePreparedEvent. rewrite bind_eq, with_err_eq, on_db_eq, E1.
  rewrite (has_redeem_no_faults st) by done. rewrite Hnew, set_statedb_same.
  cbn [map_err fmap option_fmap option_map].
  assert (createRedeemFromPreparedEvent pr = Ok (prepared request_redeem pr)) as ->.
  { unfold createRedeemFromPreparedEvent. rewrite E4. cbn [BigIntClone mbind outcome_bind].
    pose proof create_request as Hc. unfold createRedeemFromRequestedEvent in *.
    cbn [rr_RequestTxHash rr_Amount rr_Requester rr_Receiver rr_IsValidReceiver].
    rewrite E1, E2, E3. rewrite Ha, Hv in Hc. rewrite Hc. cbn [mbind outcome_bind].
    destruct (updateFromPreparedEvent_cases request_redeem pr a a eq_refl E4)
      as [(_ & _ & ->)|[Hno _]]; [done|by destruct Hno]. }
  cbn [map_err]. mstep. rewrite with_err_eq, on_db_eq. unfold UpdateAfterPrepared.
  rewrite bind_eq, GetRedeem_eq by done. cbn [prepared RequestTxHash request_redeem].
  rewrite Hnew. cbn [is_Some_b]. rewrite bind_eq, prepare_ok by done.
  rewrite bind_eq, lift_eq. destruct prepared_encode as (q & Hq & _ & Hkey & Ham & Hrow).
  change (sqlRedeem_encode _) with (sqlRedeem_encode (prepared request_redeem pr)).
  rewrite Hq, bind_eq, lift_eq, Ham, bind_uint64_small, bind_eq, exec_ok by (done || lia).
  rewrite Hrow. unfold insert_or_ignore_redeem. by rewrite prepared_row_ok.
Qed.

(** C23: when the two events of a redeem agree, the request names a valid receiver and the database, which
    does not fail, knows neither the request nor the preparation, the events may arrive in either order:
    handling the request and then its prepared event, or the prepared event first, succeeds and
    leaves the same state, in which the redeem is prepared with the amount, the receiver and the prepare
    hash of the events. (For an invalid receiver the two orders differ.) *)
Theorem redeem_events_commute :
  exists st' row, run (handlePreparedEvent pr) (run (handleRedeemRequestEvent rq) st) = st' /\
    run (handleRedeemRequestEvent rq) (run (handlePreparedEvent pr) st) = st' /\
    result (handleRedeemRequestEvent rq) st = Ok tt /\ result (handlePreparedEvent pr) st = Ok tt /\
    redeem_at (statedb st') (rr_RequestTxHash rq) = Some row /\
    row_status row = RedeemStatusPrepared /\ row_amount row = a /\
    row_receiver row = rr_Receiver rq /\
    row_prepareTxHash row = Some (hex_encode (rp_PrepareTxHash pr)).
Proof using All.
  assert (redeem_at (statedb (st_with prepared_row)) (rr_RequestTxHash rq) = Some prepared_row) as Hrow.
  { cbn [st_with set_statedb statedb]. by rewrite redeem_at_app, Hnew, decide_True. }
  exists (st_with prepared_row), prepared_row. unfold run, result.
  rewrite request_first, prepare_first. cbn [fst snd]. rewrite prepare_second.
  rewrite (handleRedeemRequestEvent_found _ _ RedeemStatusPrepared); [done| |].
  - by apply has_redeem_no_faults.
  - by rewrite Hrow.
Qed.
End order.

(** ** Concrete runs *)
Definition sample_cfg : StateConfig := {| ChannelSize := 2; UniqueChainId := 1337 |}.
Definition sample_state : State :=
  match New sample_db sample_cfg with (Ok st, _) => st | (_, d) => State_init d sample_cfg end.
Definition sample_request : RedeemRequestedEvent := {|
  rr_RequestTxHash := sample_hash 1; rr_Requester := replicate 20 (byte_of_Z 7);
  rr_Receiver := "bc1q"; rr_Amount := Some 100; rr_IsValidReceiver := true |}.
(** a request without an amount *)
Definition bad_request : RedeemRequestedEvent := {|
  rr_RequestTxHash := sample_hash 1; rr_Requester := []; rr_Receiver := "bc1q";
  rr_Amount := None; rr_IsValidReceiver := true |}.

(** follow a step when it is enabled *)
Definition do_env (i : input) (l : loop) : loop := default l (env_step i l).
Definition do_select (c : select_case) (l : loop) : loop := default l (select_step c l).
Lemma step_do_env i l : is_Some_b (env_step i l) = true -> step l (do_env i l).
Proof.
  intros H. apply (step_env i). unfold do_env. by destruct (env_step i l).
Qed.
Lemma step_do_select c l : is_Some_b (select_step c l) = true -> step l (do_select c l).
Proof.
  intros H. apply (step_select c). unfold do_select. by destruct (select_step c l).
Qed.
Definition loaded_loop : loop :=
  do_env (SendRequested bad_request) (do_env (SendRequested bad_request) (start sample_state)).
Definition failed_loop : loop := do_select RecvRequested loaded_loop.
Definition blocked_loop : loop := do_select RecvRequested failed_loop.
Lemma failed_reachable : rtc step (start sample_state) failed_loop.
Proof.
  eapply rtc_l; [|eapply rtc_l; [|eapply rtc_l; [|apply rtc_refl]]].
  - apply (step_do_env (SendRequested bad_request)). vm_compute. reflexivity.
  - apply (step_do_env (SendRequested bad_request)). vm_compute. reflexivity.
  - apply (step_do_select RecvRequested). vm_compute. reflexivity.
Qed.
Lemma blocked_reachable : rtc step (start sample_state) blocked_loop.
Proof.
  eapply rtc_r; [exact failed_reachable|].
  apply (step_do_select RecvRequested). vm_compute. reflexivity.
Qed.

(** [Start] can block for ever: when two events fail before the select picks the
    first error, the second send on [errCh], whose only reader is the loop itself, never
    completes, and no case of the select can run again. *)
Theorem start_may_block :
  exists l e, rtc step (start sample_state) l /\ ctl l = Blocked e /\
    forall c, select_step c l = None.
Proof.
  exists blocked_loop, ErrRequestedEventInvalid. split; [apply blocked_reachable|].
  split; [vm_compute; reflexivity|]. intros c. by destruct c; vm_compute.
Qed.

Lemma sample_finalized : finalized_is sample_state 1.
Proof. by split; vm_compute. Qed.
Lemma finalized_block_monotone_witness :
  exists st', handleNewBlockNumber 7 sample_state = (Ok tt, st') /\ finalized_is st' (Z.max 1 7) /\
    result GetBlockchainFinalizedBlockNumber st' = Ok (Z.max 1 7) /\
    redeem_table (statedb st') = redeem_table (statedb sample_state) /\
    mint_table (statedb st') = mint_table (statedb sample_state).
Proof.
  apply (finalized_block_monotone sample_state 1 7); [reflexivity|lia|lia|exact sample_finalized].
Defined.
Lemma restart_recovers_witness :
  exists st', New (statedb sample_state) sample_cfg = (Ok st', statedb sample_state) /\
    finalized_is st' 1 /\ result GetBlockchainFinalizedBlockNumber st' = Ok 1.
Proof.
  refine (proj1 (restart_recovers sample_state 1 sample_cfg sample_cfg _ _ _ _ _) eq_refl);
    [reflexivity|lia|cbn; lia|vm_compute; reflexivity|exact sample_finalized].
Defined.
Lemma redeem_events_idempotent_witness :
  run (handleRedeemRequestEvent sample_request) (run (handleRedeemRequestEvent sample_request) sample_state) =
    run (handleRedeemRequestEvent sample_request) sample_state /\
  run (handlePreparedEvent sample_prepared_event) (run (handlePreparedEvent sample_prepared_event) sample_state) =
    run (handlePreparedEvent sample_prepared_event) sample_state.
Proof. apply (redeem_events_idempotent sample_state sample_request sample_prepared_event). Defined.
Lemma redeem_events_commute_witness :
  exists st' row,
    run (handlePreparedEvent sample_prepared_event) (run (handleRedeemRequestEvent sample_request) sample_state) = st' /\
    run (handleRedeemRequestEvent sample_request) (run (handlePreparedEvent sample_prepared_event) sample_state) = st' /\
    result (handleRedeemRequestEvent sample_request) sample_state = Ok tt /\
    result (handlePreparedEvent sample_prepared_event) sample_state = Ok tt /\
    redeem_at (statedb st') (rr_RequestTxHash sample_request) = Some row /\
    row_status row = RedeemStatusPrepared /\ row_amount row = 100 /\
    row_receiver row = rr_Receiver sample_request /\
    row_prepareTxHash row = Some (hex_encode (rp_PrepareTxHash sample_prepared_event)).
Proof.
  apply (redeem_events_commute sample_state sample_request sample_prepared_event 100);
    [|reflexivity|reflexivity|reflexivity|apply not_elem_of_nil].
  unfold matching_events, prepared_event_ok. split_and!; try done. by repeat constructor.
Defined.
Definition sample_loop : loop :=
  start (run (handleRedeemRequestEvent sample_request) sample_state).
Lemma redeem_lifecycle_witness :
  exists row', redeem_at (statedb (l_st sample_loop)) (sample_hash 1) = Some row' /\
    (row' = requested_row (request_redeem sample_request 100) 100 \/
     (row_status (requested_row (request_redeem sample_request 100) 100) = RedeemStatusRequested /\
      row_status row' = RedeemStatusPrepared /\
      row_requester row' = row_requester (requested_row (request_redeem sample_request 100) 100) /\
      row_receiver row' = row_receiver (requested_row (request_redeem sample_request 100) 100) /\
      row_amount row' = row_amount (requested_row (request_redeem sample_request 100) 100) /\
      row_btcTxId row' = row_btcTxId (requested_row (request_redeem sample_request 100) 100))).
Proof.
  destruct (redeem_lifecycle sample_loop sample_loop (sample_hash 1)
    (requested_row (request_redeem sample_request 100) 100)) as (row' & H1 & H2 & _);
    [vm_compute; reflexivity|apply rtc_refl|vm_compute; reflexivity|]. exists row'. by split.
Defined.
Lemma loop_errors_handled_witness : errCh failed_loop <> [] /\ loop_inv failed_loop.
Proof.
  split; [vm_compute; done|]. exact (loop_errors_handled sample_state failed_loop failed_reachable).
Defined.
Lemma SetRedeemCompleted_panics_witness :
  SetRedeemCompleted (sample_hash 1) (sample_hash 2) sample_state =
    (Panic "nil pointer dereference", sample_state).
Proof. apply (SetRedeemCompleted_panics sample_state). reflexivity. Defined.
