(* ===== verification/Vault.v ===== *)
(** * Vault: the UTXO vault of the bridge wallet (package [btcvault]).

    [VaultUTXOStorage] is the storage interface of types.go, as a type class; its laws say
    what the vault relies on. [TreasureVault]'s operations are proved against the
    interface, and the SQLite storage of sqlite_db.go is an instance that satisfies it.
    The wall clock is an argument. The mutex of [ChooseAndLock] makes it atomic. *)
From S2P Require Export Database.
From Stdlib Require Import Sorting.Sorted.
From stdpp Require Import sorting.
#[local] Open Scope Z_scope.

(** ** types.go *)
Record VaultUTXO := {
  BlockNumber : Z; BlockHash : string; TxID : string; Vout : Z; u_Amount : Z;
  PkScript : bytes; Lockup : bool; Spent : bool; u_Timeout : Z; LinkedId : string }.
#[global] Instance VaultUTXO_eq_dec : EqDecision VaultUTXO.
Proof. solve_decision. Defined.
Definition utxo_key (u : VaultUTXO) : string * Z := (TxID u, Vout u).

Definition set_Lockup (b : bool) (u : VaultUTXO) : VaultUTXO :=
  {| BlockNumber := BlockNumber u; BlockHash := BlockHash u; TxID := TxID u; Vout := Vout u;
     u_Amount := u_Amount u; PkScript := PkScript u; Lockup := b; Spent := Spent u;
     u_Timeout := u_Timeout u; LinkedId := LinkedId u |}.
Definition set_Spent (b : bool) (u : VaultUTXO) : VaultUTXO :=
  {| BlockNumber := BlockNumber u; BlockHash := BlockHash u; TxID := TxID u; Vout := Vout u;
     u_Amount := u_Amount u; PkScript := PkScript u; Lockup := Lockup u; Spent := b;
     u_Timeout := u_Timeout u; LinkedId := LinkedId u |}.
Definition set_Timeout (t : Z) (u : VaultUTXO) : VaultUTXO :=
  {| BlockNumber := BlockNumber u; BlockHash := BlockHash u; TxID := TxID u; Vout := Vout u;
     u_Amount := u_Amount u; PkScript := PkScript u; Lockup := Lockup u; Spent := Spent u;
     u_Timeout := t; LinkedId := LinkedId u |}.
Definition set_LinkedId (l : string) (u : VaultUTXO) : VaultUTXO :=
  {| BlockNumber := BlockNumber u; BlockHash := BlockHash u; TxID := TxID u; Vout := Vout u;
     u_Amount := u_Amount u; PkScript := PkScript u; Lockup := Lockup u; Spent := Spent u;
     u_Timeout := u_Timeout u; LinkedId := l |}.

(** The storage interface *)
Class VaultUTXOStorage (S : Type) := {
  InsertVaultUTXO : VaultUTXO -> M S unit;
  QueryByLinkedID : string -> M S (list VaultUTXO);
  QueryAllUTXOs : M S (list VaultUTXO);
  QueryAllUsableUTXOs : M S (list VaultUTXO);
  QueryByBlockNumber : Z -> M S (list VaultUTXO);
  QueryByBlockHash : string -> M S (list VaultUTXO);
  QueryByTxID : string -> M S (list VaultUTXO);
  QueryByTxIDAndVout : string -> Z -> M S (option VaultUTXO);
  QueryExpiredAndLockedUTXOs : Z -> M S (list VaultUTXO);
  QueryEnoughUTXOs : Z -> M S (list VaultUTXO);
  SetLockup : string -> Z -> bool -> M S unit;
  SetSpent : string -> Z -> bool -> M S unit;
  SetTimeout : string -> Z -> Z -> M S unit;
  SetLinkedID : string -> Z -> string -> M S unit;
  SumMoney : M S Z;
}.

Definition usable (u : VaultUTXO) : Prop := Lockup u = false /\ Spent u = false.
#[global] Instance usable_dec u : Decision (usable u).
Proof. unfold usable. apply _. Defined.
Definition sum_amounts (l : list VaultUTXO) : Z := foldr (fun u n => u_Amount u + n) 0 l.
Definition desc (u v : VaultUTXO) : Prop := u_Amount v <= u_Amount u.
#[global] Instance desc_dec u v : Decision (desc u v).
Proof. unfold desc. apply _. Defined.

(** What the vault relies on: the operations act on a table of UTXOs with unique
    outpoints ([rows]); [healthy] means that the storage has no failure. *)
Class VaultStorageLaws (S : Type) `{V : VaultUTXOStorage S} := {
  rows : S -> list VaultUTXO;
  healthy : S -> Prop;
  law_unique s : healthy s -> NoDup (utxo_key <$> rows s);
  law_linked s id : healthy s ->
    QueryByLinkedID id s = (Ok (filter (fun u => LinkedId u = id) (rows s)), s);
  law_all s : healthy s -> QueryAllUTXOs s = (Ok (rows s), s);
  law_one s t v : healthy s ->
    QueryByTxIDAndVout t v s = (Ok (find_row utxo_key (rows s) (t, v)), s);
  law_expired s t : healthy s ->
    QueryExpiredAndLockedUTXOs t s =
      (Ok (filter (fun u => Lockup u = true /\ u_Timeout u < t) (rows s)), s);
  law_insert s u : healthy s -> utxo_key u ∉ utxo_key <$> rows s ->
    exists s', InsertVaultUTXO u s = (Ok tt, s') /\ rows s' = rows s ++ [u] /\ healthy s';
  (** enough UTXOs: the largest usable ones first, and as few as possible *)
  law_enough s a : healthy s ->
    Forall (fun u => 0 <= u_Amount u) (rows s) -> sum_amounts (rows s) < 2 ^ 63 ->
    exists l, l ≡ₚ filter usable (rows s) /\ StronglySorted desc l /\
    if decide (sum_amounts l < a)
    then exists e, QueryEnoughUTXOs a s = (Err e, s)
    else exists n, QueryEnoughUTXOs a s = (Ok (take n l), s) /\ a <= sum_amounts (take n l) /\
           forall m, (0 < m < n)%nat -> sum_amounts (take m l) < a;
  law_lockup s t v b : healthy s ->
    exists s', SetLockup t v b s = (Ok tt, s') /\
      rows s' = update_rows utxo_key (rows s) (t, v) (set_Lockup b) /\ healthy s';
  law_timeout s t v n : healthy s ->
    exists s', SetTimeout t v n s = (Ok tt, s') /\
      rows s' = update_rows utxo_key (rows s) (t, v) (set_Timeout n) /\ healthy s';
  law_linkedid s t v id : healthy s ->
    exists s', SetLinkedID t v id s = (Ok tt, s') /\
      rows s' = update_rows utxo_key (rows s) (t, v) (set_LinkedId id) /\ healthy s';
  law_sum s : healthy s -> - 2 ^ 63 <= sum_amounts (filter usable (rows s)) < 2 ^ 63 ->
    SumMoney s = (Ok (sum_amounts (filter usable (rows s))), s);
}.

(** ** vault.go *)
Definition TIMEOUT_DELAY : Z := 3600.
Definition SAFE_MARGIN : Z := 10000.

Section vault.
Context {S : Type} `{V : VaultUTXOStorage S} `{E : EthLib}.

Definition AddUTXO (blockNumber : Z) (blockHash txID : string) (vout amount : Z)
    (pkScript : bytes) : M S unit :=
  let utxo := {| BlockNumber := blockNumber; BlockHash := blockHash; TxID := txID; Vout := vout;
                 u_Amount := amount; PkScript := pkScript; Lockup := false; Spent := false;
                 u_Timeout := 0; LinkedId := EmptyString |} in
  old_utxo ← QueryByTxIDAndVout txID vout;
  match old_utxo with
  | Some _ => throw "utxo already exists"
  | None => InsertVaultUTXO utxo
  end.

(** The body of the loop of [ChooseAndLock] for one UTXO; [now] is [time.Now().Unix()]. *)
Definition lock_one (now : Z) (linkedID : string) (utxo : VaultUTXO) : M S VaultUTXO :=
  SetLockup (TxID utxo) (Vout utxo) true ;;
  let timepoint := i64 (now + TIMEOUT_DELAY) in
  SetTimeout (TxID utxo) (Vout utxo) timepoint ;;
  SetLinkedID (TxID utxo) (Vout utxo) linkedID ;;
  mret (set_LinkedId linkedID (set_Timeout timepoint (set_Lockup true utxo))).
Fixpoint lock_all (now : nat -> Z) (i : nat) (linkedID : string) (utxos : list VaultUTXO)
    : M S (list VaultUTXO) :=
  match utxos with
  | [] => mret []
  | utxo :: utxos =>
      u ← lock_one (now i) linkedID utxo;
      us ← lock_all now (Datatypes.S i) linkedID utxos;
      mret (u :: us)
  end.
Definition ChooseAndLock (now : nat -> Z) (targetAmount : Z) (linkedID : string)
    : M S (list VaultUTXO) :=
  hits ← QueryByLinkedID linkedID;
  if (0 <? length hits)%nat
  then throw ("linkedID " +:+ linkedID +:+ " already exists, don't perform UTXO lock for it again")
  else
    utxos ← QueryEnoughUTXOs targetAmount;
    lock_all now 0 linkedID utxos.

Definition release (utxo : VaultUTXO) : M S unit :=
  SetLockup (TxID utxo) (Vout utxo) false ;; SetTimeout (TxID utxo) (Vout utxo) 0.
Definition ReleaseByExpire (now : Z) : M S unit :=
  utxos ← QueryExpiredAndLockedUTXOs now;
  for_each release utxos.
Definition Peek : M S (list VaultUTXO * Z) :=
  _utxos ← QueryAllUTXOs; _total ← SumMoney; mret (_utxos, _total).
Definition ReleaseByCommand (txID : string) (vout : Z) : M S unit :=
  utxo ← QueryByTxIDAndVout txID vout;
  match utxo with
  | None => throw "utxo not found"
  | Some _ => SetLockup txID vout false ;; SetTimeout txID vout 0
  end.
Definition GetUTXODetail (txID : string) (vout : Z) : M S VaultUTXO :=
  utxo ← QueryByTxIDAndVout txID vout;
  match utxo with
  | None => throw "utxo not found"
  | Some utxo => mret utxo
  end.
Definition outpoint_of (utxo : VaultUTXO) : BtcOutpoint :=
  {| BtcTxId := HexToHash (TxID utxo); BtcIdx := u16 (Vout utxo) |}.
(** The outpoints are sent on the channel of the caller: they are the result. *)
Definition Request (now : nat -> Z) (reqTxId : bytes) (amount : option Z) : M S (list BtcOutpoint) :=
  ignore Peek ;;
  amount ← lift (BigIntClone amount);
  let safe_amount := i64 (big_Int64 amount + SAFE_MARGIN) in
  utxos ← ChooseAndLock now safe_amount (ByteSliceToPureHexStr reqTxId);
  mret (outpoint_of <$> utxos).
End vault.

(** ** sqlite_db.go *)
Record VaultSQLiteStorage := { v_table : list VaultUTXO; v_fault : string -> option error }.

(** [ORDER BY amount DESC]: SQLite leaves the order of equal amounts open. *)
Class SqlSort := {
  order_desc : list VaultUTXO -> list VaultUTXO;
  order_desc_perm l : order_desc l ≡ₚ l;
  order_desc_sorted l : StronglySorted desc (order_desc l);
}.
#[global] Instance desc_total : Total desc.
Proof. intros u v. unfold desc. lia. Qed.
#[global] Instance desc_trans : Transitive desc.
Proof. intros u v w. unfold desc. lia. Qed.
#[global] Instance sql_sort_model : SqlSort := {|
  order_desc := merge_sort desc;
  order_desc_perm := merge_sort_Permutation desc;
  order_desc_sorted l := StronglySorted_merge_sort desc l;
|}.

Section sqlite.
Context `{Q : SqlSort}.

Definition sql (q : string) : M VaultSQLiteStorage unit := fun s =>
  match v_fault s q with Some e => (Err e, s) | None => (Ok tt, s) end.
Definition set_table (t : list VaultUTXO) : M VaultSQLiteStorage unit :=
  modify (fun s => {| v_table := t; v_fault := v_fault s |}).
Definition sqlite_Insert (utxo : VaultUTXO) : M VaultSQLiteStorage unit :=
  sql "INSERT" ;;
  t ← gets v_table;
  if bool_decide (utxo_key utxo ∈ utxo_key <$> t) then throw "UNIQUE constraint failed"
  else set_table (t ++ [utxo]).
Definition sqlite_select (q : string) (P : VaultUTXO -> Prop) `{forall u, Decision (P u)}
    : M VaultSQLiteStorage (list VaultUTXO) :=
  sql q ;; t ← gets v_table; mret (filter P t).
Definition sqlite_QueryByLinkedID (linkedID : string) :=
  sqlite_select "WHERE linked_id = ?" (fun u => LinkedId u = linkedID).
Definition sqlite_QueryAllUTXOs := sqlite_select "SELECT" (fun _ => True).
Definition sqlite_QueryAllUsableUTXOs := sqlite_select "WHERE lockup = 0 AND spent = 0" usable.
Definition sqlite_QueryByBlockNumber (blockNumber : Z) :=
  sqlite_select "WHERE block_number = ?" (fun u => BlockNumber u = blockNumber).
Definition sqlite_QueryByBlockHash (blockHash : string) :=
  sqlite_select "WHERE block_hash = ?" (fun u => BlockHash u = blockHash).
Definition sqlite_QueryByTxID (txID : string) :=
  sqlite_select "WHERE tx_id = ?" (fun u => TxID u = txID).
Definition sqlite_QueryByTxIDAndVout (txID : string) (vout : Z)
    : M VaultSQLiteStorage (option VaultUTXO) :=
  sql "WHERE tx_id = ? AND vout = ?" ;;
  t ← gets v_table; mret (find_row utxo_key t (txID, vout)).
Definition sqlite_QueryExpired (t : Z) :=
  sqlite_select "WHERE lockup = 1 AND timeout < ?" (fun u => Lockup u = true /\ u_Timeout u < t).

(** The scan over the sorted rows, with an [int64] running total *)
Fixpoint scan_enough (amount total : Z) (l : list VaultUTXO) : list VaultUTXO * Z :=
  match l with
  | [] => ([], total)
  | utxo :: l =>
      let total := i64 (total + u_Amount utxo) in
      if amount <=? total then ([utxo], total)
      else let '(utxos, total) := scan_enough amount total l in (utxo :: utxos, total)
  end.
Definition sqlite_QueryEnoughUTXOs (amount : Z) : M VaultSQLiteStorage (list VaultUTXO) :=
  sql "WHERE lockup = 0 AND spent = 0 ORDER BY amount DESC" ;;
  t ← gets v_table;
  let '(utxos, total) := scan_enough amount 0 (order_desc (filter usable t)) in
  if total <? amount
  then throw ("not enough UTXOs to cover the amount required, required=" +:+ int_Text 10 amount
              +:+ ", have=" +:+ int_Text 10 total)
  else mret utxos.
Definition sqlite_update (q : string) (txID : string) (vout : Z) (f : VaultUTXO -> VaultUTXO)
    : M VaultSQLiteStorage unit :=
  sql q ;; t ← gets v_table; set_table (update_rows utxo_key t (txID, vout) f).
Definition sqlite_SetLockup txID vout (lockup : bool) :=
  sqlite_update "SET lockup = ?" txID vout (set_Lockup lockup).
Definition sqlite_SetSpent txID vout (spent : bool) :=
  sqlite_update "SET spent = ?" txID vout (set_Spent spent).
Definition sqlite_SetLinkedID txID vout (linkedID : string) :=
  sqlite_update "SET linked_id = ?" txID vout (set_LinkedId linkedID).
Definition sqlite_SetTimeout txID vout (timeout : Z) :=
  sqlite_update "SET timeout = ?" txID vout (set_Timeout timeout).
(** SUM over 64-bit integers fails on overflow. *)
Definition sqlite_SumMoney : M VaultSQLiteStorage Z :=
  sql "SELECT COALESCE(SUM(amount), 0)" ;;
  t ← gets v_table;
  let total := sum_amounts (filter usable t) in
  if bool_decide (- 2 ^ 63 <= total < 2 ^ 63) then mret total else throw "integer overflow".

#[global] Instance vault_sqlite : VaultUTXOStorage VaultSQLiteStorage := {|
  InsertVaultUTXO := sqlite_Insert; QueryByLinkedID := sqlite_QueryByLinkedID;
  QueryAllUTXOs := sqlite_QueryAllUTXOs; QueryAllUsableUTXOs := sqlite_QueryAllUsableUTXOs;
  QueryByBlockNumber := sqlite_QueryByBlockNumber; QueryByBlockHash := sqlite_QueryByBlockHash;
  QueryByTxID := sqlite_QueryByTxID; QueryByTxIDAndVout := sqlite_QueryByTxIDAndVout;
  QueryExpiredAndLockedUTXOs := sqlite_QueryExpired; QueryEnoughUTXOs := sqlite_QueryEnoughUTXOs;
  SetLockup := sqlite_SetLockup; SetSpent := sqlite_SetSpent; SetTimeout := sqlite_SetTimeout;
  SetLinkedID := sqlite_SetLinkedID; SumMoney := sqlite_SumMoney;
|}.
End sqlite.

(** ** The SQLite storage satisfies the interface *)
Lemma sum_amounts_app l k : sum_amounts (l ++ k) = sum_amounts l + sum_amounts k.
Proof. unfold sum_amounts. induction l as [|u l IH]; cbn; lia. Qed.
#[global] Instance sum_amounts_perm : Proper ((≡ₚ) ==> eq) sum_amounts.
Proof. unfold sum_amounts. induction 1; cbn; lia. Qed.
Lemma sum_amounts_nonneg l : Forall (fun u => 0 <= u_Amount u) l -> 0 <= sum_amounts l.
Proof. unfold sum_amounts. induction 1; cbn; lia. Qed.
Lemma sum_filter (P : VaultUTXO -> Prop) `{forall u, Decision (P u)} l :
  Forall (fun u => 0 <= u_Amount u) l -> sum_amounts (filter P l) <= sum_amounts l.
Proof.
  induction 1 as [|u l Hu Hl IH]; [done|]. rewrite filter_cons. unfold sum_amounts in *.
  case_decide; cbn; lia.
Qed.
Lemma sum_take l m :
  Forall (fun u => 0 <= u_Amount u) l -> sum_amounts (take m l) <= sum_amounts l.
Proof.
  intros H. rewrite <-(take_drop m l) at 2. rewrite sum_amounts_app.
  pose proof (sum_amounts_nonneg (drop m l) (Forall_drop _ m _ H)). lia.
Qed.

Lemma scan_enough_spec a total l :
  0 <= total -> Forall (fun u => 0 <= u_Amount u) l -> total + sum_amounts l < 2 ^ 63 ->
  exists n, scan_enough a total l = (take n l, total + sum_amounts (take n l)) /\
    (forall m, (0 < m < n)%nat -> total + sum_amounts (take m l) < a) /\
    (total + sum_amounts (take n l) < a -> take n l = l).
Proof.
  intros Ht Hl. revert total Ht. induction Hl as [|u l Hu Hl IH]; intros total Ht Hs.
  - exists 0%nat. cbn. split_and!; [f_equal; lia|lia|done].
  - change (sum_amounts (u :: l)) with (u_Amount u + sum_amounts l) in Hs.
    pose proof (sum_amounts_nonneg l Hl). cbn [scan_enough].
    rewrite (swrap_small 64) by lia. destruct (Z.leb_spec a (total + u_Amount u)).
    + exists 1%nat. cbn. rewrite take_0. cbn. split_and!; [f_equal; lia|lia|lia].
    + destruct (IH (total + u_Amount u)) as (n & Hn & Hm & Hlt); [lia..|].
      exists (Datatypes.S n). rewrite Hn. cbn [take].
      assert (forall k, sum_amounts (u :: take k l) = u_Amount u + sum_amounts (take k l)) as Hc by done.
      rewrite !Hc. split_and!; [f_equal; lia| |].
      * intros [|m] Hlt'; [lia|]. cbn [take]. rewrite Hc.
        destruct (decide (m = 0%nat)) as [->|]; [rewrite take_0; cbn; lia|].
        specialize (Hm m ltac:(lia)). lia.
      * intros Hx. f_equal. apply Hlt. lia.
Qed.

Section sqlite_laws.
Context `{Q : SqlSort}.
Definition sqlite_healthy (s : VaultSQLiteStorage) : Prop :=
  (forall q, v_fault s q = None) /\ NoDup (utxo_key <$> v_table s).
Lemma sql_ok s q : sqlite_healthy s -> sql q s = (Ok tt, s).
Proof. intros [H _]. unfold sql. by rewrite H. Qed.
Lemma sqlite_select_ok s q P `{forall u, Decision (P u)} :
  sqlite_healthy s -> sqlite_select q P s = (Ok (filter P (v_table s)), s).
Proof. intros Hs. unfold sqlite_select. mstep. by rewrite sql_ok. Qed.
Lemma sqlite_update_ok s q t v f :
  sqlite_healthy s -> (forall u, utxo_key (f u) = utxo_key u) ->
  exists s', sqlite_update q t v f s = (Ok tt, s') /\
    v_table s' = update_rows utxo_key (v_table s) (t, v) f /\ sqlite_healthy s'.
Proof.
  intros Hs Hf. unfold sqlite_update. mstep. rewrite sql_ok by done. mstep.
  eexists. split; [reflexivity|]. split; [done|]. destruct Hs as [H1 H2]. split; [done|].
  cbn. by rewrite update_rows_keys.
Qed.
#[global] Program Instance vault_sqlite_laws : VaultStorageLaws VaultSQLiteStorage := {|
  rows := v_table; healthy := sqlite_healthy |}.
Next Obligation. by intros s [_ H]. Qed.
Next Obligation. intros. by apply sqlite_select_ok. Qed.
Next Obligation.
  intros s H. etrans; [by apply sqlite_select_ok|]. f_equal. f_equal.
  induction (v_table s) as [|u l IH]; [done|]. rewrite filter_cons_True by done. by rewrite IH.
Qed.
Next Obligation.
  intros s t v H. cbn. unfold sqlite_QueryByTxIDAndVout. mstep. by rewrite sql_ok.
Qed.
Next Obligation. intros. by apply sqlite_select_ok. Qed.
Next Obligation.
  intros s u H Hn. cbn. unfold sqlite_Insert. mstep. rewrite sql_ok by done. mstep.
  rewrite bool_decide_eq_false_2 by done. eexists. split; [reflexivity|]. split; [done|].
  destruct H as [H1 H2]. split; [done|]. cbn. rewrite fmap_app. apply NoDup_app.
  split_and!; [done| |apply NoDup_singleton]. by intros x Hx ->%list_elem_of_singleton.
Qed.
Next Obligation.
  intros s a H Hpos Hsum. cbn. exists (order_desc (filter usable (v_table s))).
  set (l := order_desc _). split; [apply order_desc_perm|]. split; [apply order_desc_sorted|].
  assert (Forall (fun u => 0 <= u_Amount u) l) as Hl.
  { subst l. rewrite order_desc_perm. rewrite Forall_forall in *. intros u [_ Hu]%list_elem_of_filter. auto. }
  assert (sum_amounts l < 2 ^ 63) as Hs.
  { subst l. rewrite order_desc_perm. pose proof (sum_filter usable _ Hpos). lia. }
  destruct (scan_enough_spec a 0 l) as (n & Hn & Hm & Hlt); [lia|done|lia|].
  pose proof (sum_take l n Hl) as Hle.
  unfold sqlite_QueryEnoughUTXOs. mstep. rewrite sql_ok by done. mstep. fold l. rewrite Hn.
  rewrite !Z.add_0_l in *. destruct (decide (sum_amounts l < a)) as [Hx|Hx].
  - destruct (Z.ltb_spec (sum_amounts (take n l)) a); [by eexists|lia].
  - destruct (Z.ltb_spec (sum_amounts (take n l)) a) as [Hy|Hy].
    + rewrite (Hlt Hy) in Hy. lia.
    + exists n. split; [done|]. split; [done|]. intros m Hmn. specialize (Hm m Hmn). lia.
Qed.
Next Obligation. intros. by apply sqlite_update_ok. Qed.
Next Obligation. intros. by apply sqlite_update_ok. Qed.
Next Obligation. intros. by apply sqlite_update_ok. Qed.
Next Obligation.
  intros s H Hb. cbn. unfold sqlite_SumMoney. mstep. rewrite sql_ok by done. mstep.
  by rewrite bool_decide_eq_true_2.
Qed.
End sqlite_laws.

(** ** Choosing and locking, against the interface *)
(** the rows named by [ks] changed by [P], the others did not *)
Definition changed_on (ks : list (string * Z)) (P : VaultUTXO -> VaultUTXO -> Prop)
    : list VaultUTXO -> list VaultUTXO -> Prop :=
  Forall2 (fun u u' => (utxo_key u ∈ ks /\ P u u') \/ ((utxo_key u ∉ ks) /\ u' = u)).
(** [u] locked for the redeem [id] *)
Definition locked_for (id : string) (u u' : VaultUTXO) : Prop :=
  exists tp, u' = set_LinkedId id (set_Timeout tp (set_Lockup true u)).
Definition unlocked (u u' : VaultUTXO) : Prop := u' = set_Timeout 0 (set_Lockup false u).

Lemma changed_on_nil P t : changed_on [] P t t.
Proof.
  unfold changed_on. apply Forall_Forall2_diag, Forall_true. intros u. right.
  split; [apply not_elem_of_nil|done].
Qed.
Lemma changed_on_update k ks P t t' f :
  (forall u u', P u u' -> utxo_key u' = utxo_key u /\ P u (f u')) -> (forall u, P u (f u)) ->
  changed_on ks P t t' -> changed_on (k :: ks) P t (update_rows utxo_key t' k f).
Proof.
  intros HPP HP H. unfold changed_on, update_rows in *. apply Forall2_fmap_r.
  eapply Forall2_impl; [exact H|]. intros u u' [[Hin Hp]|[Hin ->]]; unfold compose; cbn beta.
  - destruct (HPP u u' Hp) as [Hk Hf]. left. split; [by right|]. by case_decide.
  - case_decide as Hk.
    + left. split; [rewrite Hk; by left|done].
    + right. split; [|done]. rewrite elem_of_cons. naive_solver.
Qed.
Lemma changed_on_ext ks ks' P t t' :
  (forall k, k ∈ ks <-> k ∈ ks') -> changed_on ks P t t' -> changed_on ks' P t t'.
Proof. intros Hk H. eapply Forall2_impl; [exact H|]. intros u u' Hu. cbn beta in *. by rewrite <-!Hk. Qed.
Lemma changed_on_keys ks P t t' :
  (forall u u', P u u' -> utxo_key u' = utxo_key u) ->
  changed_on ks P t t' -> utxo_key <$> t' = utxo_key <$> t.
Proof.
  intros HP. induction 1 as [|u u' t t' Hu _ IH]; [done|]. rewrite !fmap_cons, IH. f_equal.
  destruct Hu as [[_ Hp]|[_ ->]]; [by apply HP|done].
Qed.
Lemma locked_for_key id u u' : locked_for id u u' -> utxo_key u' = utxo_key u.
Proof. by intros [tp ->]. Qed.

Lemma submseteq_NoDup_keys (l t : list VaultUTXO) (P : VaultUTXO -> Prop) `{forall u, Decision (P u)} :
  l ⊆+ filter P t -> NoDup (utxo_key <$> t) -> NoDup (utxo_key <$> l).
Proof.
  intros Hl Ht. apply (fmap_submseteq utxo_key) in Hl.
  assert (NoDup (utxo_key <$> filter P t)) as Hf.
  { eapply sublist_NoDup; [exact Ht|]. apply fmap_sublist, sublist_filter. }
  apply submseteq_Permutation in Hl as [k Hk]. rewrite Hk in Hf. by apply NoDup_app in Hf as [? _].
Qed.

Lemma sub_usable l t u : l ⊆+ filter usable t -> u ∈ l -> usable u /\ u ∈ t.
Proof.
  intros Hsub Hu. apply (list_elem_of_filter usable). by eapply elem_of_submseteq.
Qed.

Section choose.
Context {S : Type} `{VL : VaultStorageLaws S}.

Lemma lock_one_spec s now id u :
  healthy s ->
  exists s', lock_one now id u s =
      (Ok (set_LinkedId id (set_Timeout (i64 (now + TIMEOUT_DELAY)) (set_Lockup true u))), s') /\
    rows s' = update_rows utxo_key (rows s) (utxo_key u)
      (fun v => set_LinkedId id (set_Timeout (i64 (now + TIMEOUT_DELAY)) (set_Lockup true v))) /\
    healthy s'.
Proof.
  intros H0. unfold lock_one. mstep.
  destruct (law_lockup s (TxID u) (Vout u) true H0) as (s1 & -> & R1 & H1). mstep.
  destruct (law_timeout s1 (TxID u) (Vout u) (i64 (now + TIMEOUT_DELAY)) H1) as (s2 & -> & R2 & H2).
  mstep. destruct (law_linkedid s2 (TxID u) (Vout u) id H2) as (s3 & -> & R3 & H3). mstep.
  exists s3. split; [done|]. split; [|done]. rewrite R3, R2, R1. unfold update_rows.
  rewrite <-!list_fmap_compose. apply list_fmap_ext. intros i v _. cbn. unfold utxo_key.
  repeat case_decide; naive_solver.
Qed.

Lemma lock_all_spec now i id l s t :
  healthy s ->
  exists l' s', lock_all now i id l s = (Ok l', s') /\ healthy s' /\
    Forall2 (locked_for id) l l' /\
    forall ks, changed_on ks (locked_for id) t (rows s) ->
      changed_on ((utxo_key <$> l) ++ ks) (locked_for id) t (rows s').
Proof.
  intros Hs. revert i s Hs. induction l as [|u l IH]; intros i s Hs.
  - exists [], s. by split_and!.
  - cbn [lock_all]. mstep. destruct (lock_one_spec s (now i) id u Hs) as (s1 & -> & R1 & H1). mstep.
    destruct (IH (Datatypes.S i) s1 H1) as (l' & s' & -> & H' & Hl & Hc). mstep.
    eexists _, s'. split; [done|]. split; [done|]. split; [constructor; [by eexists|done]|].
    intros ks Hks. eapply changed_on_ext; [|apply (Hc (utxo_key u :: ks))].
    + intros k. rewrite fmap_cons. set_solver.
    + rewrite R1. apply changed_on_update; [|by eexists|done].
      intros v v' [tp ->]. split; [done|]. by eexists.
Qed.

(** *** Optimality of the choice *)
Lemma sum_take_shift x l m :
  StronglySorted desc (x :: l) -> Forall (fun u => 0 <= u_Amount u) (x :: l) ->
  sum_amounts (take (Datatypes.S m) l) <= u_Amount x + sum_amounts (take m l).
Proof.
  intros Hs Hp. inversion Hs as [|? ? Hl Hx]; subst. apply Forall_cons in Hp as [Hx0 Hp].
  clear Hs. revert l Hl Hx Hp. induction m as [|m IH]; intros l Hl Hx Hp.
  - destruct l as [|y l]; cbn; [lia|]. rewrite take_0. cbn.
    apply Forall_cons in Hx as [Hxy _]. unfold desc in Hxy. lia.
  - destruct l as [|y l]; [cbn; lia|]. inversion Hl; subst. apply Forall_cons in Hx as [_ Hx].
    apply Forall_cons in Hp as [_ Hp]. specialize (IH l ltac:(done) Hx Hp).
    change (take (Datatypes.S (Datatypes.S m)) (y :: l)) with (y :: take (Datatypes.S m) l).
    change (take (Datatypes.S m) (y :: l)) with (y :: take m l).
    unfold sum_amounts in *. cbn [foldr]. lia.
Qed.
(** the first [m] of a list sorted by decreasing amount are worth the most *)
Lemma sum_submseteq l k :
  StronglySorted desc l -> Forall (fun u => 0 <= u_Amount u) l ->
  k ⊆+ l -> sum_amounts k <= sum_amounts (take (length k) l).
Proof.
  revert k. induction l as [|x l IH]; intros k Hs Hp Hk.
  - by apply submseteq_nil_r in Hk as ->.
  - inversion Hs as [|? ? Hl Hx]; subst. pose proof Hp as Hp'. apply Forall_cons in Hp' as [Hx0 Hpl].
    apply submseteq_cons_r in Hk as [Hk|(k' & Hk & Hsub)].
    + specialize (IH k Hl Hpl Hk). destruct (length k) as [|m] eqn:Hm.
      * apply nil_length_inv in Hm as ->. cbn. lia.
      * pose proof (sum_take_shift x l m Hs Hp) as Hsh.
        change (take (Datatypes.S m) (x :: l)) with (x :: take m l).
        unfold sum_amounts in *. cbn [foldr]. lia.
    + specialize (IH k' Hl Hpl Hsub). rewrite Hk. cbn [length take].
      unfold sum_amounts in *. cbn [foldr]. lia.
Qed.

(** the amounts of the vault fit an [int64] *)
Definition amounts_ok (s : S) : Prop :=
  Forall (fun u => 0 <= u_Amount u) (rows s) /\ sum_amounts (rows s) < 2 ^ 63.

Lemma ChooseAndLock_cases s now target id :
  healthy s -> amounts_ok s -> 0 < target ->
  match ChooseAndLock now target id s with
  | (Err _, s') => s' = s /\
      ((exists u, u ∈ rows s /\ LinkedId u = id) \/ sum_amounts (filter usable (rows s)) < target)
  | (Ok l', s') =>
      exists l, Forall2 (locked_for id) l l' /\ NoDup (utxo_key <$> l) /\
        l ⊆+ filter usable (rows s) /\ target <= sum_amounts l /\
        (forall k, k ⊆+ filter usable (rows s) -> target <= sum_amounts k ->
                   (length l <= length k)%nat) /\
        (forall u, u ∈ rows s -> LinkedId u <> id) /\
        changed_on (utxo_key <$> l) (locked_for id) (rows s) (rows s') /\ healthy s'
  | (Panic _, _) => False
  end.
Proof.
  intros Hs [Hpos Hsum] Htar. unfold ChooseAndLock. mstep. rewrite law_linked by done. mstep.
  destruct (Nat.ltb_spec 0 (length (filter (fun u => LinkedId u = id) (rows s)))) as [Hl|Hl].
  { cbn. split; [done|]. left. destruct (filter _ (rows s)) as [|u us] eqn:Hf; [cbn in Hl; lia|].
    exists u. assert (u ∈ filter (fun u => LinkedId u = id) (rows s)) as Hu by (rewrite Hf; by left).
    by apply list_elem_of_filter in Hu as [??]. }
  assert (forall u, u ∈ rows s -> LinkedId u <> id) as Hfresh.
  { intros u Hu Hid. assert (u ∈ filter (fun u => LinkedId u = id) (rows s)) as Hin.
    { by apply list_elem_of_filter. }
    destruct (filter _ (rows s)); [by apply not_elem_of_nil in Hin|cbn in Hl; lia]. }
  mstep. destruct (law_enough s target Hs Hpos Hsum) as (l & Hperm & Hsort & Hq).
  destruct (decide (sum_amounts l < target)) as [Hlt|Hge].
  { destruct Hq as [e ->]. split; [done|]. right. by rewrite <-Hperm. }
  destruct Hq as (n & -> & Hcov & Hmin).
  destruct (lock_all_spec now 0 id (take n l) s (rows s) Hs)
    as (l' & s' & -> & Hs' & Hl' & Hc).
  assert (take n l ⊆+ filter usable (rows s)) as Hsub.
  { rewrite <-Hperm. apply sublist_submseteq, sublist_take. }
  exists (take n l). split_and!; try done.
  - eapply submseteq_NoDup_keys; [exact Hsub|by apply law_unique].
  - intros k Hk Hkt. destruct (decide (length (take n l) <= length k)%nat) as [|Hno]; [done|].
    rewrite <-Hperm in Hk.
    assert (Forall (fun u => 0 <= u_Amount u) l) as Hpl.
    { rewrite Hperm. rewrite Forall_forall in *. intros u [_ Hu]%list_elem_of_filter. auto. }
    pose proof (sum_submseteq l k Hsort Hpl Hk) as Hle. rewrite length_take in Hno.
    destruct (decide (length k = 0%nat)) as [Hz|Hz].
    + apply nil_length_inv in Hz as ->. cbn in Hkt. lia.
    + specialize (Hmin (length k) ltac:(lia)). lia.
  - specialize (Hc [] (changed_on_nil _ _)). by rewrite app_nil_r in Hc.
Qed.

(** C20: [ChooseAndLock] either refuses, with the vault unchanged, because the redeem has
    UTXOs already or the usable UTXOs do not cover the target; or it locks for this
    redeem a set of distinct usable UTXOs that covers the target, with the fewest UTXOs
    that any choice could use, and changes nothing else. *)
Theorem ChooseAndLock_spec s now target id :
  healthy s -> amounts_ok s -> 0 < target ->
  match ChooseAndLock now target id s with
  | (Err _, s') => s' = s /\
      ((exists u, u ∈ rows s /\ LinkedId u = id) \/ sum_amounts (filter usable (rows s)) < target)
  | (Ok l', s') =>
      exists l, Forall2 (locked_for id) l l' /\ NoDup (utxo_key <$> l) /\
        l ⊆+ filter usable (rows s) /\ target <= sum_amounts l /\
        (forall k, k ⊆+ filter usable (rows s) -> target <= sum_amounts k ->
                   (length l <= length k)%nat) /\
        (forall u, u ∈ rows s -> LinkedId u <> id) /\
        changed_on (utxo_key <$> l) (locked_for id) (rows s) (rows s') /\ healthy s'
  | (Panic _, _) => False
  end.
Proof. apply ChooseAndLock_cases. Qed.

Lemma sum_sub_rows l t :
  Forall (fun u => 0 <= u_Amount u) t -> NoDup (utxo_key <$> t) -> NoDup (utxo_key <$> l) ->
  (forall u, u ∈ l -> u ∈ t) -> sum_amounts l <= sum_amounts t.
Proof.
  intros Ht Hn Hl Hin. assert (l ⊆+ t) as Hsub.
  { apply NoDup_submseteq; [by eapply NoDup_fmap_1|done]. }
  apply submseteq_Permutation in Hsub as [k Hk].
  assert (Forall (fun u => 0 <= u_Amount u) k) as Hkp by (rewrite Hk in Ht; by apply Forall_app in Ht as [_ ?]).
  pose proof (sum_amounts_nonneg k Hkp). assert (sum_amounts t = sum_amounts (l ++ k)) as He by by rewrite Hk.
  rewrite sum_amounts_app in He. lia.
Qed.

(** *** [Request] hands out what [ChooseAndLock] locked *)
Lemma run_ignore_Peek s : healthy s -> amounts_ok s -> ignore Peek s = (Ok tt, s).
Proof.
  intros Hs [Hpos Hsum]. unfold ignore, try, Peek. mstep. rewrite law_all by done. mstep.
  pose proof (sum_filter usable (rows s) Hpos) as Hf.
  rewrite law_sum; [by mstep|done|].
  assert (0 <= sum_amounts (filter usable (rows s))); [|lia].
  apply sum_amounts_nonneg. rewrite Forall_forall in *. intros u [_ Hu]%list_elem_of_filter. auto.
Qed.
Lemma Request_eq `{E : EthLib} s now reqTxId amount :
  healthy s -> amounts_ok s -> 0 <= amount -> amount + SAFE_MARGIN < 2 ^ 63 ->
  Request now reqTxId (Some amount) s =
    let '(o, s') := ChooseAndLock now (amount + SAFE_MARGIN) (ByteSliceToPureHexStr reqTxId) s in
    ((fun l : list VaultUTXO => outpoint_of <$> l) <$> o, s').
Proof.
  intros Hs Hok Ha Hm. unfold Request. mstep. rewrite run_ignore_Peek by done. mstep.
  cbn [BigIntClone]. mstep. unfold SAFE_MARGIN in *.
  assert (i64 (big_Int64 amount + 10000) = amount + 10000) as ->.
  { rewrite big_Int64_small by lia. apply swrap_small; lia. }
  by destruct (ChooseAndLock _ _ _ s) as [[l'|e|w] s1].
Qed.
(** What it hands out are distinct usable UTXOs, which it locks; it changes nothing else, and
    nothing at all when it refuses. *)
Lemma Request_run `{E : EthLib} s now reqTxId amount :
  healthy s -> amounts_ok s -> 0 <= amount -> amount + SAFE_MARGIN < 2 ^ 63 ->
  match Request now reqTxId (Some amount) s with
  | (Ok ops, s') =>
      exists l, ops = outpoint_of <$> l /\ NoDup (utxo_key <$> l) /\ l ⊆+ filter usable (rows s) /\
        amount + SAFE_MARGIN <= sum_amounts l /\
        (forall u, u ∈ rows s -> LinkedId u <> ByteSliceToPureHexStr reqTxId) /\
        changed_on (utxo_key <$> l) (locked_for (ByteSliceToPureHexStr reqTxId)) (rows s) (rows s') /\ healthy s'
  | (_, s') => s' = s
  end.
Proof.
  intros Hs Hok Ha Hm. rewrite Request_eq by done. unfold SAFE_MARGIN in *.
  pose proof (ChooseAndLock_cases s now (amount + 10000) (ByteSliceToPureHexStr reqTxId) Hs Hok
    ltac:(lia)) as Hc.
  destruct (ChooseAndLock _ _ _ s) as [[l'|e|w] s1]; [|by destruct Hc|done].
  destruct Hc as (l & Hl & Hn & Hsub & Hcov & _ & Hfr & Hch & Hh). cbn. exists l. split_and!; try done.
  clear -Hl. induction Hl as [|u u' l l' [tp ->] _ IH]; [done|]. rewrite !fmap_cons, IH. done.
Qed.
(** the row of a UTXO that was handed out *)
Lemma changed_on_locked id (t t' l : list VaultUTXO) u :
  changed_on (utxo_key <$> l) (locked_for id) t t' -> u ∈ l -> u ∈ t ->
  exists w, w ∈ t' /\ utxo_key w = utxo_key u /\ u_Amount w = u_Amount u /\ LinkedId w = id /\ Lockup w = true.
Proof.
  intros Hch Hu Hin. apply list_elem_of_lookup in Hin as [i Hi].
  destruct (Forall2_lookup_l _ _ _ _ _ Hch Hi) as (w & Hw & [[_ [tp ->]]|[Hno _]]).
  - eexists. split; [by eapply list_elem_of_lookup_2|]. done.
  - exfalso. apply Hno, list_elem_of_fmap. eauto.
Qed.
(** The UTXOs handed out, as they were before: they cover the amount and the fee's margin, and
    the vault then holds each of them locked for this request. *)
Lemma Request_cases `{E : EthLib} s now reqTxId amount ops s' :
  healthy s -> amounts_ok s -> 0 <= amount -> amount + SAFE_MARGIN < 2 ^ 63 ->
  Request now reqTxId (Some amount) s = (Ok ops, s') ->
  exists l, ops = outpoint_of <$> l /\ NoDup (utxo_key <$> l) /\ (forall u, u ∈ l -> u ∈ rows s) /\
    amount + SAFE_MARGIN <= sum_amounts l /\ healthy s' /\
    forall u, u ∈ l -> exists w, w ∈ rows s' /\ utxo_key w = utxo_key u /\ u_Amount w = u_Amount u /\
      LinkedId w = ByteSliceToPureHexStr reqTxId /\ Lockup w = true.
Proof.
  intros Hs Hok Ha Hm Hr. pose proof (Request_run s now reqTxId amount Hs Hok Ha Hm) as H. rewrite Hr in H.
  destruct H as (l & -> & Hn & Hsub & Hcov & _ & Hch & Hh).
  assert (forall u, u ∈ l -> u ∈ rows s) as Hin by (intros u Hu; by eapply sub_usable in Hu as [_ ?]).
  exists l. split_and!; try done. intros u Hu. eapply changed_on_locked; eauto.
Qed.

(** *** No UTXO is given out twice *)
Inductive vault_op :=
  | OpAdd (blockNumber : Z) (blockHash txID : string) (vout amount : Z) (pkScript : bytes)
  | OpChoose (now : nat -> Z) (target : Z) (id : string).
Definition run_op (op : vault_op) (s : S) : list (string * Z) * S :=
  match op with
  | OpAdd bn bh t v a pk => ([], run (AddUTXO bn bh t v a pk) s)
  | OpChoose now target id =>
      match ChooseAndLock now target id s with
      | (Ok l, s') => (utxo_key <$> l, s')
      | (_, s') => ([], s')
      end
  end.
(** the outpoints given out by a sequence of operations *)
Fixpoint run_ops (ops : list vault_op) (s : S) : list (string * Z) * S :=
  match ops with
  | [] => ([], s)
  | op :: ops =>
      let '(ks, s) := run_op op s in let '(ks', s) := run_ops ops s in (ks ++ ks', s)
  end.
Definition op_amount (op : vault_op) : Z :=
  match op with OpAdd _ _ _ _ a _ => a | OpChoose _ _ _ => 0 end.
Definition op_ok (op : vault_op) : Prop :=
  match op with OpAdd _ _ _ _ a _ => 0 <= a | OpChoose _ t _ => 0 < t end.
Definition added (ops : list vault_op) : Z := foldr (fun op n => op_amount op + n) 0 ops.

Lemma AddUTXO_run s bn bh t v a pk :
  healthy s ->
  (AddUTXO bn bh t v a pk s = (Err "utxo already exists", s) /\ (t, v) ∈ utxo_key <$> rows s) \/
  (exists s', AddUTXO bn bh t v a pk s = (Ok tt, s') /\ ((t, v) ∉ utxo_key <$> rows s) /\ healthy s' /\
     rows s' = rows s ++ [{| BlockNumber := bn; BlockHash := bh; TxID := t; Vout := v;
       u_Amount := a; PkScript := pk; Lockup := false; Spent := false; u_Timeout := 0;
       LinkedId := EmptyString |}]).
Proof.
  intros Hs. unfold AddUTXO. mstep. rewrite law_one by done. mstep.
  destruct (find_row utxo_key (rows s) (t, v)) as [u|] eqn:Hf.
  - left. split; [done|]. apply find_row_Some in Hf as [Hu <-]. apply list_elem_of_fmap. eauto.
  - apply find_row_None in Hf. right.
    edestruct (law_insert s) as (s' & Heq & Hr & Hh); [exact Hs| |exists s'; by rewrite Heq].
    exact Hf.
Qed.

Definition locked_keys (s : S) (ks : list (string * Z)) : Prop :=
  forall k, k ∈ ks -> exists u, u ∈ rows s /\ utxo_key u = k /\ Lockup u = true.
Lemma changed_amounts t t' ks id :
  changed_on ks (locked_for id) t t' -> u_Amount <$> t' = u_Amount <$> t.
Proof.
  induction 1 as [|u u' t t' Hu _ IH]; [done|]. rewrite !fmap_cons, IH. f_equal.
  by destruct Hu as [[_ [tp ->]]|[_ ->]].
Qed.
Lemma sum_changed t t' ks id :
  changed_on ks (locked_for id) t t' -> sum_amounts t' = sum_amounts t.
Proof.
  induction 1 as [|u u' t t' Hu _ IH]; [done|]. unfold sum_amounts in *. cbn [foldr].
  rewrite IH. by destruct Hu as [[_ [tp ->]]|[_ ->]].
Qed.
Lemma amounts_ok_changed s s' ks id :
  changed_on ks (locked_for id) (rows s) (rows s') -> amounts_ok s -> amounts_ok s'.
Proof.
  intros Hc [Hp Hlt]. split; [|by rewrite (sum_changed _ _ _ _ Hc)].
  assert (Forall (fun a => 0 <= a) (u_Amount <$> rows s')) as Hf; [|by rewrite Forall_fmap in Hf].
  rewrite (changed_amounts _ _ _ _ Hc). by rewrite Forall_fmap.
Qed.
Lemma locked_keys_changed s s' ks id A :
  changed_on ks (locked_for id) (rows s) (rows s') -> locked_keys s A -> locked_keys s' A.
Proof.
  intros Hc HA k Hk. destruct (HA k Hk) as (u & Hu & Hku & Hlu).
  apply list_elem_of_lookup in Hu as [i Hi]. destruct (Forall2_lookup_l _ _ _ _ _ Hc Hi) as (u' & Hi' & Hu').
  exists u'. split; [by eapply list_elem_of_lookup_2|].
  destruct Hu' as [[_ [tp ->]]|[_ ->]]; done.
Qed.
Lemma locked_keys_new s s' id l :
  changed_on (utxo_key <$> l) (locked_for id) (rows s) (rows s') -> l ⊆+ filter usable (rows s) ->
  locked_keys s' (utxo_key <$> l).
Proof.
  intros Hc Hsub k (u & -> & Hu)%list_elem_of_fmap.
  destruct (sub_usable _ _ _ Hsub Hu) as [_ Hin].
  apply list_elem_of_lookup in Hin as [i Hi]. destruct (Forall2_lookup_l _ _ _ _ _ Hc Hi) as (u' & Hi' & Hu').
  exists u'. split; [by eapply list_elem_of_lookup_2|].
  destruct Hu' as [[_ [tp ->]]|[Hno _]]; [done|]. exfalso. apply Hno, list_elem_of_fmap. eauto.
Qed.
(** a usable UTXO is not locked, so its outpoint was not given out before *)
Lemma usable_not_locked s A l :
  healthy s -> locked_keys s A -> l ⊆+ filter usable (rows s) ->
  forall k, k ∈ A -> k ∉ utxo_key <$> l.
Proof.
  intros Hs HA Hsub k Hk (u & -> & Hu)%list_elem_of_fmap.
  destruct (sub_usable _ _ _ Hsub Hu) as [[Hlu _] Hin].
  destruct (HA _ Hk) as (u' & Hin' & Hk' & Hl').
  assert (u' = u) as ->; [|congruence].
  pose proof (find_row_elem utxo_key _ _ (law_unique s Hs) Hin) as H1.
  pose proof (find_row_elem utxo_key _ _ (law_unique s Hs) Hin') as H2. congruence.
Qed.

(** one operation: what it gives out is new and stays locked *)
Lemma run_op_step op s A :
  healthy s -> amounts_ok s -> op_ok op -> sum_amounts (rows s) + op_amount op < 2 ^ 63 -> locked_keys s A ->
  let '(ks, s') := run_op op s in
  healthy s' /\ amounts_ok s' /\ sum_amounts (rows s') <= sum_amounts (rows s) + op_amount op /\
  NoDup ks /\ (forall k, k ∈ A -> k ∉ ks) /\ locked_keys s' (A ++ ks) /\
  utxo_key <$> rows s' = (utxo_key <$> rows s) ++
    match op with
    | OpAdd _ _ t v _ _ => if decide ((t, v) ∈ utxo_key <$> rows s) then [] else [(t, v)]
    | OpChoose _ _ _ => []
    end /\
  forall k, k ∈ ks -> k ∈ utxo_key <$> rows s.
Proof.
  intros Hs Hok Hop Hsum HA. pose proof Hok as [Hpos Hlt].
  destruct op as [bn bh t v a pk|now target id]; cbn [run_op op_amount op_ok] in *.
  - unfold run. destruct (AddUTXO_run s bn bh t v a pk Hs) as [[-> Hin]|(s' & -> & Hn & Hs' & Hr)]; cbn [snd].
    + rewrite decide_True, !app_nil_r by done. split_and!; try done; [lia|constructor|..];
        intros k Hk; try apply not_elem_of_nil; by apply not_elem_of_nil in Hk.
    + rewrite decide_False by done. unfold amounts_ok. rewrite Hr, sum_amounts_app, fmap_app, app_nil_r. cbn [sum_amounts foldr u_Amount].
      split_and!; try done; try lia; [|constructor|..].
      * apply Forall_app. split; [done|]. by constructor.
      * intros k _. apply not_elem_of_nil.
      * intros k Hk. destruct (HA k Hk) as (u & Hu & ?). exists u. split; [|done]. rewrite Hr. apply elem_of_app. by left.
      * intros k Hk. by apply not_elem_of_nil in Hk.
  - pose proof (ChooseAndLock_cases s now target id Hs Hok Hop) as Hc.
    destruct (ChooseAndLock now target id s) as [[l'|e|w] s']; [|destruct Hc as [-> _]|done].
    + destruct Hc as (l & Hl & Hnd & Hsub & _ & _ & _ & Hch & Hs').
      assert (utxo_key <$> l' = utxo_key <$> l) as ->.
      { clear -Hl. induction Hl as [|u u' l l' Hu _ IH]; [done|]. rewrite !fmap_cons, IH.
        f_equal. by eapply locked_for_key. }
      rewrite (sum_changed _ _ _ _ Hch), app_nil_r. split_and!; try done; [by eapply amounts_ok_changed|lia|..].
      * intros k Hk. exact (usable_not_locked s A l Hs HA Hsub k Hk).
      * intros k [Hk|Hk]%elem_of_app; [by eapply locked_keys_changed|]. by eapply locked_keys_new.
      * clear -Hch. induction Hch as [|u u' t t' Hu _ IH]; [done|]. rewrite !fmap_cons, IH. f_equal.
        by destruct Hu as [[_ [tp ->]]|[_ ->]].
      * intros k (u & -> & Hu)%list_elem_of_fmap. apply list_elem_of_fmap. exists u. split; [done|].
        by eapply sub_usable in Hu as [_ Hu].
    + rewrite !app_nil_r. split_and!; try done; [lia|constructor|..]; intros k Hk; try apply not_elem_of_nil;
        by apply not_elem_of_nil in Hk.
Qed.
Lemma op_amount_nonneg op : op_ok op -> 0 <= op_amount op.
Proof. by destruct op. Qed.

(** C7: along any sequence of deposits and redeem requests, successful or not, no
    outpoint is ever given out twice: redeems that are waiting to be sent never share a
    UTXO. *)
Theorem no_double_allocation ops s :
  healthy s -> Forall (fun u => 0 <= u_Amount u) (rows s) ->
  sum_amounts (rows s) + added ops < 2 ^ 63 -> Forall op_ok ops ->
  NoDup (run_ops ops s).1.
Proof.
  intros Hs Hpos Hsum Hops.
  assert (forall A, locked_keys s A -> NoDup (run_ops ops s).1 /\
    forall k, k ∈ A -> k ∉ (run_ops ops s).1) as Hgen;
    [|by destruct (Hgen []); [intros k Hk; by apply not_elem_of_nil in Hk|]].
  revert s Hs Hpos Hsum. induction Hops as [|op ops Hop Hops IH]; intros s Hs Hpos Hsum A HA.
  { cbn. split; [constructor|]. intros k _. apply not_elem_of_nil. }
  assert (0 <= added ops) as Hadd.
  { clear -Hops. unfold added. induction Hops as [|op ops Ho _ IH]; cbn; [lia|].
    pose proof (op_amount_nonneg op Ho). lia. }
  pose proof (op_amount_nonneg op Hop).
  change (added (op :: ops)) with (op_amount op + added ops) in Hsum.
  cbn [run_ops]. pose proof (run_op_step op s A Hs ltac:(split; [done|lia]) Hop ltac:(lia) HA) as Hstep.
  destruct (run_op op s) as [ks s']. destruct Hstep as (Hs' & [Hpos' _] & Hle & Hnd & Hdis & HA' & _).
  specialize (IH s' Hs' Hpos' ltac:(lia) _ HA'). destruct (run_ops ops s') as [ks' s2]. cbn [fst] in *.
  destruct IH as [Hn1 Hn2]. split.
  - apply NoDup_app. split_and!; [done| |done]. intros k Hk. apply Hn2, elem_of_app. by right.
  - intros k Hk. rewrite not_elem_of_app. split; [by apply Hdis|]. apply Hn2, elem_of_app. by left.
Qed.

(** *** Releasing *)
Lemma release_spec s u :
  healthy s ->
  exists s', release u s = (Ok tt, s') /\ healthy s' /\
    rows s' = update_rows utxo_key (rows s) (utxo_key u) (fun v => set_Timeout 0 (set_Lockup false v)).
Proof.
  intros H0. unfold release. mstep.
  destruct (law_lockup s (TxID u) (Vout u) false H0) as (s1 & -> & R1 & H1). mstep.
  destruct (law_timeout s1 (TxID u) (Vout u) 0 H1) as (s2 & -> & R2 & H2).
  exists s2. split; [done|]. split; [done|]. rewrite R2, R1. unfold update_rows.
  rewrite <-list_fmap_compose. apply list_fmap_ext. intros i v _. cbn. unfold utxo_key.
  repeat case_decide; naive_solver.
Qed.
Lemma release_all_spec us s t :
  healthy s ->
  exists s', for_each release us s = (Ok tt, s') /\ healthy s' /\
    forall ks, changed_on ks unlocked t (rows s) ->
      changed_on ((utxo_key <$> us) ++ ks) unlocked t (rows s').
Proof.
  revert s. induction us as [|u us IH]; intros s Hs; [by exists s|].
  cbn [for_each]. mstep. destruct (release_spec s u Hs) as (s1 & -> & H1 & R1). mstep.
  destruct (IH s1 H1) as (s' & -> & H' & Hc). exists s'. split_and!; [done..|].
  intros ks Hks. eapply changed_on_ext; [|apply (Hc (utxo_key u :: ks))].
  - intros k. rewrite fmap_cons. set_solver.
  - rewrite R1. apply changed_on_update; [|done|done]. intros v v' ->. done.
Qed.
Lemma ReleaseByExpire_run s now :
  healthy s ->
  exists s', ReleaseByExpire now s = (Ok tt, s') /\ healthy s' /\
    changed_on (utxo_key <$> filter (fun u => Lockup u = true /\ u_Timeout u < now) (rows s))
      unlocked (rows s) (rows s').
Proof.
  intros Hs. unfold ReleaseByExpire. mstep. rewrite law_expired by done. mstep.
  set (us := filter _ (rows s)). destruct (release_all_spec us s (rows s) Hs) as (s' & Heq & Hs' & Hc).
  exists s'. split_and!; [done..|]. specialize (Hc [] (changed_on_nil _ _)). by rewrite app_nil_r in Hc.
Qed.

(** [ReleaseByExpire] unlocks exactly the locked UTXOs whose timeout has passed, and
    leaves the others as they are. It keeps their link to the redeem they were locked for:
    the same redeem is refused ever after, although its UTXOs are free again. *)
Theorem expired_redeem_refused s now target id l s1 t now' target' :
  healthy s -> amounts_ok s -> 0 < target ->
  ChooseAndLock now target id s = (Ok l, s1) ->
  exists s2, ReleaseByExpire t s1 = (Ok tt, s2) /\
    changed_on (utxo_key <$> filter (fun u => Lockup u = true /\ u_Timeout u < t) (rows s1))
      unlocked (rows s1) (rows s2) /\
    exists e, ChooseAndLock now' target' id s2 = (Err e, s2).
Proof.
  intros Hs Hok Htar Heq. pose proof (ChooseAndLock_cases s now target id Hs Hok Htar) as Hc.
  rewrite Heq in Hc. destruct Hc as (l0 & _ & _ & Hsub & Hcov & _ & _ & Hch & Hs1).
  destruct (ReleaseByExpire_run s1 t Hs1) as (s2 & Hrel & Hs2 & Hch2). exists s2.
  split_and!; [done..|].
  assert (exists u, u ∈ rows s2 /\ LinkedId u = id) as (u & Hu & Hid).
  { destruct l0 as [|u l0]; [cbn in Hcov; lia|].
    destruct (sub_usable _ _ u Hsub ltac:(by left)) as [_ Hin].
    apply list_elem_of_lookup in Hin as [i Hi].
    destruct (Forall2_lookup_l _ _ _ _ _ Hch Hi) as (u1 & Hi1 & Hu1).
    assert (LinkedId u1 = id) as Hl1.
    { destruct Hu1 as [[_ [tp ->]]|[Hno _]]; [done|]. exfalso. apply Hno. rewrite fmap_cons. by left. }
    destruct (Forall2_lookup_l _ _ _ _ _ Hch2 Hi1) as (u2 & Hi2 & Hu2).
    exists u2. split; [by eapply list_elem_of_lookup_2|]. by destruct Hu2 as [[_ ->]|[_ ->]]. }
  unfold ChooseAndLock. mstep. rewrite law_linked by done. mstep.
  assert (u ∈ filter (fun u => LinkedId u = id) (rows s2)) as Hin by (by apply list_elem_of_filter).
  destruct (filter _ (rows s2)) as [|u' us]; [by apply not_elem_of_nil in Hin|].
  by eexists.
Qed.
End choose.

(** ** Concrete runs *)
Definition sample_utxo (n : Z) (amount : Z) : VaultUTXO := {|
  BlockNumber := 100; BlockHash := "b"; TxID := hex_encode (sample_hash n); Vout := 0;
  u_Amount := amount; PkScript := []; Lockup := false; Spent := false; u_Timeout := 0;
  LinkedId := EmptyString |}.
Definition sample_vault : VaultSQLiteStorage := {|
  v_table := [sample_utxo 1 100; sample_utxo 2 300; sample_utxo 3 200];
  v_fault := fun _ => None |}.
Lemma sample_vault_healthy : healthy sample_vault.
Proof. split; [done|]. vm_compute. repeat constructor; set_solver. Qed.
Lemma sample_vault_amounts : amounts_ok sample_vault.
Proof. split; [repeat constructor; cbn; lia|vm_compute; done]. Qed.

Lemma ChooseAndLock_spec_witness :
  match ChooseAndLock (fun _ => 1000) 400 "r" sample_vault with
  | (Ok l', s') =>
      utxo_key <$> l' = [utxo_key (sample_utxo 2 300); utxo_key (sample_utxo 3 200)] /\
      exists l, Forall2 (locked_for "r") l l' /\ NoDup (utxo_key <$> l) /\
        l ⊆+ filter usable (rows sample_vault) /\ 400 <= sum_amounts l /\
        (forall k, k ⊆+ filter usable (rows sample_vault) -> 400 <= sum_amounts k ->
                   (length l <= length k)%nat) /\
        (forall u, u ∈ rows sample_vault -> LinkedId u <> "r"%string) /\
        changed_on (utxo_key <$> l) (locked_for "r") (rows sample_vault) (rows s') /\ healthy s'
  | _ => False
  end.
Proof.
  pose proof (ChooseAndLock_spec sample_vault (fun _ => 1000) 400 "r" sample_vault_healthy
    sample_vault_amounts ltac:(lia)) as H.
  destruct (ChooseAndLock (fun _ => 1000) 400 "r" sample_vault) as [o s'] eqn:Heq.
  assert (match o with Ok l' => utxo_key <$> l' =
    [utxo_key (sample_utxo 2 300); utxo_key (sample_utxo 3 200)] | _ => False end) as Ho.
  { apply (f_equal fst) in Heq. cbn [fst] in Heq. subst o. vm_compute. reflexivity. }
  destruct o; [|done..]. split; [exact Ho|exact H].
Defined.
Lemma no_double_allocation_witness :
  (run_ops [OpChoose (fun _ => 1000) 250 "r1"; OpChoose (fun _ => 1001) 250 "r2"] sample_vault).1 =
    [utxo_key (sample_utxo 2 300); utxo_key (sample_utxo 3 200); utxo_key (sample_utxo 1 100)] /\
  NoDup (run_ops [OpChoose (fun _ => 1000) 250 "r1"; OpChoose (fun _ => 1001) 250 "r2"] sample_vault).1.
Proof.
  split; [vm_compute; reflexivity|].
  apply (no_double_allocation
    [OpChoose (fun _ => 1000) 250 "r1"; OpChoose (fun _ => 1001) 250 "r2"] sample_vault
    sample_vault_healthy (proj1 sample_vault_amounts)); [vm_compute; done|].
  repeat constructor.
Defined.
Lemma expired_redeem_refused_witness :
  exists l s1 s2, ChooseAndLock (fun _ => 1000) 250 "r1" sample_vault = (Ok l, s1) /\
    ReleaseByExpire 9999 s1 = (Ok tt, s2) /\
    exists e, ChooseAndLock (fun _ => 9999) 250 "r1" s2 = (Err e, s2).
Proof.
  destruct (ChooseAndLock (fun _ => 1000) 250 "r1" sample_vault) as [o s1] eqn:Heq.
  assert (is_ok o = true) as Ho.
  { apply (f_equal fst) in Heq. cbn [fst] in Heq. subst o. vm_compute. reflexivity. }
  destruct o as [l| |]; [|done..].
  destruct (expired_redeem_refused sample_vault (fun _ => 1000) 250 "r1" l s1 9999 (fun _ => 9999) 250
    sample_vault_healthy sample_vault_amounts ltac:(lia) Heq) as (s2 & H1 & _ & H2).
  eauto 6.
Defined.
