(* ===== verification/ChainTxMgrDB.v ===== *)
(** * ChainTxMgrDB: the transactions a chain manager tracks (package [chaintxmgrdb]).

    The interface of types.go as a type class with its laws, and the SQLite
    implementation of sqlite_chaintxmgrdb.go, which stores a nil ledger number as -1. *)
From S2P Require Export Database.

(** ** types.go *)
Record MonitoredTx := {
  TxIdentifier : bytes; RefIdentifier : bytes;
  SentBlockchainLedgerNumber : option Z; FoundBlockchainLedgerNumber : option Z;
  TxStatus : MonitoredTxStatus }.
#[global] Instance MonitoredTx_eq_dec : EqDecision MonitoredTx.
Proof. solve_decision. Defined.

Class ChainTxMgrDB (D : Type) := {
  InsertMonitoredTx : MonitoredTx -> M D unit;
  DeleteMonitoredTxByTxHash : bytes -> M D unit;
  GetMonitoredTxByTxIdentifier : bytes -> M D (option MonitoredTx);
  GetMonitoredTxByRefIdentifier : bytes -> M D (list MonitoredTx);
  GetMonitoredTxByStatus : list MonitoredTxStatus -> M D (list MonitoredTx);
  UpdateRef : bytes -> bytes -> M D unit;
  UpdateSent : bytes -> option Z -> M D unit;
  UpdateFound : bytes -> option Z -> M D unit;
  UpdateTxStatus : bytes -> MonitoredTxStatus -> M D unit;
}.

Definition set_status (st : MonitoredTxStatus) (tx : MonitoredTx) : MonitoredTx :=
  {| TxIdentifier := TxIdentifier tx; RefIdentifier := RefIdentifier tx;
     SentBlockchainLedgerNumber := SentBlockchainLedgerNumber tx;
     FoundBlockchainLedgerNumber := FoundBlockchainLedgerNumber tx; TxStatus := st |}.
Definition set_found (n : option Z) (tx : MonitoredTx) : MonitoredTx :=
  {| TxIdentifier := TxIdentifier tx; RefIdentifier := RefIdentifier tx;
     SentBlockchainLedgerNumber := SentBlockchainLedgerNumber tx;
     FoundBlockchainLedgerNumber := n; TxStatus := TxStatus tx |}.
Definition set_sent (n : option Z) (tx : MonitoredTx) : MonitoredTx :=
  {| TxIdentifier := TxIdentifier tx; RefIdentifier := RefIdentifier tx;
     SentBlockchainLedgerNumber := n;
     FoundBlockchainLedgerNumber := FoundBlockchainLedgerNumber tx; TxStatus := TxStatus tx |}.
Definition set_ref (r : bytes) (tx : MonitoredTx) : MonitoredTx :=
  {| TxIdentifier := TxIdentifier tx; RefIdentifier := r;
     SentBlockchainLedgerNumber := SentBlockchainLedgerNumber tx;
     FoundBlockchainLedgerNumber := FoundBlockchainLedgerNumber tx; TxStatus := TxStatus tx |}.

(** a ledger number that survives the column: nil, or a non-negative [int64] *)
Definition ledger_ok (n : option Z) : Prop :=
  match n with None => True | Some n => 0 <= n < 2 ^ 63 end.
Definition tx_ok (tx : MonitoredTx) : Prop :=
  ledger_ok (SentBlockchainLedgerNumber tx) /\ ledger_ok (FoundBlockchainLedgerNumber tx).

(** What the managers rely on of the database *)
Class ChainTxMgrDBLaws (D : Type) `{DB : ChainTxMgrDB D} := {
  txs : D -> list MonitoredTx;
  db_ok : D -> Prop;
  law_tx_unique d : db_ok d -> NoDup (TxIdentifier <$> txs d);
  law_tx_insert d tx : db_ok d -> tx_ok tx -> TxIdentifier tx ∉ TxIdentifier <$> txs d ->
    exists d', InsertMonitoredTx tx d = (Ok tt, d') /\ txs d' = txs d ++ [tx] /\ db_ok d';
  law_tx_dup d tx : db_ok d -> TxIdentifier tx ∈ TxIdentifier <$> txs d ->
    exists e, InsertMonitoredTx tx d = (Err e, d);
  law_tx_get d id : db_ok d ->
    GetMonitoredTxByTxIdentifier id d = (Ok (find_row TxIdentifier (txs d) id), d);
  law_tx_ref d r : db_ok d ->
    GetMonitoredTxByRefIdentifier r d = (Ok (filter (fun tx => RefIdentifier tx = r) (txs d)), d);
  law_tx_status d sts : db_ok d -> sts <> [] ->
    GetMonitoredTxByStatus sts d = (Ok (filter (fun tx => TxStatus tx ∈ sts) (txs d)), d);
  law_tx_set_status d id st : db_ok d ->
    exists d', UpdateTxStatus id st d = (Ok tt, d') /\
      txs d' = update_rows TxIdentifier (txs d) id (set_status st) /\ db_ok d';
  law_tx_set_found d id n : db_ok d ->
    exists d' n', UpdateFound id (Some n) d = (Ok tt, d') /\ db_ok d' /\
      txs d' = update_rows TxIdentifier (txs d) id (set_found n') /\
      (0 <= n < 2 ^ 63 -> n' = Some n);
}.

(** ** sqlite_chaintxmgrdb.go *)
Record tx_row := {
  c_TxIdentifier : bytes; c_RefIdentifier : bytes; c_Sent : Z; c_Found : Z; c_TxStatus : string }.
Record SQLiteChainTxMgrDB := { tx_table : list tx_row; tx_fault : string -> option error }.

Definition ledger_column (n : option Z) : Z :=
  match n with None => -1 | Some n => big_Int64 n end.
Definition ledger_field (n : Z) : option Z := if n =? -1 then None else Some n.
Definition row_of_tx (tx : MonitoredTx) : tx_row := {|
  c_TxIdentifier := TxIdentifier tx; c_RefIdentifier := RefIdentifier tx;
  c_Sent := ledger_column (SentBlockchainLedgerNumber tx);
  c_Found := ledger_column (FoundBlockchainLedgerNumber tx); c_TxStatus := TxStatus tx |}.
Definition tx_of_row (r : tx_row) : MonitoredTx := {|
  TxIdentifier := c_TxIdentifier r; RefIdentifier := c_RefIdentifier r;
  SentBlockchainLedgerNumber := ledger_field (c_Sent r);
  FoundBlockchainLedgerNumber := ledger_field (c_Found r); TxStatus := c_TxStatus r |}.

Definition tx_sql (q : string) : M SQLiteChainTxMgrDB unit := fun s =>
  match tx_fault s q with Some e => (Err e, s) | None => (Ok tt, s) end.
Definition set_txs (t : list tx_row) : M SQLiteChainTxMgrDB unit :=
  modify (fun s => {| tx_table := t; tx_fault := tx_fault s |}).
(** [n.Int64()] through the pointer *)
Definition big_Int64_ptr (n : option Z) : outcome Z :=
  match n with Some n => Ok (big_Int64 n) | None => Panic "nil pointer dereference" end.

Definition chaintx_Insert (tx : MonitoredTx) : M SQLiteChainTxMgrDB unit :=
  tx_sql "INSERT" ;;
  t ← gets tx_table;
  if bool_decide (TxIdentifier tx ∈ c_TxIdentifier <$> t) then throw "UNIQUE constraint failed"
  else set_txs (t ++ [row_of_tx tx]).
Definition chaintx_Delete (identifier : bytes) : M SQLiteChainTxMgrDB unit :=
  tx_sql "DELETE" ;;
  t ← gets tx_table; set_txs (filter (fun r => c_TxIdentifier r <> identifier) t).
Definition chaintx_GetByTxIdentifier (identifier : bytes)
    : M SQLiteChainTxMgrDB (option MonitoredTx) :=
  tx_sql "WHERE TxIdentifier = ?" ;;
  t ← gets tx_table; mret (tx_of_row <$> find_row c_TxIdentifier t identifier).
Definition chaintx_GetByRefIdentifier (refIdentifier : bytes)
    : M SQLiteChainTxMgrDB (list MonitoredTx) :=
  tx_sql "WHERE RefIdentifier = ?" ;;
  t ← gets tx_table; mret (tx_of_row <$> filter (fun r => c_RefIdentifier r = refIdentifier) t).
(** [strings.Repeat(", ?", len(status)-1)] panics on an empty list. *)
Definition chaintx_GetByStatus (status : list MonitoredTxStatus)
    : M SQLiteChainTxMgrDB (list MonitoredTx) :=
  if (length status =? 0)%nat then panic "strings: negative Repeat count"
  else
    tx_sql "WHERE TxStatus IN" ;;
    t ← gets tx_table; mret (tx_of_row <$> filter (fun r => c_TxStatus r ∈ status) t).
Definition chaintx_update (q : string) (identifier : bytes) (f : tx_row -> tx_row)
    : M SQLiteChainTxMgrDB unit :=
  tx_sql q ;; t ← gets tx_table; set_txs (update_rows c_TxIdentifier t identifier f).
Definition chaintx_UpdateRef (identifier refIdentifier : bytes) :=
  chaintx_update "SET RefIdentifier = ?" identifier (fun r =>
    {| c_TxIdentifier := c_TxIdentifier r; c_RefIdentifier := refIdentifier;
       c_Sent := c_Sent r; c_Found := c_Found r; c_TxStatus := c_TxStatus r |}).
Definition chaintx_UpdateSent (identifier : bytes) (sentAt : option Z) : M SQLiteChainTxMgrDB unit :=
  n ← lift (big_Int64_ptr sentAt);
  chaintx_update "SET SentBlockchainLedgerNumber = ?" identifier (fun r =>
    {| c_TxIdentifier := c_TxIdentifier r; c_RefIdentifier := c_RefIdentifier r;
       c_Sent := n; c_Found := c_Found r; c_TxStatus := c_TxStatus r |}).
Definition chaintx_UpdateFound (identifier : bytes) (foundAt : option Z) : M SQLiteChainTxMgrDB unit :=
  n ← lift (big_Int64_ptr foundAt);
  chaintx_update "SET FoundBlockchainLedgerNumber = ?" identifier (fun r =>
    {| c_TxIdentifier := c_TxIdentifier r; c_RefIdentifier := c_RefIdentifier r;
       c_Sent := c_Sent r; c_Found := n; c_TxStatus := c_TxStatus r |}).
Definition chaintx_UpdateTxStatus (identifier : bytes) (status : MonitoredTxStatus) :=
  chaintx_update "SET TxStatus = ?" identifier (fun r =>
    {| c_TxIdentifier := c_TxIdentifier r; c_RefIdentifier := c_RefIdentifier r;
       c_Sent := c_Sent r; c_Found := c_Found r; c_TxStatus := status |}).

#[global] Instance chaintx_sqlite : ChainTxMgrDB SQLiteChainTxMgrDB := {|
  InsertMonitoredTx := chaintx_Insert; DeleteMonitoredTxByTxHash := chaintx_Delete;
  GetMonitoredTxByTxIdentifier := chaintx_GetByTxIdentifier;
  GetMonitoredTxByRefIdentifier := chaintx_GetByRefIdentifier;
  GetMonitoredTxByStatus := chaintx_GetByStatus; UpdateRef := chaintx_UpdateRef;
  UpdateSent := chaintx_UpdateSent; UpdateFound := chaintx_UpdateFound;
  UpdateTxStatus := chaintx_UpdateTxStatus;
|}.

(** ** The SQLite implementation satisfies the interface *)
Lemma ledger_roundtrip n : ledger_ok n -> ledger_field (ledger_column n) = n.
Proof.
  destruct n as [n|]; cbn [ledger_ok ledger_column]; [|done]. intros Hn.
  rewrite big_Int64_small by done. unfold ledger_field. by replace (n =? -1) with false by lia.
Qed.
Lemma tx_row_roundtrip tx : tx_ok tx -> tx_of_row (row_of_tx tx) = tx.
Proof.
  destruct tx. intros [Hs Hf]. unfold tx_of_row. cbn in *. by rewrite !ledger_roundtrip.
Qed.

Definition chaintx_ok (s : SQLiteChainTxMgrDB) : Prop :=
  (forall q, tx_fault s q = None) /\ NoDup (c_TxIdentifier <$> tx_table s).
Lemma tx_sql_ok s q : chaintx_ok s -> tx_sql q s = (Ok tt, s).
Proof. intros [H _]. unfold tx_sql. by rewrite H. Qed.
Lemma tx_ids (t : list tx_row) : TxIdentifier <$> (tx_of_row <$> t) = c_TxIdentifier <$> t.
Proof. by rewrite <-list_fmap_compose. Qed.
Lemma tx_of_row_filter (P : MonitoredTx -> Prop) (Q : tx_row -> Prop)
    `{forall x, Decision (P x), forall r, Decision (Q r)} (t : list tx_row) :
  (forall r, Q r <-> P (tx_of_row r)) -> tx_of_row <$> filter Q t = filter P (tx_of_row <$> t).
Proof.
  intros HPQ. induction t as [|r t IH]; [done|]. rewrite fmap_cons, !filter_cons.
  destruct (decide (Q r)) as [Hq|Hq]; destruct (decide (P (tx_of_row r))) as [Hp|Hp];
    rewrite ?fmap_cons, ?IH; try done; exfalso; naive_solver.
Qed.
Lemma find_row_tx (t : list tx_row) id :
  find_row TxIdentifier (tx_of_row <$> t) id = tx_of_row <$> find_row c_TxIdentifier t id.
Proof.
  induction t as [|r t IH]; [done|]. rewrite fmap_cons, !find_row_cons.
  change (TxIdentifier (tx_of_row r)) with (c_TxIdentifier r). by case_decide.
Qed.
Lemma chaintx_update_ok s q id f g :
  chaintx_ok s -> (forall r, c_TxIdentifier (f r) = c_TxIdentifier r) ->
  (forall r, tx_of_row (f r) = g (tx_of_row r)) ->
  exists s', chaintx_update q id f s = (Ok tt, s') /\
    tx_of_row <$> tx_table s' = update_rows TxIdentifier (tx_of_row <$> tx_table s) id g /\
    chaintx_ok s'.
Proof.
  intros Hs Hf Hg. unfold chaintx_update. mstep. rewrite tx_sql_ok by done. mstep.
  eexists. split; [reflexivity|]. split.
  - cbn. unfold update_rows. rewrite <-!list_fmap_compose. apply list_fmap_ext.
    intros i r _. cbn. by case_decide; rewrite ?Hg.
  - destruct Hs as [H1 H2]. split; [done|]. cbn. by rewrite update_rows_keys.
Qed.

#[global] Program Instance chaintx_sqlite_laws : ChainTxMgrDBLaws SQLiteChainTxMgrDB := {|
  txs s := tx_of_row <$> tx_table s; db_ok := chaintx_ok |}.
Next Obligation. intros s [_ H]. cbn. by rewrite tx_ids. Qed.
Next Obligation.
  intros s tx Hs Htx Hn. cbn in *. rewrite tx_ids in Hn. unfold chaintx_Insert. mstep.
  rewrite tx_sql_ok by done. mstep. rewrite bool_decide_eq_false_2 by done.
  eexists. split; [reflexivity|]. cbn. split.
  - rewrite fmap_app. cbn. by rewrite tx_row_roundtrip.
  - destruct Hs as [H1 H2]. split; [done|]. cbn. rewrite fmap_app. apply NoDup_app.
    split_and!; [done| |apply NoDup_singleton]. by intros x Hx ->%list_elem_of_singleton.
Qed.
Next Obligation.
  intros s tx Hs Hin. cbn in *. rewrite tx_ids in Hin. unfold chaintx_Insert. mstep.
  rewrite tx_sql_ok by done. mstep. rewrite bool_decide_eq_true_2 by done. by eexists.
Qed.
Next Obligation.
  intros s id Hs. cbn -[find_row]. unfold chaintx_GetByTxIdentifier. mstep.
  rewrite tx_sql_ok by done. mstep. by rewrite find_row_tx.
Qed.
Next Obligation.
  intros s r Hs. cbn. unfold chaintx_GetByRefIdentifier. mstep. rewrite tx_sql_ok by done. mstep.
  by erewrite <-tx_of_row_filter.
Qed.
Next Obligation.
  intros s sts Hs Hne. cbn. unfold chaintx_GetByStatus. destruct sts as [|st sts]; [done|].
  cbn [length Nat.eqb]. mstep. rewrite tx_sql_ok by done. mstep.
  by erewrite <-tx_of_row_filter.
Qed.
Next Obligation. intros. by apply chaintx_update_ok. Qed.
Next Obligation.
  intros s id n Hs. cbn. unfold chaintx_UpdateFound. mstep. cbn [big_Int64_ptr]. mstep.
  edestruct (chaintx_update_ok s) as (s' & -> & Ht & Hs'); [done|done| |].
  { intros r. instantiate (1 := set_found (ledger_field (big_Int64 n))). done. }
  exists s', (ledger_field (big_Int64 n)). split_and!; [done..|]. intros Hn.
  rewrite big_Int64_small by done. unfold ledger_field. by replace (n =? -1) with false by lia.
Qed.

(** A tracked transaction is stored and read back unchanged, by its identifier and in
    the list of its reference, for ledger numbers that are nil or fit a non-negative
    [int64]; a second insertion of the same identifier is refused and changes nothing. *)
Theorem MonitoredTx_roundtrip {D} `{L : ChainTxMgrDBLaws D} d tx :
  db_ok d -> tx_ok tx -> TxIdentifier tx ∉ TxIdentifier <$> txs d ->
  exists d', InsertMonitoredTx tx d = (Ok tt, d') /\
    GetMonitoredTxByTxIdentifier (TxIdentifier tx) d' = (Ok (Some tx), d') /\
    (exists l, GetMonitoredTxByRefIdentifier (RefIdentifier tx) d' = (Ok l, d') /\ tx ∈ l) /\
    exists e, InsertMonitoredTx tx d' = (Err e, d').
Proof.
  intros Hd Htx Hn. destruct (law_tx_insert d tx Hd Htx Hn) as (d' & Hi & Ht & Hd').
  assert (tx ∈ txs d') as Hin by (rewrite Ht; apply elem_of_app; right; by left).
  exists d'. split; [done|]. rewrite law_tx_get, law_tx_ref by done. split; [|split].
  - do 2 f_equal. by apply find_row_elem; [apply law_tx_unique|].
  - eexists. split; [done|]. by apply list_elem_of_filter.
  - apply law_tx_dup; [done|]. apply list_elem_of_fmap. eauto.
Qed.

Definition sample_tx : MonitoredTx := {|
  TxIdentifier := sample_hash 5; RefIdentifier := sample_hash 1;
  SentBlockchainLedgerNumber := Some 100; FoundBlockchainLedgerNumber := None;
  TxStatus := Pending |}.
Definition sample_txdb : SQLiteChainTxMgrDB := {| tx_table := []; tx_fault := fun _ => None |}.
Lemma sample_txdb_ok : db_ok sample_txdb.
Proof. split; [done|constructor]. Qed.
Lemma MonitoredTx_roundtrip_witness :
  exists d', InsertMonitoredTx sample_tx sample_txdb = (Ok tt, d') /\
    GetMonitoredTxByTxIdentifier (TxIdentifier sample_tx) d' = (Ok (Some sample_tx), d') /\
    (exists l, GetMonitoredTxByRefIdentifier (RefIdentifier sample_tx) d' = (Ok l, d') /\ sample_tx ∈ l) /\
    exists e, InsertMonitoredTx sample_tx d' = (Err e, d').
Proof.
  apply (MonitoredTx_roundtrip sample_txdb sample_tx sample_txdb_ok); [|apply not_elem_of_nil].
  split; cbn; [lia|done].
Defined.
