(* ===== verification/ChainTxMgr.v ===== *)
(** * ChainTxMgr: the manager that mints and prepares redeems on the chain
    (chaintxmgr/mgr.go, interface.go).

    The chain ([MgrWorker]), the tracked-transaction database, the UTXO responder and the
    signer are interfaces: type classes over their own states. The locks of the manager
    make each procedure atomic; a round of [Loop] runs the three procedures in order.
    Every [continue] of the loops is a branch that ends the body of one element. *)
From S2P Require Export StateDB ChainTxMgrDB.

(** ** interface.go, agreement/interface.go *)
Class MgrWorker (W : Type) := {
  GetLatestLedgerNumber : M W (option Z);
  IsMinted : bytes -> M W bool;
  DoMint : MintParameter -> M W (bytes * option Z);
  IsPrepared : bytes -> M W bool;
  DoPrepare : PrepareParameter -> M W (bytes * option Z);
  GetTxStatus : bytes -> M W (MonitoredTxStatus * option Z);
}.
(** [Request] sends the outpoints on a channel with one slot: they are its result. *)
Class BtcUTXOResponder (V : Type) := Request : bytes -> option Z -> M V (list BtcOutpoint).
(** The signature itself is not read by this manager. *)
Class SchnorrAsyncSigner (G : Type) := SignAsync : SignatureRequest -> M G unit.

Record ChainTxMgrConfig := { TimeoutTxLedgerNumber : Z }.

Section mgr.
Context `{E : EthLib, GL : GobLib}.
Context {D W V G : Type} `{DB : ChainTxMgrDB D} `{MW : MgrWorker W}
  `{UR : BtcUTXOResponder V} `{SG : SchnorrAsyncSigner G}.

Record ChainTxMgr := {
  cfg : ChainTxMgrConfig; statedb : StateDB; mgrdb : D; chainWorker : W;
  btcUTXOResponder : V; schnorrParty : G }.
Definition on_statedb {A} (m : M StateDB A) : M ChainTxMgr A :=
  zoom statedb (fun x s => {| cfg := cfg s; statedb := x; mgrdb := mgrdb s;
    chainWorker := chainWorker s; btcUTXOResponder := btcUTXOResponder s;
    schnorrParty := schnorrParty s |}) m.
Definition on_mgrdb {A} (m : M D A) : M ChainTxMgr A :=
  zoom mgrdb (fun x s => {| cfg := cfg s; statedb := statedb s; mgrdb := x;
    chainWorker := chainWorker s; btcUTXOResponder := btcUTXOResponder s;
    schnorrParty := schnorrParty s |}) m.
Definition on_chain {A} (m : M W A) : M ChainTxMgr A :=
  zoom chainWorker (fun x s => {| cfg := cfg s; statedb := statedb s; mgrdb := mgrdb s;
    chainWorker := x; btcUTXOResponder := btcUTXOResponder s;
    schnorrParty := schnorrParty s |}) m.
Definition on_utxo {A} (m : M V A) : M ChainTxMgr A :=
  zoom btcUTXOResponder (fun x s => {| cfg := cfg s; statedb := statedb s; mgrdb := mgrdb s;
    chainWorker := chainWorker s; btcUTXOResponder := x;
    schnorrParty := schnorrParty s |}) m.
Definition on_signer {A} (m : M G A) : M ChainTxMgr A :=
  zoom schnorrParty (fun x s => {| cfg := cfg s; statedb := statedb s; mgrdb := mgrdb s;
    chainWorker := chainWorker s; btcUTXOResponder := btcUTXOResponder s;
    schnorrParty := x |}) m.

(** ** Minting *)
Definition QueryMints : M ChainTxMgr (list Mint) := on_statedb GetUnMinted.
(** A failed lookup drops the mint, as a hit does. *)
Fixpoint FilterMints (mints : list Mint) : M ChainTxMgr (list Mint) :=
  match mints with
  | [] => mret []
  | mint :: mints =>
      _hits ← try (on_mgrdb (GetMonitoredTxByRefIdentifier (m_BtcTxId mint)));
      rest ← FilterMints mints;
      match _hits with
      | inl _ => mret rest
      | inr _hits => if (length _hits =? 0)%nat then mret (mint :: rest) else mret rest
      end
  end.
Definition IsDoubleMint (mint : Mint) : M ChainTxMgr bool := on_chain (IsMinted (m_BtcTxId mint)).
Definition PrepareMint (mint : Mint) : M ChainTxMgr MintParameter :=
  amount ← lift (BigIntClone (m_Amount mint));
  let mp := {| mp_BtcTxId := m_BtcTxId mint; mp_Receiver := m_Receiver mint; mp_Amount := amount |} in
  msgHash ← lift (MintParameter_GenerateMsgHash mp);
  on_signer (SignAsync {| sr_Id := m_BtcTxId mint; sr_SigningHash := msgHash; sr_Outpoints := [];
                          sr_Rx := None; sr_S := None |}) ;;
  mret mp.
Definition CallMint (mp : MintParameter) : M ChainTxMgr (bytes * option Z) := on_chain (DoMint mp).
Definition setMonitoredTx (tx : MonitoredTx) : M ChainTxMgr unit := on_mgrdb (InsertMonitoredTx tx).
Definition SetMintToBeMonitored (mp : MintParameter) (txId : bytes) (sentAt : option Z)
    (status : MonitoredTxStatus) : M ChainTxMgr unit :=
  sent ← lift (BigIntClone sentAt);
  setMonitoredTx {| TxIdentifier := txId; RefIdentifier := mp_BtcTxId mp;
                    SentBlockchainLedgerNumber := Some sent; FoundBlockchainLedgerNumber := None;
                    TxStatus := status |}.
(** an unknown ledger number is replaced by the latest one, when that is known *)
Definition ledger_or_latest (ledger_number : option Z) : M ChainTxMgr (option Z) :=
  match ledger_number with
  | Some n => mret (Some n)
  | None =>
      latest ← try (on_chain GetLatestLedgerNumber);
      mret (match latest with inl _ => None | inr l => l end)
  end.
(** the body of the loop of [procedureMint] *)
Definition mint_one (mint : Mint) : M ChainTxMgr unit :=
  found ← try (IsDoubleMint mint);
  match found with
  | inl _ | inr true => mret tt
  | inr false =>
      params ← try (PrepareMint mint);
      match params with
      | inl _ => mret tt
      | inr mp =>
          sent ← try (CallMint mp);
          match sent with
          | inl _ => mret tt
          | inr (tx_id, ledger_number) =>
              ledger_number ← ledger_or_latest ledger_number;
              ignore (SetMintToBeMonitored mp tx_id ledger_number Pending)
          end
      end
  end.
Definition procedureMint : M ChainTxMgr unit :=
  mints ← QueryMints;
  mints_clean ← FilterMints mints;
  for_each mint_one mints_clean.

(** ** Preparing redeems *)
Definition QueryUnPrepared : M ChainTxMgr (list Redeem) :=
  on_statedb (GetRedeemsByStatus RedeemStatusRequested).
Fixpoint FilterUnPrepared (redeems : list Redeem) : M ChainTxMgr (list Redeem) :=
  match redeems with
  | [] => mret []
  | redeem :: redeems =>
      _hits ← try (on_mgrdb (GetMonitoredTxByRefIdentifier (RequestTxHash redeem)));
      rest ← FilterUnPrepared redeems;
      match _hits with
      | inl _ => mret rest
      | inr _hits => if (length _hits =? 0)%nat then mret (redeem :: rest) else mret rest
      end
  end.
Definition IsDoublePrepare (redeem : Redeem) : M ChainTxMgr bool :=
  on_chain (IsPrepared (RequestTxHash redeem)).
(** The outpoints are in the channel when [Request] returns, unless the context is done. *)
Definition waitForOutPoints (done : bool) (outpoints : list BtcOutpoint) : outcome (list BtcOutpoint) :=
  if done then Err "context deadline exceeded"
  else if (length outpoints =? 0)%nat then Err "ERR_EMPTY_OUTPOINTS: no outpoints returned"
  else Ok outpoints.
Definition PreparePrepare (done : bool) (redeem : Redeem) : M ChainTxMgr PrepareParameter :=
  r ← try (on_utxo (Request (RequestTxHash redeem) (Amount redeem)));
  match r with
  | inl err => throw ("ERR_BTC_UTXO_REQUEST: " +:+ err)
  | inr sent =>
      _outpoints ← lift (waitForOutPoints done sent);
      amount ← lift (BigIntClone (Amount redeem));
      let '(txIds, idxs) := ConvertOutpoints _outpoints in
      let pp := {| pp_RequestTxHash := RequestTxHash redeem; pp_Requester := Requester redeem;
                   pp_Receiver := Receiver redeem; pp_Amount := amount;
                   pp_OutpointTxIds := txIds; pp_OutpointIdxs := idxs;
                   pp_Rx := None; pp_S := None |} in
      msgHash ← lift (PrepareParameter_GenerateMsgHash pp);
      on_signer (SignAsync {| sr_Id := RequestTxHash redeem; sr_SigningHash := msgHash;
                              sr_Outpoints := []; sr_Rx := None; sr_S := None |}) ;;
      mret pp
  end.
Definition CallPrepare (pp : PrepareParameter) : M ChainTxMgr (bytes * option Z) :=
  on_chain (DoPrepare pp).
Definition SetPrepareToBeMonitored (pp : PrepareParameter) (txId : bytes) (sentAt : option Z)
    (status : MonitoredTxStatus) : M ChainTxMgr unit :=
  sent ← lift (BigIntClone sentAt);
  setMonitoredTx {| TxIdentifier := txId; RefIdentifier := pp_RequestTxHash pp;
                    SentBlockchainLedgerNumber := Some sent; FoundBlockchainLedgerNumber := None;
                    TxStatus := status |}.
Definition prepare_one (done : bytes -> bool) (redeem : Redeem) : M ChainTxMgr unit :=
  found ← try (IsDoublePrepare redeem);
  match found with
  | inl _ | inr true => mret tt
  | inr false =>
      params ← try (PreparePrepare (done (RequestTxHash redeem)) redeem);
      match params with
      | inl _ => mret tt
      | inr pp =>
          sent ← try (CallPrepare pp);
          match sent with
          | inl _ => mret tt
          | inr (tx_id, ledger_number) =>
              ledger_number ← ledger_or_latest ledger_number;
              ignore (SetPrepareToBeMonitored pp tx_id ledger_number Pending)
          end
      end
  end.
(** [done] tells for which redeems the wait for outpoints times out. *)
Definition procedurePrepare (done : bytes -> bool) : M ChainTxMgr unit :=
  redeems ← QueryUnPrepared;
  redeems_clean ← FilterUnPrepared redeems;
  for_each (prepare_one done) redeems_clean.

(** ** Following the submitted transactions *)
Definition mark_one (pendingTx : MonitoredTx) : M ChainTxMgr unit :=
  let txId := TxIdentifier pendingTx in
  r ← try (on_chain (GetTxStatus txId));
  match r with
  | inl _ => mret tt
  | inr (status, ledger_num) =>
      u ← try (on_mgrdb (UpdateTxStatus txId status));
      match u with
      | inl _ => mret tt
      | inr _ =>
          if UtilContains [Success; Reverted] status then
            found ← lift (BigIntClone ledger_num);
            ignore (on_mgrdb (UpdateFound txId (Some found)))
          else
            latest ← try (on_chain GetLatestLedgerNumber);
            match latest, SentBlockchainLedgerNumber pendingTx with
            | inr (Some latestLedgerNumber), Some sent =>
                timeout ← gets (fun s => TimeoutTxLedgerNumber (cfg s));
                let expireThreshold := sent + timeout in
                if expireThreshold <=? latestLedgerNumber
                then ignore (on_mgrdb (UpdateTxStatus txId Timeout))
                else mret tt
            | _, _ => mret tt
            end
      end
  end.
Definition procedureMarkTxStatus : M ChainTxMgr unit :=
  pendingTxs ← on_mgrdb (GetMonitoredTxByStatus [Limbo; Pending]);
  for_each mark_one pendingTxs.

(** one tick of [Loop]: errors are logged, a panic ends the process *)
Definition Loop_tick (done : bytes -> bool) : M ChainTxMgr unit :=
  ignore procedureMint ;; ignore (procedurePrepare done) ;; ignore procedureMarkTxStatus.
End mgr.
Arguments ChainTxMgr D W V G : clear implicits.

(** ** What the manager relies on of the chain *)
(** As [MgrWorker] is documented: a submission that succeeds returns the identifier of a new
    transaction; its ledger number may be unknown; one that fails may have submitted all the same.
    Nothing takes a submission back, and ledger numbers fit an [int64]. *)
Definition number_ok (n : option Z) : Prop := match n with Some k => 0 <= k < 2 ^ 63 | None => True end.
Class MgrWorkerLaws (W : Type) `{MW : MgrWorker W} := {
  submitted : W -> list bytes;
  law_mint w mp tx n w' : DoMint mp w = (Ok (tx, n), w') -> (tx ∉ submitted w) /\ (tx ∈ submitted w') /\ number_ok n;
  law_mint_keeps mp w : submitted w ⊆ submitted (run (DoMint mp) w);
  law_prepare w pp tx n w' : DoPrepare pp w = (Ok (tx, n), w') -> (tx ∉ submitted w) /\ (tx ∈ submitted w') /\ number_ok n;
  law_prepare_keeps pp w : submitted w ⊆ submitted (run (DoPrepare pp) w);
  law_number w n w' : GetLatestLedgerNumber w = (Ok n, w') -> number_ok n;
  law_latest w : submitted w ⊆ submitted (run GetLatestLedgerNumber w);
  law_isminted w id : submitted w ⊆ submitted (run (IsMinted id) w);
  law_isprepared w id : submitted w ⊆ submitted (run (IsPrepared id) w);
  law_status w id : submitted w ⊆ submitted (run (GetTxStatus id) w);
}.
(** the ledger number of a submission is given, or can be read right after it *)
Definition number_known `{MW : MgrWorker W} (n : option Z) (w : W) : Prop :=
  is_Some n \/ exists k, result GetLatestLedgerNumber w = Ok (Some k).

(** A worker that also records the submissions that succeeded *)
Section logged.
Context {W : Type} `{MW : MgrWorker W}.
Record logged := { lw : W; mint_log : list MintParameter; prepare_log : list PrepareParameter }.
Definition pass {A} (m : M W A) : M logged A :=
  zoom lw (fun w l => {| lw := w; mint_log := mint_log l; prepare_log := prepare_log l |}) m.
#[global] Instance logged_worker : MgrWorker logged := {|
  GetLatestLedgerNumber := pass GetLatestLedgerNumber;
  IsMinted id := pass (IsMinted id);
  DoMint mp := fun l =>
    let '(o, w) := DoMint mp (lw l) in
    (o, {| lw := w; mint_log := if is_ok o then mint_log l ++ [mp] else mint_log l;
           prepare_log := prepare_log l |});
  IsPrepared id := pass (IsPrepared id);
  DoPrepare pp := fun l =>
    let '(o, w) := DoPrepare pp (lw l) in
    (o, {| lw := w; mint_log := mint_log l;
           prepare_log := if is_ok o then prepare_log l ++ [pp] else prepare_log l |});
  GetTxStatus id := pass (GetTxStatus id);
|}.
End logged.
Arguments logged W : clear implicits.

Create HintDb mgrdb.
(** ** No procedure writes the state database *)
Section reads.
Context `{E : EthLib, GL : GobLib}.
Context {D W V N : Type} `{DB : ChainTxMgrDB D} `{MW : MgrWorker W}
  `{UR : BtcUTXOResponder V} `{SG : SchnorrAsyncSigner N}.

Definition db_is (d : StateDB) (s : ChainTxMgr D W V N) : Prop := statedb s = d.
Lemma keeps_zoom {A T} (g : ChainTxMgr D W V N -> T) p (m : M T A) d :
  (forall t s, statedb (p t s) = statedb s) -> keeps (db_is d) (zoom g p m).
Proof.
  intros Hp s Hs. unfold run, zoom, db_is in *. destruct (m (g s)). cbn. by rewrite Hp.
Qed.
Lemma keeps_read {A} (m : M StateDB A) d :
  (forall s, run m s = s) -> keeps (db_is d) (on_statedb m : M (ChainTxMgr D W V N) A).
Proof.
  intros Hm s <-. specialize (Hm (statedb s)). unfold run, on_statedb, zoom, db_is in *.
  by destruct (m (statedb s)).
Qed.
Lemma keeps_on_mgrdb {A} (m : M D A) d : keeps (db_is d) (on_mgrdb m : M (ChainTxMgr D W V N) A).
Proof. by apply keeps_zoom. Qed.
Lemma keeps_on_chain {A} (m : M W A) d : keeps (db_is d) (on_chain m : M (ChainTxMgr D W V N) A).
Proof. by apply keeps_zoom. Qed.
Lemma keeps_on_utxo {A} (m : M V A) d : keeps (db_is d) (on_utxo m : M (ChainTxMgr D W V N) A).
Proof. by apply keeps_zoom. Qed.
Lemma keeps_on_signer {A} (m : M N A) d : keeps (db_is d) (on_signer m : M (ChainTxMgr D W V N) A).
Proof. by apply keeps_zoom. Qed.
#[local] Hint Resolve keeps_on_mgrdb keeps_on_chain keeps_on_utxo
  keeps_on_signer : golib.

Lemma keeps_ledger d n : keeps (db_is d) (ledger_or_latest n).
Proof.
  destruct n; [apply keeps_ret|]. apply keeps_bind; [apply keeps_try, keeps_on_chain|].
  intros. apply keeps_ret.
Qed.
Lemma keeps_mint_one d m : keeps (db_is d) (mint_one m).
Proof.
  unfold mint_one. apply keeps_bind; [apply keeps_try, keeps_on_chain|intros [e|[]]]; keeps_auto.
  { apply keeps_try. unfold PrepareMint. keeps_auto. }
  case_match; [auto with golib|]. apply keeps_bind; [apply keeps_try, keeps_on_chain|].
  intros [e|[tx n]]; [auto with golib|]. apply keeps_bind; [apply keeps_ledger|intros].
  apply keeps_ignore. unfold SetMintToBeMonitored. apply keeps_bind; [auto with golib|].
  intros. apply keeps_on_mgrdb.
Qed.
Lemma keeps_prepare_one d done r : keeps (db_is d) (prepare_one done r).
Proof.
  unfold prepare_one. apply keeps_bind; [apply keeps_try, keeps_on_chain|intros [e|[]]]; keeps_auto.
  { apply keeps_try. unfold PreparePrepare. keeps_auto. case_match; [auto with golib|]. keeps_auto. }
  case_match; [auto with golib|]. apply keeps_bind; [apply keeps_try, keeps_on_chain|].
  intros [e|[tx n]]; [auto with golib|]. apply keeps_bind; [apply keeps_ledger|intros].
  apply keeps_ignore. unfold SetPrepareToBeMonitored. apply keeps_bind; [auto with golib|].
  intros. apply keeps_on_mgrdb.
Qed.
Lemma reads_GetUnMinted d : run GetUnMinted d = d.
Proof.
  unfold run, GetUnMinted, prepare, exec, may_fail. mstep.
  destruct (db_fault d Preparing _); [done|]. mstep. by destruct (db_fault d Executing _).
Qed.
Lemma reads_GetRedeemsByStatus d st : run (GetRedeemsByStatus st) d = d.
Proof.
  unfold run, GetRedeemsByStatus, prepare, exec, may_fail. mstep.
  destruct (db_fault d Preparing _); [done|]. mstep. by destruct (db_fault d Executing _).
Qed.
Lemma keeps_procedures d done :
  keeps (db_is d) procedureMint /\ keeps (db_is d) (procedurePrepare done).
Proof.
  assert (forall l, keeps (db_is d) (FilterMints l)) as H1.
  { induction l as [|m l IH]; cbn [FilterMints]; keeps_auto. repeat case_match; auto with golib. }
  assert (forall l, keeps (db_is d) (FilterUnPrepared l)) as H2.
  { induction l as [|m l IH]; cbn [FilterUnPrepared]; keeps_auto. repeat case_match; auto with golib. }
  split.
  - apply keeps_bind; [apply keeps_read, reads_GetUnMinted|intros]. apply keeps_bind; [apply H1|].
    intros. apply keeps_for_each, keeps_mint_one.
  - apply keeps_bind; [apply keeps_read; intros; apply reads_GetRedeemsByStatus|intros].
    apply keeps_bind; [apply H2|]. intros. apply keeps_for_each, keeps_prepare_one.
Qed.
Lemma keeps_mark_one d tx : keeps (db_is d) (mark_one tx).
Proof.
  unfold mark_one. apply keeps_bind; [apply keeps_try, keeps_on_chain|intros [e|[st n]]; [auto with golib|]].
  apply keeps_bind; [apply keeps_try, keeps_on_mgrdb|intros [e|u]; [auto with golib|]]. case_match; keeps_auto.
  repeat case_match; keeps_auto. case_match; auto with golib.
Qed.
Lemma keeps_Loop_tick d done : keeps (db_is d) (Loop_tick done).
Proof.
  destruct (keeps_procedures d done) as [H1 H2]. unfold Loop_tick.
  apply keeps_bind; [by apply keeps_ignore|intros _]. apply keeps_bind; [by apply keeps_ignore|intros _].
  apply keeps_ignore. unfold procedureMarkTxStatus. apply keeps_bind; [auto with golib|].
  intros. apply keeps_for_each, keeps_mark_one.
Qed.
End reads.

(** ** Nothing is submitted twice *)
Section once.
Context `{EL : EthLibLaws, GL : GobLaws}.
Context {D W V N : Type} `{DL : ChainTxMgrDBLaws D} `{WL : MgrWorkerLaws W}
  `{UR : BtcUTXOResponder V} `{SG : SchnorrAsyncSigner N}.

Definition refs (s : ChainTxMgr D (logged W) V N) : list bytes := RefIdentifier <$> txs (mgrdb s).
(** every tracked transaction was submitted, every submission is tracked, and none was
    made twice *)
Definition tracked (s : ChainTxMgr D (logged W) V N) : Prop :=
  db_ok (mgrdb s) /\
  (forall id, id ∈ TxIdentifier <$> txs (mgrdb s) -> id ∈ submitted (lw (chainWorker s))) /\
  (forall mp, mp ∈ mint_log (chainWorker s) -> mp_BtcTxId mp ∈ refs s) /\
  (forall pp, pp ∈ prepare_log (chainWorker s) -> pp_RequestTxHash pp ∈ refs s) /\
  NoDup (mp_BtcTxId <$> mint_log (chainWorker s)) /\
  NoDup (pp_RequestTxHash <$> prepare_log (chainWorker s)).
(** the same part of the state *)
Definition same (s s' : (ChainTxMgr D (logged W) V N)) : Prop :=
  mgrdb s' = mgrdb s /\ submitted (lw (chainWorker s)) ⊆ submitted (lw (chainWorker s')) /\
  mint_log (chainWorker s') = mint_log (chainWorker s) /\
  prepare_log (chainWorker s') = prepare_log (chainWorker s).
Lemma same_refl s : same s s.
Proof. done. Qed.
Lemma same_trans s1 s2 s3 : same s1 s2 -> same s2 s3 -> same s1 s3.
Proof. intros (?&S1&?&?) (?&S2&?&?). split_and!; [congruence|by transitivity (submitted (lw (chainWorker s2)))|congruence..]. Qed.
Lemma tracked_same s s' : same s s' -> tracked s -> tracked s'.
Proof.
  intros (H1 & H2 & H3 & H4) (Hd & Hi & Ht). unfold tracked, refs in *. rewrite H1, H3, H4.
  split; [done|]. split; [|done]. intros id Hid. by apply H2, Hi.
Qed.

(** a computation that touches neither the database nor the submissions *)
Definition quiet {A} (m : M (ChainTxMgr D (logged W) V N) A) : Prop := forall s, same s (run m s).
Lemma quiet_bind {A B} (m : M (ChainTxMgr D (logged W) V N) A) (f : A -> M (ChainTxMgr D (logged W) V N) B) :
  quiet m -> (forall a, quiet (f a)) -> quiet (m ≫= f).
Proof.
  intros Hm Hf s. specialize (Hm s). unfold run in *. rewrite bind_eq.
  destruct (m s) as [[a|e|w] s']; cbn in *; [|done..]. specialize (Hf a s').
  by eapply same_trans.
Qed.
Lemma quiet_try {A} (m : M (ChainTxMgr D (logged W) V N) A) : quiet m -> quiet (try m).
Proof.
  intros Hm s. specialize (Hm s). unfold run, try in *. by destruct (m s) as [[a|e|w] s'].
Qed.
Lemma quiet_ret {A} (a : A) : quiet (mret a).
Proof. by intros s. Qed.
Lemma quiet_lift {A} (o : outcome A) : quiet (lift o).
Proof. by intros s. Qed.
Lemma quiet_throw {A} e : quiet (throw e : M (ChainTxMgr D (logged W) V N) A).
Proof. by intros s. Qed.
Lemma quiet_pass {A} (m : M W A) :
  (forall w, submitted w ⊆ submitted (run m w)) -> quiet (on_chain (pass m)).
Proof.
  intros Hm s. specialize (Hm (lw (chainWorker s))).
  unfold run, on_chain, pass, zoom in *. destruct (m (lw (chainWorker s))). by repeat split.
Qed.
Lemma quiet_statedb {A} (m : M StateDB A) : quiet (on_statedb m).
Proof. intros s. unfold run, on_statedb, zoom. by destruct (m (statedb s)). Qed.
Lemma quiet_utxo {A} (m : M V A) : quiet (on_utxo m).
Proof. intros s. unfold run, on_utxo, zoom. by destruct (m (btcUTXOResponder s)). Qed.
Lemma quiet_signer {A} (m : M N A) : quiet (on_signer m).
Proof. intros s. unfold run, on_signer, zoom. by destruct (m (schnorrParty s)). Qed.
#[local] Hint Resolve quiet_try quiet_ret quiet_lift quiet_throw quiet_statedb quiet_utxo quiet_signer : mgrdb.

Lemma quiet_PrepareMint mint : quiet (PrepareMint mint).
Proof. unfold PrepareMint. repeat (apply quiet_bind; [auto with mgrdb|intros]). auto with mgrdb. Qed.
Lemma quiet_PreparePrepare done redeem : quiet (PreparePrepare done redeem).
Proof.
  unfold PreparePrepare. apply quiet_bind; [auto with mgrdb|intros [e|l]]; [auto with mgrdb|].
  repeat (apply quiet_bind; [auto with mgrdb|intros]). auto with mgrdb.
Qed.
Lemma quiet_IsDoubleMint mint : quiet (IsDoubleMint mint).
Proof. apply quiet_pass. intros w. apply law_isminted. Qed.
Lemma quiet_IsDoublePrepare r : quiet (IsDoublePrepare r).
Proof. apply quiet_pass. intros w. apply law_isprepared. Qed.
Lemma quiet_latest : quiet (on_chain GetLatestLedgerNumber).
Proof. apply quiet_pass. intros w. apply law_latest. Qed.

Lemma on_mgrdb_eq {A} (m : M D A) (s : ChainTxMgr D (logged W) V N) :
  on_mgrdb m s = let '(o, d) := m (mgrdb s) in
    (o, {| cfg := cfg s; statedb := statedb s; mgrdb := d; chainWorker := chainWorker s;
           btcUTXOResponder := btcUTXOResponder s; schnorrParty := schnorrParty s |}).
Proof. reflexivity. Qed.

(** *** Recording a submission that has just been made *)
(** what [mint_one] and [prepare_one] do after it *)
Definition track (tx ref : bytes) (n : option Z) : M (ChainTxMgr D (logged W) V N) unit :=
  ledger_number ← ledger_or_latest n;
  ignore (sent ← lift (BigIntClone ledger_number);
          setMonitoredTx {| TxIdentifier := tx; RefIdentifier := ref; SentBlockchainLedgerNumber := Some sent;
                            FoundBlockchainLedgerNumber := None; TxStatus := Pending |}).
(** nothing but the tracked transactions changed *)
Definition only_tracks (s s' : ChainTxMgr D (logged W) V N) : Prop :=
  statedb s' = statedb s /\ btcUTXOResponder s' = btcUTXOResponder s /\
  submitted (lw (chainWorker s)) ⊆ submitted (lw (chainWorker s')) /\
  mint_log (chainWorker s') = mint_log (chainWorker s) /\ prepare_log (chainWorker s') = prepare_log (chainWorker s).
Lemma ledger_or_latest_run n s : number_ok n ->
  exists o s', ledger_or_latest n s = (o, s') /\ only_tracks s s' /\ mgrdb s' = mgrdb s /\
    match o with
    | Ok (Some k) => 0 <= k < 2 ^ 63
    | _ => ~ number_known n (lw (chainWorker s)) /\ forall e, o <> Err e
    end.
Proof.
  destruct n as [k|]; intros Hk; unfold ledger_or_latest.
  { rewrite ret_eq. by eexists _, s. }
  pose proof (law_latest (lw (chainWorker s))) as Hsub. pose proof (law_number (lw (chainWorker s))) as Hn.
  rewrite bind_eq. unfold try, on_chain, zoom. cbn [GetLatestLedgerNumber logged_worker]. unfold pass, zoom, number_known, result, run in *.
  destruct (GetLatestLedgerNumber (lw (chainWorker s))) as [[l|e|w] w1]; cbn in *; rewrite ?ret_eq; eexists _, _; (split; [reflexivity|]);
    (split; [done|]); (split; [done|]).
  - destruct l as [k|]; [exact (Hn (Some k) _ eq_refl)|]. split; [|done]. intros [[? [=]]|[k [=]]].
  - split; [|done]. intros [[? [=]]|[k [=]]].
  - split; [|done]. intros [[? [=]]|[k [=]]].
Qed.
Lemma track_cases tx ref n s : db_ok (mgrdb s) -> number_ok n -> tx ∉ TxIdentifier <$> txs (mgrdb s) ->
  exists s', only_tracks s s' /\
    (((exists w, track tx ref n s = (Panic w, s')) /\ ~ number_known n (lw (chainWorker s))) \/
     (track tx ref n s = (Ok tt, s') /\ db_ok (mgrdb s') /\
      exists row, txs (mgrdb s') = txs (mgrdb s) ++ [row] /\ TxIdentifier row = tx /\ RefIdentifier row = ref /\
        TxStatus row = Pending)).
Proof.
  intros Hd Hn Hx. destruct (ledger_or_latest_run n s Hn) as (o & s1 & He & Hs & Hdb & Ho).
  unfold track. rewrite bind_eq, He. destruct o as [[k|]|e|w].
  - unfold ignore. rewrite bind_eq. unfold try. rewrite bind_eq, lift_eq. cbn [BigIntClone].
    unfold setMonitoredTx. rewrite on_mgrdb_eq, Hdb.
    match goal with |- context [InsertMonitoredTx ?t] =>
      destruct (law_tx_insert (mgrdb s) t Hd) as (d' & -> & Ht & Hd'); [by split|exact Hx|] end.
    eexists. split; [|right; split; [reflexivity|]]; [exact Hs|]. split; [exact Hd'|]. by eexists.
  - exists s1. split; [done|left]. split; [|apply Ho]. by eexists.
  - exfalso. by apply (proj2 Ho e).
  - exists s1. split; [done|left]. split; [|apply Ho]. by eexists.
Qed.

(** the rest of the round still concerns untracked references only *)
Definition ready (ids : list bytes) (s : ChainTxMgr D (logged W) V N) : Prop :=
  tracked s /\ forall id, id ∈ ids -> id ∉ refs s.
Lemma ready_same ids s s' : same s s' -> ready ids s -> ready ids s'.
Proof.
  intros Hs [Ht Hi]. split; [by eapply tracked_same|]. unfold refs in *. by destruct Hs as (-> & _).
Qed.

(** no two accepted submissions so far name the same deposit or redeem *)
Definition once (s : ChainTxMgr D (logged W) V N) : Prop :=
  NoDup (mp_BtcTxId <$> mint_log (chainWorker s)) /\ NoDup (pp_RequestTxHash <$> prepare_log (chainWorker s)).
(** what holds after a computation: [P], or [once] when the process died *)
Definition after {A} (P : ChainTxMgr D (logged W) V N -> Prop)
    (r : outcome A * ChainTxMgr D (logged W) V N) : Prop :=
  match r with (Panic _, s') => once s' | (_, s') => P s' end.
Lemma after_bind_try {A B} P (m : M _ A) (f : error + A -> M _ B) s :
  match m s with
  | (Ok a, s') => after P (f (inr a) s') | (Err e, s') => after P (f (inl e) s') | (Panic w, s') => once s'
  end -> after P ((try m ≫= f) s).
Proof. rewrite bind_eq. unfold try. by destruct (m s) as [[a|e|w] s']. Qed.
Lemma tracked_once s : tracked s -> once s.
Proof. by intros (_ & _ & _ & _ & ? & ?). Qed.
Lemma once_same s s' : same s s' -> once s -> once s'.
Proof. intros (_ & _ & H3 & H4). unfold once. by rewrite H3, H4. Qed.

(** the submission for [id] was accepted and is not tracked yet; those for [ids] are still to come *)
Definition submitting (id : bytes) (ids : list bytes) (s : ChainTxMgr D (logged W) V N) : Prop :=
  db_ok (mgrdb s) /\
  (forall x, x ∈ TxIdentifier <$> txs (mgrdb s) -> x ∈ submitted (lw (chainWorker s))) /\
  (forall mp, mp ∈ mint_log (chainWorker s) -> mp_BtcTxId mp ∈ refs s \/ mp_BtcTxId mp = id) /\
  (forall pp, pp ∈ prepare_log (chainWorker s) -> pp_RequestTxHash pp ∈ refs s \/ pp_RequestTxHash pp = id) /\
  once s /\ forall x, x ∈ ids -> (x ∉ refs s) /\ x <> id.
Lemma track_submitting tx id n ids s : submitting id ids s -> number_ok n ->
  tx ∉ TxIdentifier <$> txs (mgrdb s) -> tx ∈ submitted (lw (chainWorker s)) -> after (ready ids) (track tx id n s).
Proof.
  intros (Hd & Hi & Hm & Hp & Ho & Hids) Hn Hx Htx.
  destruct (track_cases tx id n s Hd Hn Hx) as (s' & (_ & _ & Hsub & E1 & E2) & [[[w ->] _]|(-> & Hd' & row & Ht & Hrow & Hr & _)]).
  { cbn. unfold once. by rewrite E1, E2. }
  assert (refs s' = refs s ++ [id]) as Hrefs by (unfold refs; rewrite Ht, fmap_app, list_fmap_singleton, Hr; done).
  split; [|intros x Hx'; rewrite Hrefs, not_elem_of_app, list_elem_of_singleton; by apply Hids].
  unfold tracked. rewrite Hrefs, E1, E2. destruct Ho as [H1 H2]. split_and!; [done| | | |done|done].
  - intros x. rewrite Ht, fmap_app, list_fmap_singleton, Hrow. intros [Hin| ->%list_elem_of_singleton]%elem_of_app.
    + by apply Hsub, Hi.
    + by apply Hsub.
  - intros mp Hin. rewrite elem_of_app, list_elem_of_singleton. by apply Hm.
  - intros pp Hin. rewrite elem_of_app, list_elem_of_singleton. by apply Hp.
Qed.
Lemma ready_weak id ids s : ready (id :: ids) s -> ready ids s.
Proof. intros [Ht Hi]. split; [done|]. intros x Hx. apply Hi. by right. Qed.
Lemma ready_once ids s : ready ids s -> once s.
Proof. intros [Ht _]. by apply tracked_once. Qed.

(** the state right after an accepted submission *)
Definition with_worker (w : logged W) (s : ChainTxMgr D (logged W) V N) : ChainTxMgr D (logged W) V N :=
  {| cfg := cfg s; statedb := statedb s; mgrdb := mgrdb s; chainWorker := w;
     btcUTXOResponder := btcUTXOResponder s; schnorrParty := schnorrParty s |}.
Lemma mint_submitting mp ids s w' : ready (mp_BtcTxId mp :: ids) s -> mp_BtcTxId mp ∉ ids ->
  submitted (lw (chainWorker s)) ⊆ submitted w' ->
  submitting (mp_BtcTxId mp) ids (with_worker {| lw := w'; mint_log := mint_log (chainWorker s) ++ [mp];
    prepare_log := prepare_log (chainWorker s) |} s).
Proof.
  intros [(Hd & Hi & Hm & Hp & H1 & H2) Hr] Hn Hsub. unfold submitting, once, refs, with_worker in *. cbn. split_and!; try done.
  - intros x Hx. by apply Hsub, Hi.
  - intros mp' [Hin| ->%list_elem_of_singleton]%elem_of_app; [left; by apply Hm|by right].
  - intros pp Hin. left. by apply Hp.
  - rewrite fmap_app. apply NoDup_snoc. split; [done|]. intros (mp' & He & Hin)%list_elem_of_fmap.
    apply (Hr (mp_BtcTxId mp)); [by left|]. rewrite He. by apply Hm.
  - intros x Hx. split; [apply Hr; by right|]. by intros ->.
Qed.
Lemma prepare_submitting pp ids s w' : ready (pp_RequestTxHash pp :: ids) s -> pp_RequestTxHash pp ∉ ids ->
  submitted (lw (chainWorker s)) ⊆ submitted w' ->
  submitting (pp_RequestTxHash pp) ids (with_worker {| lw := w'; mint_log := mint_log (chainWorker s);
    prepare_log := prepare_log (chainWorker s) ++ [pp] |} s).
Proof.
  intros [(Hd & Hi & Hm & Hp & H1 & H2) Hr] Hn Hsub. unfold submitting, once, refs, with_worker in *. cbn. split_and!; try done.
  - intros x Hx. by apply Hsub, Hi.
  - intros mp Hin. left. by apply Hm.
  - intros pp' [Hin| ->%list_elem_of_singleton]%elem_of_app; [left; by apply Hp|by right].
  - rewrite fmap_app. apply NoDup_snoc. split; [done|]. intros (pp' & He & Hin)%list_elem_of_fmap.
    apply (Hr (pp_RequestTxHash pp)); [by left|]. rewrite He. by apply Hp.
  - intros x Hx. split; [apply Hr; by right|]. by intros ->.
Qed.

Lemma PrepareMint_id mint (s : ChainTxMgr D (logged W) V N) mp s' :
  PrepareMint mint s = (Ok mp, s') -> mp_BtcTxId mp = m_BtcTxId mint.
Proof.
  unfold PrepareMint. mstep. destruct (BigIntClone _); [|done..]. mstep.
  destruct (MintParameter_GenerateMsgHash _); [|done..]. mstep.
  destruct (on_signer _ s) as [[] ?]; [|done..]. by intros [= <- _].
Qed.
Lemma mint_one_ready mint ids s :
  ready (m_BtcTxId mint :: ids) s -> m_BtcTxId mint ∉ ids -> after (ready ids) (mint_one mint s).
Proof.
  intros Hr Hn. unfold mint_one. apply after_bind_try. pose proof (quiet_IsDoubleMint mint s) as Hq. unfold run in Hq.
  destruct (IsDoubleMint mint s) as [o s1]; cbn [snd] in Hq.
  assert (ready (m_BtcTxId mint :: ids) s1) as Hr1 by (by eapply ready_same). clear Hq Hr s.
  destruct o as [[]|e|w]; [exact (ready_weak _ _ _ Hr1)| |exact (ready_weak _ _ _ Hr1)|exact (ready_once _ _ Hr1)].
  apply after_bind_try. pose proof (quiet_PrepareMint mint s1) as Hq. unfold run in Hq.
  destruct (PrepareMint mint s1) as [o s2] eqn:Hmp; cbn [snd] in Hq.
  assert (ready (m_BtcTxId mint :: ids) s2) as Hr2 by (by eapply ready_same). clear Hq Hr1.
  destruct o as [mp|e|w]; [|exact (ready_weak _ _ _ Hr2)|exact (ready_once _ _ Hr2)].
  apply PrepareMint_id in Hmp as Hid. rewrite <-Hid in *.
  apply after_bind_try. unfold CallMint, on_chain, zoom. cbn [DoMint logged_worker].
  pose proof (law_mint_keeps mp (lw (chainWorker s2))) as Hsub. unfold run in Hsub.
  destruct (DoMint mp (lw (chainWorker s2))) as [[[tx n]|e|w] w'] eqn:Hdo; cbn [is_ok snd] in *.
  - destruct (law_mint _ _ _ _ _ Hdo) as (Hfresh & Hin & Hk).
    apply (track_submitting tx (mp_BtcTxId mp) n ids); [by apply mint_submitting|done| |done].
    intros Hx. apply Hfresh. by apply Hr2.
  - cbn. apply ready_weak in Hr2. eapply ready_same; [|exact Hr2]. by split_and!.
  - cbn. apply ready_once in Hr2. exact Hr2.
Qed.

Lemma PreparePrepare_id done redeem (s : ChainTxMgr D (logged W) V N) pp s' :
  PreparePrepare done redeem s = (Ok pp, s') -> pp_RequestTxHash pp = RequestTxHash redeem.
Proof.
  unfold PreparePrepare. rewrite bind_eq. unfold try.
  destruct (on_utxo _ s) as [[l|e|w] s1]; [|done..]. mstep.
  destruct (waitForOutPoints done l); [|done..]. mstep. destruct (BigIntClone _); [|done..].
  unfold ConvertOutpoints. mstep.
  destruct (PrepareParameter_GenerateMsgHash _); [|done..]. mstep.
  destruct (on_signer _ s1) as [[] ?]; [|done..]. by intros [= <- _].
Qed.
Lemma prepare_one_ready done redeem ids s :
  ready (RequestTxHash redeem :: ids) s -> RequestTxHash redeem ∉ ids -> after (ready ids) (prepare_one done redeem s).
Proof.
  intros Hr Hn. unfold prepare_one. apply after_bind_try. pose proof (quiet_IsDoublePrepare redeem s) as Hq. unfold run in Hq.
  destruct (IsDoublePrepare redeem s) as [o s1]; cbn [snd] in Hq.
  assert (ready (RequestTxHash redeem :: ids) s1) as Hr1 by (by eapply ready_same). clear Hq Hr s.
  destruct o as [[]|e|w]; [exact (ready_weak _ _ _ Hr1)| |exact (ready_weak _ _ _ Hr1)|exact (ready_once _ _ Hr1)].
  apply after_bind_try. pose proof (quiet_PreparePrepare (done (RequestTxHash redeem)) redeem s1) as Hq. unfold run in Hq.
  destruct (PreparePrepare _ redeem s1) as [o s2] eqn:Hpp; cbn [snd] in Hq.
  assert (ready (RequestTxHash redeem :: ids) s2) as Hr2 by (by eapply ready_same). clear Hq Hr1.
  destruct o as [pp|e|w]; [|exact (ready_weak _ _ _ Hr2)|exact (ready_once _ _ Hr2)].
  apply PreparePrepare_id in Hpp as Hid. rewrite <-Hid in *.
  apply after_bind_try. unfold CallPrepare, on_chain, zoom. cbn [DoPrepare logged_worker].
  pose proof (law_prepare_keeps pp (lw (chainWorker s2))) as Hsub. unfold run in Hsub.
  destruct (DoPrepare pp (lw (chainWorker s2))) as [[[tx n]|e|w] w'] eqn:Hdo; cbn [is_ok snd] in *.
  - destruct (law_prepare _ _ _ _ _ Hdo) as (Hfresh & Hin & Hk).
    apply (track_submitting tx (pp_RequestTxHash pp) n ids); [by apply prepare_submitting|done| |done].
    intros Hx. apply Hfresh. by apply Hr2.
  - cbn. apply ready_weak in Hr2. eapply ready_same; [|exact Hr2]. by split_and!.
  - cbn. apply ready_once in Hr2. exact Hr2.
Qed.

Lemma for_each_ready {A} (key : A -> bytes) (body : A -> M (ChainTxMgr D (logged W) V N) unit) l s :
  (forall x ids s, ready (key x :: ids) s -> key x ∉ ids -> after (ready ids) (body x s)) ->
  NoDup (key <$> l) -> ready (key <$> l) s -> after tracked (for_each body l s).
Proof.
  intros Hb. revert s. induction l as [|x l IH]; intros s Hn Hr; [by destruct Hr|].
  rewrite fmap_cons in Hn, Hr. apply NoDup_cons in Hn as [Hx Hn].
  specialize (Hb x _ s Hr Hx). cbn [for_each]. rewrite bind_eq.
  destruct (body x s) as [[a|e|w] s']; cbn in *; [by apply IH|by destruct Hb|done].
Qed.

(** the filter keeps, in order, the elements that are not tracked *)
Lemma FilterMints_ready l (s : ChainTxMgr D (logged W) V N) :
  db_ok (mgrdb s) ->
  exists l' s', FilterMints l s = (Ok l', s') /\ same s s' /\ l' `sublist_of` l /\
    forall m, m ∈ l' -> m_BtcTxId m ∉ refs s.
Proof.
  revert s. induction l as [|m l IH]; intros s Hd.
  - exists [], s. split_and!; try done. intros m Hm. by apply not_elem_of_nil in Hm.
  - cbn [FilterMints]. rewrite bind_eq. unfold try. rewrite on_mgrdb_eq, law_tx_ref by done.
    set (s1 := {| cfg := _ |}). assert (s1 = s) as -> by (by destruct s). rewrite bind_eq.
    destruct (IH s Hd) as (l' & s' & -> & Hs & Hsub & Hr).
    destruct (Nat.eqb_spec (length (filter (fun tx => RefIdentifier tx = m_BtcTxId m) (txs (mgrdb s)))) 0)
      as [H0|H0]; eexists _, s'; (split; [reflexivity|]); (split; [done|]).
    + split; [by apply sublist_skip|]. intros m' [->|Hm']%elem_of_cons; [|by apply Hr].
      apply nil_length_inv in H0. intros (tx & Heq & Htx)%list_elem_of_fmap.
      assert (tx ∈ filter (fun tx => RefIdentifier tx = m_BtcTxId m) (txs (mgrdb s))) as Hin
        by (by apply list_elem_of_filter). rewrite H0 in Hin. by apply not_elem_of_nil in Hin.
    + split; [by apply sublist_cons|done].
Qed.
Lemma FilterUnPrepared_ready l (s : ChainTxMgr D (logged W) V N) :
  db_ok (mgrdb s) ->
  exists l' s', FilterUnPrepared l s = (Ok l', s') /\ same s s' /\ l' `sublist_of` l /\
    forall r, r ∈ l' -> RequestTxHash r ∉ refs s.
Proof.
  revert s. induction l as [|m l IH]; intros s Hd.
  - exists [], s. split_and!; try done. intros m Hm. by apply not_elem_of_nil in Hm.
  - cbn [FilterUnPrepared]. rewrite bind_eq. unfold try. rewrite on_mgrdb_eq, law_tx_ref by done.
    set (s1 := {| cfg := _ |}). assert (s1 = s) as -> by (by destruct s). rewrite bind_eq.
    destruct (IH s Hd) as (l' & s' & -> & Hs & Hsub & Hr).
    destruct (Nat.eqb_spec (length (filter (fun tx => RefIdentifier tx = RequestTxHash m) (txs (mgrdb s)))) 0)
      as [H0|H0]; eexists _, s'; (split; [reflexivity|]); (split; [done|]).
    + split; [by apply sublist_skip|]. intros m' [->|Hm']%elem_of_cons; [|by apply Hr].
      apply nil_length_inv in H0. intros (tx & Heq & Htx)%list_elem_of_fmap.
      assert (tx ∈ filter (fun tx => RefIdentifier tx = RequestTxHash m) (txs (mgrdb s))) as Hin
        by (by apply list_elem_of_filter). rewrite H0 in Hin. by apply not_elem_of_nil in Hin.
    + split; [by apply sublist_cons|done].
Qed.

(** the queries of the state database return distinct keys *)
Lemma GetUnMinted_NoDup d :
  StateDB_inv d -> forall l, result GetUnMinted d = Ok l -> NoDup (m_BtcTxId <$> l).
Proof.
  intros (_ & Ht & _ & Hw & _) l. unfold result, GetUnMinted, prepare, exec, may_fail. mstep.
  destruct (db_fault d Preparing _); [done|]. mstep.
  destruct (db_fault d Executing _); [done|]. mstep. intros [= <-].
  apply mintTable_spec in Ht as (_ & Hn & _).
  apply (NoDup_fmap_1 hex_encode).
  assert (hex_encode <$> (m_BtcTxId <$> ((fun row => sqlMint_decode (scan_unminted row)) <$>
    filter (fun row => mr_mintTxHash row = None) (mint_table d))) =
    mr_btcTxId <$> filter (fun row => mr_mintTxHash row = None) (mint_table d)) as ->.
  { rewrite <-!list_fmap_compose. apply list_fmap_ext. intros i row Hi. cbn.
    apply list_elem_of_lookup_2, list_elem_of_filter in Hi as [_ Hi].
    rewrite Forall_forall in Hw. destruct (Hw row Hi) as ((h & Hh & ->) & _).
    change (hex_encode (HexStrToBytes32 ("0x" +:+ hex_encode h)) = hex_encode h).
    by rewrite HexStrToBytes32_0x. }
  eapply sublist_NoDup; [exact Hn|]. apply fmap_sublist, sublist_filter.
Qed.
Lemma mapM_read_redeem (t : list redeem_row) l :
  Forall redeem_row_wf t -> Forall (fun r => redeem_check r = true) t ->
  mapM read_redeem t = Ok l -> hex_encode <$> (RequestTxHash <$> l) = row_requestTxHash <$> t.
Proof.
  intros Hw. revert l. induction Hw as [|row t Hrow Hw IH]; intros l Hc.
  - by intros [= <-].
  - apply Forall_cons in Hc as [Hc Ht]. cbn.
    destruct (read_redeem_Ok row Hrow Hc) as (r & -> & _ & _ & Hk & _). cbn.
    destruct (mapM read_redeem t) as [l'|e|w]; cbn; [|done..]. intros [= <-].
    rewrite !fmap_cons, (IH l' Ht eq_refl). f_equal. by rewrite <-Hk, hash_key_hex.
Qed.
Lemma GetRedeemsByStatus_NoDup d st :
  StateDB_inv d -> forall l, result (GetRedeemsByStatus st) d = Ok l -> NoDup (RequestTxHash <$> l).
Proof.
  intros (Ht & _ & Hw & _) l. unfold result, GetRedeemsByStatus, prepare, exec, may_fail. mstep.
  destruct (db_fault d Preparing _); [done|]. mstep.
  destruct (db_fault d Executing _); [done|]. mstep. intros Hm. cbn [fst] in Hm.
  apply redeemTable_spec in Ht as (Hc & Hn & _). apply (NoDup_fmap_1 hex_encode).
  rewrite (mapM_read_redeem _ _) in Hm || apply mapM_read_redeem in Hm.
  - rewrite Hm. eapply sublist_NoDup; [exact Hn|]. apply fmap_sublist, sublist_filter.
  - rewrite Forall_forall in *. intros row [_ Hr]%list_elem_of_filter. auto.
  - rewrite Forall_forall in *. intros row [_ Hr]%list_elem_of_filter. auto.
Qed.

Lemma on_statedb_run {A} (m : M StateDB A) (s : ChainTxMgr D (logged W) V N) :
  result (on_statedb m) s = result m (statedb s).
Proof. unfold result, on_statedb, zoom. by destruct (m (statedb s)). Qed.

Lemma procedureMint_tracked s :
  StateDB_inv (statedb s) -> tracked s -> after tracked (procedureMint s).
Proof.
  intros Hinv Ht. unfold procedureMint. rewrite bind_eq.
  pose proof (quiet_statedb GetUnMinted s) as Hq. pose proof (on_statedb_run GetUnMinted s) as Hr.
  unfold QueryMints. unfold run, result in Hq, Hr.
  destruct (on_statedb GetUnMinted s) as [o s1]; cbn [fst snd] in *. apply (tracked_same _ _ Hq) in Ht as Ht1.
  destruct o as [l|e|w]; [|exact Ht1|exact (tracked_once _ Ht1)].
  pose proof (GetUnMinted_NoDup _ Hinv l (eq_sym Hr)) as Hn. rewrite bind_eq.
  destruct (FilterMints_ready l s1) as (l' & s2 & -> & Hs & Hsub & Hready); [apply Ht1|].
  apply (for_each_ready m_BtcTxId mint_one).
  - intros. by apply mint_one_ready.
  - eapply sublist_NoDup; [exact Hn|by apply fmap_sublist].
  - apply (ready_same _ s1); [done|]. split; [done|].
    intros id (m & -> & Hm)%list_elem_of_fmap. by apply Hready.
Qed.
Lemma procedurePrepare_tracked done s :
  StateDB_inv (statedb s) -> tracked s -> after tracked (procedurePrepare done s).
Proof.
  intros Hinv Ht. unfold procedurePrepare. rewrite bind_eq. unfold QueryUnPrepared.
  pose proof (quiet_statedb (GetRedeemsByStatus RedeemStatusRequested) s) as Hq.
  pose proof (on_statedb_run (GetRedeemsByStatus RedeemStatusRequested) s) as Hr. unfold run, result in Hq, Hr.
  destruct (on_statedb (GetRedeemsByStatus _) s) as [o s1]; cbn [fst snd] in *. apply (tracked_same _ _ Hq) in Ht as Ht1.
  destruct o as [l|e|w]; [|exact Ht1|exact (tracked_once _ Ht1)].
  pose proof (GetRedeemsByStatus_NoDup _ _ Hinv l (eq_sym Hr)) as Hn. rewrite bind_eq.
  destruct (FilterUnPrepared_ready l s1) as (l' & s2 & -> & Hs & Hsub & Hready); [apply Ht1|].
  apply (for_each_ready RequestTxHash (prepare_one done)).
  - intros. by apply prepare_one_ready.
  - eapply sublist_NoDup; [exact Hn|by apply fmap_sublist].
  - apply (ready_same _ s1); [done|]. split; [done|].
    intros id (m & -> & Hm)%list_elem_of_fmap. by apply Hready.
Qed.

(** updates of a tracked transaction keep its identifiers *)
Lemma tracked_update s d' id f :
  (forall tx, TxIdentifier (f tx) = TxIdentifier tx /\ RefIdentifier (f tx) = RefIdentifier tx) ->
  txs d' = update_rows TxIdentifier (txs (mgrdb s)) id f -> db_ok d' -> tracked s ->
  tracked {| cfg := cfg s; statedb := statedb s; mgrdb := d'; chainWorker := chainWorker s;
             btcUTXOResponder := btcUTXOResponder s; schnorrParty := schnorrParty s |}.
Proof.
  intros Hf Heq Hd (_ & Hids & Hml & Hpl & Hn). unfold tracked, refs in *.
  cbn [mgrdb chainWorker]. rewrite Heq.
  assert (TxIdentifier <$> update_rows TxIdentifier (txs (mgrdb s)) id f =
          TxIdentifier <$> txs (mgrdb s)) as -> by (apply update_rows_keys; apply Hf).
  assert (RefIdentifier <$> update_rows TxIdentifier (txs (mgrdb s)) id f =
          RefIdentifier <$> txs (mgrdb s)) as ->; [|done].
  unfold update_rows. rewrite <-list_fmap_compose. apply list_fmap_ext.
  intros i tx _. cbn. case_decide; [apply Hf|done].
Qed.
Lemma tracked_UpdateTxStatus s id st :
  tracked s -> exists s', on_mgrdb (UpdateTxStatus id st) s = (Ok tt, s') /\ tracked s' /\
    txs (mgrdb s') = update_rows TxIdentifier (txs (mgrdb s)) id (set_status st) /\
    chainWorker s' = chainWorker s /\ cfg s' = cfg s.
Proof.
  intros Ht. rewrite on_mgrdb_eq. destruct (law_tx_set_status (mgrdb s) id st) as (d' & -> & Hd & Hok);
    [apply Ht|]. eexists. split; [reflexivity|]. split; [|done].
  by apply (tracked_update s d' id (set_status st)).
Qed.
Lemma mark_one_tracked tx s : tracked s -> tracked (run (mark_one tx) s).
Proof.
  intros Ht. unfold mark_one. rewrite run_bind_try.
  assert (quiet (on_chain (GetTxStatus (TxIdentifier tx)) : M (ChainTxMgr D (logged W) V N) _)) as Hq.
  { apply quiet_pass. intros w. apply law_status. }
  specialize (Hq s). unfold run in Hq.
  destruct (on_chain (GetTxStatus _) s) as [[[st ln]|e|w] s1]; cbn [snd] in Hq;
    [|by eapply tracked_same..].
  assert (tracked s1) as Ht1 by (by eapply tracked_same). rewrite run_bind_try.
  destruct (tracked_UpdateTxStatus s1 (TxIdentifier tx) st Ht1) as (s2 & -> & Ht2 & _).
  destruct (UtilContains _ st).
  - unfold run. rewrite bind_eq, lift_eq. destruct ln as [n|]; [|exact Ht2]. cbn [BigIntClone].
    change ((?m s2).2) with (run m s2). rewrite run_ignore. unfold run. rewrite on_mgrdb_eq.
    destruct (law_tx_set_found (mgrdb s2) (TxIdentifier tx) n) as (d' & n' & -> & Hd & Heq & _);
      [apply Ht2|]. by apply (tracked_update s2 d' (TxIdentifier tx) (set_found n')).
  - rewrite run_bind_try. pose proof (quiet_latest s2) as Hq2. unfold run in Hq2.
    destruct (on_chain GetLatestLedgerNumber s2) as [[l|e|w] s3]; cbn [snd] in Hq2;
      assert (tracked s3) as Ht3 by (by eapply tracked_same); [|exact Ht3..].
    destruct l as [l|]; [|exact Ht3]. destruct (SentBlockchainLedgerNumber tx) as [n|]; [|exact Ht3].
    unfold run. rewrite bind_eq, gets_eq. case_match; [|exact Ht3].
    change ((?m s3).2) with (run m s3). rewrite run_ignore. unfold run.
    destruct (tracked_UpdateTxStatus s3 (TxIdentifier tx) Timeout Ht3) as (s4 & -> & Ht4 & _). done.
Qed.

Lemma procedureMarkTxStatus_tracked s : tracked s -> tracked (run procedureMarkTxStatus s).
Proof.
  intros Ht. unfold procedureMarkTxStatus, run. rewrite bind_eq, on_mgrdb_eq.
  rewrite law_tx_status by (apply Ht || done). set (s1 := {| cfg := _ |}).
  assert (s1 = s) as -> by (by destruct s).
  generalize (filter (fun tx => TxStatus tx ∈ [Limbo; Pending]) (txs (mgrdb s))). intros l.
  revert s Ht. induction l as [|tx l IH]; intros s Ht; [done|]. cbn [for_each]. rewrite bind_eq.
  pose proof (mark_one_tracked tx s Ht) as Ht'. unfold run in Ht'.
  destruct (mark_one tx s) as [[a|e|w] s2]; cbn [snd] in *; [by apply IH|done..].
Qed.

(** *** The life of the process *)
(** ticks of [Loop], up to the first in which the process dies; the state database may have changed
    in any way before each *)
Definition with_db (d : StateDB) (s : ChainTxMgr D (logged W) V N) : ChainTxMgr D (logged W) V N :=
  {| cfg := cfg s; statedb := d; mgrdb := mgrdb s; chainWorker := chainWorker s;
     btcUTXOResponder := btcUTXOResponder s; schnorrParty := schnorrParty s |}.
Fixpoint ticks (l : list (StateDB * (bytes -> bool))) (s : ChainTxMgr D (logged W) V N)
    : bool * ChainTxMgr D (logged W) V N :=
  match l with
  | [] => (true, s)
  | (d, done) :: l =>
      match Loop_tick done (with_db d s) with
      | (Panic _, s') => (false, s')
      | (_, s') => ticks l s'
      end
  end.

Lemma after_ignore {A} P (m : M (ChainTxMgr D (logged W) V N) A) s :
  after P (m s) -> after P (ignore m s).
Proof. intros H. unfold ignore. apply after_bind_try. by destruct (m s) as [[a|e|w] s']. Qed.
(** an ignored computation that does not die goes on *)
Lemma after_ignore_bind {A B} (P Q : _ -> Prop) (m : M (ChainTxMgr D (logged W) V N) A) (f : M _ B) s :
  after P (m s) -> (forall s', (ignore m s).2 = s' -> P s' -> after Q (f s')) -> after Q ((ignore m ;; f) s).
Proof.
  intros H%after_ignore Hf. rewrite bind_eq. specialize (Hf _ eq_refl).
  assert (forall e s', ignore m s <> (Err e, s')) as Hne.
  { intros e s'. unfold ignore. rewrite bind_eq. unfold try. by destruct (m s) as [[a|e'|w] s1]. }
  destruct (ignore m s) as [[[]|e|w] s']; cbn in *; [by apply Hf|by destruct (Hne e s')|done].
Qed.
Lemma tick_tracked done s :
  StateDB_inv (statedb s) -> tracked s -> after tracked (Loop_tick done s).
Proof.
  intros Hinv Ht. unfold Loop_tick. destruct (keeps_procedures (W := logged W) (V := V) (N := N) (statedb s) done) as [K1 K2].
  apply (after_ignore_bind tracked); [by apply procedureMint_tracked|intros s1 Hs1 Ht1].
  pose proof (keeps_ignore _ _ K1 s eq_refl) as D1. unfold run, db_is in D1. rewrite Hs1 in D1.
  apply (after_ignore_bind tracked); [apply procedurePrepare_tracked; [by rewrite D1|done]|intros s2 _ Ht2].
  apply after_ignore. pose proof (procedureMarkTxStatus_tracked s2 Ht2) as Ht3. unfold run in Ht3.
  destruct (procedureMarkTxStatus s2) as [[a|e|w] s3]; cbn in *; [done|done|by apply tracked_once].
Qed.
Lemma ticks_tracked l s : Forall (fun p => StateDB_inv p.1) l -> tracked s ->
  let '(alive, s') := ticks l s in once s' /\ (alive = true -> tracked s').
Proof.
  intros Hl. revert s. induction Hl as [|[d dn] l Hd Hl IH]; intros s Ht; cbn [ticks]; [split; [by apply tracked_once|done]|].
  pose proof (tick_tracked dn (with_db d s) Hd Ht) as H.
  destruct (Loop_tick dn (with_db d s)) as [[a|e|w] s']; cbn [after] in H; [by apply IH|by apply IH|done].
Qed.


(** *** The submissions so far are never taken back *)
Definition logs (mints : list MintParameter) (s : ChainTxMgr D (logged W) V N) : Prop :=
  mints `prefix_of` mint_log (chainWorker s).
Lemma logs_pass {A} k (m : M W A) : keeps (logs k) (on_chain (pass m)).
Proof. intros s Hs. unfold run, on_chain, pass, zoom. by destruct (m (lw (chainWorker s))). Qed.
Lemma logs_mint k mp : keeps (logs k) (CallMint mp).
Proof.
  intros s Hs. unfold run, CallMint, on_chain, zoom, logs in *. cbn. destruct (DoMint mp (lw (chainWorker s))) as [o w]. cbn.
  destruct (is_ok o); [by apply prefix_app_r|done].
Qed.
Lemma logs_prepare k pp : keeps (logs k) (CallPrepare pp).
Proof. intros s Hs. unfold run, CallPrepare, on_chain, zoom, logs in *. cbn. by destruct (DoPrepare pp (lw (chainWorker s))). Qed.
Lemma logs_mgrdb {A} k (m : M D A) : keeps (logs k) (on_mgrdb m).
Proof. intros s Hs. unfold run. rewrite on_mgrdb_eq. by destruct (m (mgrdb s)). Qed.
Lemma logs_quiet {A} k (m : M (ChainTxMgr D (logged W) V N) A) : quiet m -> keeps (logs k) m.
Proof. intros Hm s Hs. destruct (Hm s) as (_ & _ & H & _). unfold logs. by rewrite H. Qed.
#[local] Hint Resolve logs_mint logs_prepare logs_mgrdb : golib.
Lemma logs_ledger k n : keeps (logs k) (ledger_or_latest n).
Proof. destruct n; [apply keeps_ret|]. apply keeps_bind; [apply keeps_try, logs_pass|auto with golib]. Qed.
Lemma logs_track k tx id n : keeps (logs k) (track tx id n).
Proof.
  unfold track, setMonitoredTx. apply keeps_bind; [apply logs_ledger|intros m]. apply keeps_ignore.
  apply keeps_bind; [auto with golib|intros]. auto with golib.
Qed.
Lemma logs_mint_one k m : keeps (logs k) (mint_one m).
Proof.
  unfold mint_one. apply keeps_bind; [apply keeps_try, logs_quiet, quiet_IsDoubleMint|intros [e|[]]]; auto with golib.
  apply keeps_bind; [apply keeps_try, logs_quiet, quiet_PrepareMint|intros [e|mp]]; auto with golib.
  apply keeps_bind; [auto with golib|intros [e|[tx n]]]; auto with golib. apply (logs_track k tx (mp_BtcTxId mp) n).
Qed.
Lemma logs_prepare_one k done r : keeps (logs k) (prepare_one done r).
Proof.
  unfold prepare_one. apply keeps_bind; [apply keeps_try, logs_quiet, quiet_IsDoublePrepare|intros [e|[]]]; auto with golib.
  apply keeps_bind; [apply keeps_try, logs_quiet, quiet_PreparePrepare|intros [e|pp]]; auto with golib.
  apply keeps_bind; [auto with golib|intros [e|[tx n]]]; auto with golib. apply (logs_track k tx (pp_RequestTxHash pp) n).
Qed.
Lemma logs_mark_one k tx : keeps (logs k) (mark_one tx).
Proof.
  unfold mark_one. apply keeps_bind; [apply keeps_try, logs_pass|intros [e|[st n]]; [auto with golib|]].
  apply keeps_bind; [auto with golib|intros [e|u]; [auto with golib|]]. case_match; keeps_auto.
  { apply keeps_try, logs_pass. }
  repeat case_match; keeps_auto. case_match; auto with golib.
Qed.
Lemma logs_tick k done : keeps (logs k) (Loop_tick done).
Proof.
  assert (forall l, keeps (logs k) (FilterMints l)) as H1.
  { induction l as [|m l IH]; cbn [FilterMints]; keeps_auto. repeat case_match; auto with golib. }
  assert (forall l, keeps (logs k) (FilterUnPrepared l)) as H2.
  { induction l as [|m l IH]; cbn [FilterUnPrepared]; keeps_auto. repeat case_match; auto with golib. }
  unfold Loop_tick, procedureMint, procedurePrepare, procedureMarkTxStatus, QueryMints, QueryUnPrepared.
  apply keeps_bind; [apply keeps_ignore|intros _; apply keeps_bind; [apply keeps_ignore|intros _; apply keeps_ignore]].
  - apply keeps_bind; [apply logs_quiet, quiet_statedb|intros]. apply keeps_bind; [apply H1|]. intros. apply keeps_for_each, logs_mint_one.
  - apply keeps_bind; [apply logs_quiet, quiet_statedb|intros]. apply keeps_bind; [apply H2|]. intros. apply keeps_for_each, logs_prepare_one.
  - apply keeps_bind; [auto with golib|intros]. apply keeps_for_each, logs_mark_one.
Qed.
Lemma ticks_log l s : mint_log (chainWorker s) `prefix_of` mint_log (chainWorker (ticks l s).2).
Proof.
  revert s. induction l as [|[d dn] l IH]; intros s; cbn [ticks]; [done|].
  pose proof (logs_tick (mint_log (chainWorker s)) dn (with_db d s) ltac:(by unfold logs)) as H. unfold run, logs in H.
  destruct (Loop_tick dn (with_db d s)) as [[a|e|w] s']; cbn [snd] in *; [etrans; [exact H|apply IH]..|exact H].
Qed.
End once.

(** ** Following a transaction to its final status *)
Section mark.
Context {D W V N : Type} `{DL : ChainTxMgrDBLaws D} `{MW : MgrWorker W}.
Implicit Types s : ChainTxMgr D W V N.

Lemma on_mgrdb_run {A} (m : M D A) s :
  on_mgrdb m s = let '(o, d) := m (mgrdb s) in
    (o, {| cfg := cfg s; statedb := statedb s; mgrdb := d; chainWorker := chainWorker s;
           btcUTXOResponder := btcUTXOResponder s; schnorrParty := schnorrParty s |}).
Proof. reflexivity. Qed.
Lemma on_chain_run {A} (m : M W A) s :
  on_chain m s = let '(o, w) := m (chainWorker s) in
    (o, {| cfg := cfg s; statedb := statedb s; mgrdb := mgrdb s; chainWorker := w;
           btcUTXOResponder := btcUTXOResponder s; schnorrParty := schnorrParty s |}).
Proof. reflexivity. Qed.
Lemma update_rows_twice (t : list MonitoredTx) id f g :
  (forall tx, TxIdentifier (f tx) = TxIdentifier tx) ->
  update_rows TxIdentifier (update_rows TxIdentifier t id f) id g =
  update_rows TxIdentifier t id (fun tx => g (f tx)).
Proof.
  intros Hf. unfold update_rows. rewrite <-list_fmap_compose. apply list_fmap_ext.
  intros i tx _. cbn. destruct (decide (TxIdentifier tx = id)) as [<-|].
  - by rewrite decide_True.
  - by rewrite decide_False.
Qed.

(** The status of a pending transaction follows the chain: a transaction that the chain
    reports as included gets that status and the ledger number it was found at, and is
    never timed out; any other one gets the reported status, or [timeout] exactly when
    its time limit has passed; no other transaction changes. *)
Theorem mark_one_spec s tx st ln w1 :
  db_ok (mgrdb s) -> GetTxStatus (TxIdentifier tx) (chainWorker s) = (Ok (st, ln), w1) ->
  (st = Success \/ st = Reverted -> forall n, ln = Some n -> 0 <= n < 2 ^ 63 ->
   exists s', mark_one tx s = (Ok tt, s') /\ db_ok (mgrdb s') /\
     txs (mgrdb s') = update_rows TxIdentifier (txs (mgrdb s)) (TxIdentifier tx)
                        (fun t => set_found (Some n) (set_status st t))) /\
  (st <> Success -> st <> Reverted -> forall latest sent w2,
   GetLatestLedgerNumber w1 = (Ok (Some latest), w2) -> SentBlockchainLedgerNumber tx = Some sent ->
   exists s', mark_one tx s = (Ok tt, s') /\ db_ok (mgrdb s') /\
     txs (mgrdb s') = update_rows TxIdentifier (txs (mgrdb s)) (TxIdentifier tx)
       (set_status (if sent + TimeoutTxLedgerNumber (cfg s) <=? latest then Timeout else st))).
Proof.
  intros Hd Hst. unfold mark_one.
  destruct (law_tx_set_status (mgrdb s) (TxIdentifier tx) st Hd) as (d1 & Hu & Ht1 & Hd1).
  pose proof (UtilContains_spec [Success; Reverted] st) as Hc.
  rewrite !elem_of_cons, elem_of_nil in Hc. split.
  - intros Hin n -> Hn. rewrite bind_eq. unfold try. rewrite on_chain_run, Hst, bind_eq.
    rewrite on_mgrdb_run. cbn [mgrdb]. rewrite Hu. rewrite (proj2 Hc) by tauto.
    rewrite bind_eq, lift_eq. cbn [BigIntClone]. unfold ignore. rewrite bind_eq. unfold try.
    rewrite on_mgrdb_run. cbn [mgrdb].
    destruct (law_tx_set_found d1 (TxIdentifier tx) n Hd1) as (d2 & n' & -> & Hd2 & Ht2 & Hn').
    eexists. split; [reflexivity|]. split; [done|]. cbn [mgrdb].
    rewrite Ht2, Ht1, update_rows_twice by done. by rewrite Hn'.
  - intros N1 N2 latest sent w2 Hl Hs. rewrite bind_eq. unfold try. rewrite on_chain_run, Hst, bind_eq.
    rewrite on_mgrdb_run. cbn [mgrdb]. rewrite Hu.
    destruct (UtilContains [Success; Reverted] st); [destruct (proj1 Hc eq_refl); tauto|].
    rewrite bind_eq, on_chain_run. cbn [chainWorker]. rewrite Hl, Hs. rewrite bind_eq, gets_eq.
    cbn [cfg]. destruct (sent + _ <=? latest).
    + unfold ignore. rewrite bind_eq. unfold try. rewrite on_mgrdb_run. cbn [mgrdb].
      destruct (law_tx_set_status d1 (TxIdentifier tx) Timeout Hd1) as (d2 & -> & Ht2 & Hd2).
      eexists. split; [reflexivity|]. split; [done|]. cbn [mgrdb].
      by rewrite Ht2, Ht1, update_rows_twice.
    + eexists. split; [reflexivity|]. by split.
Qed.

(** A submission whose ledger number stays unknown is not tracked: the process panics. *)
Lemma unknown_ledger_panics `{SG : SchnorrAsyncSigner N} mp tx st s :
  SetMintToBeMonitored mp tx None st s = (Panic "nil pointer dereference", s).
Proof. reflexivity. Qed.

(** another transaction keeps its row *)
Definition has_tx (tx : MonitoredTx) s : Prop := db_ok (mgrdb s) /\ tx ∈ txs (mgrdb s).
Lemma update_rows_other (t : list MonitoredTx) id f tx :
  TxIdentifier tx <> id -> tx ∈ t -> tx ∈ update_rows TxIdentifier t id f.
Proof.
  intros Hne Hin. unfold update_rows. apply list_elem_of_fmap. exists tx.
  by rewrite decide_False.
Qed.
Lemma keeps_has_tx_chain {A} tx (m : M W A) : keeps (has_tx tx) (on_chain m : M (ChainTxMgr D W V N) A).
Proof. intros s Hs. unfold run. rewrite on_chain_run. by destruct (m (chainWorker s)). Qed.
Lemma keeps_has_tx_status tx id st :
  TxIdentifier tx <> id -> keeps (has_tx tx) (on_mgrdb (UpdateTxStatus id st) : M (ChainTxMgr D W V N) _).
Proof.
  intros Hne s [Hd Hin]. unfold run. rewrite on_mgrdb_run.
  destruct (law_tx_set_status (mgrdb s) id st Hd) as (d' & -> & Ht & Hd'). split; [done|].
  cbn [snd mgrdb]. rewrite Ht. by apply update_rows_other.
Qed.
Lemma keeps_has_tx_found tx id n :
  TxIdentifier tx <> id -> keeps (has_tx tx) (on_mgrdb (UpdateFound id (Some n)) : M (ChainTxMgr D W V N) _).
Proof.
  intros Hne s [Hd Hin]. unfold run. rewrite on_mgrdb_run.
  destruct (law_tx_set_found (mgrdb s) id n Hd) as (d' & n' & -> & Hd' & Ht & _). split; [done|].
  cbn [snd mgrdb]. rewrite Ht. by apply update_rows_other.
Qed.
Lemma mark_one_other tx tx' :
  TxIdentifier tx <> TxIdentifier tx' -> keeps (has_tx tx) (mark_one tx').
Proof.
  intros Hne. unfold mark_one. apply keeps_bind; [apply keeps_try, keeps_has_tx_chain|].
  intros [e|[st ln]]; [apply keeps_ret|].
  apply keeps_bind; [by apply keeps_try, keeps_has_tx_status|]. intros [e|u]; [apply keeps_ret|].
  destruct (UtilContains _ st).
  - apply keeps_bind; [apply keeps_lift|intros n]. by apply keeps_ignore, keeps_has_tx_found.
  - apply keeps_bind; [apply keeps_try, keeps_has_tx_chain|]. intros l.
    repeat (case_match; try apply keeps_ret). apply keeps_bind; [apply keeps_gets|intros n].
    case_match; [by apply keeps_ignore, keeps_has_tx_status|apply keeps_ret].
Qed.

(** A transaction that has reached a final status keeps its row for ever: following the
    pending transactions never changes one that is neither [limbo] nor [pending]. *)
Theorem final_status_stable s tx :
  db_ok (mgrdb s) -> tx ∈ txs (mgrdb s) -> TxStatus tx <> Limbo -> TxStatus tx <> Pending ->
  tx ∈ txs (mgrdb (run procedureMarkTxStatus s)).
Proof.
  intros Hd Hin N1 N2. unfold procedureMarkTxStatus, run. rewrite bind_eq, on_mgrdb_run.
  rewrite law_tx_status by done. set (s1 := {| cfg := _ |}).
  assert (s1 = s) as -> by (by destruct s).
  assert (keeps (has_tx tx)
    (for_each mark_one (filter (fun tx => TxStatus tx ∈ [Limbo; Pending]) (txs (mgrdb s))))) as Hk;
    [|by destruct (Hk s (conj Hd Hin))].
  assert (forall l, (forall tx', tx' ∈ l -> TxIdentifier tx <> TxIdentifier tx') ->
    keeps (has_tx tx) (for_each mark_one l)) as Hl.
  { induction l as [|x l IH]; intros Hx; [by intros s'|]. cbn [for_each]. apply keeps_bind.
    - apply mark_one_other, Hx. by left.
    - intros _. apply IH. intros tx' Htx'. apply Hx. by right. }
  apply Hl. intros tx' [Hst Hin']%list_elem_of_filter Heq.
  pose proof (find_row_elem TxIdentifier _ _ (law_tx_unique _ Hd) Hin) as F1.
  pose proof (find_row_elem TxIdentifier _ _ (law_tx_unique _ Hd) Hin') as F2.
  rewrite <-Heq, F1 in F2. injection F2 as <-. rewrite !elem_of_cons, elem_of_nil in Hst. tauto.
Qed.
End mark.

(** ** A concrete chain *)
Record toy_chain := { toy_sent : list bytes; toy_height : Z }.
Definition toy_fresh (l : list bytes) : bytes := zeros (S (foldr (fun b n => length b + n)%nat 0%nat l)).
Definition toy_submit (number : option Z) : M toy_chain (bytes * option Z) := fun c =>
  let id := toy_fresh (toy_sent c) in
  (Ok (id, number), {| toy_sent := toy_sent c ++ [id]; toy_height := toy_height c |}).
(** it does not know the ledger number of a preparation *)
#[global] Instance toy_worker : MgrWorker toy_chain := {|
  GetLatestLedgerNumber c := (Ok (Some (wrap 63 (toy_height c))), c);
  IsMinted _ c := (Ok false, c); DoMint _ := toy_submit (Some 100);
  IsPrepared _ c := (Ok false, c); DoPrepare _ := toy_submit None;
  GetTxStatus _ c := (Ok (Success, Some 101), c) |}.
Lemma toy_fresh_new l : toy_fresh l ∉ l.
Proof.
  intros Hin. assert (forall b, b ∈ l -> (length b <= foldr (fun b n => length b + n)%nat 0%nat l)%nat) as Hl.
  { clear. induction l as [|x l IH]; intros b Hb; [by apply not_elem_of_nil in Hb|].
    apply elem_of_cons in Hb as [->|Hb]; cbn; [lia|]. specialize (IH b Hb). lia. }
  specialize (Hl _ Hin).
  assert (length (toy_fresh l) = S (foldr (fun b n => length b + n)%nat 0%nat l)) as He
    by apply length_replicate. lia.
Qed.
Lemma toy_submit_law n w tx n' w' : number_ok n -> toy_submit n w = (Ok (tx, n'), w') ->
  (tx ∉ toy_sent w) /\ (tx ∈ toy_sent w') /\ number_ok n'.
Proof.
  intros Hn [= <- <- <-]. split; [apply toy_fresh_new|]. split; [|done]. cbn. apply elem_of_app. right. by left.
Qed.
Lemma toy_submit_keeps n w : toy_sent w ⊆ toy_sent (run (toy_submit n) w).
Proof. intros id Hid. cbn. apply elem_of_app. by left. Qed.
#[global] Program Instance toy_worker_laws : MgrWorkerLaws toy_chain := {| submitted := toy_sent |}.
Next Obligation. intros w mp tx n w'. by apply toy_submit_law. Qed.
Next Obligation. intros. apply toy_submit_keeps. Qed.
Next Obligation. intros w mp tx n w'. by apply toy_submit_law. Qed.
Next Obligation. intros. apply toy_submit_keeps. Qed.
Next Obligation. intros w n w' [= <- <-]. cbn. apply wrap_bounds. lia. Qed.
Next Obligation. done. Qed.
Next Obligation. done. Qed.
Next Obligation. done. Qed.
Next Obligation. done. Qed.
#[global] Instance toy_responder : BtcUTXOResponder unit := fun _ _ s =>
  (Ok [{| BtcTxId := sample_hash 3; BtcIdx := 1 |}], s).
#[global] Instance toy_signer : SchnorrAsyncSigner unit := fun _ s => (Ok tt, s).

Definition toy_mgr {W} (w : W) : ChainTxMgr SQLiteChainTxMgrDB W unit unit := {|
  cfg := {| TimeoutTxLedgerNumber := 50 |}; statedb := sample_db; mgrdb := sample_txdb;
  chainWorker := w; btcUTXOResponder := tt; schnorrParty := tt |}.
Definition toy_logged : logged toy_chain :=
  {| lw := {| toy_sent := []; toy_height := 200 |}; mint_log := []; prepare_log := [] |}.
Lemma toy_tracked : tracked (toy_mgr toy_logged).
Proof.
  unfold tracked. split_and!; [exact sample_txdb_ok|..]; try constructor;
    intros x Hx; by apply not_elem_of_nil in Hx.
Qed.
(** the database with one deposit that waits to be minted *)
Definition toy_db : StateDB := run (UpdateMint sample_mint) sample_db.
Lemma toy_db_inv : StateDB_inv toy_db.
Proof. apply (keeps_UpdateMint sample_mint); [done|exact sample_db_inv]. Qed.
Definition toy_pending : ChainTxMgr SQLiteChainTxMgrDB toy_chain unit unit := {|
  cfg := {| TimeoutTxLedgerNumber := 50 |}; statedb := sample_db;
  mgrdb := {| tx_table := [row_of_tx sample_tx]; tx_fault := fun _ => None |};
  chainWorker := {| toy_sent := []; toy_height := 200 |}; btcUTXOResponder := tt; schnorrParty := tt |}.
Lemma toy_pending_ok : db_ok (mgrdb toy_pending).
Proof. split; [done|]. apply NoDup_singleton. Qed.
Lemma mark_one_spec_witness :
  exists s', mark_one sample_tx toy_pending = (Ok tt, s') /\ db_ok (mgrdb s') /\
    txs (mgrdb s') = update_rows TxIdentifier (txs (mgrdb toy_pending)) (TxIdentifier sample_tx)
                       (fun t => set_found (Some 101) (set_status Success t)).
Proof.
  refine (proj1 (mark_one_spec toy_pending sample_tx Success (Some 101) _ toy_pending_ok eq_refl)
    (or_introl eq_refl) 101 eq_refl _). lia.
Defined.
Lemma final_status_stable_witness :
  let done_tx := set_status Success sample_tx in
  let s := toy_pending in
  let s1 := run procedureMarkTxStatus s in
  set_found (Some 101) done_tx ∈ txs (mgrdb s1) /\
  set_found (Some 101) done_tx ∈ txs (mgrdb (run procedureMarkTxStatus s1)).
Proof.
  assert (set_found (Some 101) (set_status Success sample_tx) ∈
    txs (mgrdb (run procedureMarkTxStatus toy_pending))) as H by (vm_compute; by left).
  split; [exact H|]. apply (final_status_stable (run procedureMarkTxStatus toy_pending)); try done.
  vm_compute. split; [done|]. repeat constructor. by intros ?%not_elem_of_nil.
Defined.
