(* ===== verification/ChainTxMgrDue.v ===== *)
(** * ChainTxMgrDue: what is due is submitted (chaintxmgr/mgr.go).

    ChainTxMgr.v shows that nothing is submitted twice; here the other half: on a chain that accepts,
    one procedure submits every deposit that waits and is not tracked, and leaves nothing due; the
    same for the preparation of requested redeems while the vault has outpoints for them. *)
From S2P Require Export ChainTxMgr.

Section due.
Context `{EL : EthLibLaws, GL : GobLaws}.
Context {D W V N : Type} `{DL : ChainTxMgrDBLaws D} `{WL : MgrWorkerLaws W}
  `{UR : BtcUTXOResponder V} `{SG : SchnorrAsyncSigner N}.
Abbreviation Mgr := (ChainTxMgr D (logged W) V N).

(** the deposits that wait for their mint and have no tracked transaction *)
Definition due (s : Mgr) : list Mint := filter (fun m => m_BtcTxId m ∉ refs s) (unminted (statedb s)).
Definition submission_of (m : Mint) : MintParameter :=
  {| mp_BtcTxId := m_BtcTxId m; mp_Receiver := m_Receiver m; mp_Amount := default 0 (m_Amount m) |}.
(** The chain and the signer accept: no identifier of [ids] is known as minted, and every call
    succeeds, with a ledger number that is given or can be read. *)
Definition accepts (ids : list bytes) : Prop :=
  (forall id w, id ∈ ids -> result (IsMinted id) w = Ok false) /\
  (forall mp w, mp_BtcTxId mp ∈ ids -> exists tx n w', DoMint mp w = (Ok (tx, n), w') /\ number_known n w') /\
  (forall req g, result (SignAsync req) g = Ok tt).

Lemma filter_refs (t : list MonitoredTx) r :
  (length (filter (fun tx => RefIdentifier tx = r) t) =? 0)%nat = bool_decide (r ∉ RefIdentifier <$> t).
Proof.
  induction t as [|tx t IH]; [done|]. rewrite filter_cons, fmap_cons. destruct (decide (RefIdentifier tx = r)) as [<-|Hn].
  - rewrite bool_decide_eq_false_2; [done|]. intros H. apply H. by left.
  - rewrite IH. apply bool_decide_ext. rewrite not_elem_of_cons. split; [intros H; split; [congruence|exact H]|by intros [_ ?]].
Qed.
Lemma FilterMints_eq l (s : Mgr) : db_ok (mgrdb s) ->
  FilterMints l s = (Ok (filter (fun m => m_BtcTxId m ∉ refs s) l), s).
Proof.
  intros Hd. induction l as [|m l IH]; [done|]. cbn [FilterMints]. rewrite bind_eq. unfold try.
  rewrite on_mgrdb_eq, law_tx_ref by done.
  set (s1 := {| cfg := _ |}). assert (s1 = s) as -> by (by destruct s). rewrite bind_eq, IH, filter_cons, filter_refs.
  unfold refs. by case_bool_decide; case_decide.
Qed.

(** the two calls before the submission *)
Lemma IsDoubleMint_due m (s : Mgr) : (forall w, result (IsMinted (m_BtcTxId m)) w = Ok false) ->
  exists s1, IsDoubleMint m s = (Ok false, s1) /\ same s s1 /\ statedb s1 = statedb s.
Proof.
  intros H. pose proof (quiet_IsDoubleMint m s) as Hq. specialize (H (lw (chainWorker s))). unfold run in Hq. unfold result in H.
  revert Hq. unfold IsDoubleMint, on_chain, zoom. cbn [IsMinted logged_worker]. unfold pass, zoom.
  destruct (IsMinted (m_BtcTxId m) (lw (chainWorker s))) as [o w]. cbn in H |- *. subst o. eauto.
Qed.
Lemma PrepareMint_due m a (s : Mgr) : m_Amount m = Some a -> (forall req g, result (SignAsync req) g = Ok tt) ->
  exists s1, PrepareMint m s = (Ok (submission_of m), s1) /\ same s s1 /\ statedb s1 = statedb s.
Proof.
  intros Ha H. pose proof (quiet_PrepareMint m s) as Hq. unfold run in Hq. revert Hq.
  unfold PrepareMint, submission_of. rewrite bind_eq, lift_eq, Ha. cbn [BigIntClone].
  rewrite bind_eq, lift_eq. unfold MintParameter_GenerateMsgHash. rewrite mint_packed_eq. cbn [fmap outcome_fmap].
  rewrite bind_eq. unfold on_signer, zoom.
  match goal with |- context [SignAsync ?r (schnorrParty s)] => specialize (H r (schnorrParty s)); unfold result in H;
    destruct (SignAsync r (schnorrParty s)) as [o g] end.
  cbn in H. subst o. rewrite ret_eq. cbn. eauto.
Qed.
Lemma filter_none_of {X} (P : X -> Prop) `{forall x, Decision (P x)} l : (forall x, x ∈ l -> ~ P x) -> filter P l = [].
Proof.
  intros Hl. induction l as [|x l IH]; [done|]. rewrite filter_cons_False by (apply Hl; by left). apply IH.
  intros y Hy. apply Hl. by right.
Qed.
(** one due deposit is submitted and tracked *)
Lemma mint_one_due m a (s : Mgr) : tracked s -> m_BtcTxId m ∉ refs s -> m_Amount m = Some a -> accepts [m_BtcTxId m] ->
  exists s' tx, mint_one m s = (Ok tt, s') /\ statedb s' = statedb s /\ tracked s' /\
    mint_log (chainWorker s') = mint_log (chainWorker s) ++ [submission_of m] /\
    txs (mgrdb s') = txs (mgrdb s) ++ [tx] /\ RefIdentifier tx = m_BtcTxId m /\ TxStatus tx = Pending.
Proof.
  intros Ht Hr Ha (H1 & H2 & H3).
  assert (after (ready []) (mint_one m s)) as Ht'.
  { apply mint_one_ready; [|apply not_elem_of_nil]. split; [done|]. by intros id ->%list_elem_of_singleton. }
  assert (exists s' tx, mint_one m s = (Ok tt, s') /\ statedb s' = statedb s /\
    mint_log (chainWorker s') = mint_log (chainWorker s) ++ [submission_of m] /\
    txs (mgrdb s') = txs (mgrdb s) ++ [tx] /\ RefIdentifier tx = m_BtcTxId m /\ TxStatus tx = Pending)
    as (s' & tx & He & ?); [|exists s', tx; rewrite He in Ht'; destruct Ht' as [Ht' _]; naive_solver].
  unfold mint_one. rewrite bind_eq. destruct (IsDoubleMint_due m s) as (s1 & E1 & S1 & D1).
  { intros w. apply H1. by left. }
  unfold try at 1. rewrite E1. clear E1. rewrite bind_eq. destruct (PrepareMint_due m a s1 Ha H3) as (s2 & E2 & S2 & D2).
  unfold try at 1. rewrite E2. clear E2. pose proof (same_trans _ _ _ S1 S2) as (Hdb & Hsub & Hlog & _).
  rewrite bind_eq. unfold try at 1, CallMint, on_chain, zoom. cbn [DoMint logged_worker].
  destruct (H2 (submission_of m) (lw (chainWorker s2)) (list_elem_of_here _ _)) as (tx & n & w2 & Hdo & Hknown).
  rewrite Hdo. cbn [is_ok]. destruct (law_mint _ _ _ _ _ Hdo) as (Hfresh & _ & Hk). destruct Ht as (Hd & Hids & _).
  match goal with |- context [(ledger_or_latest n ≫= ?f) ?s3] =>
    change ((ledger_or_latest n ≫= f) s3) with (track (D := D) (W := W) (V := V) (N := N) tx (m_BtcTxId m) n s3) end.
  match goal with |- context [track _ _ _ ?s3] => destruct (track_cases tx (m_BtcTxId m) n s3)
    as (s4 & (D4 & _ & _ & L4 & _) & [[_ Hno]|(E4 & _ & row & Htx & _ & Hrow & Hst)]) end.
  { cbn. by rewrite Hdb. }
  { done. }
  { cbn. rewrite Hdb. intros Hin. by apply Hfresh, Hsub, Hids. }
  { by destruct Hno. }
  exists s4, row. split; [exact E4|]. cbn in D4, L4, Htx. rewrite D4, L4, Htx, D2, D1, Hlog, Hdb. by split_and!.
Qed.
Lemma mints_all_due l (s : Mgr) : tracked s -> NoDup (m_BtcTxId <$> l) ->
  (forall m, m ∈ l -> (m_BtcTxId m ∉ refs s) /\ is_Some (m_Amount m)) -> accepts (m_BtcTxId <$> l) ->
  exists s' ts, for_each mint_one l s = (Ok tt, s') /\ statedb s' = statedb s /\
    mint_log (chainWorker s') = mint_log (chainWorker s) ++ (submission_of <$> l) /\
    txs (mgrdb s') = txs (mgrdb s) ++ ts /\ RefIdentifier <$> ts = m_BtcTxId <$> l /\
    Forall (fun tx => TxStatus tx = Pending) ts.
Proof.
  revert s. induction l as [|m l IH]; intros s Ht Hn Hl Hacc.
  { exists s, []. cbn. rewrite !app_nil_r. by split_and!; try constructor. }
  rewrite fmap_cons in Hn. apply NoDup_cons in Hn as [Hm Hn].
  destruct (Hl m (list_elem_of_here _ _)) as [Hr [a Ha]]. destruct Hacc as (H1 & H2 & H3).
  destruct (mint_one_due m a s Ht Hr Ha) as (s1 & tx & E1 & Hdb & Ht1 & Hlog & Htx & Href & Hst).
  { split_and!; [|intros mp w Hi; apply H2|done]; [intros id w Hi; apply H1|]; apply list_elem_of_singleton in Hi as ->; by left. }
  destruct (IH s1 Ht1 Hn) as (s2 & ts & E2 & Hdb2 & Hlog2 & Htx2 & Hrefs & Hall).
  { intros m' Hm'. destruct (Hl m') as [? ?]; [by right|]. split; [|done]. unfold refs. rewrite Htx, fmap_app.
    rewrite not_elem_of_app. split; [done|]. intros Hc%list_elem_of_singleton. rewrite Href in Hc. apply Hm. rewrite <-Hc.
    by apply list_elem_of_fmap_2. }
  { split_and!; [intros id w Hi; apply H1; by right|intros mp w Hi; apply H2; by right|done]. }
  exists s2, (tx :: ts). cbn [for_each]. rewrite bind_eq, E1, E2, Hdb2, Hlog2, Htx2, Hlog, Htx, <-!(assoc_L (++)).
  split_and!; try done; [by rewrite fmap_cons, Href, Hrefs|by constructor].
Qed.

Lemma due_submitted (s : Mgr) :
  StateDB_inv (statedb s) -> db_fault (statedb s) = no_faults -> tracked s -> accepts (m_BtcTxId <$> due s) ->
  exists s', procedureMint s = (Ok tt, s') /\ statedb s' = statedb s /\ due s' = [] /\
    mint_log (chainWorker s') = mint_log (chainWorker s) ++ (submission_of <$> due s) /\
    exists ts, txs (mgrdb s') = txs (mgrdb s) ++ ts /\ RefIdentifier <$> ts = m_BtcTxId <$> due s /\
      Forall (fun tx => TxStatus tx = Pending) ts.
Proof.
  intros Hinv Hf Ht Hacc.
  assert (result GetUnMinted (statedb s) = Ok (unminted (statedb s))) as Hq by (unfold result; by rewrite GetUnMinted_eq).
  destruct (mints_all_due (due s) s) as (s' & ts & Hrun & Hdb & Hlog & Htx & Hr & Hp); [done| | |done|].
  - eapply sublist_NoDup; [by apply (GetUnMinted_NoDup _ Hinv _ Hq)|]. apply fmap_sublist, sublist_filter.
  - intros m [Hm Hin]%list_elem_of_filter. split; [done|]. unfold unminted in Hin.
    apply list_elem_of_fmap in Hin as (row & -> & _). by eexists.
  - exists s'. split; [|split; [done|split; [|by eauto]]].
    + assert (QueryMints s = (Ok (unminted (statedb s)), s)) as Hqm.
      { unfold QueryMints, on_statedb, zoom. rewrite GetUnMinted_eq by done. by destruct s. }
      unfold procedureMint. rewrite bind_eq, Hqm.
      rewrite bind_eq, FilterMints_eq by apply Ht. exact Hrun.
    + unfold due, refs. rewrite Hdb, Htx. apply filter_none_of. intros m Hin Hc. apply Hc. rewrite fmap_app, elem_of_app.
      destruct (decide (m_BtcTxId m ∈ RefIdentifier <$> txs (mgrdb s))) as [?|Hn]; [by left|right].
      rewrite Hr. apply list_elem_of_fmap_2. by apply list_elem_of_filter.
Qed.
(** C9: on a chain that accepts (every call succeeds and the ledger number of a submission is known), every deposit that waits for its mint and has no tracked transaction
    is submitted by the next procedure, once and in the order of the database, with its receiver and
    amount; each submission is tracked as pending; nothing else is submitted, nothing stays due, and
    the state database is left as it was. *)
Theorem due_mints_submitted (s : Mgr) :
  StateDB_inv (statedb s) -> db_fault (statedb s) = no_faults -> tracked s -> accepts (m_BtcTxId <$> due s) ->
  exists s', procedureMint s = (Ok tt, s') /\ statedb s' = statedb s /\ due s' = [] /\
    mint_log (chainWorker s') = mint_log (chainWorker s) ++ (submission_of <$> due s) /\
    exists ts, txs (mgrdb s') = txs (mgrdb s) ++ ts /\ RefIdentifier <$> ts = m_BtcTxId <$> due s /\
      Forall (fun tx => TxStatus tx = Pending) ts.
Proof. apply due_submitted. Qed.

(** ** Redeems *)
(** the redeems of a status; the requested ones, and those of them without a tracked transaction *)
Definition with_status (status : string) (d : StateDB) : list Redeem :=
  match result (GetRedeemsByStatus status) d with Ok l => l | _ => [] end.
Definition waiting : StateDB -> list Redeem := with_status RedeemStatusRequested.
Definition due_redeems (s : Mgr) : list Redeem :=
  filter (fun r => RequestTxHash r ∉ refs s) (waiting (statedb s)).
Definition preparation_of (r : Redeem) (outpoints : list BtcOutpoint) : PrepareParameter := {|
  pp_RequestTxHash := RequestTxHash r; pp_Requester := Requester r; pp_Receiver := Receiver r;
  pp_Amount := default 0 (Amount r); pp_OutpointTxIds := (ConvertOutpoints outpoints).1;
  pp_OutpointIdxs := (ConvertOutpoints outpoints).2; pp_Rx := None; pp_S := None |}.
(** the vault has outpoints for each redeem in turn; these are its answers, and [v'] is what it becomes *)
Fixpoint answers (l : list Redeem) (outs : list (list BtcOutpoint)) (v v' : V) : Prop :=
  match l, outs with
  | [], [] => v' = v
  | r :: l, o :: outs =>
      exists v1, Request (RequestTxHash r) (Amount r) v = (Ok o, v1) /\ o <> [] /\ answers l outs v1 v'
  | _, _ => False
  end.
Definition accepts_redeems (ids : list bytes) : Prop :=
  (forall id w, id ∈ ids -> result (IsPrepared id) w = Ok false) /\
  (forall pp w, pp_RequestTxHash pp ∈ ids -> exists tx n w', DoPrepare pp w = (Ok (tx, n), w') /\ number_known n w') /\
  (forall req g, result (SignAsync req) g = Ok tt).
(** it can be signed for: an amount, and a receiver that can be packed (one that starts with 0x and is not
    hexadecimal ends the process) *)
Definition packable (r : Redeem) : Prop := is_ok (encodeString (Receiver r)) = true.
Definition signable (r : Redeem) : Prop := is_Some (Amount r) /\ packable r.

Lemma read_redeems_ok t : Forall redeem_row_wf t -> Forall (fun row => redeem_check row = true) t ->
  exists l, mapM read_redeem t = Ok l /\ Forall2 (fun row r => read_redeem row = Ok r) t l /\
    Forall (fun r => is_Some (Amount r)) l.
Proof.
  intros Hw. induction Hw as [|row t H1 _ IH]; intros Hc; [by exists []|]. apply Forall_cons in Hc as [H2 Hc].
  destruct (IH Hc) as (l & IHl & IH2 & IHa). destruct (read_redeem_Ok row H1 H2) as (r & Hr & _ & _ & _ & _ & Ha).
  exists (r :: l). cbn. rewrite Hr. cbn. rewrite IHl. split; [done|]. split; [by constructor|]. constructor; [by eexists|done].
Qed.
Lemma with_status_eq status d : StateDB_inv d -> db_fault d = no_faults ->
  GetRedeemsByStatus status d = (Ok (with_status status d), d) /\
  Forall2 (fun row r => read_redeem row = Ok r)
    (filter (fun row => row_status row = status) (redeem_table d)) (with_status status d) /\
  NoDup (RequestTxHash <$> with_status status d) /\ Forall (fun r => is_Some (Amount r)) (with_status status d).
Proof.
  intros Hinv Hf. pose proof (GetRedeemsByStatus_NoDup d status Hinv) as Hn.
  destruct Hinv as (Ht & _ & Hw & _). apply redeemTable_spec in Ht as (Hc & _). rewrite Forall_forall in Hw, Hc.
  destruct (read_redeems_ok (filter (fun row => row_status row = status) (redeem_table d))) as (l & Hl & H2 & Ha).
  1,2: apply Forall_forall; intros row [_ Hr]%list_elem_of_filter; auto.
  assert (GetRedeemsByStatus status d = (Ok l, d)) as He.
  { unfold GetRedeemsByStatus. mstep. rewrite prepare_ok by done. mstep. rewrite exec_ok by done.
    rewrite bind_eq, gets_eq, lift_eq. by rewrite Hl. }
  unfold with_status, result in *. rewrite He in *. split; [done|]. split; [done|]. split; [by apply Hn|done].
Qed.
Lemma FilterUnPrepared_eq l (s : Mgr) : db_ok (mgrdb s) ->
  FilterUnPrepared l s = (Ok (filter (fun r => RequestTxHash r ∉ refs s) l), s).
Proof.
  intros Hd. induction l as [|r l IH]; [done|]. cbn [FilterUnPrepared]. rewrite bind_eq. unfold try.
  rewrite on_mgrdb_eq, law_tx_ref by done.
  set (s1 := {| cfg := _ |}). assert (s1 = s) as -> by (by destruct s). rewrite bind_eq, IH, filter_cons, filter_refs.
  unfold refs. by case_bool_decide; case_decide.
Qed.
Lemma IsDoublePrepare_due r (s : Mgr) : (forall w, result (IsPrepared (RequestTxHash r)) w = Ok false) ->
  exists s1, IsDoublePrepare r s = (Ok false, s1) /\ same s s1 /\ statedb s1 = statedb s /\
    btcUTXOResponder s1 = btcUTXOResponder s.
Proof.
  intros H. pose proof (quiet_IsDoublePrepare r s) as Hq. specialize (H (lw (chainWorker s))). unfold run in Hq. unfold result in H.
  revert Hq. unfold IsDoublePrepare, on_chain, zoom. cbn [IsPrepared logged_worker]. unfold pass, zoom.
  destruct (IsPrepared (RequestTxHash r) (lw (chainWorker s))) as [o w]. cbn in H |- *. subst o. eauto 6.
Qed.
Lemma PreparePrepare_due r outs v (s : Mgr) : signable r -> outs <> [] ->
  Request (RequestTxHash r) (Amount r) (btcUTXOResponder s) = (Ok outs, v) ->
  (forall req g, result (SignAsync req) g = Ok tt) ->
  exists s1, PreparePrepare false r s = (Ok (preparation_of r outs), s1) /\ same s s1 /\ statedb s1 = statedb s /\
    btcUTXOResponder s1 = v.
Proof.
  intros [[a Ha] Hrcv] Ho Hv H. pose proof (quiet_PreparePrepare false r s) as Hq. unfold run in Hq. revert Hq.
  unfold PreparePrepare. rewrite bind_eq. unfold try, on_utxo, zoom. rewrite Hv. rewrite bind_eq, lift_eq.
  unfold waitForOutPoints. destruct outs as [|o outs]; [done|]. cbn [length Nat.eqb]. rewrite bind_eq, lift_eq, Ha. cbn [BigIntClone].
  unfold ConvertOutpoints at 1 2. rewrite bind_eq, lift_eq. unfold PrepareParameter_GenerateMsgHash.
  match goal with |- context [prepare_packed ?p] => destruct (prepare_packed_ok p Hrcv) as [bs ->] end. cbn [fmap outcome_fmap]. rewrite bind_eq. unfold on_signer, zoom.
  match goal with |- context [SignAsync ?q (schnorrParty ?x)] => specialize (H q (schnorrParty x)); unfold result in H;
    destruct (SignAsync q (schnorrParty x)) as [og g] end.
  cbn in H. subst og. rewrite ret_eq. unfold preparation_of. rewrite Ha. cbn. eauto 6.
Qed.
(** one due redeem is prepared and tracked *)
Lemma prepare_one_due r outs v done_ (s : Mgr) : tracked s -> RequestTxHash r ∉ refs s -> signable r -> outs <> [] ->
  Request (RequestTxHash r) (Amount r) (btcUTXOResponder s) = (Ok outs, v) -> done_ (RequestTxHash r) = false ->
  accepts_redeems [RequestTxHash r] ->
  exists s' tx, prepare_one done_ r s = (Ok tt, s') /\ statedb s' = statedb s /\ tracked s' /\ btcUTXOResponder s' = v /\
    prepare_log (chainWorker s') = prepare_log (chainWorker s) ++ [preparation_of r outs] /\
    txs (mgrdb s') = txs (mgrdb s) ++ [tx] /\ RefIdentifier tx = RequestTxHash r /\ TxStatus tx = Pending.
Proof.
  intros Ht Hr Hs Ho Hv Hd (H1 & H2 & H3).
  assert (after (ready []) (prepare_one done_ r s)) as Ht'.
  { apply prepare_one_ready; [|apply not_elem_of_nil]. split; [done|]. by intros id ->%list_elem_of_singleton. }
  assert (exists s' tx, prepare_one done_ r s = (Ok tt, s') /\ statedb s' = statedb s /\ btcUTXOResponder s' = v /\
    prepare_log (chainWorker s') = prepare_log (chainWorker s) ++ [preparation_of r outs] /\
    txs (mgrdb s') = txs (mgrdb s) ++ [tx] /\ RefIdentifier tx = RequestTxHash r /\ TxStatus tx = Pending)
    as (s' & tx & He & ?); [|exists s', tx; rewrite He in Ht'; destruct Ht' as [Ht' _]; naive_solver].
  unfold prepare_one. rewrite bind_eq. destruct (IsDoublePrepare_due r s) as (s1 & E1 & S1 & D1 & V1).
  { intros w. apply H1. by left. }
  unfold try at 1. rewrite E1. clear E1. rewrite bind_eq, Hd. rewrite <-V1 in Hv.
  destruct (PreparePrepare_due r outs v s1 Hs Ho Hv H3) as (s2 & E2 & S2 & D2 & V2).
  unfold try at 1. rewrite E2. clear E2. pose proof (same_trans _ _ _ S1 S2) as (Hdb & Hsub & _ & Hlog).
  rewrite bind_eq. unfold try at 1, CallPrepare, on_chain, zoom. cbn [DoPrepare logged_worker].
  destruct (H2 (preparation_of r outs) (lw (chainWorker s2)) (list_elem_of_here _ _)) as (tx & n & w2 & Hdo & Hknown).
  rewrite Hdo. cbn [is_ok]. destruct (law_prepare _ _ _ _ _ Hdo) as (Hfresh & _ & Hk). destruct Ht as (Hok & Hids & _).
  match goal with |- context [(ledger_or_latest n ≫= ?f) ?s3] =>
    change ((ledger_or_latest n ≫= f) s3) with (track (D := D) (W := W) (V := V) (N := N) tx (RequestTxHash r) n s3) end.
  match goal with |- context [track _ _ _ ?s3] => destruct (track_cases tx (RequestTxHash r) n s3)
    as (s4 & (D4 & V4 & _ & _ & L4) & [[_ Hno]|(E4 & _ & row & Htx & _ & Hrow & Hst)]) end.
  { cbn. by rewrite Hdb. }
  { done. }
  { cbn. rewrite Hdb. intros Hin. by apply Hfresh, Hsub, Hids. }
  { by destruct Hno. }
  exists s4, row. split; [exact E4|]. cbn in D4, V4, L4, Htx. rewrite D4, V4, L4, Htx, D2, D1, V2, Hlog, Hdb. by split_and!.
Qed.
Lemma redeems_all_due done_ l outs v' (s : Mgr) : tracked s -> NoDup (RequestTxHash <$> l) ->
  (forall r, r ∈ l -> (RequestTxHash r ∉ refs s) /\ signable r /\ done_ (RequestTxHash r) = false) ->
  answers l outs (btcUTXOResponder s) v' -> accepts_redeems (RequestTxHash <$> l) ->
  exists s' ts, for_each (prepare_one done_) l s = (Ok tt, s') /\ statedb s' = statedb s /\ btcUTXOResponder s' = v' /\
    prepare_log (chainWorker s') = prepare_log (chainWorker s) ++ zip_with preparation_of l outs /\
    txs (mgrdb s') = txs (mgrdb s) ++ ts /\ RefIdentifier <$> ts = RequestTxHash <$> l /\
    Forall (fun tx => TxStatus tx = Pending) ts.
Proof.
  revert outs s. induction l as [|r l IH]; intros [|o outs] s Ht Hn Hl Hans Hacc; [|done..|].
  { exists s, []. cbn in Hans |- *. rewrite !app_nil_r. by split_and!; try constructor. }
  rewrite fmap_cons in Hn. apply NoDup_cons in Hn as [Hm Hn]. destruct Hans as (v & Hv & Ho & Hans).
  destruct (Hl r (list_elem_of_here _ _)) as (Hr & Hs & Hd). destruct Hacc as (H1 & H2 & H3).
  destruct (prepare_one_due r o v done_ s Ht Hr Hs Ho Hv Hd) as (s1 & tx & E1 & Hdb & Ht1 & <- & Hlog & Htx & Href & Hst).
  { split_and!; [|intros pp w Hi; apply H2|done]; [intros id w Hi; apply H1|]; apply list_elem_of_singleton in Hi as ->; by left. }
  destruct (IH outs s1 Ht1 Hn) as (s2 & ts & E2 & Hdb2 & Hv2 & Hlog2 & Htx2 & Hrefs & Hall); [|done| |].
  { intros r' Hr'. destruct (Hl r') as (? & ? & ?); [by right|]. split; [|done]. unfold refs. rewrite Htx, fmap_app.
    rewrite not_elem_of_app. split; [done|]. intros Hc%list_elem_of_singleton. rewrite Href in Hc. apply Hm. rewrite <-Hc.
    by apply list_elem_of_fmap_2. }
  { split_and!; [intros id w Hi; apply H1; by right|intros pp w Hi; apply H2; by right|done]. }
  exists s2, (tx :: ts). cbn [for_each zip_with]. rewrite bind_eq, E1, E2, Hdb2, Hlog2, Htx2, Hlog, Htx, <-!(assoc_L (++)).
  split_and!; try done; [by rewrite fmap_cons, Href, Hrefs|by constructor].
Qed.

Lemma due_prepared done_ outs v' (s : Mgr) :
  StateDB_inv (statedb s) -> db_fault (statedb s) = no_faults -> tracked s ->
  Forall (fun r => packable r /\ done_ (RequestTxHash r) = false) (due_redeems s) ->
  answers (due_redeems s) outs (btcUTXOResponder s) v' -> accepts_redeems (RequestTxHash <$> due_redeems s) ->
  exists s', procedurePrepare done_ s = (Ok tt, s') /\ statedb s' = statedb s /\ btcUTXOResponder s' = v' /\ due_redeems s' = [] /\
    prepare_log (chainWorker s') = prepare_log (chainWorker s) ++ zip_with preparation_of (due_redeems s) outs /\
    exists ts, txs (mgrdb s') = txs (mgrdb s) ++ ts /\ RefIdentifier <$> ts = RequestTxHash <$> due_redeems s /\
      Forall (fun tx => TxStatus tx = Pending) ts.
Proof.
  intros Hinv Hf Ht Hrs Hans Hacc. destruct (with_status_eq RedeemStatusRequested _ Hinv Hf) as (Hq & _ & Hn & Ham). change (with_status RedeemStatusRequested) with waiting in *. rewrite Forall_forall in Hrs, Ham.
  destruct (redeems_all_due done_ (due_redeems s) outs v' s) as (s' & ts & Hrun & Hdb & Hv & Hlog & Htx & Hr & Hp); [done| | |done|done|].
  - eapply sublist_NoDup; [exact Hn|]. apply fmap_sublist, sublist_filter.
  - intros r Hin. destruct (Hrs r Hin) as [H0x Hd]. apply list_elem_of_filter in Hin as [Hm Hin].
    split; [done|]. split; [|done]. split; [by apply Ham|done].
  - exists s'. split; [|split; [done|split; [done|split; [|by eauto]]]].
    + assert (QueryUnPrepared s = (Ok (waiting (statedb s)), s)) as Hqm.
      { unfold QueryUnPrepared, on_statedb, zoom. rewrite Hq. by destruct s. }
      unfold procedurePrepare. rewrite bind_eq, Hqm, bind_eq, FilterUnPrepared_eq by apply Ht. exact Hrun.
    + unfold due_redeems, refs. rewrite Hdb, Htx. apply filter_none_of. intros r Hin Hc. apply Hc. rewrite fmap_app, elem_of_app.
      destruct (decide (RequestTxHash r ∈ RefIdentifier <$> txs (mgrdb s))) as [?|Hnr]; [by left|right].
      rewrite Hr. apply list_elem_of_fmap_2. by apply list_elem_of_filter.
Qed.
(** C10: on a chain that accepts (every call succeeds and the ledger number of a submission is known), while
    the vault has outpoints for them, no wait for outpoints times out and every receiver can be packed for
    the signature (one that starts with 0x and is not hexadecimal ends the process), every requested redeem
    that has no tracked transaction is prepared by the next procedure, once and in the order of the
    database, with its requester, receiver and amount and exactly the outpoints the vault gave for it; each
    preparation is tracked as pending; nothing else is prepared or asked of the vault, nothing stays due,
    and the state database is left as it was. *)
Theorem due_redeems_prepared done_ outs v' (s : Mgr) :
  StateDB_inv (statedb s) -> db_fault (statedb s) = no_faults -> tracked s ->
  Forall (fun r => packable r /\ done_ (RequestTxHash r) = false) (due_redeems s) ->
  answers (due_redeems s) outs (btcUTXOResponder s) v' -> accepts_redeems (RequestTxHash <$> due_redeems s) ->
  exists s', procedurePrepare done_ s = (Ok tt, s') /\ statedb s' = statedb s /\ btcUTXOResponder s' = v' /\ due_redeems s' = [] /\
    prepare_log (chainWorker s') = prepare_log (chainWorker s) ++ zip_with preparation_of (due_redeems s) outs /\
    exists ts, txs (mgrdb s') = txs (mgrdb s) ++ ts /\ RefIdentifier <$> ts = RequestTxHash <$> due_redeems s /\
      Forall (fun tx => TxStatus tx = Pending) ts.
Proof. apply due_prepared. Qed.
End due.

(** ** A concrete chain *)
Lemma toy_accepts ids : accepts (W := toy_chain) (N := unit) ids.
Proof. split; [done|]. split; [|done]. intros mp w _. do 3 eexists. split; [reflexivity|]. left. by eexists. Qed.
Lemma toy_accepts_redeems ids : accepts_redeems (W := toy_chain) (N := unit) ids.
Proof. split; [done|]. split; [|done]. intros pp w _. do 3 eexists. split; [reflexivity|]. right. by eexists. Qed.
Definition toy_due : ChainTxMgr SQLiteChainTxMgrDB (logged toy_chain) unit unit := {|
  cfg := {| TimeoutTxLedgerNumber := 50 |}; statedb := toy_db; mgrdb := sample_txdb;
  chainWorker := toy_logged; btcUTXOResponder := tt; schnorrParty := tt |}.
Lemma due_mints_submitted_witness :
  due toy_due = [sample_mint] /\
  exists s', procedureMint toy_due = (Ok tt, s') /\ due s' = [] /\
    mint_log (chainWorker s') = [{| mp_BtcTxId := sample_hash 9; mp_Receiver := m_Receiver sample_mint; mp_Amount := 500 |}].
Proof.
  split; [vm_compute; reflexivity|].
  destruct (due_mints_submitted toy_due toy_db_inv) as (s' & H1 & _ & H2 & H3 & _); [vm_compute; reflexivity|exact toy_tracked|apply toy_accepts|].
  exists s'. split; [exact H1|]. split; [exact H2|]. etrans; [exact H3|]. vm_compute. reflexivity.
Defined.

(** the same manager with one requested redeem; the vault always has the one outpoint of [toy_responder] *)
Definition toy_redeem : Redeem := {|
  RequestTxHash := RequestTxHash sample_redeem; PrepareTxHash := zeros 32; r_BtcTxId := zeros 32;
  Requester := Requester sample_redeem; Receiver := "bc1q"; Amount := Some 100; Outpoints := None;
  Status := RedeemStatusRequested |}.
Definition toy_requested : ChainTxMgr SQLiteChainTxMgrDB (logged toy_chain) unit unit := {|
  cfg := {| TimeoutTxLedgerNumber := 50 |}; statedb := run (InsertAfterRequested toy_redeem) sample_db;
  mgrdb := sample_txdb; chainWorker := toy_logged; btcUTXOResponder := tt; schnorrParty := tt |}.
Lemma due_redeems_prepared_witness :
  due_redeems toy_requested = [toy_redeem] /\
  exists s', procedurePrepare (fun _ => false) toy_requested = (Ok tt, s') /\ due_redeems s' = [] /\
    prepare_log (chainWorker s') = [preparation_of (toy_redeem) [{| BtcTxId := sample_hash 3; BtcIdx := 1 |}]].
Proof.
  split; [vm_compute; reflexivity|].
  destruct (due_redeems_prepared (fun _ => false) [[{| BtcTxId := sample_hash 3; BtcIdx := 1 |}]] tt toy_requested)
    as (s' & H1 & _ & _ & H2 & H3 & _).
  - refine (keeps_InsertAfterRequested toy_redeem _ sample_db sample_db_inv). by split_and!.
  - vm_compute; reflexivity.
  - exact toy_tracked.
  - apply Forall_forall. intros r Hr. assert (due_redeems toy_requested = [toy_redeem]) as He by (vm_compute; reflexivity).
    rewrite He in Hr. apply list_elem_of_singleton in Hr as ->. done.
  - vm_compute. eexists _. split; [reflexivity|done].
  - apply toy_accepts_redeems.
  - exists s'. split; [exact H1|]. split; [exact H2|]. etrans; [exact H3|]. vm_compute. reflexivity.
Defined.
