(* ===== verification/BtcAction.v ===== *)
(** * BtcAction: the records of what the bridge saw and did on Bitcoin (package [btcaction]).

    Deposits, redeem transactions and other transfers, each with its storage interface as a
    type class and its SQLite implementation. A driver error of a statement is the function
    [fault] of the table; the interface laws state what the clients rely on. *)
From S2P Require Export Database.

(** ** types.go *)
Record Basic := { ba_BlockNumber : Z; ba_BlockHash : string; ba_TxHash : string }.
Record DepositAction := {
  da_Basic : Basic; DepositValue : Z; DepositReceiver : string; EvmID : Z; EvmAddr : string }.
Record RedeemAction := { EthRequestTxID : string; BtcHash : string; Sent : bool; Mined : bool }.
Record OtherTransferAction := {
  ota_Basic : Basic; ota_Vout : Z; TransferValue : Z; TransferReceiver : string }.
#[global] Instance Basic_eq_dec : EqDecision Basic.
Proof. solve_decision. Defined.
#[global] Instance DepositAction_eq_dec : EqDecision DepositAction.
Proof. solve_decision. Defined.
#[global] Instance RedeemAction_eq_dec : EqDecision RedeemAction.
Proof. solve_decision. Defined.
#[global] Instance OtherTransferAction_eq_dec : EqDecision OtherTransferAction.
Proof. solve_decision. Defined.

Class DepositStorage (S : Type) := {
  AddDeposit : DepositAction -> M S unit;
  GetDeposits : M S (list DepositAction);
  GetDepositByTxHash : string -> M S (list DepositAction);
  GetDepositsByReceiver : string -> M S (list DepositAction);
  GetDepositByEVM : string -> Z -> M S (list DepositAction);
  GetDepositsByEVMAddr : string -> M S (list DepositAction);
}.
(** The two queries return a pointer and an error together: a caller that drops the error
    sees the pointer. *)
Class RedeemActionStorage (S : Type) := {
  HasRedeem : string -> M S bool;
  QueryByEthRequestTxId : string -> M S (option RedeemAction * option error);
  QueryByBtcTxId : string -> M S (option RedeemAction * option error);
  InsertRedeem : RedeemAction -> M S unit;
  IfNotMined : string -> M S bool;
  CompleteRedeem : string -> M S unit;
}.

(** ** Tables *)
Section table.
Context {R : Type}.
Record ActionTable := { a_rows : list R; a_fault : string -> option error }.
Definition a_sql (q : string) : M ActionTable unit := fun s =>
  match a_fault s q with Some e => (Err e, s) | None => (Ok tt, s) end.
Definition a_set (t : list R) : M ActionTable unit :=
  modify (fun s => {| a_rows := t; a_fault := a_fault s |}).
Definition a_select (q : string) (P : R -> Prop) `{forall r, Decision (P r)}
    : M ActionTable (list R) :=
  a_sql q ;; t ← gets a_rows; mret (filter P t).
End table.
Arguments ActionTable R : clear implicits.

(** ** sqlite_db_deposit.go *)
Definition SQLiteDepositStorage : Type := ActionTable DepositAction.
Definition da_TxHash (d : DepositAction) : string := ba_TxHash (da_Basic d).
Definition deposit_GetDeposits : M SQLiteDepositStorage (list DepositAction) :=
  a_select "SELECT" (fun _ => True).
Definition deposit_GetByTxHash (txHash : string) : M SQLiteDepositStorage (list DepositAction) :=
  a_select "WHERE tx_hash = ?" (fun d => da_TxHash d = txHash).
Definition deposit_GetByReceiver (receiver : string) : M SQLiteDepositStorage (list DepositAction) :=
  a_select "WHERE deposit_receiver = ?" (fun d => DepositReceiver d = receiver).
Definition deposit_GetByEVM (evmAddr : string) (evmID : Z)
    : M SQLiteDepositStorage (list DepositAction) :=
  a_select "WHERE evm_addr = ? AND evm_id = ?" (fun d => EvmAddr d = evmAddr /\ EvmID d = evmID).
(** SQLite's [LOWER] folds the ASCII letters. *)
Definition deposit_GetByEVMAddr (evmAddr : string) : M SQLiteDepositStorage (list DepositAction) :=
  a_select "WHERE LOWER(evm_addr) = LOWER(?)" (fun d => ToLower (EvmAddr d) = ToLower evmAddr).
Definition deposit_AddDeposit (deposit : DepositAction) : M SQLiteDepositStorage unit :=
  hits ← deposit_GetByTxHash (da_TxHash deposit);
  if (0 <? length hits)%nat then mret tt
  else
    a_sql "INSERT" ;;
    t ← gets a_rows; a_set (t ++ [deposit]).
#[global] Instance deposit_sqlite : DepositStorage SQLiteDepositStorage := {|
  AddDeposit := deposit_AddDeposit; GetDeposits := deposit_GetDeposits;
  GetDepositByTxHash := deposit_GetByTxHash; GetDepositsByReceiver := deposit_GetByReceiver;
  GetDepositByEVM := deposit_GetByEVM; GetDepositsByEVMAddr := deposit_GetByEVMAddr |}.

(** ** sqlite_db_redeem.go *)
Definition SQLiteRedeemStorage : Type := ActionTable RedeemAction.
Definition redeem_HasRedeem (ethRequestTxID : string) : M SQLiteRedeemStorage bool :=
  hits ← a_select "SELECT COUNT" (fun r => EthRequestTxID r = ethRequestTxID);
  mret (0 <? length hits)%nat.
(** [QueryRow(...).Scan(...)]: the first row, [sql.ErrNoRows] or a driver error; [unread]
    is the record with the fields that were not scanned left at their zero values. *)
Definition redeem_query (q : string) (P : RedeemAction -> Prop) `{forall r, Decision (P r)}
    (unread : RedeemAction) : M SQLiteRedeemStorage (option RedeemAction * option error) :=
  row ← try (a_select q P);
  mret (match row with
        | inl e => (Some unread, Some e)
        | inr [] => (None, None)
        | inr (r :: _) => (Some r, None)
        end).
Definition redeem_QueryByEthRequestTxId (ethRequestTxID : string) :=
  redeem_query "WHERE EthRequestTxID = ?" (fun r => EthRequestTxID r = ethRequestTxID)
    {| EthRequestTxID := ethRequestTxID; BtcHash := EmptyString; Sent := false; Mined := false |}.
Definition redeem_QueryByBtcTxId (btcTxID : string) :=
  redeem_query "WHERE BtcHash = ?" (fun r => BtcHash r = btcTxID)
    {| EthRequestTxID := EmptyString; BtcHash := btcTxID; Sent := false; Mined := false |}.
(** [Sent] is written as true whatever the argument says, [Mined] is the column's default. *)
Definition redeem_InsertRedeem (redeem : RedeemAction) : M SQLiteRedeemStorage unit :=
  a_sql "INSERT" ;;
  t ← gets a_rows;
  if bool_decide (EthRequestTxID redeem ∈ EthRequestTxID <$> t)
  then throw "UNIQUE constraint failed: btc_action_redeem.EthRequestTxID"
  else a_set (t ++ [{| EthRequestTxID := EthRequestTxID redeem; BtcHash := BtcHash redeem;
                       Sent := true; Mined := false |}]).
Definition redeem_IfNotMined (ethRequestTxID : string) : M SQLiteRedeemStorage bool :=
  hits ← a_select "WHERE EthRequestTxID = ? AND Mined = ?"
           (fun r => EthRequestTxID r = ethRequestTxID /\ Mined r = false);
  mret (0 <? length hits)%nat.
Definition set_Mined (r : RedeemAction) : RedeemAction :=
  {| EthRequestTxID := EthRequestTxID r; BtcHash := BtcHash r; Sent := Sent r; Mined := true |}.
Definition redeem_CompleteRedeem (ethRequestTxID : string) : M SQLiteRedeemStorage unit :=
  bingo ← redeem_IfNotMined ethRequestTxID;
  if bingo : bool then
    a_sql "UPDATE" ;;
    t ← gets a_rows; a_set (update_rows EthRequestTxID t ethRequestTxID set_Mined)
  else mret tt.
#[global] Instance redeem_sqlite : RedeemActionStorage SQLiteRedeemStorage := {|
  HasRedeem := redeem_HasRedeem; QueryByEthRequestTxId := redeem_QueryByEthRequestTxId;
  QueryByBtcTxId := redeem_QueryByBtcTxId; InsertRedeem := redeem_InsertRedeem;
  IfNotMined := redeem_IfNotMined; CompleteRedeem := redeem_CompleteRedeem |}.

(** ** sqlite_db_other_transfer.go *)
Definition SQLiteOtherTransferStorage : Type := ActionTable OtherTransferAction.
Definition AddOtherTransfer (transfer : OtherTransferAction) : M SQLiteOtherTransferStorage unit :=
  a_sql "INSERT" ;; t ← gets a_rows; a_set (t ++ [transfer]).
Definition GetOtherTransferByReceiver (receiver : string)
    : M SQLiteOtherTransferStorage (list OtherTransferAction) :=
  a_select "WHERE TransferReceiver = ?" (fun t => TransferReceiver t = receiver).

(** ** What the clients rely on *)
(** The table of tracked redeems; a call that fails changes nothing, and only an unhealthy
    storage fails a call that is not a duplicate insert. *)
Class RedeemStorageLaws (S : Type) `{RS : RedeemActionStorage S} := {
  actions : S -> list RedeemAction;
  ra_healthy : S -> Prop;
  law_ra_has s id : exists o, HasRedeem id s = (o, s) /\
    (o = Ok (bool_decide (id ∈ EthRequestTxID <$> actions s)) \/
     (exists e, o = Err e) /\ ~ ra_healthy s);
  law_ra_eth s id : exists p, QueryByEthRequestTxId id s = (Ok p, s) /\
    (p = (find_row EthRequestTxID (actions s) id, None) \/
     (exists x e, p = (Some x, Some e) /\ EthRequestTxID x = id) /\ ~ ra_healthy s);
  law_ra_btc s id : exists p, QueryByBtcTxId id s = (Ok p, s) /\
    (p = (find_row BtcHash (actions s) id, None) \/
     (exists x e, p = (Some x, Some e) /\ EthRequestTxID x = EmptyString) /\ ~ ra_healthy s);
  law_ra_insert s r : exists o s', InsertRedeem r s = (o, s') /\
    (ra_healthy s <-> ra_healthy s') /\
    (o = Ok tt /\ (EthRequestTxID r ∉ EthRequestTxID <$> actions s) /\
     actions s' = actions s ++ [{| EthRequestTxID := EthRequestTxID r; BtcHash := BtcHash r;
                                   Sent := true; Mined := false |}] \/
     (exists e, o = Err e) /\ actions s' = actions s /\
     (EthRequestTxID r ∈ EthRequestTxID <$> actions s \/ ~ ra_healthy s));
  law_ra_complete s id : exists o s', CompleteRedeem id s = (o, s') /\
    (ra_healthy s <-> ra_healthy s') /\
    (o = Ok tt /\ actions s' = update_rows EthRequestTxID (actions s) id set_Mined \/
     (exists e, o = Err e) /\ actions s' = actions s /\ ~ ra_healthy s);
}.

(** ** The SQLite storages *)
Definition table_healthy {R} (s : ActionTable R) : Prop := forall q, a_fault s q = None.
Section tables.
Context {R : Type} (s : ActionTable R).
Lemma a_sql_cases q :
  a_sql q s = (Ok tt, s) \/ (exists e, a_sql q s = (Err e, s)) /\ ~ table_healthy s.
Proof.
  unfold a_sql. destruct (a_fault s q) eqn:Hq; [right|by left].
  split; [eauto|]. intros H. by rewrite H in Hq.
Qed.
Lemma a_select_cases q (P : R -> Prop) `{forall r, Decision (P r)} :
  a_select q P s = (Ok (filter P (a_rows s)), s) \/
  (exists e, a_select q P s = (Err e, s)) /\ ~ table_healthy s.
Proof.
  unfold a_select. rewrite bind_eq. destruct (a_sql_cases q) as [->|[[e ->] Hh]]; [|eauto].
  left. by mstep.
Qed.
End tables.

Lemma filter_nil_length {A} (l : list A) : (0 <? length l)%nat = false <-> l = [].
Proof. rewrite Nat.ltb_ge. destruct l; cbn; split; [done|done|lia|done]. Qed.
Lemma filter_key_nonempty {R K} `{EqDecision K} (key : R -> K) t k :
  (0 <? length (filter (fun r => key r = k) t))%nat = bool_decide (k ∈ key <$> t).
Proof.
  case_bool_decide as Hk; [|rewrite filter_nil_length].
  - apply list_elem_of_fmap in Hk as (r & -> & Hr). apply Nat.ltb_lt.
    assert (r ∈ filter (fun r' => key r' = key r) t) as Hf by by apply list_elem_of_filter.
    by destruct (filter _ t); [apply elem_of_nil in Hf|cbn; lia].
  - destruct (filter _ t) as [|r l] eqn:Hf; [done|]. exfalso. apply Hk, list_elem_of_fmap.
    assert (r ∈ filter (fun r => key r = k) t) as [Hr Ht]%list_elem_of_filter
      by (rewrite Hf; apply list_elem_of_here).
    eauto.
Qed.
Lemma filter_head_find_row {R K} `{EqDecision K} (key : R -> K) t k :
  head (filter (fun r => key r = k) t) = find_row key t k.
Proof.
  induction t as [|r t IH]; [done|]. rewrite find_row_cons, filter_cons.
  by destruct (decide (key r = k)).
Qed.

Lemma update_rows_noop {R K} `{EqDecision K} (key : R -> K) t k f :
  (forall r, r ∈ t -> key r = k -> f r = r) -> update_rows key t k f = t.
Proof.
  intros Hf. unfold update_rows. rewrite <-(list_fmap_id t) at 2. apply list_fmap_ext.
  intros i r Hr. cbn. destruct (decide (key r = k)) as [Hk|]; [|done].
  apply Hf; [|done]. by eapply list_elem_of_lookup_2.
Qed.

Lemma redeem_query_cases s q {K} `{EqDecision K} (key : RedeemAction -> K) k unread :
  exists p, redeem_query q (fun r => key r = k) unread s = (Ok p, s) /\
    (p = (find_row key (a_rows s) k, None) \/
     (exists e, p = (Some unread, Some e)) /\ ~ table_healthy s).
Proof.
  unfold redeem_query. rewrite bind_eq. unfold try.
  destruct (a_select_cases s q (fun r => key r = k)) as [->|[[e ->] Hh]]; eexists; (split; [by mstep|]).
  - left. rewrite <-filter_head_find_row. by destruct (filter _ _).
  - right. eauto.
Qed.

Lemma redeem_InsertRedeem_cases s r : exists o s', redeem_InsertRedeem r s = (o, s') /\
  (table_healthy s <-> table_healthy s') /\
  (o = Ok tt /\ (EthRequestTxID r ∉ EthRequestTxID <$> a_rows s) /\
   a_rows s' = a_rows s ++ [{| EthRequestTxID := EthRequestTxID r; BtcHash := BtcHash r;
                               Sent := true; Mined := false |}] \/
   (exists e, o = Err e) /\ a_rows s' = a_rows s /\
   (EthRequestTxID r ∈ EthRequestTxID <$> a_rows s \/ ~ table_healthy s)).
Proof.
  unfold redeem_InsertRedeem. rewrite bind_eq.
  destruct (a_sql_cases s "INSERT") as [->|[[e ->] Hh]].
  - mstep. case_bool_decide as Hk; do 2 eexists; (split; [done|]); (split; [done|]).
    + right. eauto.
    + left. done.
  - do 2 eexists. split; [done|]. split; [done|]. right. eauto.
Qed.
Lemma redeem_CompleteRedeem_cases s id : exists o s', redeem_CompleteRedeem id s = (o, s') /\
  (table_healthy s <-> table_healthy s') /\
  (o = Ok tt /\ a_rows s' = update_rows EthRequestTxID (a_rows s) id set_Mined \/
   (exists e, o = Err e) /\ a_rows s' = a_rows s /\ ~ table_healthy s).
Proof.
  unfold redeem_CompleteRedeem, redeem_IfNotMined. rewrite !bind_eq.
  destruct (a_select_cases s "WHERE EthRequestTxID = ? AND Mined = ?"
    (fun r => EthRequestTxID r = id /\ Mined r = false)) as [->|[[e ->] Hh]]; [|eauto 10].
  mstep. destruct (0 <? _)%nat eqn:Hn.
  - rewrite bind_eq. destruct (a_sql_cases s "UPDATE") as [->|[[e ->] Hh]]; [|eauto 10].
    mstep. do 2 eexists. split; [done|]. split; [done|]. by left.
  - mstep. do 2 eexists. split; [done|]. split; [done|]. left. split; [done|].
    apply filter_nil_length in Hn. rewrite update_rows_noop; [done|].
    intros r Hr Hk. destruct (Mined r) eqn:Hm.
    + destruct r; cbn in *; by subst.
    + assert (r ∈ filter (fun r => EthRequestTxID r = id /\ Mined r = false) (a_rows s)) as Hf
        by by apply list_elem_of_filter.
      rewrite Hn in Hf. by apply elem_of_nil in Hf.
Qed.

#[global] Program Instance redeem_sqlite_laws : RedeemStorageLaws SQLiteRedeemStorage := {|
  actions := a_rows; ra_healthy := table_healthy |}.
Next Obligation.
  intros s id. cbn. unfold redeem_HasRedeem. rewrite bind_eq.
  destruct (a_select_cases s "SELECT COUNT" (fun r => EthRequestTxID r = id)) as [->|[[e ->] Hh]];
    eexists; (split; [by mstep|]); [left|right; eauto].
  by rewrite filter_key_nonempty.
Qed.
Next Obligation.
  intros s id. cbn. unfold redeem_QueryByEthRequestTxId.
  destruct (redeem_query_cases s "WHERE EthRequestTxID = ?" EthRequestTxID id {|
    EthRequestTxID := id; BtcHash := EmptyString; Sent := false; Mined := false |})
    as (p & Hp & H). exists p. split; [done|].
  destruct H as [->|[[e ->] H]]; [by left|right]. split; [|done]. do 2 eexists. by split.
Qed.
Next Obligation.
  intros s id. cbn. unfold redeem_QueryByBtcTxId.
  destruct (redeem_query_cases s "WHERE BtcHash = ?" BtcHash id {|
    EthRequestTxID := EmptyString; BtcHash := id; Sent := false; Mined := false |})
    as (p & Hp & H). exists p. split; [done|].
  destruct H as [->|[[e ->] H]]; [by left|right]. split; [|done]. do 2 eexists. by split.
Qed.
Next Obligation. apply redeem_InsertRedeem_cases. Qed.
Next Obligation. apply redeem_CompleteRedeem_cases. Qed.

(** ** Deposits are recorded once *)
Lemma filter_unique {R K} `{EqDecision K} (key : R -> K) t r :
  NoDup (key <$> t) -> r ∈ t -> filter (fun r' => key r' = key r) t = [r].
Proof.
  induction t as [|r' t IH]; [by intros _ ?%elem_of_nil|].
  rewrite fmap_cons, NoDup_cons, elem_of_cons. intros [Hr' Hn] [->|Hr].
  - rewrite filter_cons_True by done. f_equal.
    assert (find_row key t (key r') = None) as Hf by by apply find_row_None.
    rewrite <-filter_head_find_row in Hf. by destruct (filter _ t).
  - rewrite filter_cons_False; [by apply IH|]. intros Hk. apply Hr', list_elem_of_fmap. eauto.
Qed.

(** A deposit is recorded at most once per Bitcoin transaction: adding keeps the rows
    unique and never changes or removes one; after a successful call exactly one row has the
    deposit's transaction (the new one, unless one was there before), and repeating the call
    then succeeds and changes nothing. *)
Theorem AddDeposit_once (s : SQLiteDepositStorage) d :
  NoDup (da_TxHash <$> a_rows s) ->
  let '(o, s') := AddDeposit d s in
  NoDup (da_TxHash <$> a_rows s') /\ (a_rows s `prefix_of` a_rows s') /\
  (o = Ok tt ->
     AddDeposit d s' = (Ok tt, s') /\
     exists d', GetDepositByTxHash (da_TxHash d) s' = (Ok [d'], s') /\
       ((da_TxHash d ∉ da_TxHash <$> a_rows s) -> d' = d)).
Proof.
  intros Hn. cbn. unfold deposit_AddDeposit at 1. rewrite bind_eq. unfold deposit_GetByTxHash at 1, a_select at 1.
  rewrite bind_eq. unfold a_sql at 1. destruct (a_fault s _) eqn:Hq; [done|]. mstep.
  assert (forall t d', NoDup (da_TxHash <$> t) -> d' ∈ t -> da_TxHash d' = da_TxHash d ->
    let s' := {| a_rows := t; a_fault := a_fault s |} in
    deposit_GetByTxHash (da_TxHash d) s' = (Ok [d'], s') /\ deposit_AddDeposit d s' = (Ok tt, s')) as Hget.
  { intros t d' Ht Hd Hk s'. assert (deposit_GetByTxHash (da_TxHash d) s' = (Ok [d'], s')) as H.
    { unfold deposit_GetByTxHash, a_select. rewrite bind_eq. unfold a_sql. cbn [s' a_fault]. rewrite Hq.
      mstep. cbn [a_rows s']. by rewrite <-Hk, filter_unique. }
    split; [done|]. unfold deposit_AddDeposit. by rewrite bind_eq, H. }
  mstep. rewrite filter_key_nonempty. case_bool_decide as Hk.
  - mstep. split_and!; [done..|]. intros _. apply list_elem_of_fmap in Hk as (d' & Hd' & Hin).
    destruct (Hget (a_rows s) d' Hn Hin) as [H1 H2]; [done|]. destruct s as [t f]. split; [done|].
    exists d'. split; [done|]. intros Hnot. exfalso. apply Hnot, list_elem_of_fmap. eauto.
  - rewrite bind_eq. unfold a_sql. destruct (a_fault s "INSERT"); [done|]. mstep.
    unfold a_set, modify. cbn [a_rows]. rewrite fmap_app, list_fmap_singleton, NoDup_snoc.
    split_and!; [done..|by eexists|]. intros _.
    destruct (Hget (a_rows s ++ [d]) d) as [H1 H2]; [by rewrite fmap_app, list_fmap_singleton, NoDup_snoc|set_solver|done|].
    split; [done|]. by exists d.
Qed.

Definition sample_deposit : DepositAction := {|
  da_Basic := {| ba_BlockNumber := 7; ba_BlockHash := "b"; ba_TxHash := "aa" |};
  DepositValue := 50000; DepositReceiver := "bridge"; EvmID := 1; EvmAddr := "0xab" |}.
Definition empty_table {R} : ActionTable R := {| a_rows := []; a_fault := fun _ => None |}.
Lemma AddDeposit_once_witness :
  NoDup (da_TxHash <$> a_rows (empty_table : SQLiteDepositStorage)) /\
  a_rows (run (AddDeposit sample_deposit) empty_table) = [sample_deposit] /\
  AddDeposit sample_deposit (run (AddDeposit sample_deposit) empty_table) =
    (Ok tt, run (AddDeposit sample_deposit) empty_table).
Proof.
  assert (NoDup (da_TxHash <$> a_rows (empty_table : SQLiteDepositStorage))) as Hn by constructor.
  pose proof (AddDeposit_once empty_table sample_deposit Hn) as H.
  split; [done|]. split; [done|]. by destruct (proj2 (proj2 H) eq_refl).
Defined.

(** ** Tracked redeems *)
Section lifecycle.
Context {S : Type} `{RL : RedeemStorageLaws S}.

(** the writes of the transaction manager and of the monitor, with their errors dropped *)
Inductive redeem_write := WInsert (r : RedeemAction) | WComplete (id : string).
Definition redeem_writes : list redeem_write -> M S unit :=
  for_each (fun w => ignore (match w with
                             | WInsert r => InsertRedeem r
                             | WComplete id => CompleteRedeem id
                             end)).

Lemma redeem_write_step w s :
  let s' := run (ignore (match w with WInsert r => InsertRedeem r | WComplete id => CompleteRedeem id end)) s in
  actions s' = actions s \/
  (exists r, w = WInsert r /\ (EthRequestTxID r ∉ EthRequestTxID <$> actions s) /\
     actions s' = actions s ++ [{| EthRequestTxID := EthRequestTxID r; BtcHash := BtcHash r;
                                   Sent := true; Mined := false |}]) \/
  (exists id, w = WComplete id /\ actions s' = update_rows EthRequestTxID (actions s) id set_Mined).
Proof.
  cbv zeta. rewrite run_ignore. destruct w as [r|id].
  - destruct (law_ra_insert s r) as (o & s' & H & _ & [(-> & Hf & Ha)|(_ & Ha & _)]);
      unfold run; rewrite H; cbn; eauto 10.
  - destruct (law_ra_complete s id) as (o & s' & H & _ & [(-> & Ha)|(_ & Ha & _)]);
      unfold run; rewrite H; cbn; eauto 10.
Qed.
Lemma ignore_ok {A} (m : M S A) s :
  (forall w, (m s).1 <> Panic w) -> ignore m s = (Ok tt, run m s).
Proof.
  intros Hm. unfold ignore. rewrite bind_eq. unfold try, run. destruct (m s) as [[a|e|w] s']; [done..|].
  by destruct (Hm w).
Qed.
Lemma redeem_writes_cons w ws s :
  run (redeem_writes (w :: ws)) s =
  run (redeem_writes ws)
    (run (ignore (match w with WInsert r => InsertRedeem r | WComplete id => CompleteRedeem id end)) s).
Proof.
  unfold redeem_writes. cbn. unfold run at 1. rewrite bind_eq, ignore_ok.
  - by rewrite run_ignore.
  - intros why. destruct w as [r|id].
    + destruct (law_ra_insert s r) as (o & s' & -> & _ & [(-> & _)|((e & ->) & _)]); done.
    + destruct (law_ra_complete s id) as (o & s' & -> & _ & [(-> & _)|((e & ->) & _)]); done.
Qed.

(** C33: whatever the driver does, a tracked redeem is never lost or replaced: along any
    sequence of the writes the request ids stay unique, a record keeps its id, its Bitcoin
    transaction and its sent flag, and it only changes by becoming mined, when a completion of
    that very request was issued. *)
Theorem redeem_tracking ws s :
  NoDup (EthRequestTxID <$> actions s) ->
  let s' := run (redeem_writes ws) s in
  NoDup (EthRequestTxID <$> actions s') /\
  forall r, r ∈ actions s ->
    find_row EthRequestTxID (actions s') (EthRequestTxID r) = Some r \/
    (find_row EthRequestTxID (actions s') (EthRequestTxID r) = Some (set_Mined r) /\
     WComplete (EthRequestTxID r) ∈ ws).
Proof.
  revert s. induction ws as [|w ws IH]; intros s Hn; cbv zeta.
  - split; [done|]. intros r Hr. left. by apply find_row_elem.
  - rewrite redeem_writes_cons. pose proof (redeem_write_step w s) as Hw. cbv zeta in Hw.
    remember (run (ignore _) s) as s1 eqn:Hs1. clear Hs1.
    destruct Hw as [Ha|[(r0 & -> & Hf & Ha)|(id & -> & Ha)]].
    + specialize (IH s1). rewrite Ha in IH. destruct (IH Hn) as [H1 H2]. split; [done|].
      intros r Hr. destruct (H2 r Hr) as [?|[? ?]]; [by left|right]. split; [done|]. by apply list_elem_of_further.
    + destruct (IH s1) as [H1 H2]; [rewrite Ha, fmap_app; by apply NoDup_snoc|]. split; [done|].
      intros r Hr. destruct (H2 r) as [?|[? ?]]; [rewrite Ha; set_solver|by left|right].
      split; [done|]. by apply list_elem_of_further.
    + assert (EthRequestTxID <$> actions s1 = EthRequestTxID <$> actions s) as Hk
        by (rewrite Ha; by apply update_rows_keys).
      destruct (IH s1) as [H1 H2]; [by rewrite Hk|]. split; [done|]. intros r Hr.
      destruct (decide (EthRequestTxID r = id)) as [<-|Hne].
      * assert (set_Mined r ∈ actions s1) as Hin.
        { rewrite Ha. unfold update_rows. apply list_elem_of_fmap. exists r. split; [|done].
          by rewrite decide_True by done. }
        right. split; [|apply list_elem_of_here]. by destruct (H2 _ Hin) as [H|[H _]].
      * assert (r ∈ actions s1) as Hin.
        { rewrite Ha. unfold update_rows. apply list_elem_of_fmap. exists r. split; [|done].
          by rewrite decide_False by done. }
        destruct (H2 _ Hin) as [H|[H ?]]; [by left|right]. split; [done|]. by apply list_elem_of_further.
Qed.
End lifecycle.

Definition sample_redeem_action : RedeemAction :=
  {| EthRequestTxID := "r1"; BtcHash := "b1"; Sent := true; Mined := false |}.
Definition sample_redeem_table : SQLiteRedeemStorage :=
  {| a_rows := [sample_redeem_action]; a_fault := fun _ => None |}.
Lemma redeem_tracking_witness :
  NoDup (EthRequestTxID <$> actions sample_redeem_table) /\
  find_row EthRequestTxID
    (actions (run (redeem_writes [WInsert {| EthRequestTxID := "r1"; BtcHash := "b2"; Sent := true; Mined := true |};
                                  WComplete "r1"]) sample_redeem_table)) "r1"
  = Some (set_Mined sample_redeem_action) /\
  NoDup (EthRequestTxID <$> actions (run (redeem_writes [WComplete "r1"]) sample_redeem_table)).
Proof.
  assert (NoDup (EthRequestTxID <$> actions sample_redeem_table)) as Hn by apply NoDup_singleton.
  split; [done|]. split; [by vm_compute|].
  exact (proj1 (redeem_tracking [WComplete "r1"] sample_redeem_table Hn)).
Defined.
