(* ===== verification/BtcTx.v ===== *)
(** * BtcTx: building and recognising Bitcoin transactions (package [btcman]).

    [BtcLib] is what the code uses of btcd (addresses, scripts, hashes, signatures), with its
    documented behaviour as laws and a concrete instance. On top of it: locker_impl.go, the
    assembler with its operators, utxo.go and the classification of transactions in
    utils/adapter.go. Transactions are built in place and dropped on an error, so the builders
    return the transaction. *)
From S2P Require Export BtcAction.

(** ** wire.MsgTx, as far as the bridge touches it *)
Record OutPoint := { op_Hash : bytes; op_Index : Z }.
Record TxIn := { PreviousOutPoint : OutPoint; SignatureScript : bytes }.
Record TxOut := { Value : Z; to_PkScript : bytes }.
Record MsgTx := { tx_in : list TxIn; tx_out : list TxOut }.
Record MsgBlock := { Header : bytes; Transactions : list MsgTx }.
#[global] Instance OutPoint_eq_dec : EqDecision OutPoint.
Proof. solve_decision. Defined.
#[global] Instance TxIn_eq_dec : EqDecision TxIn.
Proof. solve_decision. Defined.
#[global] Instance TxOut_eq_dec : EqDecision TxOut.
Proof. solve_decision. Defined.
#[global] Instance MsgTx_eq_dec : EqDecision MsgTx.
Proof. solve_decision. Defined.
Definition NewMsgTx : MsgTx := {| tx_in := []; tx_out := [] |}.
Definition AddTxOut (tx : MsgTx) (o : TxOut) : MsgTx :=
  {| tx_in := tx_in tx; tx_out := tx_out tx ++ [o] |}.
Definition AddTxIn (tx : MsgTx) (i : TxIn) : MsgTx :=
  {| tx_in := tx_in tx ++ [i]; tx_out := tx_out tx |}.
Definition set_script (i : nat) (script : bytes) (tx : MsgTx) : MsgTx :=
  {| tx_in := alter (fun t => {| PreviousOutPoint := PreviousOutPoint t; SignatureScript := script |})
                i (tx_in tx);
     tx_out := tx_out tx |}.

Definition OP_RETURN : byte := byte_of_Z 106.

Class BtcLib := {
  Params : Type; Address : Type; PrivateKey : Type; PublicKey : Type;
  DecodeAddress : string -> Params -> outcome Address;
  EncodeAddress : Address -> string;
  PayToAddrScript : Address -> outcome bytes;
  NullDataScript : bytes -> outcome bytes;
  ExtractPkScriptAddrs : bytes -> Params -> outcome (list Address);
  IsNullData : bytes -> bool;
  TxHash : MsgTx -> bytes;
  BlockHash : MsgBlock -> bytes;
  (** [chainhash.Hash.String] and [NewHashFromStr] *)
  HashStr : bytes -> string;
  NewHashFromStr : string -> outcome bytes;
  (** [txscript.SignatureScript] with [SigHashAll] and a compressed key, [CalcSignatureHash],
      and the script builder with two data pushes *)
  txscript_SignatureScript : MsgTx -> nat -> bytes -> PrivateKey -> outcome bytes;
  CalcSignatureHash : bytes -> MsgTx -> nat -> outcome bytes;
  TwoPushes : bytes -> bytes -> outcome bytes;
}.
(** Documented behaviour: a pay-to-address script pays to that address, a null-data script
    is OP_RETURN with one push (whose opcode is its length for 2 to 75 bytes), a single
    OP_RETURN is null data, and a hash prints as its bytes reversed, in hex. *)
Class BtcLibLaws `{B : BtcLib} : Prop := {
  law_pay s p a scr : DecodeAddress s p = Ok a -> PayToAddrScript a = Ok scr ->
    exists a', ExtractPkScriptAddrs scr p = Ok [a'] /\ EncodeAddress a' = EncodeAddress a;
  law_nulldata d : (2 <= length d <= 75)%nat ->
    NullDataScript d = Ok (OP_RETURN :: byte_of_Z (Z.of_nat (length d)) :: d) /\
    IsNullData (OP_RETURN :: byte_of_Z (Z.of_nat (length d)) :: d) = true;
  law_bare_return : IsNullData [OP_RETURN] = true;
  law_TxHash_length tx : length (TxHash tx) = 32%nat;
  law_HashStr h : HashStr h = hex_encode (rev h);
  law_NewHashFromStr h : length h = 32%nat -> NewHashFromStr (HashStr h) = Ok h;
}.

(** common/btcutils.go *)
Definition IsValidBtcAddress `{B : BtcLib} (address : string) (cfg : Params) : bool :=
  is_ok (DecodeAddress address cfg).

(** ** btcman/utxo *)
Inductive PubKeyScriptType := ANY_SCRIPT_T | P2PKH_SCRIPT_T | P2WPKH_SCRIPT_T.
(** [ux_TxHash] is a pointer *)
Record UTXO := {
  ux_TxID : string; ux_TxHash : option bytes; ux_Vout : Z; ux_Amount : Z;
  PkScriptT : PubKeyScriptType; ux_PkScript : bytes }.

(** The loop of [SelectUtxo]: the index at which the sum first exceeds the target *)
Fixpoint SelectUtxo_loop (target sum : Z) (idx : nat) (inputs : list UTXO) : option nat :=
  match inputs with
  | [] => None
  | item :: inputs =>
      let sum := i64 (sum + ux_Amount item) in
      if target <? sum then Some idx else SelectUtxo_loop target sum (S idx) inputs
  end.
Definition SelectUtxo (inputs : list UTXO) (amount fee : Z) : outcome (list UTXO) :=
  match SelectUtxo_loop (i64 (amount + fee)) 0 0 inputs with
  | None => Err "cannot satisfy requirement"
  | Some topIdx => Ok (take (topIdx + 1) inputs)
  end.
(** [for _, item := range prevOutputs { sum += item.Amount }] *)
Definition sum_utxos (l : list UTXO) : Z := foldl (fun sum item => i64 (sum + ux_Amount item)) 0 l.

(** ** Operators: who unlocks the inputs *)
Class Operator (O : Type) := Unlock : MsgTx -> list UTXO -> M O MsgTx.

Section assembler.
Context `{B : BtcLib, E : EthLib, R : RlpLib}.

(** locker_impl.go *)
Definition AppendPayToAddress (tx : MsgTx) (dst_chain_cfg : Params) (dst_addr : string) (amount : Z)
    : outcome MsgTx :=
  btcDstAddress ← DecodeAddress dst_addr dst_chain_cfg;
  txOutScript ← PayToAddrScript btcDstAddress;
  Ok (AddTxOut tx {| Value := amount; to_PkScript := txOutScript |}).

(** [wire.NewOutPoint] copies through the hash pointer. *)
Definition NewOutPoint (hash : option bytes) (index : Z) : outcome OutPoint :=
  match hash with
  | None => Panic "nil pointer dereference"
  | Some h => Ok {| op_Hash := h; op_Index := index |}
  end.
(** The first loop of [Unlock]: an input without script per previous output *)
Fixpoint add_inputs (tx : MsgTx) (prevOutputs : list UTXO) : outcome MsgTx :=
  match prevOutputs with
  | [] => Ok tx
  | item :: prevOutputs =>
      op ← NewOutPoint (ux_TxHash item) (ux_Vout item);
      add_inputs (AddTxIn tx {| PreviousOutPoint := op; SignatureScript := [] |}) prevOutputs
  end.
(** The second loop: a signature script for each of them *)
Fixpoint sign_inputs {O} (sign : MsgTx -> nat -> bytes -> M O bytes) (tx : MsgTx) (idx : nat)
    (prevOutputs : list UTXO) : M O MsgTx :=
  match prevOutputs with
  | [] => mret tx
  | item :: prevOutputs =>
      script ← sign tx idx (ux_PkScript item);
      sign_inputs sign (set_script idx script tx) (S idx) prevOutputs
  end.
Definition unlock_with {O} (sign : MsgTx -> nat -> bytes -> M O bytes) (tx : MsgTx)
    (prevOutputs : list UTXO) : M O MsgTx :=
  tx ← lift (add_inputs tx prevOutputs);
  sign_inputs sign tx 0 prevOutputs.

(** native_operator.go *)
Record NativeSigner := { ChainConfig : Params; PrivKey : PrivateKey; PubKey : PublicKey }.
Record NativeOperator := { native : NativeSigner; P2PKH : Address; P2WPKH : Address }.
#[global] Instance NativeOperator_Unlock : Operator NativeOperator :=
  unlock_with (fun tx idx pkScript =>
    lo ← get; lift (txscript_SignatureScript tx idx pkScript (PrivKey (native lo)))).

(** schnorr_operator.go, over the signing service: a public key (compressed) and signatures *)
Class SchnorrSigner (W : Type) := { Pub : M W bytes; Sign : bytes -> M W bytes }.
Section schnorr.
Context {W : Type} `{SchnorrSigner W}.
Definition RawTxInSignature (tx : MsgTx) (idx : nat) (subScript : bytes) : M W bytes :=
  hash ← lift (CalcSignatureHash subScript tx idx);
  signature ← Sign hash;
  mret (signature ++ [byte_of_Z 1]).
Definition schnorr_SignatureScript (tx : MsgTx) (idx : nat) (subscript : bytes) : M W bytes :=
  sig ← RawTxInSignature tx idx subscript;
  pk ← Pub;
  lift (TwoPushes sig pk).
(** the two loops of [Unlock] with this signature script *)
Definition schnorr_Unlock (tx : MsgTx) (prevOutputs : list UTXO) : M W MsgTx :=
  unlock_with schnorr_SignatureScript tx prevOutputs.
#[global] Instance SchnorrOperator_Unlock : Operator W := schnorr_Unlock.
End schnorr.

(** assembler.go *)
Section make.
Context {O : Type} `{Op : Operator O}.
Variable cfg : Params.

Definition append_change (tx : MsgTx) (change_addr : string) (change_amount : Z) : outcome MsgTx :=
  if 0 <? change_amount then AppendPayToAddress tx cfg change_addr change_amount else Ok tx.
Definition append_data (tx : MsgTx) (data : outcome bytes) : outcome MsgTx :=
  opReturnData ← data;
  opReturnScript ← NullDataScript opReturnData;
  Ok (AddTxOut tx {| Value := 0; to_PkScript := opReturnScript |}).
Definition craftTransferOutOutput (tx : MsgTx) (prevOutputs : list UTXO) (dst_addr : string)
    (dst_amount : Z) (change_addr : string) (fee_amount : Z) : outcome MsgTx :=
  let change_amount := i64 (i64 (sum_utxos prevOutputs - dst_amount) - fee_amount) in
  if change_amount <? 0 then Err "change_amount < 0"
  else
    tx ← AppendPayToAddress tx cfg dst_addr dst_amount;
    append_change tx change_addr change_amount.
Definition MakeTransferOutTx (dst_addr : string) (dst_amount : Z) (change_addr : string)
    (fee_amount : Z) (prevOutputs : list UTXO) : M O MsgTx :=
  tx ← lift (craftTransferOutOutput NewMsgTx prevOutputs dst_addr dst_amount change_addr fee_amount);
  Unlock tx prevOutputs.
Definition craftRedeemOutput (tx : MsgTx) (prevOutputs : list UTXO) (dst_addr : string)
    (dst_amount : Z) (redeemData : bytes) (change_addr : string) (fee_amount : Z) : outcome MsgTx :=
  let sum := sum_utxos prevOutputs in
  let change_amount := i64 (i64 (sum - dst_amount) - fee_amount) in
  if change_amount <? 0
  then Err ("change_amount < 0, sum: " +:+ int_Text 10 sum +:+ ", dst_amount: "
            +:+ int_Text 10 dst_amount +:+ ", fee_amount: " +:+ int_Text 10 fee_amount)
  else
    tx ← AppendPayToAddress tx cfg dst_addr dst_amount;
    tx ← append_data tx (MakeRedeemOpReturnData redeemData);
    append_change tx change_addr change_amount.
Definition MakeRedeemTx (dst_addr : string) (dst_amount : Z) (redeemData : bytes)
    (change_addr : string) (fee_amount : Z) (prevOutputs : list UTXO) : M O MsgTx :=
  tx ← lift (craftRedeemOutput NewMsgTx prevOutputs dst_addr dst_amount redeemData change_addr
               fee_amount);
  Unlock tx prevOutputs.
Definition craftBridgeDepositOutputs (tx : MsgTx) (prevOutputs : list UTXO)
    (btc_bridge_address : string) (btc_bridge_amount fee_amount : Z) (btc_change_address : string)
    (evm_addr : string) (evm_chain_id : Z) : outcome MsgTx :=
  let change_amount := i64 (i64 (sum_utxos prevOutputs - btc_bridge_amount) - fee_amount) in
  if change_amount <? 0 then Err "change_amount < 0"
  else
    tx ← AppendPayToAddress tx cfg btc_bridge_address btc_bridge_amount;
    tx ← append_data tx (MakeDepositOpReturnData evm_chain_id evm_addr);
    append_change tx btc_change_address change_amount.
Definition MakeBridgeDepositTx (prevOutputs : list UTXO) (btc_bridge_address : string)
    (btc_bridge_amount fee_amount : Z) (btc_change_address : string) (evm_addr : string)
    (evm_chain_id : Z) : M O MsgTx :=
  tx ← lift (craftBridgeDepositOutputs NewMsgTx prevOutputs btc_bridge_address btc_bridge_amount
               fee_amount btc_change_address evm_addr evm_chain_id);
  Unlock tx prevOutputs.
End make.

(** ** utils/adapter.go *)
(** the condition on an output that pays to [target] *)
Definition pays_to (output : TxOut) (target : Address) (p : Params) : bool :=
  match ExtractPkScriptAddrs (to_PkScript output) p with
  | Ok (a :: _) => bool_decide (EncodeAddress a = EncodeAddress target) && negb (Value output =? 0)
  | _ => false
  end.
Definition is_op_return (output : TxOut) : bool :=
  (Value output =? 0) && IsNullData (to_PkScript output).
Definition MaybeDepositTx (tx : MsgTx) (targetAddress : Address) (chainParams : Params) : bool :=
  match tx_out tx with
  | output1 :: output2 :: _ => pays_to output1 targetAddress chainParams && is_op_return output2
  | _ => false
  end.
Fixpoint transfers_from (i : nat) (outs : list TxOut) (target : Address) (p : Params)
    : list (nat * Z) :=
  match outs with
  | [] => []
  | output :: outs =>
      (if pays_to output target p then [(i, Value output)] else []) ++
      transfers_from (S i) outs target p
  end.
Definition MaybeJustTransfer (tx : MsgTx) (targetAddress : Address) (chainParams : Params)
    : list (nat * Z) := transfers_from 0 (tx_out tx) targetAddress chainParams.
(** [tx.TxOut[i]] *)
Definition output_at (tx : MsgTx) (i : nat) : outcome TxOut :=
  match tx_out tx !! i with Some o => Ok o | None => Panic "index out of range" end.
Definition CraftDepositAction (tx : MsgTx) (blockHeight : Z) (block : MsgBlock)
    (targetAddress : Address) (chainParams : Params) : outcome DepositAction :=
  output2 ← output_at tx 1;
  data ← DecodeOpReturnData (to_PkScript output2);
  output1 ← output_at tx 0;
  Ok {| da_Basic := {| ba_BlockNumber := blockHeight; ba_BlockHash := HashStr (BlockHash block);
                       ba_TxHash := HashStr (TxHash tx) |};
        DepositValue := Value output1; DepositReceiver := EncodeAddress targetAddress;
        EvmID := i32 (ByteArrayToInt (EVM_CHAIN_ID data));
        EvmAddr := ByteArrayToHexString (EVM_ADDR data) |}.
Definition MaybeRedeemTx (tx : MsgTx) (changeAddress : Address) (chainParams : Params) : bool :=
  match tx_out tx with
  | _ :: output_n_1 :: output_n_2 :: _ =>
      is_op_return output_n_1 && pays_to output_n_2 changeAddress chainParams
  | _ => false
  end.
End assembler.

(** utils/string.go *)
Definition Remove0xPrefix (input : string) : string :=
  if HasPrefix input "0x" then drop_string 2 input else input.
Definition Add0xPrefix (input : string) : string :=
  if HasPrefix input "0x" then input else ("0x" +:+ input)%string.

(** ** A concrete library, to evaluate the model on closed inputs *)
Definition demo_TxHash (tx : MsgTx) : bytes :=
  pad_crop 32 (concat ((fun i => op_Hash (PreviousOutPoint i)) <$> tx_in tx)
               ++ big_Bytes (foldr (fun o n => Value o + n) 0 (tx_out tx))).
#[global] Instance btc_model : BtcLib := {|
  Params := unit; Address := string; PrivateKey := unit; PublicKey := unit;
  DecodeAddress s _ := if (String.length s =? 0)%nat then Err "empty address" else Ok s;
  EncodeAddress a := a;
  PayToAddrScript a := Ok (byte_of_Z 118 :: bytes_of_string a);
  NullDataScript d := if (length d <=? 80)%nat
                      then Ok (OP_RETURN :: byte_of_Z (Z.of_nat (length d)) :: d)
                      else Err "data size exceeds max allowed size";
  ExtractPkScriptAddrs scr _ :=
    match scr with
    | c :: rest => if bool_decide (c = byte_of_Z 118) then Ok [string_of_bytes rest] else Ok []
    | [] => Ok []
    end;
  IsNullData scr := match scr with c :: _ => bool_decide (c = OP_RETURN) | [] => false end;
  TxHash := demo_TxHash;
  BlockHash b := pad_crop 32 (Header b);
  HashStr h := hex_encode (rev h);
  NewHashFromStr s := match hex_decode s with (b, true) => Ok (rev b) | _ => Err "encoding/hex" end;
  txscript_SignatureScript tx idx pk _ := Ok (byte_of_Z (Z.of_nat idx) :: pk);
  CalcSignatureHash scr tx idx := Ok (demo_TxHash tx);
  TwoPushes a b := Ok (a ++ b);
|}.
#[global] Instance btc_model_laws : BtcLibLaws.
Proof.
  split; cbn -[pad_crop hex_encode hex_decode byte_of_Z Nat.leb]; intros.
  - destruct (String.length s =? 0)%nat; simplify_eq.
    rewrite bool_decide_eq_true_2 by done. rewrite string_of_bytes_of_string. eauto.
  - rewrite (proj2 (Nat.leb_le _ _)) by lia. by split.
  - done.
  - apply pad_crop_length.
  - done.
  - rewrite hex_decode_encode. by rewrite rev_involutive.
Qed.

(** ** What an operator promises *)
Definition outpoint_of_utxo (u : UTXO) : option OutPoint :=
  (fun h => {| op_Hash := h; op_Index := ux_Vout u |}) <$> ux_TxHash u.
(** unlocking adds one input per previous output, in their order, and keeps the outputs *)
Class OperatorLaws (O : Type) `{Op : Operator O} : Prop :=
  law_unlock tx prev o tx' o' : Unlock tx prev o = (Ok tx', o') ->
    tx_out tx' = tx_out tx /\
    Some ∘ PreviousOutPoint <$> tx_in tx' =
      (Some ∘ PreviousOutPoint <$> tx_in tx) ++ (outpoint_of_utxo <$> prev).

Section unlock.
Context `{B : BtcLib}.
Lemma add_inputs_spec tx prev tx' : add_inputs tx prev = Ok tx' ->
  tx_out tx' = tx_out tx /\
  Some ∘ PreviousOutPoint <$> tx_in tx' =
    (Some ∘ PreviousOutPoint <$> tx_in tx) ++ (outpoint_of_utxo <$> prev).
Proof.
  revert tx. induction prev as [|u prev IH]; intros tx; cbn [add_inputs].
  - intros [= <-]. by rewrite app_nil_r.
  - unfold mbind, outcome_bind, NewOutPoint. destruct (ux_TxHash u) as [h|] eqn:Hu; [|done].
    intros [-> ->]%IH. split; [done|]. cbn. rewrite fmap_app, <-app_assoc. cbn.
    unfold outpoint_of_utxo at 2. by rewrite Hu.
Qed.
Lemma set_script_spec i scr tx :
  tx_out (set_script i scr tx) = tx_out tx /\
  Some ∘ PreviousOutPoint <$> tx_in (set_script i scr tx) = Some ∘ PreviousOutPoint <$> tx_in tx.
Proof.
  split; [done|]. cbn. apply list_eq. intros j. rewrite !list_lookup_fmap.
  destruct (decide (i = j)) as [<-|Hne].
  - rewrite list_lookup_alter_eq. by destruct (tx_in tx !! i).
  - by rewrite list_lookup_alter_ne.
Qed.
Lemma sign_inputs_spec {O} (sign : MsgTx -> nat -> bytes -> M O bytes) prev i tx o tx' o' :
  sign_inputs sign tx i prev o = (Ok tx', o') ->
  tx_out tx' = tx_out tx /\
  Some ∘ PreviousOutPoint <$> tx_in tx' = Some ∘ PreviousOutPoint <$> tx_in tx.
Proof.
  revert i tx o. induction prev as [|u prev IH]; intros i tx o; cbn [sign_inputs].
  - rewrite ret_eq. by intros [= <- _].
  - rewrite bind_eq. destruct (sign _ _ _ o) as [[scr|e|w] o1]; [|done..].
    intros [H1 H2]%IH. destruct (set_script_spec i scr tx) as [H3 H4]. split; congruence.
Qed.
Lemma unlock_with_spec {O} (sign : MsgTx -> nat -> bytes -> M O bytes) tx prev o tx' o' :
  unlock_with sign tx prev o = (Ok tx', o') ->
  tx_out tx' = tx_out tx /\
  Some ∘ PreviousOutPoint <$> tx_in tx' =
    (Some ∘ PreviousOutPoint <$> tx_in tx) ++ (outpoint_of_utxo <$> prev).
Proof.
  unfold unlock_with. rewrite bind_eq, lift_eq. destruct (add_inputs tx prev) as [tx1|e|w] eqn:Ha; [|done..].
  intros [H1 H2]%sign_inputs_spec. apply add_inputs_spec in Ha as [H3 H4]. split; congruence.
Qed.
(** unlocking fails only when a signature fails *)
Lemma sign_inputs_fails {O} (sign : MsgTx -> nat -> bytes -> M O bytes) prev : forall i tx o,
  is_ok (result (sign_inputs sign tx i prev) o) = false ->
  exists tx' i' pk o', is_ok (result (sign tx' i' pk) o') = false.
Proof.
  induction prev as [|u prev IH]; intros i tx o; cbn [sign_inputs]; [done|].
  unfold result at 1. rewrite bind_eq. destruct (sign tx i (ux_PkScript u) o) as [[scr|e|w] o1] eqn:Hs; cbn.
  - apply IH.
  - intros _. exists tx, i, (ux_PkScript u), o. unfold result. by rewrite Hs.
  - intros _. exists tx, i, (ux_PkScript u), o. unfold result. by rewrite Hs.
Qed.
Lemma add_inputs_ok prev : forall tx, Forall (fun u => is_Some (ux_TxHash u)) prev -> is_ok (add_inputs tx prev) = true.
Proof.
  induction prev as [|u prev IH]; intros tx Hp; [done|]. apply Forall_cons in Hp as [[h Hh] Hp].
  cbn [add_inputs]. unfold NewOutPoint. rewrite Hh. cbn. by apply IH.
Qed.
Lemma native_unlock_fails prev tx (o : NativeOperator) : Forall (fun u => is_Some (ux_TxHash u)) prev ->
  is_ok (result (Unlock tx prev) o) = false ->
  exists tx' i pk key, is_ok (txscript_SignatureScript tx' i pk key) = false.
Proof.
  intros Hp. unfold Unlock, NativeOperator_Unlock, unlock_with. unfold result. rewrite bind_eq, lift_eq.
  pose proof (add_inputs_ok prev tx Hp) as Ha. destruct (add_inputs tx prev) as [tx1|e|w]; [|done..].
  intros (tx' & i & pk & o' & H)%sign_inputs_fails. exists tx', i, pk, (PrivKey (native o')). exact H.
Qed.
#[global] Instance NativeOperator_laws : OperatorLaws NativeOperator.
Proof. intros tx prev o tx' o'. apply unlock_with_spec. Qed.
#[global] Instance SchnorrOperator_laws {W} `{SchnorrSigner W} : OperatorLaws W.
Proof. intros tx prev o tx' o'. apply unlock_with_spec. Qed.
End unlock.

(** ** Amounts *)
Definition total_in (l : list UTXO) : Z := foldr (fun u n => ux_Amount u + n) 0 l.
Definition total_out (l : list TxOut) : Z := foldr (fun o n => Value o + n) 0 l.
Lemma total_in_nonneg l : Forall (fun u => 0 <= ux_Amount u) l -> 0 <= total_in l.
Proof. induction 1; cbn [total_in foldr]; [lia|]. unfold total_in in *. lia. Qed.
Lemma sum_utxos_exact l :
  Forall (fun u => 0 <= ux_Amount u) l -> total_in l < 2 ^ 63 -> sum_utxos l = total_in l.
Proof.
  unfold sum_utxos. enough (forall a, 0 <= a -> Forall (fun u => 0 <= ux_Amount u) l ->
    a + total_in l < 2 ^ 63 ->
    foldl (fun sum item => i64 (sum + ux_Amount item)) a l = a + total_in l) as H.
  { intros. rewrite H; [done|lia|done|lia]. }
  induction l as [|u l IH]; intros a Ha Hl Hs; [cbn; lia|].
  apply Forall_cons in Hl as [Hu Hl]. cbn [foldl].
  change (total_in (u :: l)) with (ux_Amount u + total_in l) in *.
  pose proof (total_in_nonneg l Hl). rewrite (swrap_small 64) by lia.
  rewrite IH; [lia|lia|done|lia].
Qed.
Lemma change_exact l dst fee :
  Forall (fun u => 0 <= ux_Amount u) l -> total_in l < 2 ^ 63 -> 0 <= dst -> 0 <= fee ->
  dst + fee <= 2 ^ 63 -> i64 (i64 (sum_utxos l - dst) - fee) = total_in l - dst - fee.
Proof.
  intros Hl Ht Hd Hf Hs. rewrite sum_utxos_exact by done. pose proof (total_in_nonneg l Hl).
  rewrite (swrap_small 64 (total_in l - dst)) by lia. apply swrap_small; lia.
Qed.

(** ** The transactions the bridge and its users build *)
Section made.
Context `{BL : BtcLibLaws, E : EthLib, R : RlpLib}.
Variable cfg : Params.

(** the script that pays to an address given as a string *)
Definition pay_script (addr : string) : outcome bytes := DecodeAddress addr cfg ≫= PayToAddrScript.
Lemma AppendPayToAddress_eq tx addr v :
  AppendPayToAddress tx cfg addr v =
  (scr ← pay_script addr; Ok (AddTxOut tx {| Value := v; to_PkScript := scr |})).
Proof. unfold AppendPayToAddress, pay_script. by destruct (DecodeAddress addr cfg). Qed.
Definition data_output (data : bytes) : TxOut :=
  {| Value := 0; to_PkScript := OP_RETURN :: byte_of_Z (Z.of_nat (length data)) :: data |}.
Lemma append_data_eq tx data :
  (2 <= length data <= 75)%nat -> append_data tx (Ok data) = Ok (AddTxOut tx (data_output data)).
Proof. intros Hd. unfold append_data. cbn. by rewrite (proj1 (law_nulldata data Hd)). Qed.
Definition change_outputs (v : Z) (scr : bytes) : list TxOut :=
  if 0 <? v then [{| Value := v; to_PkScript := scr |}] else [].
Lemma append_change_eq tx addr v scr :
  pay_script addr = Ok scr ->
  append_change cfg tx addr v =
  Ok {| tx_in := tx_in tx; tx_out := tx_out tx ++ change_outputs v scr |}.
Proof.
  intros Hs. unfold append_change, change_outputs. destruct (0 <? v).
  - by rewrite AppendPayToAddress_eq, Hs.
  - rewrite app_nil_r. by destruct tx.
Qed.
Lemma change_outputs_total v scr : 0 <= v -> total_out (change_outputs v scr) = v.
Proof. intros Hv. unfold change_outputs. destruct (Z.ltb_spec 0 v); cbn; lia. Qed.
Lemma pays_to_script addr a scr v :
  DecodeAddress addr cfg = Ok a -> pay_script addr = Ok scr ->
  pays_to {| Value := v; to_PkScript := scr |} a cfg = negb (v =? 0).
Proof.
  intros Ha Hs. unfold pay_script in Hs. rewrite Ha in Hs. cbn in Hs.
  destruct (law_pay _ _ _ _ Ha Hs) as (a' & He & Hea). unfold pays_to. cbn. rewrite He.
  by rewrite bool_decide_eq_true_2.
Qed.

Section redeem.
Context {O : Type} `{OL : OperatorLaws O}.
Variables (dst_addr change_addr : string) (dst_scr change_scr : bytes).
Hypothesis dst_ok : pay_script dst_addr = Ok dst_scr.
Hypothesis change_ok : pay_script change_addr = Ok change_scr.

Lemma MakeRedeemTx_eq dst data fee prev (o : O) :
  Forall (fun u => 0 <= ux_Amount u) prev -> total_in prev < 2 ^ 63 -> 0 <= dst -> 0 <= fee ->
  dst + fee <= 2 ^ 63 -> length data = 32%nat -> dst + fee <= total_in prev ->
  MakeRedeemTx cfg dst_addr dst data change_addr fee prev o =
  Unlock {| tx_in := [];
            tx_out := {| Value := dst; to_PkScript := dst_scr |} :: data_output data ::
                      change_outputs (total_in prev - dst - fee) change_scr |} prev o.
Proof.
  intros Hp Ht Hd Hf Hs Hl Hc. unfold MakeRedeemTx. rewrite bind_eq, lift_eq.
  unfold craftRedeemOutput. rewrite change_exact by done.
  rewrite (proj2 (Z.ltb_ge _ _)) by lia. rewrite AppendPayToAddress_eq, dst_ok.
  cbn [mbind outcome_bind]. unfold MakeRedeemOpReturnData, RedeemData_Serialize.
  rewrite append_data_eq by lia. cbn [mbind outcome_bind].
  rewrite (append_change_eq _ _ _ _ change_ok). done.
Qed.

(** C16: a redeem transaction conserves value. With enough inputs, the transaction handed to
    the operator pays [dst_amount] to the receiver, carries the request hash in an OP_RETURN
    output of value 0, and pays the rest less the fee to the change address, with no change
    output when nothing is left; whatever the operator returns spends exactly the given
    outpoints in order, has these outputs, and inputs = outputs + fee. With less than
    [dst_amount + fee] it is refused and nothing is signed. *)
Theorem redeem_tx_conserves dst data fee prev (o : O) :
  Forall (fun u => 0 <= ux_Amount u) prev -> total_in prev < 2 ^ 63 -> 0 <= dst -> 0 <= fee ->
  dst + fee <= 2 ^ 63 -> length data = 32%nat ->
  if decide (total_in prev < dst + fee)
  then exists e, MakeRedeemTx cfg dst_addr dst data change_addr fee prev o = (Err e, o)
  else
    let outs := {| Value := dst; to_PkScript := dst_scr |} :: data_output data ::
                change_outputs (total_in prev - dst - fee) change_scr in
    MakeRedeemTx cfg dst_addr dst data change_addr fee prev o =
      Unlock {| tx_in := []; tx_out := outs |} prev o /\
    forall tx o', MakeRedeemTx cfg dst_addr dst data change_addr fee prev o = (Ok tx, o') ->
      tx_out tx = outs /\ total_in prev = total_out (tx_out tx) + fee /\
      Some ∘ PreviousOutPoint <$> tx_in tx = outpoint_of_utxo <$> prev.
Proof.
  intros Hp Ht Hd Hf Hs Hl. destruct (decide _) as [Hlt|Hge]; cbv zeta.
  - unfold MakeRedeemTx. rewrite bind_eq, lift_eq. unfold craftRedeemOutput.
    rewrite change_exact by done. rewrite (proj2 (Z.ltb_lt _ _)) by lia. eauto.
  - rewrite MakeRedeemTx_eq by (done || lia). split; [done|]. intros tx o' Hu.
    apply law_unlock in Hu as [-> ->]. cbn. split_and!; [done| |done].
    change (foldr (fun o n => Value o + n) 0 ?l) with (total_out l).
    rewrite change_outputs_total; lia.
Qed.
End redeem.
End made.

(** A wallet, addresses and UTXOs to run the builders on *)
Definition sample_operator : NativeOperator := {|
  native := {| ChainConfig := tt; PrivKey := tt; PubKey := tt |}; P2PKH := "bridge"%string;
  P2WPKH := "bridge"%string |}.
Definition sample_utxo (n amount : Z) : UTXO := {|
  ux_TxID := HashStr (sample_hash n); ux_TxHash := Some (sample_hash n); ux_Vout := 0;
  ux_Amount := amount; PkScriptT := ANY_SCRIPT_T; ux_PkScript := [] |}.
Definition sample_redeem_run : outcome MsgTx * NativeOperator :=
  MakeRedeemTx tt "user" 70000 (sample_hash 9) "bridge" 10000
    [sample_utxo 1 60000; sample_utxo 2 40000] sample_operator.
Lemma redeem_tx_conserves_witness :
  exists tx o', sample_redeem_run = (Ok tx, o') /\ total_out (tx_out tx) = 90000.
Proof.
  pose proof (redeem_tx_conserves (B := btc_model) tt (O := NativeOperator) "user" "bridge"
    (byte_of_Z 118 :: bytes_of_string "user") (byte_of_Z 118 :: bytes_of_string "bridge")
    eq_refl eq_refl 70000 (sample_hash 9) 10000 [sample_utxo 1 60000; sample_utxo 2 40000]
    sample_operator ltac:(by repeat constructor) eq_refl ltac:(lia) ltac:(lia) ltac:(lia) eq_refl) as H.
  rewrite decide_False in H by (vm_compute; done). destruct H as [_ H].
  assert (is_ok sample_redeem_run.1 = true) as Hok by (vm_compute; reflexivity).
  unfold sample_redeem_run in *. destruct (MakeRedeemTx _ _ _ _ _ _ _ _) as [[tx|e|w] o']; [|done..].
  exists tx, o'. split; [done|]. destruct (H tx o' eq_refl) as (_ & Ht & _).
  replace (total_in _) with 100000 in Ht by (vm_compute; reflexivity). lia.
Defined.

(** ** Deposits: what a user builds is what the bridge reads *)
Section deposit.
Context `{BL : BtcLibLaws, EL : EthLibLaws, RL : RlpLaws}.
Context {O : Type} `{OL : OperatorLaws O}.
Variables (cfg : Params) (bridge change : string) (a : Address) (change_scr : bytes).
Hypothesis bridge_ok : DecodeAddress bridge cfg = Ok a.
Hypothesis change_ok : pay_script cfg change = Ok change_scr.

Lemma deposit_payload chain_id addr : 0 <= chain_id < 2 ^ 32 ->
  exists data dd, MakeDepositOpReturnData chain_id addr = Ok data /\ length data = 27%nat /\
    DecodeOpReturnData (to_PkScript (data_output data)) = Ok dd /\
    ByteArrayToInt (EVM_CHAIN_ID dd) = chain_id /\ EVM_ADDR dd = HexToAddress addr.
Proof.
  intros Hc. pose proof (IntToByteArray_cases chain_id) as Hi.
  replace ((0 <=? chain_id) && (chain_id <? 2 ^ 32)) with true in Hi by lia.
  destruct Hi as (b & Hb & Hl & Hv).
  assert (DepositData_wf {| EVM_CHAIN_ID := b; EVM_ADDR := HexToAddress addr |}) as Hwf
    by (split; [done|apply HexToAddress_length]).
  exists (rlp_EncodeToBytes {| EVM_CHAIN_ID := b; EVM_ADDR := HexToAddress addr |}),
         {| EVM_CHAIN_ID := b; EVM_ADDR := HexToAddress addr |}.
  split_and!; [|by apply rlp_encode_length| |done|done].
  - unfold MakeDepositOpReturnData, EvmAddrToByteArray. rewrite Hb. cbn [mbind outcome_bind].
    pose proof (HexToAddress_length addr) as Ha. rewrite Ha. cbn.
    unfold copy_array. by rewrite Ha, take_ge, app_nil_r by (by rewrite Ha).
  - unfold DecodeOpReturnData, data_output. cbn. by rewrite drop_0, rlp_decode_encode.
Qed.

Lemma MakeBridgeDepositTx_out amount fee addr chain_id prev (o : O) tx o' :
  Forall (fun u => 0 <= ux_Amount u) prev -> total_in prev < 2 ^ 63 -> 0 <= amount -> 0 <= fee ->
  amount + fee <= 2 ^ 63 -> 0 <= chain_id < 2 ^ 32 ->
  MakeBridgeDepositTx cfg prev bridge amount fee change addr chain_id o = (Ok tx, o') ->
  exists scr data, pay_script cfg bridge = Ok scr /\
    MakeDepositOpReturnData chain_id addr = Ok data /\ amount + fee <= total_in prev /\
    tx_out tx = {| Value := amount; to_PkScript := scr |} :: data_output data ::
                change_outputs (total_in prev - amount - fee) change_scr.
Proof.
  intros Hp Ht Ha Hf Hs Hc. unfold MakeBridgeDepositTx. rewrite bind_eq, lift_eq.
  unfold craftBridgeDepositOutputs. rewrite change_exact by done.
  destruct (Z.ltb_spec (total_in prev - amount - fee) 0); [done|].
  rewrite AppendPayToAddress_eq. destruct (pay_script cfg bridge) as [scr|e|w] eqn:Hb; [|done..].
  destruct (deposit_payload chain_id addr Hc) as (data & dd & Hm & Hl & _).
  cbn [mbind outcome_bind]. rewrite Hm, append_data_eq by lia. cbn [mbind outcome_bind].
  rewrite (append_change_eq _ _ _ _ _ change_ok). intros [Ho _]%law_unlock.
  exists scr, data. split_and!; [done|done|lia|exact Ho].
Qed.

(** with enough inputs, the transaction handed to the operator *)
Lemma MakeBridgeDepositTx_eq amount fee addr chain_id prev scr (o : O) :
  Forall (fun u => 0 <= ux_Amount u) prev -> total_in prev < 2 ^ 63 -> 0 <= amount -> 0 <= fee ->
  amount + fee <= total_in prev -> 0 <= chain_id < 2 ^ 32 -> pay_script cfg bridge = Ok scr ->
  exists data, MakeDepositOpReturnData chain_id addr = Ok data /\
    MakeBridgeDepositTx cfg prev bridge amount fee change addr chain_id o =
    Unlock {| tx_in := [];
              tx_out := {| Value := amount; to_PkScript := scr |} :: data_output data ::
                        change_outputs (total_in prev - amount - fee) change_scr |} prev o.
Proof.
  intros Hp Ht Ha Hf Hs Hc Hb. destruct (deposit_payload chain_id addr Hc) as (data & dd & Hm & Hl & _).
  exists data. split; [done|]. unfold MakeBridgeDepositTx. rewrite bind_eq, lift_eq.
  unfold craftBridgeDepositOutputs. rewrite change_exact by (done || lia).
  rewrite (proj2 (Z.ltb_ge _ _)) by lia. rewrite AppendPayToAddress_eq, Hb.
  cbn [mbind outcome_bind]. rewrite Hm, append_data_eq by lia. cbn [mbind outcome_bind].
  rewrite (append_change_eq _ _ _ _ _ change_ok). done.
Qed.

Lemma deposit_recognised amount fee addr chain_id prev (o : O) tx o' height block :
  Forall (fun u => 0 <= ux_Amount u) prev -> total_in prev < 2 ^ 63 -> 0 < amount -> 0 <= fee ->
  amount + fee <= 2 ^ 63 -> 0 <= chain_id < 2 ^ 32 ->
  MakeBridgeDepositTx cfg prev bridge amount fee change addr chain_id o = (Ok tx, o') ->
  MaybeDepositTx tx a cfg = true /\
  exists d, CraftDepositAction tx height block a cfg = Ok d /\
    DepositValue d = amount /\ EvmID d = i32 chain_id /\
    HexToAddress (EvmAddr d) = HexToAddress addr /\ da_TxHash d = HashStr (TxHash tx).
Proof.
  intros Hp Ht Ha Hf Hs Hc Hm.
  destruct (MakeBridgeDepositTx_out amount fee addr chain_id prev o tx o') as (scr & data & Hb & Hd & _ & Ho);
    [done|done|lia|done..|].
  destruct (deposit_payload chain_id addr Hc) as (data' & dd & Hd' & Hl & Hdec & Hid & Hev).
  assert (data' = data) as -> by congruence. split.
  - unfold MaybeDepositTx. rewrite Ho, (pays_to_script cfg bridge a scr amount bridge_ok Hb).
    rewrite (proj2 (Z.eqb_neq _ _)) by lia. unfold is_op_return, data_output. cbn.
    by apply law_nulldata; lia.
  - unfold CraftDepositAction, output_at. rewrite Ho. cbn [lookup list_lookup mbind outcome_bind].
    rewrite Hdec. cbn [mbind outcome_bind]. eexists. split; [done|]. cbn. split_and!; [done| | |done].
    + by rewrite Hid.
    + rewrite Hev. unfold ByteArrayToHexString. rewrite BytesToAddress_spec by apply HexToAddress_length.
      apply HexToAddress_AddressHex, HexToAddress_length.
Qed.

(** C35: deposits round trip: a transaction that a user builds with [MakeBridgeDepositTx], for a
    chain id of 32 bits, is recognised by the bridge as a deposit, whatever operator signed it,
    and the deposit the bridge reads has the amount, the transaction's id and the receiver the
    user gave.  The chain id is written as 32 unsigned bits and read as an int32: the bridge reads
    the user's chain id exactly when it is below 2^31; the ids from 2^31 on, which the
    writer accepts, are read as the negative number [chain_id - 2^32]. *)
Theorem deposit_roundtrip amount fee addr chain_id prev (o : O) tx o' height block :
  Forall (fun u => 0 <= ux_Amount u) prev -> total_in prev < 2 ^ 63 -> 0 < amount -> 0 <= fee ->
  amount + fee <= 2 ^ 63 -> 0 <= chain_id < 2 ^ 32 ->
  MakeBridgeDepositTx cfg prev bridge amount fee change addr chain_id o = (Ok tx, o') ->
  MaybeDepositTx tx a cfg = true /\
  exists d, CraftDepositAction tx height block a cfg = Ok d /\
    DepositValue d = amount /\
    EvmID d = (if decide (chain_id < 2 ^ 31) then chain_id else chain_id - 2 ^ 32) /\
    HexToAddress (EvmAddr d) = HexToAddress addr /\ da_TxHash d = HashStr (TxHash tx).
Proof.
  intros Hp Ht Ha Hf Hs Hc Hm.
  destruct (deposit_recognised amount fee addr chain_id prev o tx o' height block Hp Ht Ha Hf Hs Hc Hm)
    as (H & d & Hd & Hv & Hid & Hr). split; [exact H|]. exists d. split; [exact Hd|]. split; [exact Hv|].
  split; [|exact Hr]. rewrite Hid. destruct (decide _) as [Hlt|Hge]; [by apply swrap_small; lia|].
  unfold swrap. change (32 - 1) with 31. rewrite <-(Z_mod_plus_full _ (-1)).
  rewrite Z.mod_small by lia. lia.
Qed.

(** An OP_RETURN output without data passes for a deposit, and reading it panics. *)
Lemma bare_return_panics output1 rest ins height block :
  pays_to output1 a cfg = true ->
  let tx := {| tx_in := ins;
               tx_out := output1 :: {| Value := 0; to_PkScript := [OP_RETURN] |} :: rest |} in
  MaybeDepositTx tx a cfg = true /\
  CraftDepositAction tx height block a cfg = Panic "slice bounds out of range".
Proof.
  intros Hp tx. split; [|done]. unfold MaybeDepositTx. cbn. rewrite Hp. unfold is_op_return. cbn.
  apply law_bare_return.
Qed.
End deposit.

Definition sample_deposit_run : outcome MsgTx * NativeOperator :=
  MakeBridgeDepositTx tt [sample_utxo 1 60000] "bridge" 50000 10000 "user"
    "0x00000000000000000000000000000000000000ab" 11155111 sample_operator.
Definition sample_deposit_tx : MsgTx :=
  match sample_deposit_run.1 with Ok tx => tx | _ => NewMsgTx end.
Lemma sample_deposit_ok : sample_deposit_run = (Ok sample_deposit_tx, sample_deposit_run.2).
Proof.
  assert (is_ok sample_deposit_run.1 = true) as Hok by (vm_compute; reflexivity).
  unfold sample_deposit_tx. destruct sample_deposit_run as [[tx|e|w] o']; done.
Qed.
Lemma deposit_roundtrip_witness :
  length (tx_out sample_deposit_tx) = 2%nat /\ MaybeDepositTx sample_deposit_tx "bridge"%string tt = true.
Proof.
  split; [vm_compute; reflexivity|].
  pose proof (fun h1 h2 => deposit_roundtrip (B := btc_model) (O := NativeOperator) tt "bridge" "user" "bridge"%string
    (byte_of_Z 118 :: bytes_of_string "user") h1 h2 50000 10000
    "0x00000000000000000000000000000000000000ab" 11155111 [sample_utxo 1 60000] sample_operator
    sample_deposit_tx sample_deposit_run.2 5 {| Header := []; Transactions := [] |}) as H.
  destruct H as [H _]; [reflexivity|reflexivity|by repeat constructor|reflexivity|lia..
                       |exact sample_deposit_ok|exact H].
Defined.
