(* ===== verification/BtcRpc.v ===== *)
(** * BtcRpc: the client of the Bitcoin node (btcman/rpc/rpc_client.go).

    [BtcNode] is the node's JSON-RPC interface as btcd's client offers it: the calls may
    change the node's state and may fail. The wrapper's functions follow. *)
From S2P Require Export BtcTx.

Lemma rev_lookup {A} (l : list A) i : (i < length l)%nat -> rev l !! i = l !! (length l - S i)%nat.
Proof. intros Hi. rewrite rev_alt. by apply reverse_lookup. Qed.

(** one item of [ListUnspentMinMaxAddresses] *)
Record ListUnspentItem := { li_TxID : string; li_Vout : Z }.

Class BtcNode `{B : BtcLib} (N : Type) := {
  GetBlockCount : M N Z;
  GetBlockHash : Z -> M N bytes;
  GetBlock : bytes -> M N MsgBlock;
  (** the height in [GetBlockHeaderVerbose] *)
  GetBlockHeaderHeight : bytes -> M N Z;
  GetRawTransaction : bytes -> M N MsgTx;
  ListUnspentMinMaxAddresses : Z -> Z -> Address -> M N (list ListUnspentItem);
  SendRawTransaction : MsgTx -> M N bytes;
}.
Definition MAX_CONFIRM : Z := 9999999.

Section client.
Context `{B : BtcLib} {N : Type} `{BN : @BtcNode B N}.

Definition GetTx (TxID : string) : M N MsgTx :=
  txHash ← lift (NewHashFromStr TxID);
  GetRawTransaction txHash.
Definition GetLatestBlockHeight : M N Z := GetBlockCount.
Definition GetBlockHeightByHash (blockHash : bytes) : M N Z := GetBlockHeaderHeight blockHash.

(** The loop of [GetBlocks]: [n] blocks down from [targetHeight], newest first *)
Fixpoint GetBlocks_loop (n : nat) (targetHeight : Z) (err : error) : M N (list MsgBlock) :=
  match n with
  | O => mret []
  | S n =>
      if targetHeight <? 0 then throw err
      else
        hash ← GetBlockHash targetHeight;
        b ← GetBlock hash;
        myBlocks ← GetBlocks_loop n (targetHeight - 1) err;
        mret (b :: myBlocks)
  end.
(** The in-place [reverse] *)
Definition reverse_step {T} (i : nat) (s : list T) : list T :=
  let n := length s in
  match s !! i, s !! (n - i - 1)%nat with
  | Some a, Some b => <[(n - i - 1)%nat := a]> (<[i := b]> s)
  | _, _ => s
  end.
Definition reverse {T} (s : list T) : list T :=
  foldl (fun s i => reverse_step i s) s (seq 0 (length s / 2)).
(** [n] and [offset] are [int]s; the list is oldest first *)
Definition GetBlocks (n offset : Z) : M N (list MsgBlock) :=
  latestHeight ← GetBlockCount;
  if (offset <? 0) || (n <=? 0)
  then throw ("invalid offset or number of blocks: offset=" +:+ int_Text 10 offset
              +:+ ", n=" +:+ int_Text 10 n)
  else
    myBlocks ← GetBlocks_loop (Z.to_nat n) (latestHeight - offset)
      ("latest height is " +:+ int_Text 10 latestHeight +:+ ", requested " +:+ int_Text 10 n
       +:+ " blocks with offset " +:+ int_Text 10 offset);
    mret (if (1 <? length myBlocks)%nat then reverse myBlocks else myBlocks).

(** [IsPayToPubKeyHash] and [IsPayToWitnessPubKeyHash] are btcd's. *)
Variables IsPayToPubKeyHash IsPayToWitnessPubKeyHash : bytes -> bool.
Fixpoint GetUtxoList_loop (items : list ListUnspentItem) : M N (list UTXO) :=
  match items with
  | [] => mret []
  | item :: items =>
      txRaw ← GetTx (li_TxID item);
      outputPoint ← lift (output_at txRaw (Z.to_nat (li_Vout item)));
      let pkType := if IsPayToPubKeyHash (to_PkScript outputPoint) then P2PKH_SCRIPT_T
                    else if IsPayToWitnessPubKeyHash (to_PkScript outputPoint) then P2WPKH_SCRIPT_T
                    else ANY_SCRIPT_T in
      u ← GetUtxoList_loop items;
      mret ({| ux_TxID := li_TxID item; ux_TxHash := Some (TxHash txRaw); ux_Vout := li_Vout item;
               ux_Amount := Value outputPoint; PkScriptT := pkType;
               ux_PkScript := to_PkScript outputPoint |} :: u)
  end.
Definition GetUtxoList (myAddress : Address) (offset : Z) : M N (list UTXO) :=
  unspentOutputs ← ListUnspentMinMaxAddresses offset MAX_CONFIRM myAddress;
  GetUtxoList_loop unspentOutputs.
Definition SendRawTx (tx : MsgTx) : M N bytes := SendRawTransaction tx.
Definition GetBalance (myAddress : Address) (offset : Z) : M N Z :=
  utxos ← GetUtxoList myAddress offset; mret (sum_utxos utxos).
End client.

(** ** The in-place reversal is [rev] *)
Lemma reverse_step_spec {T} (s : list T) i a b :
  (i < length s - i - 1)%nat -> s !! i = Some a -> s !! (length s - i - 1)%nat = Some b ->
  length (reverse_step i s) = length s /\
  reverse_step i s !! i = Some b /\ reverse_step i s !! (length s - i - 1)%nat = Some a /\
  forall j, j <> i -> j <> (length s - i - 1)%nat -> reverse_step i s !! j = s !! j.
Proof.
  intros Hi Ha Hb. unfold reverse_step. rewrite Ha, Hb.
  pose proof (lookup_lt_Some _ _ _ Ha). pose proof (lookup_lt_Some _ _ _ Hb).
  split_and!.
  - by rewrite !length_insert.
  - rewrite list_lookup_insert_ne by lia. by apply list_lookup_insert_eq.
  - apply list_lookup_insert_eq. rewrite length_insert. lia.
  - intros j H1 H2. by rewrite !list_lookup_insert_ne.
Qed.
Lemma reverse_loop_spec {T} (s : list T) k : (2 * k <= length s)%nat ->
  let t := foldl (fun s i => reverse_step i s) s (seq 0 k) in
  length t = length s /\
  forall j, (j < length s)%nat ->
    t !! j = if decide (j < k \/ length s - k <= j)%nat then s !! (length s - 1 - j)%nat else s !! j.
Proof.
  induction k as [|k IH]; intros Hk; cbv zeta.
  - split; [done|]. intros j Hj. rewrite decide_False by lia. done.
  - destruct IH as [Hl IH]; [lia|]. rewrite seq_S, foldl_app. cbn [foldl Nat.add].
    set (t := foldl _ s (seq 0 k)) in *.
    destruct (lookup_lt_is_Some_2 t k) as [a Ha]; [lia|].
    destruct (lookup_lt_is_Some_2 t (length t - k - 1)%nat) as [b Hb]; [lia|].
    destruct (reverse_step_spec t k a b) as (H1 & H2 & H3 & H4); [lia|done..|].
    rewrite Hl in *. split; [done|]. intros j Hj.
    destruct (decide (j = k)) as [->|Hjk]; [|destruct (decide (j = length s - k - 1)%nat) as [->|Hjn]].
    + rewrite decide_True by lia. rewrite H2, <-Hb, IH by lia. rewrite decide_False by lia. f_equal; lia.
    + rewrite decide_True by lia. rewrite H3, <-Ha, IH by lia. rewrite decide_False by lia. f_equal; lia.
    + rewrite H4, IH by done. destruct (decide (j < k \/ length s - k <= j)%nat);
        [rewrite decide_True by lia|rewrite decide_False by lia]; done.
Qed.
Lemma reverse_rev {T} (s : list T) : reverse s = rev s.
Proof.
  pose proof (Nat.div_mod_eq (length s) 2) as Hd. pose proof (Nat.mod_upper_bound (length s) 2).
  destruct (reverse_loop_spec s (length s / 2)) as [Hl Hs]; [lia|]. apply list_eq. intros j.
  destruct (decide (j < length s)%nat) as [Hj|Hj].
  - unfold reverse. rewrite Hs, rev_lookup by done. case_decide as Hlt; [f_equal; lia|].
    assert (j = length s - S j)%nat as <- by lia. done.
  - rewrite !lookup_ge_None_2; [done|rewrite length_rev; lia|unfold reverse; lia].
Qed.

(** ** What the monitor relies on of a node *)
Class BtcNodeLaws `{B : BtcLib} (N : Type) `{BN : @BtcNode B N} := {
  chain : N -> list MsgBlock;
  node_up : N -> Prop;
  (** the chain may grow at any call; it is not reorganised *)
  grows (s s' : N) : Prop := chain s `prefix_of` chain s' /\ node_up s';
  law_count s : node_up s -> exists s', grows s s' /\
    GetBlockCount s = (Ok (Z.of_nat (length (chain s')) - 1), s');
  law_hash s h b : node_up s -> chain s !! h = Some b -> exists s', grows s s' /\
    GetBlockHash (Z.of_nat h) s = (Ok (BlockHash b), s');
  law_block s h b : node_up s -> chain s !! h = Some b -> exists s', grows s s' /\
    GetBlock (BlockHash b) s = (Ok b, s');
  law_heights s : node_up s -> Z.of_nat (length (chain s)) < 2 ^ 62;
  law_height s h b : node_up s -> chain s !! h = Some b -> exists s', grows s s' /\
    GetBlockHeaderHeight (BlockHash b) s = (Ok (Z.of_nat h), s');
}.

Section node.
Context `{NL : BtcNodeLaws}.
Lemma grows_trans s1 s2 s3 : grows s1 s2 -> grows s2 s3 -> grows s1 s3.
Proof. intros [H1 _] [H2 H3]. split; [by etrans|done]. Qed.
Lemma grows_lookup s s' h b : grows s s' -> chain s !! h = Some b -> chain s' !! h = Some b.
Proof. intros [H _] Hb. by eapply prefix_lookup_Some. Qed.

(** the [n] blocks below height [h + 1], newest first *)
Definition blocks_down (c : list MsgBlock) (h n : nat) : list MsgBlock :=
  rev (take n (drop (S h - n) c)).
Lemma blocks_down_S c h n b : (S n <= S h)%nat -> c !! h = Some b ->
  blocks_down c h (S n) = b :: match h with O => [] | S h' => blocks_down c h' n end.
Proof.
  intros Hn Hb. unfold blocks_down.
  assert (forall m k, (m + k = h)%nat -> take (S k) (drop m c) = take k (drop m c) ++ [b]) as Htake.
  { intros m k Hmk. apply take_S_r. by rewrite lookup_drop, Hmk. }
  destruct h as [|h'].
  - destruct n; [|lia]. cbn [Nat.sub]. rewrite (Htake 0%nat 0%nat) by lia. by rewrite take_0.
  - rewrite (Htake (S (S h') - S n)%nat n) by lia. rewrite rev_app_distr. cbn [rev app].
    do 2 f_equal.
Qed.
Lemma GetBlocks_loop_spec n : forall s h err, node_up s -> (h < length (chain s))%nat ->
  exists s', grows s s' /\
    GetBlocks_loop n (Z.of_nat h) err s =
    (if decide (n <= S h)%nat then Ok (blocks_down (chain s) h n) else Err err, s').
Proof.
  induction n as [|n IH]; intros s h err Hs Hh.
  - exists s. split; [by split|]. rewrite decide_True by lia. cbn [GetBlocks_loop].
    unfold blocks_down. by rewrite take_0.
  - cbn [GetBlocks_loop]. rewrite (proj2 (Z.ltb_ge _ _)) by lia.
    destruct (lookup_lt_is_Some_2 _ _ Hh) as [b Hb].
    destruct (law_hash s h b Hs Hb) as (s1 & G1 & E1). rewrite bind_eq, E1. clear E1.
    destruct (law_block s1 h b (proj2 G1) (grows_lookup _ _ _ _ G1 Hb)) as (s2 & G2 & E2).
    rewrite bind_eq, E2. clear E2. rewrite bind_eq.
    pose proof (grows_trans _ _ _ G1 G2) as G.
    destruct h as [|h].
    + change (Z.of_nat 0 - 1) with (-1). destruct n as [|n].
      * cbn [GetBlocks_loop]. mstep. exists s2. split; [done|].
        rewrite decide_True by lia. by rewrite (blocks_down_S _ _ _ b).
      * cbn [GetBlocks_loop]. exists s2. split; [done|]. rewrite decide_False by lia. done.
    + replace (Z.of_nat (S h) - 1) with (Z.of_nat h) by lia.
      assert (h < length (chain s2))%nat as Hh2.
      { destruct G as [G _]. apply prefix_length in G. lia. }
      destruct (IH s2 h err (proj2 G) Hh2) as (s3 & G3 & ->). exists s3. split; [by eapply grows_trans|].
      destruct (decide (n <= S h)%nat).
      * rewrite decide_True by lia. mstep. do 2 f_equal. rewrite (blocks_down_S _ _ _ b) by (done || lia).
        f_equal. unfold blocks_down. f_equal. destruct G as [[ext Hl] _]. rewrite Hl.
        rewrite drop_app_le by lia. rewrite take_app_le; [done|]. rewrite length_drop. lia.
      * rewrite decide_False by lia. done.
Qed.
(** On a node that is up, [GetBlocks n offset] returns the [n] blocks that end [offset]
    blocks below the tip, oldest first, and fails when there are fewer. *)
Lemma GetBlocks_spec s n offset : node_up s -> 0 < n -> 0 <= offset ->
  exists L s', (length (chain s) <= L)%nat /\ (L <= length (chain s'))%nat /\ grows s s' /\
    (if decide (n + offset <= Z.of_nat L)
    then GetBlocks n offset s =
           (Ok (take (Z.to_nat n) (drop (L - Z.to_nat offset - Z.to_nat n) (chain s'))), s')
    else exists e, GetBlocks n offset s = (Err e, s')).
Proof.
  intros Hs Hn Ho. unfold GetBlocks. destruct (law_count s Hs) as (s1 & G1 & E1).
  rewrite bind_eq, E1. rewrite (proj2 (Z.ltb_ge _ _)), (proj2 (Z.leb_gt _ _)) by lia.
  cbn [orb]. set (L := length (chain s1)). exists L.
  assert (length (chain s) <= L)%nat by (destruct G1 as [G1 _]; by apply prefix_length).
  destruct (decide (offset < Z.of_nat L)) as [Hlt|Hge].
  2: { exists s1. split_and!; [done|done|done|]. rewrite decide_False by lia. rewrite bind_eq.
       destruct (Z.to_nat n) as [|k] eqn:Hk; [lia|]. cbn [GetBlocks_loop].
       rewrite (proj2 (Z.ltb_lt _ _)) by (fold L; lia). eauto. }
  replace (Z.of_nat L - 1 - offset) with (Z.of_nat (L - 1 - Z.to_nat offset)) by lia.
  rewrite bind_eq.
  edestruct (GetBlocks_loop_spec (Z.to_nat n) s1 (L - 1 - Z.to_nat offset)) as (s2 & G2 & E2);
    [exact (proj2 G1)|fold L; lia|]. rewrite E2. clear E2.
  exists s2. destruct G2 as [[l Hl] Hup]. split_and!; [done|rewrite Hl, length_app; fold L; lia| |].
  { split; [|done]. destruct G1 as [[k Hk] _]. rewrite Hl, Hk. eexists. by rewrite <-app_assoc. }
  destruct (decide (n + offset <= Z.of_nat L)) as [Hle|Hgt].
  - rewrite decide_True by lia. mstep. f_equal. f_equal. rewrite reverse_rev.
    set (t := blocks_down _ _ _). assert (t = rev (take (Z.to_nat n) (drop (L - Z.to_nat offset - Z.to_nat n) (chain s2)))) as ->.
    { unfold t, blocks_down. f_equal. rewrite Hl, drop_app_le by (fold L; lia).
      replace (S (L - 1 - Z.to_nat offset)) with (L - Z.to_nat offset)%nat by lia.
      rewrite take_app_le; [done|]. rewrite length_drop. fold L. lia. }
    rewrite rev_involutive. destruct (Nat.ltb_spec 1 (length (rev (take (Z.to_nat n) (drop (L - Z.to_nat offset - Z.to_nat n) (chain s2)))))) as [_|Hsh]; [done|].
    rewrite length_rev in Hsh. destruct (take _ _) as [|b1 [|b2 u]]; [done|done|cbn in Hsh; lia].
  - rewrite decide_False by lia. eauto.
Qed.
End node.

(** ** A node to run the model on: a fixed chain that accepts every transaction *)
Record toy_node := { toy_chain : list MsgBlock }.
Definition toy_read {T} (e : error) (f : list MsgBlock -> option T) : M toy_node T := fun s =>
  (match f (toy_chain s) with Some x => Ok x | None => Err e end, s).
#[global] Instance toy_btc : BtcNode toy_node := {|
  GetBlockCount := toy_read "" (fun c => Some (Z.of_nat (length c) - 1));
  GetBlockHash h := toy_read "Block height out of range" (fun c => BlockHash <$> c !! Z.to_nat h);
  GetBlock h := toy_read "Block not found" (fun c => find_row BlockHash c h);
  GetBlockHeaderHeight h := toy_read "Block not found" (fun c =>
    (fun p => Z.of_nat p.1) <$> list_find (fun b => BlockHash b = h) c);
  GetRawTransaction h := toy_read "No such mempool or blockchain transaction" (fun c =>
    find_row TxHash (concat (Transactions <$> c)) h);
  ListUnspentMinMaxAddresses _ _ _ := toy_read "" (fun _ => Some []);
  SendRawTransaction tx := mret (TxHash tx);
|}.
#[global] Program Instance toy_btc_laws : BtcNodeLaws toy_node := {|
  chain := toy_chain; node_up s := NoDup (BlockHash <$> toy_chain s) /\ Z.of_nat (length (toy_chain s)) < 2 ^ 62 |}.
Next Obligation. intros s Hs. exists s. by split. Qed.
Next Obligation.
  intros s h b [Hs Hl] Hb. exists s. split; [by split|]. cbn -[BlockHash]. unfold toy_read.
  by rewrite Nat2Z.id, Hb.
Qed.
Next Obligation.
  intros s h b [Hs Hl] Hb. exists s. split; [by split|]. cbn -[BlockHash]. unfold toy_read.
  rewrite find_row_elem; [done..|]. by eapply list_elem_of_lookup_2.
Qed.
Next Obligation. by intros s [_ Hl]. Qed.
Next Obligation.
  intros s h b [Hs Hl] Hb. exists s. split; [by split|]. cbn -[BlockHash]. unfold toy_read.
  destruct (list_find _ (toy_chain s)) as [[i b']|] eqn:Hf.
  - apply list_find_Some in Hf as (Hi & Hbb & _). cbn [fmap option_fmap option_map].
    assert (i = h) as ->; [|done].
    eapply (NoDup_lookup _ _ _ (BlockHash b) Hs); rewrite list_lookup_fmap; [rewrite Hi; cbn -[BlockHash]; by rewrite Hbb|by rewrite Hb].
  - apply list_find_None in Hf. exfalso. rewrite Forall_forall in Hf.
    apply (Hf b); [by eapply list_elem_of_lookup_2|done].
Qed.
