(* ===== verification/BtcUser.v ===== *)
(** * BtcUser: the account of a Bitcoin user (cmd/btc_user.go, cmd/utils.go, cmd/btc_user_cmd/main.go).

    How a user's tool builds its keys and its client, checks its balance, selects outputs and sends
    a deposit to the bridge or a transfer; and the dialogue of the command line over the lines typed.
    The state is the node the client talks to. *)
From S2P Require Export BtcRpc.

(** ** Keys and the wallet calls of the node (btcd) *)
Record ConnConfig := {
  Host : string; cc_User : string; Pass : string; HTTPPostMode : bool; DisableTLS : bool }.
Class BtcKeyLib `{B : BtcLib} := {
  WIF : Type;
  base58_Decode : string -> bytes;
  btcutil_DecodeWIF : string -> outcome WIF;
  wif_PrivKey : WIF -> PrivateKey;
  PublicOf : PrivateKey -> PublicKey;
  SerializeCompressed : PublicKey -> bytes;
  Hash160 : bytes -> bytes;
  NewAddressPubKeyHash : bytes -> Params -> outcome Address;
  NewAddressWitnessPubKeyHash : bytes -> Params -> outcome Address;
  MainNetParams : Params; TestNet3Params : Params; RegressionNetParams : Params;
  (** [*chaincfg.Params] are compared as pointers *)
  Params_eq_dec :: EqDecision Params;
}.
Class BtcWalletNode `{B : BtcLib} `{K : @BtcKeyLib B} (N : Type) := {
  rpcclient_New : ConnConfig -> outcome unit;
  ImportPrivKeyRescan : WIF -> string -> bool -> M N unit;
  ImportAddressRescan : string -> string -> bool -> M N unit;
  (** a failed [DecodeAddress] passes a nil address *)
  GenerateToAddress : Z -> option Address -> M N (list bytes);
}.

Section account.
Context `{E : EthLib, R : RlpLib, B : BtcLib} `{K : @BtcKeyLib B}.

(** *** assembler/common.go, assembler/native_operator.go *)
Definition DecodeWIF (privKeyStr : string) : outcome WIF :=
  let decoded := base58_Decode privKeyStr in
  if (length decoded =? 0)%nat
  then Err "invalid private key string (cannot pass base58 decode)"
  else btcutil_DecodeWIF privKeyStr.
Definition GetMainnetParams : Params := MainNetParams.
Definition GetTestnetParams : Params := TestNet3Params.
Definition GetRegtestParams : Params := RegressionNetParams.
Definition NewNativeSigner (priv_key_wif_str : string) (chain_config : Params) : outcome NativeSigner :=
  priv_key_wif ← DecodeWIF priv_key_wif_str;
  Ok {| ChainConfig := chain_config; PrivKey := wif_PrivKey priv_key_wif;
        PubKey := PublicOf (wif_PrivKey priv_key_wif) |}.
Definition NewNativeOperator (bw : NativeSigner) : outcome NativeOperator :=
  p2pkhAddr ← NewAddressPubKeyHash (Hash160 (SerializeCompressed (PubKey bw))) (ChainConfig bw);
  p2wpkhAddr ← NewAddressWitnessPubKeyHash (Hash160 (SerializeCompressed (PubKey bw))) (ChainConfig bw);
  Ok {| native := bw; P2PKH := p2pkhAddr; P2WPKH := p2wpkhAddr |}.

(** *** btcman/rpc/rpc_client.go: the connection and the wallet calls *)
Record RpcClientConfig := { rcc_ServerAddr : string; rcc_Port : string; rcc_Username : string; rcc_Pwd : string }.
Record RpcClient := { ServerAddr : string; Port : string; Username : string; Pwd : string }.
Context {N : Type} `{BN : @BtcNode B N} `{WN : !BtcWalletNode N}.
Definition NewRpcClient (rcc : RpcClientConfig) : outcome RpcClient :=
  rpcclient_New {| Host := (rcc_ServerAddr rcc +:+ ":" +:+ rcc_Port rcc)%string;
                   cc_User := rcc_Username rcc; Pass := rcc_Pwd rcc;
                   HTTPPostMode := true; DisableTLS := true |} ;;
  Ok {| ServerAddr := rcc_ServerAddr rcc; Port := rcc_Port rcc; Username := rcc_Username rcc;
        Pwd := rcc_Pwd rcc |}.
Definition ImportPrivateKey (wif : WIF) (label : string) : M N unit := ImportPrivKeyRescan wif label true.
Definition ImportAddress (address label : string) : M N unit := ImportAddressRescan address label true.
Definition GenerateBlocks (numBlocks : Z) (coinbase : option Address) : M N (list bytes) :=
  GenerateToAddress numBlocks coinbase.
(** cmd/utils.go; [logger.Fatalf] ends the process *)
Definition SetupBtcRpc (server port username password : string) : outcome RpcClient :=
  match NewRpcClient {| rcc_ServerAddr := server; rcc_Port := port; rcc_Username := username;
                        rcc_Pwd := password |} with
  | Err err => Panic ("failed to create btc rpc client: " +:+ err)
  | r => r
  end.

(** *** cmd/btc_user.go *)
Definition USER_MATURE_OFFSET : Z := 1.
Definition REGTEST_COINBASE_ADDR : string := "mkVXZnqaaKt4puQNr4ovPHYg48mjguFCnT".
Definition REGTEST_GENERATE_BLOCKS : Z := 101.
Definition REGTEST_FEE_SATOSHI : Z := 10000.
Record BtcUserConfig := {
  BtcRpcServer : string; BtcRpcPort : string; BtcRpcUsername : string; BtcRpcPwd : string;
  BtcChainConfig : Params; BtcCoreAccountPriv : string; BtcCoreAccountAddr : string }.
(** [asm_ChainConfig] and [asm_Op] are the fields of [MyAssembler] *)
Record BtcUser := {
  BtcRpcClient : RpcClient; MyLegacySigner : NativeOperator; asm_ChainConfig : Params;
  asm_Op : NativeOperator; MyUserConfig : BtcUserConfig }.

(** [None] is the nil pointer: an address that does not match is logged, and the nil error of the
    last call is returned with it. *)
Definition NewBtcUser (buc : BtcUserConfig) (registerAddress : bool) : M N (option BtcUser) :=
  myBtcRpcClient ← lift (SetupBtcRpc (BtcRpcServer buc) (BtcRpcPort buc) (BtcRpcUsername buc) (BtcRpcPwd buc));
  basic_signer ← lift (NewNativeSigner (BtcCoreAccountPriv buc) (BtcChainConfig buc));
  legacy_signer ← lift (NewNativeOperator basic_signer);
  let user_addr := EncodeAddress (P2PKH legacy_signer) in
  if negb (String.eqb user_addr (BtcCoreAccountAddr buc)) then mret None
  else
    (if registerAddress then ImportAddress user_addr "" else mret tt) ;;
    mret (Some {| BtcRpcClient := myBtcRpcClient; MyLegacySigner := legacy_signer;
                  asm_ChainConfig := BtcChainConfig buc; asm_Op := legacy_signer; MyUserConfig := buc |}).

Variables IsPayToPubKeyHash IsPayToWitnessPubKeyHash : bytes -> bool.
Section user.
Variable bu : BtcUser.

Definition user_GetUtxos : M N (list UTXO) :=
  GetUtxoList IsPayToPubKeyHash IsPayToWitnessPubKeyHash (P2PKH (MyLegacySigner bu)) USER_MATURE_OFFSET.
Definition user_GetBalance : M N Z :=
  GetBalance IsPayToPubKeyHash IsPayToWitnessPubKeyHash (P2PKH (MyLegacySigner bu)) USER_MATURE_OFFSET.
(** The first part of [DepositToBridge] and of [TransferOut]: the guard on the balance, then the
    outputs to spend *)
Definition select_funds (amount feeAmount : Z) : M N (list UTXO) :=
  balance ← user_GetBalance;
  if balance <? i64 (amount + feeAmount)
  then throw ("not enough balance: have " +:+ int_Text 10 balance +:+ ", need "
              +:+ int_Text 10 (i64 (amount + feeAmount)))%string
  else
    utxos ← user_GetUtxos;
    lift (SelectUtxo utxos amount feeAmount).
(** the operator signs with its key and has no state of its own *)
Definition with_operator {A} (m : M NativeOperator A) : M N A := lift (result m (asm_Op bu)).
Definition DepositToBridge (amount feeAmount : Z) (bridgeAddress evmAddr : string) (evmChainId : Z)
    : M N string :=
  selected_utxos ← select_funds amount feeAmount;
  tx ← with_operator (MakeBridgeDepositTx (asm_ChainConfig bu) selected_utxos bridgeAddress amount
         feeAmount (BtcCoreAccountAddr (MyUserConfig bu)) evmAddr evmChainId);
  depositBtcTxHash ← SendRawTx tx;
  mret (HashStr depositBtcTxHash).
Definition TransferOut (amount feeAmount : Z) (receiverAddr : string) : M N string :=
  selected_utxos ← select_funds amount feeAmount;
  tx ← with_operator (MakeTransferOutTx (asm_ChainConfig bu) receiverAddr amount
         (BtcCoreAccountAddr (MyUserConfig bu)) feeAmount selected_utxos);
  transferBtcTxHash ← SendRawTx tx;
  mret (HashStr transferBtcTxHash).
Definition MineEnoughBlocks : M N (list bytes) :=
  if negb (bool_decide (BtcChainConfig (MyUserConfig bu) = RegressionNetParams))
  then throw "MineEnoughBlocks() only works in btc regtest mode"
  else
    let coinbase_addr := match DecodeAddress REGTEST_COINBASE_ADDR (BtcChainConfig (MyUserConfig bu)) with
                         | Ok a => Some a | _ => None end in
    GenerateBlocks REGTEST_GENERATE_BLOCKS coinbase_addr.

(** *** cmd/btc_user_cmd/main.go: the dialogue. The state is the node and the lines still to be
    read from the terminal; [scanner.Scan] at the end of the input leaves an empty text. *)
Definition terminal : Type := N * list string.
Definition ReadLine : M terminal string := fun t =>
  match t.2 with
  | [] => (Ok ""%string, t)
  | l :: lines => (Ok (TrimSpace l), (t.1, lines))
  end.
Definition on_account {A} : M N A -> M terminal A := zoom fst (fun n t => (n, t.2)).
Definition MIN_AMOUNT : Z := 100000.
Definition dust_error : error :=
  "amount must be greater than 100,000 otherwise considered as dust attack on BTC".
Definition ReadAmount : M terminal Z :=
  l ← ReadLine; amountToSend ← lift (Atoi l);
  if amountToSend <? MIN_AMOUNT then throw dust_error else mret amountToSend.
Definition ReadInt : M terminal Z := l ← ReadLine; lift (Atoi l).
(** a balance that is too small is only printed here *)
Definition sendDeposit : M terminal string :=
  bridgeBtcWalletAddress ← ReadLine;
  amountToSend ← ReadAmount;
  feeAmount ← ReadInt;
  ethReceiverAddress ← ReadLine;
  ethNetworkID ← ReadInt;
  on_account user_GetBalance ;;
  on_account (DepositToBridge amountToSend feeAmount bridgeBtcWalletAddress ethReceiverAddress ethNetworkID).
Definition sendTransfer : M terminal string :=
  receiverBtcWalletAddress ← ReadLine;
  amountToSend ← ReadAmount;
  feeAmount ← ReadInt;
  on_account user_GetBalance ;;
  on_account (TransferOut amountToSend feeAmount receiverBtcWalletAddress).
(** one turn of the loop of [main]: false when the input has ended *)
Definition main_turn : M terminal bool :=
  lines ← gets snd;
  match lines with
  | [] => mret false
  | _ =>
      input ← ReadLine;
      (if String.eqb input "1" then ignore (on_account user_GetBalance)
       else if String.eqb input "2" then ignore (on_account user_GetUtxos)
       else if String.eqb input "3" then ignore sendDeposit
       else if String.eqb input "4" then ignore (on_account MineEnoughBlocks)
       else if String.eqb input "5" then ignore sendTransfer
       else mret tt) ;;
      mret true
  end.
Fixpoint main_loop (turns : nat) : M terminal unit :=
  match turns with
  | O => mret tt
  | S turns => go_on ← main_turn; if go_on : bool then main_loop turns else mret tt
  end.
End user.

(** the configuration file, and [BTC_CHAIN_CONFIG]: an unknown name means regtest *)
Definition chain_params (name : string) : Params :=
  if String.eqb name "testnet" then TestNet3Params
  else if String.eqb name "mainnet" then MainNetParams
  else RegressionNetParams.
Definition PrepareBtcUserConfig (GetString : string -> string) : BtcUserConfig := {|
  BtcRpcServer := GetString "BTC_RPC_SERVER"; BtcRpcPort := GetString "BTC_RPC_PORT";
  BtcRpcUsername := GetString "BTC_RPC_USERNAME"; BtcRpcPwd := GetString "BTC_RPC_PWD";
  BtcChainConfig := chain_params (GetString "BTC_CHAIN_CONFIG");
  BtcCoreAccountPriv := GetString "BTC_CORE_ACCOUNT_PRIV";
  BtcCoreAccountAddr := GetString "BTC_CORE_ACCOUNT_ADDR" |}.
End account.

(** ** Selecting outputs *)
Lemma total_in_app l k : total_in (l ++ k) = total_in l + total_in k.
Proof. induction l as [|u l IH]; [done|]. cbn [app total_in foldr] in *. unfold total_in in *. lia. Qed.
Lemma SelectUtxo_loop_spec target l : forall sum idx,
  Forall (fun u => 0 <= ux_Amount u) l -> 0 <= sum -> sum + total_in l < 2 ^ 63 ->
  match SelectUtxo_loop target sum idx l with
  | None => sum + total_in l <= target \/ l = []
  | Some i => exists k, i = (idx + k)%nat /\ (k < length l)%nat /\ target < sum + total_in (take (S k) l) /\
      (k = 0%nat \/ sum + total_in (take k l) <= target)
  end.
Proof.
  induction l as [|u l IH]; intros sum idx Hl Hs Ht; cbn [SelectUtxo_loop]; [by right|].
  apply Forall_cons in Hl as [Hu Hl]. change (total_in (u :: l)) with (ux_Amount u + total_in l) in *.
  pose proof (total_in_nonneg l Hl). rewrite (swrap_small 64) by lia.
  destruct (Z.ltb_spec target (sum + ux_Amount u)) as [Hlt|Hge].
  - exists 0%nat. cbn [length take total_in foldr]. rewrite Z.add_0_r. split_and!; [lia|lia|lia|by left].
  - specialize (IH (sum + ux_Amount u) (S idx) Hl ltac:(lia) ltac:(lia)).
    destruct (SelectUtxo_loop _ _ _ l) as [i|].
    + destruct IH as (k & -> & Hk & H1 & H2). exists (S k).
      assert (forall n, total_in (take (S n) (u :: l)) = ux_Amount u + total_in (take n l)) as Htk by done.
      rewrite !Htk. cbn [length]. split_and!; [lia|lia|lia|right]. destruct H2 as [-> | H2].
      * assert (total_in (take 0 l) = 0) as -> by done. lia.
      * lia.
    + left. destruct IH as [IH|IH]; [lia|]. subst l. cbn. lia.
Qed.
(** [SelectUtxo] takes the shortest prefix whose sum exceeds the amount and the fee; a sum that is
    exactly enough is refused. *)
Lemma SelectUtxo_spec l amount fee :
  Forall (fun u => 0 <= ux_Amount u) l -> total_in l < 2 ^ 63 -> 0 <= amount + fee < 2 ^ 63 ->
  if decide (total_in l <= amount + fee) then SelectUtxo l amount fee = Err "cannot satisfy requirement"
  else exists k, (k < length l)%nat /\ SelectUtxo l amount fee = Ok (take (S k) l) /\
    total_in (take k l) <= amount + fee < total_in (take (S k) l).
Proof.
  intros Hl Ht Ha. unfold SelectUtxo. rewrite (swrap_small 64) by lia.
  pose proof (SelectUtxo_loop_spec (amount + fee) l 0 0 Hl ltac:(lia) ltac:(lia)) as H.
  destruct (SelectUtxo_loop _ _ _ l) as [i|].
  - destruct H as (k & -> & Hk & H1 & H2). rewrite decide_False.
    + exists k. rewrite Nat.add_1_r. split_and!; [done|done| |lia].
      destruct H2 as [-> | H2]; [change (total_in (take 0 l)) with 0; lia|lia].
    + intros Hle. pose proof (total_in_app (take (S k) l) (drop (S k) l)) as Hd. rewrite take_drop in Hd.
      pose proof (total_in_nonneg (drop (S k) l) (Forall_drop _ _ _ Hl)). lia.
  - rewrite decide_True; [done|]. destruct H as [H|H]; [lia|]. subst l. cbn. lia.
Qed.

(** ** What the user relies on of the node *)
(** the unspent outputs of an address, the transactions the node knows, and those it accepted *)
Record wallet `{B : BtcLib} := {
  w_unspent : Address -> list ListUnspentItem; w_known : bytes -> option MsgTx; w_sent : list MsgTx }.
Class BtcUserLaws `{B : BtcLib} (N : Type) `{BN : @BtcNode B N} := {
  view : N -> wallet;
  wallet_up : N -> Prop;
  (** nothing else spends the account while the tool runs *)
  reads (s s' : N) : Prop := wallet_up s' /\ view s' = view s;
  law_unspent s a : wallet_up s -> exists s', reads s s' /\
    ListUnspentMinMaxAddresses USER_MATURE_OFFSET MAX_CONFIRM a s = (Ok (w_unspent (view s) a), s');
  law_known s h tx : wallet_up s -> w_known (view s) h = Some tx -> exists s', reads s s' /\
    GetRawTransaction h s = (Ok tx, s');
  (** an unspent output is an output of a transaction the node knows *)
  law_output s a item : wallet_up s -> item ∈ w_unspent (view s) a -> exists h tx o,
    NewHashFromStr (li_TxID item) = Ok h /\ w_known (view s) h = Some tx /\
    tx_out tx !! Z.to_nat (li_Vout item) = Some o /\ 0 <= Value o;
  (** a transaction is accepted, or refused with an error *)
  law_sending s tx : wallet_up s -> exists s', wallet_up s' /\
    ((SendRawTransaction tx s = (Ok (TxHash tx), s') /\ w_sent (view s') = w_sent (view s) ++ [tx]) \/
     exists e, SendRawTransaction tx s = (Err e, s') /\ w_sent (view s') = w_sent (view s));
}.

Section laws.
Context `{E : EthLib, R : RlpLib, B : BtcLib} {N : Type} `{UL : @BtcUserLaws B N BN}.
Variables IsPayToPubKeyHash IsPayToWitnessPubKeyHash : bytes -> bool.

(** the output an item of the wallet stands for *)
Definition utxo_of (w : wallet) (item : ListUnspentItem) : option UTXO :=
  h ← match NewHashFromStr (li_TxID item) with Ok h => Some h | _ => None end;
  tx ← w_known w h;
  o ← tx_out tx !! Z.to_nat (li_Vout item);
  Some {| ux_TxID := li_TxID item; ux_TxHash := Some (TxHash tx); ux_Vout := li_Vout item;
          ux_Amount := Value o;
          PkScriptT := if IsPayToPubKeyHash (to_PkScript o) then P2PKH_SCRIPT_T
                       else if IsPayToWitnessPubKeyHash (to_PkScript o) then P2WPKH_SCRIPT_T
                       else ANY_SCRIPT_T;
          ux_PkScript := to_PkScript o |}.
Definition funds (w : wallet) (a : Address) : list UTXO := omap (utxo_of w) (w_unspent w a).

Lemma reads_trans s1 s2 s3 : reads s1 s2 -> reads s2 s3 -> reads s1 s3.
Proof. intros [_ H1] [H2 H3]. split; [done|congruence]. Qed.
Lemma GetUtxoList_loop_spec a items : forall s, wallet_up s -> items ⊆ w_unspent (view s) a ->
  exists s', reads s s' /\
    GetUtxoList_loop IsPayToPubKeyHash IsPayToWitnessPubKeyHash items s = (Ok (omap (utxo_of (view s)) items), s').
Proof.
  induction items as [|item items IH]; intros s Hs Hin; [by exists s|].
  destruct (law_output s a item Hs) as (h & tx & o & Hh & Hk & Ho & _); [apply Hin; by left|].
  destruct (law_known s h tx Hs Hk) as (s1 & R1 & E1).
  destruct (IH s1 (proj1 R1)) as (s2 & R2 & E2).
  { destruct R1 as [_ ->]. intros x Hx. apply Hin. by right. }
  exists s2. split; [by eapply reads_trans|]. cbn [GetUtxoList_loop]. unfold GetTx.
  rewrite !bind_eq, lift_eq, Hh, E1, bind_eq, lift_eq. unfold output_at. rewrite Ho, bind_eq, E2, ret_eq.
  destruct R1 as [_ ->]. cbn [omap list_omap]. unfold utxo_of at 2. rewrite Hh. cbn. by rewrite Hk; cbn; rewrite Ho.
Qed.
Lemma GetUtxoList_funds a s : wallet_up s -> exists s', reads s s' /\
  GetUtxoList IsPayToPubKeyHash IsPayToWitnessPubKeyHash a USER_MATURE_OFFSET s = (Ok (funds (view s) a), s').
Proof.
  intros Hs. destruct (law_unspent s a Hs) as (s1 & R1 & E1).
  destruct (GetUtxoList_loop_spec a (w_unspent (view s) a) s1 (proj1 R1)) as (s2 & R2 & E2).
  { by destruct R1 as [_ ->]. }
  exists s2. split; [by eapply reads_trans|]. unfold GetUtxoList. rewrite bind_eq, E1, E2.
  unfold funds. by destruct R1 as [_ ->].
Qed.
Lemma funds_nonneg s a : wallet_up s -> Forall (fun u => 0 <= ux_Amount u) (funds (view s) a).
Proof.
  intros Hs. apply Forall_forall. intros u (item & Hin & Hu)%list_elem_of_omap.
  destruct (law_output s a item Hs Hin) as (h & tx & o & Hh & Hk & Ho & Hv). revert Hu.
  unfold utxo_of. rewrite Hh. cbn. rewrite Hk. cbn. rewrite Ho. cbn. by intros [= <-].
Qed.
End laws.

(** ** What a user's deposit does *)
Section deposit.
Context `{BL : BtcLibLaws, EL : EthLibLaws, RL : RlpLaws} `{K : @BtcKeyLib B}.
Context {N : Type} `{UL : @BtcUserLaws B N BN}.
Variables IsPayToPubKeyHash IsPayToWitnessPubKeyHash : bytes -> bool.
Abbreviation funds := (funds IsPayToPubKeyHash IsPayToWitnessPubKeyHash).
Abbreviation select_funds := (select_funds IsPayToPubKeyHash IsPayToWitnessPubKeyHash).
Abbreviation DepositToBridge := (DepositToBridge IsPayToPubKeyHash IsPayToWitnessPubKeyHash).
Variable bu : BtcUser.
Abbreviation cfg := (asm_ChainConfig bu).
Abbreviation wallet_of s := (funds (view s) (P2PKH (MyLegacySigner bu))).

Lemma funds_hash w a : Forall (fun u => is_Some (ux_TxHash u)) (funds w a).
Proof.
  apply Forall_forall. intros u (item & _ & Hu)%list_elem_of_omap. revert Hu. unfold utxo_of.
  intros (h & _ & (tx & _ & (o & _ & [= <-])%bind_Some)%bind_Some)%bind_Some. by eexists.
Qed.
Lemma select_funds_spec amount fee s : wallet_up s -> total_in (wallet_of s) < 2 ^ 63 ->
  0 <= amount + fee < 2 ^ 63 ->
  exists s', reads s s' /\
    if decide (total_in (wallet_of s) <= amount + fee)
    then exists e, select_funds bu amount fee s = (Err e, s')
    else exists k, select_funds bu amount fee s = (Ok (take (S k) (wallet_of s)), s') /\
      total_in (take k (wallet_of s)) <= amount + fee < total_in (take (S k) (wallet_of s)).
Proof.
  intros Hs Ht Ha. pose proof (funds_nonneg IsPayToPubKeyHash IsPayToWitnessPubKeyHash s (P2PKH (MyLegacySigner bu)) Hs) as Hn.
  destruct (GetUtxoList_funds IsPayToPubKeyHash IsPayToWitnessPubKeyHash (P2PKH (MyLegacySigner bu)) s Hs) as (s1 & R1 & E1).
  destruct (GetUtxoList_funds IsPayToPubKeyHash IsPayToWitnessPubKeyHash (P2PKH (MyLegacySigner bu)) s1 (proj1 R1)) as (s2 & R2 & E2).
  pose proof (SelectUtxo_spec _ amount fee Hn Ht Ha) as Hsel.
  assert (forall s0, BtcUser.select_funds IsPayToPubKeyHash IsPayToWitnessPubKeyHash bu amount fee s = s0 ->
    s0 = if total_in (wallet_of s) <? amount + fee then
           (throw ("not enough balance: have " +:+ int_Text 10 (total_in (wallet_of s)) +:+ ", need "
              +:+ int_Text 10 (amount + fee))%string) s1
         else (SelectUtxo (wallet_of s) amount fee, s2)) as Hrun.
  { intros s0 <-. unfold BtcUser.select_funds, user_GetBalance, user_GetUtxos, GetBalance.
    rewrite !bind_eq, E1, ret_eq, sum_utxos_exact, (swrap_small 64 (amount + fee)) by (done || lia).
    destruct (_ <? _); [done|]. rewrite bind_eq, E2, lift_eq. by destruct R1 as [_ ->]. }
  specialize (Hrun _ eq_refl). destruct (Z.ltb_spec (total_in (wallet_of s)) (amount + fee)).
  - exists s1. split; [done|]. rewrite decide_True by lia. rewrite Hrun. by eexists.
  - exists s2. split; [by eapply reads_trans|]. destruct (decide _).
    + rewrite Hrun, Hsel. by eexists.
    + destruct Hsel as (k & _ & Hk & Hb). exists k. by rewrite Hrun, Hk.
Qed.

Variables (bridge evm : string) (a : Address) (scr change_scr : bytes) (id amount fee : Z).
Hypothesis bridge_ok : DecodeAddress bridge cfg = Ok a.
Hypothesis pay_ok : pay_script cfg bridge = Ok scr.
Hypothesis change_ok : pay_script cfg (BtcCoreAccountAddr (MyUserConfig bu)) = Ok change_scr.
Hypothesis amounts : 0 < amount /\ 0 <= fee /\ amount + fee < 2 ^ 63 /\ 0 <= id < 2 ^ 32.

(** the deposit that the bridge is to read out of [tx] *)
Definition deposit_of (tx : MsgTx) : Prop :=
  MaybeDepositTx tx a cfg = true /\
  forall height block, exists d, CraftDepositAction tx height block a cfg = Ok d /\
    DepositValue d = amount /\ EvmID d = i32 id /\
    HexToAddress (EvmAddr d) = HexToAddress evm /\ da_TxHash d = HashStr (TxHash tx).
(** [tx] spends exactly [sel] and loses the fee *)
Definition spends (sel : list UTXO) (tx : MsgTx) : Prop :=
  Some ∘ PreviousOutPoint <$> tx_in tx = outpoint_of_utxo <$> sel /\
  total_in sel = total_out (tx_out tx) + fee.

Abbreviation make sel := (result (MakeBridgeDepositTx cfg sel bridge amount fee
  (BtcCoreAccountAddr (MyUserConfig bu)) evm id) (asm_Op bu)).
Lemma make_deposit sel : Forall (fun u => 0 <= ux_Amount u) sel -> Forall (fun u => is_Some (ux_TxHash u)) sel ->
  total_in sel < 2 ^ 63 -> amount + fee <= total_in sel ->
  match make sel with
  | Ok tx => spends sel tx /\ deposit_of tx
  | _ => exists tx i pk key, is_ok (txscript_SignatureScript tx i pk key) = false
  end.
Proof using All.
  intros Hp Hh Ht Hs. destruct amounts as (Ha & Hf & Hsum & Hid).
  destruct (MakeBridgeDepositTx_eq cfg bridge (BtcCoreAccountAddr (MyUserConfig bu)) change_scr change_ok amount fee evm id sel scr (asm_Op bu))
    as (data & _ & He); [done|done|lia..|done|].
  destruct (make sel) as [tx|e|w] eqn:Hm; unfold result in Hm.
  2,3: eapply (native_unlock_fails sel); [exact Hh|]; unfold result; rewrite <-He, Hm; reflexivity.
  destruct (MakeBridgeDepositTx _ _ _ _ _ _ _ _ _) as [r o'] eqn:Hmk. cbn in Hm. subst r. split.
  - symmetry in He. apply law_unlock in He as [Ho Hi]. split; [exact Hi|]. rewrite Ho. cbn.
    change (foldr (fun o n => Value o + n) 0 ?l) with (total_out l). rewrite change_outputs_total; lia.
  - unfold deposit_of.
    assert (forall height block, MaybeDepositTx tx a cfg = true /\
      exists d, CraftDepositAction tx height block a cfg = Ok d /\ DepositValue d = amount /\ EvmID d = i32 id /\
        HexToAddress (EvmAddr d) = HexToAddress evm /\ da_TxHash d = HashStr (TxHash tx)) as H.
    { intros. eapply deposit_recognised; [exact bridge_ok|exact change_ok|..|exact Hmk]; done || lia. }
    split; [by destruct (H 0 {| Header := []; Transactions := [] |})|]. intros. by apply H.
Qed.

Lemma deposit_run s : wallet_up s -> total_in (wallet_of s) < 2 ^ 63 ->
  exists s', wallet_up s' /\
    if decide (total_in (wallet_of s) <= amount + fee)
    then w_sent (view s') = w_sent (view s) /\
         exists e, DepositToBridge bu amount fee bridge evm id s = (Err e, s')
    else exists k, total_in (take k (wallet_of s)) <= amount + fee < total_in (take (S k) (wallet_of s)) /\
      ((exists tx, DepositToBridge bu amount fee bridge evm id s = (Ok (HashStr (TxHash tx)), s') /\
          w_sent (view s') = w_sent (view s) ++ [tx] /\ spends (take (S k) (wallet_of s)) tx /\ deposit_of tx) \/
       (run (DepositToBridge bu amount fee bridge evm id) s = s' /\
          is_ok (result (DepositToBridge bu amount fee bridge evm id) s) = false /\
          w_sent (view s') = w_sent (view s) /\
          ((exists tx i pk key, is_ok (txscript_SignatureScript tx i pk key) = false) \/
           exists tx s1 e, SendRawTransaction tx s1 = (Err e, s')))).
Proof using All.
  intros Hs Ht. destruct amounts as (Ha & Hf & Hsum & Hid).
  destruct (select_funds_spec amount fee s Hs Ht) as (s1 & [Hu1 R1] & H); [lia|].
  unfold run, result, BtcUser.DepositToBridge. rewrite bind_eq. destruct (decide _) as [Hle|Hgt].
  { destruct H as [e ->]. exists s1. split_and!; [done|by rewrite R1|by eexists]. }
  destruct H as (k & -> & Hk). set (sel := take (S k) (wallet_of s)) in *.
  assert (total_in sel < 2 ^ 63) as Hsel.
  { pose proof (total_in_app sel (drop (S k) (wallet_of s))) as Hd. unfold sel in Hd at 1. rewrite take_drop in Hd.
    pose proof (total_in_nonneg (drop (S k) (wallet_of s)) (Forall_drop _ _ _ (funds_nonneg _ _ s _ Hs))). lia. }
  pose proof (make_deposit sel (Forall_take _ _ _ (funds_nonneg _ _ s _ Hs)) (Forall_take _ _ _ (funds_hash _ _)) Hsel ltac:(lia)) as Hm.
  rewrite bind_eq. unfold with_operator. rewrite lift_eq. destruct (make sel) as [tx|e|w].
  2,3: exists s1; split; [done|]; exists k; split; [done|right]; split_and!; [done|done|by rewrite R1|by left].
  rewrite bind_eq. unfold SendRawTx. destruct (law_sending s1 tx Hu1) as (s2 & Hu2 & [[E2 Hsent]|(e & E2 & Hsent)]).
  - exists s2. split; [done|]. exists k. split; [done|left]. exists tx. rewrite E2, ret_eq. rewrite R1 in Hsent. split; [done|split; [done|exact Hm]].
  - exists s2. split; [done|]. exists k. split; [done|right]. rewrite E2. rewrite R1 in Hsent.
    split_and!; [done|done|done|right]. by exists tx, s1, e.
Qed.
Lemma deposit_sent s s' txid : wallet_up s -> total_in (wallet_of s) < 2 ^ 63 ->
  DepositToBridge bu amount fee bridge evm id s = (Ok txid, s') ->
  exists tx, txid = HashStr (TxHash tx) /\ w_sent (view s') = w_sent (view s) ++ [tx] /\ deposit_of tx.
Proof using All.
  intros Hs Ht Hrun. destruct (deposit_run s Hs Ht) as (s1 & _ & H). unfold run, result in H. rewrite Hrun in H.
  destruct (decide _); [by destruct H as [_ [e ?]]|]. destruct H as (k & _ & [(tx & He & Hsent & _ & Hd)|(_ & ? & _)]); [|done].
  injection He as -> <-. by exists tx.
Qed.
(** C18: a deposit with the user's tool: with no more in the account than the amount and the fee
    nothing is sent (a balance that is exactly enough passes the guard and is refused by the selection
    of the outputs); with more, the tool sends one transaction, which spends the shortest prefix of the
    account's outputs that exceeds amount and fee, loses only the fee, and is a deposit that the bridge
    reads with the user's amount, chain and receiver; its id is returned. Nothing is sent otherwise,
    and then a signature failed or the node refused the transaction. *)
Theorem deposit_tool s : wallet_up s -> total_in (wallet_of s) < 2 ^ 63 ->
  exists s', wallet_up s' /\
    if decide (total_in (wallet_of s) <= amount + fee)
    then w_sent (view s') = w_sent (view s) /\
         exists e, DepositToBridge bu amount fee bridge evm id s = (Err e, s')
    else exists k, total_in (take k (wallet_of s)) <= amount + fee < total_in (take (S k) (wallet_of s)) /\
      ((exists tx, DepositToBridge bu amount fee bridge evm id s = (Ok (HashStr (TxHash tx)), s') /\
          w_sent (view s') = w_sent (view s) ++ [tx] /\ spends (take (S k) (wallet_of s)) tx /\ deposit_of tx) \/
       (run (DepositToBridge bu amount fee bridge evm id) s = s' /\
          is_ok (result (DepositToBridge bu amount fee bridge evm id) s) = false /\
          w_sent (view s') = w_sent (view s) /\
          ((exists tx i pk key, is_ok (txscript_SignatureScript tx i pk key) = false) \/
           exists tx s1 e, SendRawTransaction tx s1 = (Err e, s')))).
Proof using All. apply deposit_run. Qed.
End deposit.

(** ** A concrete account *)
#[global] Instance btc_keys : BtcKeyLib (B := btc_model) := {|
  WIF := unit; base58_Decode := bytes_of_string; btcutil_DecodeWIF _ := Ok tt; wif_PrivKey w := w;
  PublicOf k := k; SerializeCompressed _ := []; Hash160 b := b;
  NewAddressPubKeyHash _ _ := Ok "user"%string : outcome (@Address btc_model);
  NewAddressWitnessPubKeyHash _ _ := Ok "user"%string : outcome (@Address btc_model);
  MainNetParams := tt; TestNet3Params := tt; RegressionNetParams := tt; Params_eq_dec := unit_eq_dec |}.
Record toy_account := {
  acc_known : list MsgTx; acc_unspent : list ListUnspentItem; acc_sent : list MsgTx }.
#[global] Instance toy_account_node : BtcNode toy_account := {|
  GetBlockCount := throw ""; GetBlockHash _ := throw ""; GetBlock _ := throw "";
  GetBlockHeaderHeight _ := throw "";
  GetRawTransaction h := fun s =>
    (match find_row TxHash (acc_known s) h with Some tx => Ok tx | None => Err "No such transaction" end, s);
  ListUnspentMinMaxAddresses _ _ _ := gets acc_unspent;
  SendRawTransaction tx := fun s =>
    (Ok (TxHash tx), {| acc_known := acc_known s; acc_unspent := acc_unspent s; acc_sent := acc_sent s ++ [tx] |}) |}.
#[global] Instance toy_account_wallet : BtcWalletNode toy_account := {|
  rpcclient_New _ := Ok tt; ImportPrivKeyRescan _ _ _ := mret tt; ImportAddressRescan _ _ _ := mret tt;
  GenerateToAddress _ _ := mret [] |}.
Definition account_ok (s : toy_account) : bool :=
  forallb (fun item =>
    match NewHashFromStr (li_TxID item) with
    | Ok h => match find_row TxHash (acc_known s) h with
              | Some tx => match tx_out tx !! Z.to_nat (li_Vout item) with
                           | Some o => 0 <=? Value o | None => false end
              | None => false end
    | _ => false end) (acc_unspent s).
#[global] Program Instance toy_account_laws : BtcUserLaws toy_account := {|
  view s := {| w_unspent _ := acc_unspent s; w_known := find_row TxHash (acc_known s); w_sent := acc_sent s |};
  wallet_up s := account_ok s = true |}.
Next Obligation. intros s a Hs. by exists s. Qed.
Next Obligation. intros s h tx Hs Hk. exists s. split; [done|]. cbn in *. by rewrite Hk. Qed.
Next Obligation.
  intros s a item Hs Hin. unfold account_ok in Hs. rewrite forallb_Forall, Forall_forall in Hs.
  specialize (Hs item Hin). cbn beta in Hs. destruct (NewHashFromStr _) as [h|e|w]; [|done..].
  destruct (find_row TxHash (acc_known s) h) as [tx|] eqn:Hf; [|done].
  destruct (tx_out tx !! _) as [o|] eqn:Ho; [|done]. exists h, tx, o. apply Z.leb_le in Hs. by split_and!.
Qed.
Next Obligation.
  intros s tx Hs. exists {| acc_known := acc_known s; acc_unspent := acc_unspent s; acc_sent := acc_sent s ++ [tx] |}.
  split; [exact Hs|by left].
Qed.

Definition funding_tx : MsgTx := {| tx_in := []; tx_out :=
  [{| Value := 60000; to_PkScript := [] |}; {| Value := 40000; to_PkScript := [] |}] |}.
Definition sample_account : toy_account := {|
  acc_known := [funding_tx];
  acc_unspent := (fun n => {| li_TxID := HashStr (TxHash funding_tx); li_Vout := n |}) <$> [0; 1];
  acc_sent := [] |}.
Definition sample_user_config : BtcUserConfig := {|
  BtcRpcServer := ""; BtcRpcPort := ""; BtcRpcUsername := ""; BtcRpcPwd := "";
  BtcChainConfig := tt : @Params btc_model; BtcCoreAccountPriv := "key"; BtcCoreAccountAddr := "user" |}.
Definition user_operator : NativeOperator := {|
  native := {| ChainConfig := tt; PrivKey := tt; PubKey := tt |}; P2PKH := "user"%string;
  P2WPKH := "user"%string |}.
Definition sample_user : BtcUser := {|
  BtcRpcClient := {| ServerAddr := ""; Port := ""; Username := ""; Pwd := "" |};
  MyLegacySigner := user_operator; asm_ChainConfig := tt; asm_Op := user_operator;
  MyUserConfig := sample_user_config |}.
Definition no_script (b : bytes) : bool := false.
Definition sample_tool_run : M toy_account string :=
  DepositToBridge no_script no_script sample_user 50000 10000 "bridge"
    "0x00000000000000000000000000000000000000ab" 11155111.
Lemma deposit_tool_witness :
  is_ok (result sample_tool_run sample_account) = true /\
  exists s', run sample_tool_run sample_account = s' /\ length (w_sent (view s')) = 1%nat.
Proof.
  assert (is_ok (result sample_tool_run sample_account) = true) as Hok by (vm_compute; reflexivity).
  split; [exact Hok|].
  destruct (deposit_tool (B := btc_model) no_script no_script sample_user "bridge"
    "0x00000000000000000000000000000000000000ab" "bridge"%string (byte_of_Z 118 :: bytes_of_string "bridge")
    (byte_of_Z 118 :: bytes_of_string "user") 11155111 50000 10000 eq_refl eq_refl eq_refl
    ltac:(split_and!; lia) sample_account) as (s' & _ & H); [vm_compute; reflexivity|vm_compute; reflexivity|].
  exists s'. rewrite decide_False in H by (vm_compute; intros H'; by apply H').
  destruct H as (k & _ & [(tx & Hr & Hs & _)|(_ & Hn & _)]).
  - split; [unfold run; exact (f_equal snd Hr)|]. rewrite Hs. reflexivity.
  - exfalso. unfold sample_tool_run in Hok. rewrite Hok in Hn. discriminate Hn.
Defined.

(** a declared address that is not the key's own gives the nil user without an error *)
Lemma NewBtcUser_mismatch :
  result (A := option BtcUser) (NewBtcUser (N := toy_account)
    {| BtcRpcServer := ""; BtcRpcPort := ""; BtcRpcUsername := ""; BtcRpcPwd := "";
       BtcChainConfig := tt : @Params btc_model; BtcCoreAccountPriv := "key";
       BtcCoreAccountAddr := "other" |} true) sample_account = Ok None.
Proof. reflexivity. Qed.
