(* ===== verification/BtcTxManager.v ===== *)
(** * BtcTxManager: paying redeems out on Bitcoin (package [btctxmanager]).

    The manager reads prepared redeems from the bridge state, looks the allocated UTXOs up in
    the vault, builds and signs the transaction, sends it and records it, so that no redeem
    is paid twice. *)
From S2P Require Export BtcRpc State Vault.

Definition BTC_TX_FEE : Z := 10000.

Section manager.
Context `{B : BtcLib, E : EthLib, G : GobLib, R : RlpLib}.
(** the vault's storage, the node and the storage of redeem actions *)
Context {V N A : Type} `{VS : VaultUTXOStorage V, BN : @BtcNode B N, RA : RedeemActionStorage A}.

(** [myAssembler] is made of [legacySigner]. *)
Record BtcTxManager := {
  treasureVault : V; legacySigner : NativeOperator; myBtcClient : N; sharedState : State;
  mgrState : A }.
Definition on_vault {T} : M V T -> M BtcTxManager T := zoom treasureVault (fun v m =>
  {| treasureVault := v; legacySigner := legacySigner m; myBtcClient := myBtcClient m;
     sharedState := sharedState m; mgrState := mgrState m |}).
Definition on_wallet {T} : M NativeOperator T -> M BtcTxManager T := zoom legacySigner (fun o m =>
  {| treasureVault := treasureVault m; legacySigner := o; myBtcClient := myBtcClient m;
     sharedState := sharedState m; mgrState := mgrState m |}).
Definition on_node {T} : M N T -> M BtcTxManager T := zoom myBtcClient (fun n m =>
  {| treasureVault := treasureVault m; legacySigner := legacySigner m; myBtcClient := n;
     sharedState := sharedState m; mgrState := mgrState m |}).
Definition on_state {T} : M State T -> M BtcTxManager T := zoom sharedState (fun st m =>
  {| treasureVault := treasureVault m; legacySigner := legacySigner m; myBtcClient := myBtcClient m;
     sharedState := st; mgrState := mgrState m |}).
Definition on_actions {T} : M A T -> M BtcTxManager T := zoom mgrState (fun a m =>
  {| treasureVault := treasureVault m; legacySigner := legacySigner m; myBtcClient := myBtcClient m;
     sharedState := sharedState m; mgrState := a |}).

Definition FindRedeemsFromState : M BtcTxManager (list Redeem) := on_state GetPreparedRedeems.
Fixpoint FetchUTXOs_loop (outpoints : list BtcOutpoint) : M BtcTxManager (list VaultUTXO) :=
  match outpoints with
  | [] => mret []
  | outpoint :: outpoints =>
      let clean_txid := Remove0xPrefix (HashString (BtcTxId outpoint)) in
      utxo ← on_vault (GetUTXODetail clean_txid (BtcIdx outpoint));
      utxos ← FetchUTXOs_loop outpoints;
      mret (utxo :: utxos)
  end.
Definition FetchUTXOs (redeem : Redeem) : M BtcTxManager (list VaultUTXO) :=
  FetchUTXOs_loop (default [] (Outpoints redeem)).
(** The error of [NewHashFromStr] is dropped: the hash is nil then. *)
Definition ConvertUTXO (vaultUTXO : VaultUTXO) : UTXO := {|
  ux_TxID := TxID vaultUTXO;
  ux_TxHash := match NewHashFromStr (TxID vaultUTXO) with Ok h => Some h | _ => None end;
  ux_Vout := wrap 32 (Vout vaultUTXO); ux_Amount := u_Amount vaultUTXO;
  PkScriptT := ANY_SCRIPT_T; ux_PkScript := PkScript vaultUTXO |}.
Definition CollectUTXOs (redeem : Redeem) : M BtcTxManager (list UTXO) :=
  vaultUTXOs ← FetchUTXOs redeem;
  mret (ConvertUTXO <$> vaultUTXOs).
(** [redeem.Amount.Int64()] *)
Definition amount_Int64 (redeem : Redeem) : outcome Z :=
  match Amount redeem with
  | Some n => Ok (big_Int64 n)
  | None => Panic "nil pointer dereference"
  end.
Definition CreateBTCRedeemTx (redeem : Redeem) : M BtcTxManager MsgTx :=
  utxos ← CollectUTXOs redeem;
  let requestTxHash := copy_array 32 (RequestTxHash redeem) in
  let dst_addr := Remove0xPrefix (Receiver redeem) in
  dst_amount ← lift (amount_Int64 redeem);
  lo ← gets legacySigner;
  on_wallet (MakeRedeemTx (ChainConfig (native lo)) dst_addr dst_amount requestTxHash
               (EncodeAddress (P2PKH lo)) BTC_TX_FEE utxos).
Definition WithdrawBTC (redeem : Redeem) : M BtcTxManager bytes :=
  redeemTx ← CreateBTCRedeemTx redeem;
  on_node (SendRawTx redeemTx).

(** The body of [WithdrawLoop] for one redeem: errors are logged and dropped *)
Definition request_key (redeem : Redeem) : string :=
  Remove0xPrefix (HashString (RequestTxHash redeem)).
Definition withdraw_one (redeem : Redeem) : M BtcTxManager unit :=
  let reqTxHash := request_key redeem in
  exists_ ← try (on_actions (BtcAction.HasRedeem reqTxHash));
  match exists_ with
  | inl _ => mret tt
  | inr true =>
      ra ← try (on_actions (QueryByEthRequestTxId reqTxHash));
      match ra with
      | inr (None, None) => panic "nil pointer dereference"
      | _ => mret tt
      end
  | inr false =>
      lift (amount_Int64 redeem) ;;
      btcTxId ← try (WithdrawBTC redeem);
      match btcTxId with
      | inl _ => mret tt
      | inr btcTxId =>
          ignore (on_actions (InsertRedeem {| EthRequestTxID := reqTxHash;
                    BtcHash := HashStr btcTxId; Sent := true; Mined := false |}))
      end
  end.
(** one round of [WithdrawLoop], between two sleeps *)
Definition WithdrawLoop_round : M BtcTxManager unit :=
  redeems ← try FindRedeemsFromState;
  match redeems with
  | inl _ => mret tt
  | inr redeems => for_each withdraw_one redeems
  end.
End manager.
Arguments BtcTxManager {B} V N A.

(** ** A node that logs the transactions it accepted *)
Section log.
Context `{B : BtcLib} {N : Type} `{BN : @BtcNode B N}.
Record sent_log := { inner : N; sent : list MsgTx }.
Definition pass_node {T} (m : M N T) : M sent_log T :=
  zoom inner (fun n s => {| inner := n; sent := sent s |}) m.
#[global] Instance logged_node : BtcNode sent_log := {|
  GetBlockCount := pass_node GetBlockCount;
  GetBlockHash h := pass_node (GetBlockHash h);
  GetBlock h := pass_node (GetBlock h);
  GetBlockHeaderHeight h := pass_node (GetBlockHeaderHeight h);
  GetRawTransaction h := pass_node (GetRawTransaction h);
  ListUnspentMinMaxAddresses a b c := pass_node (ListUnspentMinMaxAddresses a b c);
  SendRawTransaction tx :=
    h ← pass_node (SendRawTransaction tx);
    modify (fun s => {| inner := inner s; sent := sent s ++ [tx] |}) ;;
    mret h;
|}.
End log.
Arguments sent_log N : clear implicits.

(** the request a redeem transaction names: the data of its second output *)
Definition request_of (tx : MsgTx) : bytes :=
  match tx_out tx !! 1%nat with Some o => drop 2 (to_PkScript o) | None => [] end.

(** ** Redeems read from the state have 32-byte request hashes *)
Section prepared.
Context `{EL : EthLibLaws, G : GobLib}.
Lemma mapM_Forall {X Y} (f : X -> outcome Y) (P : Y -> Prop) l l' :
  (forall x y, f x = Ok y -> P y) -> mapM f l = Ok l' -> Forall P l'.
Proof.
  intros Hf. revert l'. induction l as [|x l IH]; intros l'; cbn.
  - intros [= <-]. constructor.
  - destruct (f x) as [y|e|w] eqn:Hx; cbn; [|done..].
    destruct (mapM f l) as [ys|e|w]; cbn; [|done..]. intros [= <-]. constructor; eauto.
Qed.
Lemma read_redeem_hash row r : read_redeem row = Ok r -> length (RequestTxHash r) = 32%nat.
Proof.
  unfold read_redeem, sqlRedeem_decode. destruct (DecodeOutpoints _) as [o|e|w]; cbn; [|done..].
  intros [= <-]. cbn [RequestTxHash]. apply HexStrToBytes32_length.
Qed.
Lemma GetRedeemsByStatus_hashes st d l :
  result (GetRedeemsByStatus st) d = Ok l -> Forall (fun r => length (RequestTxHash r) = 32%nat) l.
Proof.
  unfold result, GetRedeemsByStatus. rewrite bind_eq. destruct (prepare _ d) as [[[]|e|w] d1]; [|done..].
  rewrite bind_eq. destruct (exec _ d1) as [[[]|e|w] d2]; [|done..]. mstep. cbn [fst].
  apply mapM_Forall, read_redeem_hash.
Qed.
Lemma GetPreparedRedeems_hashes st l :
  result GetPreparedRedeems st = Ok l -> Forall (fun r => length (RequestTxHash r) = 32%nat) l.
Proof.
  unfold result, GetPreparedRedeems, on_db, zoom. destruct (GetRedeemsByStatus _ _) as [o d] eqn:Hg.
  cbn. intros ->. eapply (GetRedeemsByStatus_hashes _ (statedb st)). unfold result. by rewrite Hg.
Qed.
Lemma request_key_hex r : request_key r = hex_encode (RequestTxHash r).
Proof.
  unfold request_key, Remove0xPrefix. rewrite HashString_spec. unfold HasPrefix.
  rewrite prefix_app. change 2%nat with (String.length "0x"). apply drop_string_app.
Qed.
End prepared.

(** ** No redeem is paid twice *)
Section once.
Context `{BL : BtcLibLaws, EL : EthLibLaws, GL : GobLib}.
Context {V N A : Type} `{VS : VaultUTXOStorage V, BN : @BtcNode B N, RL : RedeemStorageLaws A}.
Abbreviation Mgr := (BtcTxManager V (sent_log N) A).

Definition sent_txs (m : Mgr) : list MsgTx := sent (myBtcClient m).
Definition keys_of (m : Mgr) : list string := EthRequestTxID <$> actions (mgrState m).
(** every transaction sent is recorded, and no two of them name the same request *)
Definition recorded (m : Mgr) : Prop :=
  ra_healthy (mgrState m) /\ NoDup (request_of <$> sent_txs m) /\
  forall tx, tx ∈ sent_txs m -> hex_encode (request_of tx) ∈ keys_of m.

Definition same_log (log : list MsgTx) (a : A) (m : Mgr) : Prop := sent_txs m = log /\ mgrState m = a.
Section same.
Variables (log : list MsgTx) (a : A).
Lemma same_vault {T} (m : M V T) : keeps (same_log log a) (on_vault m).
Proof. intros s Hs. unfold run, on_vault, zoom. by destruct (m (treasureVault s)). Qed.
Lemma same_wallet {T} (m : M NativeOperator T) : keeps (same_log log a) (on_wallet m).
Proof. intros s Hs. unfold run, on_wallet, zoom. by destruct (m (legacySigner s)). Qed.
Lemma same_state {T} (m : M State T) : keeps (same_log log a) (on_state m).
Proof. intros s Hs. unfold run, on_state, zoom. by destruct (m (sharedState s)). Qed.
#[local] Hint Resolve same_vault same_wallet same_state : golib.
Lemma same_fetch l : keeps (same_log log a) (FetchUTXOs_loop l).
Proof. induction l as [|o l IH]; cbn; keeps_auto. Qed.
#[local] Hint Resolve same_fetch : golib.
Lemma same_create r : keeps (same_log log a) (CreateBTCRedeemTx r).
Proof. unfold CreateBTCRedeemTx, CollectUTXOs, FetchUTXOs. keeps_auto. Qed.
End same.

(** a built transaction names its request and spends the outputs it was given *)
Definition spends (tx : MsgTx) (prev : list UTXO) : Prop :=
  Some ∘ PreviousOutPoint <$> tx_in tx = outpoint_of_utxo <$> prev.
Lemma MakeRedeemTx_made cfg dst v data chg fee prev o tx o' :
  length data = 32%nat ->
  MakeRedeemTx cfg dst v data chg fee prev (o : NativeOperator) = (Ok tx, o') ->
  request_of tx = data /\ spends tx prev.
Proof.
  intros Hd. unfold MakeRedeemTx. rewrite bind_eq, lift_eq. unfold craftRedeemOutput.
  destruct (_ <? 0); [done|]. rewrite AppendPayToAddress_eq.
  destruct (pay_script cfg dst) as [scr|e|w]; [|done..]. cbn [mbind outcome_bind].
  unfold MakeRedeemOpReturnData, RedeemData_Serialize. rewrite append_data_eq by lia.
  cbn [mbind outcome_bind]. unfold append_change, request_of, spends. destruct (0 <? _).
  - rewrite AppendPayToAddress_eq. destruct (pay_script cfg chg) as [scr'|e|w]; [|done..].
    cbn [mbind outcome_bind]. intros [-> ->]%law_unlock. done.
  - intros [-> ->]%law_unlock. done.
Qed.
Lemma CreateBTCRedeemTx_made r (m : Mgr) tx m' :
  length (RequestTxHash r) = 32%nat -> CreateBTCRedeemTx r m = (Ok tx, m') ->
  request_of tx = RequestTxHash r /\ exists prev m1, CollectUTXOs r m = (Ok prev, m1) /\ spends tx prev.
Proof.
  intros Hr. unfold CreateBTCRedeemTx. rewrite bind_eq.
  destruct (CollectUTXOs r m) as [[us|e|w] m1]; [|done..]. mstep.
  destruct (amount_Int64 r) as [v|e|w]; [|done..]. mstep. unfold on_wallet, zoom.
  destruct (MakeRedeemTx _ _ _ _ _ _ _ _) as [o w] eqn:Hm. intros [= -> _].
  apply MakeRedeemTx_made in Hm as [Hm Hs].
  - split; [|by eexists _, _]. rewrite Hm. unfold copy_array. by rewrite Hr, take_ge, app_nil_r by (by rewrite Hr).
  - unfold copy_array, zeros. rewrite length_app, length_take, length_replicate. lia.
Qed.

Lemma withdraw_one_recorded r :
  length (RequestTxHash r) = 32%nat -> keeps recorded (withdraw_one r).
Proof.
  intros Hr m Hm. unfold withdraw_one. rewrite run_bind_try. unfold on_actions at 1, zoom at 1.
  destruct (law_ra_has (mgrState m) (request_key r)) as (o & Eo & Ho). rewrite Eo. clear Eo.
  destruct m as [v lo [n log] st a]. cbn [mgrState myBtcClient treasureVault legacySigner sharedState] in *.
  destruct Ho as [->|[[e ->] Hbad]]; [|by destruct Hm].
  case_bool_decide as Hk.
  { rewrite run_bind_try. unfold on_actions, zoom.
    destruct (law_ra_eth a (request_key r)) as (p & Ep & _). cbn [mgrState]. rewrite Ep.
    by destruct p as [[x|] [e|]]. }
  set (m := {| treasureVault := v |}). fold m in Hm. unfold run. rewrite bind_eq, lift_eq.
  destruct (amount_Int64 r) as [z|e|w]; [|done..].
  change (recorded (run (btcTxId ← try (WithdrawBTC r);
    match btcTxId with
    | inl _ => mret tt
    | inr id => ignore (on_actions (InsertRedeem {| EthRequestTxID := request_key r;
                    BtcHash := HashStr id; Sent := true; Mined := false |}))
    end) m)). rewrite run_bind_try. unfold WithdrawBTC. rewrite bind_eq.
  pose proof (same_create log a r m (conj eq_refl eq_refl)) as Hc. unfold run in Hc.
  destruct (CreateBTCRedeemTx r m) as [o m1] eqn:Ec. cbn [snd] in Hc. destruct Hc as [Hlog Ha].
  assert (recorded m1) as Hm1.
  { unfold recorded, keys_of in *. rewrite Hlog, Ha. exact Hm. }
  destruct o as [tx|e|w]; [|exact Hm1..]. apply CreateBTCRedeemTx_made in Ec as [Ec _]; [|done].
  unfold on_node, zoom, SendRawTx. cbn [SendRawTransaction logged_node]. rewrite bind_eq.
  unfold pass_node, zoom. destruct m1 as [v1 lo1 [n1 log1] st1 a1].
  cbn [myBtcClient inner sent mgrState sent_txs] in *. unfold sent_txs in Hlog. cbn in Hlog. subst log1 a1.
  destruct (SendRawTransaction tx n1) as [[h|e|w] n2]; [|exact Hm1..].
  rewrite bind_eq. unfold modify at 1. mstep. rewrite run_ignore. unfold run, on_actions, zoom.
  cbn [mgrState myBtcClient inner sent treasureVault legacySigner sharedState].
  destruct (law_ra_insert a {| EthRequestTxID := request_key r; BtcHash := HashStr h; Sent := true;
    Mined := false |}) as (o & a2 & -> & Hh & Ho). cbn [snd].
  destruct Hm as (Hh1 & Hn & Hin). unfold sent_txs, keys_of in Hn, Hin. cbn in Hn, Hin.
  destruct Ho as [(-> & Hf & Ha)|(_ & _ & [Hdup|Hbad])]; [|by destruct Hk|done].
  unfold recorded, sent_txs, keys_of. cbn [mgrState myBtcClient sent]. rewrite Ha.
  rewrite fmap_app, list_fmap_singleton. cbn [EthRequestTxID] in *. rewrite Ec.
  rewrite request_key_hex in *. split_and!; [by apply Hh| |].
  - apply NoDup_snoc. split; [done|]. intros (tx0 & He & Hi)%list_elem_of_fmap.
    apply Hk. rewrite He. by apply Hin.
  - intros tx0 [Hi|Hi%list_elem_of_singleton]%elem_of_app; [|subst tx0].
    + rewrite fmap_app. apply elem_of_app. left. by apply Hin.
    + rewrite fmap_app. apply elem_of_app. right. rewrite Ec. by apply list_elem_of_singleton.
Qed.
Lemma WithdrawLoop_round_recorded : keeps recorded (WithdrawLoop_round : M Mgr unit).
Proof.
  intros m Hm. unfold WithdrawLoop_round, FindRedeemsFromState. rewrite run_bind_try.
  pose proof (same_state (sent_txs m) (mgrState m) GetPreparedRedeems m (conj eq_refl eq_refl)) as [Hl Ha].
  unfold run in Hl, Ha. unfold on_state, zoom in *.
  pose proof (GetPreparedRedeems_hashes (sharedState m)) as Hh. unfold result in Hh.
  destruct (GetPreparedRedeems (sharedState m)) as [o st]. cbn [fst snd] in *.
  set (m1 := {| treasureVault := treasureVault m |}) in *.
  assert (recorded m1) as Hm1 by exact Hm.
  destruct o as [l|e|w]; [|exact Hm1..]. specialize (Hh l eq_refl).
  eapply keeps_for_each_Forall; [exact withdraw_one_recorded|exact Hh|exact Hm1].
Qed.

(** The rest of the bridge between two rounds: it may change everything but the log of what
    was sent and the recorded request ids. *)
Inductive mgr_step : Mgr -> Mgr -> Prop :=
  | mgr_round m : mgr_step m (run WithdrawLoop_round m)
  | mgr_env m m' : sent_txs m' = sent_txs m -> ra_healthy (mgrState m') ->
      (forall k, k ∈ keys_of m -> k ∈ keys_of m') -> mgr_step m m'.

(** C6: no redeem is paid twice: whatever the vault, the node, the wallet and the state answer,
    and however the rounds of the loop are interleaved with the other components, two
    transactions that the node accepted never name the same request, as long as the storage of
    redeem actions does not fail. *)
Theorem withdraw_once m m' :
  recorded m -> rtc mgr_step m m' -> NoDup (request_of <$> sent_txs m').
Proof.
  intros Hm Hs. enough (recorded m') as (_ & H & _) by done. revert Hm.
  induction Hs as [|m m1 m' Hstep _ IH]; [done|]. intros Hm. apply IH.
  destruct Hstep as [m|m m1 Hl Hh Hk]; [by apply WithdrawLoop_round_recorded|].
  destruct Hm as (_ & Hn & Hin). unfold recorded. rewrite Hl. split_and!; auto.
Qed.
End once.

(** ** What the vault allocated pays the redeem *)
Section funded.
Context `{BL : BtcLibLaws, EL : EthLibLaws, GL : GobLib}.
Context {V N A : Type} `{VL : VaultStorageLaws V, BN : @BtcNode B N, RS : RedeemActionStorage A}.

(** the UTXOs the monitor stores name their transaction by the printed hash, and an output
    index below 2^16 *)
Definition utxo_wf (u : VaultUTXO) : Prop :=
  exists h, length h = 32%nat /\ TxID u = HashStr h /\ 0 <= Vout u < 2 ^ 16.
Lemma outpoint_of_wf u : BtcOutpoint_wf (outpoint_of u).
Proof. split; [apply HexToHash_length|]. cbn. apply wrap_bounds. lia. Qed.
Lemma HexToHash_HashStr h : length h = 32%nat -> HexToHash (HashStr h) = rev h.
Proof.
  intros Hh. rewrite law_HashStr, (HexToHash_spec _ (rev h)); [|apply hex_decode_encode|rewrite length_rev; lia].
  by rewrite length_rev, Hh.
Qed.
Lemma clean_txid u : utxo_wf u ->
  Remove0xPrefix (HashString (BtcTxId (outpoint_of u))) = TxID u /\ BtcIdx (outpoint_of u) = Vout u.
Proof.
  intros (h & Hh & Ht & Hv). cbn. rewrite (wrap_small 16) by lia. split; [|done].
  rewrite Ht, HexToHash_HashStr, HashString_spec, law_HashStr by done.
  unfold Remove0xPrefix, HasPrefix. rewrite prefix_app. change 2%nat with (String.length "0x").
  apply drop_string_app.
Qed.

(** a later state of the vault still holds a UTXO for each of [l] *)
Definition holds (v : V) (l : list VaultUTXO) : Prop :=
  forall u, u ∈ l -> exists w, w ∈ rows v /\ utxo_key w = utxo_key u /\ u_Amount w = u_Amount u.
Lemma FetchUTXOs_spec l (m : BtcTxManager V N A) :
  healthy (treasureVault m) -> holds (treasureVault m) l -> Forall utxo_wf l ->
  exists ws, FetchUTXOs_loop (outpoint_of <$> l) m = (Ok ws, m) /\
    utxo_key <$> ws = utxo_key <$> l /\ u_Amount <$> ws = u_Amount <$> l.
Proof.
  intros Hh Hold Hwf. induction Hwf as [|u l Hu Hwf IH]; [by exists []|].
  rewrite fmap_cons. cbn [FetchUTXOs_loop]. destruct (clean_txid u Hu) as [-> ->].
  destruct (Hold u ltac:(by left)) as (w & Hw & Hk & Ha).
  rewrite bind_eq. unfold on_vault, zoom, GetUTXODetail. rewrite bind_eq, law_one by done.
  change (TxID u, Vout u) with (utxo_key u). rewrite <-Hk, find_row_elem by (done || by apply law_unique).
  mstep. destruct m as [v lo n st a]. cbn [treasureVault legacySigner myBtcClient sharedState mgrState] in *.
  destruct IH as (ws & IHf & IH1 & IH2); [intros u' Hu'; apply Hold; by right|].
  exists (w :: ws). rewrite bind_eq, IHf. mstep. rewrite !fmap_cons. split_and!; [done|by rewrite Hk, IH1|by rewrite Ha, IH2].
Qed.
Lemma total_convert ws : total_in (ConvertUTXO <$> ws) = sum_amounts ws.
Proof.
  induction ws as [|w ws IH]; [done|]. rewrite fmap_cons. unfold total_in, sum_amounts in *. cbn [foldr].
  by rewrite IH.
Qed.
Lemma sum_amounts_fmap l k : u_Amount <$> l = u_Amount <$> k -> sum_amounts l = sum_amounts k.
Proof.
  revert k. induction l as [|u l IH]; intros [|w k]; try done. rewrite !fmap_cons. intros [= Hu Hl].
  unfold sum_amounts in *. cbn [foldr]. by rewrite Hu, (IH k Hl).
Qed.
Lemma ConvertUTXO_outpoint w u : utxo_wf u -> utxo_key w = utxo_key u ->
  exists h, NewHashFromStr (TxID u) = Ok h /\
    outpoint_of_utxo (ConvertUTXO w) = Some {| op_Hash := h; op_Index := Vout u |}.
Proof.
  intros (h & Hh & Ht & Hv) [= Hk1 Hk2]. exists h. unfold outpoint_of_utxo, ConvertUTXO. cbn.
  rewrite Hk1, Hk2, Ht, law_NewHashFromStr by done. split; [done|]. cbn. rewrite wrap_small by lia. done.
Qed.

(** the output on Bitcoin that an outpoint of the bridge names: its hash is in the other byte order *)
Definition btc_outpoint (o : BtcOutpoint) : OutPoint := {| op_Hash := rev (BtcTxId o); op_Index := BtcIdx o |}.
Lemma convert_outpoints ws l : Forall utxo_wf l -> utxo_key <$> ws = utxo_key <$> l ->
  outpoint_of_utxo <$> (ConvertUTXO <$> ws) = Some ∘ btc_outpoint <$> (outpoint_of <$> l).
Proof.
  intros Hl. revert ws. induction Hl as [|u l Hu _ IH]; intros [|w ws]; try done. rewrite !fmap_cons.
  intros [= Hk1 Hk2 Hks]. rewrite (IH ws Hks). f_equal.
  destruct (ConvertUTXO_outpoint w u Hu) as (h & Hh & ->); [by unfold utxo_key; rewrite Hk1, Hk2|].
  destruct Hu as (h0 & Hl0 & Ht & Hv). rewrite Ht, law_NewHashFromStr in Hh by done. injection Hh as <-.
  unfold compose, btc_outpoint. cbn. rewrite Ht, HexToHash_HashStr, rev_involutive, (wrap_small 16) by done. done.
Qed.

Lemma allocation_funds s s' now reqTxId amount ops (m : BtcTxManager V N A) redeem dst_scr chg_scr :
  healthy s -> amounts_ok s -> Forall utxo_wf (rows s) -> 0 <= amount -> amount + SAFE_MARGIN < 2 ^ 63 ->
  Request now reqTxId (Some amount) s = (Ok ops, s') ->
  healthy (treasureVault m) -> holds (treasureVault m) (rows s') ->
  Outpoints redeem = Some ops -> Amount redeem = Some amount ->
  pay_script (ChainConfig (native (legacySigner m))) (Remove0xPrefix (Receiver redeem)) = Ok dst_scr ->
  pay_script (ChainConfig (native (legacySigner m))) (EncodeAddress (P2PKH (legacySigner m))) = Ok chg_scr ->
  exists prev outs,
    CreateBTCRedeemTx redeem m =
      on_wallet (Unlock {| tx_in := []; tx_out := {| Value := amount; to_PkScript := dst_scr |} :: outs |} prev) m /\
    total_in prev = amount + total_out outs + BTC_TX_FEE /\
    outpoint_of_utxo <$> prev = Some ∘ btc_outpoint <$> ops.
Proof.
  intros Hs Hok Hwf Ha Hm Hreq Hh Hold Hops Ham Hdst Hchg.
  destruct (Request_cases s now reqTxId amount ops s' Hs Hok Ha Hm Hreq)
    as (l & -> & Hn & Hin & Hcov & Hs' & Hlk).
  assert (Forall utxo_wf l) as Hwl.
  { rewrite Forall_forall in *. auto. }
  assert (holds (treasureVault m) l) as Hl.
  { intros u Hu. destruct (Hlk u Hu) as (w & Hw & Hk & Hwa & _). destruct (Hold w Hw) as (w' & ? & ? & ?).
    exists w'. split_and!; congruence. }
  destruct (FetchUTXOs_spec l m Hh Hl Hwl) as (ws & Hf & Hk & Hsum).
  assert (Forall (fun u => 0 <= u_Amount u) l /\ sum_amounts l < 2 ^ 63) as [Hpos Hmax].
  { destruct Hok as [Hpos Hmax]. split; [rewrite Forall_forall in *; auto|].
    eapply Z.le_lt_trans; [|exact Hmax]. apply sum_sub_rows; [done|by apply law_unique|done|done]. }
  assert (Forall (fun u => 0 <= ux_Amount u) (ConvertUTXO <$> ws)) as Hp.
  { apply Forall_forall. intros x (w & -> & Hw)%list_elem_of_fmap. cbn.
    assert (u_Amount w ∈ u_Amount <$> l) as (u & -> & Hu)%list_elem_of_fmap
      by (rewrite <-Hsum; apply list_elem_of_fmap; eauto). exact (proj1 (Forall_forall _ _) Hpos u Hu). }
  assert (total_in (ConvertUTXO <$> ws) = sum_amounts l) as Ht.
  { rewrite total_convert. by apply sum_amounts_fmap. }
  exists (ConvertUTXO <$> ws). eexists. unfold CreateBTCRedeemTx, CollectUTXOs, FetchUTXOs. rewrite Hops.
  change (default [] (Some (outpoint_of <$> l))) with (outpoint_of <$> l).
  rewrite !bind_eq, Hf. mstep. unfold amount_Int64. rewrite Ham, big_Int64_small by (unfold SAFE_MARGIN in *; lia).
  mstep. unfold SAFE_MARGIN, BTC_TX_FEE in *. split_and!.
  - mstep. unfold on_wallet, zoom. rewrite (MakeRedeemTx_eq (O := NativeOperator) _ _ _ _ _ Hdst Hchg); try done; try lia.
    unfold copy_array, zeros. rewrite length_app, length_take, length_replicate. lia.
  - cbn. change (foldr (fun o n => Value o + n) 0 ?l) with (total_out l).
    rewrite change_outputs_total; lia.
  - by apply convert_outpoints.
Qed.
(** C19: a redeem that the vault served can be paid: when [Request] handed out outpoints for an
    amount, and the vault later still holds these UTXOs, the transaction for the redeem is
    built and handed to the wallet: it spends exactly these outpoints, pays the amount to the
    receiver and conserves value with the fee of [BTC_TX_FEE] (the vault's [SAFE_MARGIN]);
    only the wallet's signing can still fail. *)
Theorem allocation_funds_withdrawal s s' now reqTxId amount ops (m : BtcTxManager V N A) redeem dst_scr chg_scr :
  healthy s -> amounts_ok s -> Forall utxo_wf (rows s) -> 0 <= amount -> amount + SAFE_MARGIN < 2 ^ 63 ->
  Request now reqTxId (Some amount) s = (Ok ops, s') ->
  healthy (treasureVault m) -> holds (treasureVault m) (rows s') ->
  Outpoints redeem = Some ops -> Amount redeem = Some amount ->
  pay_script (ChainConfig (native (legacySigner m))) (Remove0xPrefix (Receiver redeem)) = Ok dst_scr ->
  pay_script (ChainConfig (native (legacySigner m))) (EncodeAddress (P2PKH (legacySigner m))) = Ok chg_scr ->
  exists prev outs,
    CreateBTCRedeemTx redeem m =
      on_wallet (Unlock {| tx_in := []; tx_out := {| Value := amount; to_PkScript := dst_scr |} :: outs |} prev) m /\
    total_in prev = amount + total_out outs + BTC_TX_FEE /\
    length prev = length ops /\ Forall (fun u => is_Some (outpoint_of_utxo u)) prev.
Proof.
  intros Hs Hok Hwf Ha Hm Hr Hh Hv Ho Ham Hd Hc.
  destruct (allocation_funds s s' now reqTxId amount ops m redeem dst_scr chg_scr) as (prev & outs & H1 & H2 & H3); try done.
  exists prev, outs. split; [done|]. split; [done|]. split.
  - apply (f_equal length) in H3. by rewrite !length_fmap in H3.
  - assert (Forall is_Some (outpoint_of_utxo <$> prev)) as Hp; [|by rewrite Forall_fmap in Hp].
    rewrite H3. apply Forall_fmap, Forall_forall. intros o _. by eexists.
Qed.
End funded.

(** ** Concrete runs *)
(** a vault of three UTXOs, of which a request for 100 satoshi gets the largest *)
Definition rich_vault : VaultSQLiteStorage := {|
  v_table := [Vault.sample_utxo 1 20000; Vault.sample_utxo 2 30000; Vault.sample_utxo 3 9000];
  v_fault := fun _ => None |}.
Definition served : outcome (list BtcOutpoint) * VaultSQLiteStorage :=
  Request (fun _ => 1000) (sample_hash 1) (Some 100) rich_vault.
Definition served_ops : list BtcOutpoint := match served.1 with Ok l => l | _ => [] end.
Definition prepared_event : RedeemPreparedEvent := {|
  rp_RequestTxHash := sample_hash 1; rp_PrepareTxHash := sample_hash 5;
  rp_Requester := rr_Requester sample_request; rp_Receiver := rr_Receiver sample_request;
  rp_Amount := Some 100; rp_OutpointTxIds := BtcTxId <$> served_ops;
  rp_OutpointIdxs := BtcIdx <$> served_ops |}.
Definition prepared_state : State :=
  run (handlePreparedEvent prepared_event) (run (handleRedeemRequestEvent sample_request) sample_state).
Definition sample_manager : BtcTxManager VaultSQLiteStorage (sent_log toy_node) SQLiteRedeemStorage := {|
  treasureVault := served.2; legacySigner := sample_operator;
  myBtcClient := {| inner := {| toy_chain := [] |}; sent := [] |};
  sharedState := prepared_state; mgrState := empty_table |}.
Lemma sample_manager_recorded : recorded sample_manager.
Proof.
  split; [by intros q|]. split; [constructor|]. intros tx Htx. by apply elem_of_nil in Htx.
Qed.
Lemma withdraw_once_witness :
  let m := run WithdrawLoop_round (run WithdrawLoop_round sample_manager) in
  request_of <$> sent_txs m = [sample_hash 1] /\ NoDup (request_of <$> sent_txs m).
Proof.
  cbv zeta. split; [vm_compute; reflexivity|].
  apply (withdraw_once sample_manager); [exact sample_manager_recorded|].
  eapply rtc_l; [apply mgr_round|]. eapply rtc_l; [apply mgr_round|]. apply rtc_refl.
Defined.
Definition prepared_redeem : Redeem := {|
  RequestTxHash := sample_hash 1; PrepareTxHash := sample_hash 5; r_BtcTxId := zeros 32;
  Requester := []; Receiver := "bc1q"; Amount := Some 100; Outpoints := Some served_ops;
  Status := RedeemStatusPrepared |}.
Lemma served_ok : served = (Ok served_ops, served.2).
Proof.
  assert (is_ok served.1 = true) as H by (vm_compute; reflexivity).
  unfold served_ops. by destruct served as [[l|e|w] v].
Qed.
Lemma rich_vault_wf : Forall utxo_wf (rows rich_vault).
Proof.
  assert (forall n a, utxo_wf (Vault.sample_utxo n a)) as H.
  { intros n a. exists (rev (sample_hash n)). split_and!; [by rewrite length_rev| |cbn; lia..].
    cbn [HashStr btc_model]. by rewrite rev_involutive. }
  repeat constructor; apply H.
Qed.
Lemma rich_vault_healthy : healthy rich_vault.
Proof. split; [done|]. vm_compute. repeat constructor; set_solver. Qed.
Lemma allocation_funds_withdrawal_witness :
  length served_ops = 1%nat /\
  exists prev outs,
    CreateBTCRedeemTx prepared_redeem sample_manager =
      on_wallet (Unlock {| tx_in := [];
        tx_out := {| Value := 100; to_PkScript := byte_of_Z 118 :: bytes_of_string "bc1q" |} :: outs |} prev)
        sample_manager /\
    total_in prev = 100 + total_out outs + BTC_TX_FEE /\
    length prev = length served_ops /\ Forall (fun u => is_Some (outpoint_of_utxo u)) prev.
Proof.
  split; [vm_compute; reflexivity|].
  assert (amounts_ok rich_vault) as Hok by (split; [repeat constructor; cbn; lia|vm_compute; done]).
  destruct (Request_cases rich_vault (fun _ => 1000) (sample_hash 1) 100 served_ops served.2
    rich_vault_healthy Hok ltac:(lia) ltac:(unfold SAFE_MARGIN; lia) served_ok) as (_ & _ & _ & _ & _ & Hh & _).
  apply (allocation_funds_withdrawal rich_vault served.2 (fun _ => 1000) (sample_hash 1) 100 served_ops
    sample_manager prepared_redeem _ (byte_of_Z 118 :: bytes_of_string "bridge") rich_vault_healthy Hok
    rich_vault_wf ltac:(lia) ltac:(unfold SAFE_MARGIN; lia) served_ok Hh);
    [intros u Hu; by exists u|reflexivity|reflexivity|reflexivity|reflexivity].
Defined.
