(* ===== verification/BtcSync.v ===== *)
(** * BtcSync: the Bitcoin monitor, its publisher and its observers (package [btcsync]).

    The monitor scans blocks and notifies observers over channels. A channel is its buffer and
    the goroutines that a notification leaves behind when the buffer is full; observers receive
    from it at any time. *)
From S2P Require Export BtcTxManager.

(** ** type_publisher.go: channels and notification *)
Record chan (X : Type) := { ch_cap : nat; ch_buf : list X; ch_senders : list X }.
Arguments ch_cap {X} c.
Arguments ch_buf {X} c.
Arguments ch_senders {X} c.
Arguments Build_chan {X}.
Definition make_chan {X} (n : nat) : chan X := {| ch_cap := n; ch_buf := []; ch_senders := [] |}.
(** [select { case obs <- x: default: go func() { obs <- x }() }] *)
Definition notify {X} (x : X) (c : chan X) : chan X :=
  if (length (ch_buf c) <? ch_cap c)%nat
  then {| ch_cap := ch_cap c; ch_buf := ch_buf c ++ [x]; ch_senders := ch_senders c |}
  else {| ch_cap := ch_cap c; ch_buf := ch_buf c; ch_senders := ch_senders c ++ [x] |}.

(** observer_utxo.go *)
Record ObservedUTXO := {
  ou_BlockNumber : Z; ou_BlockHash : string; ou_TxID : string; ou_Vout : Z; ou_Amount : Z;
  ou_PkScript : bytes }.

Record PublisherService := {
  DepositObservers : list (chan DepositAction);
  RedeemObservers : list (chan RedeemAction);
  OtherTransferObservers : list (chan OtherTransferAction);
  UTXOObservers : list (chan ObservedUTXO) }.
Definition NewPublisherService : PublisherService := {|
  DepositObservers := []; RedeemObservers := []; OtherTransferObservers := []; UTXOObservers := [] |}.
Definition RegisterDepositObserver (o : chan DepositAction) (p : PublisherService) : PublisherService :=
  {| DepositObservers := DepositObservers p ++ [o]; RedeemObservers := RedeemObservers p;
     OtherTransferObservers := OtherTransferObservers p; UTXOObservers := UTXOObservers p |}.
Definition RegisterRedeemIsDoneObserver (o : chan RedeemAction) (p : PublisherService) : PublisherService :=
  {| DepositObservers := DepositObservers p; RedeemObservers := RedeemObservers p ++ [o];
     OtherTransferObservers := OtherTransferObservers p; UTXOObservers := UTXOObservers p |}.
Definition RegisterOtherTransferObserver (o : chan OtherTransferAction) (p : PublisherService)
    : PublisherService :=
  {| DepositObservers := DepositObservers p; RedeemObservers := RedeemObservers p;
     OtherTransferObservers := OtherTransferObservers p ++ [o]; UTXOObservers := UTXOObservers p |}.
Definition RegisterUTXOObserver (o : chan ObservedUTXO) (p : PublisherService) : PublisherService :=
  {| DepositObservers := DepositObservers p; RedeemObservers := RedeemObservers p;
     OtherTransferObservers := OtherTransferObservers p; UTXOObservers := UTXOObservers p ++ [o] |}.
Definition NotifyDeposit (da : DepositAction) (p : PublisherService) : PublisherService :=
  {| DepositObservers := notify da <$> DepositObservers p; RedeemObservers := RedeemObservers p;
     OtherTransferObservers := OtherTransferObservers p; UTXOObservers := UTXOObservers p |}.
Definition NotifyRedeemIsDone (ra : RedeemAction) (p : PublisherService) : PublisherService :=
  {| DepositObservers := DepositObservers p; RedeemObservers := notify ra <$> RedeemObservers p;
     OtherTransferObservers := OtherTransferObservers p; UTXOObservers := UTXOObservers p |}.
Definition NotifyOtherTransfer (ota : OtherTransferAction) (p : PublisherService) : PublisherService :=
  {| DepositObservers := DepositObservers p; RedeemObservers := RedeemObservers p;
     OtherTransferObservers := notify ota <$> OtherTransferObservers p;
     UTXOObservers := UTXOObservers p |}.
Definition NotifyUTXO (data : ObservedUTXO) (p : PublisherService) : PublisherService :=
  {| DepositObservers := DepositObservers p; RedeemObservers := RedeemObservers p;
     OtherTransferObservers := OtherTransferObservers p;
     UTXOObservers := notify data <$> UTXOObservers p |}.

(** ** btc_monitor.go *)
Definition BLK_MATURE_OFFSET : Z := 1.
Definition RETRO_SCAN_BLOCKS : Z := 36.

Section monitor.
Context `{B : BtcLib, E : EthLib, R : RlpLib}.
Context {N A : Type} `{BN : @BtcNode B N, RA : RedeemActionStorage A}.

Record BTCMonitor := {
  BridgeBTCAddress : Address; LastVistedBlockHeight : Z; bm_ChainConfig : BtcTx.Params;
  Publisher : PublisherService; RpcClient : N; bm_mgrState : A }.
Definition NewBTCMonitor (addressStr : string) (chainConfig : BtcTx.Params) (rpcClient : N)
    (startBlock : Z) (mgrState : A) : outcome BTCMonitor :=
  _address ← wrap_err "failed to decode address: " (DecodeAddress addressStr chainConfig);
  Ok {| BridgeBTCAddress := _address; LastVistedBlockHeight := startBlock;
        bm_ChainConfig := chainConfig; Publisher := NewPublisherService; RpcClient := rpcClient;
        bm_mgrState := mgrState |}.

Definition set_visited (h : Z) (m : BTCMonitor) : BTCMonitor :=
  {| BridgeBTCAddress := BridgeBTCAddress m; LastVistedBlockHeight := h;
     bm_ChainConfig := bm_ChainConfig m; Publisher := Publisher m; RpcClient := RpcClient m;
     bm_mgrState := bm_mgrState m |}.
Definition publish (f : PublisherService -> PublisherService) : M BTCMonitor unit := modify (fun m =>
  {| BridgeBTCAddress := BridgeBTCAddress m; LastVistedBlockHeight := LastVistedBlockHeight m;
     bm_ChainConfig := bm_ChainConfig m; Publisher := f (Publisher m); RpcClient := RpcClient m;
     bm_mgrState := bm_mgrState m |}).
Definition on_rpc {T} : M N T -> M BTCMonitor T := zoom RpcClient (fun n m =>
  {| BridgeBTCAddress := BridgeBTCAddress m; LastVistedBlockHeight := LastVistedBlockHeight m;
     bm_ChainConfig := bm_ChainConfig m; Publisher := Publisher m; RpcClient := n;
     bm_mgrState := bm_mgrState m |}).
Definition on_mgr {T} : M A T -> M BTCMonitor T := zoom bm_mgrState (fun a m =>
  {| BridgeBTCAddress := BridgeBTCAddress m; LastVistedBlockHeight := LastVistedBlockHeight m;
     bm_ChainConfig := bm_ChainConfig m; Publisher := Publisher m; RpcClient := RpcClient m;
     bm_mgrState := a |}).

Definition QueryRedeemTxFromMgrDB (btcTxID : string) : M BTCMonitor bool :=
  p ← on_mgr (QueryByBtcTxId btcTxID);
  mret (match p with
        | (_, Some _) => false
        | (None, None) => false
        | (Some record, None) => negb (String.length (EthRequestTxID record) =? 0)%nat
        end).
(** the pointer of a query whose error is dropped *)
Definition deref {X} (p : option X * option error) : outcome X :=
  match p.1 with Some x => Ok x | None => Panic "nil pointer dereference" end.
Definition FinishRedeem (btcTxID : string) : M BTCMonitor string :=
  p ← on_mgr (QueryByBtcTxId btcTxID);
  record ← lift (deref p);
  ignore (on_mgr (CompleteRedeem (EthRequestTxID record))) ;;
  p ← on_mgr (QueryByEthRequestTxId (EthRequestTxID record));
  record ← lift (deref p);
  mret (EthRequestTxID record).

(** The three checks of [Scan] on one transaction *)
Definition scan_deposit (block : MsgBlock) (blockHeight : Z) (tx : MsgTx) : M BTCMonitor unit :=
  m ← get;
  if MaybeDepositTx tx (BridgeBTCAddress m) (bm_ChainConfig m) then
    deposit ← try (lift (CraftDepositAction tx blockHeight block (BridgeBTCAddress m) (bm_ChainConfig m)));
    match deposit with
    | inl _ => mret tt
    | inr deposit => publish (NotifyDeposit deposit)
    end
  else mret tt.
Definition observed_utxo (block : MsgBlock) (blockHeight : Z) (tx : MsgTx) (transfer : nat * Z)
    : ObservedUTXO :=
  {| ou_BlockNumber := blockHeight; ou_BlockHash := HashStr (BtcTx.BlockHash block);
     ou_TxID := HashStr (TxHash tx); ou_Vout := i32 (Z.of_nat transfer.1); ou_Amount := transfer.2;
     ou_PkScript := match tx_out tx !! transfer.1 with Some o => to_PkScript o | None => [] end |}.
Definition scan_transfers (block : MsgBlock) (blockHeight : Z) (tx : MsgTx) : M BTCMonitor unit :=
  m ← get;
  for_each (fun transfer => publish (NotifyUTXO (observed_utxo block blockHeight tx transfer)))
    (MaybeJustTransfer tx (BridgeBTCAddress m) (bm_ChainConfig m)).
Definition scan_redeem_tx (tx : MsgTx) : M BTCMonitor unit :=
  let _btc_txid := HashStr (TxHash tx) in
  found ← QueryRedeemTxFromMgrDB _btc_txid;
  if found : bool then
    reqTxHash ← FinishRedeem _btc_txid;
    publish (NotifyRedeemIsDone {| EthRequestTxID := reqTxHash; BtcHash := _btc_txid;
                                   Sent := true; Mined := true |})
  else mret tt.
Definition scan_tx (block : MsgBlock) (blockHeight : Z) (tx : MsgTx) : M BTCMonitor unit :=
  scan_deposit block blockHeight tx ;;
  scan_transfers block blockHeight tx ;;
  scan_redeem_tx tx.
Definition scan_block (block : MsgBlock) : M BTCMonitor unit :=
  if (length (Transactions block) =? 0)%nat then mret tt
  else
    blockHeight ← try (on_rpc (GetBlockHeightByHash (BtcTx.BlockHash block)));
    match blockHeight with
    | inl _ => mret tt
    | inr blockHeight => for_each (scan_tx block blockHeight) (Transactions block)
    end.
(** The part of [Scan] after its check for new blocks. [blocks] is nil when [GetBlocks] fails, so
    its error is returned after an empty loop. *)
Definition Scan_fetch (latestBlockHeight last : Z) : M BTCMonitor unit :=
  let numbersToFetch := i64 (i64 (latestBlockHeight - last) - BLK_MATURE_OFFSET) in
  let numbersToFetch := if numbersToFetch <? RETRO_SCAN_BLOCKS then RETRO_SCAN_BLOCKS
                        else numbersToFetch in
  blocks ← try (on_rpc (GetBlocks numbersToFetch BLK_MATURE_OFFSET));
  match blocks with
  | inl err => throw ("failed to get finalized blocks: " +:+ err)
  | inr blocks =>
      for_each scan_block blocks ;;
      modify (set_visited latestBlockHeight)
  end.
Definition Scan : M BTCMonitor unit :=
  latest ← try (on_rpc GetLatestBlockHeight);
  match latest with
  | inl err => throw ("failed to get latest block height: " +:+ err)
  | inr latestBlockHeight =>
      last ← gets LastVistedBlockHeight;
      if latestBlockHeight <=? last then mret tt else Scan_fetch latestBlockHeight last
  end.
End monitor.
Arguments BTCMonitor {B} N A.

(** ** The observers: what each does with an item it receives *)
Section observers.
Context `{E : EthLib, G : GobLib}.
(** observer_deposit.go *)
Definition ObserverDepositAction_handle {S} `{DepositStorage S} (data : DepositAction) : M S unit :=
  ignore (AddDeposit data).
(** observer_mint.go *)
Definition mint_of_deposit (data : DepositAction) : Mint := {|
  m_BtcTxId := HexToHash (da_TxHash data); m_MintTxHash := EmptyHash;
  m_Receiver := HexToAddress (EvmAddr data); m_Amount := Some (DepositValue data) |}.
Definition BTC2EVMObserver_handle (data : DepositAction) : M State unit :=
  ignore (SetNewBTC2EVMMint (mint_of_deposit data)).
(** observer_redeem.go *)
Definition RedeemObserver_handle (data : RedeemAction) : M State unit :=
  ignore (SetRedeemCompleted (HexToHash (EthRequestTxID data)) (HexToHash (BtcHash data))).
(** observer_utxo.go *)
Definition ObserverUTXOVault_handle {V} `{VaultUTXOStorage V} (data : ObservedUTXO) : M V unit :=
  ignore (AddUTXO (ou_BlockNumber data) (ou_BlockHash data) (ou_TxID data) (ou_Vout data)
            (ou_Amount data) (ou_PkScript data)).
End observers.

(** ** Notifications are delivered exactly once *)
Section channels.
Context {X : Type}.
(** [chan_run c ns rs c']: from [c] to [c'] the publisher notified [ns] and the observer received
    [rs], in any interleaving; a waiting goroutine sends when it finds room, in any order. *)
Inductive chan_run : chan X -> list X -> list X -> chan X -> Prop :=
  | run_nil c : chan_run c [] [] c
  | run_notify x c ns rs c' : chan_run (notify x c) ns rs c' -> chan_run c (x :: ns) rs c'
  | run_unblock n b s1 x s2 ns rs c' : (length b < n)%nat ->
      chan_run (Build_chan n (b ++ [x]) (s1 ++ s2)) ns rs c' ->
      chan_run (Build_chan n b (s1 ++ x :: s2)) ns rs c'
  | run_recv n x b s ns rs c' : chan_run (Build_chan n b s) ns rs c' ->
      chan_run (Build_chan n (x :: b) s) ns (x :: rs) c'
  | run_handoff s1 x s2 ns rs c' : chan_run (Build_chan 0 [] (s1 ++ s2)) ns rs c' ->
      chan_run (Build_chan 0 [] (s1 ++ x :: s2)) ns (x :: rs) c'.
Definition chan_all (c : chan X) : list X := ch_buf c ++ ch_senders c.
Definition drained (c : chan X) : Prop := ch_buf c = [] /\ ch_senders c = [].

Lemma notify_all (x : X) c : chan_all (notify x c) ≡ₚ chan_all c ++ [x].
Proof.
  unfold chan_all, notify. case_match; cbn; [|by rewrite (assoc_L (++))].
  rewrite <-!(assoc_L (++)). by rewrite (Permutation_app_comm [x] (ch_senders c)).
Qed.
Lemma notify_cap (x : X) c : ch_cap (notify x c) = ch_cap c.
Proof. unfold notify. by case_match. Qed.
Lemma chan_run_perm c ns rs c' : chan_run c ns rs c' -> rs ++ chan_all c' ≡ₚ chan_all c ++ ns.
Proof.
  induction 1 as [c|x c ns rs c' _ IH|n b s1 x s2 ns rs c' _ _ IH|n x b s ns rs c' _ IH|s1 x s2 ns rs c' _ IH].
  - by rewrite app_nil_r.
  - by rewrite IH, notify_all, <-(assoc_L (++)).
  - rewrite IH. unfold chan_all. cbn. f_equiv. rewrite <-!(assoc_L (++)). f_equiv. cbn. by apply Permutation_middle.
  - cbn. by rewrite IH.
  - cbn. rewrite IH. unfold chan_all. cbn. by apply (Permutation_middle s1 s2 x) || rewrite <-Permutation_middle.
Qed.
Lemma chan_run_fifo c ns rs c' : chan_run c ns rs c' ->
  ch_senders c = [] -> (length (ch_buf c) + length ns <= ch_cap c)%nat ->
  rs ++ ch_buf c' = ch_buf c ++ ns /\ ch_senders c' = [].
Proof.
  induction 1 as [c|x c ns rs c' _ IH|n b s1 x s2 ns rs c' _ _ IH|n x b s ns rs c' _ IH|s1 x s2 ns rs c' _ IH];
    intros Hs Hl; cbn in Hl, Hs |- *.
  - by rewrite app_nil_r.
  - unfold notify in IH. rewrite (proj2 (Nat.ltb_lt _ _)) in IH by lia. cbn in IH.
    rewrite length_app in IH. cbn in IH. destruct IH as [IH1 IH2]; [done|lia|].
    by rewrite <-(assoc_L (++)) in IH1.
  - by destruct s1.
  - destruct IH as [IH1 IH2]; [done|cbn; lia|]. cbn in IH1. by rewrite IH1.
  - by destruct s1.
Qed.
Lemma chan_drain c : exists rs c', chan_run c [] rs c' /\ drained c'.
Proof.
  destruct c as [n b s]. remember (length b + length s)%nat as k eqn:Hk. revert b s Hk.
  induction k as [|k IH]; intros b s Hk.
  - destruct b, s; try done. exists [], (Build_chan n [] []). split; [constructor|done].
  - destruct b as [|x b].
    + destruct s as [|x s]; [done|]. destruct n as [|n].
      * destruct (IH [] s) as (rs & c' & Hr & Hd); [cbn in Hk |- *; lia|].
        exists (x :: rs), c'. split; [|done]. by apply (run_handoff []).
      * destruct (IH [] s) as (rs & c' & Hr & Hd); [cbn in Hk |- *; lia|].
        exists (x :: rs), c'. split; [|done]. apply (run_unblock _ _ []); [cbn; lia|].
        by apply run_recv.
    + destruct (IH b s) as (rs & c' & Hr & Hd); [cbn in Hk; lia|].
      exists (x :: rs), c'. split; [|done]. by apply run_recv.
Qed.

(** C22: the publisher neither loses nor duplicates a notification: in any interleaving of
    notifications, receives and waiting goroutines, what an observer received together with
    what is still on its way is what was there plus what was notified; in the order of
    notification when it all fits the buffer; and an observer that keeps receiving gets it all. *)
Theorem publisher_delivers c ns rs c' :
  chan_run c ns rs c' ->
  rs ++ chan_all c' ≡ₚ chan_all c ++ ns /\
  (ch_senders c = [] -> (length (ch_buf c) + length ns <= ch_cap c)%nat ->
     rs ++ chan_all c' = chan_all c ++ ns) /\
  exists rs' d, chan_run c' [] rs' d /\ drained d /\ rs ++ rs' ≡ₚ chan_all c ++ ns.
Proof.
  intros Hr. pose proof (chan_run_perm _ _ _ _ Hr) as Hp. split; [done|]. split.
  - intros Hs Hl. destruct (chan_run_fifo _ _ _ _ Hr Hs Hl) as [H1 H2]. unfold chan_all.
    by rewrite Hs, H2, !app_nil_r.
  - destruct (chan_drain c') as (rs' & d & Hd & [H1 H2]). exists rs', d. split; [done|]. split; [done|].
    apply chan_run_perm in Hd. unfold chan_all in Hd at 1. rewrite H1, H2 in Hd. rewrite app_nil_r in Hd.
    by rewrite Hd, app_nil_r.
Qed.
End channels.
Lemma publisher_delivers_witness :
  [1; 2; 3]%nat ++ chan_all (Build_chan 1 ([] : list nat) []) ≡ₚ chan_all (make_chan 1) ++ [1; 2; 3]%nat.
Proof.
  refine (proj1 (publisher_delivers (make_chan 1) [1; 2; 3]%nat [1; 2; 3]%nat (Build_chan 1 [] []) _)).
  do 3 apply run_notify. cbn. apply run_recv. apply (run_unblock 1 [] [] 2%nat [3%nat]); [cbn; lia|].
  apply run_recv. apply (run_unblock 1 [] [] 3%nat []); [cbn; lia|]. apply run_recv. apply run_nil.
Defined.

(** ** What one scan does *)
Section scan.
Context `{BL : BtcLibLaws, E : EthLib, R : RlpLib}.
Context {N A : Type} `{NL : @BtcNodeLaws B N BN, RL : RedeemStorageLaws A}.
Abbreviation Mon := (BTCMonitor N A).

(** the channel after the notifications [xs], one after the other *)
Definition notified {X} (xs : list X) (c : chan X) : chan X := foldl (fun c x => notify x c) c xs.
(** every observer was notified of these items, in this order, and of nothing else *)
Definition sent_to {X} (xs : list X) (l l' : list (chan X)) : Prop := l' = notified xs <$> l.
Lemma sent_to_nil {X} (l : list (chan X)) : sent_to [] l l.
Proof. unfold sent_to. symmetry. apply list_fmap_id. Qed.
Lemma sent_to_trans {X} (xs ys : list X) l1 l2 l3 :
  sent_to xs l1 l2 -> sent_to ys l2 l3 -> sent_to (xs ++ ys) l1 l3.
Proof.
  unfold sent_to. intros -> ->. rewrite <-list_fmap_compose. apply list_fmap_ext.
  intros i c _. unfold notified. cbn. by rewrite foldl_app.
Qed.
Lemma sent_to_notify {X} (x : X) l : sent_to [x] l (notify x <$> l).
Proof. done. Qed.
Lemma notified_all {X} (xs : list X) c : chan_all (notified xs c) ≡ₚ chan_all c ++ xs.
Proof.
  revert c. induction xs as [|x xs IH]; intros c; [by rewrite app_nil_r|]. cbn.
  fold (notified xs (notify x c)). by rewrite IH, notify_all, <-(assoc_L (++)).
Qed.

(** The tracked redeems whose Bitcoin transaction is [tx]: what the monitor says of them *)
Definition completes (rows : list RedeemAction) (tx : MsgTx) : list RedeemAction :=
  let id := HashStr (TxHash tx) in
  match find_row BtcHash rows id with
  | Some r => if (String.length (EthRequestTxID r) =? 0)%nat then []
              else [{| EthRequestTxID := EthRequestTxID r; BtcHash := id; Sent := true; Mined := true |}]
  | None => []
  end.
(** the rows once the redeem of [r] is marked as mined *)
Definition mark_mined (rows : list RedeemAction) (r : RedeemAction) : list RedeemAction :=
  update_rows EthRequestTxID rows (EthRequestTxID r) set_Mined.
Definition rows_of (m : Mon) : list RedeemAction := actions (bm_mgrState m).
Definition storage_healthy (m : Mon) : Prop := ra_healthy (bm_mgrState m).
(** what the transactions [txs] make of the redeems: with a storage that works, the redeem observers
    are notified of each tracked redeem they complete, in order and of nothing else, and these are
    marked as mined; with one that fails, of some of them at most *)
Record redeemed (txs : list MsgTx) (m m' : Mon) : Prop := {
  rd_health : storage_healthy m <-> storage_healthy m';
  rd_same : forall tx, completes (rows_of m') tx = completes (rows_of m) tx;
  rd_done : exists rs,
    sent_to rs (RedeemObservers (Publisher m)) (RedeemObservers (Publisher m')) /\
    rs `sublist_of` concat (completes (rows_of m) <$> txs) /\
    (storage_healthy m -> rs = concat (completes (rows_of m) <$> txs) /\
                          rows_of m' = foldl mark_mined (rows_of m) rs) }.
Lemma redeemed_nil (m m' : Mon) : bm_mgrState m' = bm_mgrState m ->
  RedeemObservers (Publisher m') = RedeemObservers (Publisher m) -> redeemed [] m m'.
Proof.
  intros Ha Hr. split; unfold storage_healthy, rows_of; rewrite ?Ha; try done.
  exists []. rewrite Hr. split; [apply sent_to_nil|]. done.
Qed.
Lemma redeemed_trans t1 t2 (m1 m2 m3 : Mon) :
  redeemed t1 m1 m2 -> redeemed t2 m2 m3 -> redeemed (t1 ++ t2) m1 m3.
Proof.
  intros [H1 S1 (r1 & O1 & U1 & E1)] [H2 S2 (r2 & O2 & U2 & E2)].
  assert (completes (rows_of m2) <$> t2 = completes (rows_of m1) <$> t2) as Hs
    by (apply list_fmap_ext; intros; apply S1). rewrite Hs in *.
  split; [by rewrite H1|intros tx; by rewrite S2|]. exists (r1 ++ r2).
  rewrite fmap_app, concat_app. split; [by eapply sent_to_trans|]. split; [by apply sublist_app|].
  intros Hh. destruct (E1 Hh) as [<- Hr1]. destruct (E2 (proj1 H1 Hh)) as [<- Hr2].
  split; [done|]. by rewrite foldl_app, Hr2, Hr1.
Qed.

(** the same monitor after it published [ds] and [us] and looked at [txs] for redeems: what it
    watches and remembers is kept *)
Record published (ds : list DepositAction) (us : list ObservedUTXO) (txs : list MsgTx) (m m' : Mon) : Prop := {
  pb_watch : BridgeBTCAddress m' = BridgeBTCAddress m /\ bm_ChainConfig m' = bm_ChainConfig m /\
             LastVistedBlockHeight m' = LastVistedBlockHeight m;
  pb_node : chain (RpcClient m) `prefix_of` chain (RpcClient m') /\ (node_up (RpcClient m) -> node_up (RpcClient m'));
  pb_deposits : sent_to ds (DepositObservers (Publisher m)) (DepositObservers (Publisher m'));
  pb_utxos : sent_to us (UTXOObservers (Publisher m)) (UTXOObservers (Publisher m'));
  pb_others : OtherTransferObservers (Publisher m') = OtherTransferObservers (Publisher m);
  pb_redeems : redeemed txs m m' }.
Lemma published_refl (m : Mon) : published [] [] [] m m.
Proof. split; [done|by split|apply sent_to_nil|apply sent_to_nil|done|by apply redeemed_nil]. Qed.
Lemma published_trans ds us txs ds' us' txs' m1 m2 m3 :
  published ds us txs m1 m2 -> published ds' us' txs' m2 m3 ->
  published (ds ++ ds') (us ++ us') (txs ++ txs') m1 m3.
Proof.
  intros [(a1 & a2 & a3) [b1 b2] c d e f] [(a4 & a5 & a6) [b3 b4] c' d' e' f'].
  split; [split_and!; congruence|split; [by etrans|auto]|by eapply sent_to_trans|by eapply sent_to_trans
    |congruence|by eapply redeemed_trans].
Qed.

(** what the monitor [m] sees in one transaction *)
Section see.
Variables (a : Address) (cfg : BtcTx.Params).
Definition tx_deposit (block : MsgBlock) (h : Z) (tx : MsgTx) : list DepositAction :=
  if MaybeDepositTx tx a cfg
  then match CraftDepositAction tx h block a cfg with Ok d => [d] | _ => [] end else [].
Definition tx_utxos (block : MsgBlock) (h : Z) (tx : MsgTx) : list ObservedUTXO :=
  observed_utxo block h tx <$> MaybeJustTransfer tx a cfg.
Definition tx_safe (tx : MsgTx) : Prop :=
  forall h block w, MaybeDepositTx tx a cfg = true -> CraftDepositAction tx h block a cfg <> Panic w.
Definition block_deposits (h : Z) (b : MsgBlock) : list DepositAction :=
  concat (tx_deposit b h <$> Transactions b).
Definition block_utxos (h : Z) (b : MsgBlock) : list ObservedUTXO :=
  concat (tx_utxos b h <$> Transactions b).
End see.
Definition sees_deposits (m : Mon) := tx_deposit (BridgeBTCAddress m) (bm_ChainConfig m).
Definition sees_utxos (m : Mon) := tx_utxos (BridgeBTCAddress m) (bm_ChainConfig m).
Definition safe_at (m : Mon) (h : Z) (block : MsgBlock) (tx : MsgTx) : Prop :=
  forall w, MaybeDepositTx tx (BridgeBTCAddress m) (bm_ChainConfig m) = true ->
    CraftDepositAction tx h block (BridgeBTCAddress m) (bm_ChainConfig m) <> Panic w.
Definition safe (m : Mon) := tx_safe (BridgeBTCAddress m) (bm_ChainConfig m).

Lemma publish_step f (m : Mon) :
  publish f m = (Ok tt, {| BridgeBTCAddress := BridgeBTCAddress m;
    LastVistedBlockHeight := LastVistedBlockHeight m; bm_ChainConfig := bm_ChainConfig m;
    Publisher := f (Publisher m); RpcClient := RpcClient m; bm_mgrState := bm_mgrState m |}).
Proof. done. Qed.
Lemma scan_deposit_spec b h tx (m : Mon) : safe_at m h b tx ->
  exists m', scan_deposit b h tx m = (Ok tt, m') /\ published (sees_deposits m b h tx) [] [] m m'.
Proof.
  intros Hs. unfold scan_deposit, sees_deposits, tx_deposit. rewrite bind_eq. cbn [get].
  destruct (MaybeDepositTx _ _ _) eqn:Hm; [|exists m; split; [done|apply published_refl]].
  rewrite bind_eq. unfold try, lift. unfold safe_at in Hs.
  destruct (CraftDepositAction _ _ _ _ _) as [d|e|w]; [| |by destruct (Hs w)].
  - rewrite publish_step. eexists. split; [done|].
    split; cbn; [done|by split|apply sent_to_notify|apply sent_to_nil|done|by apply redeemed_nil].
  - exists m. split; [done|apply published_refl].
Qed.
Lemma scan_transfers_spec b h tx (m : Mon) :
  exists m', scan_transfers b h tx m = (Ok tt, m') /\ published [] (sees_utxos m b h tx) [] m m'.
Proof.
  unfold scan_transfers, sees_utxos, tx_utxos. rewrite bind_eq. cbn [get].
  generalize (MaybeJustTransfer tx (BridgeBTCAddress m) (bm_ChainConfig m)). intros l. revert m.
  induction l as [|t l IH]; intros m; cbn [for_each].
  - exists m. split; [done|apply published_refl].
  - rewrite bind_eq, publish_step. edestruct IH as (m' & -> & Hp). exists m'. split; [done|].
    rewrite fmap_cons. refine (published_trans [] [_] [] [] _ [] m _ m' _ Hp).
    split; cbn; [done|by split|apply sent_to_nil|apply sent_to_notify|done|by apply redeemed_nil].
Qed.

(** an operation on the storage of redeem actions changes nothing else *)
Definition with_mgr (a : A) (m : Mon) : Mon := {|
  BridgeBTCAddress := BridgeBTCAddress m; LastVistedBlockHeight := LastVistedBlockHeight m;
  bm_ChainConfig := bm_ChainConfig m; Publisher := Publisher m; RpcClient := RpcClient m; bm_mgrState := a |}.
Lemma on_mgr_eq {T} (f : M A T) (m : Mon) o a : f (bm_mgrState m) = (o, a) -> on_mgr f m = (o, with_mgr a m).
Proof. intros Hf. unfold on_mgr, zoom. by rewrite Hf. Qed.
Lemma with_mgr_same (m : Mon) : with_mgr (bm_mgrState m) m = m.
Proof. by destruct m. Qed.
Lemma completes_marked rows k tx : completes (update_rows EthRequestTxID rows k set_Mined) tx = completes rows tx.
Proof.
  unfold completes. set (id := HashStr (TxHash tx)).
  assert (find_row BtcHash (update_rows EthRequestTxID rows k set_Mined) id =
    (fun r => if decide (EthRequestTxID r = k) then set_Mined r else r) <$> find_row BtcHash rows id) as ->.
  { unfold update_rows. induction rows as [|r rows IH]; [done|]. rewrite fmap_cons, !find_row_cons.
    replace (BtcHash (if decide (EthRequestTxID r = k) then set_Mined r else r)) with (BtcHash r)
      by (by destruct (decide _)). by destruct (decide (BtcHash r = id)). }
  destruct (find_row BtcHash rows id) as [r|]; [|done]. cbn. by destruct (decide (EthRequestTxID r = k)).
Qed.
(** the redeem [r] of [tx] is completed in the storage [a] and announced *)
Lemma completed_published tx r a (m : Mon) :
  completes (rows_of m) tx = [r] -> (storage_healthy m <-> ra_healthy a) ->
  actions a = mark_mined (rows_of m) r \/ (actions a = rows_of m /\ ~ storage_healthy m) ->
  published [] [] [tx] m (publish (NotifyRedeemIsDone r) (with_mgr a m)).2.
Proof.
  intros Hr Hh Ha. rewrite publish_step. cbn [snd with_mgr].
  split; cbn; [done|by split|apply sent_to_nil|apply sent_to_nil|done|].
  split; unfold rows_of, storage_healthy in *; cbn; [done| |].
  - intros tx'. destruct Ha as [-> |[-> _]]; [apply completes_marked|done].
  - exists [r]. rewrite Hr. cbn. split; [apply sent_to_notify|]. split; [done|].
    intros Hm. split; [done|]. by destruct Ha as [-> |[_ []]].
Qed.
Lemma scan_redeem_spec tx (m : Mon) :
  exists m', scan_redeem_tx tx m = (Ok tt, m') /\ published [] [] [tx] m m'.
Proof.
  unfold scan_redeem_tx, QueryRedeemTxFromMgrDB. set (id := HashStr (TxHash tx)). rewrite !bind_eq.
  destruct (law_ra_btc (bm_mgrState m) id) as (p & Hq & Hp).
  rewrite (on_mgr_eq _ m _ _ Hq), with_mgr_same. mstep.
  assert ((forall r, completes (rows_of m) tx <> [r]) \/ ~ storage_healthy m ->
    published [] [] [tx] m m) as Hnone.
  { intros Hn. split; [done|by split|apply sent_to_nil|apply sent_to_nil|done|]. split; [done|done|].
    exists []. split; [apply sent_to_nil|]. split; [apply sublist_nil_l|]. intros Hh. destruct Hn as [Hn|[]]; [|done].
    cbn. rewrite app_nil_r. unfold completes in *. destruct (find_row _ _ _) as [r|]; [|done].
    destruct (_ =? _)%nat; [done|]. by destruct (Hn _ eq_refl). }
  destruct Hp as [-> |[(x & e & -> & Hx) Hbad]].
  2: { exists m. split; [done|]. apply Hnone. by right. }
  destruct (find_row BtcHash (actions (bm_mgrState m)) id) as [r|] eqn:Hr.
  2: { exists m. split; [done|]. apply Hnone. left. intros r. unfold completes, rows_of. fold id. by rewrite Hr. }
  destruct (String.length (EthRequestTxID r) =? 0)%nat eqn:Hlen; cbn [negb].
  { exists m. split; [done|]. apply Hnone. left. intros r'. unfold completes, rows_of. fold id. by rewrite Hr, Hlen. }
  unfold FinishRedeem. rewrite !bind_eq, (on_mgr_eq _ m _ _ Hq), with_mgr_same. mstep. cbn [deref fst].
  destruct (law_ra_complete (bm_mgrState m) (EthRequestTxID r)) as (o & a & Hc & Hh & Ho).
  rewrite bind_eq, ignore_ok by (intros w; rewrite (on_mgr_eq _ _ _ _ Hc); by destruct Ho as [(-> & _)|((e & ->) & _)]).
  unfold run. rewrite (on_mgr_eq _ _ _ _ Hc). mstep. cbn [snd].
  destruct (law_ra_eth a (EthRequestTxID r)) as (q & Hq3 & Hq4).
  rewrite (on_mgr_eq _ (with_mgr a m) _ _ Hq3). mstep. change (with_mgr a (with_mgr a m)) with (with_mgr a m).
  assert (exists r', q.1 = Some r' /\ EthRequestTxID r' = EthRequestTxID r) as (r' & Hq1 & Hk).
  { destruct Hq4 as [-> |[(x & e & -> & Hx) _]]; [|by exists x]. cbn [fst].
    assert (EthRequestTxID r ∈ EthRequestTxID <$> actions a) as Hin.
    { assert (r ∈ actions (bm_mgrState m)) as Hr2 by (by apply find_row_Some in Hr as [? _]).
      destruct Ho as [(_ & ->)|(_ & -> & _)]; [rewrite update_rows_keys by (by intros [])|];
        apply list_elem_of_fmap; eauto. }
    destruct (find_row EthRequestTxID _ _) as [r'|] eqn:Hf; [|by apply find_row_None in Hf].
    apply find_row_Some in Hf as [_ Hf]. by exists r'. }
  unfold deref. rewrite Hq1. mstep. rewrite Hk, publish_step. eexists. split; [done|].
  set (done := {| EthRequestTxID := EthRequestTxID r; BtcHash := id; Sent := true; Mined := true |}).
  refine (completed_published tx done a m _ Hh _).
  - unfold completes, rows_of. fold id. by rewrite Hr, Hlen.
  - destruct Ho as [(_ & Ha)|(_ & Ha)]; [by left|by right].
Qed.
Lemma scan_tx_spec b h tx (m : Mon) : safe_at m h b tx ->
  exists m', scan_tx b h tx m = (Ok tt, m') /\ published (sees_deposits m b h tx) (sees_utxos m b h tx) [tx] m m'.
Proof.
  intros Hs. unfold scan_tx. rewrite bind_eq.
  destruct (scan_deposit_spec b h tx m Hs) as (m1 & -> & P1). rewrite bind_eq.
  destruct (scan_transfers_spec b h tx m1) as (m2 & -> & P2).
  destruct (scan_redeem_spec tx m2) as (m3 & -> & P3). exists m3. split; [done|].
  pose proof (published_trans _ _ _ _ _ _ _ _ _ P1 (published_trans _ _ _ _ _ _ _ _ _ P2 P3)) as P.
  cbn [app] in P. rewrite !app_nil_r in P. unfold sees_utxos in *.
  destruct P1 as [(Ha & Hc & _) _ _ _ _ _]. by rewrite Ha, Hc in P.
Qed.

(** what is published for a list of blocks, the first of which is at height [h] *)
Section window.
Variables (a : Address) (cfg : BtcTx.Params).
Fixpoint window_deposits (h : nat) (l : list MsgBlock) : list DepositAction :=
  match l with
  | [] => []
  | b :: l => block_deposits a cfg (Z.of_nat h) b ++ window_deposits (S h) l
  end.
Fixpoint window_utxos (h : nat) (l : list MsgBlock) : list ObservedUTXO :=
  match l with
  | [] => []
  | b :: l => block_utxos a cfg (Z.of_nat h) b ++ window_utxos (S h) l
  end.
Lemma window_deposits_elem h l i b tx d :
  l !! i = Some b -> tx ∈ Transactions b -> d ∈ tx_deposit a cfg b (Z.of_nat (h + i)) tx ->
  d ∈ window_deposits h l.
Proof.
  revert h i. induction l as [|b' l IH]; intros h [|i]; cbn; [done|done| |].
  - intros [= ->] Htx Hd. apply elem_of_app. left. unfold block_deposits.
    apply list_elem_of_In, in_concat. exists (tx_deposit a cfg b (Z.of_nat h) tx).
    rewrite Nat.add_0_r in Hd. split; apply list_elem_of_In; [apply list_elem_of_fmap; eauto|done].
  - intros Hb Htx Hd. apply elem_of_app. right. apply (IH (S h) i Hb Htx).
    by replace (S h + i)%nat with (h + S i)%nat by lia.
Qed.
End window.

Lemma safe_at_kept ds us txs (m m' : Mon) h b tx :
  published ds us txs m m' -> safe_at m h b tx -> safe_at m' h b tx.
Proof. intros [(Ha & Hc & _) _ _ _ _ _]. unfold safe_at. by rewrite Ha, Hc. Qed.
Lemma scan_txs_spec b h txs : forall m : Mon, Forall (safe_at m h b) txs ->
  exists m', for_each (scan_tx b h) txs m = (Ok tt, m') /\
    published (concat (sees_deposits m b h <$> txs)) (concat (sees_utxos m b h <$> txs)) txs m m'.
Proof.
  induction txs as [|tx txs IH]; intros m Hs.
  - exists m. split; [done|apply published_refl].
  - apply Forall_cons in Hs as [Hs Hss]. cbn [for_each]. rewrite bind_eq.
    destruct (scan_tx_spec b h tx m Hs) as (m1 & -> & P1).
    pose proof (pb_watch _ _ _ _ _ P1) as (Ha & Hc & _).
    destruct (IH m1) as (m2 & -> & P2); [eapply Forall_impl; [exact Hss|intros; by eapply safe_at_kept]|].
    exists m2. split; [done|]. rewrite !fmap_cons. cbn [concat].
    unfold sees_deposits, sees_utxos in *. rewrite Ha, Hc in P2. by eapply (published_trans _ _ [tx]).
Qed.
Lemma scan_block_spec k b (m : Mon) :
  node_up (RpcClient m) -> chain (RpcClient m) !! k = Some b -> Forall (safe_at m (Z.of_nat k) b) (Transactions b) ->
  exists m', scan_block b m = (Ok tt, m') /\
    published (block_deposits (BridgeBTCAddress m) (bm_ChainConfig m) (Z.of_nat k) b)
              (block_utxos (BridgeBTCAddress m) (bm_ChainConfig m) (Z.of_nat k) b) (Transactions b) m m'.
Proof.
  intros Hup Hb Hs. unfold scan_block. destruct (Transactions b) as [|tx txs] eqn:Htx.
  - exists m. split; [done|]. unfold block_deposits, block_utxos. rewrite Htx. apply published_refl.
  - cbn [length Nat.eqb]. rewrite <-Htx in *. rewrite bind_eq. unfold try, on_rpc, zoom, GetBlockHeightByHash.
    destruct (law_height _ k b Hup Hb) as (n' & [Hg Hu] & ->).
    set (m1 := {| BridgeBTCAddress := BridgeBTCAddress m |}).
    destruct (scan_txs_spec b (Z.of_nat k) (Transactions b) m1 Hs) as (m2 & -> & P2). exists m2. split; [done|].
    refine (published_trans [] [] [] _ _ _ m m1 m2 _ P2).
    split; cbn; [done|by split|apply sent_to_nil|apply sent_to_nil|done|by apply redeemed_nil].
Qed.
(** no transaction of these blocks, the first of which is at height [h], makes the decoding of a
    deposit panic *)
Definition safe_window (m : Mon) (h : nat) (l : list MsgBlock) : Prop :=
  forall i b tx, l !! i = Some b -> tx ∈ Transactions b -> safe_at m (Z.of_nat (h + i)) b tx.
Lemma scan_blocks_spec l : forall k (m : Mon),
  node_up (RpcClient m) -> (forall i b, l !! i = Some b -> chain (RpcClient m) !! (k + i)%nat = Some b) ->
  safe_window m k l ->
  exists m', for_each scan_block l m = (Ok tt, m') /\
    published (window_deposits (BridgeBTCAddress m) (bm_ChainConfig m) k l)
              (window_utxos (BridgeBTCAddress m) (bm_ChainConfig m) k l) (concat (Transactions <$> l)) m m'.
Proof.
  induction l as [|b l IH]; intros k m Hup Hl Hs.
  - exists m. split; [done|apply published_refl].
  - cbn [for_each]. rewrite bind_eq.
    destruct (scan_block_spec k b m Hup) as (m1 & -> & P1); [by rewrite <-(Nat.add_0_r k); apply Hl| |].
    { apply Forall_forall. intros tx Htx. rewrite <-(Nat.add_0_r k). by apply (Hs 0%nat). }
    pose proof P1 as [(Ha & Hc & _) [Hg Hu] _ _ _ _].
    assert (forall i, (S k + i)%nat = (k + S i)%nat) as Hi by lia.
    destruct (IH (S k) m1) as (m2 & -> & P2); [by apply Hu| | |].
    { intros i b' Hb'. rewrite Hi. eapply prefix_lookup_Some; [|exact Hg]. by apply Hl. }
    { intros i b' tx Hb' Htx. rewrite Hi. eapply safe_at_kept; [exact P1|]. by apply (Hs (S i)). }
    exists m2. split; [done|]. cbn [window_deposits window_utxos]. rewrite Ha, Hc in P2.
    by eapply (published_trans _ _ (Transactions b)).
Qed.

(** The number of blocks of a scan that saw the tip at height [L1], and the first of them when
    the tip is at [L2] by the time they are fetched *)
Definition scan_count (last L1 : Z) : Z := Z.max (L1 - last - 1) 36.
Definition scan_first (last L1 L2 : Z) : nat := Z.to_nat (L2 - scan_count last L1).
Definition scan_blocks (last L1 L2 : Z) (c : list MsgBlock) : list MsgBlock :=
  take (Z.to_nat (scan_count last L1)) (drop (scan_first last L1 L2) c).
Definition tip (n : N) : Z := Z.of_nat (length (chain n)) - 1.

Lemma on_rpc_published {T} (f : M N T) (m : Mon) o n :
  f (RpcClient m) = (o, n) -> grows (RpcClient m) n ->
  exists m', on_rpc f m = (o, m') /\ RpcClient m' = n /\ published [] [] [] m m'.
Proof.
  intros Hf [Hg Hu]. unfold on_rpc, zoom. rewrite Hf. eexists. split; [done|]. split; [done|].
  split; cbn; [done|by split|apply sent_to_nil|apply sent_to_nil|done|by apply redeemed_nil].
Qed.
Lemma Scan_fetch_eq latest last (m : Mon) o m2 :
  0 <= latest - last - 1 < 2 ^ 62 ->
  on_rpc (GetBlocks (scan_count last latest) 1) m = (o, m2) ->
  Scan_fetch latest last m =
  match o with
  | Ok blocks => (for_each scan_block blocks ;; modify (set_visited latest)) m2
  | Err err => (Err ("failed to get finalized blocks: " +:+ err)%string, m2)
  | Panic w => (Panic w, m2)
  end.
Proof.
  intros Hrng Hm. unfold Scan_fetch, BLK_MATURE_OFFSET, RETRO_SCAN_BLOCKS.
  rewrite (swrap_small 64 (latest - last)) by lia. rewrite (swrap_small 64) by lia.
  assert ((if latest - last - 1 <? 36 then 36 else latest - last - 1) = scan_count last latest) as ->.
  { unfold scan_count. destruct (Z.ltb_spec (latest - last - 1) 36); lia. }
  rewrite bind_eq. unfold try. rewrite Hm. by destruct o.
Qed.
Lemma Scan_cases (m : Mon) :
  node_up (RpcClient m) -> 0 <= LastVistedBlockHeight m < 2 ^ 62 ->
  let last := LastVistedBlockHeight m in
  exists L1 m1, published [] [] [] m m1 /\ tip (RpcClient m) <= L1 <= tip (RpcClient m1) /\
    node_up (RpcClient m1) /\
    ((L1 <= last /\ Scan m = (Ok tt, m1)) \/
     (last < L1 /\ exists L2, L1 <= L2 <= tip (RpcClient m1) /\
        if decide (scan_count last L1 <= L2)
        then Scan m = (for_each scan_block (scan_blocks last L1 L2 (chain (RpcClient m1))) ;;
                       modify (set_visited L1)) m1
        else exists e, Scan m = (Err e, m1))).
Proof.
  intros Hup Hlast last. destruct (law_count _ Hup) as (n1 & G1 & E1).
  destruct (on_rpc_published GetLatestBlockHeight m _ _ E1 G1) as (m1 & Hm1 & Hn1 & P1). fold (tip n1) in Hm1.
  assert (node_up n1) as Hup1 by apply G1. pose proof (law_heights _ Hup1) as Hmax.
  assert (tip (RpcClient m) <= tip n1) as Hle.
  { destruct G1 as [G1 _]. apply prefix_length in G1. unfold tip. lia. }
  pose proof P1 as [(_ & _ & Hl1) _ _ _ _ _].
  assert (Scan m = (last ← gets LastVistedBlockHeight;
    if tip n1 <=? last then mret tt else Scan_fetch (tip n1) last) m1) as HS.
  { unfold Scan. rewrite bind_eq. unfold try at 1. by rewrite Hm1. }
  rewrite bind_eq, gets_eq, Hl1 in HS. cbn beta iota in HS. fold last in HS.
  exists (tip n1).
  destruct (Z.leb_spec (tip n1) last) as [Hsmall|Hbig].
  { exists m1. split; [done|]. split; [by rewrite Hn1|]. split; [by rewrite Hn1|]. by left. }
  assert (0 <= tip n1 - last - 1 < 2 ^ 62) as Hrng by (unfold tip in *; lia).
  assert (0 < scan_count last (tip n1)) as Hpos by (unfold scan_count; lia).
  destruct (GetBlocks_spec n1 (scan_count last (tip n1)) 1 Hup1 Hpos ltac:(lia))
    as (L & n2 & HL1 & HL2 & G2 & Hb).
  assert (exists o, GetBlocks (scan_count last (tip n1)) 1 n1 = (o, n2)) as [o Ho].
  { destruct (decide _); [eauto|]. destruct Hb as [e ->]. eauto. }
  destruct (on_rpc_published (GetBlocks (scan_count last (tip n1)) 1) m1 o n2) as (m2 & Hm2 & Hn2 & P2);
    [by rewrite Hn1|by rewrite Hn1|].
  rewrite (Scan_fetch_eq (tip n1) last m1 o m2 Hrng Hm2) in HS.
  exists m2. split; [exact (published_trans [] [] [] [] [] [] _ _ _ P1 P2)|].
  assert (tip n1 <= tip (RpcClient m2)) by (rewrite Hn2; unfold tip; lia).
  split; [lia|]. split; [rewrite Hn2; apply G2|]. right. split; [done|].
  exists (Z.of_nat L - 1). split; [rewrite Hn2; unfold tip in *; lia|]. rewrite HS.
  destruct (decide (scan_count last (tip n1) + 1 <= Z.of_nat L)) as [Hok|Hbad].
  - rewrite decide_True by lia. rewrite Hb in Ho. injection Ho as <-.
    unfold scan_blocks, scan_first. rewrite Hn2.
    replace (Z.to_nat (Z.of_nat L - 1 - scan_count last (tip n1)))
      with (L - Z.to_nat 1 - Z.to_nat (scan_count last (tip n1)))%nat by lia. done.
  - rewrite decide_False by lia. destruct Hb as [e Hb]. rewrite Hb in Ho. injection Ho as <-. by eexists.
Qed.
Lemma scan_blocks_lookup last L1 L2 c i :
  (i < Z.to_nat (scan_count last L1))%nat -> scan_blocks last L1 L2 c !! i = c !! (scan_first last L1 L2 + i)%nat.
Proof. intros Hi. unfold scan_blocks. by rewrite lookup_take_lt, lookup_drop. Qed.
Lemma scan_blocks_chain last L1 L2 c i b :
  scan_blocks last L1 L2 c !! i = Some b -> c !! (scan_first last L1 L2 + i)%nat = Some b.
Proof.
  intros Hb. rewrite <-(scan_blocks_lookup last L1 L2); [done|]. apply lookup_lt_Some in Hb.
  unfold scan_blocks in Hb. rewrite length_take in Hb. lia.
Qed.

(** *** A transaction that stops the monitor *)
Definition poison (m : Mon) (tx : MsgTx) : Prop :=
  MaybeDepositTx tx (BridgeBTCAddress m) (bm_ChainConfig m) = true /\
  forall h b, exists w, CraftDepositAction tx h b (BridgeBTCAddress m) (bm_ChainConfig m) = Panic w.
Definition panics (m : Mon) (r : outcome unit * Mon) : Prop :=
  exists w m', r = (Panic w, m') /\ chain (RpcClient m) `prefix_of` chain (RpcClient m').
(** from [m], [r] either ends well, with the same watch and a chain that may have grown, or panics;
    never with an error *)
Definition goes_on (m : Mon) (r : outcome unit * Mon) : Prop :=
  (exists m' ds us txs, r = (Ok tt, m') /\ published ds us txs m m') \/ panics m r.
Lemma panics_after ds us txs m m' r : published ds us txs m m' -> panics m' r -> panics m r.
Proof. intros [_ [Hg _] _ _ _ _] (w & m2 & -> & H). exists w, m2. split; [done|]. by etrans. Qed.

Lemma scan_tx_poison b h tx (m : Mon) : poison m tx -> panics m (scan_tx b h tx m).
Proof.
  intros [Hm Hp]. destruct (Hp h b) as [w Hw]. exists w, m. split; [|done]. unfold scan_tx, scan_deposit.
  rewrite !bind_eq. cbn [get]. rewrite Hm, bind_eq. unfold try, lift. by rewrite Hw.
Qed.
Lemma scan_tx_total b h tx (m : Mon) : goes_on m (scan_tx b h tx m).
Proof.
  destruct (MaybeDepositTx tx (BridgeBTCAddress m) (bm_ChainConfig m)) eqn:Hm;
  [destruct (CraftDepositAction tx h b (BridgeBTCAddress m) (bm_ChainConfig m)) as [d|e|w] eqn:Hc|].
  3: { right. exists w, m. split; [|done]. unfold scan_tx, scan_deposit. rewrite !bind_eq. cbn [get].
       rewrite Hm, bind_eq. unfold try, lift. by rewrite Hc. }
  all: left; destruct (scan_tx_spec b h tx m) as (m' & H1 & H2); [by intros w; rewrite ?Hm, ?Hc|by do 4 eexists].
Qed.
Lemma for_each_goes_on {X} (f : X -> M Mon unit) (Q : Mon -> Prop) l : forall m,
  (forall m ds us txs m', Q m -> published ds us txs m m' -> Q m') ->
  (forall x m, x ∈ l -> Q m -> goes_on m (f x m)) -> Q m -> goes_on m (for_each f l m).
Proof.
  induction l as [|x l IH]; intros m HQ Hf Hm; cbn [for_each].
  - left. exists m, [], [], []. split; [done|apply published_refl].
  - rewrite bind_eq. destruct (Hf x m) as [(m1 & ds & us & txs & -> & P1)|(w & m1 & -> & Hg)];
      [apply list_elem_of_here|done| |right; by exists w, m1].
    destruct (IH m1 HQ) as [(m2 & ds' & us' & txs' & -> & P2)|Hp];
      [intros y m' Hy; apply Hf; by apply list_elem_of_further|by eapply HQ| |right; by eapply panics_after].
    left. exists m2, (ds ++ ds'), (us ++ us'), (txs ++ txs'). split; [done|]. by eapply published_trans.
Qed.
Lemma for_each_panics {X} (f : X -> M Mon unit) (Q : Mon -> Prop) l x : forall m,
  (forall m ds us txs m', Q m -> published ds us txs m m' -> Q m') ->
  (forall y m, y ∈ l -> Q m -> goes_on m (f y m)) ->
  x ∈ l -> (forall m, Q m -> panics m (f x m)) -> Q m -> panics m (for_each f l m).
Proof.
  induction l as [|y l IH]; intros m HQ Hf Hx Hp Hm; [by apply elem_of_nil in Hx|]. cbn [for_each].
  rewrite bind_eq. apply elem_of_cons in Hx as [->|Hx].
  - destruct (Hp m Hm) as (w & m' & -> & Hg). by exists w, m'.
  - destruct (Hf y m) as [(m1 & ds & us & txs & -> & P1)|(w & m1 & -> & Hg)];
      [apply list_elem_of_here|done| |by exists w, m1].
    eapply panics_after; [exact P1|]. apply IH; [done|intros z m' Hz; apply Hf; by apply list_elem_of_further|done|done|by eapply HQ].
Qed.

Lemma scan_block_goes_on tx b (m : Mon) : (exists k, chain (RpcClient m) !! k = Some b) ->
  node_up (RpcClient m) -> goes_on m (scan_block b m) /\
  (tx ∈ Transactions b -> poison m tx -> panics m (scan_block b m)).
Proof.
  intros [k Hk] Hu. unfold scan_block. destruct (Transactions b) as [|t0 txs] eqn:Ht.
  - split; [left; exists m, [], [], []; split; [done|apply published_refl]|by intros ?%elem_of_nil].
  - cbn [length Nat.eqb]. rewrite <-Ht. rewrite bind_eq. unfold try.
    destruct (law_height _ k b Hu Hk) as (n' & G & Eh).
    destruct (on_rpc_published (GetBlockHeightByHash (BtcTx.BlockHash b)) m _ _ Eh G) as (m1 & -> & _ & P1). split.
    + destruct (for_each_goes_on (scan_tx b (Z.of_nat k)) (fun _ => True) (Transactions b) m1)
        as [(m2 & ds & us & ts & H & P2)|H]; [done|intros; apply scan_tx_total|done| |right; by eapply panics_after].
      left. exists m2, ds, us, ts. split; [exact H|]. exact (published_trans [] [] [] _ _ _ _ _ _ P1 P2).
    + intros Hin Hp. eapply panics_after; [exact P1|]. apply (for_each_panics _ (fun m => poison m tx) _ tx);
        [|intros; apply scan_tx_total|done|intros; by apply scan_tx_poison|].
      * intros m2 ds us ts m3 Hp2 [(Ha & Hcf & _) _ _ _ _ _]. unfold poison in *. by rewrite Ha, Hcf.
      * destruct P1 as [(Ha & Hcf & _) _ _ _ _ _]. unfold poison in *. by rewrite Ha, Hcf.
Qed.
(** the transaction whose decoding, at its place in the chain, makes the scan panic *)
Definition unsafe_at (m : Mon) (h : Z) (b : MsgBlock) (tx : MsgTx) : Prop :=
  MaybeDepositTx tx (BridgeBTCAddress m) (bm_ChainConfig m) = true /\
  exists w, CraftDepositAction tx h b (BridgeBTCAddress m) (bm_ChainConfig m) = Panic w.
Lemma unsafe_at_kept ds us txs (m m' : Mon) h b tx :
  published ds us txs m m' -> unsafe_at m h b tx -> unsafe_at m' h b tx.
Proof. intros [(Ha & Hc & _) _ _ _ _ _]. unfold unsafe_at. by rewrite Ha, Hc. Qed.
Lemma scan_block_unsafe k b tx (m : Mon) : node_up (RpcClient m) -> chain (RpcClient m) !! k = Some b ->
  tx ∈ Transactions b -> unsafe_at m (Z.of_nat k) b tx -> panics m (scan_block b m).
Proof.
  intros Hu Hk Hin Hbad. unfold scan_block. destruct (Transactions b) as [|t0 txs] eqn:Ht; [by apply elem_of_nil in Hin|].
  cbn [length Nat.eqb]. rewrite <-Ht in *. rewrite bind_eq. unfold try.
  destruct (law_height _ k b Hu Hk) as (n' & G & Eh).
  destruct (on_rpc_published (GetBlockHeightByHash (BtcTx.BlockHash b)) m _ _ Eh G) as (m1 & -> & _ & P1).
  eapply panics_after; [exact P1|].
  apply (for_each_panics _ (fun m => unsafe_at m (Z.of_nat k) b tx) _ tx);
    [|intros; apply scan_tx_total|done| |by eapply unsafe_at_kept].
  - intros. by eapply unsafe_at_kept.
  - intros m2 [Hm [w Hw]]. exists w, m2. split; [|done]. unfold scan_tx, scan_deposit.
    rewrite !bind_eq. cbn [get]. rewrite Hm, bind_eq. unfold try, lift. by rewrite Hw.
Qed.

Lemma on_chain_later (m1 : Mon) last L1 L2 b (m2 : Mon) :
  b ∈ scan_blocks last L1 L2 (chain (RpcClient m1)) ->
  chain (RpcClient m1) `prefix_of` chain (RpcClient m2) -> exists k, chain (RpcClient m2) !! k = Some b.
Proof.
  intros [i Hi]%list_elem_of_lookup Hg. apply scan_blocks_chain in Hi. eexists.
  by eapply prefix_lookup_Some.
Qed.
(** the chain the blocks were taken from is still there after the scan *)
Lemma Scan_keeps_chain (m m1 : Mon) L1 :
  let last := LastVistedBlockHeight m in
  node_up (RpcClient m1) ->
  ((L1 <= last /\ Scan m = (Ok tt, m1)) \/
   (last < L1 /\ exists L2, L1 <= L2 <= tip (RpcClient m1) /\
      if decide (scan_count last L1 <= L2)
      then Scan m = (for_each scan_block (scan_blocks last L1 L2 (chain (RpcClient m1))) ;;
                     modify (set_visited L1)) m1
      else exists e, Scan m = (Err e, m1))) ->
  chain (RpcClient m1) `prefix_of` chain (RpcClient (run Scan m)).
Proof.
  intros last Hup [[_ H]|(_ & L2 & _ & H)]; [by unfold run; rewrite H|].
  destruct (decide _); [|destruct H as [e H]; by unfold run; rewrite H].
  unfold run. rewrite H, bind_eq.
  set (Q := fun m2 : Mon => node_up (RpcClient m2) /\ chain (RpcClient m1) `prefix_of` chain (RpcClient m2)).
  destruct (for_each_goes_on scan_block Q (scan_blocks last L1 L2 (chain (RpcClient m1))) m1)
    as [(m2 & ds & us & ts & -> & [_ [Hg _] _ _ _ _])|(w & m2 & -> & Hg)]; [| |by split|exact Hg|exact Hg].
  - intros m2 ds us ts m3 [Hu Hg] [_ [Hg2 Hup2] _ _ _ _]. split; [by apply Hup2|by etrans].
  - intros b m2 Hb [Hu Hg]. apply (scan_block_goes_on NewMsgTx); [by eapply on_chain_later|done].
Qed.

Section poisoned.
Variables (tx : MsgTx) (bad : MsgBlock) (hb : nat).
Hypothesis Htx : tx ∈ Transactions bad.
(** the poisoned block is on the chain of a node that is up *)
Definition poisoned (m : Mon) : Prop :=
  node_up (RpcClient m) /\ chain (RpcClient m) !! hb = Some bad /\ poison m tx.
Lemma poisoned_published m ds us ts m' : poisoned m -> published ds us ts m m' -> poisoned m'.
Proof.
  intros (Hu & Hc & Hp) [(Ha & Hcf & _) [Hg Hup] _ _ _ _]. split_and!; [by apply Hup|by eapply prefix_lookup_Some|].
  unfold poison in *. by rewrite Ha, Hcf.
Qed.

(** Anyone can stop the bridge with one transaction: when a block among the last 36 has a
    transaction that pays the bridge and whose second output is a bare OP_RETURN, every scan
    panics before it moves on, so the monitor stops and stops again after a restart. *)
Theorem bare_return_stops_monitor (m : Mon) output1 rest ins :
  node_up (RpcClient m) -> 0 <= LastVistedBlockHeight m < tip (RpcClient m) ->
  tx = {| tx_in := ins; tx_out := output1 :: {| Value := 0; to_PkScript := [OP_RETURN] |} :: rest |} ->
  pays_to output1 (BridgeBTCAddress m) (bm_ChainConfig m) = true ->
  chain (RpcClient m) !! hb = Some bad -> Z.of_nat hb < tip (RpcClient m) -> 36 <= tip (RpcClient m) ->
  tip (RpcClient (run Scan m)) <= Z.of_nat hb + 36 ->
  exists w m', Scan m = (Panic w, m').
Proof.
  intros Hup Hlast Htxe Hpay Hbad Hhb Hlong Htip. assert (poison m tx) as Hp.
  { rewrite Htxe. destruct (bare_return_panics (bm_ChainConfig m) (BridgeBTCAddress m) output1 rest ins 0 bad Hpay) as [H1 _].
    split; [exact H1|]. intros h b. exists "slice bounds out of range"%string.
    by apply (bare_return_panics (bm_ChainConfig m) (BridgeBTCAddress m) output1 rest ins h b Hpay). }
  pose proof (law_heights _ Hup) as Hmax.
  destruct (Scan_cases m Hup) as (L1 & m1 & P1 & HL & Hup1 & H); [unfold tip in *; lia|].
  pose proof (Scan_keeps_chain _ _ _ Hup1 H) as Hkeep.
  destruct H as [[H _]|(Hlt & L2 & HL2 & H)]; [lia|].
  assert (scan_count (LastVistedBlockHeight m) L1 <= L2) as Hn by (unfold scan_count; lia).
  rewrite decide_True in H by exact Hn.
  assert (poisoned m1) as Hpm1.
  { eapply poisoned_published; [|exact P1]. by split_and!. }
  set (bs := scan_blocks _ _ _ _) in H.
  enough (Hout : panics m1 (for_each scan_block bs m1)).
  { destruct Hout as (w & m2 & Er & _). rewrite H, bind_eq, Er. by do 2 eexists. }
  set (Q := fun m2 : Mon => poisoned m2 /\ chain (RpcClient m1) `prefix_of` chain (RpcClient m2)).
  assert (forall m ds us txs m', Q m -> published ds us txs m m' -> Q m') as HQ.
  { intros m2 ds us ts m3 [Hp2 Hg2] P. split; [by eapply poisoned_published|].
    destruct P as [_ [Hg _] _ _ _ _]. by etrans. }
  assert (forall b m2, b ∈ bs -> Q m2 -> goes_on m2 (scan_block b m2)) as Hgo.
  { intros b m2 Hb [(Hu & _) Hg]. apply (scan_block_goes_on tx); [by eapply on_chain_later|done]. }
  assert (L2 - scan_count (LastVistedBlockHeight m) L1 <= Z.of_nat hb) as Hin.
  { pose proof (prefix_length _ _ Hkeep). unfold scan_count, tip in *. lia. }
  apply (for_each_panics _ Q _ bad); [exact HQ|exact Hgo| | |by split].
  - apply list_elem_of_lookup. exists (hb - scan_first (LastVistedBlockHeight m) L1 L2)%nat.
    unfold bs. rewrite scan_blocks_lookup by (unfold scan_first; lia).
    replace (scan_first (LastVistedBlockHeight m) L1 L2 + (hb - scan_first (LastVistedBlockHeight m) L1 L2))%nat
      with hb by (unfold scan_first in *; lia). apply Hpm1.
  - intros m2 [(Hu & Hc & Hp2) Hg]. apply (scan_block_goes_on tx); [eauto|done|done|done].
Qed.
End poisoned.

(** *** The whole scan *)
(** what a scan does that saw the tip at [L1] and takes the blocks [c], from height [h] on, of the
    chain that [m1] has *)
Definition scanned (m m1 : Mon) (L1 : Z) (h : nat) (c : list MsgBlock) : Prop :=
  (safe_window m h c ->
   exists m2, Scan m = (Ok tt, set_visited L1 m2) /\
     published (window_deposits (BridgeBTCAddress m) (bm_ChainConfig m) h c)
               (window_utxos (BridgeBTCAddress m) (bm_ChainConfig m) h c) (concat (Transactions <$> c)) m1 m2) /\
  ((exists i b tx, c !! i = Some b /\ tx ∈ Transactions b /\ unsafe_at m (Z.of_nat (h + i)) b tx) ->
   exists w m2, Scan m = (Panic w, m2)).
Lemma scan_blocks_unsafe (m1 : Mon) l k i b tx : node_up (RpcClient m1) ->
  (forall i b, l !! i = Some b -> chain (RpcClient m1) !! (k + i)%nat = Some b) ->
  l !! i = Some b -> tx ∈ Transactions b -> unsafe_at m1 (Z.of_nat (k + i)) b tx ->
  panics m1 (for_each scan_block l m1).
Proof.
  intros Hup Hl Hi Htx Hbad.
  set (Q := fun m2 : Mon => unsafe_at m2 (Z.of_nat (k + i)) b tx /\ node_up (RpcClient m2) /\
    chain (RpcClient m1) `prefix_of` chain (RpcClient m2)).
  apply (for_each_panics _ Q _ b); [| | | |by split_and!].
  - intros m2 ds us txs m3 (H1 & Hu & Hg) P. split; [by eapply unsafe_at_kept|].
    destruct P as [_ [Hg2 Hup2] _ _ _ _]. split; [by apply Hup2|by etrans].
  - intros b' m2 [j Hj]%list_elem_of_lookup (_ & Hu & Hg). apply (scan_block_goes_on NewMsgTx); [|done].
    eexists. eapply prefix_lookup_Some; [by apply Hl|exact Hg].
  - by eapply list_elem_of_lookup_2.
  - intros m2 (H1 & Hu & Hg). eapply scan_block_unsafe; [done| |done|exact H1].
    eapply prefix_lookup_Some; [by apply Hl|exact Hg].
Qed.
Lemma Scan_run (m : Mon) :
  node_up (RpcClient m) -> 0 <= LastVistedBlockHeight m < 2 ^ 62 ->
  let last := LastVistedBlockHeight m in
  exists L1 m1, published [] [] [] m m1 /\ tip (RpcClient m) <= L1 <= tip (RpcClient m1) /\
    chain (RpcClient m1) `prefix_of` chain (RpcClient (run Scan m)) /\
    ((L1 <= last /\ Scan m = (Ok tt, m1)) \/
     (last < L1 /\ exists L2, L1 <= L2 <= tip (RpcClient m1) /\
        if decide (scan_count last L1 <= L2)
        then scanned m m1 L1 (scan_first last L1 L2) (scan_blocks last L1 L2 (chain (RpcClient m1)))
        else exists e, Scan m = (Err e, m1))).
Proof.
  intros Hup Hl last. destruct (Scan_cases m Hup Hl) as (L1 & m1 & P1 & HL & Hup1 & H).
  exists L1, m1. split; [done|]. split; [done|].
  split; [by eapply Scan_keeps_chain|].
  destruct H as [H|(Hlt & L2 & HL2 & H)]; [by left|right]. split; [done|]. exists L2. split; [done|]. fold last in H. destruct (decide _) as [Hd|]; [|done].
  pose proof P1 as [(Ha & Hc & _) _ _ _ _ _]. split.
  - intros Hsafe.
    destruct (scan_blocks_spec (scan_blocks last L1 L2 (chain (RpcClient m1))) (scan_first last L1 L2) m1)
      as (m2 & Hs & P2); [done|by apply scan_blocks_chain| |].
    { intros i b tx Hb Htx. eapply safe_at_kept; [exact P1|by apply Hsafe]. }
    exists m2. rewrite H, bind_eq, Hs. split; [done|]. by rewrite Ha, Hc in P2.
  - intros (i & b & tx & Hb & Htx & Hbad).
    destruct (scan_blocks_unsafe m1 _ (scan_first last L1 L2) i b tx Hup1
      (scan_blocks_chain last L1 L2 (chain (RpcClient m1))) Hb Htx) as (w & m2 & Hs & _);
      [by eapply unsafe_at_kept|]. exists w, m2. by rewrite H, bind_eq, Hs.
Qed.


Lemma scan_all_chain (m : Mon) L1 L2 m1 :
  let last := LastVistedBlockHeight m in
  let c := scan_blocks last L1 L2 (chain (RpcClient m1)) in
  let h := scan_first last L1 L2 in
  scanned m m1 L1 h c -> Forall (fun b => Forall (safe m) (Transactions b)) (chain (RpcClient m1)) ->
  exists m2, Scan m = (Ok tt, set_visited L1 m2) /\
    published (window_deposits (BridgeBTCAddress m) (bm_ChainConfig m) h c)
              (window_utxos (BridgeBTCAddress m) (bm_ChainConfig m) h c) (concat (Transactions <$> c)) m1 m2.
Proof.
  intros last c h [H _] Hs. apply H. intros i b tx Hi Htx.
  apply scan_blocks_chain in Hi. apply list_elem_of_lookup_2 in Hi.
  rewrite Forall_forall in Hs. specialize (Hs b Hi). rewrite Forall_forall in Hs.
  intros w. exact (Hs tx Htx _ b w).
Qed.

End scan.

(** ** From the user's transaction to the mint queue *)
Section end_to_end.
Context `{BL : BtcLibLaws, EL : EthLibLaws, RL : RlpLaws, GL : GobLaws}.
Context {N A : Type} `{NL : @BtcNodeLaws B N BN, SL : RedeemStorageLaws A}.
Context {O : Type} `{OL : OperatorLaws O}.
Abbreviation Mon := (BTCMonitor N A).

(** what the observer that writes the shared state does with a new deposit *)
Definition handled_deposit (d : DepositAction) (st : State) (id receiver : bytes) (amount : Z) : Prop :=
  let st' := run (BTC2EVMObserver_handle d) st in
  let m := {| m_BtcTxId := id; m_MintTxHash := zeros 32; m_Receiver := receiver; m_Amount := Some amount |} in
  result GetUnMinted (statedb st') = Ok (unminted (statedb st) ++ [m]) /\
  StateDB_inv (statedb st') /\ db_fault (statedb st') = no_faults.
Lemma handle_deposit (st : State) d h addr amount :
  db_fault (statedb st) = no_faults -> StateDB_inv (statedb st) ->
  da_TxHash d = HashStr h -> length h = 32%nat -> h <> zeros 32 ->
  HexToAddress (EvmAddr d) = HexToAddress addr -> HexToAddress addr <> zeros 20 ->
  DepositValue d = amount -> 0 < amount < 2 ^ 63 ->
  mint_at (statedb st) (rev h) = None -> handled_deposit d st (rev h) (HexToAddress addr) amount.
Proof.
  intros Hf Hinv Htx Hh Hz Haddr Hr Hv Ha Hnew.
  assert (HexToHash (HashStr h) = rev h) as Hid.
  { rewrite law_HashStr, (HexToHash_spec _ (rev h)); [|apply hex_decode_encode|rewrite length_rev; lia].
    by rewrite length_rev, Hh. }
  assert (EmptyHash = zeros 32) as He.
  { unfold EmptyHash. by rewrite BytesToHash_spec, app_nil_r by (cbn; lia). }
  assert (mint_of_deposit d = {| m_BtcTxId := rev h; m_MintTxHash := zeros 32;
    m_Receiver := HexToAddress addr; m_Amount := Some amount |}) as Hm.
  { unfold mint_of_deposit. by rewrite Htx, Hid, He, Haddr, Hv. }
  assert (pending_mint (mint_of_deposit d) amount) as Hp.
  { rewrite Hm. unfold pending_mint. cbn [m_BtcTxId m_MintTxHash m_Receiver m_Amount].
    split_and!; [by rewrite length_rev| |done|done|done|lia|lia].
    intros Hrev. apply Hz. by rewrite <-(rev_involutive h), Hrev. }
  assert (mint_at (statedb st) (m_BtcTxId (mint_of_deposit d)) = None) as Hnew' by (by rewrite Hm).
  pose proof (pending_insert (statedb st) (mint_of_deposit d) amount Hinv Hf Hp Hnew') as Hrun.
  unfold handled_deposit, BTC2EVMObserver_handle. rewrite run_ignore.
  unfold run, SetNewBTC2EVMMint, on_db, zoom. rewrite Hrun. cbn [snd].
  change (statedb (set_statedb ?x st)) with x. split_and!; [| |done].
  - unfold result. rewrite GetUnMinted_eq by done. cbn [fst].
    etrans; [exact (f_equal Ok (unminted_pending _ _ _ Hp Hnew' None))|]. by rewrite Hm.
  - assert (Mint_typed (mint_of_deposit d)) as Hty.
    { rewrite Hm. split_and!; cbn; by rewrite ?length_rev, ?HexToAddress_length. }
    pose proof (keeps_UpdateMint _ Hty _ Hinv) as Hk. unfold run in Hk. by rewrite Hrun in Hk.
Qed.

(** A transaction that reads as a deposit, in a block at most 36 below the tip, is found by a scan and
    ends in the mint queue. *)
Lemma deposit_scanned (m : Mon) amount addr tx h b :
  MaybeDepositTx tx (BridgeBTCAddress m) (bm_ChainConfig m) = true ->
  (forall height block, exists d,
     CraftDepositAction tx height block (BridgeBTCAddress m) (bm_ChainConfig m) = Ok d /\
     DepositValue d = amount /\ HexToAddress (EvmAddr d) = HexToAddress addr /\
     da_TxHash d = HashStr (TxHash tx)) ->
  0 < amount < 2 ^ 63 ->
  node_up (RpcClient m) -> 0 <= LastVistedBlockHeight m < tip (RpcClient m) -> 36 <= tip (RpcClient m) ->
  chain (RpcClient m) !! h = Some b -> tx ∈ Transactions b -> Z.of_nat h < tip (RpcClient m) ->
  let m' := run Scan m in
  tip (RpcClient m') <= Z.of_nat h + 36 ->
  Forall (fun b => Forall (safe m) (Transactions b)) (chain (RpcClient m')) ->
  result Scan m = Ok tt /\
  Forall (fun c' => exists d, d ∈ chan_all c' /\
    forall st, db_fault (statedb st) = no_faults -> StateDB_inv (statedb st) ->
      HexToAddress addr <> zeros 20 -> TxHash tx <> zeros 32 ->
      mint_at (statedb st) (rev (TxHash tx)) = None ->
      handled_deposit d st (rev (TxHash tx)) (HexToAddress addr) amount)
    (DepositObservers (Publisher m')).
Proof.
  intros Hmay Hread Ha Hup Hlast Hlong Hb Htx Hh m' Htip Hsafe.
  destruct (Scan_run m Hup) as (L1 & m1 & P1 & HL & Hkeep & H);
    [pose proof (law_heights _ Hup); unfold tip in *; lia|].
  destruct H as [[H _]|(Hlt & L2 & HL2 & H)]; [lia|].
  rewrite decide_True in H by (unfold scan_count; lia).
  set (last := LastVistedBlockHeight m) in *.
  destruct (scan_all_chain m L1 L2 m1 H) as (m2 & HS & P2).
  { destruct Hkeep as [ext Hext]. unfold m' in Hsafe. rewrite Hext in Hsafe. by apply Forall_app in Hsafe as [? _]. }
  unfold m', run, result in *. rewrite HS in *. cbn [fst snd] in *. split; [done|].
  assert (tip (RpcClient m1) <= tip (RpcClient m2)) as Htip2.
  { destruct P2 as [_ [Hg%prefix_length _] _ _ _ _]. unfold tip. lia. }
  cbn [set_visited RpcClient Publisher] in *.
  destruct (Hread (Z.of_nat h) b) as (d & Hd & Hv & Haddr & Hid).
  assert (d ∈ window_deposits (BridgeBTCAddress m) (bm_ChainConfig m) (scan_first last L1 L2)
    (scan_blocks last L1 L2 (chain (RpcClient m1)))) as Hin.
  { apply (window_deposits_elem _ _ _ _ (h - scan_first last L1 L2)%nat b tx).
    - rewrite scan_blocks_lookup by (unfold scan_first, scan_count in *; lia).
      replace (scan_first last L1 L2 + (h - scan_first last L1 L2))%nat with h
        by (unfold scan_first, scan_count in *; lia).
      destruct P1 as [_ [Hg _] _ _ _ _]. by eapply prefix_lookup_Some.
    - done.
    - replace (scan_first last L1 L2 + (h - scan_first last L1 L2))%nat with h
        by (unfold scan_first, scan_count in *; lia).
      unfold tx_deposit. rewrite Hmay, Hd. by apply list_elem_of_singleton. }
  destruct P2 as [_ _ Hsent _ _ _]. rewrite Hsent. apply Forall_fmap, Forall_true. intros c. cbn. exists d. split.
  - rewrite notified_all. apply elem_of_app. by right.
  - intros st Hf Hinv Hz Hnz Hnew. by apply handle_deposit; rewrite ?law_TxHash_length.
Qed.
End end_to_end.

(** ** Concrete runs *)
(** [n] blocks, of which the one at height [at_] has the transactions [txs] *)
Definition toy_blocks (n at_ : nat) (txs : list MsgTx) : toy_node := {|
  toy_chain := (fun i => {| Header := [byte_of_Z (Z.of_nat i)];
                            Transactions := if (i =? at_)%nat then txs else [] |}) <$> seq 0 n |}.
Definition toy_monitor (last : Z) (n : toy_node) : BTCMonitor toy_node SQLiteRedeemStorage := {|
  BridgeBTCAddress := "bridge"%string; LastVistedBlockHeight := last; bm_ChainConfig := tt;
  Publisher := RegisterUTXOObserver (make_chan 5) (RegisterDepositObserver (make_chan 5) NewPublisherService);
  RpcClient := n; bm_mgrState := empty_table |}.
Definition deposits_sent (m : BTCMonitor toy_node SQLiteRedeemStorage) : list string :=
  da_TxHash <$> concat (chan_all <$> DepositObservers (Publisher m)).
(** the monitor later, when its node has [n] *)
Definition node_has (n : toy_node) (m : BTCMonitor toy_node SQLiteRedeemStorage) :=
  {| BridgeBTCAddress := BridgeBTCAddress m; LastVistedBlockHeight := LastVistedBlockHeight m;
     bm_ChainConfig := bm_ChainConfig m; Publisher := Publisher m; RpcClient := n;
     bm_mgrState := bm_mgrState m |}.

(** A block is skipped for good when 37 or more blocks arrive between two scans: a deposit in
    the block that was the tip of one scan is found by the next scan when the tip is 36 blocks
    further, and missed when it is 37 blocks further; the monitor has then moved on to the new tip. *)
Theorem gap_skips_block :
  let deposit n := toy_blocks n 40 [sample_deposit_tx] in
  let m := run Scan (toy_monitor 39 (deposit 41%nat)) in
  let later n := run Scan (node_has (deposit n) m) in
  result Scan (toy_monitor 39 (deposit 41%nat)) = Ok tt /\ deposits_sent m = [] /\
  deposits_sent (later 77%nat) = [HashStr (TxHash sample_deposit_tx)] /\
  deposits_sent (later 78%nat) = [] /\ LastVistedBlockHeight (later 78%nat) = 77.
Proof. vm_compute. repeat split. Qed.

Lemma NoDup_eval {X} `{EqDecision X} (l : list X) : nodupb l = true -> NoDup l.
Proof. apply bool_decide_eq_true_1. Qed.
Definition bare_tx : MsgTx := {|
  tx_in := []; tx_out := [{| Value := 1; to_PkScript := byte_of_Z 118 :: bytes_of_string "bridge" |};
                          {| Value := 0; to_PkScript := [OP_RETURN] |}] |}.
Definition bare_block : MsgBlock := {| Header := [byte_of_Z 40]; Transactions := [bare_tx] |}.
Lemma bare_return_stops_monitor_witness :
  exists w m', Scan (toy_monitor 39 (toy_blocks 42 40 [bare_tx])) = (Panic w, m').
Proof.
  apply (bare_return_stops_monitor (B := btc_model) bare_tx bare_block 40 ltac:(by left)
    (toy_monitor 39 (toy_blocks 42 40 [bare_tx])) {| Value := 1; to_PkScript := byte_of_Z 118 :: bytes_of_string "bridge" |}
    [] []).
  - split; [apply NoDup_eval; vm_compute; reflexivity|vm_compute; reflexivity].
  - split; [done|vm_compute; reflexivity].
  - reflexivity.
  - vm_compute. reflexivity.
  - vm_compute. reflexivity.
  - vm_compute. reflexivity.
  - vm_compute. discriminate.
  - vm_compute. discriminate.
Defined.
Lemma sample_safe (m : BTCMonitor toy_node SQLiteRedeemStorage) :
  BridgeBTCAddress m = "bridge"%string -> bm_ChainConfig m = tt -> safe m sample_deposit_tx.
Proof.
  intros Ha Hc h block w _. rewrite Ha, Hc.
  destruct (deposit_recognised (B := btc_model) (O := NativeOperator) tt "bridge" "user" "bridge"%string
    (byte_of_Z 118 :: bytes_of_string "user") eq_refl eq_refl 50000 10000
    "0x00000000000000000000000000000000000000ab" 11155111 [BtcTx.sample_utxo 1 60000] sample_operator
    sample_deposit_tx sample_deposit_run.2 h block) as (_ & d & Hd & _);
    [by repeat constructor|reflexivity|lia..|exact sample_deposit_ok|]. by rewrite Hd.
Qed.
Lemma blocks_safe n at_ txs (m : BTCMonitor toy_node SQLiteRedeemStorage) : Forall (safe m) txs ->
  Forall (fun b => Forall (safe m) (Transactions b)) (toy_chain (toy_blocks n at_ txs)).
Proof.
  intros Ht. apply Forall_forall. intros b (i & -> & _)%list_elem_of_fmap. cbn [Transactions].
  by destruct (i =? at_)%nat; [|constructor].
Qed.
Lemma toy_safe n at_ (m : BTCMonitor toy_node SQLiteRedeemStorage) :
  BridgeBTCAddress m = "bridge"%string -> bm_ChainConfig m = tt ->
  Forall (fun b => Forall (safe m) (Transactions b)) (toy_chain (toy_blocks n at_ [sample_deposit_tx])).
Proof. intros Ha Hc. apply blocks_safe. constructor; [by apply sample_safe|constructor]. Qed.
Definition sample_monitor := toy_monitor 39 (toy_blocks 42 40 [sample_deposit_tx]).
Lemma sample_monitor_up : node_up (RpcClient sample_monitor).
Proof. split; [apply NoDup_eval; vm_compute; reflexivity|vm_compute; reflexivity]. Qed.
Definition fresh_state : State := State_init sample_db sample_cfg.
