(* ===== verification/SyncSystem.v ===== *)
(** * SyncSystem: a synchronizer of the token chain beside the loop of the state.

    The packages [chainsync], [ethsync] and [aptossync] each run one goroutine that reads a ledger
    and sends what it finds on the channels of the state (state/state.go). What they have in common
    is here: the events of a range of the ledger, the two goroutines as a transition system that
    share the buffered channels and record what the fetches answered, an interface that says what
    a synchronizer may do, and the delivery of events that follows for every implementation of it. *)
From stdpp Require Import sorting.
From S2P Require Export State.

(** ** Events of a range of the ledger *)
Record events := {
  ev_minted : list MintedEvent; ev_requested : list RedeemRequestedEvent;
  ev_prepared : list RedeemPreparedEvent }.

(** the sends of the three loops, in program order *)
Definition sends (ev : events) : list input :=
  (SendMinted <$> ev_minted ev) ++ (SendRequested <$> ev_requested ev) ++ (SendPrepared <$> ev_prepared ev).

Definition between {A} (f : Z -> list A) (old new : Z) : list A := seqZ (old + 1) (new - old) ≫= f.


(** One fetch: the events asked for are those after [f_old] up to [f_new]; the answer *)
Record fetch := { f_old : Z; f_new : Z; f_events : events }.
(** all the answers, one after the other *)
Definition got {A} (f : events -> list A) (l : list fetch) : list A := l ≫= fun x => f (f_events x).
(** the fetches cover the numbers from [a] to [b], each number in one of them *)
Fixpoint consecutive (a : Z) (l : list fetch) (b : Z) : Prop :=
  match l with
  | [] => a = b
  | f :: l => f_old f = a /\ a < f_new f /\ consecutive (f_new f) l b
  end.

(** The events of each number of the ledger (a block, or a version) *)
Class Ledger := {
  ledger_minted : Z -> list MintedEvent;
  ledger_requested : Z -> list RedeemRequestedEvent;
  ledger_prepared : Z -> list RedeemPreparedEvent }.
Definition events_between `{L : Ledger} (old new : Z) : events := {|
  ev_minted := between ledger_minted old new; ev_requested := between ledger_requested old new;
  ev_prepared := between ledger_prepared old new |}.

Definition as_blk (i : input) : option Z := match i with SendBlk b => Some b | _ => None end.
Definition as_minted (i : input) : option MintedEvent := match i with SendMinted e => Some e | _ => None end.
Definition as_requested (i : input) : option RedeemRequestedEvent := match i with SendRequested e => Some e | _ => None end.
Definition as_prepared (i : input) : option RedeemPreparedEvent := match i with SendPrepared e => Some e | _ => None end.


Lemma between_app {A} (f : Z -> list A) a b c : a <= b -> b <= c ->
  between f a b ++ between f b c = between f a c.
Proof.
  intros. unfold between. rewrite <-bind_app. f_equal.
  replace (c - a) with ((b - a) + (c - b)) by lia. rewrite seqZ_app by lia.
  by replace (a + 1 + (b - a)) with (b + 1) by lia.
Qed.
Lemma between_nil {A} (f : Z -> list A) a : between f a a = [].
Proof. unfold between. by rewrite Z.sub_diag. Qed.
Lemma elem_of_between {A} (f : Z -> list A) a b x :
  x ∈ between f a b <-> exists n, a < n <= b /\ x ∈ f n.
Proof.
  unfold between. rewrite list_elem_of_bind. split.
  - intros (n & Hx & Hn). apply elem_of_seqZ in Hn. exists n. split; [lia|done].
  - intros (n & Hn & Hx). exists n. split; [done|]. apply elem_of_seqZ. lia.
Qed.
Lemma omap_fmap_Some {A B} (f : B -> A) (g : A -> option B) (l : list B) :
  (forall x, g (f x) = Some x) -> omap g (f <$> l) = l.
Proof. intros H. induction l as [|x l IH]; [done|]. cbn. rewrite H. f_equal. apply IH. Qed.
Lemma omap_fmap_None {A B C} (f : B -> A) (g : A -> option C) (l : list B) :
  (forall x, g (f x) = None) -> omap g (f <$> l) = [].
Proof. intros H. induction l as [|x l IH]; [done|]. cbn. rewrite H. apply IH. Qed.
Lemma sends_proj ev :
  omap as_minted (sends ev) = ev_minted ev /\ omap as_requested (sends ev) = ev_requested ev /\
  omap as_prepared (sends ev) = ev_prepared ev.
Proof.
  unfold sends. rewrite !omap_app. split_and!.
  - rewrite omap_fmap_Some, !omap_fmap_None by done. by rewrite !app_nil_r.
  - rewrite (omap_fmap_Some SendRequested), !omap_fmap_None by done. by rewrite app_nil_r.
  - rewrite (omap_fmap_Some SendPrepared), !omap_fmap_None by done. done.
Qed.

Lemma consecutive_snoc a l b n ev : consecutive a l b -> b < n ->
  consecutive a (l ++ [{| f_old := b; f_new := n; f_events := ev |}]) n.
Proof.
  revert a. induction l as [|f l IH]; cbn; intros a H Hn; [by subst|]. destruct H as (? & ? & ?). auto.
Qed.
Lemma consecutive_le a l b : consecutive a l b -> a <= b.
Proof. revert a. induction l as [|f l IH]; cbn; [lia|]. intros a (? & ? & ?%IH). lia. Qed.
Lemma consecutive_within a l b : consecutive a l b -> Forall (fun f => a <= f_old f < f_new f /\ f_new f <= b) l.
Proof.
  revert a. induction l as [|f l IH]; cbn; [constructor|]. intros a (? & ? & H). constructor.
  - apply consecutive_le in H. lia.
  - apply IH in H. eapply Forall_impl; [exact H|cbn; lia].
Qed.
Lemma got_app {A} (f : events -> list A) l l' : got f (l ++ l') = got f l ++ got f l'.
Proof. apply bind_app. Qed.
Lemma got_one {A} (f : events -> list A) x : got f [x] = f (f_events x).
Proof. apply app_nil_r. Qed.
(** when each answer is a stretch of a ledger, together they are *)
Lemma got_ledger {A} (f : events -> list A) (g : Z -> list A) a l b : consecutive a l b ->
  Forall (fun x => f (f_events x) = between g (f_old x) (f_new x)) l -> got f l = between g a b.
Proof.
  intros Hc Hl. revert a Hc. induction Hl as [|x l Hx _ IH]; cbn; intros a.
  - intros ->. by rewrite between_nil.
  - intros (<- & Hlt & Hc). fold (got f l). pose proof (consecutive_le _ _ _ Hc).
    rewrite Hx, (IH _ Hc). apply between_app; lia.
Qed.

Lemma sorted_snoc l (n : Z) : StronglySorted Z.lt l -> Forall (fun b => b < n) l -> StronglySorted Z.lt (l ++ [n]).
Proof.
  intros Hl Hn. rewrite Forall_forall in Hn. apply StronglySorted_app_2; [|done|by repeat constructor].
  intros x y Hx Hy. apply list_elem_of_singleton in Hy as ->. by apply Hn.
Qed.
Lemma sends_no_blk ev : omap as_blk (sends ev) = [].
Proof. unfold sends. by rewrite !omap_app, !omap_fmap_None. Qed.


(** the message a case of the state's select receives *)
Definition received (c : select_case) (st : State) : list input :=
  match c with
  | RecvBlk => SendBlk <$> take 1 (newEthFinalizedBlockCh st)
  | RecvMinted => SendMinted <$> take 1 (newMintedEventCh st)
  | RecvRequested => SendRequested <$> take 1 (newRedeemRequestedEvCh st)
  | RecvPrepared => SendPrepared <$> take 1 (newRedeemPreparedEvCh st)
  | _ => []
  end.
(** *** The handlers leave the channels alone *)
Definition channels (st : State) :=
  (cfg st, newEthFinalizedBlockCh st, newBtcFinalizedBlockCh st, newMintedEventCh st,
   newRedeemRequestedEvCh st, newRedeemPreparedEvCh st).
Section channels.
Context `{E : EthLib, G : GobLib}.
Lemma chan_on_db {A} k (m : M StateDB A) : keeps (fun st => channels st = k) (on_db m).
Proof. intros st <-. unfold run. rewrite on_db_eq. by destruct (m (statedb st)). Qed.
Lemma chan_with_err {A} k e (m : M State A) :
  keeps (fun st => channels st = k) m -> keeps (fun st => channels st = k) (with_err e m).
Proof.
  intros H st Hst. specialize (H st Hst). unfold run in *. rewrite with_err_eq.
  by destruct (m st).
Qed.
Lemma chan_modify k f : (forall st, channels (f st) = channels st) ->
  keeps (fun st => channels st = k) (modify f).
Proof. intros H st <-. apply H. Qed.
#[local] Hint Resolve chan_on_db chan_with_err : golib.
Lemma chan_number k b : keeps (fun st => channels st = k) (handleNewBlockNumber b).
Proof.
  unfold handleNewBlockNumber, GetBlockchainFinalizedBlockNumber, setEthFinalizedBlockNumber.
  apply keeps_bind; [apply chan_with_err; apply keeps_bind; [auto with golib|intros [v|]]|].
  - auto with golib.
  - apply keeps_bind; [auto with golib|intros [v|]]; [|auto with golib].
    apply keeps_bind; [by apply chan_modify|auto with golib].
  - intros n. destruct (n <=? b); [|auto with golib]. apply chan_with_err.
    keeps_auto. by apply chan_modify.
Qed.
Lemma chan_minted k ev : keeps (fun st => channels st = k) (handleMintedEvent ev).
Proof. unfold handleMintedEvent. auto with golib. Qed.
Lemma chan_requested k ev : keeps (fun st => channels st = k) (handleRedeemRequestEvent ev).
Proof.
  unfold handleRedeemRequestEvent. apply keeps_bind; [auto with golib|intros [r|]]; keeps_auto.
Qed.
Lemma chan_prepared k ev : keeps (fun st => channels st = k) (handlePreparedEvent ev).
Proof.
  unfold handlePreparedEvent. apply keeps_bind; [auto with golib|intros [r|]]; [|keeps_auto].
  destruct (_ || _); [auto with golib|]. destruct (String.eqb _ _); [auto with golib|].
  apply keeps_bind; [auto with golib|intros [r'|]]; keeps_auto.
Qed.

(** use that a computation left the channels alone *)
Ltac channels_same Hc := unfold run in Hc; injection Hc as _ -> _ -> -> ->; cbn.

(** A select step takes at most the head of one channel. *)
Lemma select_streams c l l' : select_step c l = Some l' ->
  omap as_blk (received c (l_st l)) ++ newEthFinalizedBlockCh (l_st l') = newEthFinalizedBlockCh (l_st l) /\
  omap as_minted (received c (l_st l)) ++ newMintedEventCh (l_st l') = newMintedEventCh (l_st l) /\
  omap as_requested (received c (l_st l)) ++ newRedeemRequestedEvCh (l_st l') = newRedeemRequestedEvCh (l_st l) /\
  omap as_prepared (received c (l_st l)) ++ newRedeemPreparedEvCh (l_st l') = newRedeemPreparedEvCh (l_st l).
Proof.
  intros H. unfold select_step in H. destruct (ctl l); [|done..]. destruct c.
  - by simplify_eq/=.
  - destruct (errCh l); [done|]. by simplify_eq/=.
  - destruct (newEthFinalizedBlockCh (l_st l)) as [|b q] eqn:Hq; [done|]. simplify_eq/=.
    rewrite after_handler_st, Hq. match goal with |- context [handleNewBlockNumber b ?st] =>
      pose proof (chan_number _ b st eq_refl) as Hc end. by channels_same Hc.
  - destruct (newMintedEventCh (l_st l)) as [|b q] eqn:Hq; [done|]. simplify_eq/=.
    rewrite after_handler_st, Hq. match goal with |- context [handleMintedEvent b ?st] =>
      pose proof (chan_minted _ b st eq_refl) as Hc end. by channels_same Hc.
  - destruct (newRedeemRequestedEvCh (l_st l)) as [|b q] eqn:Hq; [done|]. simplify_eq/=.
    rewrite after_handler_st, Hq. match goal with |- context [handleRedeemRequestEvent b ?st] =>
      pose proof (chan_requested _ b st eq_refl) as Hc end. by channels_same Hc.
  - destruct (newRedeemPreparedEvCh (l_st l)) as [|b q] eqn:Hq; [done|]. simplify_eq/=.
    rewrite after_handler_st, Hq. match goal with |- context [handlePreparedEvent b ?st] =>
      pose proof (chan_prepared _ b st eq_refl) as Hc end. by channels_same Hc.
Qed.

(** What a send or a call adds to the channels of the chain events. *)
Lemma env_streams i l l' : env_step i l = Some l' ->
  newEthFinalizedBlockCh (l_st l') = newEthFinalizedBlockCh (l_st l) ++ omap as_blk [i] /\
  newMintedEventCh (l_st l') = newMintedEventCh (l_st l) ++ omap as_minted [i] /\
  newRedeemRequestedEvCh (l_st l') = newRedeemRequestedEvCh (l_st l) ++ omap as_requested [i] /\
  newRedeemPreparedEvCh (l_st l') = newRedeemPreparedEvCh (l_st l) ++ omap as_prepared [i].
Proof.
  intros H. destruct i as [b|b|ev|ev|ev|m|req btc]; unfold env_step in H;
    try (case_match; [|done]); injection H as <-; cbn [l_st].
  6: pose proof (chan_on_db _ (UpdateMint m) (l_st l) eq_refl : channels (run (SetNewBTC2EVMMint m) _) = _) as Hc;
    injection Hc as _ -> _ -> -> ->.
  6-7: unfold SetRedeemCompleted.
  7: match goal with |- context [run (on_db ?m) _] =>
      pose proof (chan_on_db _ m (l_st l) eq_refl) as Hc; injection Hc as _ -> _ -> -> -> end.
  all: cbn; by rewrite ?app_nil_r.
Qed.
End channels.


(** ** The two goroutines together *)
(** A synchronizer: what is left to send of the batch in hand; the number up to which the ledger
    is fetched; a bound of the numbers announced so far, while it runs; a property of its local
    state; the fetches its worker may answer; its steps, which may also change the channels and may
    be the answer of a fetch. *)
Class Synchronizer `{E : EthLib, GB : GobLib} (G : Type) := {
  todo_of : G -> list input;
  frontier : G -> Z;
  announced : G -> option Z;
  sync_wf : G -> Prop;
  fetch_ok : fetch -> Prop;
  moves : G -> loop -> option fetch -> G -> loop -> Prop }.

Section system.
Context `{E : EthLib, GB : GobLib} {G : Type} `{SY : !Synchronizer G}.

(** [handled]: the messages [Start] has taken from its channels so far; [fetches]: the answers the
    synchronizer has got so far. Both only record the run. *)
Record system := { sync : G; st_loop : loop; handled : list input; fetches : list fetch }.
Definition other_input (i : input) : bool :=
  match i with SendBtcBlk _ | CallNewMint _ | CallCompleted _ _ => true | _ => false end.


(** The synchronizer is the only sender of chain events; the Bitcoin side sends its own block
    numbers and calls the state's methods. *)
Inductive sys_step : system -> system -> Prop :=
  | sys_select c s l' : select_step c (st_loop s) = Some l' ->
      sys_step s {| sync := sync s; st_loop := l'; handled := handled s ++ received c (l_st (st_loop s));
                    fetches := fetches s |}
  | sys_other i s l' : other_input i = true -> env_step i (st_loop s) = Some l' ->
      sys_step s {| sync := sync s; st_loop := l'; handled := handled s; fetches := fetches s |}
  | sys_sync s f g' l' : moves (sync s) (st_loop s) f g' l' ->
      sys_step s {| sync := g'; st_loop := l'; handled := handled s; fetches := fetches s ++ option_list f |}.
Definition sys_start (g : G) (st : State) : system :=
  {| sync := g; st_loop := start st; handled := []; fetches := [] |}.

(** the messages of one kind on their way: handled, queued and still to be sent *)
Definition minted_stream (s : system) : list MintedEvent :=
  omap as_minted (handled s) ++ newMintedEventCh (l_st (st_loop s)) ++ omap as_minted (todo_of (sync s)).
Definition requested_stream (s : system) : list RedeemRequestedEvent :=
  omap as_requested (handled s) ++ newRedeemRequestedEvCh (l_st (st_loop s)) ++ omap as_requested (todo_of (sync s)).
Definition prepared_stream (s : system) : list RedeemPreparedEvent :=
  omap as_prepared (handled s) ++ newRedeemPreparedEvCh (l_st (st_loop s)) ++ omap as_prepared (todo_of (sync s)).
Definition number_stream (s : system) : list Z :=
  omap as_blk (handled s) ++ newEthFinalizedBlockCh (l_st (st_loop s)).

(** What a step may do: nothing the others can see; send the next message of the batch; announce
    a number above all the others; take the answer for the next stretch of the ledger. *)
Inductive allowed : G -> loop -> option fetch -> G -> loop -> Prop :=
  | al_quiet g g' l : todo_of g' = todo_of g -> frontier g' = frontier g ->
      (announced g' = announced g \/ announced g' = None) -> allowed g l None g' l
  | al_send i t g g' l l' : todo_of g = i :: t -> todo_of g' = t -> frontier g' = frontier g ->
      announced g' = announced g -> env_step i l = Some l' -> as_blk i = None -> allowed g l None g' l'
  | al_announce b n g g' l l' : todo_of g' = todo_of g -> frontier g' = frontier g ->
      announced g = Some b -> b < n -> announced g' = Some n -> env_step (SendBlk n) l = Some l' ->
      allowed g l None g' l'
  | al_batch ev g g' l : todo_of g = [] -> frontier g < frontier g' -> todo_of g' = sends ev ->
      announced g' = announced g ->
      fetch_ok {| f_old := frontier g; f_new := frontier g'; f_events := ev |} ->
      allowed g l (Some {| f_old := frontier g; f_new := frontier g'; f_events := ev |}) g' l.
End system.
Arguments system G : clear implicits.
Class SynchronizerLaws `{SY : Synchronizer G} : Prop :=
  law_moves g l f g' l' : sync_wf g -> moves g l f g' l' -> sync_wf g' /\ allowed g l f g' l'.

Section quiet.
Context `{E : EthLib, GB : GobLib}.
#[local] Hint Resolve chan_on_db chan_with_err : golib.
(** a state with nothing in the channels of the chain events *)
Definition quiet (st : State) : Prop :=
  newEthFinalizedBlockCh st = [] /\ newMintedEventCh st = [] /\
  newRedeemRequestedEvCh st = [] /\ newRedeemPreparedEvCh st = [].
Lemma New_quiet db c st d : New db c = (Ok st, d) -> quiet st.
Proof.
  intros H. assert (channels st = channels (State_init db c)) as Hc; [|injection Hc as ??????; done].
  assert (keeps (fun st => channels st = channels (State_init db c)) (initEthFinalizedBlock ;; initEthChainID)) as Hk.
  { unfold initEthFinalizedBlock, initEthChainID, store_eth, store_chain.
    apply keeps_bind; [|intros _]; (apply keeps_bind; [apply chan_with_err, chan_on_db|intros [b|]]).
    - destruct (_ <? _); [auto with golib|by apply chan_modify].
    - keeps_auto; (apply chan_with_err, chan_on_db) || by apply chan_modify.
    - keeps_auto. destruct (negb _); [auto with golib|by apply chan_modify].
    - apply keeps_bind; [auto with golib|intros chainId]. keeps_auto;
        (apply chan_with_err, chan_on_db) || by apply chan_modify. }
  unfold New in H. specialize (Hk _ eq_refl). unfold run in Hk.
  destruct ((initEthFinalizedBlock ;; initEthChainID) (State_init db c)) as [[[]|e|w] st'];
    cbn in H, Hk; [injection H as <- <-; done|done..].
Qed.
End quiet.

(** ** Delivery *)
Section delivery.
Context `{EL : EthLibLaws, GL : GobLaws}.
Context {T : Type} `{SY : !Synchronizer T, SL : !SynchronizerLaws}.
Implicit Types s : system T.

Definition sync_inv (n0 : Z) (s : system T) : Prop :=
  sync_wf (sync s) /\ consecutive n0 (fetches s) (frontier (sync s)) /\ Forall fetch_ok (fetches s) /\
  minted_stream s = got ev_minted (fetches s) /\
  requested_stream s = got ev_requested (fetches s) /\
  prepared_stream s = got ev_prepared (fetches s) /\
  omap as_blk (todo_of (sync s)) = [] /\
  StronglySorted Z.lt (n0 :: number_stream s) /\
  (forall b, announced (sync s) = Some b -> n0 <= b /\ Forall (fun m => m <= b) (number_stream s)).

Lemma sync_inv_select n0 c s l' :
  select_step c (st_loop s) = Some l' -> sync_inv n0 s ->
  sync_inv n0 {| sync := sync s; st_loop := l'; handled := handled s ++ received c (l_st (st_loop s));
                 fetches := fetches s |}.
Proof.
  intros Hc H. destruct (select_streams c _ _ Hc) as (H1 & H2 & H3 & H4). revert H.
  unfold sync_inv, minted_stream, requested_stream, prepared_stream, number_stream.
  cbn [sync st_loop handled fetches].
  rewrite <-H1, <-H2, <-H3, <-H4, !omap_app, <-!app_assoc. done.
Qed.
Lemma sync_inv_other n0 i s l' :
  other_input i = true -> env_step i (st_loop s) = Some l' -> sync_inv n0 s ->
  sync_inv n0 {| sync := sync s; st_loop := l'; handled := handled s; fetches := fetches s |}.
Proof.
  intros Hi Hc. destruct (env_streams i _ _ Hc) as (H1 & H2 & H3 & H4).
  unfold sync_inv, minted_stream, requested_stream, prepared_stream, number_stream.
  cbn [sync st_loop handled fetches].
  rewrite H1, H2, H3, H4. by destruct i; cbn; rewrite ?app_nil_r.
Qed.
Lemma sync_inv_move n0 s f g' l' :
  moves (sync s) (st_loop s) f g' l' -> sync_inv n0 s ->
  sync_inv n0 {| sync := g'; st_loop := l'; handled := handled s; fetches := fetches s ++ option_list f |}.
Proof.
  intros Hm (Hwf & Hn & Hok & M & R & P & Hb & Hs & Ha). destruct (law_moves _ _ _ _ _ Hwf Hm) as [Hwf' Hal].
  revert Hn M R P Hb Hs Ha. unfold sync_inv, minted_stream, requested_stream, prepared_stream, number_stream.
  cbn [sync st_loop handled fetches]. destruct Hal as [g g' l Ht Hf Han|i t g g' l l' Ht Ht' Hf Han He Hi
    |b n g g' l l' Ht Hf Hb0 Hlt Han He|ev g g' l Ht Hle Ht' Han Hans]; cbn [option_list option_rect];
    rewrite ?app_nil_r.
  - rewrite Ht, Hf. intros. split_and!; try done. intros b Hb'. destruct Han; [|congruence].
    apply Ha. congruence.
  - destruct (env_streams _ _ _ He) as (H1 & H2 & H3 & H4). rewrite Ht, Ht', Hf, Han, H1, H2, H3, H4.
    change (i :: t) with ([i] ++ t). rewrite !omap_app, <-!app_assoc. intros ? ? ? ? Hnb ? ?.
    apply app_eq_nil in Hnb as [Hb0 ?]. rewrite Hb0, app_nil_r. done.
  - destruct (env_streams _ _ _ He) as (H1 & H2 & H3 & H4). rewrite Ht, Hf, Han, H1, H2, H3, H4.
    cbn [omap list_omap as_minted as_requested as_prepared as_blk]. rewrite !app_nil_r, !app_assoc.
    intros ? ? ? ? ? Hs Ha. destruct (Ha b Hb0) as [Hlo Hhi]. split_and!; try done.
    + apply (sorted_snoc (n0 :: _)); [done|]. constructor; [lia|]. eapply Forall_impl; [exact Hhi|cbn; lia].
    + intros ? [= <-]. split; [lia|]. apply Forall_app; split; [|by constructor].
      eapply Forall_impl; [exact Hhi|cbn; lia].
  - destruct (sends_proj ev) as (P1 & P2 & P3).
    rewrite Ht, Ht', Han, P1, P2, P3, sends_no_blk, !got_app, !got_one. cbn [omap list_omap f_events].
    rewrite !app_nil_r. intros ? M R P _ Hs Ha. rewrite !app_assoc, M, R, P. split_and!; try done.
    + by apply consecutive_snoc.
    + apply Forall_app; split; [done|]. by apply Forall_singleton.
Qed.

Lemma sync_inv_reachable n0 g st s :
  sync_wf g -> todo_of g = [] -> frontier g = n0 -> announced g = Some n0 -> quiet st ->
  rtc sys_step (sys_start g st) s -> sync_inv n0 s.
Proof.
  intros Hwf Ht Hf Ha (Q1 & Q2 & Q3 & Q4) Hr.
  assert (sync_inv n0 (sys_start g st)) as Hinit.
  { unfold sync_inv, minted_stream, requested_stream, prepared_stream, number_stream, sys_start, start. cbn.
    rewrite Q1, Q2, Q3, Q4, Ht, Hf, Ha. split_and!; try done; [by repeat constructor|].
    intros b [= <-]. split; [lia|constructor]. }
  induction Hr as [s|s1 s2 s3 H _ IH]; [done|]. apply IH. destruct H.
  - by apply sync_inv_select.
  - by eapply sync_inv_other.
  - by apply sync_inv_move.
Qed.

(** What the invariant says of the events themselves: the fetches cover the numbers from [n0] on,
    each number once, and are answers of the worker; what is handled, queued and in hand is what
    they answered *)
Definition delivered (n0 : Z) (s : system T) : Prop :=
  consecutive n0 (fetches s) (frontier (sync s)) /\ Forall fetch_ok (fetches s) /\
  minted_stream s = got ev_minted (fetches s) /\
  requested_stream s = got ev_requested (fetches s) /\
  prepared_stream s = got ev_prepared (fetches s) /\
  StronglySorted Z.lt (n0 :: number_stream s) /\
  (todo_of (sync s) = [] ->
   omap as_minted (handled s) ++ newMintedEventCh (l_st (st_loop s)) = got ev_minted (fetches s) /\
   omap as_requested (handled s) ++ newRedeemRequestedEvCh (l_st (st_loop s)) =
     got ev_requested (fetches s) /\
   omap as_prepared (handled s) ++ newRedeemPreparedEvCh (l_st (st_loop s)) =
     got ev_prepared (fetches s)).
Lemma sync_inv_delivered n0 s : sync_inv n0 s -> delivered n0 s.
Proof.
  intros (_ & ? & ? & M & R & P & _ & Hs & _). split_and!; try done. intros Ht. revert M R P.
  unfold minted_stream, requested_stream, prepared_stream. rewrite Ht. cbn. by rewrite !app_nil_r.
Qed.

(** When the fetches answer the events of a ledger, these are delivered. *)
Definition ledger_delivered `{L : Ledger} (n0 : Z) (s : system T) : Prop :=
  n0 <= frontier (sync s) /\
  minted_stream s = between ledger_minted n0 (frontier (sync s)) /\
  requested_stream s = between ledger_requested n0 (frontier (sync s)) /\
  prepared_stream s = between ledger_prepared n0 (frontier (sync s)) /\
  StronglySorted Z.lt (n0 :: number_stream s) /\
  (todo_of (sync s) = [] ->
   omap as_minted (handled s) ++ newMintedEventCh (l_st (st_loop s)) =
     between ledger_minted n0 (frontier (sync s)) /\
   omap as_requested (handled s) ++ newRedeemRequestedEvCh (l_st (st_loop s)) =
     between ledger_requested n0 (frontier (sync s)) /\
   omap as_prepared (handled s) ++ newRedeemPreparedEvCh (l_st (st_loop s)) =
     between ledger_prepared n0 (frontier (sync s))).
Lemma delivered_ledger `{L : Ledger} n0 s :
  (forall f, fetch_ok f -> f_events f = events_between (f_old f) (f_new f)) ->
  delivered n0 s -> ledger_delivered n0 s.
Proof.
  intros Hl (Hc & Hok & M & R & P & Hs & Ht).
  assert (forall A (p : events -> list A) g, (forall a b, p (events_between a b) = between g a b) ->
    got p (fetches s) = between g n0 (frontier (sync s))) as Hg.
  { intros A p g Hp. apply got_ledger; [done|]. eapply Forall_impl; [exact Hok|].
    intros f Hf. cbn. by rewrite (Hl f Hf), Hp. }
  unfold ledger_delivered. rewrite M, R, P, <-(Hg _ ev_minted ledger_minted),
    <-(Hg _ ev_requested ledger_requested), <-(Hg _ ev_prepared ledger_prepared) by done.
  split_and!; try done. by eapply consecutive_le.
Qed.
End delivery.
