(* ===== verification/ChainSync.v ===== *)
(** * ChainSync: the synchronizer of the token chain (chainsync/syncer.go, interface.go).

    The goroutine of [ChainSync.Loop] is a program counter with its local data. The worker, the
    implementation of [SyncWorker] for one chain, is an interface: the answers it may give, without
    any assumption on them. With every worker the goroutine is a [Synchronizer]. *)
From stdpp Require Import sorting.
From S2P Require Export SyncSystem.

(** The interface [SyncWorker]: which answers a call may return. *)
Class SyncWorker := {
  GetNewestLedgerFinalizedNumber : outcome Z -> Prop;
  GetTimeOrderedEvents : Z -> Z -> outcome events -> Prop }.

(** ** The goroutine *)
(** where [Loop] is: in the select; before the send of the new number; before the fetch of the
    events up to it; in the send loops, with what is left to send; returned; panicked *)
Inductive place :=
  | AtSelect
  | SendingNumber (newFinalized : Z)
  | Fetching (newFinalized : Z)
  | SendingEvents (todo : list input) (newFinalized : Z)
  | SyncReturned (e : error)
  | SyncDied (why : string).
Record ChainSync := { LastChecked : Z; at_ : place }.

Definition at_place (p : place) (cs : ChainSync) : ChainSync := {| LastChecked := LastChecked cs; at_ := p |}.

(** What the goroutine meets: the context is done, the ticker fires and the worker answers,
    the worker answers the fetch, or a send (or the end of the loops) goes ahead. *)
Inductive sync_case := Done | Tick (newest : outcome Z) | Reply (r : outcome events) | Go.

Section sync.
Context `{E : EthLib, G : GobLib, W : SyncWorker}.

Definition NewChainSync (ForceScanBlkNum : Z) : M State ChainSync :=
  blkNumberStored ← GetBlockchainFinalizedBlockNumber;
  let blkNumberStored := if ForceScanBlkNum =? -1 then blkNumberStored else ForceScanBlkNum in
  mret {| LastChecked := blkNumberStored; at_ := AtSelect |}.

(** one step of [Loop]; [None]: it cannot move (a full channel) *)
Definition sync_step (c : sync_case) (cs : ChainSync) (l : loop) : option (ChainSync * loop) :=
  match at_ cs, c with
  | AtSelect, Done => Some (at_place (SyncReturned "context canceled") cs, l)
  | AtSelect, Tick (Ok newFinalized) =>
      if LastChecked cs <? newFinalized
      then Some (at_place (SendingNumber newFinalized) cs, l) else Some (cs, l)
  | AtSelect, Tick (Err e) => Some (at_place (SyncReturned e) cs, l)
  | AtSelect, Tick (Panic w) => Some (at_place (SyncDied w) cs, l)
  | SendingNumber newFinalized, Go =>
      (fun l' => (at_place (Fetching newFinalized) cs, l')) <$> env_step (SendBlk newFinalized) l
  | Fetching newFinalized, Reply (Ok ev) =>
      Some (at_place (SendingEvents (sends ev) newFinalized) cs, l)
  | Fetching newFinalized, Reply (Err e) => Some (at_place (SyncReturned e) cs, l)
  | Fetching newFinalized, Reply (Panic w) => Some (at_place (SyncDied w) cs, l)
  | SendingEvents (i :: todo) newFinalized, Go =>
      (fun l' => (at_place (SendingEvents todo newFinalized) cs, l')) <$> env_step i l
  | SendingEvents [] newFinalized, Go => Some ({| LastChecked := newFinalized; at_ := AtSelect |}, l)
  | _, _ => None
  end.
(** the worker gives one of its answers *)
Definition answers (c : sync_case) (cs : ChainSync) : Prop :=
  match at_ cs, c with
  | AtSelect, Tick r => GetNewestLedgerFinalizedNumber r
  | Fetching newFinalized, Reply r => GetTimeOrderedEvents (LastChecked cs) newFinalized r
  | _, _ => True
  end.


(** the fetch that this step answers *)
Definition answered (c : sync_case) (cs : ChainSync) : option fetch :=
  match at_ cs, c with
  | Fetching newFinalized, Reply (Ok ev) =>
      Some {| f_old := LastChecked cs; f_new := newFinalized; f_events := ev |}
  | _, _ => None
  end.

(** the batch in hand, and the number up to which events are sent once it is sent *)
Definition batch (cs : ChainSync) : list input :=
  match at_ cs with SendingEvents todo _ => todo | _ => [] end.
Definition upto (cs : ChainSync) : Z :=
  match at_ cs with SendingEvents _ n => n | _ => LastChecked cs end.
(** the last number announced, while the goroutine runs *)
Definition last_announced (cs : ChainSync) : option Z :=
  match at_ cs with
  | AtSelect | SendingNumber _ => Some (LastChecked cs)
  | Fetching n | SendingEvents _ n => Some n
  | _ => None
  end.
Definition going_forward (cs : ChainSync) : Prop :=
  match at_ cs with
  | SendingNumber n | Fetching n => LastChecked cs < n
  | SendingEvents todo n => LastChecked cs < n /\ omap as_blk todo = []
  | _ => True
  end.
#[global] Instance ChainSync_synchronizer : Synchronizer ChainSync := {|
  todo_of := batch; frontier := upto; announced := last_announced; sync_wf := going_forward;
  fetch_ok f := GetTimeOrderedEvents (f_old f) (f_new f) (Ok (f_events f));
  moves cs l f cs' l' := exists c, answers c cs /\ f = answered c cs /\ sync_step c cs l = Some (cs', l') |}.
End sync.

(** ** ChainSync is a synchronizer *)
Section laws.
Context `{E : EthLib, GB : GobLib, W : SyncWorker}.

Lemma quiet_step cs p l : batch (at_place p cs) = batch cs -> upto (at_place p cs) = upto cs ->
  last_announced (at_place p cs) = last_announced cs \/ last_announced (at_place p cs) = None ->
  allowed cs l None (at_place p cs) l.
Proof. exact (al_quiet cs (at_place p cs) l). Qed.
#[global] Instance ChainSync_laws : SynchronizerLaws (G := ChainSync).
Proof.
  intros cs l f cs' l' Hwf (c & Ha & -> & Hc). cbn [moves sync_wf ChainSync_synchronizer] in *.
  unfold sync_step in Hc. unfold answers in Ha. unfold answered. unfold going_forward in *.
  destruct (at_ cs) as [|n|n|[|i todo] n|e|w] eqn:Hat; destruct c as [|[n'|e'|w']|[ev|e'|w']|]; try done.
  2: destruct (Z.ltb_spec (LastChecked cs) n'); [|injection Hc as <- <-; rewrite Hat; split; [done|by apply al_quiet; auto]].
  all: try (destruct (env_step _ l) as [l1|] eqn:He; [|done]).
  all: injection Hc as <- <-; cbn [at_ at_place LastChecked]; split;
    try (by try apply sends_no_blk || done).
  all: try (apply quiet_step; unfold batch, upto, last_announced; cbn; rewrite ?Hat; by auto).
  - by apply (al_announce (LastChecked cs) n); cbn; unfold batch, upto, last_announced; cbn; rewrite ?Hat.
  - split; [done|apply sends_no_blk].
  - pose proof (al_batch ev cs (at_place (SendingEvents (sends ev) n) cs) l) as Hal. cbn in Hal.
    unfold batch, upto, last_announced in Hal. cbn in Hal. rewrite Hat in Hal. by apply Hal.
  - apply al_quiet; cbn; unfold batch, upto, last_announced; cbn; rewrite ?Hat; auto.
  - destruct Hwf as [? Hb]. split; [done|]. change (i :: todo) with ([i] ++ todo) in Hb.
    rewrite omap_app in Hb. by apply app_eq_nil in Hb as [_ ?].
  - destruct Hwf as [? Hb]. apply (al_send i todo); cbn; unfold batch, upto, last_announced; cbn; rewrite ?Hat; try done.
    cbn in Hb. by destruct (as_blk i).
Qed.
End laws.

(** ** Delivery, and what a failed fetch loses *)
Section theorems.
Context `{EL : EthLibLaws, GL : GobLaws, W : SyncWorker}.

Lemma ChainSync_reachable n0 st s :
  quiet st -> rtc sys_step (sys_start {| LastChecked := n0; at_ := AtSelect |} st) s -> sync_inv n0 s.
Proof. by apply (sync_inv_reachable n0). Qed.

Lemma NewChainSync_start force st cs :
  result (NewChainSync force) st = Ok cs ->
  cs = {| LastChecked := LastChecked cs; at_ := AtSelect |} /\
  (if force =? -1 then result GetBlockchainFinalizedBlockNumber st = Ok (LastChecked cs)
   else LastChecked cs = force).
Proof.
  unfold result, NewChainSync. rewrite bind_eq. destruct (GetBlockchainFinalizedBlockNumber st) as [[n|e|w] st']; [|done..].
  rewrite ret_eq. intros [= <-]. split; [done|]. by destruct (force =? -1).
Qed.

(** C13: the synchronizer delivers what its worker returns, whatever the worker: from the number
    it is created with (the configured one, or the one stored), in every interleaving with the
    state's loop and the Bitcoin side, it asks the worker for consecutive ranges (old, new] that
    cover the numbers from the starting one on, each number once; the events the state has
    handled, then those waiting in the channel, then those still to be sent are, of each kind,
    exactly the answers of these fetches one after the other, each event once and in the order the
    worker gave; the finalized numbers sent are new and strictly increasing; and at the select
    nothing is left to send of the ranges checked. *)
Theorem sync_delivers force st cs s :
  quiet st -> result (NewChainSync force) st = Ok cs -> rtc sys_step (sys_start cs st) s ->
  let asked := fetches s in
  (if force =? -1 then result GetBlockchainFinalizedBlockNumber st = Ok (LastChecked cs)
   else LastChecked cs = force) /\
  consecutive (LastChecked cs) asked (frontier (sync s)) /\
  Forall (fun f => GetTimeOrderedEvents (f_old f) (f_new f) (Ok (f_events f))) asked /\
  minted_stream s = got ev_minted asked /\ requested_stream s = got ev_requested asked /\
  prepared_stream s = got ev_prepared asked /\
  StronglySorted Z.lt (LastChecked cs :: number_stream s) /\
  (at_ (sync s) = AtSelect -> todo_of (sync s) = [] /\ frontier (sync s) = LastChecked (sync s)).
Proof.
  intros Hq Hn Hr. apply NewChainSync_start in Hn as [Hn Hf]. rewrite Hn in Hr.
  destruct (sync_inv_delivered _ _ (ChainSync_reachable _ st s Hq Hr)) as (? & ? & ? & ? & ? & ? & _).
  split_and!; try done; intros Hat; cbn; unfold batch, upto; by rewrite Hat.
Qed.

(** the run of a tick whose fetch fails after the state has taken the new number *)
Lemma failed_tick st n0 n1 e :
  quiet st -> db_fault (statedb st) = no_faults -> 1 <= n0 < n1 -> n1 < 2 ^ 256 -> finalized_is st n0 ->
  KeyEthFinalizedBlock <> KeyEthChainId ->
  GetNewestLedgerFinalizedNumber (Ok n1) -> GetTimeOrderedEvents n0 n1 (Err e) ->
  exists s, rtc sys_step (sys_start {| LastChecked := n0; at_ := AtSelect |} st) s /\
    at_ (sync s) = SyncReturned e /\ handled s = [SendBlk n1] /\
    finalized_is (l_st (st_loop s)) n1 /\ db_fault (statedb (l_st (st_loop s))) = no_faults /\
    kv_table (statedb (l_st (st_loop s))) !! hex_encode KeyEthChainId =
      kv_table (statedb st) !! hex_encode KeyEthChainId.
Proof.
  intros (Q1 & Q2 & Q3 & Q4) Hf Hn Hn1 Hfin Hkeys Hnew Hev.
  set (st1 := set_channels [n1] (newBtcFinalizedBlockCh st) [] [] [] st).
  set (st2 := set_channels [] (newBtcFinalizedBlockCh st) [] [] [] st).
  destruct (handleNewBlockNumber_finalized st2 n0 n1) as (st' & Hrun & Hfin' & _ & _ & _ & Hf' & _ & Hk);
    [done|lia|lia|exact Hfin|]. rewrite Z.max_r in Hfin' by lia.
  set (cs := {| LastChecked := n0; at_ := AtSelect |}).
  set (l0 := start st). set (l1 := {| l_st := st1; errCh := []; ctl := Running |}).
  set (l2 := {| l_st := st'; errCh := []; ctl := Running |}).
  exists {| sync := at_place (SyncReturned e) cs; st_loop := l2; handled := [SendBlk n1]; fetches := [] |}.
  split_and!; try done.
  - eapply rtc_l; [apply (sys_sync (sys_start cs st) None (at_place (SendingNumber n1) cs) l0); exists (Tick (Ok n1)); split; [|split; [done|]]|].
    { exact Hnew. } { unfold sync_step. cbn. by destruct (Z.ltb_spec n0 n1); [|lia]. }
    eapply rtc_l; [eapply (sys_sync _ None (at_place (Fetching n1) cs) l1); exists Go; split; [|split; [done|]]|].
    { exact I. } { cbn. rewrite Q1, Q2, Q3, Q4. done. }
    eapply rtc_l; [eapply (sys_select RecvBlk _ l2)|].
    { transitivity (Some (after_handler (handleNewBlockNumber n1 st2) [])); [done|by rewrite Hrun]. }
    cbn [sync st_loop handled fetches].
    eapply rtc_l; [eapply (sys_sync _ None (at_place (SyncReturned e) cs) l2); exists (Reply (Err e)); split; [|split; [done|]]|].
    { exact Hev. } { done. }
    apply rtc_refl.
  - cbn. rewrite Hk; [done|]. by intros ?%(inj hex_encode).
Qed.

(** A failed fetch loses the events: when the worker reports a new number and then fails to
    return the events up to it, the state may already have recorded the number, which
    [Loop] sends first; the loop returns, and a bridge restarted on the same database with the
    default configuration resumes after the number: whatever happens then, every fetch asks for
    numbers after it, and no fetch asks for the skipped range again. *)
Theorem failed_fetch_loses_events st n0 n1 e :
  quiet st -> db_fault (statedb st) = no_faults -> 1 <= n0 < n1 -> n1 < 2 ^ 256 -> finalized_is st n0 ->
  KeyEthFinalizedBlock <> KeyEthChainId -> 0 <= UniqueChainId (cfg st) < 2 ^ 256 ->
  kv_table (statedb st) !! hex_encode KeyEthChainId = Some (hex_encode (pad32 (UniqueChainId (cfg st)))) ->
  GetNewestLedgerFinalizedNumber (Ok n1) -> GetTimeOrderedEvents n0 n1 (Err e) ->
  exists cs s st' cs',
    result (NewChainSync (-1)) st = Ok cs /\ rtc sys_step (sys_start cs st) s /\
    at_ (sync s) = SyncReturned e /\ handled s = [SendBlk n1] /\
    New (statedb (l_st (st_loop s))) (cfg st) = (Ok st', statedb (l_st (st_loop s))) /\
    result (NewChainSync (-1)) st' = Ok cs' /\
    forall s', rtc sys_step (sys_start cs' st') s' -> Forall (fun f => n1 <= f_old f < f_new f) (fetches s').
Proof.
  intros Hq Hf Hn Hn1 Hfin Hkeys Hid Hc Hnew Hev.
  destruct (failed_tick st n0 n1 e) as (s & Hr & Hat & Hh & Hfin' & Hf' & Hk); try done.
  destruct (proj1 (New_recovers (l_st (st_loop s)) n1 (cfg st) (cfg st) Hf' ltac:(lia) Hid
    ltac:(by rewrite Hk) Hfin') eq_refl) as (st' & HN & Hfin2 & Hres).
  assert (forall st n, result GetBlockchainFinalizedBlockNumber st = Ok n ->
    result (NewChainSync (-1)) st = Ok {| LastChecked := n; at_ := AtSelect |}) as Hnew'.
  { intros st0 n. unfold result, NewChainSync. rewrite bind_eq.
    destruct (GetBlockchainFinalizedBlockNumber st0) as [[?|?|?] ?]; cbn; by intros [= ->]. }
  exists {| LastChecked := n0; at_ := AtSelect |}, s, st', {| LastChecked := n1; at_ := AtSelect |}.
  split_and!; try done; try (by apply Hnew').
  - apply Hnew'. unfold result. by rewrite (GetBlockchain_finalized st n0) by (done || lia).
  - intros s' Hr'. destruct (ChainSync_reachable n1 st' s' (New_quiet _ _ _ _ HN) Hr') as (_ & Hc' & _).
    eapply Forall_impl; [by eapply consecutive_within|cbn; lia].
Qed.
End theorems.

(** ** A concrete worker *)
(** a ledger with one request, at number 2; any fetch may fail *)
Definition toy_requested (n : Z) : list RedeemRequestedEvent := if n =? 2 then [sample_request] else [].
#[local] Instance toy_worker : SyncWorker := {
  GetNewestLedgerFinalizedNumber r := True;
  GetTimeOrderedEvents old new r :=
    r = Err "rpc"%string \/
    r = Ok {| ev_minted := []; ev_requested := between toy_requested old new; ev_prepared := [] |} }.
Definition toy_start : system ChainSync := sys_start {| LastChecked := 1; at_ := AtSelect |} sample_state.
Lemma toy_quiet : quiet sample_state.
Proof. by split_and!. Qed.
Definition toy_reply : outcome events :=
  Ok {| ev_minted := []; ev_requested := [sample_request]; ev_prepared := [] |}.
(** the tick that finds number 2, up to the sends *)
Definition toy_at (p : place) (l : loop) : system ChainSync :=
  {| sync := {| LastChecked := 1; at_ := p |}; st_loop := l; handled := []; fetches := [] |}.
Definition toy_loop : loop := do_env (SendBlk 2) (start sample_state).
Definition toy_fetched : system ChainSync := {|
  sync := {| LastChecked := 1; at_ := SendingEvents [SendRequested sample_request] 2 |};
  st_loop := toy_loop; handled := [];
  fetches := [{| f_old := 1; f_new := 2; f_events :=
                   {| ev_minted := []; ev_requested := [sample_request]; ev_prepared := [] |} |}] |}.
Lemma toy_reachable : rtc sys_step toy_start toy_fetched.
Proof.
  apply (rtc_l _ _ (toy_at (SendingNumber 2) (start sample_state))).
  { apply (sys_sync toy_start None {| LastChecked := 1; at_ := SendingNumber 2 |}). by exists (Tick (Ok 2)). }
  apply (rtc_l _ _ (toy_at (Fetching 2) toy_loop)).
  { apply (sys_sync (toy_at (SendingNumber 2) (start sample_state)) None {| LastChecked := 1; at_ := Fetching 2 |}).
    exists Go. split; [done|]. split; [done|]. vm_compute. reflexivity. }
  apply rtc_once.
  apply (sys_sync (toy_at (Fetching 2) toy_loop) (answered (Reply toy_reply) {| LastChecked := 1; at_ := Fetching 2 |}) {| LastChecked := 1; at_ := SendingEvents [SendRequested sample_request] 2 |}).
  exists (Reply toy_reply). split; [by right|done].
Qed.
Lemma sync_delivers_witness :
  requested_stream toy_fetched = [sample_request] /\
  (let asked := fetches toy_fetched in
   result GetBlockchainFinalizedBlockNumber sample_state = Ok 1 /\
   consecutive 1 asked 2 /\
   Forall (fun f => GetTimeOrderedEvents (f_old f) (f_new f) (Ok (f_events f))) asked /\
   minted_stream toy_fetched = got ev_minted asked /\
   requested_stream toy_fetched = got ev_requested asked /\
   prepared_stream toy_fetched = got ev_prepared asked /\
   StronglySorted Z.lt (1 :: number_stream toy_fetched) /\
   (at_ (sync toy_fetched) = AtSelect ->
    todo_of (sync toy_fetched) = [] /\ frontier (sync toy_fetched) = LastChecked (sync toy_fetched))).
Proof.
  split; [vm_compute; reflexivity|].
  apply (sync_delivers (-1) sample_state {| LastChecked := 1; at_ := AtSelect |} toy_fetched toy_quiet eq_refl toy_reachable).
Defined.
Lemma failed_fetch_loses_events_witness : exists cs s st' cs',
    result (NewChainSync (-1)) sample_state = Ok cs /\ rtc sys_step (sys_start cs sample_state) s /\
    at_ (sync s) = SyncReturned "rpc" /\ handled s = [SendBlk 2] /\
    New (statedb (l_st (st_loop s))) (cfg sample_state) = (Ok st', statedb (l_st (st_loop s))) /\
    result (NewChainSync (-1)) st' = Ok cs' /\
    forall s', rtc sys_step (sys_start cs' st') s' -> Forall (fun f => 2 <= f_old f < f_new f) (fetches s').
Proof.
  apply (failed_fetch_loses_events sample_state 1 2 "rpc").
  - exact toy_quiet.
  - vm_compute. reflexivity.
  - lia.
  - lia.
  - exact sample_finalized.
  - intros H. assert (bool_decide (KeyEthFinalizedBlock = KeyEthChainId) = true) as Hb
      by (by apply bool_decide_eq_true). vm_compute in Hb. discriminate.
  - vm_compute. split; [discriminate|reflexivity].
  - vm_compute. reflexivity.
  - exact I.
  - by left.
Defined.
