(* ===== verification/Aptosman.v ===== *)
(** * Aptosman: the Aptos client (aptosman/aptosman.go, sync_worker.go, mgr_worker.go,
    aptos_utils.go, config.go, types.go).

    The node, the REST API, the Aptos SDK and [encoding/json] are the class [AptosNode]; what
    the Go code does with their answers, the parsing of events, the encoding of arguments and the
    two workers, is modelled. The mutex of [aMint] is not: calls are sequences. *)
From S2P Require Export ChainTxMgr ChainSync.

(** ** JSON as Go's [encoding/json] decodes it into [interface{}] *)
#[warnings="-register-all"]
Inductive json :=
  | JNull | JBool (b : bool)
  | JNum (n : Z)               (** a [float64] with an integral value *)
  | JStr (s : string)
  | JArr (l : list json)
  | JObj (m : list (string * json)).   (** a map; the keys are distinct *)
Definition obj : Type := list (string * json).
Fixpoint get_key (m : obj) (k : string) : option json :=
  match m with
  | [] => None
  | (k', v) :: m => if String.eqb k' k then Some v else get_key m k
  end.
(** the type assertions [v.(T)]: a missing key is a nil interface, which has no type *)
Definition as_string (v : option json) : option string := match v with Some (JStr s) => Some s | _ => None end.
Definition as_obj (v : option json) : option obj := match v with Some (JObj m) => Some m | _ => None end.
Definition as_array (v : option json) : option (list json) := match v with Some (JArr l) => Some l | _ => None end.
(** [v.(string)] without [ok] *)
Definition must_string (v : option json) : outcome string :=
  match as_string v with Some s => Ok s | None => Panic "interface conversion" end.

(** ** types.go, config.go *)
Record MintParams := { mn_BtcTxId : bytes; mn_Amount : Z; mn_Receiver : string }.
Record RequestParams := { rq_Amount : Z; rq_Receiver : string }.
Record PrepareParams := {
  pr_RequestTxHash : string; pr_Requester : string; pr_Receiver : string; pr_Amount : Z;
  pr_OutpointTxIds : list string; pr_OutpointIdxs : list Z }.
Record aMintedEvent := { am_MintTxHash : string; am_BtcTxId : string; am_Receiver : string; am_Amount : Z }.
Record aRedeemRequestedEvent := {
  ar_RequestTxHash : string; ar_Requester : string; ar_Receiver : string; ar_Amount : Z;
  ar_IsValidReceiver : bool }.
Record aRedeemPreparedEvent := {
  ap_RequestTxHash : string; ap_PrepareTxHash : string; ap_Requester : string; ap_Receiver : string;
  ap_Amount : Z; ap_OutpointTxIds : list string; ap_OutpointIdxs : list Z }.
Record AptosmanConfig := { URL : string; ModuleAddress : string; Network : string }.
Definition NetworkMainnet : string := "mainnet".
Definition NetworkTestnet : string := "testnet".
Definition NetworkDevnet : string := "devnet".
(** the URL; the SDK's configuration of the network has its name *)
Definition GetNetworkConfig (network : string) : string * string :=
  if String.eqb network NetworkMainnet then ("https://fullnode.mainnet.aptoslabs.com/v1", "MainnetConfig")%string
  else if String.eqb network NetworkTestnet then ("https://fullnode.testnet.aptoslabs.com/v1", "TestnetConfig")%string
  else if String.eqb network NetworkDevnet then ("https://fullnode.devnet.aptoslabs.com/v1", "DevnetConfig")%string
  else ("https://fullnode.devnet.aptoslabs.com/v1", "DevnetConfig")%string.

(** ** strconv *)
(** the value [strconv.ParseUint] returns, also beside an error: 0 for a malformed text, the
    largest integer for one out of range *)
Definition parse_value (s : string) (bits : Z) : Z :=
  match digits_of 10 s with None => 0 | Some l => Z.min (of_digits 10 l) (2 ^ bits - 1) end.
Definition parseUint64 (s : string) : outcome Z := ParseUint s 64.
Definition parseUint16 (s : string) : outcome Z := ParseUint s 16.
(** [x, _ = parseUint64(s)] *)
Definition parseUint64_value (s : string) : Z := parse_value s 64.

(** ** BCS strings and vectors (aptos_utils.go) *)
Definition len_prefix (n : Z) : bytes :=
  if n <? 128 then [byte_of_Z n]
  else [byte_of_Z (Z.lor (Z.land n 127) 128); byte_of_Z (Z.shiftr n 7)].
Definition serializeString (s : string) : bytes :=
  len_prefix (Z.of_nat (String.length s)) ++ bytes_of_string s.
Definition serializeStringVector (strings : list string) : bytes :=
  len_prefix (Z.of_nat (length strings)) ++ concat (serializeString <$> strings).
(** the prefix of [aMint] and [string_to_bytes]: [byte(n) | 0x80] *)
Definition mint_len_prefix (n : Z) : bytes :=
  if n <? 128 then [byte_of_Z n]
  else [byte_of_Z (Z.lor (wrap 8 n) 128); byte_of_Z (Z.shiftr n 7)].
Definition string_to_bytes (str : string) : bytes :=
  mint_len_prefix (Z.of_nat (String.length str)) ++ bytes_of_string str.
Definition bcsEncodeString (s : string) : bytes :=
  byte_of_Z (Z.of_nat (String.length s)) :: bytes_of_string s.

(** ** The node, its REST API and the SDK *)
Record EntryFunction := {
  ef_Address : bytes; ef_Name : string; ef_Function : string; ef_Args : list bytes }.
Record TxInfo := { ti_Version : Z; ti_Success : bool; ti_VmStatus : string }.
Class AptosNode (N : Type) := {
  ParseStringRelaxed : string -> outcome bytes;      (** of an [AccountAddress] *)
  AddressString : bytes -> string;
  bcs_Address : bytes -> outcome bytes;
  bcs_SerializeU64 : Z -> outcome bytes;
  json_MarshalIndent : obj -> string;
  json_Unmarshal : string -> outcome (list obj);
  GetProcessorStatus : string -> M N Z;
  AccountResource : bytes -> string -> M N obj;
  aptos_NewClient : string -> outcome unit;          (** by the name of the SDK's configuration *)
  AccountResources : bytes -> M N (list (string * obj));
  HttpGet : string -> M N (Z * string);              (** the status code and the body *)
  BuildTransaction : bytes -> EntryFunction -> M N bytes;
  SignedTransaction : bytes -> outcome bytes;
  SubmitTransaction : bytes -> M N string;           (** the hash *)
  WaitForTransaction : string -> M N TxInfo;
  TransactionByHash : string -> M N TxInfo }.

(** *** Reading events *)
Definition parse_mint_event (event : obj) : outcome aMintedEvent :=
  match as_obj (get_key event "data") with
  | Some data =>
      version ← must_string (get_key event "version");
      id ← must_string (get_key data "btc_tx_id");
      receiver ← must_string (get_key data "receiver");
      let amount := match as_string (get_key data "amount") with
                    | Some amountStr => parseUint64_value amountStr | None => 0 end in
      Ok {| am_MintTxHash := version; am_BtcTxId := id; am_Receiver := receiver; am_Amount := amount |}
  | None => Ok {| am_MintTxHash := ""; am_BtcTxId := ""; am_Receiver := ""; am_Amount := 0 |}
  end.
Definition parse_request_event (event : obj) : outcome aRedeemRequestedEvent :=
  match as_obj (get_key event "data") with
  | Some data =>
      version ← must_string (get_key event "version");
      sender ← must_string (get_key data "sender");
      receiver ← must_string (get_key data "receiver");
      let amount := match as_string (get_key data "amount") with
                    | Some amountStr => parseUint64_value amountStr | None => 0 end in
      Ok {| ar_RequestTxHash := version; ar_Requester := sender; ar_Receiver := receiver;
            ar_Amount := amount; ar_IsValidReceiver := false |}
  | None => Ok {| ar_RequestTxHash := ""; ar_Requester := ""; ar_Receiver := ""; ar_Amount := 0;
                  ar_IsValidReceiver := false |}
  end.
Definition text_of (v : option json) : string := default EmptyString (as_string v).
(** the strings among the elements *)
Definition strings_of (l : list json) : list string := omap (fun v => as_string (Some v)) l.
(** [uint16(v)] of a [float64] is its low 16 bits in the range of an [int32] *)
Definition idx_of (v : json) : option Z :=
  match v with
  | JNum n => Some (u16 n)
  | JStr s => match parseUint16 s with Ok n => Some n | _ => None end
  | _ => None
  end.
Definition parse_prepare_event (event : obj) : option aRedeemPreparedEvent :=
  data ← as_obj (get_key event "data");
  Some {|
    ap_RequestTxHash := text_of (get_key event "version");
    ap_PrepareTxHash := text_of (get_key data "RequestTxhash");
    ap_Requester := text_of (get_key data "Requester");
    ap_Receiver := text_of (get_key data "Receiver");
    ap_Amount := match as_string (get_key data "Amount") with
                 | Some amountStr => parseUint64_value amountStr | None => 0 end;
    ap_OutpointTxIds := strings_of (default [] (as_array (get_key data "OutpointTxIds")));
    ap_OutpointIdxs := omap idx_of (default [] (as_array (get_key data "OutpointIdxs"))) |}.

(** ** The client *)
(** The client, the lock and the Bitcoin parameters apart *)
Record Aptosman := { acfg : AptosmanConfig; account : bytes; moduleAddress : bytes }.

Section aptosman.
Context {N : Type} `{AN : AptosNode N}.

Definition NewAptosman (c : AptosmanConfig) (acct : bytes) : M N Aptosman :=
  lift (aptos_NewClient (GetNetworkConfig (Network c)).2) ;;
  addr ← lift (ParseStringRelaxed (ModuleAddress c));
  AccountResources addr ;;
  mret {| acfg := c; account := acct; moduleAddress := addr |}.

Variable aptman : Aptosman.
Definition with_text {A} (pre : string) (m : M N A) : M N A := fun s =>
  let '(o, s') := m s in (wrap_err pre o, s').
Definition GetLatestFinalizedVersion : M N Z := GetProcessorStatus "default_processor".

Definition BridgeEventsType (address : bytes) : string :=
  (AddressString address +:+ "::btc_bridgev3::BridgeEvents")%string.
(** [v, ok := ...; if !ok { return nil, errors.New(e) }] *)
Definition need {A} (o : option A) (e : error) : M N A :=
  match o with Some a => mret a | None => throw e end.
(** the account whose event handle is read out of the contract's resource; [None]: no events yet *)
Definition events_account (address : bytes) (events_field : string) : M N (option bytes) :=
  resource ← with_text "Get bridge events resource failed: " (AccountResource address (BridgeEventsType address));
  data ← need (as_obj (get_key resource "data")) "Resource data format is incorrect";
  eventsData ← need (get_key data events_field)
    ("Field '" +:+ events_field +:+ "' not found in contract data: " +:+ json_MarshalIndent data)%string;
  eventsMap ← need (as_obj (Some eventsData)) "Resource data format is incorrect";
  counterStr ← need (as_string (get_key eventsMap "counter")) "未找到counter字段";
  counter ← need (big_SetString counterStr 10) "counter字段解析失败";
  if counter =? 0 then mret None
  else
    guidData ← need (as_obj (get_key eventsMap "guid")) "未找到guid字段";
    idData ← need (as_obj (get_key guidData "id")) "未找到id字段";
    accountAddressStr ← need (as_string (get_key idData "addr")) "未找到addr字段";
    accountAddress ← lift (wrap_err "解析账户地址失败: " (ParseStringRelaxed accountAddressStr));
    mret (Some accountAddress).
(** the request to the REST API, its status and its body *)
Definition fetch_events (fullURL : string) : M N (list obj) :=
  resp ← with_text "发送HTTP请求失败: " (HttpGet fullURL);
  if negb (resp.1 =? 200)
  then throw ("API请求失败: 状态码 " +:+ int_Text 10 resp.1 +:+ ", 响应体: " +:+ resp.2)%string
  else lift (wrap_err "解析响应失败: " (json_Unmarshal resp.2)).
(** [limit] and [start] are not used: the query has no parameters. The URL is a constant, two
    printed addresses and a field name, which [http.NewRequest] accepts. *)
Definition GetEvents (events_field : string) (limit start : Z) : M N (list obj) :=
  address ← lift (wrap_err "Parse module address failed: "
              (ParseStringRelaxed (AddressString (moduleAddress aptman))));
  accountAddress ← events_account address events_field;
  match accountAddress with
  | None => mret []
  | Some accountAddress =>
      let baseURL := (GetNetworkConfig (Network (acfg aptman))).1 in
      fetch_events (baseURL +:+ "/accounts/" +:+ AddressString accountAddress +:+ "/events/" +:+
                    BridgeEventsType address +:+ "/" +:+ events_field)%string
  end.

Fixpoint mapE {A B} (f : A -> outcome B) (l : list A) : outcome (list B) :=
  match l with
  | [] => Ok []
  | x :: l => y ← f x; ys ← mapE f l; Ok (y :: ys)
  end.
Definition getMintEvents (startVersion endVersion : Z) : M N (list aMintedEvent) :=
  events ← with_text "获取铸币事件失败: " (GetEvents "mint_events" startVersion endVersion);
  lift (mapE parse_mint_event events).
Definition getRedeemRequestedEvents (startVersion endVersion : Z) : M N (list aRedeemRequestedEvent) :=
  events ← with_text "获取赎回请求事件失败: " (GetEvents "redeem_request_events" startVersion endVersion);
  lift (mapE parse_request_event events).
(** an event without [data] is skipped *)
Definition getRedeemPreparedEvents (startVersion endVersion : Z) : M N (list aRedeemPreparedEvent) :=
  events ← with_text "获取赎回准备事件失败: " (GetEvents "redeem_prepare_events" startVersion endVersion);
  mret (omap parse_prepare_event events).
Definition GetModuleEvents (startVersion endVersion : Z) :
    M N (list aMintedEvent * list aRedeemRequestedEvent * list aRedeemPreparedEvent) :=
  mintEvents ← getMintEvents startVersion endVersion;
  redeemRequestedEvents ← getRedeemRequestedEvents startVersion endVersion;
  redeemPreparedEvents ← getRedeemPreparedEvents startVersion endVersion;
  mret (mintEvents, redeemRequestedEvents, redeemPreparedEvents).

(** *** Calling the contract *)
Definition entry (f : string) (args : list bytes) : EntryFunction := {|
  ef_Address := moduleAddress aptman; ef_Name := "btc_bridgev3"; ef_Function := f; ef_Args := args |}.
(** build, sign and submit: the hash *)
Definition submit_entry (from : bytes) (payload : EntryFunction) : M N string :=
  txn ← with_text "构建交易失败: " (BuildTransaction from payload);
  signedTxn ← lift (wrap_err "签名交易失败: " (SignedTransaction txn));
  with_text "提交交易失败: " (SubmitTransaction signedTxn).
(** and wait *)
Definition send_entry (from : bytes) (payload : EntryFunction) : M N string :=
  submitResult ← submit_entry from payload;
  with_text "等待交易确认失败: " (WaitForTransaction submitResult) ;;
  mret submitResult.
Definition aMint (params : MintParams) : M N string :=
  receiverAddr ← lift (wrap_err "解析接收者地址失败: " (ParseStringRelaxed (mn_Receiver params)));
  let btc_tx_id_bytes := mint_len_prefix (Z.of_nat (length (mn_BtcTxId params))) ++ mn_BtcTxId params in
  receiverBytes ← lift (wrap_err "序列化接收者地址失败: " (bcs_Address receiverAddr));
  amountBytes ← lift (wrap_err "序列化金额失败: " (bcs_SerializeU64 (mn_Amount params)));
  send_entry (account aptman) (entry "mint" [btc_tx_id_bytes; receiverBytes; amountBytes]).
Definition RedeemRequest (acct : bytes) (params : RequestParams) : M N string :=
  amountBytes ← lift (wrap_err "序列化金额失败: " (bcs_SerializeU64 (rq_Amount params)));
  let receiverBytes := serializeString (rq_Receiver params) in
  send_entry acct (entry "redeem_request" [amountBytes; receiverBytes]).
(** errors of [bcs.SerializeU64] are dropped here, with its empty result *)
Definition serializeU64Vector (nums : list Z) : bytes :=
  len_prefix (Z.of_nat (length nums)) ++
  concat ((fun num => match bcs_SerializeU64 num with Ok b => b | _ => [] end) <$> nums).
Definition RedeemPrepare (acct : bytes) (params : PrepareParams) : M N string :=
  lift (wrap_err "解析模块地址失败: " (ParseStringRelaxed (AddressString (moduleAddress aptman)))) ;;
  let txHashBytes := serializeString (pr_RequestTxHash params) in
  requesterAddr ← lift (wrap_err "解析requester地址失败: " (ParseStringRelaxed (pr_Requester params)));
  requesterBytes ← lift (wrap_err "序列化requester地址失败: " (bcs_Address requesterAddr));
  let receiverBytes := serializeString (pr_Receiver params) in
  amountBytes ← lift (wrap_err "序列化金额失败: " (bcs_SerializeU64 (pr_Amount params)));
  hash ← send_entry acct (entry "redeem_prepare"
    [txHashBytes; requesterBytes; receiverBytes; amountBytes;
     serializeStringVector (pr_OutpointTxIds params); serializeU64Vector (pr_OutpointIdxs params)]);
  txnInfo ← with_text "获取交易信息失败: " (TransactionByHash hash);
  if negb (ti_Success txnInfo) then throw ("交易执行失败: " +:+ ti_VmStatus txnInfo)%string
  else mret hash.

(** *** Reading the contract *)
(** [for _, hash := range l { if hash.(string) == x { return true } }] *)
Fixpoint contains_text (l : list json) (x : string) : outcome bool :=
  match l with
  | [] => Ok false
  | v :: l => s ← must_string (Some v); if String.eqb s x then Ok true else contains_text l x
  end.
Definition listed (ty field : string) (pre : string) (x : string) : M N bool :=
  address ← lift (wrap_err "解析模块地址失败: " (ParseStringRelaxed (AddressString (moduleAddress aptman))));
  resource ← with_text pre (AccountResource address (AddressString address +:+ ty)%string);
  match as_obj (get_key resource "data") with
  | Some data =>
      match as_array (get_key data field) with
      | Some l => lift (contains_text l x)
      | None => mret false
      end
  | None => mret false
  end.
Definition IsPrepared (txHash : string) : M N bool :=
  listed "::btc_bridgev3::PreparedRedeems" "prepared" "获取PreparedRedeems资源失败: " txHash.
Definition IsMinted (btcTxId : string) : M N bool :=
  listed "::btc_bridgev3::UsedBtcTxIds" "used" "获取UsedBtcTxIds资源失败: " btcTxId.
Definition IsUsed (btcTxId : string) : M N bool := IsMinted btcTxId.
Definition GetTWBTCBalance (addrStr : string) : M N Z :=
  address ← lift (wrap_err "解析地址失败: " (ParseStringRelaxed addrStr));
  resources ← with_text "获取账户资源失败: " (AccountResources address);
  let resourceType := ("0x1::coin::CoinStore<" +:+ AddressString (moduleAddress aptman) +:+
                       "::btc_tokenv3::BTC>")%string in
  match List.find (fun r => String.eqb r.1 resourceType) resources with
  | Some r =>
      match as_obj (get_key r.2 "coin") with
      | Some coinMap => match as_string (get_key coinMap "value") with
                        | Some valueStr => lift (parseUint64 valueStr) | None => mret 0 end
      | None => mret 0
      end
  | None => mret 0
  end.

(** ** sync_worker.go *)
Context `{E : EthLib}.
Definition GetNewestLedgerFinalizedNumber : M N Z :=
  version ← GetLatestFinalizedVersion; mret (i64 version).
Definition agreement_minted (ev : aMintedEvent) : MintedEvent := {|
  me_MintTxHash := HexStrToBytes32 (am_MintTxHash ev); me_BtcTxId := HexStrToBytes32 (am_BtcTxId ev);
  me_Receiver := bytes_of_string (am_Receiver ev); me_Amount := Some (am_Amount ev) |}.
Definition agreement_requested (ev : aRedeemRequestedEvent) : RedeemRequestedEvent := {|
  rr_RequestTxHash := HexStrToBytes32 (ar_RequestTxHash ev);
  rr_Requester := bytes_of_string (ar_Requester ev); rr_Receiver := ar_Receiver ev;
  rr_Amount := Some (ar_Amount ev); rr_IsValidReceiver := true |}.
Definition agreement_prepared (ev : aRedeemPreparedEvent) : RedeemPreparedEvent := {|
  rp_RequestTxHash := HexStrToBytes32 (ap_RequestTxHash ev);
  rp_PrepareTxHash := HexStrToBytes32 (ap_PrepareTxHash ev);
  rp_Requester := bytes_of_string (ap_Requester ev); rp_Receiver := ap_Receiver ev;
  rp_Amount := Some (ap_Amount ev);
  rp_OutpointTxIds := ArrayHexStrToHashes (ap_OutpointTxIds ev);
  rp_OutpointIdxs := ap_OutpointIdxs ev |}.
Definition GetTimeOrderedEvents (oldNum newNum : Z) : M N events :=
  evs ← GetModuleEvents (big_Uint64 oldNum) (big_Uint64 newNum);
  let '(mintedEvents, requestedEvents, preparedEvents) := evs in
  mret {| ev_minted := agreement_minted <$> mintedEvents;
          ev_requested := agreement_requested <$> requestedEvents;
          ev_prepared := agreement_prepared <$> preparedEvents |}.

(** ** mgr_worker.go *)
Definition worker_GetLatestLedgerNumber : M N (option Z) :=
  version ← GetLatestFinalizedVersion; mret (Some (i64 version)).
(** the version reached after a submission; [nil], and no error, when it cannot be read *)
Definition version_after (txHash : string) : M N (bytes * option Z) :=
  v ← try worker_GetLatestLedgerNumber;
  mret (bytes_of_string txHash, match v with inl _ => None | inr n => n end).
Definition mint_params (mint : MintParameter) : MintParams := {|
  mn_BtcTxId := mp_BtcTxId mint; mn_Amount := big_Uint64 (mp_Amount mint);
  mn_Receiver := string_of_bytes (mp_Receiver mint) |}.
Definition worker_DoMint (mint : MintParameter) : M N (bytes * option Z) :=
  txHash ← aMint (mint_params mint);
  version_after txHash.
Definition prepare_params (prepare : PrepareParameter) : PrepareParams := {|
  pr_RequestTxHash := Bytes32ToHexStr (pp_RequestTxHash prepare);
  pr_Requester := string_of_bytes (pp_Requester prepare); pr_Receiver := pp_Receiver prepare;
  pr_Amount := big_Uint64 (pp_Amount prepare);
  pr_OutpointTxIds := Bytes32ToHexStr <$> pp_OutpointTxIds prepare;
  pr_OutpointIdxs := pp_OutpointIdxs prepare |}.
Definition worker_DoPrepare (prepare : PrepareParameter) : M N (bytes * option Z) :=
  txHash ← RedeemPrepare (account aptman) (prepare_params prepare);
  version_after txHash.
(** [WaitForTransaction] with a poll period and a timeout *)
Definition worker_GetTxStatus (txId : bytes) : M N (MonitoredTxStatus * option Z) :=
  tx ← try (WaitForTransaction (string_of_bytes txId));
  match tx with
  | inl err =>
      if Contains err "timeout" then mret (Timeout, None)
      else if Contains err "not found" then mret (Limbo, None)
      else throw err
  | inr tx =>
      let version := i64 (ti_Version tx) in
      mret (if ti_Success tx then Success else Reverted, Some version)
  end.
Definition AptosMgrWorker : MgrWorker N := {|
  ChainTxMgr.GetLatestLedgerNumber := worker_GetLatestLedgerNumber;
  ChainTxMgr.IsMinted id := IsMinted (Bytes32ToHexStr id);
  ChainTxMgr.DoMint := worker_DoMint;
  ChainTxMgr.IsPrepared id := IsPrepared (Bytes32ToHexStr id);
  ChainTxMgr.DoPrepare := worker_DoPrepare;
  ChainTxMgr.GetTxStatus := worker_GetTxStatus |}.
End aptosman.
Arguments GetEvents {N AN}. Arguments GetTimeOrderedEvents {N AN} aptman {E}.

(** ** The events of the contract *)
(** What the contract emits, [aptos_contract/contract/sources/btc_bridge.move], with the version
    of the transaction; integers and addresses are text in the REST API. *)
Record move_mint := { mm_version : Z; mm_btc_tx_id : string; mm_receiver : string; mm_amount : Z }.
Record move_request := { mr_version : Z; mr_sender : string; mr_amount : Z; mr_receiver : string }.
Record move_prepare := {
  mv_version : Z; mv_RequestTxhash : string; mv_Requester : string; mv_Receiver : string;
  mv_Amount : Z; mv_OutpointTxIds : list string; mv_OutpointIdxs : list Z }.
Definition JInt (n : Z) : json := JStr (int_Text 10 n).
Definition event_json (version : Z) (data : obj) : obj :=
  [("version"%string, JInt version); ("data"%string, JObj data)].
Definition mint_json (m : move_mint) : obj := event_json (mm_version m)
  [("btc_tx_id"%string, JStr (mm_btc_tx_id m)); ("receiver"%string, JStr (mm_receiver m));
   ("amount"%string, JInt (mm_amount m))].
Definition request_json (m : move_request) : obj := event_json (mr_version m)
  [("sender"%string, JStr (mr_sender m)); ("amount"%string, JInt (mr_amount m));
   ("receiver"%string, JStr (mr_receiver m))].
Definition prepare_json (m : move_prepare) : obj := event_json (mv_version m)
  [("RequestTxhash"%string, JStr (mv_RequestTxhash m)); ("Requester"%string, JStr (mv_Requester m));
   ("Receiver"%string, JStr (mv_Receiver m)); ("Amount"%string, JInt (mv_Amount m));
   ("OutpointTxIds"%string, JArr (JStr <$> mv_OutpointTxIds m));
   ("OutpointIdxs"%string, JArr (JInt <$> mv_OutpointIdxs m))].

(** ** Theorems *)
Lemma digits_of_int_Text n : 0 <= n -> exists l, digits_of 10 (int_Text 10 n) = Some l /\ of_digits 10 l = n.
Proof.
  intros Hn. pose proof (ParseUint_Text n (Z.log2 n + 1)) as H. unfold ParseUint in H.
  assert (0 <= n < 2 ^ (Z.log2 n + 1)) as Hb.
  { split; [done|]. destruct (decide (n = 0)) as [->|]; [done|]. apply Z.log2_spec. lia. }
  specialize (H Hb). destruct (digits_of 10 (int_Text 10 n)) as [l|]; [|done].
  exists l. split; [done|]. destruct (_ <? _); congruence.
Qed.
Lemma parse_value_Text n bits : 0 <= n < 2 ^ bits -> parse_value (int_Text 10 n) bits = n.
Proof.
  intros Hn. unfold parse_value. destruct (digits_of_int_Text n) as (l & -> & ->); [lia|]. lia.
Qed.

Section events_spec.
Context {N : Type} `{AN : AptosNode N} `{EL : EthLibLaws}.
Variable aptman : Aptosman.

Lemma mapE_Ok {A B C} (f : A -> outcome B) (g : C -> A) (h : C -> B) l :
  Forall (fun x => f (g x) = Ok (h x)) l -> mapE f (g <$> l) = Ok (h <$> l).
Proof. induction 1 as [|x l Hx _ IH]; [done|]. cbn. rewrite Hx. cbn. by rewrite IH. Qed.
Lemma strings_of_JStr l : strings_of (JStr <$> l) = l.
Proof. by apply omap_fmap_Some. Qed.
Lemma idxs_JInt l : Forall (fun n => 0 <= n < 2 ^ 16) l -> omap idx_of (JInt <$> l) = l.
Proof.
  intros Hl. etrans; [|apply list_fmap_id]. rewrite <-(omap_fmap_Some id Some l) at 2 by done.
  induction Hl as [|n l Hn _ IH]; [done|]. cbn. unfold parseUint16. rewrite ParseUint_Text by done.
  f_equal. exact IH.
Qed.
Lemma parse_prepare_json m :
  0 <= mv_Amount m < 2 ^ 64 -> Forall (fun n => 0 <= n < 2 ^ 16) (mv_OutpointIdxs m) ->
  parse_prepare_event (prepare_json m) = Some {|
    ap_RequestTxHash := int_Text 10 (mv_version m); ap_PrepareTxHash := mv_RequestTxhash m;
    ap_Requester := mv_Requester m; ap_Receiver := mv_Receiver m; ap_Amount := mv_Amount m;
    ap_OutpointTxIds := mv_OutpointTxIds m; ap_OutpointIdxs := mv_OutpointIdxs m |}.
Proof.
  intros Ha Hi. unfold parse_prepare_event. cbn. unfold parseUint64_value.
  by rewrite parse_value_Text, strings_of_JStr, idxs_JInt by done.
Qed.

Definition mint_ok (m : move_mint) : Prop := 0 <= mm_amount m < 2 ^ 64.
Definition request_ok (m : move_request) : Prop := 0 <= mr_amount m < 2 ^ 64.
Definition prepare_ok (m : move_prepare) : Prop :=
  0 <= mv_Amount m < 2 ^ 64 /\ Forall (fun n => 0 <= n < 2 ^ 16) (mv_OutpointIdxs m).
Definition minted_of (m : move_mint) : MintedEvent := {|
  me_MintTxHash := HexStrToBytes32 (int_Text 10 (mm_version m));
  me_BtcTxId := HexStrToBytes32 (mm_btc_tx_id m);
  me_Receiver := bytes_of_string (mm_receiver m); me_Amount := Some (mm_amount m) |}.
Definition requested_of (m : move_request) : RedeemRequestedEvent := {|
  rr_RequestTxHash := HexStrToBytes32 (int_Text 10 (mr_version m));
  rr_Requester := bytes_of_string (mr_sender m); rr_Receiver := mr_receiver m;
  rr_Amount := Some (mr_amount m); rr_IsValidReceiver := true |}.
(** the hash of the request and the version of the preparation, exchanged *)
Definition prepared_of (m : move_prepare) : RedeemPreparedEvent := {|
  rp_RequestTxHash := HexStrToBytes32 (int_Text 10 (mv_version m));
  rp_PrepareTxHash := HexStrToBytes32 (mv_RequestTxhash m);
  rp_Requester := bytes_of_string (mv_Requester m); rp_Receiver := mv_Receiver m;
  rp_Amount := Some (mv_Amount m); rp_OutpointTxIds := HexToHash <$> mv_OutpointTxIds m;
  rp_OutpointIdxs := mv_OutpointIdxs m |}.

Lemma prepared_of_json m : prepare_ok m ->
  agreement_prepared <$> parse_prepare_event (prepare_json m) = Some (prepared_of m).
Proof. intros [Ha Hi]. by rewrite parse_prepare_json. Qed.
Lemma mints_of_json l : Forall mint_ok l ->
  (fun x : list _ => agreement_minted <$> x) <$> mapE parse_mint_event (mint_json <$> l) = Ok (minted_of <$> l).
Proof.
  induction 1 as [|m l Hm _ IH]; [done|]. cbn. unfold parseUint64_value. rewrite parse_value_Text by done.
  destruct (mapE parse_mint_event _) as [ys|e|w]; cbn in *; [|done..]. by injection IH as ->.
Qed.
Lemma requests_of_json l : Forall request_ok l ->
  (fun x : list _ => agreement_requested <$> x) <$> mapE parse_request_event (request_json <$> l) = Ok (requested_of <$> l).
Proof.
  induction 1 as [|m l Hm _ IH]; [done|]. cbn. unfold parseUint64_value. rewrite parse_value_Text by done.
  destruct (mapE parse_request_event _) as [ys|e|w]; cbn in *; [|done..]. by injection IH as ->.
Qed.
Lemma prepares_of_json l : Forall prepare_ok l ->
  agreement_prepared <$> omap parse_prepare_event (prepare_json <$> l) = prepared_of <$> l.
Proof.
  induction 1 as [|m l Hm _ IH]; [done|]. apply prepared_of_json in Hm.
  rewrite !fmap_cons. cbn [omap list_omap]. destruct (parse_prepare_event (prepare_json m)) as [ev|]; [|done].
  apply (inj Some) in Hm. rewrite <-Hm, fmap_cons. f_equal. exact IH.
Qed.

(** C40: what the Aptos worker reports: whatever range of versions it is asked for, it returns all
    the events the node lists, in the node's order, each decoded exactly from the text the contract
    emits, with the amount intact and the versions read as hexadecimal; every request is marked as
    having a valid receiver; and in a prepared event the request hash and the prepare hash are
    exchanged. *)
Theorem aptos_sync_events mints requests prepares s oldNum newNum :
  GetEvents aptman "mint_events" 0 0 s = (Ok (mint_json <$> mints), s) ->
  GetEvents aptman "redeem_request_events" 0 0 s = (Ok (request_json <$> requests), s) ->
  GetEvents aptman "redeem_prepare_events" 0 0 s = (Ok (prepare_json <$> prepares), s) ->
  Forall mint_ok mints -> Forall request_ok requests -> Forall prepare_ok prepares ->
  GetTimeOrderedEvents aptman oldNum newNum s =
    (Ok {| ev_minted := minted_of <$> mints; ev_requested := requested_of <$> requests;
           ev_prepared := prepared_of <$> prepares |}, s).
Proof.
  intros H1 H2 H3 O1 O2 O3. unfold GetTimeOrderedEvents, GetModuleEvents, getMintEvents,
    getRedeemRequestedEvents, getRedeemPreparedEvents.
  assert (forall f a b, GetEvents aptman f a b = GetEvents aptman f 0 0) as Hr by done.
  unfold with_text. rewrite !bind_eq, Hr, H1. cbn [wrap_err]. mstep.
  pose proof (mints_of_json mints O1) as M1. pose proof (requests_of_json requests O2) as M2.
  destruct (mapE parse_mint_event _) as [l1|?|?]; [|done..]. injection M1 as M1.
  rewrite !bind_eq, Hr, H2. cbn [wrap_err]. mstep.
  destruct (mapE parse_request_event _) as [l2|?|?]; [|done..]. injection M2 as M2.
  rewrite !bind_eq, Hr, H3. cbn [wrap_err]. mstep. rewrite <-M1, <-M2, <-prepares_of_json by done. done.
Qed.
End events_spec.

(** ** BCS strings *)
(** The encoding as the Move VM reads it: the length in ULEB128 (a 32-bit integer: five bytes at
    most), then the bytes. *)
Fixpoint uleb_decode (fuel : nat) (b : bytes) : option (Z * bytes) :=
  match b with
  | [] => None
  | c :: b =>
      if Z_of_byte c <? 128 then Some (Z_of_byte c, b)
      else match fuel with
           | O => None
           | S fuel => p ← uleb_decode fuel b; Some (Z_of_byte c - 128 + 128 * p.1, p.2)
           end
  end.
Definition bcs_string (b : bytes) : option (string * bytes) :=
  p ← uleb_decode 4 b;
  if p.1 <=? Z.of_nat (length p.2)
  then Some (string_of_bytes (take (Z.to_nat p.1) p.2), drop (Z.to_nat p.1) p.2) else None.
Fixpoint bcs_strings (n : nat) (b : bytes) : option (list string * bytes) :=
  match n with
  | O => Some ([], b)
  | S n => p ← bcs_string b; q ← bcs_strings n p.2; Some (p.1 :: q.1, q.2)
  end.
Definition bcs_string_vector (b : bytes) : option (list string * bytes) :=
  p ← uleb_decode 4 b; bcs_strings (Z.to_nat p.1) p.2.

Lemma low_byte n : 0 <= n -> Z_of_byte (byte_of_Z (Z.lor (Z.land n 127) 128)) = n mod 128 + 128.
Proof.
  intros Hn. change 127 with (Z.ones 7). rewrite Z.land_ones by lia. change (2 ^ 7) with 128.
  pose proof (Z.mod_pos_bound n 128 ltac:(lia)) as Hm.
  assert (Z.land (n mod 128) 128 = 0) as H0.
  { change 128 with (2 ^ 7). apply Z.bits_inj'. intros k Hk.
    rewrite Z.land_spec, Z.bits_0, Z.pow2_bits_eqb by lia.
    destruct (Z.eqb_spec 7 k) as [<-|]; [|apply andb_false_r]. by rewrite Z.mod_pow2_bits_high by lia. }
  pose proof (Z.add_lor_land (n mod 128) 128). rewrite Z_of_byte_of_Z, wrap_small; lia.
Qed.
Lemma len_prefix_same n : 0 <= n -> mint_len_prefix n = len_prefix n.
Proof.
  intros Hn. unfold mint_len_prefix, len_prefix. destruct (n <? 128); [done|]. do 2 f_equal.
  unfold wrap. change 127 with (Z.ones 7). rewrite Z.land_ones by lia. change 128 with (2 ^ 7).
  apply Z.bits_inj'. intros k Hk. rewrite !Z.lor_spec, Z.pow2_bits_eqb by lia.
  destruct (Z.eqb_spec 7 k); [by rewrite !orb_true_r|]. f_equal.
  destruct (decide (k < 7)); [by rewrite !Z.mod_pow2_bits_low by lia|by rewrite !Z.mod_pow2_bits_high by lia].
Qed.
Lemma uleb_shorter f b n r : uleb_decode f b = Some (n, r) -> (length r < length b)%nat.
Proof.
  revert b n r. induction f as [|f IH]; intros [|c b] n r; cbn; try done;
    (destruct (_ <? 128); [intros [= <- <-]; lia|]); [done|].
  destruct (uleb_decode f b) as [[m q]|] eqn:Hd; [|done]. intros [= <- <-]. apply IH in Hd. cbn. lia.
Qed.
Lemma uleb_nonneg f b n r : uleb_decode f b = Some (n, r) -> 0 <= n.
Proof.
  revert b n r. induction f as [|f IH]; intros [|c b] n r; cbn; try done;
    pose proof (Z_of_byte_range c); destruct (Z.ltb_spec (Z_of_byte c) 128); try done;
    try (intros [= <- <-]; lia).
  destruct (uleb_decode f b) as [[m q]|] eqn:Hd; [|done]. apply IH in Hd. cbn. intros [= <- <-]. lia.
Qed.
Lemma uleb_cons f c b : uleb_decode (S f) (c :: b) =
  if Z_of_byte c <? 128 then Some (Z_of_byte c, b)
  else p ← uleb_decode f b; Some (Z_of_byte c - 128 + 128 * p.1, p.2).
Proof. reflexivity. Qed.
Lemma uleb_prefix n rest : 0 <= n ->
  uleb_decode 4 (len_prefix n ++ rest) = Some (n, rest) <-> n < 2 ^ 14.
Proof.
  intros Hn. unfold len_prefix. destruct (Z.ltb_spec n 128).
  { cbn [app]. rewrite uleb_cons, Z_of_byte_of_Z, wrap_small by lia.
    replace (n <? 128) with true by lia. split; [lia|done]. }
  cbn [app]. rewrite uleb_cons, low_byte by done.
  pose proof (Z.mod_pos_bound n 128 ltac:(lia)) as Hm.
  replace (n mod 128 + 128 <? 128) with false by lia.
  rewrite Z.shiftr_div_pow2 by lia. change (2 ^ 7) with 128. change (2 ^ 14) with (128 * 128).
  pose proof (Z.div_mod n 128 ltac:(lia)) as Hdm. set (q := n / 128) in *.
  rewrite uleb_cons, Z_of_byte_of_Z. unfold wrap. change (2 ^ 8) with 256.
  pose proof (Z.mod_pos_bound q 256 ltac:(lia)) as Hq.
  destruct (Z.ltb_spec (q mod 256) 128).
  - cbn [mbind option_bind fst snd]. split; [intros [= H']; lia|]. intros Hlt.
    rewrite (Z.mod_small q) by lia. do 2 f_equal. lia.
  - split; [|intros; rewrite Z.mod_small in * by lia; lia].
    destruct (uleb_decode 2 rest) as [[m r]|] eqn:Hd; [|done]. apply uleb_shorter in Hd.
    cbn [mbind option_bind fst snd]. intros [= _ ->]. lia.
Qed.
Lemma bcs_string_serialize s rest :
  bcs_string (serializeString s ++ rest) = Some (s, rest) <-> Z.of_nat (String.length s) < 2 ^ 14.
Proof.
  unfold bcs_string, serializeString. rewrite string_length_bytes, <-app_assoc.
  rewrite <-(uleb_prefix _ (bytes_of_string s ++ rest)) by lia. set (n := Z.of_nat (length (bytes_of_string s))).
  split.
  - destruct (uleb_decode 4 _) as [[m r]|] eqn:Hd; [|done]. apply uleb_nonneg in Hd. cbn [mbind option_bind fst snd].
    destruct (Z.leb_spec m (Z.of_nat (length r))); [|done]. intros [= Hs Hr].
    assert (r = bytes_of_string s ++ rest) as ->.
    { rewrite <-Hr, <-Hs, bytes_of_string_of_bytes. by rewrite take_drop. }
    f_equal. f_equal. rewrite length_app in *. apply (f_equal length) in Hr.
    rewrite length_drop, length_app in Hr.
    apply (f_equal (fun s => length (bytes_of_string s))) in Hs.
    rewrite bytes_of_string_of_bytes, length_take, length_app in Hs. unfold n. lia.
  - intros ->. cbn [mbind option_bind fst snd]. rewrite length_app.
    unfold n. rewrite (proj2 (Z.leb_le _ _)) by lia. rewrite Nat2Z.id.
    rewrite take_app_length, drop_app_length. by rewrite string_of_bytes_of_string.
Qed.

(** C37: the hand-written BCS encoding is right exactly below 16384 bytes: a string, and the
    Bitcoin transaction id of [aMint], is read back by the chain if and only if it is shorter; a
    vector of fewer than 16384 such strings is read back whole. *)
Theorem bcs_roundtrip s l rest :
  (bcs_string (serializeString s ++ rest) = Some (s, rest) <-> Z.of_nat (String.length s) < 2 ^ 14) /\
  (bcs_string (string_to_bytes s ++ rest) = Some (s, rest) <-> Z.of_nat (String.length s) < 2 ^ 14) /\
  (Forall (fun s => Z.of_nat (String.length s) < 2 ^ 14) l -> Z.of_nat (length l) < 2 ^ 14 ->
   bcs_string_vector (serializeStringVector l ++ rest) = Some (l, rest)).
Proof.
  split_and!.
  - apply bcs_string_serialize.
  - unfold string_to_bytes. rewrite len_prefix_same by lia. apply bcs_string_serialize.
  - intros Hl Hn. unfold bcs_string_vector, serializeStringVector. rewrite <-app_assoc.
    rewrite (proj2 (uleb_prefix (Z.of_nat (length l)) _ ltac:(lia)) Hn). cbn [mbind option_bind fst snd]. rewrite Nat2Z.id.
    clear Hn. induction Hl as [|x l Hx _ IH]; [done|]. cbn [fmap list_fmap concat length bcs_strings].
    rewrite <-app_assoc, (proj2 (bcs_string_serialize _ _) Hx). cbn [mbind option_bind fst snd].
    by rewrite IH.
Qed.

(** ** Versions read as hexadecimal *)
Section versions.
Context `{EL : EthLibLaws, EN : !EthLibLenient, GL : GobLaws}.

Definition decimal (c : byte) : Prop := 48 <= Z_of_byte c <= 57.
Lemma hexval_decimal c : decimal c -> exists d, hexval c = Some d.
Proof.
  intros [H1 H2]. unfold hexval. replace (48 <=? Z_of_byte c) with true by lia.
  replace (Z_of_byte c <=? 57) with true by lia. cbn. eauto.
Qed.
(** the last character of an odd number of digits is dropped *)
Lemma unhex_odd p c1 c2 : Forall decimal p -> Nat.even (length p) = true ->
  (unhex_bytes (p ++ [c1])).1 = (unhex_bytes (p ++ [c2])).1.
Proof.
  intros Hp. remember (length p) as n eqn:Hn. revert p Hp Hn.
  induction n as [n IH] using lt_wf_ind. intros [|a [|b p]] Hp -> He; try done.
  apply Forall_cons in Hp as [Ha Hp]. apply Forall_cons in Hp as [Hb Hp].
  destruct (hexval_decimal a Ha) as [x Hx]. destruct (hexval_decimal b Hb) as [y Hy].
  cbn [app unhex_bytes]. rewrite Hx, Hy.
  specialize (IH (length p) ltac:(cbn; lia) p Hp eq_refl He).
  destruct (unhex_bytes (p ++ [c1])), (unhex_bytes (p ++ [c2])). cbn in *. by f_equal.
Qed.
Lemma unhex_length l : (2 * length (unhex_bytes l).1 <= length l)%nat.
Proof.
  remember (length l) as n eqn:Hn. revert l Hn. induction n as [n IH] using lt_wf_ind.
  intros [|a [|b l]] ->; cbn; try lia. destruct (hexval a), (hexval b); cbn; try lia.
  specialize (IH (length l) ltac:(cbn; lia) l eq_refl). destruct (unhex_bytes l). cbn in *. lia.
Qed.
Lemma HasPrefix_decimal a b p c x : decimal b -> x = "0x"%string \/ x = "0X"%string ->
  HasPrefix (string_of_bytes (a :: b :: p ++ [c])) x = false.
Proof.
  intros [H1 H2] Hx. assert (b <> "x"%char /\ b <> "X"%char) as [N1 N2]
    by (split; intros ->; vm_compute in H2; by apply H2).
  destruct Hx as [-> | ->]; unfold HasPrefix, string_of_bytes;
    cbn [String.string_of_list_ascii String.prefix]; (destruct (ascii_dec _ a); [|done]);
    (destruct (ascii_dec _ b); [by subst|done]).
Qed.
(** two texts of digits, of the same odd length, that differ in the last digit only *)
Lemma HexStrToBytes32_odd p c1 c2 : Forall decimal p -> Nat.even (length p) = true -> (length p <= 64)%nat ->
  p <> [] ->
  HexStrToBytes32 (string_of_bytes (p ++ [c1])) = HexStrToBytes32 (string_of_bytes (p ++ [c2])).
Proof.
  intros Hp He Hl Hne. unfold HexStrToBytes32. destruct p as [|a [|b p]]; [done|done|].
  pose proof (proj1 (Forall_cons _ _ _) (proj2 (proj1 (Forall_cons _ _ _) Hp))) as [Hb Hp'].
  assert (forall c, Trim0xPrefix (string_of_bytes ((a :: b :: p) ++ [c])) = string_of_bytes ((a :: b :: p) ++ [c])) as Ht.
  { intros c. unfold Trim0xPrefix. cbn [app].
    rewrite (TrimPrefix_no _ "0x") by (apply HasPrefix_decimal; auto).
    apply TrimPrefix_no, HasPrefix_decimal; auto. }
  rewrite !Ht, !Hex2BytesFixed_lenient; unfold hex_decode; rewrite ?bytes_of_string_of_bytes.
  - by rewrite (unhex_odd (a :: b :: p) c1 c2) by done.
  - pose proof (unhex_length ((a :: b :: p) ++ [c2])) as H. rewrite length_app in H. cbn in *. lia.
  - pose proof (unhex_length ((a :: b :: p) ++ [c1])) as H. rewrite length_app in H. cbn in *. lia.
Qed.

(** Requests on Aptos can be lost: when the version of the transaction has an odd number of
    digits, the ten versions that differ in the last digit give the same request hash; once one of
    these requests is stored, the others are taken for it: they are accepted without an error and
    leave no trace, although the tokens are burnt. *)
Theorem aptos_versions_collide st p c1 c2 ev1 ev2 row :
  Forall decimal p -> Nat.even (length p) = true -> (length p <= 64)%nat -> p <> [] ->
  ar_RequestTxHash ev1 = string_of_bytes (p ++ [c1]) ->
  ar_RequestTxHash ev2 = string_of_bytes (p ++ [c2]) ->
  db_fault (statedb st) = no_faults ->
  redeem_at (statedb st) (rr_RequestTxHash (agreement_requested ev1)) = Some row ->
  rr_RequestTxHash (agreement_requested ev2) = rr_RequestTxHash (agreement_requested ev1) /\
  handleRedeemRequestEvent (agreement_requested ev2) st = (Ok tt, st).
Proof.
  intros Hp He Hl Hne H1 H2 Hf Hrow. unfold agreement_requested in *. cbn [rr_RequestTxHash] in *.
  assert (HexStrToBytes32 (ar_RequestTxHash ev2) = HexStrToBytes32 (ar_RequestTxHash ev1)) as Heq
    by (rewrite H1, H2; by apply HexStrToBytes32_odd).
  split; [done|]. apply (handleRedeemRequestEvent_found _ _ (row_status row)); cbn [rr_RequestTxHash]; rewrite Heq.
  - by apply has_redeem_no_faults.
  - by rewrite Hrow.
Qed.
End versions.

(** ** A prepared event does not find its request *)
Section unmatched.
Context `{EL : EthLibLaws, GL : GobLaws}.

(** the request the handler makes up from the prepared event *)
Definition made_up (ev : RedeemPreparedEvent) : RedeemRequestedEvent := {|
  rr_RequestTxHash := rp_RequestTxHash ev; rr_Requester := rp_Requester ev;
  rr_Receiver := rp_Receiver ev; rr_Amount := rp_Amount ev; rr_IsValidReceiver := true |}.

(** On Aptos a preparation never reaches its request: the manager passes the request's hash to
    the contract, the contract repeats it in its event, and the worker exchanges it with the
    version of the preparation; the state then leaves the request as it was, waiting to be prepared,
    and stores a second redeem, prepared, under the version. *)
Theorem aptos_prepared_unmatched st h row m :
  redeemTable (redeem_table (statedb st)) = true -> db_fault (statedb st) = no_faults ->
  length h = 32%nat -> h <> zeros 32 -> redeem_at (statedb st) h = Some row ->
  prepare_ok m -> 0 < mv_Amount m < 2 ^ 63 -> mv_RequestTxhash m = Bytes32ToHexStr h ->
  let ev := prepared_of m in
  prepared_event_ok ev -> rp_Requester ev <> zeros 20 ->
  rp_RequestTxHash ev <> zeros 32 -> redeem_at (statedb st) (rp_RequestTxHash ev) = None ->
  hex_encode h ∉ omap row_prepareTxHash (redeem_table (statedb st)) ->
  exists st' row',
    handlePreparedEvent ev st = (Ok tt, st') /\
    redeem_at (statedb st') h = Some row /\
    redeem_at (statedb st') (HexStrToBytes32 (int_Text 10 (mv_version m))) = Some row' /\
    row_status row' = RedeemStatusPrepared /\ row_prepareTxHash row' = Some (hex_encode h) /\
    row_amount row' = mv_Amount m /\ row_receiver row' = mv_Receiver m.
Proof.
  intros Hinv Hf Hl Hz Hrow Hm Ha Hecho ev Hok Hrq Hnz Hnew Hfresh.
  assert (rp_PrepareTxHash ev = h) as Hprep.
  { unfold ev, prepared_of. cbn. rewrite Hecho. unfold Bytes32ToHexStr. rewrite Bytes2Hex_spec.
    by apply HexStrToBytes32_hex. }
  assert (length (rp_RequestTxHash ev) = 32%nat) as Hlen by apply copy_array_length.
  exists (st_with st (prepared_row (made_up ev) ev (mv_Amount m))), (prepared_row (made_up ev) ev (mv_Amount m)).
  assert (handlePreparedEvent ev st = (Ok tt, st_with st (prepared_row (made_up ev) ev (mv_Amount m)))) as Hrun.
  { apply prepare_first; try done; [|by rewrite Hprep].
    unfold matching_events. split_and!; try done; try lia. by rewrite Hprep. }
  rewrite Hrun. cbn [st_with set_statedb statedb]. rewrite !redeem_at_app, Hrow.
  change (HexStrToBytes32 (int_Text 10 (mv_version m))) with (rp_RequestTxHash ev).
  rewrite Hnew, decide_True by done. by rewrite <-Hprep.
Qed.
End unmatched.

(** ** A concrete node *)
Definition sample_mint_event : move_mint := {|
  mm_version := 1234; mm_btc_tx_id := "ab"; mm_receiver := "0x7"; mm_amount := 90 |}.
Definition sample_request_event : move_request := {|
  mr_version := 1235; mr_sender := "0x9"; mr_amount := 70; mr_receiver := "bc1q" |}.
Definition sample_request_hash : bytes := HexStrToBytes32 "1235".
Definition sample_prepare_event : move_prepare := {|
  mv_version := 1300; mv_RequestTxhash := Bytes32ToHexStr sample_request_hash; mv_Requester := "0x9";
  mv_Receiver := "bc1q"; mv_Amount := 70; mv_OutpointTxIds := ["aa"%string]; mv_OutpointIdxs := [1] |}.
Definition toy_handle : json := JObj
  [("counter"%string, JStr "1"); ("guid"%string, JObj [("id"%string, JObj [("addr"%string, JStr "0x1")])])].
#[local] Instance toy_aptos : AptosNode unit := {|
  ParseStringRelaxed s := Ok (bytes_of_string s); AddressString := string_of_bytes;
  bcs_Address a := Ok a; bcs_SerializeU64 n := Ok (big_Bytes n); json_MarshalIndent _ := EmptyString;
  json_Unmarshal url := Ok (
    if Contains url "mint_events" then [mint_json sample_mint_event]
    else if Contains url "redeem_request_events" then [request_json sample_request_event]
    else [prepare_json sample_prepare_event]);
  GetProcessorStatus _ := mret 1300;
  AccountResource _ _ := mret [("data"%string, JObj [("mint_events"%string, toy_handle);
    ("redeem_request_events"%string, toy_handle); ("redeem_prepare_events"%string, toy_handle)])];
  aptos_NewClient _ := Ok tt; AccountResources _ := mret []; HttpGet url := mret (200, url);
  BuildTransaction _ _ := mret []; SignedTransaction b := Ok b; SubmitTransaction _ := mret "0x5"%string;
  WaitForTransaction _ := mret {| ti_Version := 1300; ti_Success := true; ti_VmStatus := EmptyString |};
  TransactionByHash _ := mret {| ti_Version := 1300; ti_Success := true; ti_VmStatus := EmptyString |} |}.
Definition toy_aptosman : Aptosman := {|
  acfg := {| URL := EmptyString; ModuleAddress := "0x1"; Network := NetworkDevnet |};
  account := []; moduleAddress := bytes_of_string "0x1" |}.
Lemma aptos_sync_events_witness : GetTimeOrderedEvents toy_aptosman 1 1300 tt =
  (Ok {| ev_minted := [minted_of sample_mint_event]; ev_requested := [requested_of sample_request_event];
         ev_prepared := [prepared_of sample_prepare_event] |}, tt).
Proof.
  apply (aptos_sync_events toy_aptosman [sample_mint_event] [sample_request_event] [sample_prepare_event]).
  - vm_compute. reflexivity.
  - vm_compute. reflexivity.
  - vm_compute. reflexivity.
  - by repeat constructor.
  - by repeat constructor.
  - repeat constructor; done.
Defined.
Lemma bcs_roundtrip_witness :
  bcs_string_vector (serializeStringVector ["ab"; "cd"] ++ []) = Some (["ab"%string; "cd"%string], []).
Proof.
  refine (proj2 (proj2 (bcs_roundtrip "" ["ab"%string; "cd"%string] [])) _ _); [|done]. by repeat constructor.
Defined.

Definition requested_state (version : string) : State :=
  run (handleRedeemRequestEvent (agreement_requested {| ar_RequestTxHash := version; ar_Requester := "0x9";
    ar_Receiver := "bc1q"; ar_Amount := 70; ar_IsValidReceiver := false |})) sample_state.
Definition sample_row (version : string) : redeem_row :=
  requested_row {| RequestTxHash := HexStrToBytes32 version; PrepareTxHash := zeros 32; r_BtcTxId := zeros 32;
    Requester := bytes_of_string "0x9"; Receiver := "bc1q"; Amount := Some 70; Outpoints := None;
    Status := RedeemStatusRequested |} 70.
Definition sample_aptos_request (version : string) : aRedeemRequestedEvent := {|
  ar_RequestTxHash := version; ar_Requester := "0x9"; ar_Receiver := "bc1q"; ar_Amount := 70;
  ar_IsValidReceiver := false |}.
Lemma aptos_versions_collide_witness :
  rr_RequestTxHash (agreement_requested (sample_aptos_request "12347")) =
    rr_RequestTxHash (agreement_requested (sample_aptos_request "12345")) /\
  handleRedeemRequestEvent (agreement_requested (sample_aptos_request "12347")) (requested_state "12345") =
    (Ok tt, requested_state "12345").
Proof.
  apply (aptos_versions_collide (requested_state "12345") (bytes_of_string "1234") "5"%char "7"%char
    (sample_aptos_request "12345") (sample_aptos_request "12347") (sample_row "12345"));
    [|reflexivity|cbn; lia|done|reflexivity|reflexivity|vm_compute; reflexivity|vm_compute; reflexivity].
  by repeat constructor; vm_compute.
Defined.
Lemma aptos_prepared_unmatched_witness :
  exists st' row',
    handlePreparedEvent (prepared_of sample_prepare_event) (requested_state "1235") = (Ok tt, st') /\
    redeem_at (statedb st') sample_request_hash = Some (sample_row "1235") /\
    redeem_at (statedb st') (HexStrToBytes32 "1300") = Some row' /\
    row_status row' = RedeemStatusPrepared /\
    row_prepareTxHash row' = Some (hex_encode sample_request_hash) /\
    row_amount row' = 70 /\ row_receiver row' = "bc1q"%string.
Proof.
  apply (aptos_prepared_unmatched (requested_state "1235") sample_request_hash (sample_row "1235") sample_prepare_event).
  - vm_compute. reflexivity.
  - vm_compute. reflexivity.
  - vm_compute. reflexivity.
  - intros H. vm_compute in H. discriminate.
  - vm_compute. reflexivity.
  - split; [done|]. by repeat constructor.
  - done.
  - reflexivity.
  - unfold prepared_event_ok. split_and!; [intros H; vm_compute in H; discriminate|done|done|].
    constructor; [intros H; vm_compute in H; discriminate|constructor].
  - intros H. vm_compute in H. discriminate.
  - intros H. vm_compute in H. discriminate.
  - vm_compute. reflexivity.
  - vm_compute. apply not_elem_of_nil.
Defined.
