(* ===== verification/AptosUtils.v ===== *)
(** * AptosUtils: the contract calls of the Aptos tools (aptosman/aptos_utils.go and its older copy,
    cmd/aptos_user_cmd/twbtc_operations.go).

    The functions take a client, an account and a module address where the methods of [Aptosman]
    have them in their receiver. The copy differs in what it does with a failure: it panics where
    aptos_utils.go returns an error, and it does not wait for a mint or a preparation. The arguments of
    the entry functions are the same and are shared here. *)
From S2P Require Export Aptosman.

Class AptosRest := {
  (** the user transaction in the answer of [TransactionByHash] *)
  UserTransaction : TxInfo -> outcome TxInfo;
  (** [http.NewRequest] parses the URL *)
  http_NewRequest : string -> outcome unit }.

(** ** [encoding/json] into a struct *)
(** Keys match field names without regard to (ASCII) case. *)
Definition lower (c : byte) : byte :=
  let n := Z_of_byte c in if (65 <=? n) && (n <=? 90) then byte_of_Z (n + 32) else c.
Definition key_is (k name : string) : bool :=
  bool_decide (lower <$> bytes_of_string k = lower <$> bytes_of_string name).
(** [json.Marshal] writes the keys of a map in increasing order *)
Fixpoint insert_key (kv : string * json) (m : obj) : obj :=
  match m with
  | [] => [kv]
  | kv' :: m => if String.leb kv.1 kv'.1 then kv :: kv' :: m else kv' :: insert_key kv m
  end.
Definition marshal_order (m : obj) : obj := foldr insert_key [] m.
(** A null leaves a string as it is and empties a slice; any other type is an error. *)
Definition json_type_error : error := "json: cannot unmarshal".
Definition decode_string (v : json) (old : string) : outcome string :=
  match v with JStr s => Ok s | JNull => Ok old | _ => Err json_type_error end.
Definition decode_strings (v : json) (old : list string) : outcome (list string) :=
  match v with
  | JArr l => mapE (fun v => decode_string v "") l
  | JNull => Ok []
  | _ => Err json_type_error
  end.
(** the object fields of a nested struct, in the order they are decoded *)
Definition decode_struct (v : json) (old : obj) : outcome obj :=
  match v with JObj m => Ok (old ++ marshal_order m) | JNull => Ok old | _ => Err json_type_error end.
(** the field called [name] of a struct: every matching key is decoded in turn *)
Definition unmarshal_field {A} (decode : json -> A -> outcome A) (zero : A) (m : obj) (name : string) : outcome A :=
  foldl (fun acc kv => old ← acc; if key_is kv.1 name then decode kv.2 old else Ok old) (Ok zero) m.
Definition field_string : obj -> string -> outcome string := unmarshal_field decode_string "".
Definition field_strings : obj -> string -> outcome (list string) := unmarshal_field decode_strings [].
Definition field_struct : obj -> string -> outcome obj := unmarshal_field decode_struct [].

Section utils.
Context {N : Type} `{AN : AptosNode N} `{AR : AptosRest}.

(** ** Arguments *)
Definition parse_module (pre moduleAddress : string) : M N bytes :=
  lift (wrap_err pre (ParseStringRelaxed moduleAddress)).
Definition token_entry (address : bytes) (f : string) (args : list bytes) : EntryFunction :=
  {| ef_Address := address; ef_Name := "btc_tokenv3"; ef_Function := f; ef_Args := args |}.
Definition bridge_entry (address : bytes) (f : string) (args : list bytes) : EntryFunction :=
  {| ef_Address := address; ef_Name := "btc_bridgev3"; ef_Function := f; ef_Args := args |}.
Definition init_args (feeAccount : bytes) (fee : Z) : outcome (list bytes) :=
  feeAccountBytes ← wrap_err "序列化费用账户地址失败: " (bcs_Address feeAccount);
  feeBytes ← wrap_err "序列化费用失败: " (bcs_SerializeU64 fee);
  Ok [feeAccountBytes; feeBytes].
(** the identifier with its length, and all the arguments *)
Definition mint_args (btc_tx_id : string) (receiverAddress : bytes) (amount : Z) : outcome (list bytes) :=
  let btc_tx_id_bytes := string_to_bytes btc_tx_id in
  receiverAddressBytes ← wrap_err "序列化接收方地址失败: " (bcs_Address receiverAddress);
  amountBytes ← wrap_err "序列化金额失败: " (bcs_SerializeU64 amount);
  Ok [btc_tx_id_bytes; receiverAddressBytes; amountBytes].
Definition string_txids (outpointTxIds : list bytes) : list string := hex_encode <$> outpointTxIds.
Definition prepare_args (redeem_request_tx_hash requester receiverAddress : string) (amount : Z)
    (outpointTxIds : list bytes) (outpointIdxs : list Z) : outcome (list bytes) :=
  let txHashBytes := serializeString redeem_request_tx_hash in
  requesterAddr ← wrap_err "解析requester地址失败: " (ParseStringRelaxed requester);
  requesterBytes ← wrap_err "序列化requester地址失败: " (bcs_Address requesterAddr);
  let receiverBytes := serializeString receiverAddress in
  amountBytes ← wrap_err "序列化金额失败: " (bcs_SerializeU64 amount);
  Ok [txHashBytes; requesterBytes; receiverBytes; amountBytes;
      serializeStringVector (string_txids outpointTxIds); serializeU64Vector outpointIdxs].
Definition request_args (receiverAddress : string) (amount : Z) : outcome (list bytes) :=
  amountBytes ← wrap_err "序列化金额失败: " (bcs_SerializeU64 amount);
  Ok [amountBytes; string_to_bytes receiverAddress].

(** ** aptosman/aptos_utils.go *)
(** [None] is a nil balance, for a value that is not a number *)
Definition CheckTWBTCBalance (address : bytes) (moduleAddress : string) : M N (option Z) :=
  resources ← with_text "获取账户资源失败: " (AccountResources address);
  moduleAddr ← parse_module "解析模块地址失败: " moduleAddress;
  let resourceType := ("0x1::coin::CoinStore<" +:+ AddressString moduleAddr +:+ "::btc_tokenv3::BTC>")%string in
  mret (match List.find (fun r => String.eqb r.1 resourceType) resources with
        | Some r =>
            match as_obj (get_key r.2 "coin") with
            | Some coinMap => match as_string (get_key coinMap "value") with
                              | Some valueStr => big_SetString valueStr 10 | None => Some 0 end
            | None => Some 0
            end
        | None => Some 0
        end).
(** the last part of the calls: whether the transaction succeeded *)
Definition verify_tx (txnHash : string) : M N string :=
  txnInfo ← with_text "获取交易信息失败: " (TransactionByHash txnHash);
  userTxn ← lift (wrap_err "解析用户交易信息失败: " (UserTransaction txnInfo));
  if ti_Success userTxn then mret txnHash else throw ("交易执行失败: " +:+ ti_VmStatus userTxn)%string.
Definition initTWBTC (account : bytes) (moduleAddress : string) : M N string :=
  address ← parse_module "解析地址失败: " moduleAddress;
  txnHash ← send_entry account (token_entry address "initialize_module" []);
  verify_tx txnHash.
Definition initBridge (account : bytes) (moduleAddress : string) (feeAccount : bytes) (fee : Z) : M N string :=
  address ← parse_module "解析地址失败: " moduleAddress;
  args ← lift (init_args feeAccount fee);
  txnHash ← send_entry account (bridge_entry address "initialize" args);
  verify_tx txnHash.
Definition mintTWBTC (account : bytes) (moduleAddress : string) (receiverAddress : bytes) (amount : Z)
    (btc_tx_id : string) : M N MintParams :=
  address ← parse_module "解析地址失败: " moduleAddress;
  args ← lift (mint_args btc_tx_id receiverAddress amount);
  txnHash ← send_entry account (bridge_entry address "mint" args);
  verify_tx txnHash ;;
  mret {| mn_BtcTxId := string_to_bytes btc_tx_id; mn_Amount := amount;
          mn_Receiver := AddressString receiverAddress |}.
Definition prepare_result (redeem_request_tx_hash requester receiverAddress : string) (amount : Z)
    (outpointTxIds : list bytes) (outpointIdxs : list Z) : PrepareParams := {|
  pr_RequestTxHash := redeem_request_tx_hash; pr_Requester := requester; pr_Receiver := receiverAddress;
  pr_Amount := amount; pr_OutpointTxIds := string_txids outpointTxIds; pr_OutpointIdxs := outpointIdxs |}.
Definition redeemPrepare (account : bytes) (moduleAddress redeem_request_tx_hash requester receiverAddress : string)
    (amount : Z) (outpointTxIds : list bytes) (outpointIdxs : list Z) : M N PrepareParams :=
  address ← parse_module "解析模块地址失败: " moduleAddress;
  args ← lift (prepare_args redeem_request_tx_hash requester receiverAddress amount outpointTxIds outpointIdxs);
  txnHash ← send_entry account (bridge_entry address "redeem_prepare" args);
  verify_tx txnHash ;;
  mret (prepare_result redeem_request_tx_hash requester receiverAddress amount outpointTxIds outpointIdxs).
(** submitted, not awaited *)
Definition redeemRequest (account : bytes) (moduleAddress receiverAddress : string) (amount : Z) : M N RequestParams :=
  address ← parse_module "解析地址失败: " moduleAddress;
  args ← lift (request_args receiverAddress amount);
  submit_entry account (bridge_entry address "redeem_request" args) ;;
  mret {| rq_Amount := amount; rq_Receiver := receiverAddress |}.
Definition GetBridgeConfig (moduleAddress : string) : M N obj :=
  address ← parse_module "解析模块地址失败: " moduleAddress;
  with_text "获取桥配置失败: " (AccountResource address (AddressString address +:+ "::btc_bridgev3::BridgeConfig")%string).
(** the type assertion on [resource["data"]] has no [ok] *)
Definition GetBridgeEvents (moduleAddress eventType : string) : M N obj :=
  address ← parse_module "解析模块地址失败: " moduleAddress;
  resource ← with_text "获取桥事件资源失败: " (AccountResource address (BridgeEventsType address));
  match as_obj (get_key resource "data") with
  | None => panic "interface conversion"
  | Some data =>
      eventsData ← need (get_key data eventType) ("资源中未找到" +:+ eventType +:+ "字段")%string;
      need (as_obj (Some eventsData)) "资源数据格式不正确"
  end.
(** the query, its parameters in the order of their names *)
Definition query_of (limit start : Z) : string :=
  match ((if 0 <? limit then [("limit=" +:+ int_Text 10 limit)%string] else []) ++
         (if 0 <? start then [("start=" +:+ int_Text 10 start)%string] else []))%list with
  | [] => ""
  | [a] => ("?" +:+ a)%string
  | a :: b :: _ => ("?" +:+ a +:+ "&" +:+ b)%string
  end.
Definition api_GetEvents (moduleAddress events_field : string) (limit start : Z) (aptos_url : string) : M N (list obj) :=
  address ← parse_module "Parse module address failed: " moduleAddress;
  accountAddress ← events_account address events_field;
  match accountAddress with
  | None => mret []
  | Some accountAddress =>
      let fullURL := (aptos_url +:+ "/v1/accounts/" +:+ AddressString accountAddress +:+ "/events/" +:+
                      BridgeEventsType address +:+ "/" +:+ events_field)%string in
      lift (wrap_err "创建HTTP请求失败: " (http_NewRequest fullURL)) ;;
      fetch_events (fullURL +:+ query_of limit start)%string
  end.

(** *** Events as structs *)
Record prepared_response := {
  pv_version : string; pv_amount : string; pv_eth_tx_hash : string; pv_outpoint_idxs : list string;
  pv_outpoint_tx_ids : list string; pv_receiver : string; pv_requester : string }.
Record requested_response := {
  qv_version : string; qv_sender : string; qv_amount : string; qv_receiver : string }.
(** the fields both structs have around their [data] *)
Definition response_header (event : obj) : outcome string :=
  version ← field_string event "version";
  guid ← field_struct event "guid";
  field_string guid "creation_number" ;;
  field_string guid "account_address" ;;
  field_string event "sequence_number" ;;
  field_string event "type" ;;
  Ok version.
Definition decode_prepared (event : obj) : outcome prepared_response :=
  version ← response_header event;
  data ← field_struct event "data";
  amount ← field_string data "amount";
  hash ← field_string data "eth_tx_hash";
  idxs ← field_strings data "outpoint_idxs";
  ids ← field_strings data "outpoint_tx_ids";
  receiver ← field_string data "receiver";
  requester ← field_string data "requester";
  Ok {| pv_version := version; pv_amount := amount; pv_eth_tx_hash := hash; pv_outpoint_idxs := idxs;
        pv_outpoint_tx_ids := ids; pv_receiver := receiver; pv_requester := requester |}.
Definition decode_requested (event : obj) : outcome requested_response :=
  version ← response_header event;
  data ← field_struct event "data";
  sender ← field_string data "sender";
  amount ← field_string data "amount";
  receiver ← field_string data "receiver";
  Ok {| qv_version := version; qv_sender := sender; qv_amount := amount; qv_receiver := receiver |}.
Definition parse_amount (s : string) : outcome Z := wrap_err "parse amount failed: " (ParseUint s 64).
Definition parse_idxs (l : list string) : outcome (list Z) :=
  mapE (fun idxStr => wrap_err "parse outpoint_idxs failed: " (ParseUint idxStr 16)) l.
Definition api_prepared_event (event : obj) : outcome aRedeemPreparedEvent :=
  eventResponse ← wrap_err "parse event data failed: " (decode_prepared event);
  amount ← parse_amount (pv_amount eventResponse);
  outpointIdxs ← parse_idxs (pv_outpoint_idxs eventResponse);
  Ok {| ap_RequestTxHash := pv_version eventResponse; ap_PrepareTxHash := pv_eth_tx_hash eventResponse;
        ap_Requester := pv_requester eventResponse; ap_Receiver := pv_receiver eventResponse;
        ap_Amount := amount; ap_OutpointTxIds := pv_outpoint_tx_ids eventResponse;
        ap_OutpointIdxs := outpointIdxs |}.
Definition api_requested_event (event : obj) : outcome aRedeemRequestedEvent :=
  eventResponse ← wrap_err "parse event data failed: " (decode_requested event);
  amount ← parse_amount (qv_amount eventResponse);
  Ok {| ar_RequestTxHash := qv_version eventResponse; ar_Requester := qv_sender eventResponse;
        ar_Receiver := qv_receiver eventResponse; ar_Amount := amount; ar_IsValidReceiver := false |}.
Definition GetRedeemPreparedEvents (aptman : Aptosman) (moduleAddress : string) (limit start : Z)
    : M N (list aRedeemPreparedEvent) :=
  events ← api_GetEvents moduleAddress "redeem_prepare_events" limit start (URL (acfg aptman));
  lift (mapE api_prepared_event events).
Definition GetRedeemRequestedEvents (aptman : Aptosman) (moduleAddress : string) (limit start : Z)
    : M N (list aRedeemRequestedEvent) :=
  events ← api_GetEvents moduleAddress "redeem_request_events" limit start (URL (acfg aptman));
  lift (mapE api_requested_event events).

(** *** aptosman.go: the account of the client, and its own registration *)
Definition aGetPublicKey (aptman : Aptosman) : string := AddressString (account aptman).
Definition RegisterTWBTC (aptman : Aptosman) (acct : bytes) : M N string :=
  submitResult ← send_entry acct (token_entry (moduleAddress aptman) "register" []);
  verify_tx submitResult.

(** ** cmd/aptos_user_cmd/types.go, twbtc_operations.go *)
Record tMintParams := { tm_params : MintParams; tm_Signature : bytes }.
Record tPrepareParams := { tp_params : PrepareParams; tp_Signature : bytes }.
Record tRedeemRequestEvent := {
  tr_TxVersion : string; tr_Sender : string; tr_Receiver : string; tr_Amount : Z }.
Record tRedeemPreparedEvent := {
  tv_TxVersion : string; tv_EthTxHash : string; tv_Requester : string; tv_Receiver : string;
  tv_Amount : Z; tv_OutpointTxIds : list string; tv_OutpointIdxs : list Z }.
Definition tool_submit (from : bytes) (payload : EntryFunction) : M N string :=
  rawTxn ← or_panic "Failed to build transaction:" (BuildTransaction from payload);
  signedTxn ← or_panic "Failed to sign transaction:" (lift (SignedTransaction rawTxn));
  or_panic "Failed to submit transaction:" (SubmitTransaction signedTxn).
Definition tool_send (from : bytes) (payload : EntryFunction) : M N string :=
  txnHash ← tool_submit from payload;
  or_panic "Failed to wait for transaction:" (WaitForTransaction txnHash) ;;
  mret txnHash.
Definition tool_initTWBTC (account : bytes) (moduleAddress : string) : M N string :=
  address ← parse_module "解析地址失败: " moduleAddress;
  txnHash ← tool_send account (token_entry address "initialize_module" []);
  verify_tx txnHash.
Definition tool_initBridge (account : bytes) (moduleAddress : string) (feeAccount : bytes) (fee : Z) : M N string :=
  address ← parse_module "解析地址失败: " moduleAddress;
  args ← lift (init_args feeAccount fee);
  txnHash ← tool_send account (bridge_entry address "initialize" args);
  verify_tx txnHash.
Definition registerTWBTC (account : bytes) (moduleAddress : string) (receiverAddress : bytes) : M N string :=
  address ← parse_module "解析地址失败: " moduleAddress;
  receiverAddressBytes ← lift (wrap_err "序列化接收方地址失败: " (bcs_Address receiverAddress));
  txnHash ← tool_send account (token_entry address "registerv2" [receiverAddressBytes]);
  verify_tx txnHash.
(** neither a mint nor a preparation is awaited; the hash is kept as the signature *)
Definition tool_mintTWBTC (account : bytes) (moduleAddress : string) (receiverAddress : bytes) (amount : Z)
    (btc_tx_id : string) : M N tMintParams :=
  address ← parse_module "解析地址失败: " moduleAddress;
  args ← lift (mint_args btc_tx_id receiverAddress amount);
  txnHash ← tool_submit account (bridge_entry address "mint" args);
  mret {| tm_params := {| mn_BtcTxId := string_to_bytes btc_tx_id; mn_Amount := amount;
                          mn_Receiver := AddressString receiverAddress |};
          tm_Signature := string_to_bytes txnHash |}.
Definition tool_redeemPrepare (account : bytes) (moduleAddress redeem_request_tx_hash requester receiverAddress : string)
    (amount : Z) (outpointTxIds : list bytes) (outpointIdxs : list Z) : M N tPrepareParams :=
  address ← parse_module "解析模块地址失败: " moduleAddress;
  args ← lift (prepare_args redeem_request_tx_hash requester receiverAddress amount outpointTxIds outpointIdxs);
  txnHash ← submit_entry account (bridge_entry address "redeem_prepare" args);
  mret {| tp_params := prepare_result redeem_request_tx_hash requester receiverAddress amount outpointTxIds outpointIdxs;
          tp_Signature := string_to_bytes txnHash |}.
Definition tool_redeemRequest (account : bytes) (moduleAddress receiverAddress : string) (amount : Z) : M N RequestParams :=
  address ← parse_module "解析地址失败: " moduleAddress;
  args ← lift (request_args receiverAddress amount);
  tool_submit account (bridge_entry address "redeem_request" args) ;;
  mret {| rq_Amount := amount; rq_Receiver := receiverAddress |}.
(** the balance, the configuration and the events are read as in aptos_utils.go, the events always
    from the development network *)
Definition DEVNET_URL : string := "https://fullnode.devnet.aptoslabs.com".
Definition tool_CheckTWBTCBalance : bytes -> string -> M N (option Z) := CheckTWBTCBalance.
Definition tool_GetBridgeConfig : string -> M N obj := GetBridgeConfig.
Definition tool_GetBridgeEvents : string -> string -> M N obj := GetBridgeEvents.
Definition tool_GetEvents (moduleAddress events_field : string) (limit start : Z) : M N (list obj) :=
  api_GetEvents moduleAddress events_field limit start DEVNET_URL.
Definition tool_prepared_event (event : obj) : outcome tRedeemPreparedEvent :=
  e ← api_prepared_event event;
  Ok {| tv_TxVersion := ap_RequestTxHash e; tv_EthTxHash := ap_PrepareTxHash e;
        tv_Requester := ap_Requester e; tv_Receiver := ap_Receiver e; tv_Amount := ap_Amount e;
        tv_OutpointTxIds := ap_OutpointTxIds e; tv_OutpointIdxs := ap_OutpointIdxs e |}.
Definition tool_request_event (event : obj) : outcome tRedeemRequestEvent :=
  e ← api_requested_event event;
  Ok {| tr_TxVersion := ar_RequestTxHash e; tr_Sender := ar_Requester e;
        tr_Receiver := ar_Receiver e; tr_Amount := ar_Amount e |}.
Definition tool_GetRedeemPreparedEvents (moduleAddress : string) (limit start : Z) : M N (list tRedeemPreparedEvent) :=
  events ← tool_GetEvents moduleAddress "redeem_prepare_events" limit start;
  lift (mapE tool_prepared_event events).
Definition GetRedeemRequestEvents (moduleAddress : string) (limit start : Z) : M N (list tRedeemRequestEvent) :=
  events ← tool_GetEvents moduleAddress "redeem_request_events" limit start;
  lift (mapE tool_request_event events).
(** whether a text is in a list of a resource of the contract *)
Definition tool_listed (ty field pre moduleAddress x : string) : M N bool :=
  address ← parse_module "解析模块地址失败: " moduleAddress;
  resource ← with_text pre (AccountResource address (AddressString address +:+ ty)%string);
  match as_obj (get_key resource "data") with
  | Some data =>
      match as_array (get_key data field) with
      | Some l => lift (contains_text l x)
      | None => mret false
      end
  | None => mret false
  end.
Definition tool_IsPrepared (moduleAddress txHash : string) : M N bool :=
  tool_listed "::btc_bridgev3::PreparedRedeems" "prepared" "获取PreparedRedeems资源失败: " moduleAddress txHash.
Definition tool_IsMinted (moduleAddress btcTxId : string) : M N bool :=
  tool_listed "::btc_bridgev3::UsedBtcTxIds" "used" "获取UsedBtcTxIds资源失败: " moduleAddress btcTxId.
Definition tool_IsUsed (moduleAddress btcTxId : string) : M N bool := tool_IsMinted moduleAddress btcTxId.
End utils.

(** ** What is read back of the contract's events *)
(** keys match without regard to case, so [Amount], [Requester] and [Receiver] are found; the names of
    the request hash and of the outpoints have no match *)
Lemma decode_requested_json m : decode_requested (request_json m) = Ok {|
  qv_version := int_Text 10 (mr_version m); qv_sender := mr_sender m;
  qv_amount := int_Text 10 (mr_amount m); qv_receiver := mr_receiver m |}.
Proof. destruct m. vm_compute. reflexivity. Qed.
Lemma decode_prepared_json m : decode_prepared (prepare_json m) = Ok {|
  pv_version := int_Text 10 (mv_version m); pv_amount := int_Text 10 (mv_Amount m); pv_eth_tx_hash := "";
  pv_outpoint_idxs := []; pv_outpoint_tx_ids := []; pv_receiver := mv_Receiver m;
  pv_requester := mv_Requester m |}.
Proof. destruct m. vm_compute. reflexivity. Qed.
Lemma parse_amount_Text n : 0 <= n < 2 ^ 64 -> parse_amount (int_Text 10 n) = Ok n.
Proof. intros Hn. unfold parse_amount. by rewrite ParseUint_Text. Qed.

Section read_back.
Context {N : Type} `{AN : AptosNode N} `{AR : AptosRest}.
(** The second event reader of the Aptos client, run on what the contract emits: requests come
    back whole, in order; of every preparation the hash of the request and all outpoints are lost
    without an error, as the names of the fields do not match those of the contract. *)
Theorem api_events_read (aptman : Aptosman) moduleAddress limit start requests prepares s s1 s2 :
  Forall (fun m => 0 <= mr_amount m < 2 ^ 64) requests -> Forall (fun m => 0 <= mv_Amount m < 2 ^ 64) prepares ->
  api_GetEvents moduleAddress "redeem_request_events" limit start (URL (acfg aptman)) s = (Ok (request_json <$> requests), s1) ->
  api_GetEvents moduleAddress "redeem_prepare_events" limit start (URL (acfg aptman)) s1 = (Ok (prepare_json <$> prepares), s2) ->
  GetRedeemRequestedEvents aptman moduleAddress limit start s = (Ok ((fun m => {|
    ar_RequestTxHash := int_Text 10 (mr_version m); ar_Requester := mr_sender m;
    ar_Receiver := mr_receiver m; ar_Amount := mr_amount m; ar_IsValidReceiver := false |}) <$> requests), s1) /\
  GetRedeemPreparedEvents aptman moduleAddress limit start s1 = (Ok ((fun m => {|
    ap_RequestTxHash := int_Text 10 (mv_version m); ap_PrepareTxHash := ""; ap_Requester := mv_Requester m;
    ap_Receiver := mv_Receiver m; ap_Amount := mv_Amount m; ap_OutpointTxIds := [];
    ap_OutpointIdxs := [] |}) <$> prepares), s2).
Proof.
  intros Hr Hp E1 E2. unfold GetRedeemRequestedEvents, GetRedeemPreparedEvents.
  rewrite !bind_eq, E1, E2, !lift_eq. split; f_equal; apply mapE_Ok.
  - eapply Forall_impl; [exact Hr|]. intros m Hm. unfold api_requested_event.
    rewrite decode_requested_json. cbn [wrap_err mbind outcome_bind qv_amount]. by rewrite parse_amount_Text.
  - eapply Forall_impl; [exact Hp|]. intros m Hm. unfold api_prepared_event.
    rewrite decode_prepared_json. cbn [wrap_err mbind outcome_bind pv_amount]. by rewrite parse_amount_Text.
Qed.
End read_back.

(** ** The functions and the methods do the same to the chain *)
Section agree.
Context {N : Type} `{AN : AptosNode N} `{AR : AptosRest}.
Variables (aptman : Aptosman) (moduleText : string).
Hypothesis module_ok : ParseStringRelaxed moduleText = Ok (moduleAddress aptman).
Hypothesis module_again : ParseStringRelaxed (AddressString (moduleAddress aptman)) = Ok (moduleAddress aptman).
Hypothesis user_ok : forall t, UserTransaction t = Ok t.

(** the methods [RedeemRequest] and [RedeemPrepare] of the client up to the submission *)
Definition request_submitted (acct : bytes) (p : RequestParams) : M N string :=
  amountBytes ← lift (wrap_err "序列化金额失败: " (bcs_SerializeU64 (rq_Amount p)));
  submit_entry acct (entry aptman "redeem_request" [amountBytes; serializeString (rq_Receiver p)]).
Definition prepare_submitted (acct : bytes) (p : PrepareParams) : M N string :=
  requesterAddr ← lift (wrap_err "解析requester地址失败: " (ParseStringRelaxed (pr_Requester p)));
  requesterBytes ← lift (wrap_err "序列化requester地址失败: " (bcs_Address requesterAddr));
  amountBytes ← lift (wrap_err "序列化金额失败: " (bcs_SerializeU64 (pr_Amount p)));
  submit_entry acct (entry aptman "redeem_prepare"
    [serializeString (pr_RequestTxHash p); requesterBytes; serializeString (pr_Receiver p); amountBytes;
     serializeStringVector (pr_OutpointTxIds p); serializeU64Vector (pr_OutpointIdxs p)]).
(** [r'] is what is left of [r] when an error may have been turned into a panic: the same result
    and the same effects when there is no error, the same effects otherwise *)
Definition same_or_panics {A} (r r' : outcome A * N) : Prop :=
  r'.2 = r.2 /\
  match r.1 with Ok a => r'.1 = Ok a | Err _ => is_ok r'.1 = false | Panic w => r'.1 = Panic w end.

Lemma string_to_bytes_same str : string_to_bytes str = serializeString str.
Proof. unfold string_to_bytes. by rewrite len_prefix_same by lia. Qed.
Lemma tool_submit_panics acct e s : same_or_panics (submit_entry acct e s) (tool_submit acct e s).
Proof.
  unfold same_or_panics, submit_entry, tool_submit, with_text, or_panic, lift, mbind, M_bind. cbv beta iota.
  destruct (BuildTransaction acct e s) as [[raw|?|?] s1]; [|done..]. cbn [wrap_err].
  destruct (SignedTransaction raw) as [tx|?|?]; [|done..]. cbn [wrap_err].
  by destruct (SubmitTransaction tx s1) as [[h|?|?] s2].
Qed.

Section calls.
Variables (acct : bytes) (requestHash requester receiver : string) (amount : Z) (txids : list bytes) (idxs : list Z).
Abbreviation prepare := (prepare_result requestHash requester receiver amount txids idxs).
Abbreviation request := {| rq_Amount := amount; rq_Receiver := receiver |}.
Lemma redeemPrepare_eq s :
  redeemPrepare acct moduleText requestHash requester receiver amount txids idxs s =
    (RedeemPrepare aptman acct prepare ;; mret prepare) s.
Proof using module_ok module_again user_ok.
  unfold redeemPrepare, RedeemPrepare, parse_module, prepare_args. rewrite !bind_eq, !lift_eq, module_ok, module_again.
  cbn [wrap_err pr_RequestTxHash pr_Requester pr_Receiver pr_Amount pr_OutpointTxIds pr_OutpointIdxs prepare_result].
  destruct (ParseStringRelaxed requester) as [ra|e|w]; [|done..]. cbn [wrap_err mbind outcome_bind].
  rewrite ?bind_eq, ?lift_eq. destruct (bcs_Address ra) as [rab|e|w]; [|done..]. cbn [wrap_err mbind outcome_bind].
  rewrite ?bind_eq, ?lift_eq. destruct (bcs_SerializeU64 amount) as [ab|e|w]; [|done..]. cbn [wrap_err mbind outcome_bind].
  unfold bridge_entry, entry, verify_tx, throw, lift, mbind, M_bind, mret, M_ret. cbv beta iota.
  destruct (send_entry acct _ s) as [[h|e|w] s1]; [|done..].
  destruct (with_text _ _ s1) as [[t|e|w] s2]; [|done..]. rewrite user_ok. cbn [wrap_err].
  by destruct (ti_Success t).
Qed.
Lemma mintTWBTC_eq btcTxId receiverText receiverAddress rb s :
  ParseStringRelaxed receiverText = Ok receiverAddress -> bcs_Address receiverAddress = Ok rb ->
  mintTWBTC (account aptman) moduleText receiverAddress amount btcTxId s =
    (hash ← aMint aptman {| mn_BtcTxId := bytes_of_string btcTxId; mn_Amount := amount; mn_Receiver := receiverText |};
     verify_tx hash ;;
     mret {| mn_BtcTxId := string_to_bytes btcTxId; mn_Amount := amount;
             mn_Receiver := AddressString receiverAddress |}) s.
Proof using module_ok.
  intros Hr Hb. unfold mintTWBTC, aMint, parse_module, mint_args, string_to_bytes.
  cbn [mn_BtcTxId mn_Amount mn_Receiver]. rewrite string_length_bytes.
  unfold lift, mbind, M_bind, mret, M_ret, outcome_bind. cbv beta iota. rewrite module_ok, Hr. cbn [wrap_err].
  rewrite Hb. cbn [wrap_err]. destruct (bcs_SerializeU64 amount) as [ab|e|w]; cbn [wrap_err]; done.
Qed.
Lemma redeemRequest_eq s :
  RedeemRequest aptman acct request s =
    (hash ← request_submitted acct request;
     with_text "等待交易确认失败: " (WaitForTransaction hash) ;; mret hash) s /\
  redeemRequest acct moduleText receiver amount s = (request_submitted acct request ;; mret request) s /\
  same_or_panics (redeemRequest acct moduleText receiver amount s) (tool_redeemRequest acct moduleText receiver amount s).
Proof using module_ok.
  unfold RedeemRequest, request_submitted, redeemRequest, tool_redeemRequest, send_entry, parse_module, request_args.
  rewrite string_to_bytes_same. unfold lift, mbind, M_bind, mret, M_ret, outcome_bind. cbv beta iota.
  rewrite module_ok. cbn [wrap_err rq_Amount rq_Receiver].
  destruct (bcs_SerializeU64 amount) as [ab|e|w]; cbn [wrap_err]; [|by split_and!..].
  change (bridge_entry (moduleAddress aptman) ?f ?l) with (entry aptman f l).
  set (call := entry aptman _ _). destruct (tool_submit_panics acct call s) as [Hs Ho].
  destruct (submit_entry acct call s) as [[h|e|w] s1], (tool_submit acct call s) as [o s2]; cbn in Hs, Ho |- *;
    (split; [done|]; split; [done|]); unfold same_or_panics; subst s2.
  + by rewrite Ho.
  + by destruct o.
  + by rewrite Ho.
Qed.
Lemma tool_redeemPrepare_eq s :
  RedeemPrepare aptman acct prepare s =
    (hash ← prepare_submitted acct prepare;
     with_text "等待交易确认失败: " (WaitForTransaction hash) ;; verify_tx hash) s /\
  tool_redeemPrepare acct moduleText requestHash requester receiver amount txids idxs s =
    (hash ← prepare_submitted acct prepare;
     mret {| tp_params := prepare; tp_Signature := string_to_bytes hash |}) s.
Proof using module_ok module_again user_ok.
  unfold RedeemPrepare, prepare_submitted, tool_redeemPrepare, send_entry, parse_module, prepare_args, verify_tx, throw.
  unfold lift, mbind, M_bind, mret, M_ret, outcome_bind. cbv beta iota. rewrite module_ok, module_again.
  cbn [wrap_err pr_RequestTxHash pr_Requester pr_Receiver pr_Amount pr_OutpointTxIds pr_OutpointIdxs prepare_result].
  destruct (ParseStringRelaxed requester) as [ra|e|w]; cbn [wrap_err]; [|done..].
  destruct (bcs_Address ra) as [rab|e|w]; cbn [wrap_err]; [|done..].
  destruct (bcs_SerializeU64 amount) as [ab|e|w]; cbn [wrap_err]; [|done..].
  change (bridge_entry (moduleAddress aptman) ?f ?l) with (entry aptman f l). split; [|done].
  destruct (submit_entry acct _ s) as [[h|e|w] s1]; [|done..].
  destruct (with_text _ _ s1) as [[t|e|w] s2]; [|done..].
  destruct (with_text _ _ s2) as [[t'|e|w] s3]; [|done..]. rewrite user_ok. cbn [wrap_err].
  by destruct (ti_Success t').
Qed.
End calls.

(** C39: the package functions of aptos_utils.go, their copies in the user's tool and the methods of the
    client submit the same transactions, byte for byte, over the same module.
    [redeemPrepare] runs exactly as the method [RedeemPrepare] on the hexadecimal texts of the
    outpoints, and [mintTWBTC] as the method [Mint] followed by a look at the outcome of the
    transaction (which [Mint] leaves out), with the same effects on the node, the same failures and the
    parameters as result.  The method [RedeemRequest] submits a request and waits for it;
    [redeemRequest] submits the same request and does not wait, and so does the tool's copy, which
    panics where the other returns an error of the submission.  The method [RedeemPrepare] submits a
    preparation, waits for it and looks at its outcome; the tool's copy submits the same preparation
    and returns its hash as the signature, without waiting. *)
Theorem utils_agree acct requestHash requester receiver amount txids idxs btcTxId receiverText receiverAddress rb s :
  let prepare := prepare_result requestHash requester receiver amount txids idxs in
  let request := {| rq_Amount := amount; rq_Receiver := receiver |} in
  redeemPrepare acct moduleText requestHash requester receiver amount txids idxs s =
    (RedeemPrepare aptman acct prepare ;; mret prepare) s /\
  (ParseStringRelaxed receiverText = Ok receiverAddress -> bcs_Address receiverAddress = Ok rb ->
   mintTWBTC (account aptman) moduleText receiverAddress amount btcTxId s =
    (hash ← aMint aptman {| mn_BtcTxId := bytes_of_string btcTxId; mn_Amount := amount; mn_Receiver := receiverText |};
     verify_tx hash ;;
     mret {| mn_BtcTxId := string_to_bytes btcTxId; mn_Amount := amount;
             mn_Receiver := AddressString receiverAddress |}) s) /\
  (RedeemRequest aptman acct request s =
     (hash ← request_submitted acct request;
      with_text "等待交易确认失败: " (WaitForTransaction hash) ;; mret hash) s /\
   redeemRequest acct moduleText receiver amount s = (request_submitted acct request ;; mret request) s /\
   same_or_panics (redeemRequest acct moduleText receiver amount s) (tool_redeemRequest acct moduleText receiver amount s)) /\
  (RedeemPrepare aptman acct prepare s =
     (hash ← prepare_submitted acct prepare;
      with_text "等待交易确认失败: " (WaitForTransaction hash) ;; verify_tx hash) s /\
   tool_redeemPrepare acct moduleText requestHash requester receiver amount txids idxs s =
     (hash ← prepare_submitted acct prepare;
      mret {| tp_params := prepare; tp_Signature := string_to_bytes hash |}) s).
Proof using module_ok module_again user_ok.
  split; [apply redeemPrepare_eq|]. split; [apply mintTWBTC_eq|].
  split; [apply redeemRequest_eq|apply tool_redeemPrepare_eq].
Qed.
End agree.

(** ** A concrete node *)
#[local] Existing Instance toy_aptos.
#[local] Instance toy_rest : AptosRest := {| UserTransaction t := Ok t; http_NewRequest _ := Ok tt |}.
Lemma api_events_read_witness :
  GetRedeemRequestedEvents toy_aptosman "0x1" 10 3 tt =
    (Ok [{| ar_RequestTxHash := "1235"; ar_Requester := "0x9"; ar_Receiver := "bc1q"; ar_Amount := 70;
            ar_IsValidReceiver := false |}], tt) /\
  exists ev, GetRedeemPreparedEvents toy_aptosman "0x1" 10 3 tt = (Ok [ev], tt) /\ ap_OutpointIdxs ev = [].
Proof.
  destruct (api_events_read toy_aptosman "0x1" 10 3 [sample_request_event] [sample_prepare_event] tt tt tt)
    as [H1 H2]; [by repeat constructor|by repeat constructor|vm_compute; reflexivity|vm_compute; reflexivity|].
  split; [exact H1|]. eexists. split; [exact H2|reflexivity].
Defined.
Lemma utils_agree_witness :
  result (tool_redeemPrepare [] "0x1" "0xab" "0x9" "bc1q" 70 [sample_hash 1] [2]) tt =
    result (hash ← prepare_submitted toy_aptosman [] (prepare_result "0xab" "0x9" "bc1q" 70 [sample_hash 1] [2]);
            mret {| tp_params := prepare_result "0xab" "0x9" "bc1q" 70 [sample_hash 1] [2];
                    tp_Signature := string_to_bytes hash |}) tt /\
  mintTWBTC (account toy_aptosman) "0x1" (bytes_of_string "0x7") 70 "id" tt =
    (hash ← aMint toy_aptosman {| mn_BtcTxId := bytes_of_string "id"; mn_Amount := 70; mn_Receiver := "0x7" |};
     verify_tx hash ;;
     mret {| mn_BtcTxId := string_to_bytes "id"; mn_Amount := 70;
             mn_Receiver := AddressString (bytes_of_string "0x7") |}) tt.
Proof.
  destruct (utils_agree (AN := toy_aptos) (AR := toy_rest) toy_aptosman "0x1" eq_refl eq_refl (fun _ => eq_refl) [] "0xab" "0x9" "bc1q" 70
    [sample_hash 1] [2] "id" "0x7" (bytes_of_string "0x7") (bytes_of_string "0x7") tt) as (_ & H2 & _ & _ & H4).
  split; [exact (f_equal fst H4)|]. apply H2; reflexivity.
Defined.
