(* ===== verification/AptosAccounts.v ===== *)
(** * AptosAccounts: accounts and transactions of the Aptos tools (aptosman/utils.go and
    cmd/aptos_user_cmd/apt_operations.go).

    Keys are byte strings; the SDK's keys, accounts and coin transfers are the class [AptosKit]. Of note
    is the generic transaction builder, which encodes each argument by its dynamic type. *)
From S2P Require Export AptosUtils.

(** ** The SDK and crypto/ed25519 *)
Inductive type_arg := TypeTag (name : string).
Class AptosKit (N : Type) := {
  ed_key : Type;                                    (** [crypto.Ed25519PrivateKey] *)
  Account : Type;
  ed25519_GenerateKey : M N (bytes * bytes);        (** the public and the private key *)
  GenerateEd25519PrivateKey : M N ed_key;
  key_FromBytes : bytes -> outcome ed_key;
  NewAccountFromSigner : ed_key -> outcome Account;
  AccountAPTBalance : bytes -> M N Z;
  CoinTransferPayload : bytes -> Z -> outcome EntryFunction;
  BuildSignAndSubmitTransaction : Account -> EntryFunction -> list type_arg -> M N string;
  Fund : bytes -> Z -> M N unit;
  ParseTypeTag : string -> outcome type_arg;
  bcs_SerializeBool : bool -> outcome bytes }.
(** [ed25519.PrivateKeySize], [ed25519.PublicKeySize] *)
Definition PrivateKeySize : nat := 64.
Definition PublicKeySize : nat := 32.

(** ** aptosman/utils.go *)
Definition trimPrefix (s pre : string) : string :=
  if (String.length pre <=? String.length s)%nat && String.eqb (substring 0 (String.length pre) s) pre
  then drop_string (String.length pre) s else s.
(** [hex.DecodeString] returns the bytes before the error too *)
Definition hex_DecodeString (s : string) : outcome bytes :=
  match hex_decode s with (b, true) => Ok b | _ => Err "encoding/hex: invalid" end.
Definition key_of_text (s : string) : outcome bytes := hex_DecodeString (trimPrefix s "0x").
Definition privateKeyToHex (privateKey : bytes) : string := hex_encode privateKey.

Section accounts.
Context {N : Type} `{AN : !AptosNode N} `{AR : AptosRest} `{AK : !AptosKit N}.
Definition gen_key : M N bytes :=
  keys ← or_panic "生成Ed25519私钥失败: " ed25519_GenerateKey;
  let '(publicKey, privateKey) := keys in
  if negb (length privateKey =? PrivateKeySize)%nat
  then panic ("生成的Ed25519私钥大小不正确: " +:+ int_Text 10 (Z.of_nat (length privateKey)))
  else if negb (length publicKey =? PublicKeySize)%nat
  then panic ("生成的Ed25519公钥大小不正确: " +:+ int_Text 10 (Z.of_nat (length publicKey)))
  else mret privateKey.
Fixpoint gen_keys (number : nat) : M N (list bytes) :=
  match number with
  | O => mret []
  | S number => k ← gen_key; ks ← gen_keys number; mret (k :: ks)
  end.
(** the account of a private key: of its seed, the first 32 bytes *)
Definition NewAccount (privateKey : bytes) : outcome Account :=
  if negb (length privateKey =? PrivateKeySize)%nat
  then Err ("无效的Ed25519私钥大小: " +:+ int_Text 10 (Z.of_nat (length privateKey)) +:+ ", 应为: "
            +:+ int_Text 10 (Z.of_nat PrivateKeySize))
  else
    let seed := take 32 privateKey in
    key ← wrap_err "从私钥创建Ed25519PrivateKey失败: " (key_FromBytes seed);
    wrap_err "从签名者创建账户失败: " (NewAccountFromSigner key).
Definition NewAccounts (privateKeys : list bytes) : outcome (list Account) := mapE NewAccount privateKeys.
Definition createAccountFromPrivateKey (privateKeyHex : string) : outcome Account :=
  privateKeyBytes ← wrap_err "Failed to parse private key: " (hex_DecodeString (TrimPrefix privateKeyHex "0x"));
  key ← wrap_err "Failed to create Ed25519 private key: " (key_FromBytes privateKeyBytes);
  wrap_err "Failed to create account from private key: " (NewAccountFromSigner key).

(** ** cmd/aptos_user_cmd/apt_operations.go *)
Definition tool_createAccountFromPrivateKey : string -> outcome Account := createAccountFromPrivateKey.
Definition checkAPTBalance (addressStr : string) : M N Z :=
  address ← parse_module "Failed to parse address: " addressStr;
  with_text "Failed to get APT balance: " (AccountAPTBalance address).
(** [amount.Uint64()] *)
Definition sendAPT (senderAccount : Account) (recipientAddressStr : string) (amount : Z) : M N string :=
  recipientAddress ← parse_module "Failed to parse recipient address: " recipientAddressStr;
  payload ← lift (wrap_err "Failed to create transfer payload: "
              (CoinTransferPayload recipientAddress (big_Uint64 amount)));
  hash ← with_text "Failed to build, sign and submit transaction: "
           (BuildSignAndSubmitTransaction senderAccount payload []);
  with_text "Failed to wait for transaction confirmation: " (WaitForTransaction hash) ;;
  txnInfo ← with_text "Failed to get transaction info: " (TransactionByHash hash);
  userTxn ← lift (wrap_err "Failed to parse user transaction info: " (UserTransaction txnInfo));
  if ti_Success userTxn then mret hash
  else throw ("Transaction execution failed: " +:+ ti_VmStatus userTxn)%string.
Definition createAptosAccount : M N Account :=
  privateKey ← with_text "Failed to generate Ed25519 private key: " GenerateEd25519PrivateKey;
  lift (wrap_err "Failed to create account from private key: " (NewAccountFromSigner privateKey)).
Definition fundAmount : Z := 100000000.
Definition getFaucetAPT (addressStr : string) : M N unit :=
  address ← parse_module "Failed to parse address: " addressStr;
  with_text "Failed to get APT from faucet: " (Fund address fundAmount).
(** the text printed *)
Definition printAPTBalance (addressStr : string) : M N string :=
  balance ← checkAPTBalance addressStr;
  mret ("APT balance for address " +:+ addressStr +:+ ": " +:+ int_Text 10 balance)%string.
Definition createClient : outcome unit := wrap_err "Failed to create client: " (aptos_NewClient "DevnetConfig").

(** an argument, by its dynamic type *)
Inductive call_arg := ArgString (s : string) | ArgU64 (n : Z) | ArgBool (b : bool) | ArgOther (type_name : string).
Definition encode_arg (arg : call_arg) : outcome bytes :=
  match arg with
  | ArgString v =>
      if HasPrefix v "0x" then
        addr ← wrap_err "Failed to parse address parameter: " (ParseStringRelaxed v);
        wrap_err "Failed to serialize parameter: " (bcs_Address addr)
      else Ok (bytes_of_string v)
  | ArgU64 v => wrap_err "Failed to serialize parameter: " (bcs_SerializeU64 v)
  | ArgBool v => wrap_err "Failed to serialize parameter: " (bcs_SerializeBool v)
  | ArgOther ty => Err ("Unsupported parameter type: " +:+ ty)%string
  end.
(** [strings.Split(s, "::")] *)
Fixpoint split_colons (cur s : bytes) : list bytes :=
  match s with
  | ":"%char :: ((":"%char :: s) as rest) => cur :: split_colons [] s
  | c :: s => split_colons (cur ++ [c]) s
  | [] => [cur]
  end.
Definition Split (s : string) : list string := string_of_bytes <$> split_colons [] (bytes_of_string s).
Definition function_entry (function : string) (args : list bytes) : outcome EntryFunction :=
  match Split function with
  | [a; m; f] =>
      address ← wrap_err "Failed to parse address: " (ParseStringRelaxed a);
      Ok {| ef_Address := address; ef_Name := m; ef_Function := f; ef_Args := args |}
  | _ => Err "Invalid function format, should be 'address::module::function'"
  end.
Definition buildAndSubmitTransaction (account : Account) (function : string) (typeArgs : list string)
    (args : list call_arg) : M N string :=
  (* the function and its address are checked before the arguments *)
  entry0 ← lift (function_entry function []);
  typeTags ← lift (mapE (fun a => wrap_err "Failed to parse type argument: " (ParseTypeTag a)) typeArgs);
  argsBytes ← lift (mapE encode_arg args);
  let payload := {| ef_Address := ef_Address entry0; ef_Name := ef_Name entry0;
                    ef_Function := ef_Function entry0; ef_Args := argsBytes |} in
  hash ← with_text "Failed to build, sign and submit transaction: "
           (BuildSignAndSubmitTransaction account payload typeTags);
  with_text "Failed to wait for transaction confirmation: " (WaitForTransaction hash) ;;
  mret hash.
End accounts.

(** ** Lemmas *)
(** keys print and parse back, with or without the prefix *)
Lemma substring_0_all s : substring 0 (String.length s) s = s.
Proof. induction s as [|c s IH]; [done|]. cbn. by rewrite IH. Qed.
Lemma trimPrefix_app pre s : trimPrefix (pre +:+ s) pre = s.
Proof.
  unfold trimPrefix. assert (substring 0 (String.length pre) (pre +:+ s) = pre) as ->.
  { induction pre as [|c pre IH]; [by destruct s|]. change (String c (substring 0 (String.length pre) (pre +:+ s)) = String c pre). f_equal. exact IH. }
  rewrite String.eqb_refl. assert ((String.length pre <=? String.length (pre +:+ s))%nat = true) as ->.
  { apply Nat.leb_le. rewrite !string_length_bytes. change (pre +:+ s) with (pre +:+ s)%string.
    rewrite <-(string_of_bytes_of_string pre), <-(string_of_bytes_of_string s), <-string_of_bytes_app, !bytes_of_string_of_bytes.
    rewrite length_app. lia. }
  cbn [andb]. apply drop_string_app.
Qed.
Lemma key_roundtrip k : key_of_text ("0x" +:+ privateKeyToHex k) = Ok k.
Proof. unfold key_of_text. rewrite trimPrefix_app. unfold hex_DecodeString, privateKeyToHex. by rewrite hex_decode_encode. Qed.
