(* ===== verification/Etherman.v ===== *)
(** * Etherman: the Ethereum client (etherman/etherman.go, types.go, config.go).

    go-ethereum's client, its ABI decoder and the generated contract bindings
    (src/contracts, produced by abigen) are the class [EthClient]; what the Go code does with them,
    reading the bridge's events, sending its transactions with a fresh nonce and waiting for
    receipts, is modelled. The mutex of the sends is not: calls are sequences. *)
From S2P Require Export Agreement SyncSystem.

(** ** types.go, config.go *)
Record EthermanConfig := {
  ec_URL : string; BridgeContractAddress : bytes; TWBTCContractAddress : bytes }.
Record eMintParams := {
  em_BtcTxId : bytes; em_Amount : Z; em_Receiver : bytes; em_Rx : Z; em_S : Z }.
Record eRequestParams := { er_Amount : Z; er_Receiver : string }.
Record ePrepareParams := {
  ep_RequestTxHash : bytes; ep_Requester : bytes; ep_Receiver : string; ep_Amount : Z;
  ep_OutpointTxIds : list bytes; ep_OutpointIdxs : list Z; ep_Rx : Z; ep_S : Z }.
(** the decoded fields of an event, and the hash of its transaction *)
Record eMintedEvent := {
  lm_BtcTxId : bytes; lm_Receiver : bytes; lm_Amount : Z; lm_TxHash : bytes }.
Record eRedeemRequestedEvent := {
  lr_Sender : bytes; lr_Amount : Z; lr_Receiver : string; lr_TxHash : bytes }.
Record eRedeemPreparedEvent := {
  lp_EthTxHash : bytes; lp_Requester : bytes; lp_Receiver : string; lp_Amount : Z;
  lp_OutpointTxIds : list bytes; lp_OutpointIdxs : list Z; lp_TxHash : bytes }.

(** ** go-ethereum *)
Record Log := { Topics : list bytes; Data : bytes; log_TxHash : bytes }.
Record Header := { h_Hash : bytes; h_Number : Z }.
Record Receipt := { rc_Status : Z; rc_BlockNumber : option Z }.
Record Transaction := { tx_Hash : bytes }.
(** [bind.TransactOpts]: the sender and the nonce to use ([None]: the client chooses) *)
Record TransactOpts := { From : bytes; Nonce : option Z }.
Definition NotFound : error := "not found".
Class EthClient (N : Type) := {
  BlockByNumber : option Z -> M N Z;                (** the block's number; [None]: the latest *)
  FilterLogs : Z -> Z -> list bytes -> M N (list Log);
  PendingNonceAt : bytes -> M N Z;
  HeaderByHash : bytes -> M N Header;
  HeaderByNumber : option Z -> M N Header;
  TransactionReceipt : bytes -> M N (option Receipt);
  BalanceAt : bytes -> M N Z;
  ChainID : M N Z;
  (** [abi.JSON] on the bridge's ABI, [UnpackIntoInterface] of the data of the three events *)
  bridgeABI : outcome unit;
  Unpack_Minted : bytes -> outcome (bytes * Z);
  Unpack_RedeemRequested : bytes -> outcome (bytes * Z * string);
  Unpack_RedeemPrepared : bytes -> outcome (bytes * string * Z * list bytes * list Z);
  (** the generated bindings *)
  NewTEENetBtcBridge : bytes -> outcome unit;
  NewTWBTC : bytes -> outcome unit;
  bridge_Mint : TransactOpts -> bytes -> bytes -> Z -> Z -> Z -> M N Transaction;
  bridge_RedeemRequest : TransactOpts -> Z -> string -> M N Transaction;
  bridge_RedeemPrepare : TransactOpts -> bytes -> bytes -> string -> Z -> list bytes -> list Z ->
    Z -> Z -> M N Transaction;
  bridge_Twbtc : M N bytes;
  bridge_Pk : M N Z;
  bridge_IsPrepared : bytes -> M N bool;
  bridge_IsMinted : bytes -> M N bool;
  bridge_IsUsed : bytes -> M N bool;
  twbtc_BalanceOf : bytes -> M N Z;
  twbtc_Approve : TransactOpts -> bytes -> Z -> M N Transaction;
  twbtc_Allowance : bytes -> bytes -> M N Z }.

(** ** etherman.go *)
(** the client apart; [auth] keeps the nonce of the last send *)
Record Etherman := { ecfg : EthermanConfig; auth : TransactOpts }.

Section etherman.
Context `{E : EthLib}.

Definition MintedSignatureHash : bytes :=
  Keccak256Hash (bytes_of_string "Minted(bytes32,address,uint256)").
Definition RedeemRequestedSignatureHash : bytes :=
  Keccak256Hash (bytes_of_string "RedeemRequested(address,uint256,string)").
Definition RedeemPreparedSignatureHash : bytes :=
  Keccak256Hash (bytes_of_string "RedeemPrepared(bytes32,address,string,uint256,bytes32[],uint16[])").

(** [params.SigningHash()] *)
Definition eMint_SigningHash (params : eMintParams) : outcome bytes :=
  Keccak256Hash <$> EncodePacked [PHash (em_BtcTxId params); PBytes (em_Receiver params);
                                  PBigInt (em_Amount params)].
Definition ePrepare_SigningHash (p : ePrepareParams) : outcome bytes :=
  let outpointIdxs := (fun idx => i64 idx) <$> ep_OutpointIdxs p in
  Keccak256Hash <$> EncodePacked [PHash (ep_RequestTxHash p); PBytes (ep_Requester p);
    PString (ep_Receiver p); PBigInt (ep_Amount p); PHashes (ep_OutpointTxIds p); PBigInts outpointIdxs].

Context {N : Type} `{EC : !EthClient N}.
Variable Debug : bool.   (** the global of common/debug.go *)
Variable etherman : Etherman.

(** [NewEtherman], after [ethclient.Dial] *)
Definition NewEtherman (c : EthermanConfig) (a : TransactOpts) : M N Etherman :=
  lift (NewTEENetBtcBridge (BridgeContractAddress c)) ;;
  twbtcAddr ← bridge_Twbtc;
  if negb (bool_decide (twbtcAddr = TWBTCContractAddress c))
  then throw ("TWBTC address mismatch: expected=0x" +:+ hex_encode (TWBTCContractAddress c) +:+
              ", got=0x" +:+ hex_encode twbtcAddr)%string
  else mret {| ecfg := c; auth := a |}.
Definition GetLatestFinalizedBlockNumber : M N Z :=
  if Debug then BlockByNumber None else BlockByNumber (Some (-3)).
(** [vlog.Topics[i].Bytes()] copied into 32 bytes *)
Definition topic (vlog : Log) (i : nat) : outcome bytes :=
  match Topics vlog !! i with Some t => Ok t | None => Panic "index out of range" end.
Definition log_events : Type := list eMintedEvent * list eRedeemRequestedEvent * list eRedeemPreparedEvent.
(** one turn of the loop over the logs *)
Definition add_log (acc : log_events) (vlog : Log) : outcome log_events :=
  let '(minted, redeemRequested, redeemPrepared) := acc in
  t ← topic vlog 0;
  if bool_decide (t = MintedSignatureHash) then
    ev ← Unpack_Minted (Data vlog);
    id ← topic vlog 1;
    Ok (minted ++ [{| lm_BtcTxId := id; lm_Receiver := ev.1; lm_Amount := ev.2; lm_TxHash := log_TxHash vlog |}],
        redeemRequested, redeemPrepared)
  else if bool_decide (t = RedeemRequestedSignatureHash) then
    ev ← Unpack_RedeemRequested (Data vlog);
    let '(sender, amount, receiver) := ev in
    Ok (minted, redeemRequested ++ [{| lr_Sender := sender; lr_Amount := amount; lr_Receiver := receiver;
                                       lr_TxHash := log_TxHash vlog |}], redeemPrepared)
  else if bool_decide (t = RedeemPreparedSignatureHash) then
    ev ← Unpack_RedeemPrepared (Data vlog);
    id ← topic vlog 1;
    let '(requester, receiver, amount, txids, idxs) := ev in
    Ok (minted, redeemRequested,
        redeemPrepared ++ [{| lp_EthTxHash := id; lp_Requester := requester; lp_Receiver := receiver;
                              lp_Amount := amount; lp_OutpointTxIds := txids; lp_OutpointIdxs := idxs;
                              lp_TxHash := log_TxHash vlog |}])
  else Err ("unknown event: 0x" +:+ hex_encode t)%string.
Fixpoint add_logs (acc : log_events) (logs : list Log) : outcome log_events :=
  match logs with
  | [] => Ok acc
  | vlog :: logs => acc ← add_log acc vlog; add_logs acc logs
  end.
Definition GetEventLogs (blockNum : Z) : M N log_events :=
  logs ← FilterLogs blockNum blockNum [BridgeContractAddress (ecfg etherman)];
  match logs with
  | [] => mret ([], [], [])
  | _ => lift bridgeABI ;; lift (add_logs ([], [], []) logs)
  end.

Definition getBridgeContract : M N unit := lift (NewTEENetBtcBridge (BridgeContractAddress (ecfg etherman))).
Definition getTWBTCContract : M N unit := lift (NewTWBTC (TWBTCContractAddress (ecfg etherman))).
Definition getAuthNonce : M N Z := PendingNonceAt (From (auth etherman)).
Definition eMint (params : eMintParams) : M N Transaction :=
  getBridgeContract ;;
  nonce ← getAuthNonce;
  bridge_Mint {| From := From (auth etherman); Nonce := Some nonce |} (em_BtcTxId params)
    (BytesToAddress (em_Receiver params)) (em_Amount params) (em_Rx params) (em_S params).
Definition eRedeemRequest (a : TransactOpts) (params : eRequestParams) : M N Transaction :=
  getBridgeContract ;; bridge_RedeemRequest a (er_Amount params) (er_Receiver params).
Definition eRedeemPrepare (params : ePrepareParams) : M N Transaction :=
  getBridgeContract ;;
  nonce ← getAuthNonce;
  bridge_RedeemPrepare {| From := From (auth etherman); Nonce := Some nonce |} (ep_RequestTxHash params)
    (BytesToAddress (ep_Requester params)) (ep_Receiver params) (ep_Amount params)
    (ep_OutpointTxIds params) (ep_OutpointIdxs params) (ep_Rx params) (ep_S params).
Definition TWBTCAddress : M N bytes := getBridgeContract ;; bridge_Twbtc.
Definition TWBTCBalanceOf (addr : bytes) : M N Z := getTWBTCContract ;; twbtc_BalanceOf addr.
Definition TWBTCApprove (a : TransactOpts) (amount : Z) : M N Transaction :=
  getTWBTCContract ;; twbtc_Approve a (BridgeContractAddress (ecfg etherman)) amount.
Definition TWBTCAllowance (owner : bytes) : M N Z :=
  getTWBTCContract ;; twbtc_Allowance owner (BridgeContractAddress (ecfg etherman)).
Definition eGetPublicKey : M N Z := getBridgeContract ;; bridge_Pk.
Definition eIsPrepared (ethTxHash : bytes) : M N bool := getBridgeContract ;; bridge_IsPrepared ethTxHash.
Definition eIsMinted (btcTxId : bytes) : M N bool := getBridgeContract ;; bridge_IsMinted btcTxId.
Definition eIsUsed (btcTxId : bytes) : M N bool := getBridgeContract ;; bridge_IsUsed btcTxId.
Definition OnCanonicalChain (hash : bytes) : M N bool :=
  header ← HeaderByHash hash;
  canonicalHeader ← HeaderByNumber (Some (h_Number header));
  mret (bool_decide (hash = h_Hash canonicalHeader)).
Definition eGetBalance (addr : bytes) : M N Z := BalanceAt addr.
(** [retryTimes] queries at most, one [time.Sleep] after each that does not find the receipt *)
Fixpoint WaitForTxReceipt_loop (tx : Transaction) (retries : nat) : M N bool :=
  match retries with
  | O => throw ("timeout waiting for tx receipt: 0x" +:+ hex_encode (tx_Hash tx))%string
  | S retries =>
      receipt ← try (TransactionReceipt (tx_Hash tx));
      match receipt with
      | inl err => if String.eqb err NotFound then WaitForTxReceipt_loop tx retries else throw err
      | inr (Some r) =>
          match rc_BlockNumber r with   (* logged *)
          | Some _ => mret (rc_Status r =? 1)
          | None => panic "nil pointer dereference"
          end
      | inr None => WaitForTxReceipt_loop tx retries
      end
  end.
Definition WaitForTxReceipt (tx : Transaction) (retryTimes : Z) : M N bool :=
  WaitForTxReceipt_loop tx (Z.to_nat retryTimes).
End etherman.
