(* ===== verification/EthSync.v ===== *)
(** * EthSync: the synchronizers that read one number at a time (ethsync/synchronizer.go,
    aptossync/synchronizer.go).

    Both packages run the same loop: on a tick, announce the newest number, then for every number
    after the last one fetch its events and send them. The loop is modelled once, over the answers
    of the two fetches; Ethereum's are those of [Etherman], and the Aptos variant asks its client
    for everything from the number to the newest one. *)
From S2P Require Export Etherman Aptosman.

(** ** The loop *)
Inductive nplace :=
  | NSelect
  | NSendingNumber (newFinalized : Z)
  | NNumber (i newFinalized : Z)     (** at the test of the inner loop *)
  | NSending (todo : list input) (i newFinalized : Z)
  | NReturned (reached : Z) (e : error)
  | NDied (reached : Z) (why : string).   (** [reached]: the events up to it are sent or in hand *)
Record Synchronizer_ := { lastFinalized : Z; nat_ : nplace }.
Definition at_nplace (p : nplace) (y : Synchronizer_) : Synchronizer_ :=
  {| lastFinalized := lastFinalized y; nat_ := p |}.

(** the answers: of the newest number, and of the events of number [i] when [n] is the newest *)
Class NumberWorker := {
  newest_number : outcome Z -> Prop;
  fetch_number : Z -> Z -> outcome events -> Prop }.

Section loop.
Context `{E : EthLib, GB : GobLib}.

(** [New], after the check of the chain *)
Definition NewSynchronizer (RetroScanBlkNum : Z) : M State Synchronizer_ :=
  blkNumberStored ← GetBlockchainFinalizedBlockNumber;
  let blkNumberStored := if RetroScanBlkNum =? -1 then blkNumberStored else RetroScanBlkNum in
  mret {| lastFinalized := blkNumberStored; nat_ := NSelect |}.

Definition number_step (c : sync_case) (y : Synchronizer_) (l : loop) : option (Synchronizer_ * loop) :=
  let last := lastFinalized y in
  match nat_ y, c with
  | NSelect, Done => Some (at_nplace (NReturned last "context canceled") y, l)
  | NSelect, Tick (Ok newFinalized) =>
      if last <? newFinalized then Some (at_nplace (NSendingNumber newFinalized) y, l) else Some (y, l)
  | NSelect, Tick (Err e) => Some (at_nplace (NReturned last e) y, l)
  | NSelect, Tick (Panic w) => Some (at_nplace (NDied last w) y, l)
  | NSendingNumber n, Go =>
      (fun l' => (at_nplace (NNumber (last + 1) n) y, l')) <$> env_step (SendBlk n) l
  | NNumber i n, Reply r =>
      if i <=? n then
        match r with
        | Ok ev => Some (at_nplace (NSending (sends ev) i n) y, l)
        | Err e => Some (at_nplace (NReturned (i - 1) e) y, l)
        | Panic w => Some (at_nplace (NDied (i - 1) w) y, l)
        end
      else None
  | NNumber i n, Go => if i <=? n then None else Some ({| lastFinalized := n; nat_ := NSelect |}, l)
  | NSending (x :: todo) i n, Go =>
      (fun l' => (at_nplace (NSending todo i n) y, l')) <$> env_step x l
  | NSending [] i n, Go => Some (at_nplace (NNumber (i + 1) n) y, l)
  | _, _ => None
  end.
Context `{W : NumberWorker}.
Definition number_answers (c : sync_case) (y : Synchronizer_) : Prop :=
  match nat_ y, c with
  | NSelect, Tick r => newest_number r
  | NNumber i n, Reply r => fetch_number i n r
  | _, _ => True
  end.

(** the fetch that this step answers: number [i] alone *)
Definition nanswered (c : sync_case) (y : Synchronizer_) : option fetch :=
  match nat_ y, c with
  | NNumber i n, Reply (Ok ev) => Some {| f_old := i - 1; f_new := i; f_events := ev |}
  | _, _ => None
  end.

Definition nbatch (y : Synchronizer_) : list input :=
  match nat_ y with NSending todo _ _ => todo | _ => [] end.
Definition nupto (y : Synchronizer_) : Z :=
  match nat_ y with
  | NSelect | NSendingNumber _ => lastFinalized y
  | NNumber i _ => i - 1
  | NSending _ i _ => i
  | NReturned r _ | NDied r _ => r
  end.
Definition nannounced (y : Synchronizer_) : option Z :=
  match nat_ y with
  | NSelect | NSendingNumber _ => Some (lastFinalized y)
  | NNumber _ n | NSending _ _ n => Some n
  | _ => None
  end.
Definition nforward (y : Synchronizer_) : Prop :=
  match nat_ y with
  | NSendingNumber n => lastFinalized y < n
  | NNumber i n => lastFinalized y < i <= n + 1
  | NSending todo i n => lastFinalized y < i <= n /\ omap as_blk todo = []
  | _ => True
  end.
#[global] Instance number_synchronizer : Synchronizer Synchronizer_ := {|
  todo_of := nbatch; frontier := nupto; announced := nannounced; sync_wf := nforward;
  fetch_ok f := f_old f = f_new f - 1 /\
    exists n, f_new f <= n /\ fetch_number (f_new f) n (Ok (f_events f));
  moves y l f y' l' := exists c, number_answers c y /\ f = nanswered c y /\ number_step c y l = Some (y', l') |}.
End loop.

Section laws.
Context `{E : EthLib, GB : GobLib, W : NumberWorker}.
Ltac nsolve Hat := cbn; unfold nbatch, nupto, nannounced; cbn; rewrite ?Hat; cbn; auto; try (done || lia).
#[global] Instance number_laws : SynchronizerLaws (G := Synchronizer_).
Proof.
  intros y l f y' l' Hwf (c & Ha & -> & Hc). cbn [moves sync_wf number_synchronizer] in *.
  unfold number_step in Hc. unfold number_answers in Ha. unfold nanswered. unfold nforward in *.
  destruct (nat_ y) as [|n|i n|[|x todo] i n|r e|r w] eqn:Hat; destruct c as [|[n'|e'|w']|[ev|e'|w']|]; try done.
  2: destruct (Z.ltb_spec (lastFinalized y) n'); [|injection Hc as <- <-; rewrite Hat; split; [done|by apply al_quiet; auto]].
  all: try (destruct (env_step _ l) as [l1|] eqn:He; [|done]).
  all: try (destruct (Z.leb_spec i n); [|done]).
  all: try (destruct (Z.leb_spec i n); [done|]).
  all: injection Hc as <- <-; cbn [nat_ at_nplace lastFinalized].
  all: (split; [try (done || lia)|]).
  all: try (by apply al_quiet; nsolve Hat; f_equal; lia).
  - apply (al_announce (lastFinalized y) n); nsolve Hat.
  - split; [lia|apply sends_no_blk].
  - pose proof (al_batch ev y (at_nplace (NSending (sends ev) i n) y) l) as Hal. cbn in Hal.
    unfold nupto, nbatch, nannounced in Hal. cbn in Hal. rewrite Hat in Hal.
    apply Hal; [done|lia|done|done|]. split; [done|]. by exists n.
  - destruct Hwf as [? Hb]. split; [done|]. change (x :: todo) with ([x] ++ todo) in Hb.
    rewrite omap_app in Hb. by apply app_eq_nil in Hb as [_ ?].
  - destruct Hwf as [_ Hb]. apply (al_send x todo); nsolve Hat. cbn in Hb. by destruct (as_blk x).
Qed.

(** A worker whose answers are the events of the number it is asked for, on some ledger *)
Definition answers_ledger `{L : Ledger} : Prop :=
  forall i n ev, i <= n -> fetch_number i n (Ok ev) -> ev = events_between (i - 1) i.
Lemma answers_ledger_delivered `{L : Ledger} n0 st (s : system Synchronizer_) :
  answers_ledger -> quiet st ->
  rtc sys_step (sys_start {| lastFinalized := n0; nat_ := NSelect |} st) s -> ledger_delivered n0 s.
Proof.
  intros HL Hq Hr. apply delivered_ledger.
  - intros f (Ho & n & Hn & Ha). rewrite Ho. by apply (HL _ n).
  - by apply sync_inv_delivered, (sync_inv_reachable n0 {| lastFinalized := n0; nat_ := NSelect |} st).
Qed.
End laws.

(** *** Every tick comes back to the select *)
Section termination.
Context `{E : EthLib, GB : GobLib}.

(** what remains of a tick: numbers to fetch, then the step within the number *)
Definition remaining (y : Synchronizer_) : nat * nat :=
  match nat_ y with
  | NSendingNumber n => (S (Z.to_nat (n + 1 - lastFinalized y)), O)
  | NNumber i n => (Z.to_nat (n + 1 - i), S O)
  | NSending todo i n => (Z.to_nat (n - i), S (S (length todo)))
  | _ => (O, O)
  end.
Definition at_select (y : Synchronizer_) : Prop := nat_ y = NSelect.
Definition tick_step (y' y : Synchronizer_) : Prop :=
  ~ at_select y /\ nforward y /\ exists c l l', number_step c y l = Some (y', l').
Definition pair_lt (a b : nat * nat) : Prop := (a.1 < b.1)%nat \/ (a.1 = b.1 /\ (a.2 < b.2)%nat).
Lemma pair_lt_wf : well_founded pair_lt.
Proof.
  intros [a b]. revert b. induction (lt_wf a) as [a _ IHa]. intros b.
  induction (lt_wf b) as [b _ IHb]. constructor. intros [a' b'] [H|[Ha Hb]]; cbn in *.
  - by apply IHa.
  - subst. by apply IHb.
Qed.
Lemma tick_step_decreases y y' : tick_step y' y -> at_select y' \/
  (exists r e, nat_ y' = NReturned r e) \/ (exists r w, nat_ y' = NDied r w) \/
  pair_lt (remaining y') (remaining y).
Proof.
  intros (Hs & Hf & c & l & l' & Hc). unfold at_select, nforward, number_step in *. 
  destruct (nat_ y) as [|n|i n|[|x todo] i n|r e|r w] eqn:Hat; destruct c as [|[n'|e'|w']|[ev|e'|w']|]; try done.
  all: try (destruct (env_step _ l) as [l1|] eqn:He; [|done]).
  all: try (destruct (Z.leb_spec i n); [|done]).
  all: try (destruct (Z.leb_spec i n); [done|]).
  all: injection Hc as <- <-; unfold pair_lt, remaining; cbn; rewrite ?Hat; cbn; eauto 6.
  all: do 3 right; lia.
Qed.
Lemma tick_step_stops y : at_select y \/ (exists r e, nat_ y = NReturned r e) \/ (exists r w, nat_ y = NDied r w) ->
  Acc tick_step y.
Proof.
  intros H. constructor. intros y' (Hs & _ & c & l & l' & Hc). unfold at_select, number_step in *.
  destruct H as [H|[(r & e & H)|(r & w & H)]]; [done| |]; rewrite H in Hc; by destruct c.
Qed.

(** C34: a tick always ends: whatever the sizes of the answers, the loop cannot run for ever
    without coming back to its select, returning or dying; and inside a tick the only thing
    it can wait for, besides an answer of the node, is room in a channel of the state. *)
Theorem tick_terminates :
  well_founded tick_step /\
  forall y l,
    match nat_ y with
    | NSelect | NReturned _ _ | NDied _ _ => True
    | NNumber i n => if i <=? n then forall r, is_Some (number_step (Reply r) y l)
                     else is_Some (number_step Go y l)
    | NSendingNumber n => env_step (SendBlk n) l = None \/ is_Some (number_step Go y l)
    | NSending [] _ _ => is_Some (number_step Go y l)
    | NSending (x :: _) _ _ => env_step x l = None \/ is_Some (number_step Go y l)
    end.
Proof.
  split.
  - intros y. remember (remaining y) as k eqn:Hk. revert y Hk.
    induction (pair_lt_wf k) as [k _ IH]. intros y ->. constructor. intros y' Hy.
    destruct (tick_step_decreases y y' Hy) as [H|[H|[H|H]]]; [by apply tick_step_stops; auto..|].
    by eapply IH.
  - intros y l. unfold number_step. destruct (nat_ y) as [|n|i n|[|x todo] i n|r e|r w]; try done.
    + destruct (env_step _ l); [right; by eexists|by left].
    + destruct (Z.leb_spec i n); [|by eexists]. intros [ev|e|w]; by eexists.
    + destruct (env_step _ l); [right; by eexists|by left].
Qed.
End termination.

(** ** Ethereum (ethsync/synchronizer.go) *)
Definition ErrChainIDUnmatched (expected actual : Z) : error :=
  ("chain ID mismatch: expected=" +:+ int_Text 10 expected +:+ ", actual=" +:+ int_Text 10 actual)%string.
Record EthSyncConfig := { EthChainID : Z; EthRetroScanBlkNum : Z }.
Section eth.
Context `{E : EthLib, GB : GobLib}.
Context {N : Type} `{EC : !EthClient N}.
Variables (Debug : bool) (etherman : Etherman).
(** [common.IsValidBtcAddress] for the configured network: [btcutil.DecodeAddress] succeeds *)
Variable IsValidBtcAddress : string -> bool.

(** [New]: the check of the chain id, then the number to start from *)
Definition New_eth (c : EthSyncConfig) : M (State * N) Synchronizer_ :=
  chainID ← zoom snd (fun n s => (s.1, n)) ChainID;
  if negb (chainID =? EthChainID c) then throw (ErrChainIDUnmatched (EthChainID c) chainID)
  else zoom fst (fun st s => (st, s.2)) (NewSynchronizer (EthRetroScanBlkNum c)).

Definition eth_minted (ev : eMintedEvent) : MintedEvent := {|
  me_MintTxHash := lm_TxHash ev; me_BtcTxId := lm_BtcTxId ev; me_Receiver := lm_Receiver ev;
  me_Amount := Some (lm_Amount ev) |}.
Definition eth_requested (ev : eRedeemRequestedEvent) : RedeemRequestedEvent := {|
  rr_RequestTxHash := lr_TxHash ev; rr_Requester := lr_Sender ev; rr_Receiver := lr_Receiver ev;
  rr_Amount := Some (lr_Amount ev); rr_IsValidReceiver := IsValidBtcAddress (lr_Receiver ev) |}.
Definition eth_prepared (ev : eRedeemPreparedEvent) : RedeemPreparedEvent := {|
  rp_RequestTxHash := lp_EthTxHash ev; rp_PrepareTxHash := lp_TxHash ev; rp_Requester := lp_Requester ev;
  rp_Receiver := lp_Receiver ev; rp_Amount := Some (lp_Amount ev);
  rp_OutpointTxIds := lp_OutpointTxIds ev; rp_OutpointIdxs := lp_OutpointIdxs ev |}.
Definition eth_events (evs : log_events) : events :=
  let '(minted, requested, prepared) := evs in
  {| ev_minted := eth_minted <$> minted; ev_requested := eth_requested <$> requested;
     ev_prepared := eth_prepared <$> prepared |}.
(** How the state of the node evolves while the bridge runs: the chain grows *)
Variable evolves : N -> N -> Prop.
(** The answers: the events of a block are fetched from a later state of the node than one in which
    it reported the newest finalized number. *)
Definition eth_worker : NumberWorker := {|
  newest_number r := exists s, r = result (GetLatestFinalizedBlockNumber Debug) s;
  fetch_number i newFinalized r := exists s0 s,
    result (GetLatestFinalizedBlockNumber Debug) s0 = Ok newFinalized /\ evolves s0 s /\
    r = eth_events <$> result (GetEventLogs etherman i) s |}.

End eth.

(** *** The events of a block *)
(** what the bridge contract emits: the events of its interface, with the transaction *)
Inductive bridge_event :=
  | BMinted (tx btcTxId receiver : bytes) (amount : Z)
  | BRequested (tx sender : bytes) (amount : Z) (receiver : string)
  | BPrepared (tx ethTxHash requester : bytes) (receiver : string) (amount : Z)
      (outpointTxIds : list bytes) (outpointIdxs : list Z).
(** what the bridge is to learn of them: a mint by the Bitcoin transaction it answers and the
    transaction that mints; a request by the transaction that makes it; a preparation by the
    transaction of the request it answers and the transaction that prepares *)
Definition told_minted (b : bridge_event) : option MintedEvent :=
  match b with
  | BMinted tx btc receiver amount => Some {|
      me_BtcTxId := btc; me_MintTxHash := tx; me_Receiver := receiver; me_Amount := Some amount |}
  | _ => None
  end.
Definition told_requested (valid : string -> bool) (b : bridge_event) : option RedeemRequestedEvent :=
  match b with
  | BRequested tx sender amount receiver =>
      Some {|
      rr_RequestTxHash := tx; rr_Requester := sender; rr_Receiver := receiver;
      rr_Amount := Some amount; rr_IsValidReceiver := valid receiver |}
  | _ => None
  end.
Definition told_prepared (b : bridge_event) : option RedeemPreparedEvent :=
  match b with
  | BPrepared tx request requester receiver amount ids idxs =>
      Some {|
      rp_RequestTxHash := request; rp_PrepareTxHash := tx; rp_Requester := requester;
      rp_Receiver := receiver; rp_Amount := Some amount;
      rp_OutpointTxIds := ids; rp_OutpointIdxs := idxs |}
  | _ => None
  end.
(** the events as [GetEventLogs] reads them *)
Definition b_minted (b : bridge_event) : option eMintedEvent :=
  match b with
  | BMinted tx btc receiver amount => Some {| lm_TxHash := tx; lm_BtcTxId := btc; lm_Receiver := receiver; lm_Amount := amount |}
  | _ => None
  end.
Definition b_requested (b : bridge_event) : option eRedeemRequestedEvent :=
  match b with
  | BRequested tx sender amount receiver => Some {| lr_TxHash := tx; lr_Sender := sender; lr_Amount := amount; lr_Receiver := receiver |}
  | _ => None
  end.
Definition b_prepared (b : bridge_event) : option eRedeemPreparedEvent :=
  match b with
  | BPrepared tx request requester receiver amount ids idxs => Some {|
      lp_TxHash := tx; lp_EthTxHash := request; lp_Requester := requester; lp_Receiver := receiver;
      lp_Amount := amount; lp_OutpointTxIds := ids; lp_OutpointIdxs := idxs |}
  | _ => None
  end.

Section block.
Context `{EL : EthLibLaws, GL : GobLaws}.
Context {N : Type} `{EC : !EthClient N}.
Variables (Debug : bool) (etherman : Etherman) (IsValidBtcAddress : string -> bool).

(** [vlog] is the log of an event, as the ABI decodes it *)
Definition log_of (b : bridge_event) (vlog : Log) : Prop :=
  match b with
  | BMinted tx btc receiver amount =>
      Topics vlog !! O = Some MintedSignatureHash /\ Topics vlog !! 1%nat = Some btc /\
      Unpack_Minted (Data vlog) = Ok (receiver, amount) /\ log_TxHash vlog = tx
  | BRequested tx sender amount receiver =>
      Topics vlog !! O = Some RedeemRequestedSignatureHash /\
      Unpack_RedeemRequested (Data vlog) = Ok (sender, amount, receiver) /\ log_TxHash vlog = tx
  | BPrepared tx request requester receiver amount ids idxs =>
      Topics vlog !! O = Some RedeemPreparedSignatureHash /\ Topics vlog !! 1%nat = Some request /\
      Unpack_RedeemPrepared (Data vlog) = Ok (requester, receiver, amount, ids, idxs) /\
      log_TxHash vlog = tx
  end.
(** the topics of the three events differ: a hypothesis on the hash *)
Definition distinct_topics : Prop :=
  MintedSignatureHash <> RedeemRequestedSignatureHash /\ MintedSignatureHash <> RedeemPreparedSignatureHash /\
  RedeemRequestedSignatureHash <> RedeemPreparedSignatureHash.
Hypothesis Htopics : distinct_topics.

Lemma add_log_of m r p b vlog : log_of b vlog ->
  add_log (m, r, p) vlog = Ok (m ++ omap b_minted [b], r ++ omap b_requested [b], p ++ omap b_prepared [b]).
Proof using Htopics.
  destruct Htopics as (T1 & T2 & T3).
  unfold add_log, topic. destruct b as [tx btc rc am|tx sd am rc|tx rq re rc am ids idxs]; cbn [log_of omap list_omap b_minted b_requested b_prepared].
  - intros (H0 & H1 & HU & HX). rewrite H0, H1. cbn [mbind outcome_bind]. rewrite bool_decide_eq_true_2 by done.
    rewrite HU, HX. cbn. by rewrite !app_nil_r.
  - intros (H0 & HU & HX). rewrite H0. cbn [mbind outcome_bind].
    rewrite bool_decide_eq_false_2, bool_decide_eq_true_2 by congruence.
    rewrite HU, HX. cbn. by rewrite !app_nil_r.
  - intros (H0 & H1 & HU & HX). rewrite H0, H1. cbn [mbind outcome_bind].
    rewrite !bool_decide_eq_false_2, bool_decide_eq_true_2 by congruence.
    rewrite HU, HX. cbn. by rewrite !app_nil_r.
Qed.
Lemma add_logs_of m r p bs logs : Forall2 log_of bs logs ->
  add_logs (m, r, p) logs = Ok (m ++ omap b_minted bs, r ++ omap b_requested bs, p ++ omap b_prepared bs).
Proof using Htopics.
  intros H. revert m r p. induction H as [|b vlog bs logs Hb _ IH]; intros m r p; [cbn; by rewrite !app_nil_r|].
  cbn [add_logs]. rewrite (add_log_of m r p b) by done. cbn [mbind outcome_bind]. rewrite IH, <-!app_assoc.
  change (b :: bs) with ([b] ++ bs). by rewrite !omap_app.
Qed.

(** What is relied on of the node: once it has reported block [n] as finalized, the logs it then
    returns for a block up to [n] are those of the bridge's events [block] in it.  Nothing is
    said of the logs of a block before it is finalized. *)
Variables (block : Z -> list bridge_event) (evolves : N -> N -> Prop).
Definition final_logs : Prop := forall s0 s n i l,
  result (GetLatestFinalizedBlockNumber Debug) s0 = Ok n -> evolves s0 s -> i <= n ->
  result (FilterLogs i i [BridgeContractAddress (ecfg etherman)]) s = Ok l -> Forall2 log_of (block i) l.

Definition eth_ledger : Ledger := {|
  ledger_minted i := omap told_minted (block i);
  ledger_requested i := omap (told_requested IsValidBtcAddress) (block i);
  ledger_prepared i := omap told_prepared (block i) |}.
Lemma converted_events bs :
  eth_events IsValidBtcAddress (omap b_minted bs, omap b_requested bs, omap b_prepared bs) =
  {| ev_minted := omap told_minted bs; ev_requested := omap (told_requested IsValidBtcAddress) bs;
     ev_prepared := omap told_prepared bs |}.
Proof.
  unfold eth_events. f_equal; (induction bs as [|[] bs IH]; [done|..]); cbn; rewrite ?fmap_cons;
    by rewrite <-?IH.
Qed.
Lemma between_one {A} (f : Z -> list A) i : between f (i - 1) i = f i.
Proof.
  unfold between. replace (i - 1 + 1) with i by lia. replace (i - (i - 1)) with 1 by lia.
  change (seqZ i 1) with [i]. cbn. apply app_nil_r.
Qed.
Lemma GetEventLogs_events s0 n i s evs : final_logs ->
  result (GetLatestFinalizedBlockNumber Debug) s0 = Ok n -> evolves s0 s -> i <= n ->
  result (GetEventLogs etherman i) s = Ok evs ->
  evs = (omap b_minted (block i), omap b_requested (block i), omap b_prepared (block i)).
Proof using Htopics.
  intros Hfin Hn He Hi. unfold GetEventLogs, result. rewrite bind_eq.
  specialize (Hfin s0 s n i). unfold result in *.
  destruct (FilterLogs i i [BridgeContractAddress (ecfg etherman)] s) as [[l|e|w] s']; [|done..].
  specialize (Hfin l Hn He Hi eq_refl). destruct l as [|v l].
  - apply Forall2_nil_inv_r in Hfin as ->. cbn. by intros [= <-].
  - rewrite bind_eq, lift_eq. destruct (bridgeABI) as [[]|e|w]; [|done..]. rewrite lift_eq.
    rewrite (add_logs_of [] [] [] _ _ Hfin). cbn. by intros [= <-].
Qed.
Lemma eth_worker_laws : final_logs ->
  answers_ledger (W := eth_worker Debug etherman IsValidBtcAddress evolves) (L := eth_ledger).
Proof using Htopics.
  intros Hfin i n ev Hi (s0 & s & Hn & He & Hs).
  destruct (result (GetEventLogs etherman i) s) as [evs|e|w] eqn:Hg; [|done..].
  eapply GetEventLogs_events in Hg as ->; [|done..]. cbn [fmap outcome_fmap] in Hs.
  rewrite converted_events in Hs. injection Hs as ->. unfold events_between. by rewrite !between_one.
Qed.

(** C12: the Ethereum synchronizer delivers: in every interleaving with the state's loop and with
    the growth of the chain, with any failure of the node, the mints, requests and preparations
    the state has handled, those queued and those in hand are exactly those the bridge contract
    emitted in the blocks after the starting one up to the block being worked on, each
    field where it belongs (the transaction of a request and the one of its preparation in
    particular), each once and in order.  The node is relied on for the logs of finalized
    blocks only: after it has reported a block as finalized, it returns that block's logs. *)
Theorem eth_sync_delivers n0 st s :
  final_logs -> quiet st ->
  let W := eth_worker Debug etherman IsValidBtcAddress evolves in let L := eth_ledger in
  rtc sys_step (sys_start {| lastFinalized := n0; nat_ := NSelect |} st) s ->
  ledger_delivered n0 s.
Proof using Htopics EL GL.
  intros Hfin Hq W L Hr. by eapply answers_ledger_delivered; [apply eth_worker_laws| |].
Qed.
End block.

(** ** Aptos, version by version (aptossync/synchronizer.go) *)
(** [StringToBytes32] and [HexStringToBytes32] *)
Definition StringToBytes32 (s : string) : bytes := copy_array 32 (bytes_of_string s).
Definition HexStringToBytes32 (hexStr : string) : outcome bytes :=
  let hexStr := if (2 <=? String.length hexStr)%nat && String.eqb (String.substring 0 2 hexStr) "0x"
                then drop_string 2 hexStr else hexStr in
  match hex_decode hexStr with
  | (b, true) => Ok (copy_array 32 b)
  | (_, false) => Err "failed to decode hex string"
  end.
Section aptos.
Context `{E : EthLib, GB : GobLib}.
Context {N : Type} `{AN : !AptosNode N}.
Variables (aptman : Aptosman) (BtcChainConfig : option (string -> bool)).

(** without a configuration every receiver is invalid *)
Definition aptos_requested (ev : aRedeemRequestedEvent) : RedeemRequestedEvent := {|
  rr_RequestTxHash := HexStrToBytes32 (ar_RequestTxHash ev);
  rr_Requester := bytes_of_string (ar_Requester ev); rr_Receiver := ar_Receiver ev;
  rr_Amount := Some (ar_Amount ev);
  rr_IsValidReceiver := match BtcChainConfig with
                        | Some IsValidBtcAddress => IsValidBtcAddress (ar_Receiver ev)
                        | None => false
                        end |}.
Definition aptos_events (evs : list aMintedEvent * list aRedeemRequestedEvent * list aRedeemPreparedEvent) : events :=
  let '(minted, requested, prepared) := evs in
  {| ev_minted := agreement_minted <$> minted; ev_requested := aptos_requested <$> requested;
     ev_prepared := agreement_prepared <$> prepared |}.
(** Versions are below 2^63: their conversions to [int64] and [uint64] are the identity. *)
Definition aptos_worker : NumberWorker := {|
  newest_number r := exists s, r = result GetLatestFinalizedVersion s;
  fetch_number i newFinalized r := exists s, r = aptos_events <$> result (GetModuleEvents aptman i newFinalized) s |}.
End aptos.

Section aptos_repeats.
Context `{EL : EthLibLaws, GL : GobLaws}.
Context {N : Type} `{AN : !AptosNode N}.
Variables (aptman : Aptosman) (BtcChainConfig : option (string -> bool)).
(** a node whose lists of events do not change while it is read *)
Variable listed_events : list aMintedEvent * list aRedeemRequestedEvent * list aRedeemPreparedEvent.
Definition steady_lists : Prop := forall s evs,
  result (GetModuleEvents aptman 0 0) s = Ok evs -> evs = listed_events.
Definition every_version : Ledger := {|
  ledger_minted _ := ev_minted (aptos_events BtcChainConfig listed_events);
  ledger_requested _ := ev_requested (aptos_events BtcChainConfig listed_events);
  ledger_prepared _ := ev_prepared (aptos_events BtcChainConfig listed_events) |}.
Lemma between_const {A} (l : list A) a b : between (fun _ => l) a b = concat (replicate (Z.to_nat (b - a)) l).
Proof.
  unfold between. rewrite <-(length_seqZ (a + 1) (b - a)).
  induction (seqZ (a + 1) (b - a)) as [|x L IH]; [done|]. cbn. f_equal. exact IH.
Qed.

(** The version-by-version synchronizer repeats: while the node's list of events does not
    change, every version of a tick sends the whole list again, so that after [k] versions each
    event has been sent [k] times. *)
Theorem aptossync_repeats n0 st s :
  steady_lists -> quiet st ->
  let W := aptos_worker aptman BtcChainConfig in
  rtc sys_step (sys_start {| lastFinalized := n0; nat_ := NSelect |} st) s ->
  let k := Z.to_nat (frontier (sync s) - n0) in
  let all := aptos_events BtcChainConfig listed_events in
  minted_stream s = concat (replicate k (ev_minted all)) /\
  requested_stream s = concat (replicate k (ev_requested all)) /\
  prepared_stream s = concat (replicate k (ev_prepared all)).
Proof.
  intros Hsteady Hq W Hr k all.
  assert (answers_ledger (W := W) (L := every_version)) as HW.
  { intros i n ev _ [x Hx]. cbn [fetch_number aptos_worker] in *.
    assert (GetModuleEvents aptman i n = GetModuleEvents aptman 0 0) as Hrange by done.
    rewrite Hrange in Hx. destruct (result (GetModuleEvents aptman 0 0) x) as [evs|e|w] eqn:He; [|done..].
    apply Hsteady in He as ->. cbn in Hx. injection Hx as ->. unfold events_between. rewrite !between_one.
    cbn. by destruct (aptos_events BtcChainConfig listed_events). }
  destruct (answers_ledger_delivered (L := every_version) n0 st s HW Hq Hr) as (_ & M & R & P & _).
  rewrite M, R, P. cbn [ledger_minted ledger_requested ledger_prepared every_version]. by rewrite !between_const.
Qed.
End aptos_repeats.

(** ** Concrete nodes *)
Module ToyEth.
(** a growing chain whose block 2 holds one request and its preparation; the node's state is the
    height of the chain *)
Definition toy_block (i : Z) : list bridge_event :=
  if i =? 2 then [BRequested (sample_hash 1) (replicate 20 (byte_of_Z 7)) 100 "bc1q";
                  BPrepared (sample_hash 2) (sample_hash 1) (replicate 20 (byte_of_Z 7)) "bc1q" 100
                    [sample_hash 3] [1]]
  else [].
Definition toy_logs : list Log := [
  {| Topics := [RedeemRequestedSignatureHash]; Data := []; log_TxHash := sample_hash 1 |};
  {| Topics := [RedeemPreparedSignatureHash; sample_hash 1]; Data := []; log_TxHash := sample_hash 2 |}].
#[local] Instance toy_eth : EthClient Z := {|
  BlockByNumber _ height := (Ok height, height);
  FilterLogs i _ _ height := (Ok (if (i =? 2) && (2 <=? height) then toy_logs else []), height);
  PendingNonceAt _ := mret 0;
  HeaderByHash h := mret {| h_Hash := h; h_Number := 2 |};
  HeaderByNumber _ := mret {| h_Hash := sample_hash 9; h_Number := 2 |};
  TransactionReceipt _ := mret None; BalanceAt _ := mret 0; ChainID := mret 1337; bridgeABI := Ok tt;
  Unpack_Minted _ := Err "abi"; Unpack_RedeemRequested _ := Ok (replicate 20 (byte_of_Z 7), 100, "bc1q"%string);
  Unpack_RedeemPrepared _ := Ok (replicate 20 (byte_of_Z 7), "bc1q"%string, 100, [sample_hash 3], [1]);
  NewTEENetBtcBridge _ := Ok tt; NewTWBTC _ := Ok tt;
  bridge_Mint _ _ _ _ _ _ := mret {| tx_Hash := sample_hash 8 |};
  bridge_RedeemRequest _ _ _ := mret {| tx_Hash := sample_hash 8 |};
  bridge_RedeemPrepare _ _ _ _ _ _ _ _ _ := mret {| tx_Hash := sample_hash 8 |};
  bridge_Twbtc := mret []; bridge_Pk := mret 0; bridge_IsPrepared _ := mret false;
  bridge_IsMinted _ := mret false; bridge_IsUsed _ := mret false; twbtc_BalanceOf _ := mret 0;
  twbtc_Approve _ _ _ := mret {| tx_Hash := sample_hash 8 |}; twbtc_Allowance _ _ := mret 0 |}.
Definition toy_etherman : Etherman := {|
  ecfg := {| ec_URL := EmptyString; BridgeContractAddress := []; TWBTCContractAddress := [] |};
  auth := {| From := []; Nonce := None |} |}.
Lemma toy_topics : distinct_topics.
Proof.
  unfold distinct_topics. split_and!; intros H; apply (bool_decide_eq_true_2 (_ = _)) in H;
    vm_compute in H; discriminate.
Qed.
Lemma toy_final : final_logs false toy_etherman toy_block Z.le.
Proof.
  intros s0 s n i l. unfold toy_block. cbn. intros [= <-] Hs Hi [= <-].
  destruct (Z.eqb_spec i 2) as [->|]; [|constructor]. destruct (Z.leb_spec 2 s); [|lia]. cbn.
  repeat constructor.
Qed.
(** before block 2 exists the node returns no logs for it *)
Example toy_grows : result (FilterLogs 2 2 [[]]) 1 = Ok [] /\ result (FilterLogs 2 2 [[]]) 2 = Ok toy_logs.
Proof. by split. Qed.
Definition toy_y (p : nplace) (l : loop) (f : list fetch) : system Synchronizer_ :=
  {| sync := {| lastFinalized := 1; nat_ := p |}; st_loop := l; handled := []; fetches := f |}.
Definition toy_fetch : outcome events := eth_events (fun _ => true) <$> result (GetEventLogs toy_etherman 2) 3.
Definition toy_events : events := match toy_fetch with Ok ev => ev | _ => {| ev_minted := []; ev_requested := []; ev_prepared := [] |} end.
Definition toy_fetching : system Synchronizer_ :=
  toy_y (NSending (sends toy_events) 2 2) toy_loop [{| f_old := 1; f_new := 2; f_events := toy_events |}].
#[local] Instance toy_eth_worker : NumberWorker := eth_worker false toy_etherman (fun _ => true) Z.le.
Lemma toy_eth_reachable : rtc sys_step (sys_start {| lastFinalized := 1; nat_ := NSelect |} sample_state) toy_fetching.
Proof.
  apply (rtc_l _ _ (toy_y (NSendingNumber 2) (start sample_state) [])).
  { apply (sys_sync (toy_y NSelect (start sample_state) []) None {| lastFinalized := 1; nat_ := NSendingNumber 2 |}).
    exists (Tick (Ok 2)). split; [by exists 2|done]. }
  apply (rtc_l _ _ (toy_y (NNumber 2 2) toy_loop [])).
  { apply (sys_sync (toy_y (NSendingNumber 2) (start sample_state) []) None {| lastFinalized := 1; nat_ := NNumber 2 2 |}).
    exists Go. split; [done|]. split; [done|]. vm_compute. reflexivity. }
  apply rtc_once.
  apply (sys_sync (toy_y (NNumber 2 2) toy_loop [])
    (nanswered (Reply toy_fetch) {| lastFinalized := 1; nat_ := NNumber 2 2 |})
    {| lastFinalized := 1; nat_ := NSending (sends toy_events) 2 2 |}).
  exists (Reply toy_fetch). split; [by exists 2, 3|]. split; [done|]. vm_compute. reflexivity.
Qed.
Lemma eth_sync_delivers_witness :
  ledger_delivered (L := eth_ledger (fun _ => true) toy_block) 1 toy_fetching /\
  (rp_RequestTxHash <$> prepared_stream toy_fetching) = [sample_hash 1].
Proof.
  split; [|vm_compute; reflexivity].
  apply (eth_sync_delivers false toy_etherman (fun _ => true) toy_topics toy_block Z.le 1 sample_state);
    [exact toy_final|exact toy_quiet|exact toy_eth_reachable].
Defined.

End ToyEth.

(** the node of [Aptosman], read version by version *)
Module ToyAptos.
#[local] Existing Instance toy_aptos.
Definition toy_listed := match result (GetModuleEvents toy_aptosman 0 0) tt with Ok l => l | _ => ([], [], []) end.
#[local] Instance toy_aptos_worker : NumberWorker := aptos_worker toy_aptosman None.
Definition toy_y (p : nplace) (l : loop) (f : list fetch) : system Synchronizer_ :=
  {| sync := {| lastFinalized := 1299; nat_ := p |}; st_loop := l; handled := []; fetches := f |}.
Definition toy_loop : loop := do_env (SendBlk 1300) (start sample_state).
Definition toy_sent : list input := sends (aptos_events None toy_listed).
Definition toy_sending : system Synchronizer_ := toy_y (NSending toy_sent 1300 1300) toy_loop
  [{| f_old := 1299; f_new := 1300; f_events := aptos_events None toy_listed |}].
Lemma toy_aptos_reachable :
  rtc sys_step (sys_start {| lastFinalized := 1299; nat_ := NSelect |} sample_state) toy_sending.
Proof.
  apply (rtc_l _ _ (toy_y (NSendingNumber 1300) (start sample_state) [])).
  { apply (sys_sync (toy_y NSelect (start sample_state) []) None {| lastFinalized := 1299; nat_ := NSendingNumber 1300 |}).
    exists (Tick (Ok 1300)). split; [by exists tt|done]. }
  apply (rtc_l _ _ (toy_y (NNumber 1300 1300) toy_loop [])).
  { apply (sys_sync (toy_y (NSendingNumber 1300) (start sample_state) []) None {| lastFinalized := 1299; nat_ := NNumber 1300 1300 |}).
    exists Go. split; [done|]. split; [done|]. vm_compute. reflexivity. }
  apply rtc_once.
  set (reply := aptos_events None <$> result (GetModuleEvents toy_aptosman 1300 1300) tt).
  apply (sys_sync (toy_y (NNumber 1300 1300) toy_loop [])
    (nanswered (Reply reply) {| lastFinalized := 1299; nat_ := NNumber 1300 1300 |})
    {| lastFinalized := 1299; nat_ := NSending toy_sent 1300 1300 |}).
  exists (Reply reply). split; [by exists tt|]. split; [done|]. vm_compute. reflexivity.
Qed.
Lemma toy_steady : steady_lists toy_aptosman toy_listed.
Proof. intros [] evs H. unfold toy_listed. by rewrite H. Qed.
Lemma aptossync_repeats_witness :
  minted_stream toy_sending =
    concat (replicate 1 (ev_minted (aptos_events None toy_listed))).
Proof.
  exact (proj1 (aptossync_repeats toy_aptosman None toy_listed 1299 sample_state _ toy_steady toy_quiet toy_aptos_reachable)).
Defined.
End ToyAptos.
