(* ===== verification/EthTxManagerDB.v ===== *)
(** * EthTxManagerDB: the Ethereum transactions the manager tracks (ethtxmanager/types.go,
    schema.go, ethtxmanagerdb.go).

    The table [MonitoredTx] with its constraints and the operations on it. The driver may fail
    any statement while it is prepared or executed. *)
From S2P Require Export Database Agreement.

Record eMonitoredTx := {
  et_TxHash : bytes; et_RefIdentifier : bytes; et_SentAfter : bytes; et_SentAfterBlk : Z;
  et_MinedAt : bytes; et_Status : MonitoredTxStatus }.
(** [sqlMonitoredTx]: hashes are hexadecimal text; an absent [minedAt] is the empty string *)
Record sqlMonitoredTx := {
  sm_TxHash : string; sm_Id : string; sm_SentAfter : string; sm_SentAfterBlk : Z;
  sm_MinedAt : string; sm_Status : string }.

(** ** schema.go *)
Record mtx_row := {
  mt_txHash : string; mt_id : string; mt_sentAfter : string; mt_minedAt : option string;
  mt_status : string }.
Definition strZeroBytes32' : string := string_of_bytes (replicate 64 "0"%char).
Definition mtx_statuses : list string := [Pending; Timeout; Success; Reverted; Reorg].
Definition mtx_check (r : mtx_row) : bool :=
  negb (String.eqb (mt_txHash r) strZeroBytes32') && negb (String.eqb (mt_id r) strZeroBytes32') &&
  negb (String.eqb (mt_sentAfter r) strZeroBytes32') &&
  match mt_minedAt r with Some m => negb (String.eqb m strZeroBytes32') | None => true end &&
  bool_decide (mt_status r ∈ mtx_statuses).
Definition MonitoredTxTable (t : list mtx_row) : bool := forallb mtx_check t && nodupb (mt_txHash <$> t).

Record EthTxManagerDB := { mtx_table : list mtx_row; mtx_fault : faults }.
Definition NewEthTxManagerDB (f : faults) : outcome EthTxManagerDB :=
  match f Executing "CREATE TABLE IF NOT EXISTS MonitoredTx" with
  | Some e => Err e | None => Ok {| mtx_table := []; mtx_fault := f |} end.

Section db.
Context `{E : EthLib}.

Definition hash_text (h : bytes) : string := drop_string 2 (HashString h).
Definition sqlMonitoredTx_encode (mt : eMonitoredTx) : sqlMonitoredTx := {|
  sm_TxHash := hash_text (et_TxHash mt); sm_Id := hash_text (et_RefIdentifier mt);
  sm_SentAfter := hash_text (et_SentAfter mt); sm_SentAfterBlk := et_SentAfterBlk mt;
  sm_MinedAt := hash_text (et_MinedAt mt); sm_Status := et_Status mt |}.
Definition sqlMonitoredTx_decode (s : sqlMonitoredTx) : eMonitoredTx := {|
  et_TxHash := HexStrToBytes32 (sm_TxHash s); et_RefIdentifier := HexStrToBytes32 (sm_Id s);
  et_SentAfter := HexStrToBytes32 (sm_SentAfter s); et_SentAfterBlk := sm_SentAfterBlk s;
  et_MinedAt := HexStrToBytes32 (sm_MinedAt s); et_Status := sm_Status s |}.
(** the columns of [SELECT *] into a fresh [sqlMonitoredTx]: there is none for the block number *)
Definition scan_mtx (r : mtx_row) : sqlMonitoredTx := {|
  sm_TxHash := mt_txHash r; sm_Id := mt_id r; sm_SentAfter := mt_sentAfter r; sm_SentAfterBlk := 0;
  sm_MinedAt := default EmptyString (mt_minedAt r); sm_Status := mt_status r |}.
Definition read_mtx (r : mtx_row) : eMonitoredTx := sqlMonitoredTx_decode (scan_mtx r).

Definition mtx_sql (q : string) : M EthTxManagerDB unit :=
  may_fail mtx_fault Preparing q ;; may_fail mtx_fault Executing q.
Definition commit_mtx (t : list mtx_row) : M EthTxManagerDB unit := fun s =>
  if MonitoredTxTable t then (Ok tt, {| mtx_table := t; mtx_fault := mtx_fault s |})
  else (Err "constraint failed", s).

Definition InsertPendingMonitoredTx (mt : eMonitoredTx) : M EthTxManagerDB unit :=
  mtx_sql "INSERT INTO MonitoredTx (txHash, id, sentAfter, status)" ;;
  let sqlMt := sqlMonitoredTx_encode mt in
  t ← gets mtx_table;
  commit_mtx (t ++ [{| mt_txHash := sm_TxHash sqlMt; mt_id := sm_Id sqlMt; mt_sentAfter := sm_SentAfter sqlMt;
                       mt_minedAt := None; mt_status := Pending |}]).
Definition eInsertMonitoredTx (mt : eMonitoredTx) : M EthTxManagerDB unit :=
  mtx_sql "INSERT INTO MonitoredTx (txHash, id, sentAfter, minedAt, status)" ;;
  let sqlMt := sqlMonitoredTx_encode mt in
  let minedAt := if bool_decide (et_MinedAt mt = EmptyHash) then None else Some (hash_text (et_MinedAt mt)) in
  t ← gets mtx_table;
  commit_mtx (t ++ [{| mt_txHash := sm_TxHash sqlMt; mt_id := sm_Id sqlMt; mt_sentAfter := sm_SentAfter sqlMt;
                       mt_minedAt := minedAt; mt_status := sm_Status sqlMt |}]).
Definition eGetMonitoredTxByTxHash (txHash : bytes) : M EthTxManagerDB (option eMonitoredTx) :=
  mtx_sql "SELECT * FROM MonitoredTx WHERE txHash = ?" ;;
  t ← gets mtx_table; mret (read_mtx <$> find_row mt_txHash t (hash_text txHash)).
Definition GetMonitoredTxsById (Id : bytes) : M EthTxManagerDB (list eMonitoredTx) :=
  mtx_sql "SELECT * FROM MonitoredTx WHERE id = ?" ;;
  t ← gets mtx_table; mret (read_mtx <$> filter (fun r => mt_id r = hash_text Id) t).
Definition GetMonitoredTxsByStatus (status : MonitoredTxStatus) : M EthTxManagerDB (list eMonitoredTx) :=
  mtx_sql "SELECT * FROM MonitoredTx WHERE status = ?" ;;
  t ← gets mtx_table; mret (read_mtx <$> filter (fun r => mt_status r = status) t).
Definition with_status (st : string) (r : mtx_row) : mtx_row := {|
  mt_txHash := mt_txHash r; mt_id := mt_id r; mt_sentAfter := mt_sentAfter r; mt_minedAt := mt_minedAt r;
  mt_status := st |}.
Definition with_mined (at_ st : string) (r : mtx_row) : mtx_row := {|
  mt_txHash := mt_txHash r; mt_id := mt_id r; mt_sentAfter := mt_sentAfter r; mt_minedAt := Some at_;
  mt_status := st |}.
Definition UpdateMonitoredTxStatus (txHash : bytes) (status : MonitoredTxStatus) : M EthTxManagerDB unit :=
  mtx_sql "UPDATE MonitoredTx SET status = ? WHERE txHash = ?" ;;
  t ← gets mtx_table; commit_mtx (update_rows mt_txHash t (hash_text txHash) (with_status status)).
Definition UpdateMonitoredTxAfterMined (txHash minedAt : bytes) (status : MonitoredTxStatus)
    : M EthTxManagerDB unit :=
  if negb (String.eqb status Success) && negb (String.eqb status Reverted) then throw "invalid status"
  else if bool_decide (minedAt = EmptyHash) then throw "mintedAt not set"
  else
    mtx_sql "UPDATE MonitoredTx SET minedAt = ?, status = ? WHERE txHash = ?" ;;
    t ← gets mtx_table;
    commit_mtx (update_rows mt_txHash t (hash_text txHash) (with_mined (hash_text minedAt) status)).
Definition eDeleteMonitoredTxByTxHash (txHash : bytes) : M EthTxManagerDB unit :=
  mtx_sql "DELETE FROM MonitoredTx WHERE txHash = ?" ;;
  t ← gets mtx_table; commit_mtx (filter (fun r => mt_txHash r <> hash_text txHash) t).
End db.

(** ** Lemmas *)
Section lemmas.
Context `{EL : EthLibLaws}.
Lemma hash_text_eq h : hash_text h = hex_encode h.
Proof. apply HashString_drop. Qed.
Lemma mtx_sql_ok s q : mtx_fault s = no_faults -> mtx_sql q s = (Ok tt, s).
Proof. intros H. unfold mtx_sql. rewrite bind_eq. unfold may_fail. rewrite !H. cbn. by rewrite H. Qed.
Lemma GetMonitoredTxsById_eq s id : mtx_fault s = no_faults ->
  GetMonitoredTxsById id s = (Ok (read_mtx <$> filter (fun r => mt_id r = hex_encode id) (mtx_table s)), s).
Proof. intros H. unfold GetMonitoredTxsById. mstep. rewrite mtx_sql_ok by done. mstep. by rewrite hash_text_eq. Qed.
Lemma read_mtx_status r : et_Status (read_mtx r) = mt_status r.
Proof. done. Qed.

(** A tracked transaction is read back with its hash, its reference and the hash of the block
    it was sent after; the number of that block, which the table does not hold, comes back as 0. *)
Lemma InsertPending_read s mt s' : mtx_fault s = no_faults ->
  length (et_TxHash mt) = 32%nat -> length (et_RefIdentifier mt) = 32%nat -> length (et_SentAfter mt) = 32%nat ->
  InsertPendingMonitoredTx mt s = (Ok tt, s') ->
  exists l, GetMonitoredTxsById (et_RefIdentifier mt) s' =
    (Ok (l ++ [{| et_TxHash := et_TxHash mt; et_RefIdentifier := et_RefIdentifier mt;
                  et_SentAfter := et_SentAfter mt; et_SentAfterBlk := 0; et_MinedAt := zeros 32;
                  et_Status := Pending |}]), s').
Proof.
  intros Hf L1 L2 L3. unfold InsertPendingMonitoredTx. mstep. rewrite mtx_sql_ok by done. mstep.
  unfold commit_mtx. destruct (MonitoredTxTable _); [|done]. intros [= <-].
  rewrite GetMonitoredTxsById_eq by done. cbn [mtx_table sqlMonitoredTx_encode sm_TxHash sm_Id sm_SentAfter].
  rewrite filter_app, filter_cons, decide_True by (cbn; apply hash_text_eq). rewrite filter_nil, fmap_app.
  eexists. do 3 f_equal. unfold read_mtx, scan_mtx, sqlMonitoredTx_decode. cbn.
  rewrite !hash_text_eq, !HexStrToBytes32_hex by done. do 2 f_equal.
  unfold HexStrToBytes32. rewrite copy_array_exact by apply Hex2BytesFixed_length.
  rewrite (Hex2BytesFixed_spec _ []); [done|done|cbn; lia].
Qed.
(** Every write keeps the constraints of the table. *)
Lemma commit_mtx_keeps t : keeps (fun s => MonitoredTxTable (mtx_table s) = true) (commit_mtx t).
Proof. intros s Hs. unfold run, commit_mtx. by destruct (MonitoredTxTable t) eqn:?. Qed.
Lemma mtx_sql_keeps q : keeps (fun s => MonitoredTxTable (mtx_table s) = true) (mtx_sql q).
Proof. apply keeps_bind; [apply keeps_may_fail|intros _; apply keeps_may_fail]. Qed.
#[local] Hint Resolve commit_mtx_keeps mtx_sql_keeps : golib.
Lemma mtx_writes_keep mt h m st :
  let P := fun s => MonitoredTxTable (mtx_table s) = true in
  keeps P (InsertPendingMonitoredTx mt) /\ keeps P (eInsertMonitoredTx mt) /\
  keeps P (UpdateMonitoredTxStatus h st) /\ keeps P (UpdateMonitoredTxAfterMined h m st) /\
  keeps P (eDeleteMonitoredTxByTxHash h).
Proof.
  intros P. unfold InsertPendingMonitoredTx, eInsertMonitoredTx, UpdateMonitoredTxStatus,
    UpdateMonitoredTxAfterMined, eDeleteMonitoredTxByTxHash.
  split_and!; repeat case_match; subst P; keeps_auto.
Qed.
End lemmas.
