(* ===== verification/EthTxManager.v ===== *)
(** * EthTxManager: minting and preparing redeems on Ethereum (ethtxmanager/ethtxmanager.go,
    mint.go, prepare.go, monitor.go).

    One definition per step of the manager over its two databases and the node, and [Loop] as a
    transition system. Each tick starts one goroutine per transaction and waits for all of them:
    their bodies are run as atomic steps, in any order, each of which may send an error on the
    channel that only the loop reads. *)
From Stdlib Require Import Permutation.
From S2P Require Export Etherman EthTxManagerDB.

(** what a goroutine gets from a channel it waits on with a timeout *)
Inductive waited (A : Type) := Received (a : A) | TimedOut | Cancelled.
Arguments Received {A} a.
Arguments TimedOut {A}.
Arguments Cancelled {A}.
(** The asynchronous signer and the Bitcoin wallet (agreement/interface.go): a request, and what
    arrives on the channel that was passed with it *)
Class Wallets (N : Type) := {
  SignAsync : SignatureRequest -> M N unit;
  signature_channel : bytes -> M N (waited (option Z * option Z));
  Request : bytes -> option Z -> M N unit;
  outpoints_channel : bytes -> M N (waited (list BtcOutpoint)) }.

Definition ErrDBOpGetMonitoredTxs : error := "failed to get monitored txs".
Definition ErrDBOpGetRedeemsByStatus : error := "failed to get redeems by status".
Definition ErrDBOpGetUnMinted : error := "failed to get unminted".
Definition ErrBridgeIsMinted : error := "failed to call bridge.IsMinted".
Definition ErrEthermanMint : error := "failed to call etherman.Mint".
Definition ErrBridgeIsPrepared : error := "failed to call bridge.IsPrepared".
Definition ErrDBOpGetMonitoredTxByID : error := "failed to get monitored tx by id".
Definition ErrDBOpGetSignatureRequestByRequestTxHash : error := "failed to get signature request by request tx hash".
Definition ErrBtcWalletRequest : error := "failed to request spendable outpoints from btc wallet".
Definition ErrSchnorrWalletSign : error := "failed to request signature from schnorr wallet".
Definition ErrDBOpInsertSignatureRequest : error := "failed to insert signature request in db".
Definition ErrBridgeRedeemPrepare : error := "failed to call bridge.RedeemPrepare".
Definition ErrDBOpInsertMonitoredTx : error := "failed to insert monitored tx in db".
Definition ErrEmptyOutpointsReturned : error := "empty outpoints returned".
Definition ErrInvalidSchnorrSignature : error := "invalid schnorr signature".
Definition ErrDBOpRemoveMonitoredTx : error := "failed to remove monitored tx after mined".
Definition ErrDBOpUpdateMonitoredTxStatus : error := "failed to update monitored tx status".
Definition ErrEthermanTransactionReceipt : error := "failed to get transaction receipt".
Definition ErrEthermanHeaderByNumber : error := "failed to get latest block header by number".
Definition ErrEthermanHeaderByHash : error := "failed to get latest block header by hash".

Record EthTxMgrConfig := { TimeoutOnMonitoringPendingTxs : Z }.
Section types.
Context {N : Type}.
Record EthTxManager := {
  tm_cfg : EthTxMgrConfig; tm_etherman : Etherman; tm_statedb : StateDB; tm_mgrdb : EthTxManagerDB;
  tm_node : N; tm_pubKey : bytes; redeemLock : gset bytes; mintLock : gset bytes }.
End types.
Arguments EthTxManager N : clear implicits.

Section manager.
Context `{E : EthLib, GL : GobLib, SL : SchnorrLib}.
Context {N : Type} `{EC : !EthClient N, WA : !Wallets N}.
Abbreviation T := (EthTxManager N).

Definition on_statedb {A} (m : M StateDB A) : M T A := zoom tm_statedb (fun x s => {|
  tm_cfg := tm_cfg s; tm_etherman := tm_etherman s; tm_statedb := x; tm_mgrdb := tm_mgrdb s;
  tm_node := tm_node s; tm_pubKey := tm_pubKey s; redeemLock := redeemLock s; mintLock := mintLock s |}) m.
Definition on_mgrdb {A} (m : M EthTxManagerDB A) : M T A := zoom tm_mgrdb (fun x s => {|
  tm_cfg := tm_cfg s; tm_etherman := tm_etherman s; tm_statedb := tm_statedb s; tm_mgrdb := x;
  tm_node := tm_node s; tm_pubKey := tm_pubKey s; redeemLock := redeemLock s; mintLock := mintLock s |}) m.
Definition on_node {A} (m : M N A) : M T A := zoom tm_node (fun x s => {|
  tm_cfg := tm_cfg s; tm_etherman := tm_etherman s; tm_statedb := tm_statedb s; tm_mgrdb := tm_mgrdb s;
  tm_node := x; tm_pubKey := tm_pubKey s; redeemLock := redeemLock s; mintLock := mintLock s |}) m.
(** a call of the Ethereum client *)
Definition on_eth {A} (m : Etherman -> M N A) : M T A := e ← gets tm_etherman; on_node (m e).
Definition set_locks (r m : gset bytes) (s : T) : T := {|
  tm_cfg := tm_cfg s; tm_etherman := tm_etherman s; tm_statedb := tm_statedb s; tm_mgrdb := tm_mgrdb s;
  tm_node := tm_node s; tm_pubKey := tm_pubKey s; redeemLock := r; mintLock := m |}.
(** [lock.Store(k, true); defer lock.Delete(k)] around a body *)
Definition with_mintLock {A} (k : bytes) (m : M T A) : M T A := fun s =>
  let '(o, s') := m (set_locks (redeemLock s) ({[k]} ∪ mintLock s) s) in
  (o, set_locks (redeemLock s') (mintLock s' ∖ {[k]}) s').
Definition with_redeemLock {A} (k : bytes) (m : M T A) : M T A := fun s =>
  let '(o, s') := m (set_locks ({[k]} ∪ redeemLock s) (mintLock s) s) in
  (o, set_locks (redeemLock s' ∖ {[k]}) (mintLock s') s').

Definition NewEthTxManager (c : EthTxMgrConfig) (e : Etherman) (st : StateDB) (db : EthTxManagerDB) (n : N)
    : outcome (EthTxManager N) * N :=
  let '(o, n') := eGetPublicKey e n in
  (pk ← o; pubKey ← BigInt2Bytes32 pk;
   Ok {| tm_cfg := c; tm_etherman := e; tm_statedb := st; tm_mgrdb := db; tm_node := n';
         tm_pubKey := pubKey; redeemLock := ∅; mintLock := ∅ |}, n').

(** *** Signatures and outpoints *)
(** When the timeout of its own context expires it returns [nil, ctx.Err()], the error of the
    parent, which is nil: no request and no error. *)
Definition waitForSignature (id signingHash : bytes) : M T (option (option Z * option Z)) :=
  r ← on_node (signature_channel id);
  match r with
  | TimedOut => mret None
  | Cancelled => throw "context canceled"
  | Received req =>
      pk ← gets tm_pubKey;
      rx ← lift (BigIntClone req.1);
      s ← lift (BigIntClone req.2);
      ok ← lift (Verify pk signingHash rx s);
      if ok : bool then mret (Some req) else throw ErrInvalidSchnorrSignature
  end.
(** [req.Rx], [req.S] through the pointer, cloned *)
Definition signature_of (req : option (option Z * option Z)) : outcome (Z * Z) :=
  match req with
  | None => Panic "nil pointer dereference"
  | Some req => rx ← BigIntClone req.1; s ← BigIntClone req.2; Ok (rx, s)
  end.
Definition waitforOutpoints (id : bytes) : M T (list BtcOutpoint) :=
  r ← on_node (outpoints_channel id);
  match r with
  | TimedOut => throw "context deadline exceeded"
  | Cancelled => throw "context canceled"
  | Received outpoints => match outpoints with [] => throw ErrEmptyOutpointsReturned | _ => mret outpoints end
  end.
Definition request_signature (id signingHash : bytes) : M T unit :=
  with_err ErrSchnorrWalletSign (on_node (SignAsync
    {| sr_Id := id; sr_SigningHash := signingHash; sr_Outpoints := []; sr_Rx := None; sr_S := None |})).

(** the header read before a transaction is sent, the send, and its record *)
Definition submit (E0 : error) (send : Etherman -> M N Transaction) (ref : bytes) : M T bytes :=
  latest ← with_err ErrEthermanHeaderByNumber (on_node (HeaderByNumber None));
  tx ← with_err E0 (on_eth send);
  with_err ErrDBOpInsertMonitoredTx (on_mgrdb (InsertPendingMonitoredTx
    {| et_TxHash := tx_Hash tx; et_RefIdentifier := ref; et_SentAfter := h_Hash latest;
       et_SentAfterBlk := big_Int64 (h_Number latest); et_MinedAt := EmptyHash; et_Status := EmptyString |})) ;;
  mret (tx_Hash tx).

(** *** mint.go *)
Definition createMintTx (params : eMintParams) : M T unit :=
  submit ErrEthermanMint (fun e => eMint e params) (em_BtcTxId params) ;; mret tt.
Definition mint (m : Mint) : M T unit := with_mintLock (m_BtcTxId m) (
  ok ← with_err ErrBridgeIsMinted (on_eth (fun e => eIsMinted e (m_BtcTxId m)));
  if ok : bool then mret tt
  else
    amount ← lift (BigIntClone (m_Amount m));
    let params rx s := {| em_BtcTxId := m_BtcTxId m; em_Amount := amount; em_Receiver := m_Receiver m;
                          em_Rx := rx; em_S := s |} in
    signingHash ← lift (eMint_SigningHash (params 0 0));
    request_signature (m_BtcTxId m) signingHash ;;
    req ← waitForSignature (m_BtcTxId m) signingHash;
    sig ← lift (signature_of req);
    createMintTx (params sig.1 sig.2)).

(** *** prepare.go *)
Definition createPrepareParams (redeem : Redeem) (outpoints : list BtcOutpoint) (amount rx s : Z) : ePrepareParams := {|
  ep_RequestTxHash := RequestTxHash redeem; ep_Requester := Requester redeem; ep_Receiver := Receiver redeem;
  ep_Amount := amount; ep_OutpointTxIds := BtcTxId <$> outpoints; ep_OutpointIdxs := BtcIdx <$> outpoints;
  ep_Rx := rx; ep_S := s |}.
Definition createRedeemPrepareTx (params : ePrepareParams) : M T bytes :=
  submit ErrBridgeRedeemPrepare (fun e => eRedeemPrepare e params) (ep_RequestTxHash params).
Definition prepareRedeem (redeem : Redeem) : M T bytes := with_redeemLock (RequestTxHash redeem) (
  found ← with_err ErrBridgeIsPrepared (on_eth (fun e => eIsPrepared e (RequestTxHash redeem)));
  if found : bool then mret (PrepareTxHash redeem)
  else
    with_err ErrBtcWalletRequest (on_node (Request (RequestTxHash redeem) (Amount redeem))) ;;
    outpoints ← waitforOutpoints (RequestTxHash redeem);
    amount ← lift (BigIntClone (Amount redeem));
    signingHash ← lift (ePrepare_SigningHash (createPrepareParams redeem outpoints amount 0 0));
    request_signature (RequestTxHash redeem) signingHash ;;
    req ← waitForSignature (RequestTxHash redeem) signingHash;
    sig ← lift (signature_of req);
    createRedeemPrepareTx (createPrepareParams redeem outpoints amount sig.1 sig.2)).

(** *** monitor.go *)
(** its first half, on the receipt *)
Definition mark_mined (mtx : eMonitoredTx) : M T unit :=
  r ← try (on_node (TransactionReceipt (et_TxHash mtx)));
  receipt ← match r with
            | inl err => if String.eqb err NotFound then mret None else throw ErrEthermanTransactionReceipt
            | inr receipt => mret receipt
            end;
  match receipt with
  | Some rc => match rc_BlockNumber rc with
               | Some _ => with_err ErrDBOpUpdateMonitoredTxStatus (on_mgrdb (UpdateMonitoredTxStatus (et_TxHash mtx)
                             (if rc_Status rc =? 0 then Reverted else Success)))
               | None => mret tt
               end
  | None => mret tt
  end.
(** its second half, on the age *)
Definition mark_timeout (mtx : eMonitoredTx) : M T unit :=
  h ← try (on_node (HeaderByHash (et_SentAfter mtx)));
  sentAfter ← match h with
              | inr h => mret h
              | inl _ => with_err ErrEthermanHeaderByHash (on_node (HeaderByNumber (Some (et_SentAfterBlk mtx))))
              end;
  latest ← with_err ErrEthermanHeaderByNumber (on_node (HeaderByNumber None));
  limit ← gets (fun s => TimeoutOnMonitoringPendingTxs (tm_cfg s));
  let diff := u64 (big_Uint64 (h_Number latest) - big_Uint64 (h_Number sentAfter)) in
  if limit <? diff
  then with_err ErrDBOpUpdateMonitoredTxStatus (on_mgrdb (UpdateMonitoredTxStatus (et_TxHash mtx) Timeout))
  else mret tt.
Definition monitorPendingTxs (mtx : eMonitoredTx) : M T unit := mark_mined mtx ;; mark_timeout mtx.

(** *** The loop of ethtxmanager.go *)
Inductive econtrol :=
  | ERunning
  | EStuck                 (** waits for ever: on the full [errCh], or in [wg.Wait] *)
  | EReturned (e : error)
  | EDied (why : string).  (** a panic, or [logger.Fatal] *)
Record eloop := { el_mgr : T; el_errCh : list error; el_ctl : econtrol }.
Definition el_start (s : T) : eloop := {| el_mgr := s; el_errCh := []; el_ctl := ERunning |}.

(** the errors the switch names; any other one is fatal *)
Definition loop_errors : list error :=
  ["context canceled"; "context deadline exceeded"; ErrBridgeIsPrepared; ErrBridgeRedeemPrepare;
   ErrBridgeIsMinted; ErrEthermanHeaderByNumber; ErrEthermanTransactionReceipt; ErrEthermanHeaderByHash;
   ErrDBOpGetMonitoredTxByID; ErrDBOpGetSignatureRequestByRequestTxHash; ErrDBOpInsertMonitoredTx;
   ErrDBOpInsertSignatureRequest; ErrDBOpRemoveMonitoredTx; ErrDBOpGetRedeemsByStatus;
   ErrDBOpGetMonitoredTxs; ErrDBOpGetUnMinted; ErrBtcWalletRequest; ErrSchnorrWalletSign]%string.

(** What the goroutines of a tick leave: the errors they send, whether one was not started because
    its lock is held (its [wg.Done] is then never called), a panic, and the state *)
Record batch_result := { b_errs : list error; b_skipped : bool; b_died : option string; b_mgr : T }.
Fixpoint run_all {A} (locked : A -> T -> bool) (body : A -> M T unit) (items : list A) (s : T) : batch_result :=
  match items with
  | [] => {| b_errs := []; b_skipped := false; b_died := None; b_mgr := s |}
  | x :: items =>
      if locked x s
      then let b := run_all locked body items s in
           {| b_errs := b_errs b; b_skipped := true; b_died := b_died b; b_mgr := b_mgr b |}
      else match body x s with
           | (Ok _, s) => run_all locked body items s
           | (Err e, s) =>
               let b := run_all locked body items s in
               {| b_errs := e :: b_errs b; b_skipped := b_skipped b; b_died := b_died b; b_mgr := b_mgr b |}
           | (Panic w, s) => {| b_errs := []; b_skipped := false; b_died := Some w; b_mgr := s |}
           end
  end.
(** the errors sent on [errCh], which holds one; the loop goes on only when none has to wait *)
Definition after_sends (errs : list error) (l : eloop) : eloop :=
  let q := el_errCh l ++ errs in
  if (length q <=? 1)%nat then {| el_mgr := el_mgr l; el_errCh := q; el_ctl := el_ctl l |}
  else {| el_mgr := el_mgr l; el_errCh := take 1 q; el_ctl := EStuck |}.
Definition after_batch (report : bool) (b : batch_result) (l : eloop) : eloop :=
  let l := {| el_mgr := b_mgr b; el_errCh := el_errCh l; el_ctl := el_ctl l |} in
  match b_died b with
  | Some w => {| el_mgr := b_mgr b; el_errCh := el_errCh l; el_ctl := EDied w |}
  | None =>
      if b_skipped b then {| el_mgr := b_mgr b; el_errCh := el_errCh l; el_ctl := EStuck |}
      else after_sends (if report then b_errs b else []) l
  end.

(** [isTimeout] over the tracked transactions of an item; an item with none is kept as well *)
Definition all_timed_out (mts : list eMonitoredTx) : bool :=
  forallb (fun mt => String.eqb (et_Status mt) Timeout) mts.
(** the filter of the two ticks: the items kept, and the errors the loop itself sends; after an
    error the list of transactions is empty and the item is kept *)
Fixpoint to_send {A} (ref : A -> bytes) (items : list A) (s : T) : list A * list error :=
  match items with
  | [] => ([], [])
  | x :: items =>
      let '(kept, errs) := to_send ref items s in
      match result (on_mgrdb (GetMonitoredTxsById (ref x))) s with
      | Ok mts => (if all_timed_out mts then x :: kept else kept, errs)
      | _ => (x :: kept, ErrDBOpGetMonitoredTxByID :: errs)
      end
  end.

(** [order] is the order in which the scheduler runs the goroutines. *)
Definition tick_monitor (order : forall A, list A -> list A) (l : eloop) : eloop :=
  match result (on_mgrdb (GetMonitoredTxsByStatus Pending)) (el_mgr l) with
  | Ok mtxs => after_batch true (run_all (fun _ _ => false) monitorPendingTxs (order _ mtxs) (el_mgr l)) l
  | Err _ => after_sends [ErrDBOpGetMonitoredTxs] l
  | Panic w => {| el_mgr := el_mgr l; el_errCh := el_errCh l; el_ctl := EDied w |}
  end.
(** the errors of the preparations are logged and not sent *)
Definition tick_prepare (order : forall A, list A -> list A) (l : eloop) : eloop :=
  match result (on_statedb (GetRedeemsByStatus RedeemStatusRequested)) (el_mgr l) with
  | Ok redeemsFromDB =>
      let '(redeems, errs) := to_send RequestTxHash redeemsFromDB (el_mgr l) in
      let l := after_sends errs l in
      match el_ctl l with
      | ERunning => after_batch false (run_all (fun r s => bool_decide (RequestTxHash r ∈ redeemLock s))
                      (fun r => prepareRedeem r ;; mret tt) (order _ redeems) (el_mgr l)) l
      | _ => l
      end
  | Err _ => after_sends [ErrDBOpGetRedeemsByStatus] l
  | Panic w => {| el_mgr := el_mgr l; el_errCh := el_errCh l; el_ctl := EDied w |}
  end.
Definition tick_mint (order : forall A, list A -> list A) (l : eloop) : eloop :=
  match result (on_statedb GetUnMinted) (el_mgr l) with
  | Ok mintReqs =>
      let '(toMints, errs) := to_send m_BtcTxId mintReqs (el_mgr l) in
      let l := after_sends errs l in
      match el_ctl l with
      | ERunning => after_batch true (run_all (fun m s => bool_decide (m_BtcTxId m ∈ mintLock s))
                      mint (order _ toMints) (el_mgr l)) l
      | _ => l
      end
  | Err _ => after_sends [ErrDBOpGetUnMinted] l
  | Panic w => {| el_mgr := el_mgr l; el_errCh := el_errCh l; el_ctl := EDied w |}
  end.
Inductive ecase := EDone | ERecvErr | ETickMonitor | ETickPrepare | ETickMint.
Definition loop_step (order : forall A, list A -> list A) (c : ecase) (l : eloop) : option eloop :=
  match el_ctl l with
  | ERunning =>
      match c with
      | EDone => Some {| el_mgr := el_mgr l; el_errCh := el_errCh l; el_ctl := EReturned "context canceled" |}
      | ERecvErr =>
          match el_errCh l with
          | [] => None
          | err :: q => Some {| el_mgr := el_mgr l; el_errCh := q;
              el_ctl := if bool_decide (err ∈ loop_errors) then EReturned err else EDied err |}
          end
      | ETickMonitor => Some (tick_monitor order l)
      | ETickPrepare => Some (tick_prepare order l)
      | ETickMint => Some (tick_mint order l)
      end
  | _ => None
  end.
Inductive estep : eloop -> eloop -> Prop :=
  | estep_intro order c l l' : (forall A (x : list A), order A x ≡ₚ x) -> loop_step order c l = Some l' -> estep l l'.
End manager.
Arguments eloop N : clear implicits.
Arguments batch_result N : clear implicits.

(** ** The locks *)
Section locks.
Context `{EL : EthLibLaws, GL : GobLib, SL : SchnorrLib}.
Context {N : Type} `{EC : !EthClient N, WA : !Wallets N}.
Abbreviation T := (EthTxManager N).

Definition locks_are (k : gset bytes * gset bytes) (s : T) : Prop := (redeemLock s, mintLock s) = k.
Lemma locks_zoom {A} k (m : M StateDB A) : keeps (locks_are k) (on_statedb m).
Proof. intros s Hs. unfold run, on_statedb, zoom. by destruct (m (tm_statedb s)). Qed.
Lemma locks_mgrdb {A} k (m : M EthTxManagerDB A) : keeps (locks_are k) (on_mgrdb m).
Proof. intros s Hs. unfold run, on_mgrdb, zoom. by destruct (m (tm_mgrdb s)). Qed.
Lemma locks_node {A} k (m : M N A) : keeps (locks_are k) (on_node m).
Proof. intros s Hs. unfold run, on_node, zoom. by destruct (m (tm_node s)). Qed.
Lemma locks_with_err {A} k e (m : M T A) : keeps (locks_are k) m -> keeps (locks_are k) (with_err e m).
Proof. intros H s Hs. specialize (H s Hs). unfold run, with_err in *. by destruct (m s). Qed.
#[local] Hint Resolve locks_zoom locks_mgrdb locks_node locks_with_err : golib.
Lemma locks_eth {A} k (m : Etherman -> M N A) : keeps (locks_are k) (on_eth m).
Proof. unfold on_eth. keeps_auto. Qed.
#[local] Hint Resolve locks_eth : golib.
Lemma locks_submit k e send ref : keeps (locks_are k) (submit e send ref).
Proof. unfold submit. keeps_auto. Qed.
Lemma locks_wait k id h : keeps (locks_are k) (waitForSignature id h).
Proof. unfold waitForSignature. apply keeps_bind; [auto with golib|intros [r| |]]; keeps_auto. case_match; auto with golib. Qed.
Lemma locks_outpoints k id : keeps (locks_are k) (waitforOutpoints id).
Proof. unfold waitforOutpoints. apply keeps_bind; [auto with golib|intros [[|]| |]]; auto with golib. Qed.
Lemma locks_request k id h : keeps (locks_are k) (request_signature id h).
Proof. unfold request_signature. auto with golib. Qed.
#[local] Hint Resolve locks_submit locks_wait locks_outpoints locks_request : golib.

Lemma locks_mint m : keeps (locks_are (∅, ∅)) (mint m).
Proof.
  intros s [= Hr Hm]. unfold mint, run, with_mintLock. rewrite Hr, Hm.
  match goal with |- context [?body (set_locks ?a ?b s)] =>
    assert (keeps (locks_are (a, b)) body) as Hk; [|specialize (Hk (set_locks a b s) eq_refl);
      unfold run in Hk; destruct (body (set_locks a b s)) as [o s']] end.
  - apply keeps_bind; [auto with golib|intros [|]; [auto with golib|]]. keeps_auto.
  - injection Hk as H1 H2. cbn. unfold locks_are. cbn. rewrite H1, H2. f_equal. set_solver.
Qed.
Lemma locks_prepare rd : keeps (locks_are (∅, ∅)) (prepareRedeem rd).
Proof.
  intros s [= Hr Hm]. unfold prepareRedeem, run, with_redeemLock. rewrite Hr, Hm.
  match goal with |- context [?body (set_locks ?a ?b s)] =>
    assert (keeps (locks_are (a, b)) body) as Hk; [|specialize (Hk (set_locks a b s) eq_refl);
      unfold run in Hk; destruct (body (set_locks a b s)) as [o s']] end.
  - apply keeps_bind; [auto with golib|intros [|]; [auto with golib|]]. keeps_auto.
  - injection Hk as H1 H2. cbn. unfold locks_are. cbn. rewrite H1, H2. f_equal. set_solver.
Qed.
Lemma locks_monitor mtx k : keeps (locks_are k) (monitorPendingTxs mtx).
Proof.
  apply keeps_bind; [unfold mark_mined|intros _; unfold mark_timeout].
  - apply keeps_bind; [auto with golib|intros r].
    apply keeps_bind; [destruct r; [case_match|]; auto with golib|intros rc]. repeat case_match; auto with golib.
  - apply keeps_bind; [auto with golib|intros h].
    apply keeps_bind; [destruct h; auto with golib|intros sa]. keeps_auto. case_match; auto with golib.
Qed.

Definition unlocked (s : T) : Prop := locks_are (∅, ∅) s.
Lemma run_all_unlocked {A} (locked : A -> T -> bool) body items s :
  (forall x s, unlocked s -> locked x s = false) -> (forall x, keeps unlocked (body x)) ->
  unlocked s -> b_skipped (run_all locked body items s) = false /\ unlocked (b_mgr (run_all locked body items s)).
Proof.
  intros Hl Hb. revert s. induction items as [|x items IH]; intros s Hs; [done|]. cbn. rewrite Hl by done.
  specialize (Hb x s Hs). unfold run in Hb.
  destruct (body x s) as [[a|e|w] s']; cbn in *; [by apply IH|by apply IH|done].
Qed.
(** what holds of the loop: no lock is held between two ticks, the channel holds one error at
    most, and when the loop is stuck it is because the channel is full *)
Definition eloop_inv (l : eloop N) : Prop :=
  unlocked (el_mgr l) /\ (length (el_errCh l) <= 1)%nat /\
  (el_ctl l = EStuck -> length (el_errCh l) = 1%nat).
Lemma after_sends_inv errs (l : eloop N) : el_ctl l = ERunning -> unlocked (el_mgr l) -> eloop_inv (after_sends errs l).
Proof.
  intros Hc Hl. unfold after_sends, eloop_inv. destruct (Nat.leb_spec (length (el_errCh l ++ errs)) 1); cbn.
  - split_and!; [done|lia|]. by rewrite Hc.
  - rewrite length_take. split_and!; [done|lia|lia].
Qed.
Lemma after_batch_inv report (b : batch_result N) l :
  el_ctl l = ERunning -> (length (el_errCh l) <= 1)%nat -> b_skipped b = false -> unlocked (b_mgr b) ->
  eloop_inv (after_batch report b l).
Proof.
  intros Hc Hq Hs Hl. unfold after_batch. destruct (b_died b); [by split_and!|]. rewrite Hs. by apply after_sends_inv.
Qed.
Lemma after_sends_running errs (l : eloop N) : el_ctl (after_sends errs l) = ERunning ->
  (length (el_errCh (after_sends errs l)) <= 1)%nat /\ el_mgr (after_sends errs l) = el_mgr l.
Proof. unfold after_sends. destruct (Nat.leb_spec (length (el_errCh l ++ errs)) 1); cbn; [done|done]. Qed.
Lemma after_sends_mgr errs (l : eloop N) : el_mgr (after_sends errs l) = el_mgr l.
Proof. unfold after_sends. by case_match. Qed.
Lemma loop_step_inv order c (l l' : eloop N) : loop_step order c l = Some l' -> eloop_inv l -> eloop_inv l'.
Proof.
  intros H (Hl & Hq & Hs). unfold loop_step in H. destruct (el_ctl l) eqn:Hc; try done. destruct c.
  - injection H as <-. by split_and!.
  - destruct (el_errCh l) as [|e q]; [done|]. injection H as <-. split_and!; cbn in *; [done|lia|].
    by case_bool_decide.
  - injection H as <-. unfold tick_monitor. destruct (result _ _) as [mtxs|e|w];
      [|by apply after_sends_inv|by split_and!].
    edestruct (run_all_unlocked (fun _ _ => false) monitorPendingTxs (order _ mtxs) (el_mgr l)); [done|
      intros; apply locks_monitor|done|]. by apply after_batch_inv.
  - injection H as <-. unfold tick_prepare. destruct (result _ _) as [rs|e|w];
      [|by apply after_sends_inv|by split_and!].
    destruct (to_send _ _ _) as [redeems errs]. destruct (el_ctl (after_sends errs l)) eqn:Ha;
      try by apply after_sends_inv.
    apply after_sends_running in Ha as Hr. destruct Hr as [Hr1 Hr2]. rewrite Hr2.
    edestruct (run_all_unlocked (fun r s => bool_decide (RequestTxHash r ∈ redeemLock s))
      (fun r => prepareRedeem r ;; mret tt) (order _ redeems) (el_mgr l)); [| |done|].
    + intros x s [= -> _]. apply bool_decide_eq_false_2. set_solver.
    + intros x. apply keeps_bind; [apply locks_prepare|auto with golib].
    + by apply after_batch_inv.
  - injection H as <-. unfold tick_mint. destruct (result _ _) as [rs|e|w];
      [|by apply after_sends_inv|by split_and!].
    destruct (to_send _ _ _) as [mints errs]. destruct (el_ctl (after_sends errs l)) eqn:Ha;
      try by apply after_sends_inv.
    apply after_sends_running in Ha as Hr. destruct Hr as [Hr1 Hr2]. rewrite Hr2.
    edestruct (run_all_unlocked (fun m s => bool_decide (m_BtcTxId m ∈ mintLock s)) mint (order _ mints) (el_mgr l));
      [| |done|].
    + intros x s [= _ ->]. apply bool_decide_eq_false_2. set_solver.
    + intros x. apply locks_mint.
    + by apply after_batch_inv.
Qed.

(** C26: the manager's locks and its error channel: in every run from a fresh manager, with any
    failures and any order of the goroutines, no lock is held between two ticks, so that no
    transaction is skipped and no [wg.Done] forgotten; at most one error is queued; and the loop gets
    stuck only with a full channel, on a second error of the same tick. *)
Theorem locks_released (s : T) l :
  unlocked s -> rtc estep (el_start s) l ->
  (redeemLock (el_mgr l) = ∅ /\ mintLock (el_mgr l) = ∅) /\ (length (el_errCh l) <= 1)%nat /\
  (el_ctl l = EStuck -> length (el_errCh l) = 1%nat).
Proof.
  intros Hs Hr. assert (eloop_inv (el_start s)) as Hinit by (by split_and!; cbn; try lia).
  assert (eloop_inv l) as (Hl & ? & ?); [|by injection Hl].
  induction Hr as [l|l1 l2 l3 Hstep _ IH]; [done|]. apply IH. destruct Hstep. by eapply loop_step_inv.
Qed.

(** *** A node that does not answer *)
Definition node_down (n : N) : Prop := forall e id, exists err, eIsMinted e id n = (Err err, n).
Lemma mint_down m s : node_down (tm_node s) -> unlocked s -> mint m s = (Err ErrBridgeIsMinted, s).
Proof.
  intros Hd [= Hr Hm]. unfold mint, with_mintLock. rewrite bind_eq. unfold with_err, on_eth.
  rewrite bind_eq, gets_eq. unfold on_node, zoom. cbn.
  destruct (Hd (tm_etherman s) (m_BtcTxId m)) as [err ->]. cbn. f_equal.
  unfold set_locks. destruct s; cbn in *. subst. f_equal. set_solver.
Qed.
Lemma run_all_down (items : list Mint) s : node_down (tm_node s) -> unlocked s ->
  run_all (fun m s => bool_decide (m_BtcTxId m ∈ mintLock s)) mint items s =
  {| b_errs := replicate (length items) ErrBridgeIsMinted; b_skipped := false; b_died := None; b_mgr := s |}.
Proof.
  intros Hd Hs. induction items as [|m items IH]; [done|]. cbn. rewrite bool_decide_eq_false_2.
  - by rewrite mint_down, IH.
  - injection Hs as _ ->. set_solver.
Qed.

(** *** What is due *)
(** every transaction tracked for the item has the status [timeout] *)
Definition due (ref : bytes) (s : T) : Prop :=
  Forall (fun r => mt_id r = hex_encode ref -> mt_status r = "timeout"%string) (mtx_table (tm_mgrdb s)).
#[global] Instance due_dec ref s : Decision (due ref s).
Proof. apply Forall_dec. intros r. solve_decision. Defined.
Lemma all_timed_out_due ref s :
  all_timed_out (read_mtx <$> filter (fun r => mt_id r = hex_encode ref) (mtx_table (tm_mgrdb s))) = true <-> due ref s.
Proof.
  unfold due, all_timed_out. induction (mtx_table (tm_mgrdb s)) as [|r t IH]; [by split|].
  rewrite filter_cons, Forall_cons. destruct (decide (mt_id r = hex_encode ref)) as [Hr|Hr]; [|naive_solver].
  rewrite fmap_cons. cbn [forallb]. rewrite andb_true_iff, IH. cbn. rewrite String.eqb_eq. naive_solver.
Qed.
Lemma to_send_eq {A} (ref : A -> bytes) items s : mtx_fault (tm_mgrdb s) = no_faults ->
  to_send ref items s = (filter (fun x => due (ref x) s) items, []).
Proof.
  intros Hf. induction items as [|x items IH]; [done|]. cbn [to_send]. rewrite IH.
  unfold result, on_mgrdb, zoom. rewrite GetMonitoredTxsById_eq by done. cbn [fst].
  rewrite filter_cons. pose proof (all_timed_out_due (ref x) s) as Hd.
  destruct (all_timed_out _), (decide (due (ref x) s)); naive_solver.
Qed.
Lemma due_prefix ref s s' : mtx_table (tm_mgrdb s) `prefix_of` mtx_table (tm_mgrdb s') -> ~ due ref s -> ~ due ref s'.
Proof. intros [t Ht] Hn Hd. apply Hn. unfold due in *. rewrite Ht in Hd. by apply Forall_app in Hd as [? _]. Qed.
Lemma with_err_ok {S A B} E0 (m : M S A) (f : A -> M S B) s b s' :
  (with_err E0 m ≫= f) s = (Ok b, s') -> exists a s1, m s = (Ok a, s1) /\ f a s1 = (Ok b, s').
Proof. rewrite bind_eq. unfold with_err. destruct (m s) as [[a|e|w] s1]; cbn; [by eauto|done..]. Qed.
Lemma on_node_mgrdb {A} (m : M N A) s o s' : on_node m s = (o, s') -> tm_mgrdb s' = tm_mgrdb s.
Proof. unfold on_node, zoom. destruct (m (tm_node s)). by intros [= _ <-]. Qed.
Lemma on_eth_mgrdb {A} (m : Etherman -> M N A) s o s' : on_eth m s = (o, s') -> tm_mgrdb s' = tm_mgrdb s.
Proof. unfold on_eth. rewrite bind_eq, gets_eq. apply on_node_mgrdb. Qed.
Lemma submit_tracked E0 send ref s h s' : submit E0 send ref s = (Ok h, s') ->
  mtx_fault (tm_mgrdb s) = no_faults -> mtx_fault (tm_mgrdb s') = no_faults /\ ~ due ref s'.
Proof.
  unfold submit. intros H Hf.
  destruct (with_err_ok _ _ _ _ _ _ H) as (latest & s1 & H1 & Ha). cbn beta in Ha.
  destruct (with_err_ok _ _ _ _ _ _ Ha) as (tx & s2 & H2 & Hb). cbn beta in Hb.
  destruct (with_err_ok _ _ _ _ _ _ Hb) as ([] & s3 & H3 & Hc). rewrite ret_eq in Hc. injection Hc as _ <-.
  assert (tm_mgrdb s2 = tm_mgrdb s) as Hdb.
  { etrans; [by eapply on_eth_mgrdb|]. by eapply on_node_mgrdb. }
  unfold on_mgrdb, zoom, InsertPendingMonitoredTx in H3. rewrite bind_eq, mtx_sql_ok, bind_eq, gets_eq in H3
    by (rewrite Hdb; exact Hf). unfold commit_mtx in H3. destruct (MonitoredTxTable _) in H3; [|done].
  injection H3 as <-. cbn. rewrite Hdb. split; [done|]. unfold due. cbn.
  intros [_ Hd]%Forall_app. apply Forall_cons in Hd as [Hd _]. cbn in Hd. specialize (Hd (hash_text_eq _)). discriminate.
Qed.

(** C27: what a mint tick does while the node does not answer: with nothing due it changes nothing;
    with one mint due the error is queued and the loop returns it; with two or more the goroutines
    block on the error channel, which nobody reads, and no step is possible for ever after. *)
Theorem node_down_blocks (s : T) mints (order : forall A, list A -> list A) :
  node_down (tm_node s) -> unlocked s -> mtx_fault (tm_mgrdb s) = no_faults -> (forall A (x : list A), order A x ≡ₚ x) ->
  result (on_statedb GetUnMinted) s = Ok mints ->
  let n := length (filter (fun m => due (m_BtcTxId m) s) mints) in
  exists l, loop_step order ETickMint (el_start s) = Some l /\ el_mgr l = s /\
    (n = 0%nat -> l = el_start s) /\
    (n = 1%nat -> exists l', loop_step order ERecvErr l = Some l' /\ el_ctl l' = EReturned ErrBridgeIsMinted) /\
    ((2 <= n)%nat -> el_ctl l = EStuck /\ forall l', ~ estep l l').
Proof.
  intros Hd Hs Hf Ho Hm n. eexists. split; [done|]. cbn [loop_step el_ctl el_start]. unfold tick_mint.
  cbn [el_mgr el_start]. rewrite Hm, to_send_eq by done. cbn [el_ctl after_sends el_errCh app length Nat.leb el_mgr].
  rewrite run_all_down, (Permutation_length (Ho _ _)) by done. fold n. unfold after_batch. cbn.
  unfold after_sends. cbn. rewrite length_replicate. destruct n as [|[|n]]; cbn.
  - split_and!; [done..|lia].
  - split_and!; [done..| |lia]. intros _. eexists. split; [done|]. cbn. by rewrite bool_decide_eq_true_2 by set_solver.
  - split_and!; [done..|]. intros _. split; [done|]. intros l' Hx. by inversion Hx.
Qed.

(** A signature that does not arrive in time is returned as no request and no error, and the mint
    that waits for it panics: the whole process dies. *)
Lemma signature_timeout_panics (s : T) id h s' :
  on_node (signature_channel id) s = (Ok TimedOut, s') ->
  (req ← waitForSignature id h; lift (signature_of req)) s = (Panic "nil pointer dereference", s').
Proof. intros H. mstep. unfold waitForSignature. mstep. by rewrite H. Qed.

(** *** A pending transaction *)
(** the status a pending transaction gets, if it gets one: the last of two writes *)
Definition mined_status (receipt : option Receipt) : option MonitoredTxStatus :=
  match receipt with
  | Some {| rc_Status := st; rc_BlockNumber := Some _ |} => Some (if st =? 0 then Reverted else Success)
  | _ => None
  end.
Definition verdict (receipt : option Receipt) (diff limit : Z) : option MonitoredTxStatus :=
  if limit <? diff then Some Timeout else mined_status receipt.
Definition set_table (t : list mtx_row) (s : T) : T := {|
  tm_cfg := tm_cfg s; tm_etherman := tm_etherman s; tm_statedb := tm_statedb s;
  tm_mgrdb := {| mtx_table := t; mtx_fault := mtx_fault (tm_mgrdb s) |};
  tm_node := tm_node s; tm_pubKey := tm_pubKey s; redeemLock := redeemLock s; mintLock := mintLock s |}.
Definition set_status (h : bytes) (st : MonitoredTxStatus) (s : T) : T :=
  set_table (update_rows mt_txHash (mtx_table (tm_mgrdb s)) (hex_encode h) (with_status st)) s.

Lemma on_node_pure {A} (m : M N A) o s : m (tm_node s) = (o, tm_node s) -> on_node m s = (o, s).
Proof. intros H. unfold on_node, zoom. rewrite H. by destruct s. Qed.
Lemma MonitoredTxTable_status t k st : st ∈ mtx_statuses -> MonitoredTxTable t = true ->
  MonitoredTxTable (update_rows mt_txHash t k (with_status st)) = true.
Proof.
  unfold MonitoredTxTable, nodupb. rewrite !andb_true_iff, update_rows_keys by done. intros Hst [Hc ?]. split; [|done].
  apply forallb_Forall. apply forallb_Forall in Hc. unfold update_rows. apply Forall_fmap.
  eapply Forall_impl; [exact Hc|]. intros r Hr. unfold compose. case_decide; [|done].
  unfold mtx_check in *. cbn. rewrite !andb_true_iff in *. split; [tauto|]. by apply bool_decide_eq_true_2.
Qed.
Lemma UpdateStatus_eq st h (s : T) : mtx_fault (tm_mgrdb s) = no_faults -> MonitoredTxTable (mtx_table (tm_mgrdb s)) = true ->
  st ∈ mtx_statuses -> on_mgrdb (UpdateMonitoredTxStatus h st) s = (Ok tt, set_status h st s).
Proof.
  intros Hf Ht Hst. unfold on_mgrdb, zoom, UpdateMonitoredTxStatus. mstep. rewrite mtx_sql_ok by done. mstep.
  unfold commit_mtx. rewrite hash_text_eq, MonitoredTxTable_status by done. done.
Qed.
Lemma set_status_twice h st st' (s : T) : set_status h st (set_status h st' s) = set_status h st s.
Proof.
  unfold set_status, set_table. cbn. f_equal. f_equal. unfold update_rows. rewrite <-list_fmap_compose.
  apply list_fmap_ext. intros i r _. unfold compose. destruct (decide (mt_txHash r = hex_encode h)); cbn.
  - by rewrite decide_True.
  - by rewrite decide_False.
Qed.
Lemma set_status_inv h st (s : T) : MonitoredTxTable (mtx_table (tm_mgrdb s)) = true -> st ∈ mtx_statuses ->
  MonitoredTxTable (mtx_table (tm_mgrdb (set_status h st s))) = true.
Proof. intros. by apply MonitoredTxTable_status. Qed.

Definition marked (h : bytes) (o : option MonitoredTxStatus) (s : T) : T :=
  match o with Some st => set_status h st s | None => s end.
Definition answers_receipt (h : bytes) (receipt : option Receipt) (n : N) : Prop :=
  TransactionReceipt h n = (match receipt with Some r => Ok (Some r) | None => Err NotFound end, n).
Lemma mark_mined_eq mtx receipt (s : T) : answers_receipt (et_TxHash mtx) receipt (tm_node s) ->
  mtx_fault (tm_mgrdb s) = no_faults -> MonitoredTxTable (mtx_table (tm_mgrdb s)) = true ->
  mark_mined mtx s = (Ok tt, marked (et_TxHash mtx) (mined_status receipt) s).
Proof.
  intros H Hf Ht. unfold mark_mined. mstep. unfold try. rewrite (on_node_pure _ _ _ H).
  destruct receipt as [[st [b|]]|]; cbn -[on_mgrdb UpdateMonitoredTxStatus]; [|done..].
  mstep. cbn [rc_BlockNumber rc_Status]. unfold with_err. rewrite UpdateStatus_eq; [done..|].
  destruct (st =? 0); set_solver.
Qed.
Lemma mined_marked receipt h (s : T) : MonitoredTxTable (mtx_table (tm_mgrdb s)) = true ->
  let s' := marked h (mined_status receipt) s in
  tm_node s' = tm_node s /\ tm_cfg s' = tm_cfg s /\ mtx_fault (tm_mgrdb s') = mtx_fault (tm_mgrdb s) /\
  MonitoredTxTable (mtx_table (tm_mgrdb s')) = true.
Proof.
  intros Ht. destruct receipt as [[st [b|]]|]; [|done..]. cbn. split_and!; [done..|].
  apply MonitoredTxTable_status; [|done]. destruct (st =? 0); set_solver.
Qed.
Lemma mark_timeout_eq mtx sentAfter latest (s : T) : HeaderByHash (et_SentAfter mtx) (tm_node s) = (Ok sentAfter, tm_node s) ->
  HeaderByNumber None (tm_node s) = (Ok latest, tm_node s) ->
  mtx_fault (tm_mgrdb s) = no_faults -> MonitoredTxTable (mtx_table (tm_mgrdb s)) = true ->
  mark_timeout mtx s = (Ok tt, marked (et_TxHash mtx)
    (if TimeoutOnMonitoringPendingTxs (tm_cfg s) <? u64 (big_Uint64 (h_Number latest) - big_Uint64 (h_Number sentAfter))
     then Some Timeout else None) s).
Proof.
  intros H1 H2 Hf Ht. unfold mark_timeout. mstep. unfold try, with_err. rewrite (on_node_pure _ _ _ H1). mstep.
  mstep. rewrite (on_node_pure _ _ _ H2). cbn [map_err]. mstep. case_match; [|done]. rewrite UpdateStatus_eq; [done..|set_solver].
Qed.

(** C28: what the monitor does with a pending transaction, when the node answers: the status of its
    row becomes [Timeout] when the chain has grown by more than the limit since it was sent, whether
    or not it is included; otherwise [Success] or [Reverted] when it is included; otherwise nothing
    changes. The growth is a difference of unsigned integers: when the block it was sent after is
    above the tip, the difference wraps around, and any limit below [2^63] is exceeded. *)
Theorem monitor_spec (s : T) mtx receipt sentAfter latest :
  let n := tm_node s in
  let limit := TimeoutOnMonitoringPendingTxs (tm_cfg s) in
  let diff := u64 (big_Uint64 (h_Number latest) - big_Uint64 (h_Number sentAfter)) in
  answers_receipt (et_TxHash mtx) receipt n ->
  HeaderByHash (et_SentAfter mtx) n = (Ok sentAfter, n) -> HeaderByNumber None n = (Ok latest, n) ->
  mtx_fault (tm_mgrdb s) = no_faults -> MonitoredTxTable (mtx_table (tm_mgrdb s)) = true ->
  monitorPendingTxs mtx s = (Ok tt, marked (et_TxHash mtx) (verdict receipt diff limit) s) /\
  (0 <= h_Number latest < h_Number sentAfter -> h_Number sentAfter < 2 ^ 63 -> limit < 2 ^ 63 ->
   verdict receipt diff limit = Some Timeout).
Proof.
  intros n limit diff H1 H2 H3 Hf Ht. split.
  - unfold monitorPendingTxs. rewrite bind_eq, (mark_mined_eq _ receipt) by done.
    destruct (mined_marked receipt (et_TxHash mtx) s Ht) as (Hn & Hc & Hf' & Ht'). rewrite Hf in Hf'.
    rewrite (mark_timeout_eq _ sentAfter latest), Hc by by rewrite ?Hn. fold limit. fold diff.
    unfold verdict. destruct (limit <? diff); cbn; [|done].
    destruct (mined_status receipt); cbn; [|done]. by rewrite set_status_twice.
  - intros Hl Hs Hm. unfold verdict, diff, big_Uint64.
    rewrite !Z.abs_eq by lia. rewrite (wrap_small 64 (h_Number latest)), (wrap_small 64 (h_Number sentAfter)) by lia.
    unfold wrap. rewrite <-(Z_mod_plus_full _ 1).
    rewrite (Z.mod_small (h_Number latest - h_Number sentAfter + 1 * 2 ^ 64)) by lia.
    by rewrite (proj2 (Z.ltb_lt _ _)) by lia.
Qed.
End locks.

(** ** What a tick sends *)
(** the calls of the bridge contract's [Mint] and [RedeemPrepare] that the node has accepted so far,
    by what they mint or prepare *)
Class SubmissionLog (N : Type) := { mints_sent : N -> list bytes; prepares_sent : N -> list bytes }.
(** a call to the node that sends no transaction *)
Definition silent {N A} `{SubmissionLog N} (m : M N A) : Prop :=
  forall k, keeps (fun n => (mints_sent n, prepares_sent n) = k) m.
(** What the calls mean: only the two methods of the contract send, each what it is given, and at
    least when it returns no error. *)
Class SubmissionLaws (N : Type) `{EC : EthClient N, WA : Wallets N, LG : SubmissionLog N} : Prop := {
  law_nonce a : silent (PendingNonceAt a);
  law_header n : silent (HeaderByNumber n);
  law_is_minted id : silent (bridge_IsMinted id);
  law_is_prepared id : silent (bridge_IsPrepared id);
  law_sign r : silent (SignAsync r);
  law_signature id : silent (signature_channel id);
  law_request id a : silent (Request id a);
  law_outpoints id : silent (outpoints_channel id);
  law_bridge_mint opts id receiver amount rx sg n :
    let r := bridge_Mint opts id receiver amount rx sg n in
    prepares_sent r.2 = prepares_sent n /\
    (mints_sent r.2 = mints_sent n ++ [id] \/ (is_ok r.1 = false /\ mints_sent r.2 = mints_sent n));
  law_bridge_prepare opts id requester receiver amount ids idxs rx sg n :
    let r := bridge_RedeemPrepare opts id requester receiver amount ids idxs rx sg n in
    mints_sent r.2 = mints_sent n /\
    (prepares_sent r.2 = prepares_sent n ++ [id] \/ (is_ok r.1 = false /\ prepares_sent r.2 = prepares_sent n)) }.

Section sends.
Context `{EL : EthLibLaws, GL : GobLib, SL : SchnorrLib}.
Context {N : Type} `{SUB : SubmissionLaws N}.
Abbreviation T := (EthTxManager N).

Definition node_now (n : N) (s : T) : T := {|
  tm_cfg := tm_cfg s; tm_etherman := tm_etherman s; tm_statedb := tm_statedb s; tm_mgrdb := tm_mgrdb s;
  tm_node := n; tm_pubKey := tm_pubKey s; redeemLock := redeemLock s; mintLock := mintLock s |}.
Definition tracking (t : list mtx_row) (s : T) : T := {|
  tm_cfg := tm_cfg s; tm_etherman := tm_etherman s; tm_statedb := tm_statedb s;
  tm_mgrdb := {| mtx_table := mtx_table (tm_mgrdb s) ++ t; mtx_fault := mtx_fault (tm_mgrdb s) |};
  tm_node := tm_node s; tm_pubKey := tm_pubKey s; redeemLock := redeemLock s; mintLock := mintLock s |}.
Lemma insert_tracked mt (s : T) : mtx_fault (tm_mgrdb s) = no_faults ->
  (exists t, on_mgrdb (InsertPendingMonitoredTx mt) s = (Ok tt, tracking t s) /\
     t = [{| mt_txHash := hash_text (et_TxHash mt); mt_id := hash_text (et_RefIdentifier mt);
             mt_sentAfter := hash_text (et_SentAfter mt); mt_minedAt := None; mt_status := Pending |}]) \/
  exists e, on_mgrdb (InsertPendingMonitoredTx mt) s = (Err e, s).
Proof.
  intros Hf. unfold on_mgrdb, zoom, InsertPendingMonitoredTx. rewrite bind_eq, mtx_sql_ok, bind_eq, gets_eq by done.
  unfold commit_mtx. destruct (MonitoredTxTable _); [left; by eexists|right]. eexists. by destruct s.
Qed.

(** one of the two logs, and the other *)
Section one_kind.
Variables log other : N -> list bytes.
Definition quiet_call {A} (m : M N A) : Prop := forall k, keeps (fun n => (log n, other n) = k) m.
Definition seen (k : EthTxManagerDB * Etherman * list bytes * list bytes) (s : T) : Prop :=
  (tm_mgrdb s, tm_etherman s, log (tm_node s), other (tm_node s)) = k.
Lemma seen_node {A} k (m : M N A) : quiet_call m -> keeps (seen k) (on_node m).
Proof.
  intros Hm s <-. specialize (Hm _ (tm_node s) eq_refl). unfold seen, run, on_node, zoom in *.
  destruct (m (tm_node s)). cbn in *. by injection Hm as -> ->.
Qed.
Lemma seen_with_err {A} k e (m : M T A) : keeps (seen k) m -> keeps (seen k) (with_err e m).
Proof. intros H s Hs. specialize (H s Hs). unfold run, with_err in *. by destruct (m s). Qed.
Lemma seen_eth {A} k (m : Etherman -> M N A) : (forall e, quiet_call (m e)) -> keeps (seen k) (on_eth m).
Proof. intros H. unfold on_eth. apply keeps_bind; [auto with golib|intros e]. by apply seen_node. Qed.

(** [m] sends at most one transaction, for [id], and tracks it when it returns no error; then either
    it has sent it, or [done] holds *)
Definition tries {A} (id : bytes) (done : Etherman -> Prop) (m : M T A) : Prop := forall s,
  mtx_fault (tm_mgrdb s) = no_faults ->
  let s' := run m s in
  mtx_fault (tm_mgrdb s') = no_faults /\ tm_etherman s' = tm_etherman s /\
  other (tm_node s') = other (tm_node s) /\
  mtx_table (tm_mgrdb s) `prefix_of` mtx_table (tm_mgrdb s') /\
  exists k, log (tm_node s') = log (tm_node s) ++ k /\ k `sublist_of` [id] /\
    (is_ok (result m s) = true -> (k = [id] /\ ~ due id s') \/ done (tm_etherman s)).
Lemma tries_bind {A B} id done (m : M T A) (f : A -> M T B) :
  (forall k, keeps (seen k) m) -> (forall a, tries id done (f a)) -> tries id done (m ≫= f).
Proof.
  intros Hm Hf s Hs. specialize (Hm _ s eq_refl). unfold run, result in *. rewrite bind_eq.
  destruct (m s) as [[a|e|w] s1]; cbn in *; injection Hm as H1 H2 H3 H4; rewrite <-?H1, <-?H2, <-?H3, <-?H4.
  - rewrite <-H1 in Hs. exact (Hf a s1 Hs).
  - rewrite H1, H2, H3, H4. split_and!; try done. exists []. rewrite app_nil_r. split_and!; [done|apply sublist_nil_l|done].
  - rewrite H1, H2, H3, H4. split_and!; try done. exists []. rewrite app_nil_r. split_and!; [done|apply sublist_nil_l|done].
Qed.
(** the check on the contract, then the rest *)
Lemma tries_check {A} id done (m : M T bool) (x : A) (rest : M T A) :
  (forall k, keeps (seen k) m) -> (forall s s', m s = (Ok true, s') -> done (tm_etherman s)) ->
  tries id done rest -> tries id done (ok ← m; if ok : bool then mret x else rest).
Proof.
  intros Hm Hd Hr s Hs. pose proof (Hm _ s eq_refl) as Hk. specialize (Hd s). unfold run, result in *. rewrite bind_eq.
  destruct (m s) as [[[|]|e|w] s1]; cbn in *; injection Hk as H1 H2 H3 H4.
  2: { rewrite <-?H1, <-?H2, <-?H3, <-?H4. rewrite <-H1 in Hs. exact (Hr s1 Hs). }
  all: rewrite H1, H2, H3, H4; split_and!; try done; exists []; rewrite app_nil_r;
    split_and!; [done|apply sublist_nil_l|]; try done.
  intros _. right. by eapply Hd.
Qed.
Lemma tries_ret {A B} id done (m : M T A) (b : B) : tries id done m -> tries id done (m ;; mret b).
Proof.
  intros H s Hs. specialize (H s Hs). unfold run, result in *. rewrite bind_eq.
  by destruct (m s) as [[a|e|w] s1].
Qed.
Lemma tries_mintLock {A} k id done (m : M T A) : tries id done m -> tries id done (with_mintLock k m).
Proof.
  intros H s Hs. specialize (H (set_locks (redeemLock s) ({[k]} ∪ mintLock s) s) Hs).
  unfold run, result, with_mintLock in *. by destruct (m _) as [o s1].
Qed.
Lemma tries_redeemLock {A} k id done (m : M T A) : tries id done m -> tries id done (with_redeemLock k m).
Proof.
  intros H s Hs. specialize (H (set_locks ({[k]} ∪ redeemLock s) (mintLock s) s) Hs).
  unfold run, result, with_redeemLock in *. by destruct (m _) as [o s1].
Qed.

Definition sends_one (id : bytes) (send : Etherman -> M N Transaction) : Prop := forall e n,
  other (send e n).2 = other n /\
  (log (send e n).2 = log n ++ [id] \/ (is_ok (send e n).1 = false /\ log (send e n).2 = log n)).
Lemma tries_submit E0 send ref done :
  (forall n, quiet_call (HeaderByNumber n)) -> sends_one ref send -> tries ref done (submit E0 send ref).
Proof.
  intros Hh Hsend. unfold submit. apply tries_bind; [intros; by apply seen_with_err, seen_node|intros latest].
  intros s Hs. destruct (Hsend (tm_etherman s) (tm_node s)) as [Ho Hl].
  destruct (send (tm_etherman s) (tm_node s)) as [o n] eqn:Hn. cbn [fst snd] in Ho, Hl.
  assert (on_eth send s = (o, node_now n s)) as Hon.
  { unfold on_eth. mstep. unfold on_node, zoom. by rewrite Hn. }
  unfold run, result. rewrite bind_eq, with_err_eq, Hon.
  assert (exists k, log n = log (tm_node s) ++ k /\ k `sublist_of` [ref] /\ (is_ok o = true -> k = [ref]))
    as (k & Hk & Hsub & Hok).
  { destruct Hl as [-> |[-> ->]]; [by exists [ref]|]. exists []. rewrite app_nil_r. split_and!; [done|apply sublist_nil_l|done]. }
  destruct o as [tx|e|w]; cbn [map_err]; [|cbn; split_and!; try done; exists k; split_and!; [done|done|done]..].
  rewrite bind_eq. destruct (insert_tracked {| et_TxHash := tx_Hash tx; et_RefIdentifier := ref;
    et_SentAfter := h_Hash latest; et_SentAfterBlk := big_Int64 (h_Number latest); et_MinedAt := EmptyHash;
    et_Status := EmptyString |} (node_now n s) Hs) as [(t & H1 & H2)|[e H1]]; rewrite with_err_eq, H1; cbn.
  - split_and!; try done; [by exists t|]. exists k. split_and!; [done|done|]. intros _. left. split; [by apply Hok|].
    intros [_ Hd]%Forall_app. subst t. apply Forall_cons in Hd as [Hd _]. cbn in Hd. specialize (Hd (hash_text_eq _)). discriminate.
  - split_and!; try done. by exists k.
Qed.
(** What the goroutines started for [items] send: transactions for these items only, each once at
    most, in the order in which they run; and when none of them fails, and the contract reports none
    of the items as done, exactly one for each, which is then tracked: no item is due any more. *)
Definition sends_each {A} (ref : A -> bytes) (on_chain : A -> Prop) (items : list A) (s : T) (b : batch_result N) : Prop :=
  other (tm_node (b_mgr b)) = other (tm_node s) /\
  exists sent, log (tm_node (b_mgr b)) = log (tm_node s) ++ sent /\ sent `sublist_of` (ref <$> items) /\
    (b_errs b = [] -> b_died b = None -> Forall (fun x => ~ on_chain x) items ->
     sent = ref <$> items /\ Forall (fun x => ~ due (ref x) (b_mgr b)) items).
Lemma run_all_sends {A} locked (body : A -> M T unit) (ref : A -> bytes) (done : A -> Etherman -> Prop) items s :
  (forall x s, unlocked s -> locked x s = false) -> (forall x, keeps unlocked (body x)) ->
  (forall x, tries (ref x) (done x) (body x)) -> unlocked s -> mtx_fault (tm_mgrdb s) = no_faults ->
  let b := run_all locked body items s in
  mtx_table (tm_mgrdb s) `prefix_of` mtx_table (tm_mgrdb (b_mgr b)) /\
  sends_each ref (fun x => done x (tm_etherman s)) items s b.
Proof.
  intros Hl Hk Ht. unfold sends_each. revert s. induction items as [|x items IH]; intros s Hu Hs.
  - cbn. split; [done|]. split; [done|]. exists []. rewrite app_nil_r. by split_and!.
  - cbn [run_all]. rewrite Hl by done. pose proof (Hk x s Hu) as Hu1.
    destruct (Ht x s Hs) as (Hs1 & He & Ho & Hp & k & Hlog & Hsub & Hok). unfold run, result in *.
    destruct (body x s) as [o s1]. cbn [fst snd] in *. destruct (IH s1 Hu1 Hs1) as (Hp2 & Ho2 & sent & Hl2 & Hsub2 & Hall).
    destruct o as [[]|e|w]; cbn [b_mgr b_errs b_died].
    + split; [by etrans|]. split; [congruence|]. exists (k ++ sent). rewrite fmap_cons.
      rewrite Hl2, Hlog, (assoc_L (++)). split; [done|]. split; [by apply (sublist_app k [ref x])|].
      intros H1 H2 H3. apply Forall_cons in H3 as [Hx H3]. rewrite He in Hall.
      destruct (Hall H1 H2 H3) as [-> Hd]. destruct (Hok eq_refl) as [[-> Hnd]|Hbad]; [|done].
      split; [done|]. constructor; [by eapply due_prefix|done].
    + split; [by etrans|]. split; [congruence|]. exists (k ++ sent). rewrite fmap_cons.
      rewrite Hl2, Hlog, (assoc_L (++)). split; [done|]. split; [by apply (sublist_app k [ref x])|done].
    + split; [done|]. split; [done|]. exists k. rewrite fmap_cons. split; [done|]. split; [|done].
      etrans; [exact Hsub|]. apply (sublist_skip_r [ref x] [ref x]) || apply (sublist_app [ref x] [ref x] [] (ref <$> items)); [done|apply sublist_nil_l].
Qed.
End one_kind.

(** *** The two kinds of transactions *)
Lemma silent_quiet {A} (m : M N A) : silent m -> quiet_call mints_sent prepares_sent m.
Proof. done. Qed.
Lemma silent_quiet' {A} (m : M N A) : silent m -> quiet_call prepares_sent mints_sent m.
Proof. intros H [a b] n [= <- <-]. pose proof (H _ n eq_refl) as Hk. cbn in Hk. by injection Hk as -> ->. Qed.
Lemma silent_is_minted e id : silent (eIsMinted e id).
Proof. intros k. apply keeps_bind; [apply keeps_lift|intros _; apply law_is_minted]. Qed.
Lemma silent_is_prepared e id : silent (eIsPrepared e id).
Proof. intros k. apply keeps_bind; [apply keeps_lift|intros _; apply law_is_prepared]. Qed.
Lemma eMint_sends p : sends_one mints_sent prepares_sent (em_BtcTxId p) (fun e => eMint e p).
Proof.
  intros e n. unfold eMint, getBridgeContract, getAuthNonce. rewrite bind_eq, lift_eq.
  destruct (NewTEENetBtcBridge _); [|by split; [|right]..]. rewrite bind_eq.
  pose proof (law_nonce (From (auth e)) _ n eq_refl) as Hn. unfold run in Hn.
  destruct (PendingNonceAt _ n) as [[nonce|?|?] n1]; cbn in Hn; injection Hn as Hm Hp; [|by split; [|right]..].
  destruct (law_bridge_mint {| From := From (auth e); Nonce := Some nonce |} (em_BtcTxId p)
    (BytesToAddress (em_Receiver p)) (em_Amount p) (em_Rx p) (em_S p) n1) as [H1 H2].
  by rewrite Hp, Hm in *.
Qed.
Lemma ePrepare_sends p : sends_one prepares_sent mints_sent (ep_RequestTxHash p) (fun e => eRedeemPrepare e p).
Proof.
  intros e n. unfold eRedeemPrepare, getBridgeContract, getAuthNonce. rewrite bind_eq, lift_eq.
  destruct (NewTEENetBtcBridge _); [|by split; [|right]..]. rewrite bind_eq.
  pose proof (law_nonce (From (auth e)) _ n eq_refl) as Hn. unfold run in Hn.
  destruct (PendingNonceAt _ n) as [[nonce|?|?] n1]; cbn in Hn; injection Hn as Hm Hp; [|by split; [|right]..].
  destruct (law_bridge_prepare {| From := From (auth e); Nonce := Some nonce |} (ep_RequestTxHash p)
    (BytesToAddress (ep_Requester p)) (ep_Receiver p) (ep_Amount p) (ep_OutpointTxIds p) (ep_OutpointIdxs p)
    (ep_Rx p) (ep_S p) n1) as [H1 H2].
  by rewrite Hp, Hm in *.
Qed.
Section signing.
Variables log other : N -> list bytes.
Hypothesis Hquiet : forall A (m : M N A), silent m -> quiet_call log other m.
Lemma seen_request k id h : keeps (seen log other k) (request_signature id h).
Proof using Hquiet SUB. apply seen_with_err, seen_node, Hquiet, law_sign. Qed.
Lemma seen_wait k id h : keeps (seen log other k) (waitForSignature id h).
Proof using Hquiet SUB.
  unfold waitForSignature. apply keeps_bind; [apply seen_node, Hquiet, law_signature|intros [r| |]]; keeps_auto.
  case_match; auto with golib.
Qed.
Lemma seen_outpoints k id : keeps (seen log other k) (waitforOutpoints id).
Proof using Hquiet SUB.
  unfold waitforOutpoints. apply keeps_bind; [apply seen_node, Hquiet, law_outpoints|intros [[|]| |]]; auto with golib.
Qed.
End signing.
Lemma eth_check {A} (f : Etherman -> M N A) E0 (s s' : T) a :
  with_err E0 (on_eth f) s = (Ok a, s') -> exists n, result (f (tm_etherman s)) n = Ok a.
Proof.
  rewrite with_err_eq. unfold on_eth. mstep. unfold on_node, zoom, result.
  destruct (f (tm_etherman s) (tm_node s)) as [[x|e|w] n] eqn:H; cbn; intros [= -> <-]. exists (tm_node s). by rewrite H.
Qed.
Definition minted_on_chain (e : Etherman) (m : Mint) : Prop := exists n, result (eIsMinted e (m_BtcTxId m)) n = Ok true.
Definition prepared_on_chain (e : Etherman) (r : Redeem) : Prop := exists n, result (eIsPrepared e (RequestTxHash r)) n = Ok true.
Lemma mint_tries m : tries mints_sent prepares_sent (m_BtcTxId m) (fun e => minted_on_chain e m) (mint m).
Proof.
  unfold mint. apply tries_mintLock, tries_check.
  - intros k. apply seen_with_err, seen_eth. intros e. apply silent_is_minted.
  - intros s s'. apply eth_check.
  - apply tries_bind; [intros; auto with golib|intros amount].
    apply tries_bind; [intros; auto with golib|intros h].
    apply tries_bind; [intros; by apply seen_request|intros _].
    apply tries_bind; [intros; by apply seen_wait|intros req].
    apply tries_bind; [intros; auto with golib|intros sig].
    apply tries_ret, tries_submit; [intros n; apply law_header|apply (eMint_sends {| em_BtcTxId := m_BtcTxId m |})].
Qed.
Lemma prepare_tries r : tries prepares_sent mints_sent (RequestTxHash r) (fun e => prepared_on_chain e r)
  (prepareRedeem r ;; mret tt).
Proof.
  pose proof (@silent_quiet') as Hq. unfold prepareRedeem. apply tries_ret, tries_redeemLock, tries_check.
  - intros k. apply seen_with_err, seen_eth. intros e. apply Hq, silent_is_prepared.
  - intros s s'. apply eth_check.
  - apply tries_bind; [intros; apply seen_with_err, seen_node, Hq, law_request|intros _].
    apply tries_bind; [intros; by apply seen_outpoints|intros ops].
    apply tries_bind; [intros; auto with golib|intros amount].
    apply tries_bind; [intros; auto with golib|intros h].
    apply tries_bind; [intros; by apply seen_request|intros _].
    apply tries_bind; [intros; by apply seen_wait|intros req].
    apply tries_bind; [intros; auto with golib|intros sig].
    apply tries_submit; [intros n; apply Hq, law_header|apply (ePrepare_sends (createPrepareParams r ops amount sig.1 sig.2))].
Qed.

End sends.

(** ** A toy node: up or down *)
Module ToyManager.
Record toy_node := { up : bool; toy_mints_sent : list bytes; toy_prepares_sent : list bytes }.
Definition answer {A} (a : A) : M toy_node A := fun n => (if up n then Ok a else Err "connection refused", n).
#[local] Instance toy_log : SubmissionLog toy_node := {| mints_sent := toy_mints_sent; prepares_sent := toy_prepares_sent |}.
#[local] Instance toy_eth : EthClient toy_node := {|
  BlockByNumber _ := answer 2; FilterLogs _ _ _ := answer []; PendingNonceAt _ := answer 0;
  HeaderByHash h := answer {| h_Hash := h; h_Number := 2 |};
  HeaderByNumber _ := answer {| h_Hash := sample_hash 9; h_Number := 20 |};
  TransactionReceipt _ := answer (Some {| rc_Status := 1; rc_BlockNumber := Some 3 |});
  BalanceAt _ := answer 0; ChainID := answer 1337; bridgeABI := Ok tt;
  Unpack_Minted _ := Err "abi"; Unpack_RedeemRequested _ := Err "abi"; Unpack_RedeemPrepared _ := Err "abi";
  NewTEENetBtcBridge _ := Ok tt; NewTWBTC _ := Ok tt;
  bridge_Mint _ id _ _ _ _ n := if up n
    then (Ok {| tx_Hash := id |}, {| up := true; toy_mints_sent := toy_mints_sent n ++ [id]; toy_prepares_sent := toy_prepares_sent n |})
    else (Err "connection refused", n);
  bridge_RedeemRequest _ _ _ := answer {| tx_Hash := sample_hash 8 |};
  bridge_RedeemPrepare _ id _ _ _ _ _ _ _ n := if up n
    then (Ok {| tx_Hash := id |}, {| up := true; toy_mints_sent := toy_mints_sent n; toy_prepares_sent := toy_prepares_sent n ++ [id] |})
    else (Err "connection refused", n);
  bridge_Twbtc := answer []; bridge_Pk := answer 0; bridge_IsPrepared _ := answer false;
  bridge_IsMinted _ := answer false; bridge_IsUsed _ := answer false; twbtc_BalanceOf _ := answer 0;
  twbtc_Approve _ _ _ := answer {| tx_Hash := sample_hash 8 |}; twbtc_Allowance _ _ := answer 0 |}.
#[local] Instance toy_wallets : Wallets toy_node := {|
  SignAsync _ := answer tt; signature_channel _ := answer (Received (Some 1, Some 1));
  Request _ _ := answer tt; outpoints_channel _ := answer (Received [{| BtcTxId := sample_hash 5; BtcIdx := 0 |}]) |}.
#[local] Instance toy_schnorr : SchnorrLib := {|
  pubkey := unit; signature := unit; ParsePubKey _ := Some tt; ParseSignature _ := Some tt;
  SigVerify _ _ _ := true |}.
Definition toy_row (n : Z) : mint_row := {|
  mr_btcTxId := hex_encode (sample_hash n); mr_mintTxHash := None;
  mr_receiver := hex_encode (replicate 20 (byte_of_Z 7)); mr_amount := 100 |}.
Lemma silent_answer {A} (a : A) : silent (answer a).
Proof. intros k n Hn. exact Hn. Qed.
#[local] Instance toy_submissions : SubmissionLaws toy_node.
Proof.
  split; try (intros; apply silent_answer).
  - intros. cbn. unfold r; cbn. destruct (up n); cbn; [by split; [|left]|by split; [|right]].
  - intros. cbn. unfold r; cbn. destruct (up n); cbn; [by split; [|left]|by split; [|right]].
Qed.
Definition toy_manager (up_ : bool) (t : list mtx_row) : EthTxManager toy_node := {|
  tm_cfg := {| TimeoutOnMonitoringPendingTxs := 6 |};
  tm_etherman := {| ecfg := {| ec_URL := EmptyString; BridgeContractAddress := []; TWBTCContractAddress := [] |};
                    auth := {| From := []; Nonce := None |} |};
  tm_statedb := {| redeem_table := []; kv_table := ∅; mint_table := [toy_row 1; toy_row 2]; db_fault := no_faults |};
  tm_mgrdb := {| mtx_table := t; mtx_fault := no_faults |};
  tm_node := {| up := up_; toy_mints_sent := []; toy_prepares_sent := [] |}; tm_pubKey := zeros 32; redeemLock := ∅; mintLock := ∅ |}.
Definition toy_mints : list Mint := match result GetUnMinted (tm_statedb (toy_manager true [])) with Ok l => l | _ => [] end.
Definition in_order : forall A, list A -> list A := fun _ l => l.

Lemma node_down_blocks_witness :
  exists l, loop_step in_order ETickMint (el_start (toy_manager false [])) = Some l /\ el_ctl l = EStuck /\
    forall l', ~ estep l l'.
Proof.
  destruct (node_down_blocks (toy_manager false []) toy_mints in_order) as (l & H1 & _ & _ & _ & H2);
    [by intros; eexists|done|done|done|by vm_compute|].
  exists l. split; [exact H1|]. apply H2. vm_compute. lia.
Defined.
Definition toy_mint : Mint := default {| m_BtcTxId := []; m_MintTxHash := []; m_Receiver := []; m_Amount := None |} (toy_mints !! 0%nat).
Definition toy_pending : eMonitoredTx := {|
  et_TxHash := sample_hash 8; et_RefIdentifier := sample_hash 1; et_SentAfter := sample_hash 7; et_SentAfterBlk := 2;
  et_MinedAt := EmptyHash; et_Status := Pending |}.
Definition toy_tracked (st : string) : list mtx_row := [{|
  mt_txHash := hex_encode (sample_hash 8); mt_id := hex_encode (sample_hash 1);
  mt_sentAfter := hex_encode (sample_hash 7); mt_minedAt := None; mt_status := st |}].
(** included in block 3, found 18 blocks later: timed out *)
Lemma monitor_spec_witness :
  monitorPendingTxs toy_pending (toy_manager true (toy_tracked Pending)) = (Ok tt, toy_manager true (toy_tracked Timeout)).
Proof.
  apply (monitor_spec (toy_manager true (toy_tracked Pending)) toy_pending (Some {| rc_Status := 1; rc_BlockNumber := Some 3 |})
    {| h_Hash := sample_hash 7; h_Number := 2 |} {| h_Hash := sample_hash 9; h_Number := 20 |});
    by vm_compute.
Defined.
Lemma toy_step : exists l, estep (el_start (toy_manager false [])) l /\ el_ctl l = EStuck.
Proof.
  eexists. split; [by apply (estep_intro in_order ETickMint)|]. by vm_compute.
Qed.
Lemma locks_released_witness : exists l,
  rtc estep (el_start (toy_manager false [])) l /\ el_ctl l = EStuck /\ length (el_errCh l) = 1%nat.
Proof.
  destruct toy_step as (l & H & Hc). exists l. split; [by apply rtc_once|]. split; [done|].
  apply (locks_released (toy_manager false []) l); [done|by apply rtc_once|done].
Defined.
End ToyManager.
