(* ===== verification/Signers.v ===== *)
(** * Signers: the signing service (packages [multisig_client] and [signers]).

    A signer is an interface: a public key and signatures of hashes. Its two implementations, a
    local key and a remote service behind a gRPC connector, and the asynchronous wrapper the chain
    managers use follow. btcec's keys and signatures, and the gRPC stubs (src/rpc, generated), are
    type classes. *)
From S2P Require Export Common Agreement.

(** ** btcec and schnorr, beyond what [Verify] uses *)
Class SigLib `{SL : SchnorrLib} := {
  privkey : Type;
  PrivKeyFromBytes : bytes -> privkey * pubkey;
  PubKey : privkey -> pubkey;
  schnorr_Sign : privkey -> bytes -> outcome signature;
  sig_Serialize : signature -> bytes;
  pub_X : pubkey -> Z;
  pub_Y : pubkey -> Z }.
(** a signature is 64 bytes, and is read back from them *)
Class SigLaws `{SG : SigLib} : Prop := {
  law_Serialize_length sig : length (sig_Serialize sig) = 64%nat;
  law_ParseSignature sig : ParseSignature (sig_Serialize sig) = Some sig }.

(** ** multisig_client/interface.go *)
Class MultisigSigner `{SL : SchnorrLib} (W : Type) := {
  ms_Sign : bytes -> M W signature;
  ms_Pub : M W pubkey }.

(** ** utils.go: values; that [append] may write to the array behind [x] is not modelled *)
Definition Ensure64Bytes (b : bytes) : bool := (length b =? 64)%nat.
Definition Ensure65Bytes (b : bytes) : bool := (length b =? 65)%nat.
Definition Ensure32Bytes (b : bytes) : bool := (length b =? 32)%nat.
Definition BytesToBigInt (b : bytes) : Z := big_SetBytes b.
Definition BigIntToBytes (i : Z) : bytes := big_Bytes i.
Definition UncompressedToXY (pubKey : bytes) : outcome (bytes * bytes) :=
  if negb (length pubKey =? 65)%nat then Err "public key must be 65 bytes long"
  else Ok (take 32 (drop 1 pubKey), drop 33 pubKey).
Definition XYToUncompressed (x y : bytes) : outcome bytes :=
  if negb (length x =? 32)%nat || negb (length y =? 32)%nat then Err "x and y must be 32 bytes long"
  else Ok (byte_of_Z 4 :: x ++ y).

Section signers.
Context `{SG : SigLib}.

Definition BtcEcPubKeyToXY (pk : pubkey) : Z * Z := (pub_X pk, pub_Y pk).
Definition ConvertSigToRS (mySig : signature) : outcome (Z * Z) :=
  let sig := sig_Serialize mySig in
  if negb (Ensure64Bytes sig) then Err "schnorr signature must be 64 bytes long"
  else Ok (BytesToBigInt (take 32 sig), BytesToBigInt (drop 32 sig)).

(** ** local.go *)
Record LocalSchnorrSigner := { Sk : privkey; Pk : pubkey }.
Definition NewLocalSchnorrSigner (privkey : bytes) : outcome LocalSchnorrSigner :=
  let '(sk, pk) := PrivKeyFromBytes privkey in Ok {| Sk := sk; Pk := pk |}.
(** [NewRandomLocalSchnorrSigner], after [btcec.NewPrivateKey] *)
Definition NewRandomLocalSchnorrSigner (sk : outcome privkey) : outcome LocalSchnorrSigner :=
  sk ← sk; Ok {| Sk := sk; Pk := PubKey sk |}.
Definition local_Sign (msgHash : bytes) : M LocalSchnorrSigner signature :=
  lsw ← get; lift (schnorr_Sign (Sk lsw) msgHash).
Definition local_Pub : M LocalSchnorrSigner pubkey := gets Pk.
#[global] Instance LocalSchnorrSigner_signer : MultisigSigner LocalSchnorrSigner := {|
  ms_Sign := local_Sign; ms_Pub := local_Pub |}.

(** ** net.go: the gRPC service answers with a success flag and bytes *)
Class SignatureClient (N : Type) := {
  grpc_GetPubKey : Z -> M N (bool * bytes);
  grpc_GetSignature : bytes -> M N (bool * bytes) }.
Context {N : Type} `{SC : !SignatureClient N}.
(** the user id of the configuration, and the service *)
Record Connector := { UserID : Z; service : N }.
Definition on_service {A} (m : M N A) : M Connector A :=
  zoom service (fun n c => {| UserID := UserID c; service := n |}) m.
(** [log.Fatalf] ends the process *)
Definition Connector_GetPubKey : M Connector bytes :=
  c ← get;
  r ← try (on_service (grpc_GetPubKey (i32 (UserID c))));
  match r with
  | inl err => panic ("Error calling GetPubKey: " +:+ err)
  | inr (success, key) => if negb success then throw "failed to get pubkey" else mret key
  end.
Definition Connector_GetSignature (msg : bytes) : M Connector bytes :=
  r ← try (on_service (grpc_GetSignature msg));
  match r with
  | inl err => panic ("Error calling GetSignature: " +:+ err)
  | inr (success, sig) => if negb success then throw "failed to get signature" else mret sig
  end.

(** ** remote.go *)
Definition ErrParse : error := "btcec: malformed".
Definition or_malformed {A} (o : option A) : outcome A := match o with Some a => Ok a | None => Err ErrParse end.
Definition remote_Sign (msgHash : bytes) : M Connector signature :=
  signature ← Connector_GetSignature msgHash; lift (or_malformed (ParseSignature signature)).
Definition remote_Pub : M Connector pubkey :=
  content ← Connector_GetPubKey;
  if negb (length content =? 64)%nat then throw "invalid content length from server, expected 64 bytes"
  else lift (or_malformed (ParsePubKey (byte_of_Z 4 :: content))).
#[global] Instance RemoteSchnorrSigner_signer : MultisigSigner Connector := {|
  ms_Sign := remote_Sign; ms_Pub := remote_Pub |}.
End signers.

(** ** signers.go: what is sent on the channel; both wrappers have the same body *)
Definition SignAsync_sent `{SG : SigLib} {W} `{!MultisigSigner W} (request : SignatureRequest)
    : M W SignatureRequest :=
  _sig ← ms_Sign (sr_SigningHash request);
  rs ← lift (ConvertSigToRS _sig);
  mret {| sr_Id := sr_Id request; sr_SigningHash := sr_SigningHash request; sr_Outpoints := [];
          sr_Rx := Some rs.1; sr_S := Some rs.2 |}.

(** ** Lemmas *)
Section facts.
Context `{EL : EthLibLaws, SLaws : SigLaws}.

Lemma BigInt2Bytes32_SetBytes b : length b = 32%nat -> BigInt2Bytes32 (big_SetBytes b) = Ok b.
Proof.
  intros Hb. destruct (BigInt2Bytes32_total (big_SetBytes b)) as (c & Hc & Hl). rewrite Hc. f_equal.
  pose proof (big_SetBytes_bound b) as Hn. rewrite Hb in Hn. change (256 ^ Z.of_nat 32) with (2 ^ 256) in Hn.
  rewrite BigInt2Bytes32_ok in Hc by lia. injection Hc as <-.
  apply big_SetBytes_inj; [by rewrite Hl, Hb|]. by rewrite big_SetBytes_zeros, big_SetBytes_Bytes by lia.
Qed.

(** C29: a signature survives its two numbers: whatever signer signs a hash, the asynchronous wrapper
    answers with the request's id and hash and two numbers from which [Verify], the check of the
    chain manager, rebuilds the very signature, leading zeros included: it accepts exactly when the
    signature verifies under the key. *)
Theorem signature_roundtrip {W} `{MS : !MultisigSigner W} (request : SignatureRequest) sig (w w' : W) pub :
  ms_Sign (sr_SigningHash request) w = (Ok sig, w') ->
  exists rx s,
    SignAsync_sent request w = (Ok {| sr_Id := sr_Id request; sr_SigningHash := sr_SigningHash request;
                                      sr_Outpoints := []; sr_Rx := Some rx; sr_S := Some s |}, w') /\
    Verify pub (sr_SigningHash request) rx s =
      Ok (match ParsePubKey (byte_of_Z 2 :: pub) with
          | Some key => SigVerify sig (sr_SigningHash request) key | None => false end).
Proof.
  intros H. pose proof (law_Serialize_length sig) as Hlen.
  exists (big_SetBytes (take 32 (sig_Serialize sig))), (big_SetBytes (drop 32 (sig_Serialize sig))). split.
  - unfold SignAsync_sent. mstep. rewrite H. mstep. unfold ConvertSigToRS, Ensure64Bytes. by rewrite Hlen.
  - unfold Verify. rewrite !BigInt2Bytes32_SetBytes by (rewrite ?length_take, ?length_drop, Hlen; done).
    cbn [mbind outcome_bind]. destruct (ParsePubKey _); [|done]. by rewrite take_drop, law_ParseSignature.
Qed.

(** An uncompressed key is its two coordinates. *)
Lemma uncompressed_roundtrip x y : length x = 32%nat -> length y = 32%nat ->
  exists pk, XYToUncompressed x y = Ok pk /\ length pk = 65%nat /\ UncompressedToXY pk = Ok (x, y).
Proof.
  intros Hx Hy. eexists. unfold XYToUncompressed. rewrite Hx, Hy. split; [done|].
  assert (length (byte_of_Z 4 :: x ++ y) = 65%nat) as Hl by (cbn; rewrite length_app; lia). split; [done|].
  unfold UncompressedToXY. rewrite Hl. change (negb (65 =? 65)%nat) with false. cbv iota.
  change (drop 1 (byte_of_Z 4 :: x ++ y)) with (x ++ y).
  change (drop 33 (byte_of_Z 4 :: x ++ y)) with (drop 32 (x ++ y)).
  by rewrite <-Hx, take_app_length, drop_app_length.
Qed.
(** A key of the remote service is refused unless it has 64 bytes, and an error of the connection
    ends the process. *)
Lemma remote_Pub_cases {N} `{!SignatureClient N} (c : Connector (N := N)) :
  match result (grpc_GetPubKey (i32 (UserID c))) (service c) with
  | Ok (true, key) => length key <> 64%nat -> exists e, result remote_Pub c = Err e
  | Ok (false, _) => result remote_Pub c = Err "failed to get pubkey"
  | Err e => result remote_Pub c = Panic ("Error calling GetPubKey: " +:+ e)
  | Panic w => result remote_Pub c = Panic w
  end.
Proof.
  unfold result, remote_Pub, Connector_GetPubKey. rewrite !bind_eq. cbn [get]. rewrite bind_eq.
  unfold try, on_service, zoom. destruct (grpc_GetPubKey _ _) as [[[[] key]|e|w] n']; cbn; [|done..].
  intros Hl. eexists. by rewrite (proj2 (Nat.eqb_neq _ _)).
Qed.
End facts.

(** ** A toy signer: a signature is the hash twice *)
Module ToySigner.
#[local] Instance toy_schnorr : SchnorrLib := {|
  pubkey := bytes; signature := { b : bytes | length b = 64%nat }; ParsePubKey b := Some b;
  ParseSignature b := match decide (length b = 64%nat) with left H => Some (exist _ b H) | right _ => None end;
  SigVerify sig msg _ := bool_decide (`sig = msg ++ msg) |}.
#[local] Instance toy_siglib : SigLib := {|
  privkey := bytes; PrivKeyFromBytes b := (b, b); PubKey b := b;
  schnorr_Sign _ msg := or_malformed (ParseSignature (msg ++ msg));
  sig_Serialize sig := `sig; pub_X b := big_SetBytes b; pub_Y b := big_SetBytes b |}.
#[local] Instance toy_laws : SigLaws.
Proof.
  split; [by intros [b H]|]. intros [b H]. unfold ParseSignature, toy_schnorr. cbn.
  destruct (decide (length b = 64%nat)) as [H'|]; [|done]. do 2 f_equal. apply (proof_irrel H').
Qed.
Definition toy_signer : LocalSchnorrSigner := {| Sk := []; Pk := zeros 32 |}.
Definition toy_request : SignatureRequest := {|
  sr_Id := sample_hash 1; sr_SigningHash := sample_hash 7; sr_Outpoints := []; sr_Rx := None; sr_S := None |}.
Definition toy_sig : signature := exist _ (sample_hash 7 ++ sample_hash 7) eq_refl.
(** both numbers are 7: the leading zeros come back *)
Lemma signature_roundtrip_witness : exists rx s,
  SignAsync_sent toy_request toy_signer = (Ok {| sr_Id := sample_hash 1; sr_SigningHash := sample_hash 7;
    sr_Outpoints := []; sr_Rx := Some rx; sr_S := Some s |}, toy_signer) /\
  Verify (zeros 32) (sample_hash 7) rx s = Ok true.
Proof.
  destruct (signature_roundtrip toy_request toy_sig toy_signer toy_signer (zeros 32)) as (rx & s & H1 & H2).
  - vm_compute. reflexivity.
  - exists rx, s. split; [exact H1|]. etrans; [exact H2|]. vm_compute. reflexivity.
Defined.
End ToySigner.
