(* ===== verification/EthUser.v ===== *)
(** * EthUser: accounts on the Ethereum side (etherman/utils.go, etherman/real.go, cmd/eth_user.go,
    cmd/eth_user_cmd/main.go).

    How accounts and the bridge's contracts are set up, and how a user's tool asks for a redeem: the
    balance is checked, the transfer approved and awaited, then the request sent and awaited. *)
From S2P Require Export BtcUser Etherman Signers.

(** ** Keys and deployment (go-ethereum) *)
Class EthAccountLib := {
  ecdsa_key : Type;
  HexToECDSA : string -> outcome ecdsa_key;
  (** the account of a key; the only error is for a nil chain id, and [NewAuth] drops it *)
  NewKeyedTransactorWithChainID : ecdsa_key -> Z -> TransactOpts }.
Class EthDeploy `{AL : EthAccountLib} (N : Type) := {
  ethclient_Dial : string -> outcome unit;
  (** a random key; an error of [crypto.GenerateKey] is dropped with it *)
  crypto_GenerateKey : M N ecdsa_key;
  CodeAt : bytes -> M N bytes;
  (** the address and the transaction of the deployment *)
  DeployTEENetBtcBridge : TransactOpts -> Z -> M N (bytes * Transaction);
  WaitDeployed : Transaction -> M N unit }.

Section accounts.
Context `{E : EthLib} `{AL : EthAccountLib} `{SG : SigLib}.
Context {N : Type} `{EC : !EthClient N} `{ED : !EthDeploy N}.

(** *** etherman/utils.go *)
Definition StringToPrivateKey (s : string) : outcome ecdsa_key := HexToECDSA s.
Definition GenPrivateKey : M N ecdsa_key := crypto_GenerateKey.
Fixpoint GenPrivateKeys (number : nat) : M N (list ecdsa_key) :=
  match number with
  | O => mret []
  | S number => k ← GenPrivateKey; ks ← GenPrivateKeys number; mret (k :: ks)
  end.
Definition NewAuth (sk : ecdsa_key) (chainID : Z) : TransactOpts := NewKeyedTransactorWithChainID sk chainID.
Definition NewAuthAccounts (privateKeys : list ecdsa_key) (chainId : Z) : list TransactOpts :=
  (fun sk => NewAuth sk chainId) <$> privateKeys.

(** *** etherman/real.go *)
Record RealEthChain := {
  rc_ChainId : Z; rc_CoreAccount : TransactOpts; rc_Bridge : bytes; rc_Twbtc : bytes }.
Record RealEthUserChain := {
  ru_ChainId : Z; UserAccount : TransactOpts; ru_Bridge : bytes; ru_Twbtc : bytes }.
(** the contract that is already there, or a new one: [None] when its key is not the signer's *)
Definition bind_predefined (predefinedBridgeAddress : string) : M N bytes :=
  let bridgeAddress := HexToAddress predefinedBridgeAddress in
  code ← or_panic ("[evm] Failed to get code at address: " +:+ predefinedBridgeAddress +:+ " ")
           (CodeAt bridgeAddress);
  if (length code =? 0)%nat
  then throw ("[evm] address " +:+ predefinedBridgeAddress +:+ " doesn't contain smart contract")
  else mret bridgeAddress.
Definition deploy_bridge (coreAccount : TransactOpts) (signer_Pub : M N pubkey) : M N (option bytes) :=
  pub_key ← signer_Pub;
  let pk_x := (BtcEcPubKeyToXY pub_key).1 in
  deployed ← DeployTEENetBtcBridge coreAccount pk_x;
  or_panic "Deployment tx not mined or failed: " (WaitDeployed deployed.2) ;;
  pk ← bridge_Pk;
  mret (if pk =? pk_x then Some deployed.1 else None).
(** [None] is the nil pointer with a nil error; [signer_Pub] is the signer's [Pub()] *)
Definition NewRealEthChain (rpc_url : string) (priv_key : ecdsa_key) (signer_Pub : M N pubkey)
    (predefinedBridgeAddress predefinedTwbtcAddress : string) : M N (option RealEthChain) :=
  or_panic "Failed to connect to the Ethereum client: " (lift (ethclient_Dial rpc_url)) ;;
  chainId ← or_panic "Failed to get chain id: " ChainID;
  let coreAccount := NewAuth priv_key chainId in
  bridge ← (if negb (String.eqb predefinedBridgeAddress "") && negb (String.eqb predefinedTwbtcAddress "")
            then a ← bind_predefined predefinedBridgeAddress; mret (Some a)
            else deploy_bridge coreAccount signer_Pub);
  match bridge with
  | None => mret None
  | Some bridgeAddress =>
      lift (NewTEENetBtcBridge bridgeAddress) ;;
      twbtcAddress ← bridge_Twbtc;
      mret (Some {| rc_ChainId := chainId; rc_CoreAccount := coreAccount; rc_Bridge := bridgeAddress;
                    rc_Twbtc := twbtcAddress |})
  end.
Definition NewRealEthUserChain (rpc_url : string) (priv_key : ecdsa_key) (bridgeAddr twbtcAddr : bytes)
    : M N RealEthUserChain :=
  or_panic "Failed to connect to the Ethereum client: " (lift (ethclient_Dial rpc_url)) ;;
  chainId ← or_panic "Failed to get chain id: " ChainID;
  mret {| ru_ChainId := chainId; UserAccount := NewAuth priv_key chainId; ru_Bridge := bridgeAddr;
          ru_Twbtc := twbtcAddr |}.

(** *** cmd/eth_user.go *)
Record EthUserConfig := {
  EthRpcUrl : string; EthCoreAccountPriv : string; EthBridgeAddress : string; EthTwbtcAddress : string }.
Record EthUser := {
  MyEtherman : Etherman; eu_ChainId : Z; CoreAccount : TransactOpts;
  eu_BridgeContractAddress : bytes; TwbtcContractAddress : bytes }.
Definition NewEthUser (euc : EthUserConfig) : M N EthUser :=
  or_panic "Failed to connect to the Ethereum client: " (lift (ethclient_Dial (EthRpcUrl euc))) ;;
  chainId ← or_panic "Failed to get chain id via rpc: " ChainID;
  priv ← or_panic "Failed to convert private key to ecdsa private key: "
           (lift (StringToPrivateKey (EthCoreAccountPriv euc)));
  let coreAccount := NewAuth priv chainId in
  let bridgeAddress := HexToAddress (EthBridgeAddress euc) in
  let twbtcAddress := HexToAddress (EthTwbtcAddress euc) in
  let ec := {| ec_URL := EthRpcUrl euc; BridgeContractAddress := bridgeAddress;
               TWBTCContractAddress := twbtcAddress |} in
  myEtherman ← or_panic "Failed to create Etherman object: "
                 (lift (ethclient_Dial (ec_URL ec)) ;; NewEtherman ec coreAccount);
  mret {| MyEtherman := myEtherman; eu_ChainId := chainId; CoreAccount := coreAccount;
          eu_BridgeContractAddress := bridgeAddress; TwbtcContractAddress := twbtcAddress |}.

Section user.
Variable eu : EthUser.
Definition eu_GetAddress : string := AddressHex (From (CoreAccount eu)).
Definition eu_GetBalance : M N Z := eGetBalance (From (CoreAccount eu)).
Definition eu_GetTwbtcBalance : M N Z := TWBTCBalanceOf (MyEtherman eu) (From (CoreAccount eu)).
(** the second part of [InitiateRedeem]: the request and its receipt *)
Definition request_and_wait (amount : Z) (btcReceiver : string) : M N bytes :=
  redeem_request_tx ← eRedeemRequest (MyEtherman eu) (CoreAccount eu)
    {| er_Amount := amount; er_Receiver := btcReceiver |};
  redeem_request_success ← WaitForTxReceipt redeem_request_tx 20;
  if negb redeem_request_success
  then throw ("failed to send Redeem Request TxID " +:+ HashString (tx_Hash redeem_request_tx) +:+
              ", amount " +:+ int_Text 10 amount +:+ ", btc_receiver " +:+ btcReceiver)
  else mret (tx_Hash redeem_request_tx).
Definition InitiateRedeem (amount : Z) (btcReceiver : string) : M N bytes :=
  twbtc ← TWBTCBalanceOf (MyEtherman eu) (From (CoreAccount eu));
  if twbtc <? amount
  then throw ("not enough TWBTC balance: have " +:+ int_Text 10 twbtc +:+ ", need " +:+ int_Text 10 amount)
  else
    approve_tx ← TWBTCApprove (MyEtherman eu) (CoreAccount eu) amount;
    approve_success ← WaitForTxReceipt approve_tx 20;
    if negb approve_success
    then throw ("failed to approve TWBTC transfer TxID " +:+ HashString (tx_Hash approve_tx) +:+
                ", amount " +:+ int_Text 10 amount)
    else request_and_wait amount btcReceiver.

(** *** cmd/eth_user_cmd/main.go, over the lines typed *)
Definition sendRedeem : M (terminal (N := N)) string :=
  receiverBtcAddress ← ReadLine;
  amountToRedeem ← ReadAmount;
  twbtc_balance ← on_account eu_GetTwbtcBalance;
  if twbtc_balance <? amountToRedeem then throw "insufficient TWBTC balance"
  else
    redeem_tx_hash ← on_account (InitiateRedeem amountToRedeem receiverBtcAddress);
    mret (HashString redeem_tx_hash).
Definition eth_main_turn : M (terminal (N := N)) bool :=
  lines ← gets snd;
  match lines with
  | [] => mret false
  | _ =>
      input ← ReadLine;
      (if String.eqb input "1"
       then ignore (on_account eu_GetBalance) ;; ignore (on_account eu_GetTwbtcBalance)
       else if String.eqb input "2" then ignore sendRedeem
       else mret tt) ;;
      mret true
  end.
End user.
Definition PrepareEthUserConfig (GetString : string -> string) : EthUserConfig := {|
  EthRpcUrl := GetString "ETH_RPC_URL"; EthCoreAccountPriv := GetString "ETH_CORE_ACCOUNT_PRIV";
  EthBridgeAddress := GetString "ETH_BRIDGE_ADDRESS"; EthTwbtcAddress := GetString "ETH_TWBTC_ADDRESS" |}.
End accounts.

(** ** What a redeem request is sent after *)
(** the requests the bridge contract received: reading a balance or a receipt and approving a transfer
    add none; a failed request may have been received or not *)
Class RedeemChainLaws (N : Type) `{EC : EthClient N} := {
  requests : N -> list (bytes * Z * string);
  law_balance a s : requests (run (twbtc_BalanceOf a) s) = requests s;
  law_approve acct spender v s : requests (run (twbtc_Approve acct spender v) s) = requests s;
  law_receipt h s : requests (run (TransactionReceipt h) s) = requests s;
  law_request acct v r s :
    requests (run (bridge_RedeemRequest acct v r) s) = requests s ++ [(From acct, v, r)] \/
    (is_ok (result (bridge_RedeemRequest acct v r) s) = false /\
     requests (run (bridge_RedeemRequest acct v r) s) = requests s) }.

Section guarded.
Context `{E : EthLib} {N : Type} `{RC : RedeemChainLaws N}.

(** a receipt with status 1 was read *)
Definition confirmed (tx : Transaction) : Prop :=
  exists s r, result (TransactionReceipt (tx_Hash tx)) s = Ok (Some r) /\ rc_Status r = 1.
Lemma WaitForTxReceipt_spec tx n : forall s,
  requests (run (WaitForTxReceipt_loop tx n) s) = requests s /\
  (result (WaitForTxReceipt_loop tx n) s = Ok true -> confirmed tx).
Proof.
  induction n as [|n IH]; intros s; [done|]. cbn [WaitForTxReceipt_loop]. unfold run, result, try.
  rewrite bind_eq. pose proof (law_receipt (tx_Hash tx) s) as Hr. unfold run in Hr.
  destruct (TransactionReceipt (tx_Hash tx) s) as [[[r|]|e|w] s1] eqn:Hq; cbn in Hr.
  - destruct (rc_BlockNumber r); [|done]. split; [done|]. intros [= Hs%Z.eqb_eq]. exists s, r.
    unfold result. by rewrite Hq.
  - destruct (IH s1) as [H1 H2]. split; [by rewrite <-Hr|exact H2].
  - destruct (String.eqb e NotFound); [|done]. destruct (IH s1) as [H1 H2]. split; [by rewrite <-Hr|exact H2].
  - done.
Qed.

Lemma request_and_wait_spec (eu : EthUser) amount rcv s :
  let acct := CoreAccount eu in
  let s' := run (request_and_wait eu amount rcv) s in
  (requests s' = requests s /\ is_ok (result (request_and_wait eu amount rcv) s) = false) \/
  (requests s' = requests s ++ [(From acct, amount, rcv)] /\
   forall h, result (request_and_wait eu amount rcv) s = Ok h ->
     exists tx s3, result (bridge_RedeemRequest acct amount rcv) s3 = Ok tx /\ h = tx_Hash tx /\ confirmed tx).
Proof.
  cbv zeta. unfold request_and_wait, eRedeemRequest, getBridgeContract, run, result. rewrite !bind_eq, lift_eq.
  destruct (NewTEENetBtcBridge _) as [[]|e|w]; [|by left..]. cbn [er_Amount er_Receiver].
  pose proof (law_request (CoreAccount eu) amount rcv s) as Hq. unfold run, result in Hq.
  destruct (bridge_RedeemRequest _ _ _ s) as [[tx|e|w] s1] eqn:Er; cbn in Hq.
  2,3: destruct Hq as [Hq|[_ Hq]]; [by right|by left].
  destruct Hq as [Hq|[? _]]; [|done]. right. rewrite bind_eq. unfold WaitForTxReceipt.
  destruct (WaitForTxReceipt_spec tx (Z.to_nat 20) s1) as [H1 H2]. unfold run, result in H1, H2.
  destruct (WaitForTxReceipt_loop _ _ _) as [[ok|e|w] s2]; cbn in H1, H2; [|by rewrite <-Hq..].
  destruct ok; cbn [negb]; [|by rewrite <-Hq]. rewrite ret_eq. split; [by rewrite <-Hq|]. intros h [= <-].
  exists tx, s. unfold result. rewrite Er. by split_and!; [| |apply H2].
Qed.

(** C17: a redeem is requested only after its cover: the user's tool sends at most one request, and
    only after it has read a TWBTC balance of at least the amount, has approved the bridge for the
    amount and has read a receipt with status 1 of that approval; the id it returns is that of the
    request, after a receipt with status 1. In every other case there is no request and an error. *)
Theorem redeem_request_guarded (eu : EthUser) amount rcv s :
  let acct := CoreAccount eu in
  let s' := run (InitiateRedeem eu amount rcv) s in
  (requests s' = requests s /\ is_ok (result (InitiateRedeem eu amount rcv) s) = false) \/
  (requests s' = requests s ++ [(From acct, amount, rcv)] /\
   (exists balance, result (twbtc_BalanceOf (From acct)) s = Ok balance /\ amount <= balance) /\
   (exists tx, result (twbtc_Approve acct (BridgeContractAddress (ecfg (MyEtherman eu))) amount)
                 (run (twbtc_BalanceOf (From acct)) s) = Ok tx /\ confirmed tx) /\
   forall h, result (InitiateRedeem eu amount rcv) s = Ok h ->
     exists tx s3, result (bridge_RedeemRequest acct amount rcv) s3 = Ok tx /\ h = tx_Hash tx /\ confirmed tx).
Proof.
  cbv zeta. unfold InitiateRedeem, TWBTCBalanceOf, TWBTCApprove, getTWBTCContract.
  unfold run, result. rewrite !bind_eq, lift_eq. destruct (NewTWBTC _) as [[]|e|w] eqn:Hn; [|by left..].
  pose proof (law_balance (From (CoreAccount eu)) s) as Hb. unfold run in Hb.
  destruct (twbtc_BalanceOf _ s) as [[bal|e|w] s1] eqn:Eb; cbn in Hb; [|by left..].
  destruct (Z.ltb_spec bal amount) as [Hlt|Hge]; [by left|].
  rewrite !bind_eq, lift_eq. pose proof (law_approve (CoreAccount eu) (BridgeContractAddress (ecfg (MyEtherman eu))) amount s1) as Ha.
  unfold run in Ha. destruct (twbtc_Approve _ _ _ s1) as [[tx|e|w] s2] eqn:Ea; cbn in Ha; [|left; split; [cbn; congruence|done]..].
  rewrite bind_eq. unfold WaitForTxReceipt at 1 2 3.
  destruct (WaitForTxReceipt_spec tx (Z.to_nat 20) s2) as [H1 H2]. unfold run, result in H1, H2.
  unfold WaitForTxReceipt. destruct (WaitForTxReceipt_loop _ _ s2) as [[ok|e|w] s3]; cbn in H1, H2; [|left; split; [cbn; congruence|done]..].
  destruct ok; cbn [negb]; [|by left; split; [cbn; congruence|]].
  pose proof (request_and_wait_spec eu amount rcv s3) as Hr. unfold run, result in Hr.
  destruct Hr as [[Hr Hf]|[Hr Hf]]; [left|right].
  - split; [congruence|done].
  - split; [congruence|]. split; [by exists bal|]. split; [|exact Hf]. exists tx. cbn. rewrite Ea. by split; [|apply H2].
Qed.
End guarded.

(** ** A concrete chain: a balance of 500, and every transaction confirmed *)
Module ToyRedeem.
Definition requested : Type := list (bytes * Z * string).
#[local] Instance toy_redeem : EthClient requested := {|
  BlockByNumber _ := mret 2; FilterLogs _ _ _ := mret []; PendingNonceAt _ := mret 0;
  HeaderByHash h := mret {| h_Hash := h; h_Number := 2 |};
  HeaderByNumber _ := mret {| h_Hash := []; h_Number := 2 |};
  TransactionReceipt _ := mret (Some {| rc_Status := 1; rc_BlockNumber := Some 2 |});
  BalanceAt _ := mret 0; ChainID := mret 1337; bridgeABI := Ok tt;
  Unpack_Minted _ := Err "abi"; Unpack_RedeemRequested _ := Err "abi"; Unpack_RedeemPrepared _ := Err "abi";
  NewTEENetBtcBridge _ := Ok tt; NewTWBTC _ := Ok tt;
  bridge_Mint _ _ _ _ _ _ := throw "not the bridge";
  bridge_RedeemRequest a v r := fun s => (Ok {| tx_Hash := [byte_of_Z 9] |}, s ++ [(From a, v, r)]);
  bridge_RedeemPrepare _ _ _ _ _ _ _ _ _ := throw "not the bridge";
  bridge_Twbtc := mret []; bridge_Pk := mret 0; bridge_IsPrepared _ := mret false;
  bridge_IsMinted _ := mret false; bridge_IsUsed _ := mret false; twbtc_BalanceOf _ := mret 500;
  twbtc_Approve _ _ _ := mret {| tx_Hash := [byte_of_Z 8] |}; twbtc_Allowance _ _ := mret 0 |}.
#[local] Program Instance toy_redeem_laws : RedeemChainLaws requested := {| requests s := s |}.
Next Obligation. done. Qed.
Next Obligation. done. Qed.
Next Obligation. done. Qed.
Next Obligation. intros. by left. Qed.
Definition toy_user : EthUser := {|
  MyEtherman := {| ecfg := {| ec_URL := ""; BridgeContractAddress := []; TWBTCContractAddress := [] |};
                   auth := {| From := [byte_of_Z 7]; Nonce := None |} |};
  eu_ChainId := 1337; CoreAccount := {| From := [byte_of_Z 7]; Nonce := None |};
  eu_BridgeContractAddress := []; TwbtcContractAddress := [] |}.
Lemma redeem_request_guarded_witness :
  result (InitiateRedeem toy_user 501 "bc1q") [] =
    Err "not enough TWBTC balance: have 500, need 501" /\
  run (InitiateRedeem toy_user 300 "bc1q") [] = [([byte_of_Z 7], 300, "bc1q"%string)] /\
  exists balance, result (twbtc_BalanceOf [byte_of_Z 7]) ([] : requested) = Ok balance /\ 300 <= balance.
Proof.
  split; [vm_compute; reflexivity|]. split; [vm_compute; reflexivity|].
  destruct (redeem_request_guarded toy_user 300 "bc1q" ([] : requested)) as [[_ Hn]|(_ & Hb & _)];
    [vm_compute in Hn; discriminate Hn|exact Hb].
Defined.
End ToyRedeem.
