(* ===== verification/Reporter.v ===== *)
(** * Reporter: the HTTP reports on deposits and redeems (reporter/http_server.go, http_reader.go).

    A handler is a computation over the storages it reads and the responses it has written:
    [c.JSON] appends one, and a handler that goes on after it writes another. The router and
    the JSON encoding are gin's. *)
From S2P Require Export BtcTx StateDB BtcAction.

Record DepositResponse := {
  BtcDepoTxStatus : string; BtcDepoTxId : string; BtcDepoAmount : string;
  EvmMintTxStatus : string; EvmMintReceiver : string; EvmMintTxId : string; EvmMintAmount : string }.
Record RedeemResponse := {
  EvmRequester : string; EvmRequestTxId : string; EvmRequestAmount : string; EvmPrepareTxId : string;
  BtcRedeemReceiver : string; BtcRedeemTxId : string; BtcRedeemAmount : string;
  BtcRedeemStatus : string; rs_Status : string }.
(** [gin.H{"message": ...}], [{"error": ...}] and the two kinds of [{"data": ...}] *)
Inductive body :=
  | BMessage (text : string) | BError (text : string)
  | BDeposits (l : list DepositResponse) | BRedeems (l : list RedeemResponse).

(** [x.Text(10)] and [x.String()] of a [*big.Int] *)
Definition amount_text (x : option Z) : string :=
  match x with Some n => int_Text 10 n | None => "<nil>" end.

Section reporter.
Context `{E : EthLib, GL : GobLib}.
Context {D A : Type} `{DS : !DepositStorage D, RA : !RedeemActionStorage A}.
Record HttpReporter := { depositdb : D; redeemdb : A; rep_statedb : StateDB; written : list (Z * body) }.
Definition NewHttpReporter (d : D) (a : A) (s : StateDB) : HttpReporter :=
  {| depositdb := d; redeemdb := a; rep_statedb := s; written := [] |}.
Definition on_deposits {X} (m : M D X) : M HttpReporter X := zoom depositdb (fun d h =>
  {| depositdb := d; redeemdb := redeemdb h; rep_statedb := rep_statedb h; written := written h |}) m.
Definition on_redeems {X} (m : M A X) : M HttpReporter X := zoom redeemdb (fun a h =>
  {| depositdb := depositdb h; redeemdb := a; rep_statedb := rep_statedb h; written := written h |}) m.
Definition on_rstate {X} (m : M StateDB X) : M HttpReporter X := zoom rep_statedb (fun s h =>
  {| depositdb := depositdb h; redeemdb := redeemdb h; rep_statedb := s; written := written h |}) m.
Definition wrote (w : list (Z * body)) (h : HttpReporter) : HttpReporter :=
  {| depositdb := depositdb h; redeemdb := redeemdb h; rep_statedb := rep_statedb h; written := w |}.
Definition c_JSON (code : Z) (b : body) : M HttpReporter unit :=
  modify (fun h => wrote (written h ++ [(code, b)]) h).

Definition Hello : M HttpReporter unit := c_JSON 200 (BMessage "world").

(** one deposit; [None]: its mint is not in the state, and it is left out *)
Definition deposit_response (depo : DepositAction) (mint : option Mint) : option DepositResponse :=
  match mint with
  | None => None
  | Some mint =>
      let minted := negb (bool_decide (m_MintTxHash mint = EmptyHash)) in
      Some {| BtcDepoTxStatus := "confirmed"; BtcDepoTxId := da_TxHash depo;
              BtcDepoAmount := int_Text 10 (DepositValue depo);
              EvmMintTxStatus := if minted then "confirmed" else "pending";
              EvmMintReceiver := EvmAddr depo;
              EvmMintTxId := if minted then HashString (m_MintTxHash mint) else EmptyString;
              EvmMintAmount := if minted then amount_text (m_Amount mint) else EmptyString |}
  end.
(** the loop; an error writes a response and returns *)
Fixpoint Deposits_loop (resp : list DepositResponse) (depos : list DepositAction) : M HttpReporter unit :=
  match depos with
  | [] => c_JSON 200 (BDeposits resp)
  | depo :: depos =>
      r ← try (on_rstate (GetMint (HexToHash (da_TxHash depo))));
      match r with
      | inl err => c_JSON 500 (BError err)
      | inr mint => Deposits_loop (resp ++ from_option (fun x => [x]) [] (deposit_response depo mint)) depos
      end
  end.
(** The deposits are sorted only when there are none. *)
Definition Deposits (evmReceiver : string) : M HttpReporter unit :=
  if String.eqb evmReceiver EmptyString then c_JSON 400 (BError "evm_receiver must be provided")
  else
    r ← try (on_deposits (GetDepositsByEVMAddr (ToLower evmReceiver)));
    match r with
    | inl err => c_JSON 500 (BError err)
    | inr depos => Deposits_loop [] depos
    end.

(** the response before the Bitcoin side is asked *)
Definition redeem_response (redeem : Redeem) : RedeemResponse :=
  let prepared := negb (bool_decide (PrepareTxHash redeem = EmptyHash)) in
  let received := negb (String.eqb (Receiver redeem) EmptyString) in
  {| EvmRequester := Prepend0xPrefix (ByteSliceToPureHexStr (Requester redeem));
     EvmRequestTxId := HashString (RequestTxHash redeem);
     EvmRequestAmount := amount_text (Amount redeem);
     EvmPrepareTxId := if prepared then HashString (PrepareTxHash redeem) else EmptyString;
     BtcRedeemReceiver := if received then Receiver redeem else EmptyString;
     BtcRedeemTxId := EmptyString;
     BtcRedeemAmount := if received then amount_text (Amount redeem) else EmptyString;
     BtcRedeemStatus := EmptyString;
     rs_Status := if prepared then "prepared" else "requested" |}.
Definition with_action (r : RedeemResponse) (a : RedeemAction) : RedeemResponse := {|
  EvmRequester := EvmRequester r; EvmRequestTxId := EvmRequestTxId r; EvmRequestAmount := EvmRequestAmount r;
  EvmPrepareTxId := EvmPrepareTxId r; BtcRedeemReceiver := BtcRedeemReceiver r; BtcRedeemTxId := BtcHash a;
  BtcRedeemAmount := BtcRedeemAmount r;
  BtcRedeemStatus := if Mined a then "mined" else if Sent a then "sent" else BtcRedeemStatus r;
  rs_Status := if Mined a then "completed" else rs_Status r |}.
Definition request_text (redeem : Redeem) : string := Remove0xPrefix (HashString (RequestTxHash redeem)).
Fixpoint Redeems_loop (response : list RedeemResponse) (redeems : list Redeem) : M HttpReporter unit :=
  match redeems with
  | [] => c_JSON 200 (BRedeems response)
  | redeem :: redeems =>
      let _resp := redeem_response redeem in
      hasIt ← try (on_redeems (HasRedeem (request_text redeem)));
      match hasIt with
      | inl err => c_JSON 500 (BError err)
      | inr false => Redeems_loop (response ++ [_resp]) redeems
      | inr true =>
          r ← try (on_redeems (QueryByEthRequestTxId (request_text redeem)));
          match r with
          | inl err | inr (_, Some err) => c_JSON 500 (BError err)
          | inr (None, None) => panic "nil pointer dereference"
          | inr (Some _redeemAction, None) => Redeems_loop (response ++ [with_action _resp _redeemAction]) redeems
          end
      end
  end.
(** After an address that is not valid has been refused, the handler goes on. *)
Definition Redeems (evmRequester : string) : M HttpReporter unit :=
  if String.eqb evmRequester EmptyString then c_JSON 400 (BError "evm_requester must be provided")
  else
    (if negb (EnsureSafeAddressHexString evmRequester)
     then c_JSON 400 (BError "evm_requester is not a valid address string") else mret tt) ;;
    r ← try (on_rstate (GetRedeemsByRequester (Trim0xPrefix evmRequester)));
    match r with
    | inl err => c_JSON 500 (BError err)
    | inr redeems => Redeems_loop [] redeems
    end.

(** The routes; a request has a path and at most one parameter here, [c.Query] of another is empty. *)
Definition ROUTE_HELLO : string := "/hello".
Definition ROUTE_DEPOSITS : string := "/deposits".
Definition ROUTE_REDEEMS : string := "/redeems".
Record request := { req_path : string; req_param : option (string * string) }.
Definition c_Query (r : request) (key : string) : string :=
  match req_param r with
  | Some (k, v) => if String.eqb k key then v else EmptyString
  | None => EmptyString
  end.
Definition SetupRouter (r : request) : M HttpReporter unit :=
  if String.eqb (req_path r) ROUTE_HELLO then Hello
  else if String.eqb (req_path r) ROUTE_DEPOSITS then Deposits (c_Query r "evm_receiver")
  else if String.eqb (req_path r) ROUTE_REDEEMS then Redeems (c_Query r "evm_requester")
  else c_JSON 404 (BMessage "404 page not found").
End reporter.
Arguments HttpReporter D A : clear implicits.

(** ** http_reader.go: the requests of the reader, and their text *)
Record HttpReader := { serverIP : string; serverPort : string }.
Definition NewHttpReader (ip port : string) : HttpReader := {| serverIP := ip; serverPort := port |}.
Definition url_of (hr : HttpReader) (r : request) : string :=
  ("http://" +:+ serverIP hr +:+ ":" +:+ serverPort hr +:+ req_path r +:+
   match req_param r with Some (k, v) => "?" +:+ k +:+ "=" +:+ v | None => "" end)%string.
Definition by_btc_tx (btcTxID : string) : request :=
  {| req_path := ROUTE_DEPOSITS; req_param := Some ("btc_tx_id"%string, btcTxID) |}.
Definition by_receiver (receiver : string) : request :=
  {| req_path := ROUTE_DEPOSITS; req_param := Some ("evm_receiver"%string, receiver) |}.
Definition by_requester (requester : string) : request :=
  {| req_path := ROUTE_REDEEMS; req_param := Some ("evm_requester"%string, requester) |}.
Section reader.
Context {N : Type}.
(** [http.Get] and [io.ReadAll] of the body *)
Variable http_Get : string -> M N string.
Variable hr : HttpReader.
Definition GetHello : M N string := http_Get (url_of hr {| req_path := ROUTE_HELLO; req_param := None |}).
Definition GetDepositStatus (btcTxID : string) : M N string := http_Get (url_of hr (by_btc_tx btcTxID)).
Definition GetDepositStatusByReceiver (receiver : string) : M N string := http_Get (url_of hr (by_receiver receiver)).
Definition reader_GetRedeemsByRequester (requester : string) : M N string := http_Get (url_of hr (by_requester requester)).
End reader.


(** What the reader's requests are answered with: the parameter of [GetDepositStatus] is not one the
    route reads, so it is refused for every transaction. *)
Lemma reader_requests `{E : EthLib, GL : GobLib} {D A : Type} `{DS : !DepositStorage D, RA : !RedeemActionStorage A} id :
  SetupRouter (D := D) (A := A) (by_btc_tx id) = c_JSON 400 (BError "evm_receiver must be provided") /\
  SetupRouter (D := D) (A := A) (by_receiver id) = Deposits id /\
  SetupRouter (D := D) (A := A) (by_requester id) = Redeems id.
Proof. done. Qed.

(** ** What is reported *)
Section reports.
Context `{EL : EthLibLaws, GL' : GobLaws}.
Context {D A : Type} `{DS : !DepositStorage D} `{RL : RedeemStorageLaws A}.

(** the report of a redeem: what the state knows of it, and its tracked payment *)
Definition redeem_report (acts : list RedeemAction) (redeem : Redeem) : RedeemResponse :=
  match find_row EthRequestTxID acts (request_text redeem) with
  | Some a => with_action (redeem_response redeem) a
  | None => redeem_response redeem
  end.
Lemma Redeems_loop_eq (h : HttpReporter D A) response redeems : ra_healthy (redeemdb h) ->
  Redeems_loop response redeems h =
    (Ok tt, wrote (written h ++ [(200, BRedeems (response ++ (redeem_report (actions (redeemdb h)) <$> redeems)))]) h).
Proof.
  intros Hh. revert response. induction redeems as [|r redeems IH]; intros response; cbn [Redeems_loop].
  { unfold c_JSON, modify. by rewrite app_nil_r. }
  set (k := request_text r). mstep. unfold try at 1, on_redeems, zoom.
  destruct (law_ra_has (redeemdb h) k) as (o & Ho & [->|[_ ?]]); [|done]. rewrite Ho.
  assert (forall x : HttpReporter D A, {| depositdb := depositdb x; redeemdb := redeemdb x;
    rep_statedb := rep_statedb x; written := written x |} = x) as Heta by by intros [].
  rewrite Heta. cbn [fst snd]. rewrite fmap_cons. unfold redeem_report at 1. fold k.
  destruct (find_row EthRequestTxID (actions (redeemdb h)) k) as [a|] eqn:Ha.
  - rewrite bool_decide_eq_true_2. 2:{ destruct (decide (k ∈ EthRequestTxID <$> actions (redeemdb h))); [done|].
      by rewrite (proj2 (find_row_None _ _ _)) in Ha. }
    mstep. unfold try. destruct (law_ra_eth (redeemdb h) k) as (p & Hp & [->|[_ ?]]); [|done]. rewrite Hp, Ha, Heta.
    rewrite IH, <-(assoc_L (++)). done.
  - rewrite bool_decide_eq_false_2 by by apply find_row_None. by rewrite IH, <-(assoc_L (++)).
Qed.
Lemma try_on_rstate {X} (m : M StateDB X) (h : HttpReporter D A) x :
  m (rep_statedb h) = (Ok x, rep_statedb h) -> try (on_rstate m) h = (Ok (inr x), h).
Proof. intros Hm. unfold try, on_rstate, zoom. rewrite Hm. by destruct h. Qed.
(** *** The redeems of a requester *)
(** the redeems of the table, in its order: every row read *)
Definition stored (d : StateDB) : list Redeem :=
  omap (fun row => match read_redeem row with Ok r => Some r | _ => None end) (redeem_table d).
(** the redeems whose requester is, in hexadecimal digits of any case, the text asked for *)
Definition requested_by (text : string) (l : list Redeem) : list Redeem :=
  filter (fun r => hex_encode (Requester r) = ToLower text) l.
Lemma requested_by_rows text rows :
  Forall redeem_row_wf rows -> Forall (fun row => redeem_check row = true) rows ->
  mapM read_redeem (filter (fun row => ToLower (row_requester row) = ToLower text) rows) =
    Ok (requested_by text (omap (fun row => match read_redeem row with Ok r => Some r | _ => None end) rows)).
Proof.
  intros Hw Hc. induction rows as [|row rows IH]; [done|].
  apply Forall_cons in Hw as [Hw Hws]. apply Forall_cons in Hc as [Hc Hcs]. specialize (IH Hws Hcs).
  destruct (read_redeem_Ok row Hw Hc) as (r & Hr & _).
  assert (hex_encode (Requester r) = ToLower (row_requester row)) as Hq.
  { destruct Hw as (_ & _ & _ & (b & Hb) & _). unfold read_redeem, sqlRedeem_decode in Hr.
    destruct (DecodeOutpoints _) as [ops|e|w]; [|done..]. injection Hr as <-. cbn.
    by rewrite Hb, ToLower_hex, HexStrToByteSlice_hex. }
  cbn [omap list_omap]. rewrite Hr. unfold requested_by. rewrite !filter_cons, Hq.
  fold (requested_by text (omap (fun row => match read_redeem row with Ok r => Some r | _ => None end) rows)).
  destruct (decide (ToLower (row_requester row) = ToLower text)); [|exact IH].
  cbn [mapM]. by rewrite Hr, IH.
Qed.
Lemma GetRedeemsByRequester_eq d q : db_fault d = no_faults -> StateDB_inv d ->
  GetRedeemsByRequester q d = (Ok (requested_by (Trim0xPrefix q) (stored d)), d).
Proof.
  intros Hf (Ht & _ & Hw & _). unfold GetRedeemsByRequester. mstep. rewrite prepare_ok by done. mstep.
  rewrite exec_ok by done. mstep. rewrite requested_by_rows; [done|done|].
  unfold redeemTable in Ht. rewrite !andb_true_iff, forallb_forall in Ht. destruct Ht as [[[Ht _] _] _].
  apply Forall_forall. intros row Hrow. apply Ht. by apply list_elem_of_In.
Qed.
Lemma requested_by_address text addr l : ToLower text = hex_encode addr ->
  requested_by text l = filter (fun r => Requester r = addr) l.
Proof.
  intros Ht. unfold requested_by. rewrite Ht. apply list_filter_iff. intros r. split; [|by intros ->].
  by apply (inj hex_encode).
Qed.

(** C30: the report on redeems: on a storage that answers, the handler answers a query with one
    entry per redeem that the state stores for the requester and for no other, in the order of
    the table: those whose requester is the address that the query writes in hexadecimal, in
    any case, with or without 0x. An entry is completed exactly when its payment is recorded as
    mined, and otherwise shows the state's own stage, requested or prepared (an invalid request is
    reported as requested). A requester that is not an address is refused and answered all the same:
    two responses are written. *)
Theorem redeems_reported (h : HttpReporter D A) q :
  ra_healthy (redeemdb h) -> db_fault (rep_statedb h) = no_faults -> StateDB_inv (rep_statedb h) ->
  q <> EmptyString ->
  let acts := actions (redeemdb h) in
  let text := Trim0xPrefix (Trim0xPrefix q) in
  let redeems := requested_by text (stored (rep_statedb h)) in
  Redeems q h = (Ok tt, wrote (written h ++
    (if EnsureSafeAddressHexString q then [] else [(400, BError "evm_requester is not a valid address string")]) ++
    [(200, BRedeems (redeem_report acts <$> redeems))]) h) /\
  (forall addr, ToLower text = hex_encode addr ->
     redeems = filter (fun r => Requester r = addr) (stored (rep_statedb h))) /\
  forall r, let st := rs_Status (redeem_report acts r) in
    (st = "completed"%string <->
     exists a, find_row EthRequestTxID acts (request_text r) = Some a /\ Mined a = true) /\
    (st <> "completed"%string -> st = if decide (PrepareTxHash r = EmptyHash) then "requested"%string else "prepared"%string).
Proof.
  intros Hh Hf Hinv Hq acts text redeems. split; [|split].
  - unfold Redeems. rewrite (proj2 (String.eqb_neq _ _)) by done.
    pose proof (GetRedeemsByRequester_eq (rep_statedb h) (Trim0xPrefix q) Hf Hinv) as Hg.
    fold text in Hg. fold redeems in Hg.
    destruct (EnsureSafeAddressHexString q); cbn [negb].
    + rewrite !bind_eq, ret_eq, bind_eq, (try_on_rstate _ h redeems Hg). cbn. by rewrite Redeems_loop_eq.
    + rewrite !bind_eq. unfold c_JSON at 1, modify. rewrite bind_eq, (try_on_rstate _ (wrote _ h) redeems Hg).
      rewrite Redeems_loop_eq by done. cbn. by rewrite <-(assoc_L (++)).
  - intros addr. apply requested_by_address.
  - intros r st. subst st. unfold redeem_report, acts.
    assert (rs_Status (redeem_response r) <> "completed"%string /\ rs_Status (redeem_response r) =
      if decide (PrepareTxHash r = EmptyHash) then "requested"%string else "prepared"%string) as [Hne Hst].
    { unfold redeem_response. cbn. by destruct (decide _), (bool_decide_reflect (PrepareTxHash r = EmptyHash)). }
    destruct (find_row _ _ _) as [a|]; [cbn; destruct (Mined a) eqn:Hm|]; (split; [split|]); try done.
    + by exists a.
    + by intros (a' & [= <-] & ?); congruence.
    + by intros (? & ? & _).
Qed.

(** The report on deposits: the deposits to the receiver whose mint the state holds, in the order
    of the storage; a mint without a transaction is pending. *)
Lemma Deposits_loop_eq (h : HttpReporter D A) resp depos : db_fault (rep_statedb h) = no_faults ->
  Deposits_loop resp depos h = (Ok tt, wrote (written h ++ [(200, BDeposits (resp ++
    omap (fun d => deposit_response d ((fun row => sqlMint_decode (scan_mint row))
                     <$> mint_at (rep_statedb h) (HexToHash (da_TxHash d)))) depos))]) h).
Proof.
  intros Hf. revert resp. induction depos as [|d depos IH]; intros resp; cbn [Deposits_loop].
  { unfold c_JSON, modify. by rewrite app_nil_r. }
  mstep. unfold try, on_rstate, zoom. rewrite GetMint_eq by done.
  replace {| depositdb := depositdb h |} with h by by destruct h.
  cbn [omap list_omap]. destruct (deposit_response d _); cbn; rewrite IH, <-(assoc_L (++)); done.
Qed.
Lemma deposits_reported (h : HttpReporter D A) q depos :
  q <> EmptyString -> db_fault (rep_statedb h) = no_faults ->
  GetDepositsByEVMAddr (ToLower q) (depositdb h) = (Ok depos, depositdb h) ->
  Deposits q h = (Ok tt, wrote (written h ++ [(200, BDeposits (
    omap (fun d => deposit_response d ((fun row => sqlMint_decode (scan_mint row))
                     <$> mint_at (rep_statedb h) (HexToHash (da_TxHash d)))) depos))]) h).
Proof.
  intros Hq Hf Hd. unfold Deposits. rewrite (proj2 (String.eqb_neq _ _)) by done. mstep.
  unfold try, on_deposits, zoom. rewrite Hd. replace {| depositdb := depositdb h |} with h by by destruct h.
  by rewrite Deposits_loop_eq.
Qed.
End reports.

(** ** A concrete report *)
Definition toy_mined : RedeemAction := {|
  EthRequestTxID := request_text sample_redeem; BtcHash := "b1"; Sent := true; Mined := true |}.
(** a second redeem, of another requester *)
Definition toy_other : Redeem := {|
  RequestTxHash := sample_hash 31; PrepareTxHash := zeros 32; r_BtcTxId := zeros 32;
  Requester := replicate 20 (byte_of_Z 9); Receiver := "bc1q"; Amount := Some 7; Outpoints := None;
  Status := RedeemStatusRequested |}.
Definition toy_stored : StateDB :=
  run (InsertAfterRequested toy_other) (run (InsertAfterRequested sample_redeem) sample_db).
Definition toy_reporter : HttpReporter SQLiteDepositStorage SQLiteRedeemStorage :=
  NewHttpReporter {| a_rows := []; a_fault := fun _ => None |} {| a_rows := [toy_mined]; a_fault := fun _ => None |}
    toy_stored.
Lemma toy_stored_inv : StateDB_inv toy_stored.
Proof.
  unfold toy_stored. refine (keeps_InsertAfterRequested toy_other _ _ _); [by split_and!|].
  refine (keeps_InsertAfterRequested sample_redeem _ _ sample_db_inv). split_and!; [done..|].
  intros l [= <-]. repeat constructor; cbn; lia.
Qed.
Lemma redeems_reported_witness :
  Redeems "0x0707070707070707070707070707070707070707" toy_reporter =
    (Ok tt, wrote [(200, BRedeems [with_action (redeem_response (requested_part sample_redeem)) toy_mined])] toy_reporter) /\
  rs_Status (redeem_report (actions (redeemdb toy_reporter)) (requested_part sample_redeem)) = "completed"%string.
Proof.
  destruct (redeems_reported toy_reporter "0x0707070707070707070707070707070707070707")
    as (Hr & _ & Hs); [done|done|exact toy_stored_inv|done|]. split.
  - rewrite Hr. vm_compute. reflexivity.
  - apply (proj1 (Hs _)). exists toy_mined. split; vm_compute; reflexivity.
Defined.
