(* ===== verification/ServedWorker.v ===== *)
(** * ServedWorker: the Aptos worker as the bridge server runs it (aptosman/aptosman.go).

    cmd/server.go gives the transaction manager an [AptosSyncWorker], whose manager methods are at
    the end of aptosman.go; the [AptosMgrWorker] of Aptosman.v is not used there. The two differ in
    the receiver, in the form of identifiers and in the parameters of a preparation. *)
From S2P Require Export Aptosman.

Section worker.
Context `{E : EthLib} {N : Type} `{AN : AptosNode N}.
Variable aptman : Aptosman.

(** the constant that replaces the receiver of every mint *)
Definition expectedAddress : string := "0xfbfe84d58d9ef1366f295066dbf1767f53d52d319843800c63c5e32d66411864".
Definition btcTxIdHex (id : bytes) : string := ("0x" +:+ hex_encode id)%string.
Definition served_mint_params (params : MintParameter) : MintParams := {|
  mn_BtcTxId := bytes_of_string (btcTxIdHex (mp_BtcTxId params)); mn_Amount := big_Uint64 (mp_Amount params);
  mn_Receiver := expectedAddress |}.
(** Beside the error of an unreadable version the hash is returned; the manager does not look at it. *)
Definition served_version (pre : string) (txHash : string) : M N (bytes * option Z) :=
  version ← with_text (pre +:+ " succeeded but failed to get ledger version: ") GetLatestFinalizedVersion;
  mret (bytes_of_string txHash, Some (i64 version)).
Definition served_DoMint (params : MintParameter) : M N (bytes * option Z) :=
  txHash ← with_text "failed to mint: " (aMint aptman (served_mint_params params));
  served_version "mint" txHash.
(** no requester and no outpoints *)
Definition served_prepare_params (params : PrepareParameter) : PrepareParams := {|
  pr_RequestTxHash := string_of_bytes (pp_RequestTxHash params); pr_Requester := EmptyString;
  pr_Receiver := pp_Receiver params; pr_Amount := big_Uint64 (pp_Amount params);
  pr_OutpointTxIds := []; pr_OutpointIdxs := [] |}.
Definition served_DoPrepare (params : PrepareParameter) : M N (bytes * option Z) :=
  txHash ← with_text "failed to prepare: " (RedeemPrepare aptman (account aptman) (served_prepare_params params));
  served_version "prepare" txHash.
Definition served_GetTxStatus (txId : bytes) : M N (MonitoredTxStatus * option Z) :=
  tx ← try (WaitForTransaction (string_of_bytes txId));
  match tx with
  | inl err =>
      if Contains err "timeout" then mret (Timeout, None)
      else if Contains err "not found" then mret (Limbo, None)
      else throw err
  | inr tx =>
      let version := Some (i64 (ti_Version tx)) in
      if ti_Success tx then mret (Success, version) else mret (Reverted, version)
  end.
Definition served_GetLatestLedgerNumber : M N (option Z) :=
  version ← GetLatestFinalizedVersion; mret (Some (i64 version)).
Definition served_IsMinted (btcTxId : bytes) : M N bool := IsMinted aptman (string_of_bytes btcTxId).
Definition served_IsPrepared (txHash : bytes) : M N bool := IsPrepared aptman (string_of_bytes txHash).
Definition AptosSyncWorker_manager : MgrWorker N := {|
  ChainTxMgr.GetLatestLedgerNumber := served_GetLatestLedgerNumber;
  ChainTxMgr.IsMinted := served_IsMinted;
  ChainTxMgr.DoMint := served_DoMint;
  ChainTxMgr.IsPrepared := served_IsPrepared;
  ChainTxMgr.DoPrepare := served_DoPrepare;
  ChainTxMgr.GetTxStatus := served_GetTxStatus |}.

(** [MintTokensToContract]; [now] is the Unix time *)
Definition MintTokensToContract (now : Z) (amount : Z) : M N string :=
  aMint aptman {| mn_BtcTxId := bytes_of_string ("admin_mint_" +:+ int_Text 10 now); mn_Amount := amount;
                 mn_Receiver := AddressString (moduleAddress aptman) |}.
End worker.

(** ** Where a mint goes *)
Definition with_receiver (r : bytes) (params : MintParameter) : MintParameter := {|
  mp_BtcTxId := mp_BtcTxId params; mp_Receiver := r; mp_Amount := mp_Amount params |}.
Section mints.
Context `{E : EthLib} {N : Type} `{AN : AptosNode N}.
Variable aptman : Aptosman.

Lemma hex_text_length (id : bytes) : length id = 32%nat -> String.length (btcTxIdHex id) = 66%nat.
Proof. intros Hi. change (S (S (String.length (hex_encode id))) = 66%nat). unfold hex_encode.
  by rewrite string_length_bytes, bytes_of_string_of_bytes, hex_bytes_length, Hi. Qed.
Lemma wrap_ok {A} pre (o : outcome A) a : o = Ok a -> wrap_err pre o = Ok a.
Proof. by intros ->. Qed.

(** Whoever deposited, the served bridge mints to one constant account: the submitted entry has
    the identifier as 66 characters of text, the account [expectedAddress] and the amount, whatever
    the receiver of the mint, and so the outcome does not depend on the receiver. *)
Theorem served_mint_receiver params addr receiverBytes amountBytes s :
  length (mp_BtcTxId params) = 32%nat ->
  ParseStringRelaxed expectedAddress = Ok addr -> bcs_Address addr = Ok receiverBytes ->
  bcs_SerializeU64 (big_Uint64 (mp_Amount params)) = Ok amountBytes ->
  (served_DoMint aptman params s =
   (txHash ← with_text "failed to mint: " (send_entry (account aptman) (entry aptman "mint"
      [byte_of_Z 66 :: bytes_of_string (btcTxIdHex (mp_BtcTxId params)); receiverBytes; amountBytes]));
    served_version "mint" txHash) s) /\
  forall r, served_DoMint aptman (with_receiver r params) s = served_DoMint aptman params s.
Proof.
  intros Hi Ha Hr Hm. split; [|done].
  unfold served_DoMint. rewrite !bind_eq. do 2 f_equal.
  unfold aMint, served_mint_params, with_text.
  cbn [mn_Receiver mn_BtcTxId mn_Amount]. mstep.
  rewrite (wrap_ok _ _ _ Ha). mstep. rewrite (wrap_ok _ _ _ Hr). mstep. rewrite (wrap_ok _ _ _ Hm). mstep.
  rewrite <-string_length_bytes, hex_text_length by done. done.
Qed.

(** *** The check for a second mint *)
Lemma contains_text_length texts x :
  Forall (fun t => String.length t <> String.length x) texts -> contains_text (JStr <$> texts) x = Ok false.
Proof.
  induction 1 as [|t texts Ht _ IH]; [done|]. cbn. rewrite (proj2 (String.eqb_neq _ _)) by congruence. exact IH.
Qed.
(** what the contract's resource lists under [field] *)
Definition lists (ty field : string) (texts : list string) (s : N) : Prop :=
  exists address resource data s',
    ParseStringRelaxed (AddressString (moduleAddress aptman)) = Ok address /\
    AccountResource address (AddressString address +:+ ty)%string s = (Ok resource, s') /\
    as_obj (get_key resource "data") = Some data /\ as_array (get_key data field) = Some (JStr <$> texts).
Lemma listed_length ty field pre texts x s : lists ty field texts s ->
  Forall (fun t => String.length t <> String.length x) texts -> result (listed aptman ty field pre x) s = Ok false.
Proof.
  intros (address & resource & data & s' & Ha & Hr & Hd & Hl) Ht. unfold result, listed.
  rewrite bind_eq, lift_eq, (wrap_ok _ _ _ Ha), bind_eq. unfold with_text. rewrite Hr. cbn [wrap_err].
  by rewrite Hd, Hl, lift_eq, contains_text_length.
Qed.

(** The served bridge never sees a mint as done: when all that the contract lists are
    identifiers as this worker or the outpoint of a prepared redeem writes them, 66 characters of
    text (any length but 32), the check before a mint, which asks for the 32 raw bytes, answers no
    for every deposit, minted or not. *)
Theorem served_mint_unseen texts id s :
  length id = 32%nat -> lists "::btc_bridgev3::UsedBtcTxIds" "used" texts s ->
  Forall (fun t => (exists m, length m = 32%nat /\ t = btcTxIdHex m) \/ String.length t <> 32%nat) texts ->
  result (ChainTxMgr.IsMinted (MgrWorker := AptosSyncWorker_manager aptman) id) s = Ok false.
Proof.
  intros Hi Hl Ht. cbn. unfold served_IsMinted, IsMinted. apply (listed_length _ _ _ texts); [done|].
  rewrite string_length_bytes, bytes_of_string_of_bytes, Hi. eapply Forall_impl; [exact Ht|].
  intros t [(m & Hm & ->)|?]; [|done]. by rewrite hex_text_length.
Qed.

(** *** Preparing *)
(** The served bridge prepares no redeem: it passes no requester, which the SDK does not parse as
    an address, so [DoPrepare] fails for every redeem before anything is sent. *)
Theorem served_prepare_fails params e s :
  ParseStringRelaxed EmptyString = Err e -> (forall t w, ParseStringRelaxed t <> Panic w) ->
  exists e', ChainTxMgr.DoPrepare (MgrWorker := AptosSyncWorker_manager aptman) params s = (Err e', s).
Proof.
  intros He Hp. cbn. unfold served_DoPrepare. rewrite bind_eq. unfold with_text at 1, RedeemPrepare.
  rewrite bind_eq, lift_eq. destruct (ParseStringRelaxed (AddressString _)) as [a|e'|w] eqn:Ha; cbn [wrap_err].
  - rewrite bind_eq, lift_eq. cbn [pr_Requester served_prepare_params]. rewrite He. by eexists.
  - by eexists.
  - by destruct (Hp _ _ Ha).
Qed.
End mints.

(** ** A concrete contract that lists what was minted *)
Definition toy_list : Type := list string.
#[local] Instance toy_contract : AptosNode toy_list := {|
  ParseStringRelaxed s := if String.eqb s EmptyString then Err "AccountAddress too short" else Ok (bytes_of_string s);
  AddressString := string_of_bytes; bcs_Address a := Ok a; bcs_SerializeU64 n := Ok (big_Bytes n);
  json_MarshalIndent _ := EmptyString; json_Unmarshal url := Ok [];
  GetProcessorStatus _ := mret 1300;
  AccountResource _ _ := l ← get; mret [("data"%string, JObj [("used"%string, JArr (JStr <$> l))])];
  aptos_NewClient _ := Ok tt; AccountResources _ := mret []; HttpGet url := mret (200, url);
  BuildTransaction _ ef := mret (drop 1 (default [] (head (ef_Args ef)))); SignedTransaction b := Ok b;
  SubmitTransaction b := modify (fun l => l ++ [string_of_bytes b]) ;; mret "0x5"%string;
  WaitForTransaction _ := mret {| ti_Version := 1300; ti_Success := true; ti_VmStatus := EmptyString |};
  TransactionByHash _ := mret {| ti_Version := 1300; ti_Success := true; ti_VmStatus := EmptyString |} |}.
Definition toy_served : Aptosman := {|
  acfg := {| URL := EmptyString; ModuleAddress := "0x1"; Network := NetworkDevnet |};
  account := []; moduleAddress := bytes_of_string "0x1" |}.
Definition toy_mint_param : MintParameter := {|
  mp_BtcTxId := sample_hash 9; mp_Receiver := replicate 20 (byte_of_Z 7); mp_Amount := 500 |}.
(** after the mint, as the bridge submits it *)
Definition toy_minted : toy_list := run (served_DoMint toy_served toy_mint_param) [].
Lemma served_mint_receiver_witness :
  toy_minted = [btcTxIdHex (sample_hash 9)] /\
  served_DoMint toy_served (with_receiver [] toy_mint_param) [] = served_DoMint toy_served toy_mint_param [].
Proof.
  split; [vm_compute; reflexivity|].
  apply (served_mint_receiver toy_served toy_mint_param (bytes_of_string expectedAddress)
    (bytes_of_string expectedAddress) (big_Bytes 500) []); reflexivity.
Defined.
Lemma served_mint_unseen_witness :
  toy_minted <> [] /\
  result (ChainTxMgr.IsMinted (MgrWorker := AptosSyncWorker_manager toy_served) (sample_hash 9)) toy_minted = Ok false.
Proof.
  split; [vm_compute; discriminate|].
  apply (served_mint_unseen toy_served [btcTxIdHex (sample_hash 9)]); [reflexivity| |].
  - exists (bytes_of_string "0x1"). do 3 eexists. split_and!; vm_compute; reflexivity.
  - constructor; [|constructor]. left. by exists (sample_hash 9).
Defined.
Lemma served_prepare_fails_witness : exists e,
  ChainTxMgr.DoPrepare (MgrWorker := AptosSyncWorker_manager toy_served)
    {| pp_RequestTxHash := sample_hash 1; pp_Requester := []; pp_Receiver := "bc1q"; pp_Amount := 70;
       pp_OutpointTxIds := []; pp_OutpointIdxs := []; pp_Rx := None; pp_S := None |} [] = (Err e, []).
Proof.
  apply (served_prepare_fails toy_served _ "AccountAddress too short"); [reflexivity|].
  intros t w H. cbn in H. by destruct (String.eqb t EmptyString).
Defined.
