(* ===== verification/Server.v ===== *)
(** * Server: the bridge server, its parts wired together (cmd/server.go).

    The state holds what the goroutines share: the bridge state with its database and channels, the
    storages of the one database file, the publisher's channels, and the clients. A step is one
    move of the synchronizer, one tick of the transaction manager, one round of the withdraw loop,
    one scan, or one receive of an observer; the nodes and the signer change on their own in
    between. How the parts are opened is [ServerSetup]; signals and the shutdown are not modelled. *)
From S2P Require Export ServedWorker Signers BtcSync Reporter.

(** [MSchnorrSigner] is any signer: its type is a parameter *)
Record BridgeServerConfig `{B : BtcLib} {W : Type} := {
  AptosRpcUrl : string; AptosCoreAccountPriv : string; AptosModuleAddress : string;
  EthRpcUrl : string; EthCoreAccountPriv : string; MSchnorrSigner : W; DbFilePath : string;
  BtcRpcServer : string; BtcRpcPort : string; BtcRpcUsername : string; BtcRpcPwd : string;
  BtcChainConfig : BtcTx.Params; BtcStartBlk : Z; BtcCoreAccountPriv : string;
  BtcCoreAccountAddr : string; HttpIp : string; HttpPort : string;
  PredefinedBridgeContractAddr : string; PredefinedTwbtcContractAddr : string }.
Arguments BridgeServerConfig {B} W.
Definition CHANNEL_BUFFER_SIZE : nat := 10.
Definition timeoutOnMonitoringPendingTxs : Z := 128.
(** the configuration of the state and of the manager *)
Definition server_state_config : StateConfig := {| ChannelSize := 300; UniqueChainId := 1 |}.
Definition server_mgr_config : ChainTxMgrConfig := {| TimeoutTxLedgerNumber := timeoutOnMonitoringPendingTxs |}.
Definition server_ForceScanBlkNum : Z := 0.

Section server.
Context `{B : BtcLib, E : EthLib, G : GobLib, R : RlpLib, SG : SigLib}.
(** the Aptos node, the manager's storage, the signer, the vault's storage, the Bitcoin node and the
    storages of redeems and deposits *)
Context {N D W V K A P : Type} `{AN : AptosNode N, DB : ChainTxMgrDB D, MS : !MultisigSigner W,
  VS : VaultUTXOStorage V, BN : @BtcNode B K, RA : RedeemActionStorage A, DS : DepositStorage P}.

Record BridgeServer := {
  MyAptosMan : Aptosman; aptos_node : N;
  MyState : State; MyAptosSynchronizer : ChainSync; MyAptosTxMgrDb : D; schnorrWallet : W;
  MyBtcVault : V; operator : NativeOperator; BtcRpcClient : K; btcMgrStorage : A;
  MyDepositStorage : P;
  monitored : Address; visited : Z; monitor_config : BtcTx.Params; publisher : PublisherService }.
Definition with_state (st : State) (s : BridgeServer) : BridgeServer := {|
  MyAptosMan := MyAptosMan s; aptos_node := aptos_node s; MyState := st;
  MyAptosSynchronizer := MyAptosSynchronizer s; MyAptosTxMgrDb := MyAptosTxMgrDb s;
  schnorrWallet := schnorrWallet s; MyBtcVault := MyBtcVault s; operator := operator s;
  BtcRpcClient := BtcRpcClient s; btcMgrStorage := btcMgrStorage s; MyDepositStorage := MyDepositStorage s;
  monitored := monitored s; visited := visited s; monitor_config := monitor_config s; publisher := publisher s |}.
Definition with_sync (cs : ChainSync) (st : State) (n : N) (s : BridgeServer) : BridgeServer := {|
  MyAptosMan := MyAptosMan s; aptos_node := n; MyState := st; MyAptosSynchronizer := cs;
  MyAptosTxMgrDb := MyAptosTxMgrDb s; schnorrWallet := schnorrWallet s; MyBtcVault := MyBtcVault s;
  operator := operator s; BtcRpcClient := BtcRpcClient s; btcMgrStorage := btcMgrStorage s;
  MyDepositStorage := MyDepositStorage s; monitored := monitored s; visited := visited s;
  monitor_config := monitor_config s; publisher := publisher s |}.
Definition with_outside (n : N) (w : W) (k : K) (s : BridgeServer) : BridgeServer := {|
  MyAptosMan := MyAptosMan s; aptos_node := n; MyState := MyState s;
  MyAptosSynchronizer := MyAptosSynchronizer s; MyAptosTxMgrDb := MyAptosTxMgrDb s;
  schnorrWallet := w; MyBtcVault := MyBtcVault s; operator := operator s; BtcRpcClient := k;
  btcMgrStorage := btcMgrStorage s; MyDepositStorage := MyDepositStorage s; monitored := monitored s;
  visited := visited s; monitor_config := monitor_config s; publisher := publisher s |}.

(** ** The parts *)
(** the transaction manager over the state's database, the shared vault and the served worker *)
Definition Mgr_part : Type := ChainTxMgr D N V W.
Definition MyAptosTxMgr (s : BridgeServer) : Mgr_part := {|
  ChainTxMgr.cfg := server_mgr_config; ChainTxMgr.statedb := State.statedb (MyState s);
  mgrdb := MyAptosTxMgrDb s; chainWorker := aptos_node s; btcUTXOResponder := MyBtcVault s;
  schnorrParty := schnorrWallet s |}.
Definition with_mgr (m : Mgr_part) (s : BridgeServer) : BridgeServer := {|
  MyAptosMan := MyAptosMan s; aptos_node := chainWorker m;
  MyState := set_statedb (ChainTxMgr.statedb m) (MyState s);
  MyAptosSynchronizer := MyAptosSynchronizer s; MyAptosTxMgrDb := mgrdb m; schnorrWallet := schnorrParty m;
  MyBtcVault := btcUTXOResponder m; operator := operator s; BtcRpcClient := BtcRpcClient s;
  btcMgrStorage := btcMgrStorage s; MyDepositStorage := MyDepositStorage s; monitored := monitored s;
  visited := visited s; monitor_config := monitor_config s; publisher := publisher s |}.
Definition MyBtcMgr (s : BridgeServer) : BtcTxManager V K A := {|
  treasureVault := MyBtcVault s; legacySigner := operator s; myBtcClient := BtcRpcClient s;
  sharedState := MyState s; mgrState := btcMgrStorage s |}.
Definition with_btc_mgr (m : BtcTxManager V K A) (s : BridgeServer) : BridgeServer := {|
  MyAptosMan := MyAptosMan s; aptos_node := aptos_node s; MyState := sharedState m;
  MyAptosSynchronizer := MyAptosSynchronizer s; MyAptosTxMgrDb := MyAptosTxMgrDb s;
  schnorrWallet := schnorrWallet s; MyBtcVault := treasureVault m; operator := legacySigner m;
  BtcRpcClient := myBtcClient m; btcMgrStorage := mgrState m; MyDepositStorage := MyDepositStorage s;
  monitored := monitored s; visited := visited s; monitor_config := monitor_config s; publisher := publisher s |}.
Definition MyBtcMonitor (s : BridgeServer) : BTCMonitor K A := {|
  BridgeBTCAddress := monitored s; LastVistedBlockHeight := visited s; bm_ChainConfig := monitor_config s;
  Publisher := publisher s; RpcClient := BtcRpcClient s; bm_mgrState := btcMgrStorage s |}.
Definition with_monitor (m : BTCMonitor K A) (s : BridgeServer) : BridgeServer := {|
  MyAptosMan := MyAptosMan s; aptos_node := aptos_node s; MyState := MyState s;
  MyAptosSynchronizer := MyAptosSynchronizer s; MyAptosTxMgrDb := MyAptosTxMgrDb s;
  schnorrWallet := schnorrWallet s; MyBtcVault := MyBtcVault s; operator := operator s;
  BtcRpcClient := RpcClient m; btcMgrStorage := bm_mgrState m; MyDepositStorage := MyDepositStorage s;
  monitored := BridgeBTCAddress m; visited := LastVistedBlockHeight m; monitor_config := bm_ChainConfig m;
  publisher := Publisher m |}.
Definition http_server (s : BridgeServer) : HttpReporter P A :=
  NewHttpReporter (MyDepositStorage s) (btcMgrStorage s) (State.statedb (MyState s)).

(** a tick of the manager; [now] is the clock of the vault, [done] the waits that time out *)
Definition served_tick (aptman : Aptosman) (now : nat -> Z) (done : bytes -> bool) : M Mgr_part unit :=
  Loop_tick (MW := AptosSyncWorker_manager aptman) (UR := Vault.Request now)
    (SG := fun req => SignAsync_sent req ;; mret tt) done.

(** what an observer stores *)
Definition observe_deposit (data : DepositAction) : M BridgeServer unit :=
  zoom MyDepositStorage (fun p s => {|
    MyAptosMan := MyAptosMan s; aptos_node := aptos_node s; MyState := MyState s;
    MyAptosSynchronizer := MyAptosSynchronizer s; MyAptosTxMgrDb := MyAptosTxMgrDb s;
    schnorrWallet := schnorrWallet s; MyBtcVault := MyBtcVault s; operator := operator s;
    BtcRpcClient := BtcRpcClient s; btcMgrStorage := btcMgrStorage s; MyDepositStorage := p;
    monitored := monitored s; visited := visited s; monitor_config := monitor_config s;
    publisher := publisher s |}) (ObserverDepositAction_handle data).
Definition observe_mint (data : DepositAction) : M BridgeServer unit :=
  zoom MyState with_state (BTC2EVMObserver_handle data).
Definition observe_utxo (data : ObservedUTXO) : M BridgeServer unit :=
  zoom MyBtcVault (fun v s => with_btc_mgr {| treasureVault := v; legacySigner := operator s;
    myBtcClient := BtcRpcClient s; sharedState := MyState s; mgrState := btcMgrStorage s |} s)
    (ObserverUTXOVault_handle data).
Definition with_publisher (p : PublisherService) (s : BridgeServer) : BridgeServer :=
  with_monitor {| BridgeBTCAddress := monitored s; LastVistedBlockHeight := visited s;
    bm_ChainConfig := monitor_config s; Publisher := p; RpcClient := BtcRpcClient s;
    bm_mgrState := btcMgrStorage s |} s.
Definition with_deposit_chan (i : nat) (c : chan DepositAction) (s : BridgeServer) : BridgeServer :=
  let p := publisher s in
  with_publisher {| DepositObservers := <[i := c]> (DepositObservers p); RedeemObservers := RedeemObservers p;
    OtherTransferObservers := OtherTransferObservers p; UTXOObservers := UTXOObservers p |} s.
Definition with_utxo_chan (i : nat) (c : chan ObservedUTXO) (s : BridgeServer) : BridgeServer :=
  let p := publisher s in
  with_publisher {| DepositObservers := DepositObservers p; RedeemObservers := RedeemObservers p;
    OtherTransferObservers := OtherTransferObservers p; UTXOObservers := <[i := c]> (UTXOObservers p) |} s.

(** ** [NewBridgeServer] *)
(** From the opening of the state database on: what precedes it, the client of the Bitcoin node, the
    vault and the Aptos client, is given, and so are the attempts to open each table and to build the
    operator, at their place ([ServerSetup] makes them). [logger.Fatalf] ends the process. The monitor
    gets the parameters of the regression network, whatever the configuration says; when the latest
    height cannot be read it starts from 0. [State.Start] is not launched and no observer of redeems
    is registered. *)
Definition observers : PublisherService :=
  RegisterUTXOObserver (make_chan CHANNEL_BUFFER_SIZE)
    (RegisterDepositObserver (make_chan CHANNEL_BUFFER_SIZE)
      (RegisterDepositObserver (make_chan CHANNEL_BUFFER_SIZE) NewPublisherService)).
Definition fatal {X} (what : string) (o : outcome X) : outcome X :=
  match o with Err e => Panic (what +:+ e) | _ => o end.
Definition setupBtcMonitor (RegtestParams : BtcTx.Params) (r : K) (btcCoreAccountAddr : string) (st : A)
    (startBlock : Z) : outcome (BTCMonitor K A) :=
  fatal "cannot create monitor " (NewBTCMonitor btcCoreAccountAddr RegtestParams r startBlock st).
Definition NewBridgeServer (RegtestParams : BtcTx.Params) (bsc : BridgeServerConfig W) (k : K) (v : V)
    (aptman : Aptosman) (n : N) (db : outcome StateDB) (d : outcome D) (a : outcome A)
    (op : outcome NativeOperator) (p : outcome P) : outcome BridgeServer :=
  db ← db;
  st ← fatal "failed to create state: " (New db server_state_config).1;
  d ← fatal "failed to create aptos tx manager db: " d;
  let '(cs, st) := NewChainSync server_ForceScanBlkNum st in
  cs ← fatal "failed to create aptos synchronizer: " cs;
  a ← fatal "cannot create backend storage " a;
  op ← op;
  if negb (String.eqb (EncodeAddress (P2PKH op)) (BtcCoreAccountAddr bsc))
  then Panic ("btc core address mismatch: " +:+ EncodeAddress (P2PKH op) +:+ " != "
              +:+ BtcCoreAccountAddr bsc)%string
  else
    let '(_start_blk, k) :=
      if BtcStartBlk bsc =? -1
      then let '(o, k) := GetLatestBlockHeight k in (match o with Ok h => h | _ => 0 end, k)
      else (BtcStartBlk bsc, k) in
    mon ← setupBtcMonitor RegtestParams k (BtcCoreAccountAddr bsc) a _start_blk;
    p ← fatal "cannot create deposit storage " p;
    Ok {| MyAptosMan := aptman; aptos_node := n; MyState := st; MyAptosSynchronizer := cs;
          MyAptosTxMgrDb := d; schnorrWallet := MSchnorrSigner bsc; MyBtcVault := v; operator := op; BtcRpcClient := k;
          btcMgrStorage := a; MyDepositStorage := p; monitored := BridgeBTCAddress mon;
          visited := LastVistedBlockHeight mon; monitor_config := bm_ChainConfig mon; publisher := observers |}.

(** ** The goroutines *)
(** the synchronizer's worker answers from the node *)
Definition sync_answer (s : BridgeServer) (c : sync_case) (n : N) : Prop :=
  let aptman := MyAptosMan s in
  match at_ (MyAptosSynchronizer s), c with
  | AtSelect, Tick r => Aptosman.GetNewestLedgerFinalizedNumber (aptos_node s) = (r, n)
  | Fetching newFinalized, Reply r =>
      Aptosman.GetTimeOrderedEvents aptman (LastChecked (MyAptosSynchronizer s)) newFinalized (aptos_node s) = (r, n)
  | _, _ => n = aptos_node s
  end.
(** A goroutine whose body panics ends the process, and so does a synchronizer that returns,
    through [logger.Fatalf]: there is no step then. *)
Definition process_runs (s : BridgeServer) : Prop :=
  match at_ (MyAptosSynchronizer s) with SyncReturned _ | SyncDied _ => False | _ => True end.
Inductive goroutine_step (s : BridgeServer) : BridgeServer -> Prop :=
  | go_sync c cs' l' n :
      sync_answer s c n -> sync_step c (MyAptosSynchronizer s) (start (MyState s)) = Some (cs', l') ->
      goroutine_step s (with_sync cs' (l_st l') n s)
  | go_manager now done s' :
      zoom MyAptosTxMgr with_mgr (served_tick (MyAptosMan s) now done) s = (Ok tt, s') -> goroutine_step s s'
  | go_withdraw s' : zoom MyBtcMgr with_btc_mgr WithdrawLoop_round s = (Ok tt, s') -> goroutine_step s s'
  | go_scan s' : ignore (zoom MyBtcMonitor with_monitor Scan) s = (Ok tt, s') -> goroutine_step s s'
  | go_deposit c x c' s' : DepositObservers (publisher s) !! 0%nat = Some c -> chan_run c [] [x] c' ->
      observe_deposit x (with_deposit_chan 0 c' s) = (Ok tt, s') -> goroutine_step s s'
  | go_mint c x c' s' : DepositObservers (publisher s) !! 1%nat = Some c -> chan_run c [] [x] c' ->
      observe_mint x (with_deposit_chan 1 c' s) = (Ok tt, s') -> goroutine_step s s'
  | go_utxo c x c' s' : UTXOObservers (publisher s) !! 0%nat = Some c -> chan_run c [] [x] c' ->
      observe_utxo x (with_utxo_chan 0 c' s) = (Ok tt, s') -> goroutine_step s s'
  | go_outside n w k : goroutine_step s (with_outside n w k s).
Definition server_step (s s' : BridgeServer) : Prop := process_runs s /\ goroutine_step s s'.
End server.
Arguments BridgeServer {B} N D W V K A P.

(** ** The token chain is not followed *)
Section followed.
Context `{B : BtcLib, E : EthLib, G : GobLib, R : RlpLib, SG : SigLib}.
Context {N D W V K A P : Type} `{AN : AptosNode N, DB : ChainTxMgrDB D, MS : !MultisigSigner W,
  VS : VaultUTXOStorage V, BN : @BtcNode B K, RA : RedeemActionStorage A, DS : DepositStorage P}.
Abbreviation Server := (BridgeServer N D W V K A P).
Abbreviation db_of s := (State.statedb (MyState s)).

(** the redeems and the keyed values are kept *)
Definition same_redeems (d d' : StateDB) : Prop :=
  redeem_table d' = redeem_table d /\ kv_table d' = kv_table d.
Lemma UpdateMint_same m d : same_redeems d (run (UpdateMint m) d).
Proof.
  split; [apply UpdateMint_redeems|]. revert d.
  assert (forall t, keeps (fun s => kv_table s = t) (UpdateMint m)) as H; [|intros d; by apply (H (kv_table d) d)].
  intros t. assert (forall l, keeps (fun s => kv_table s = t) (commit_mints l)) as Hc.
  { intros l s Hs. unfold run, commit_mints. by destruct (mintTable l). }
  apply keeps_bind.
  { unfold GetMint. repeat (apply keeps_bind; [auto with golib|intros]). auto with golib. }
  intros [o|].
  - repeat (apply keeps_bind; [auto with golib|intros]). apply Hc.
  - unfold InsertMint. repeat (apply keeps_bind; [auto with golib|intros]). apply Hc.
Qed.
(** the withdraw loop leaves the bridge state alone *)
Lemma keeps_withdraw st : keeps (fun m : BtcTxManager V K A => sharedState m = st) WithdrawLoop_round.
Proof.
  set (I := fun m : BtcTxManager V K A => sharedState m = st).
  assert (forall X (m : M V X), keeps I (on_vault m)) as Hv
    by (intros X m s Hs; unfold run, on_vault, zoom; by destruct (m (treasureVault s))).
  assert (forall X (m : M NativeOperator X), keeps I (on_wallet m)) as Hw
    by (intros X m s Hs; unfold run, on_wallet, zoom; by destruct (m (legacySigner s))).
  assert (forall X (m : M K X), keeps I (on_node m)) as Hn
    by (intros X m s Hs; unfold run, on_node, zoom; by destruct (m (myBtcClient s))).
  assert (forall X (m : M A X), keeps I (on_actions m)) as Ha
    by (intros X m s Hs; unfold run, on_actions, zoom; by destruct (m (mgrState s))).
  assert (forall l, keeps I (FetchUTXOs_loop l)) as Hf by (induction l as [|o l IH]; cbn; keeps_auto).
  assert (forall r, keeps I (withdraw_one r)) as H1.
  { intros r. unfold withdraw_one. keeps_auto. case_match; keeps_auto. case_match; keeps_auto.
    - repeat case_match; keeps_auto; by intros s Hs.
    - apply keeps_try. unfold WithdrawBTC, CreateBTCRedeemTx, CollectUTXOs, FetchUTXOs. keeps_auto.
    - case_match; keeps_auto. }
  unfold WithdrawLoop_round. apply keeps_bind; [|intros [?|l]; keeps_auto; by apply keeps_for_each].
  apply keeps_try. intros m Hm. unfold I, run, FindRedeemsFromState, on_state, zoom, GetPreparedRedeems in *.
  rewrite on_db_eq. pose proof (reads_GetRedeemsByStatus (State.statedb (sharedState m)) RedeemStatusPrepared) as Hr.
  unfold run in Hr. destruct (GetRedeemsByStatus _ _) as [o d]. cbn in *. rewrite Hr, Hm. by destruct st.
Qed.

(** a step that is not the synchronizer's *)
Definition quiet_move (s s' : Server) : Prop :=
  MyAptosSynchronizer s' = MyAptosSynchronizer s /\
  exists d, MyState s' = set_statedb d (MyState s) /\ same_redeems (db_of s) d.
Lemma step_cases (s s' : Server) : server_step s s' ->
  quiet_move s s' \/
  exists c l', sync_step c (MyAptosSynchronizer s) (start (MyState s)) = Some (MyAptosSynchronizer s', l') /\
               MyState s' = l_st l'.
Proof.
  assert (forall s' : Server, MyState s' = MyState s -> MyAptosSynchronizer s' = MyAptosSynchronizer s -> quiet_move s s') as Hq.
  { intros s1 Hst Hcs. split; [done|]. exists (db_of s). by rewrite set_statedb_same. }
  intros [_ Hstep].
  destruct Hstep as [c cs' l' n _ Hs|now done s' H|s' H|s' H|c x c' s' _ _ H|c x c' s' _ _ H|c x c' s' _ _ H|n w k].
  - right. by exists c, l'.
  - left. unfold zoom in H. pose proof (keeps_Loop_tick (MW := AptosSyncWorker_manager (MyAptosMan s))
      (UR := Vault.Request now) (SG := fun req => SignAsync_sent req ;; mret tt) (db_of s) done (MyAptosTxMgr s) eq_refl) as Hk.
    unfold run, db_is in Hk. unfold served_tick in H. destruct (Loop_tick _ _) as [o m]. injection H as -> <-. cbn in Hk.
    split; [done|]. exists (ChainTxMgr.statedb m). split; [done|]. by rewrite Hk.
  - left. unfold zoom in H. pose proof (keeps_withdraw (MyState s) (MyBtcMgr s) eq_refl) as Hk. unfold run in Hk.
    destruct (WithdrawLoop_round _) as [o m]. injection H as -> <-. by apply Hq.
  - left. unfold ignore in H. rewrite bind_eq in H. unfold try, zoom in H.
    destruct (Scan (MyBtcMonitor s)) as [[r|e|w] m]; cbn in H; [| |discriminate H]; injection H as <-; by apply Hq.
  - left. unfold observe_deposit, zoom in H. destruct (ObserverDepositAction_handle _ _) as [o p]. injection H as -> <-. by apply Hq.
  - left. unfold observe_mint, zoom, BTC2EVMObserver_handle, SetNewBTC2EVMMint in H. cbn in H.
    pose proof (UpdateMint_same (mint_of_deposit x) (db_of s)) as Hk. unfold run in Hk.
    unfold ignore, try in H. rewrite bind_eq, on_db_eq in H. destruct (UpdateMint _ _) as [o d]. cbn in H, Hk.
    destruct o as [r|e|w]; [| |discriminate H]; injection H as <-; (split; [done|]; by exists d).
  - left. unfold observe_utxo, zoom in H. destruct (ObserverUTXOVault_handle _ _) as [o p]. injection H as -> <-. by apply Hq.
  - left. by apply Hq.
Qed.

(** *** One round at most *)
Definition is_event (i : input) : Prop :=
  match i with SendMinted _ | SendRequested _ | SendPrepared _ => True | _ => False end.
(** what is queued is kept, and events are added at the end *)
Definition queues_grow (st st' : State) : Prop :=
  newEthFinalizedBlockCh st `prefix_of` newEthFinalizedBlockCh st' /\
  newMintedEventCh st `prefix_of` newMintedEventCh st' /\
  newRedeemRequestedEvCh st `prefix_of` newRedeemRequestedEvCh st' /\
  newRedeemPreparedEvCh st `prefix_of` newRedeemPreparedEvCh st'.
Lemma queues_grow_refl st : queues_grow st st.
Proof. by repeat split. Qed.
Lemma queues_grow_trans st1 st2 st3 : queues_grow st1 st2 -> queues_grow st2 st3 -> queues_grow st1 st3.
Proof. intros (?&?&?&?) (?&?&?&?). split_and!; by etrans. Qed.
Lemma env_event i l l' : is_event i -> env_step i l = Some l' ->
  queues_grow (l_st l) (l_st l') /\ State.statedb (l_st l') = State.statedb (l_st l) /\
  newEthFinalizedBlockCh (l_st l') = newEthFinalizedBlockCh (l_st l).
Proof.
  destruct i; try done; cbn; intros _ H; case_match; try done; injection H as <-; cbn;
    (split; [|done]); split_and!; cbn; (done || by eexists).
Qed.
(** nothing was announced and nothing is in hand, or one number was, and the synchronizer is in the
    only round it does *)
Definition first_round (s : Server) : Prop :=
  let cs := MyAptosSynchronizer s in let blk := newEthFinalizedBlockCh (MyState s) in
  (LastChecked cs = server_ForceScanBlkNum \/ blk = [LastChecked cs]) /\ (length blk <= 1)%nat /\
  match at_ cs with
  | Fetching n => LastChecked cs = server_ForceScanBlkNum /\ blk = [n]
  | SendingEvents todo n => LastChecked cs = server_ForceScanBlkNum /\ blk = [n] /\ Forall is_event todo
  | _ => True
  end.
Lemma sends_events ev : Forall is_event (sends ev).
Proof. unfold sends. rewrite !Forall_app. split_and!; apply Forall_fmap, Forall_true; done. Qed.
Lemma sync_step_first (s s' : Server) c l' : first_round s ->
  sync_step c (MyAptosSynchronizer s) (start (MyState s)) = Some (MyAptosSynchronizer s', l') ->
  MyState s' = l_st l' ->
  first_round s' /\ queues_grow (MyState s) (MyState s') /\ db_of s' = db_of s.
Proof.
  unfold first_round. intros (Hl & Hb & Hat) Hs Hst. rewrite Hst. unfold sync_step in Hs.
  pose proof (queues_grow_refl (MyState s)) as Hg.
  destruct (at_ (MyAptosSynchronizer s)) as [|n|n|[|i todo] n|e|w] eqn:Heq; destruct c as [|[n'|e'|w']|[ev|e'|w']|]; try done.
  2: destruct (_ <? _).
  all: try (destruct (env_step _ _) as [l1|] eqn:Henv; [|discriminate Hs]); cbn in Hs; injection Hs as <- <-;
    cbn [at_ at_place LastChecked].
  all: try by (split; [split_and!; rewrite ?Heq; done|]).
  - cbn in Henv. destruct (newEthFinalizedBlockCh (MyState s)) as [|b q] eqn:Hq; [|done]. injection Henv as <-. cbn.
    destruct Hl as [->|]; [|done]. split; [by auto|]. split; [|done]. unfold queues_grow. cbn. rewrite Hq.
    split_and!; done || apply prefix_nil.
  - destruct Hat as [-> Hq]. split; [|done]. cbn. rewrite Hq. split_and!; try done; [by left|apply sends_events].
  - destruct Hat as (_ & Hq & _). split; [|done]. cbn. rewrite Hq. split_and!; try done. by right.
  - destruct Hat as (Hc & Hq & Hf). apply Forall_cons in Hf as [Hi Hf].
    destruct (env_event _ _ _ Hi Henv) as (H1 & H2 & H3). cbn in H1, H2, H3. rewrite H3, Hq. by auto 6.
Qed.
Lemma server_step_kept (s s' : Server) : first_round s -> server_step s s' ->
  first_round s' /\ queues_grow (MyState s) (MyState s') /\ same_redeems (db_of s) (db_of s').
Proof.
  intros Hf [[Hcs (d & Hst & Hd)]|(c & l' & Hs & Hst)]%step_cases.
  - unfold first_round, queues_grow in *. rewrite Hcs, Hst. cbn. by split_and!; try apply Hf.
  - destruct (sync_step_first _ _ _ _ Hf Hs Hst) as (H1 & H2 & H3). rewrite H3. by split_and!.
Qed.
Lemma server_run_kept (s s' : Server) : first_round s -> rtc server_step s s' ->
  first_round s' /\ queues_grow (MyState s) (MyState s') /\ same_redeems (db_of s) (db_of s').
Proof.
  intros Hf. induction 1 as [s|s1 s2 s3 Hs _ IH]; [by split_and!; try apply queues_grow_refl|].
  destruct (server_step_kept _ _ Hf Hs) as (Hf2 & Hg & Hr & Hk). destruct (IH Hf2) as (? & ? & Hr' & Hk').
  split; [done|]. split; [by eapply queues_grow_trans|split; congruence].
Qed.
(** a synchronizer with a second number to announce does not move again *)
Lemma stuck_sender (s s' : Server) n : newEthFinalizedBlockCh (MyState s) <> [] ->
  at_ (MyAptosSynchronizer s) = SendingNumber n -> first_round s -> rtc server_step s s' ->
  at_ (MyAptosSynchronizer s') = SendingNumber n.
Proof.
  intros Hq Hat Hf Hr. revert Hq Hat Hf. induction Hr as [s|s1 s2 s3 Hs _ IH]; [done|]. intros Hq Hat Hf.
  destruct (server_step_kept _ _ Hf Hs) as (Hf2 & ([k Hk] & _) & _). apply IH; [|clear Hf Hf2|done].
  { rewrite Hk. by destruct (newEthFinalizedBlockCh (MyState s1)). }
  apply step_cases in Hs as [[-> _]|(c & l' & Hs & _)]; [done|]. exfalso.
  unfold sync_step in Hs. rewrite Hat in Hs. destruct c; try done. cbn in Hs.
  by destruct (newEthFinalizedBlockCh (MyState s1)).
Qed.
Lemma filter_none {X} (Q : X -> Prop) `{forall x, Decision (Q x)} l : Forall (fun x => ~ Q x) l -> filter Q l = [].
Proof. induction 1 as [|x l Hx _ IH]; [done|]. by rewrite filter_cons_False. Qed.
(** with no prepared redeem in the database a round of the withdraw loop does nothing *)
Lemma nothing_to_withdraw (m : BtcTxManager V K A) :
  Forall (fun row => row_status row <> RedeemStatusPrepared) (redeem_table (State.statedb (sharedState m))) ->
  WithdrawLoop_round m = (Ok tt, m).
Proof.
  intros Hn. unfold WithdrawLoop_round. rewrite bind_eq. unfold try, FindRedeemsFromState, on_state, zoom, GetPreparedRedeems.
  rewrite on_db_eq.
  assert (GetRedeemsByStatus RedeemStatusPrepared (State.statedb (sharedState m)) = (Ok [], State.statedb (sharedState m)) \/
    exists e, GetRedeemsByStatus RedeemStatusPrepared (State.statedb (sharedState m)) = (Err e, State.statedb (sharedState m))) as Hl.
  { unfold GetRedeemsByStatus, prepare, exec, may_fail. mstep. destruct (db_fault _ Preparing _); [by eauto|]. mstep.
    destruct (db_fault _ Executing _); [by eauto|]. mstep. rewrite filter_none by done. by left. }
  destruct Hl as [->|[e ->]]; rewrite set_statedb_same; by destruct m.
Qed.
(** nothing waits in the channels of the state *)
Definition nothing_queued (st : State) : Prop :=
  newEthFinalizedBlockCh st = [] /\ newBtcFinalizedBlockCh st = [] /\ newMintedEventCh st = [] /\
  newRedeemRequestedEvCh st = [] /\ newRedeemPreparedEvCh st = [].
Lemma keeps_unannounced :
  keeps nothing_queued (initEthFinalizedBlock ;; initEthChainID) /\
  keeps nothing_queued (NewChainSync server_ForceScanBlkNum).
Proof.
  set (I := nothing_queued).
  assert (forall X (m : M StateDB X), keeps I (on_db m)) as Hd
    by (intros X m st Hst; unfold run; rewrite on_db_eq; by destruct (m (State.statedb st))).
  assert (forall X e (m : M StateDB X), keeps I (with_err e (on_db m))) as He.
  { intros X e m st Hst. unfold run. rewrite with_err_eq, on_db_eq. by destruct (m (State.statedb st)). }
  assert (forall b, keeps I (store_eth b)) as H1 by by intros b st.
  assert (forall b, keeps I (store_chain b)) as H2 by by intros b st.
  split.
  - unfold initEthFinalizedBlock, initEthChainID. keeps_auto; repeat case_match; keeps_auto.
  - unfold NewChainSync, GetBlockchainFinalizedBlockNumber. keeps_auto. repeat case_match; keeps_auto.
    case_match; keeps_auto.
Qed.
Lemma New_nothing_queued db st : (New db server_state_config).1 = Ok st -> nothing_queued st.
Proof.
  pose proof (proj1 keeps_unannounced (State_init db server_state_config) ltac:(by repeat split)) as H.
  unfold run in H. unfold New. destruct ((initEthFinalizedBlock ;; initEthChainID) _) as [[]]; cbn in *; congruence.
Qed.
Lemma NewBridgeServer_first params (bsc : BridgeServerConfig W) (k : K) (v : V) aptman (n : N) db
    (d : outcome D) (a : outcome A) op (p : outcome P) s :
  NewBridgeServer params bsc k v aptman n db d a op p = Ok s -> first_round s.
Proof.
  destruct keeps_unannounced as [H1 H2]. unfold NewBridgeServer.
  destruct db as [db| |]; [|done..]. cbn [fatal mbind outcome_bind].
  destruct (New db server_state_config).1 as [st|e|x] eqn:Hnew; [|done..]. cbn [fatal mbind outcome_bind].
  pose proof (New_nothing_queued db st Hnew) as Hst.
  destruct d as [d| |]; [|done..]. cbn [fatal mbind outcome_bind].
  specialize (H2 st Hst). unfold run in H2. destruct (NewChainSync server_ForceScanBlkNum st) as [o st'] eqn:Hcs.
  destruct o as [cs|e|x]; [|done..]. cbn [fatal mbind outcome_bind snd] in *.
  assert (cs = {| LastChecked := server_ForceScanBlkNum; at_ := AtSelect |}) as ->.
  { unfold NewChainSync in Hcs. rewrite bind_eq in Hcs.
    by destruct (GetBlockchainFinalizedBlockNumber st) as [[]]; [injection Hcs as <- _|..]. }
  destruct a as [a| |]; [|done..]. destruct op as [op| |]; [|done..]. cbn [fatal mbind outcome_bind].
  unfold setupBtcMonitor. destruct (negb _); [done|]. destruct (BtcStartBlk bsc =? -1); [destruct (GetLatestBlockHeight k)|].
  all: destruct (NewBTCMonitor _ _ _ _ _); [|done..]; destruct p; [|done..]; intros [= <-]; unfold first_round; cbn; rewrite (proj1 H2); split_and!; auto.
Qed.

(** C14: the served bridge does not follow the token chain: the loop that handles its events is not
    started, so along every run the redeems and the keyed values of the database never change,
    whatever was requested on the token chain; announced numbers and events only pile up; the
    synchronizer announces one number, finishes at most that round, and with a second number in hand
    blocks for ever; and when the database had no prepared redeem at the start, every round of the
    withdraw loop does nothing: nothing is ever paid. *)
Theorem served_chain_unfollowed params (bsc : BridgeServerConfig W) (k : K) (v : V) aptman (n : N) db
    (d : outcome D) (a : outcome A) op (p : outcome P) s0 s s' :
  NewBridgeServer params bsc k v aptman n db d a op p = Ok s0 -> rtc server_step s0 s -> rtc server_step s s' ->
  let cs := MyAptosSynchronizer s in let blk := newEthFinalizedBlockCh (MyState s) in
  same_redeems (db_of s0) (db_of s) /\ queues_grow (MyState s) (MyState s') /\
  (length blk <= 1)%nat /\ (LastChecked cs = 0 \/ blk = [LastChecked cs]) /\
  (forall m, blk <> [] -> at_ cs = SendingNumber m -> at_ (MyAptosSynchronizer s') = SendingNumber m) /\
  (Forall (fun row => row_status row <> RedeemStatusPrepared) (redeem_table (db_of s0)) ->
     WithdrawLoop_round (MyBtcMgr s) = (Ok tt, MyBtcMgr s)).
Proof.
  intros Hnew H1 H2 cs blk. apply NewBridgeServer_first in Hnew as Hf.
  destruct (server_run_kept _ _ Hf H1) as (Hf1 & _ & Hs). destruct (server_run_kept _ _ Hf1 H2) as (_ & Hg & _).
  split; [done|]. split; [done|]. split; [apply Hf1|]. split; [apply Hf1|]. split.
  - intros m Hb Hat. by apply (stuck_sender s s' m).
  - intros Hn. apply nothing_to_withdraw. cbn. destruct Hs as [-> _]. done.
Qed.
End followed.

(** ** A concrete run: the first number is announced and its round fails *)
#[local] Existing Instance toy_contract.
#[local] Existing Instance ToySigner.toy_schnorr.
#[local] Existing Instance ToySigner.toy_siglib.
Definition toy_config : BridgeServerConfig (B := btc_model) LocalSchnorrSigner := {|
  AptosRpcUrl := ""; AptosCoreAccountPriv := "0x01"; AptosModuleAddress := ""; EthRpcUrl := "";
  EthCoreAccountPriv := ""; MSchnorrSigner := ToySigner.toy_signer; DbFilePath := "bridge.db";
  BtcRpcServer := "127.0.0.1"; BtcRpcPort := "18443"; BtcRpcUsername := ""; BtcRpcPwd := "";
  BtcChainConfig := tt; BtcStartBlk := -1; BtcCoreAccountPriv := ""; BtcCoreAccountAddr := "bridge";
  HttpIp := ""; HttpPort := ""; PredefinedBridgeContractAddr := ""; PredefinedTwbtcContractAddr := "" |}.
Definition toy_deposits : SQLiteDepositStorage := {| a_rows := []; a_fault := fun _ => None |}.
Definition toy_server_result := NewBridgeServer (B := btc_model) tt
  toy_config {| toy_chain := [] |} rich_vault toy_served ([] : toy_list) (Ok sample_db) (Ok sample_txdb)
  (Ok sample_redeem_table) (Ok sample_operator) (Ok toy_deposits).
Definition toy_blank : BridgeServer toy_list SQLiteChainTxMgrDB LocalSchnorrSigner VaultSQLiteStorage toy_node
    SQLiteRedeemStorage SQLiteDepositStorage := {|
  MyAptosMan := toy_served; aptos_node := []; MyState := State_init sample_db server_state_config;
  MyAptosSynchronizer := {| LastChecked := 0; at_ := AtSelect |}; MyAptosTxMgrDb := sample_txdb;
  schnorrWallet := ToySigner.toy_signer; MyBtcVault := rich_vault; operator := sample_operator;
  BtcRpcClient := {| toy_chain := [] |}; btcMgrStorage := sample_redeem_table; MyDepositStorage := toy_deposits;
  monitored := EmptyString; visited := 0; monitor_config := tt; publisher := NewPublisherService |}.
Definition toy_s0 := match toy_server_result with Ok s => s | _ => toy_blank end.
Definition toy_cs1 : ChainSync := {| LastChecked := 0; at_ := SendingNumber 1300 |}.
Definition toy_l1 : loop := start (MyState toy_s0).
Definition toy_s1 := with_sync toy_cs1 (l_st toy_l1) ([] : toy_list) toy_s0.
Definition toy_cs2 : ChainSync := {| LastChecked := 0; at_ := Fetching 1300 |}.
Definition toy_l2 : loop := do_env (SendBlk 1300) (start (MyState toy_s1)).
Definition toy_s2 := with_sync toy_cs2 (l_st toy_l2) ([] : toy_list) toy_s1.
Lemma toy_run : rtc server_step toy_s0 toy_s2.
Proof.
  apply (rtc_l _ toy_s0 toy_s1); [|apply rtc_once].
  - split; [vm_compute; exact I|]. refine (go_sync toy_s0 (Tick (Ok 1300)) toy_cs1 toy_l1 ([] : toy_list) _ _); vm_compute; reflexivity.
  - split; [vm_compute; exact I|]. refine (go_sync toy_s1 Go toy_cs2 toy_l2 ([] : toy_list) _ _); vm_compute; reflexivity.
Qed.
Lemma served_chain_unfollowed_witness :
  toy_server_result = Ok toy_s0 /\ newEthFinalizedBlockCh (MyState toy_s2) = [1300] /\
  same_redeems (State.statedb (MyState toy_s0)) (State.statedb (MyState toy_s2)) /\
  WithdrawLoop_round (MyBtcMgr toy_s2) = (Ok tt, MyBtcMgr toy_s2).
Proof.
  assert (toy_server_result = Ok toy_s0) as Hok.
  { assert (is_ok toy_server_result = true) as Hr by (vm_compute; reflexivity). unfold toy_s0. by destruct toy_server_result. }
  pose proof Hok as Hnew. unfold toy_server_result in Hnew.
  destruct (served_chain_unfollowed (B := btc_model) tt toy_config {| toy_chain := [] |} rich_vault toy_served
    ([] : toy_list) (Ok sample_db) (Ok sample_txdb) (Ok sample_redeem_table) (Ok sample_operator) (Ok toy_deposits) toy_s0 toy_s2 toy_s2 Hnew toy_run (rtc_refl _ _))
    as (H & _ & _ & _ & _ & Hw).
  split; [exact Hok|]. split; [vm_compute; reflexivity|]. split; [exact H|]. apply Hw.
  assert (redeem_table (State.statedb (MyState toy_s0)) = []) as -> by (vm_compute; reflexivity). constructor.
Defined.
