(* ===== verification/ServerSetup.v ===== *)
(** * ServerSetup: how the bridge server is started (cmd/server_cmd/main.go, the opening half of
    [NewBridgeServer] in cmd/server.go, the constructors of the SQLite storages, multisig_client/net.go,
    btcman/assembler/schnorr_operator.go, aptosman/simulated.go).

    The configuration is read from text, the signer is chosen, the tables of one database file are
    opened, the clients are built, and the parts are handed to [Server]. The file is modelled too, so
    that the server can be stopped and started again on it. *)
From S2P Require Export Server BtcUser AptosAccounts.

(** ** The host: files, certificates and connections (os, crypto/tls, crypto/x509, grpc) *)
Class Host (G : Type) := {
  os_Open : string -> outcome unit;
  os_Stat : string -> outcome unit;
  os_IsNotExist : error -> bool;
  os_ReadFile : string -> outcome bytes;
  Certificate : Type;
  LoadX509KeyPair : string -> string -> outcome Certificate;
  CertPool : Type;
  AppendCertsFromPEM : bytes -> CertPool;            (** to an empty pool *)
  (** the service that [pb.NewSignatureClient] gives over the connection *)
  grpc_NewClient : string -> Certificate -> CertPool -> outcome G }.
(** viper, after [ReadInConfig] *)
Class Viper := {
  viper_ReadInConfig : string -> outcome unit;
  viper_GetString : string -> string;
  viper_GetBool : string -> bool;
  viper_GetInt : string -> Z;
  viper_GetInt64 : string -> Z }.

(** ** multisig_client/net.go *)
Record ConnectorConfig := {
  cc_UserID : Z; cc_Name : string; Cert : string; Key : string; CaCert : string;
  ServerAddress : string; ServerCACert : string }.
(** cmd/utils.go *)
Definition FileExists {G} `{H : Host G} (filePath : string) : bool :=
  match os_Open filePath with Ok _ => true | _ => false end.

Section connector.
Context {G : Type} `{H : Host G}.
Definition createTLSConfig (certFilePath keyFilePath serverCaCertFilePath : string)
    : outcome (Certificate * CertPool) :=
  cert ← LoadX509KeyPair certFilePath keyFilePath;
  caCert ← os_ReadFile serverCaCertFilePath;
  Ok (cert, AppendCertsFromPEM caCert).
Definition NewConnector (clientConfig : ConnectorConfig) : outcome (Connector (N := G)) :=
  tlsConfig ← wrap_err "error creating TLS config: "
    (createTLSConfig (Cert clientConfig) (Key clientConfig) (ServerCACert clientConfig));
  service ← wrap_err "error connecting to RPC server: "
    (grpc_NewClient (ServerAddress clientConfig) tlsConfig.1 tlsConfig.2);
  Ok {| UserID := cc_UserID clientConfig; service := service |}.
(** cmd/server_cmd/main.go: other errors of [os.Stat] are passed over *)
Definition refuse_missing (path : string) : outcome unit :=
  match os_Stat path with
  | Err err => if os_IsNotExist err then Err err else Ok tt
  | r => r
  end.
Definition setupRemoteSignerConnector (connConfig : ConnectorConfig) : outcome (Connector (N := G)) :=
  refuse_missing (Cert connConfig) ;;
  refuse_missing (Key connConfig) ;;
  refuse_missing (CaCert connConfig) ;;
  refuse_missing (ServerCACert connConfig) ;;
  NewConnector connConfig.
End connector.

(** ** The signer of the server: either implementation behind the interface *)
Inductive ServerSigner `{SG : SigLib} {G : Type} := LocalSigner (s : LocalSchnorrSigner) | RemoteSigner (c : Connector (N := G)).
Arguments ServerSigner {SL SG} G.
Section signer.
Context `{SG : SigLib} {G : Type} `{SC : !SignatureClient G}.
Definition on_signer {A} (l : M LocalSchnorrSigner A) (r : M (Connector (N := G)) A) : M (ServerSigner G) A := fun w =>
  match w with
  | LocalSigner s => let '(o, s) := l s in (o, LocalSigner s)
  | RemoteSigner c => let '(o, c) := r c in (o, RemoteSigner c)
  end.
#[global] Instance ServerSigner_signer : MultisigSigner (ServerSigner G) := {|
  ms_Sign msg := on_signer (local_Sign msg) (remote_Sign msg);
  ms_Pub := on_signer local_Pub remote_Pub |}.
End signer.

(** ** schnorr_operator.go: an operator over a signer, at its key's Taproot address *)
Class TaprootLib `{B : BtcLib} `{SL : SchnorrLib} := {
  ComputeTaprootKeyNoScript : pubkey -> pubkey;
  SerializePubKey : pubkey -> bytes;
  NewAddressTaproot : bytes -> BtcTx.Params -> outcome Address }.
Record SchnorrOperator `{B : BtcLib} {W : Type} := {
  so_ChainConfig : BtcTx.Params; mySigner : W; P2TR : Address }.
Arguments SchnorrOperator {B} W.
Definition NewSchnorrOperator `{TL : TaprootLib} {W} `{MS : !MultisigSigner W} (signer : W)
    (chainConfig : BtcTx.Params) : outcome (SchnorrOperator W) :=
  let '(pk, signer) := ms_Pub signer in
  pk ← pk;
  p2trAddr ← NewAddressTaproot (SerializePubKey (ComputeTaprootKeyNoScript pk)) chainConfig;
  Ok {| so_ChainConfig := chainConfig; mySigner := signer; P2TR := p2trAddr |}.

(** ** cmd/server_cmd/main.go: the configuration *)
Section config.
Context `{VP : Viper} {G : Type} `{H : Host G} `{B : BtcLib} `{BK : @BtcKeyLib B} `{SG : SigLib}.
Definition server_chain_params (name : string) : BtcTx.Params :=
  if String.eqb name "testnet" then TestNet3Params
  else if String.eqb name "mainnet" then MainNetParams
  else RegressionNetParams.
Definition remoteSignerConfig : ConnectorConfig := {|
  cc_UserID := viper_GetInt "REMOTE_SIGNER_USER_ID"; cc_Name := viper_GetString "REMOTE_SIGNER_NAME";
  Cert := viper_GetString "REMOTE_SIGNER_CERT"; Key := viper_GetString "REMOTE_SIGNER_KEY";
  CaCert := viper_GetString "REMOTE_SIGNER_CA_CERT"; ServerAddress := viper_GetString "REMOTE_SIGNER_SERVER";
  ServerCACert := viper_GetString "REMOTE_SIGNER_SERVER_CA_CERT" |}.
(** [Err] is the case in which nil is returned *)
Definition server_signer : outcome (ServerSigner G) :=
  if viper_GetBool "USE_REMOTE_SIGNER"
  then RemoteSigner <$> fatal "failed to create grpc connector: " (setupRemoteSignerConnector remoteSignerConfig)
  else LocalSigner <$> NewLocalSchnorrSigner (bytes_of_string (viper_GetString "BTC_CORE_ACCOUNT_PRIV")).
Definition PrepareBridgeServerConfig : outcome (option (BridgeServerConfig (ServerSigner G))) :=
  match server_signer with
  | Err _ => Ok None
  | Panic w => Panic w
  | Ok schnorrSigner => Ok (Some {|
      Server.AptosRpcUrl := viper_GetString "APTOS_RPC_URL";
      Server.AptosCoreAccountPriv := viper_GetString "APTOS_CORE_ACCOUNT_PRIV";
      Server.AptosModuleAddress := viper_GetString "APTOS_MODULE_ADDRESS";
      Server.EthRpcUrl := ""; Server.EthCoreAccountPriv := "";
      Server.MSchnorrSigner := schnorrSigner;
      Server.DbFilePath := viper_GetString "DB_FILE_PATH";
      Server.BtcRpcServer := viper_GetString "BTC_RPC_SERVER"; Server.BtcRpcPort := viper_GetString "BTC_RPC_PORT";
      Server.BtcRpcUsername := viper_GetString "BTC_RPC_USERNAME"; Server.BtcRpcPwd := viper_GetString "BTC_RPC_PWD";
      Server.BtcChainConfig := server_chain_params (viper_GetString "BTC_CHAIN_CONFIG");
      Server.BtcStartBlk := viper_GetInt64 "BTC_START_BLK";
      Server.BtcCoreAccountPriv := viper_GetString "BTC_CORE_ACCOUNT_PRIV";
      Server.BtcCoreAccountAddr := viper_GetString "BTC_CORE_ACCOUNT_ADDR";
      Server.HttpIp := viper_GetString "HTTP_IP"; Server.HttpPort := viper_GetString "HTTP_PORT";
      Server.PredefinedBridgeContractAddr := viper_GetString "PREDEFINED_BRIDGE_ADDRESS";
      Server.PredefinedTwbtcContractAddr := viper_GetString "PREDEFINED_TWBTC_ADDRESS" |})
  end.
Definition initializeViper (filePath : string) : bool :=
  match viper_ReadInConfig filePath with Ok _ => true | _ => false end.
End config.

(** ** aptosman/simulated.go: the server builds its Aptos client with it *)
Definition DEVNET : string := "devnet".
Class AptosAccountKit (N : Type) `{AK : AptosKit N} `{SG : SigLib} := {
  rand_Read : nat -> M N bytes;
  ed25519_NewKeyFromSeed : bytes -> bytes;
  btcec_NewPrivateKey : M N privkey;
  account_bytes : Account -> bytes                   (** what [Aptosman] keeps of an account *) }.
Arguments AptosAccountKit N {AK SL SG}.
Section simulated.
Context {N : Type} `{AN : !AptosNode N} `{AK : !AptosKit N} `{SG : SigLib} `{KT : @AptosAccountKit N AK SL SG}.
Record SimAptosman := {
  sim_Aptosman : Aptosman; sim_MultiSigner : LocalSchnorrSigner; sim_Accounts : list Account }.
(** the loop over the test accounts *)
Fixpoint test_accounts (i count : nat) : M N (list Account) :=
  match count with
  | O => mret []
  | S count =>
      randomBytes ← with_text "failed to generate random bytes: " (rand_Read 32);
      account ← lift (wrap_err ("failed to create test account " +:+ int_Text 10 (Z.of_nat i) +:+ ": ")
                        (NewAccount (ed25519_NewKeyFromSeed randomBytes)));
      accounts ← test_accounts (S i) count;
      mret (account :: accounts)
  end.
Definition sim_config : AptosmanConfig := {|
  URL := "https://fullnode.testnet.aptoslabs.com";
  ModuleAddress := "0xfbfe84d58d9ef1366f295066dbf1767f53d52d319843800c63c5e32d66411864";
  Network := DEVNET |}.
Definition NewSimAptosman_from_privateKey (privateKey : string) : M N SimAptosman :=
  adminAccount ← lift (wrap_err "failed to create admin account: " (createAccountFromPrivateKey privateKey));
  accounts ← test_accounts 0 9;
  schnorrSigner ← with_text "failed to create schnorr signer: " (fun n =>
    let '(sk, n) := btcec_NewPrivateKey n in (NewRandomLocalSchnorrSigner sk, n));
  aptosman ← with_text "failed to create Aptosman: " (NewAptosman sim_config (account_bytes adminAccount));
  mret {| sim_Aptosman := aptosman; sim_MultiSigner := schnorrSigner; sim_Accounts := adminAccount :: accounts |}.
Definition createSimAptosClient : outcome unit :=
  wrap_err "Failed to create client: " (aptos_NewClient "DevnetConfig").
End simulated.

(** ** chaintxmgr/mgr.go: the key the manager is built with, and the check of signatures, whose calls are
    commented out *)
(** the key signatures would be checked with: the address of the Aptos account *)
Definition manager_pubKey {N} `{AN : !AptosNode N} `{E : EthLib} (aptman : Aptosman) : bytes :=
  HexStrToHash (aGetPublicKey aptman).
(** [received] is [None] when the wait times out, which returns the error of the outer context *)
Definition waitAndVerifySignature `{SL : SchnorrLib} (pubKey msgHash : bytes) (ctxErr : option error)
    (received : option SignatureRequest) : outcome (option SignatureRequest) :=
  match received with
  | None => match ctxErr with Some e => Err e | None => Ok None end
  | Some req =>
      match sr_Rx req, sr_S req with
      | Some rx, Some s =>
          ok ← Verify pubKey msgHash rx s;
          if ok : bool then Ok (Some req) else Err "ERR_BAD_SIGNATURE: signature verification failed"
      | _, _ => Panic "nil pointer dereference"
      end
  end.

(** ** The database file and the storages over it *)
(** The tables of a file; the vault has a table of its own for each address. *)
Record DbFile := {
  f_redeems : list redeem_row; f_kv : gmap string string; f_mints : list mint_row;
  f_vaults : gmap string (list VaultUTXO); f_tracked : list tx_row;
  f_payments : list RedeemAction; f_deposits : list DepositAction }.
(** SQLite's driver in one process: what fails to open, and which statements fail *)
Record Driver := {
  sql_Open : string -> outcome unit; sql_CreateTable : string -> outcome unit;
  sql_fault : string -> option error; state_fault : faults }.
Definition vault_table (uniqueID : string) : string := "vault_utxo_" +:+ uniqueID.

Section storages.
Variables (dr : Driver) (file : DbFile) (dbFilePath : string).
(** the constructors open the file and create their table unless it is there *)
Definition NewVaultSQLiteStorage (uniqueID : string) : outcome VaultSQLiteStorage :=
  sql_Open dr dbFilePath ;;
  sql_CreateTable dr (vault_table uniqueID) ;;
  Ok {| v_table := default [] (f_vaults file !! vault_table uniqueID); v_fault := sql_fault dr |}.
Definition NewSQLiteChainTxMgrDB : outcome SQLiteChainTxMgrDB :=
  sql_Open dr dbFilePath ;;
  sql_CreateTable dr "chain_tx_mgr_db" ;;
  Ok {| tx_table := f_tracked file; tx_fault := sql_fault dr |}.
Definition NewSQLiteRedeemStorage : outcome SQLiteRedeemStorage :=
  sql_Open dr dbFilePath ;;
  sql_CreateTable dr "btc_action_redeem" ;;
  Ok {| a_rows := f_payments file; a_fault := sql_fault dr |}.
Definition NewSQLiteDepositStorage : outcome SQLiteDepositStorage :=
  sql_Open dr dbFilePath ;;
  sql_CreateTable dr "btc_action_deposit" ;;
  Ok {| a_rows := f_deposits file; a_fault := sql_fault dr |}.
(** [sql.Open] and [NewStateDB] of the server, with their messages *)
Definition open_state_db : outcome StateDB :=
  fatal "failed to open db file: " (sql_Open dr dbFilePath) ;;
  fatal "failed to create state db: " (sql_CreateTable dr "redeem") ;;
  Ok {| redeem_table := f_redeems file; kv_table := f_kv file; mint_table := f_mints file;
        db_fault := state_fault dr |}.
End storages.

(** ** cmd/server.go: the server from its configuration *)
Section setup.
Context `{B : BtcLib, E : EthLib, G : GobLib, R : RlpLib, SG : SigLib, Q : SqlSort} `{BK : @BtcKeyLib B}.
Context {N W K : Type} `{AN : !AptosNode N} `{AK : !AptosKit N} `{KT : @AptosAccountKit N AK SL SG}
  `{MS : !MultisigSigner W} `{BN : @BtcNode B K} `{WN : !BtcWalletNode K}.
Abbreviation ServerOnFile :=
  (BridgeServer N SQLiteChainTxMgrDB W VaultSQLiteStorage K SQLiteRedeemStorage SQLiteDepositStorage).

(** the wallet that pays redeems *)
Definition bridge_operator (bsc : BridgeServerConfig W) : outcome NativeOperator :=
  bridgeBtcCoreAccount ←
    match NewNativeSigner (Server.BtcCoreAccountPriv bsc) (Server.BtcChainConfig bsc) with
    | Err _ => Panic ("cannot create wallet from private key " +:+ Server.BtcCoreAccountPriv bsc)%string
    | r => r
    end;
  match NewNativeOperator bridgeBtcCoreAccount with Err _ => Panic "cannot create legacy wallet" | r => r end.
(** [k] is the Bitcoin node at the configured address; the state is the Aptos node *)
Definition SetupBridgeServer (dr : Driver) (disk : string -> DbFile) (k : K) (bsc : BridgeServerConfig W)
    : M N ServerOnFile :=
  let path := Server.DbFilePath bsc in let file := disk path in
  lift (SetupBtcRpc (Server.BtcRpcServer bsc) (Server.BtcRpcPort bsc) (Server.BtcRpcUsername bsc)
          (Server.BtcRpcPwd bsc)) ;;
  myBtcVault ← lift (fatal "cannot create vault storage "
                       (NewVaultSQLiteStorage dr file path (Server.BtcCoreAccountAddr bsc)));
  ServerAptosman ← (fun n =>
    let '(o, n) := NewSimAptosman_from_privateKey (Server.AptosCoreAccountPriv bsc) n in
    (fatal "failed to create core aptos account controlled by bridge: " o, n));
  n ← get;
  lift (NewBridgeServer GetRegtestParams bsc k myBtcVault (sim_Aptosman ServerAptosman) n
          (open_state_db dr file path) (NewSQLiteChainTxMgrDB dr file path)
          (NewSQLiteRedeemStorage dr file path) (bridge_operator bsc) (NewSQLiteDepositStorage dr file path)).
(** the wait for the goroutines is what [server_step] runs *)
Definition StartBridgeServerAndWait dr disk k bsc : M N ServerOnFile := fun n =>
  let '(o, n) := SetupBridgeServer dr disk k bsc n in (fatal "failed to create bridge server: " o, n).
End setup.

(** ** cmd/server_cmd/main.go: [None] is a return before the server is started *)
Section main.
Context `{VP : Viper} {G : Type} `{H : Host G} `{SC : !SignatureClient G}.
Context `{B : BtcLib, E : EthLib, G0 : GobLib, R : RlpLib, SG : SigLib, Q : SqlSort} `{BK : @BtcKeyLib B}.
Context {N K : Type} `{AN : !AptosNode N} `{AK : !AptosKit N} `{KT : @AptosAccountKit N AK SL SG}
  `{BN : @BtcNode B K} `{WN : !BtcWalletNode K}.
Definition server_main (dr : Driver) (disk : string -> DbFile) (k : K) (config_file : string)
    : M N (option (BridgeServer N SQLiteChainTxMgrDB (ServerSigner G) VaultSQLiteStorage K
                     SQLiteRedeemStorage SQLiteDepositStorage)) :=
  if negb (FileExists config_file) then mret None
  else if negb (initializeViper config_file) then mret None
  else
    bsc ← lift PrepareBridgeServerConfig;
    match bsc with
    | None => mret None
    | Some bsc => server ← StartBridgeServerAndWait dr disk k bsc; mret (Some server)
    end.
End main.

(** ** Stopping and starting again *)
(** the file a stopped server leaves *)
Section saved.
Context `{B : BtcLib} {N W K : Type}.
Definition saved (bsc : BridgeServerConfig W)
    (s : BridgeServer N SQLiteChainTxMgrDB W VaultSQLiteStorage K SQLiteRedeemStorage SQLiteDepositStorage)
    (disk : string -> DbFile) : string -> DbFile := fun path =>
  if String.eqb path (Server.DbFilePath bsc) then {|
    f_redeems := redeem_table (State.statedb (MyState s)); f_kv := kv_table (State.statedb (MyState s));
    f_mints := mint_table (State.statedb (MyState s));
    f_vaults := <[vault_table (Server.BtcCoreAccountAddr bsc) := v_table (MyBtcVault s)]> (f_vaults (disk path));
    f_tracked := tx_table (MyAptosTxMgrDb s); f_payments := a_rows (btcMgrStorage s);
    f_deposits := a_rows (MyDepositStorage s) |}
  else disk path.
(** the same rows in every table *)
Definition same_tables
    (s s' : BridgeServer N SQLiteChainTxMgrDB W VaultSQLiteStorage K SQLiteRedeemStorage SQLiteDepositStorage) : Prop :=
  same_redeems (State.statedb (MyState s)) (State.statedb (MyState s')) /\
  mint_table (State.statedb (MyState s')) = mint_table (State.statedb (MyState s)) /\
  v_table (MyBtcVault s') = v_table (MyBtcVault s) /\ tx_table (MyAptosTxMgrDb s') = tx_table (MyAptosTxMgrDb s) /\
  a_rows (btcMgrStorage s') = a_rows (btcMgrStorage s) /\ a_rows (MyDepositStorage s') = a_rows (MyDepositStorage s).
End saved.

(** *** What [State.New] leaves can be read again *)
Section again.
Context `{EL : EthLibLaws, GL : GobLaws}.
Lemma GetKeyedValue_ran d k o d' : GetKeyedValue k d = (Ok o, d') ->
  o = HexStrToBytes32 <$> kv_table d !! hex_encode k /\ d' = d.
Proof.
  unfold GetKeyedValue, prepare, exec, may_fail. mstep. destruct (db_fault d Preparing _); [done|].
  mstep. destruct (db_fault d Executing _); [done|]. mstep. rewrite hash_key_hex.
  destruct (kv_table d !! hex_encode k); by intros [= <- <-].
Qed.
Lemma SetKeyedValue_ran d k v d' : SetKeyedValue k v d = (Ok tt, d') ->
  d' = set_kv (<[hex_encode k := hex_encode v]> (kv_table d)) d.
Proof.
  unfold SetKeyedValue, prepare, exec, may_fail. mstep. destruct (db_fault d Preparing _); [done|].
  mstep. destruct (db_fault d Executing _); [done|]. mstep. rewrite !hash_key_hex. by intros [= <-].
Qed.
(** a number is stored under a key *)
Definition stored_at (key : bytes) (t : gmap string string) (n : Z) : Prop :=
  exists text, t !! hex_encode key = Some text /\ big_SetBytes (HexStrToBytes32 text) = n.
Lemma stored_pad32 key t n : 0 <= n < 2 ^ 256 -> stored_at key (<[hex_encode key := hex_encode (pad32 n)]> t) n.
Proof.
  intros Hn. eexists. split; [apply lookup_insert_eq|].
  by rewrite HexStrToBytes32_hex, pad32_value by (apply pad32_length || idtac; lia).
Qed.
Definition kv_of (st : State) := kv_table (State.statedb st).
Definition same_records (st st' : State) : Prop :=
  redeem_table (State.statedb st') = redeem_table (State.statedb st) /\
  mint_table (State.statedb st') = mint_table (State.statedb st) /\ State.cfg st' = State.cfg st.

Lemma initEthFinalizedBlock_stores st st' : initEthFinalizedBlock st = (Ok tt, st') ->
  exists n, EthStartingBlock <= n /\ stored_at KeyEthFinalizedBlock (kv_of st') n /\
    lastEthFinalized st' = Some (big_Bytes n) /\ same_records st st'.
Proof.
  unfold initEthFinalizedBlock. mstep. rewrite with_err_eq, on_db_eq.
  destruct (GetKeyedValue _ _) as [[o|e|w] d] eqn:Hget; [|done..]. cbn [map_err].
  apply GetKeyedValue_ran in Hget as [-> ->]. rewrite set_statedb_same.
  destruct (kv_table _ !! _) as [text|] eqn:Ht; cbn [fmap option_fmap option_map].
  - destruct (Z.ltb_spec (big_SetBytes (HexStrToBytes32 text)) EthStartingBlock); [done|].
    intros [= <-]. eexists. split_and!; [eassumption|by exists text|done|by repeat split].
  - mstep. rewrite BigInt2Bytes32_ok by (unfold EthStartingBlock; lia). mstep.
    rewrite with_err_eq, on_db_eq.
    destruct (SetKeyedValue _ _ _) as [[[]|e|w] d] eqn:Hset; [|done..]. cbn [map_err].
    apply SetKeyedValue_ran in Hset as ->. intros [= <-]. exists EthStartingBlock.
    split_and!; [done| |done|by repeat split].
    apply (stored_pad32 KeyEthFinalizedBlock (kv_of st) EthStartingBlock). unfold EthStartingBlock. lia.
Qed.
Lemma initEthChainID_stores st st' : 0 <= UniqueChainId (State.cfg st) < 2 ^ 256 ->
  initEthChainID st = (Ok tt, st') ->
  stored_at KeyEthChainId (kv_of st') (UniqueChainId (State.cfg st)) /\
  (forall n, stored_at KeyEthFinalizedBlock (kv_of st) n -> stored_at KeyEthFinalizedBlock (kv_of st') n) /\
  lastEthFinalized st' = lastEthFinalized st /\ same_records st st'.
Proof.
  intros Hc. unfold initEthChainID. mstep. rewrite with_err_eq, on_db_eq.
  destruct (GetKeyedValue _ _) as [[o|e|w] d] eqn:Hget; [|done..]. cbn [map_err].
  apply GetKeyedValue_ran in Hget as [-> ->]. rewrite set_statedb_same. mstep.
  destruct (kv_table _ !! _) as [text|] eqn:Ht; cbn [fmap option_fmap option_map].
  - destruct (Z.eqb_spec (big_SetBytes (HexStrToBytes32 text)) (UniqueChainId (State.cfg st))) as [Heq|]; [|done].
    intros [= <-]. split_and!; [by exists text|done|done|by repeat split].
  - mstep. rewrite BigInt2Bytes32_ok by done. mstep. rewrite with_err_eq, on_db_eq.
    destruct (SetKeyedValue _ _ _) as [[[]|e|w] d] eqn:Hset; [|done..]. cbn [map_err].
    apply SetKeyedValue_ran in Hset as ->. intros [= <-].
    split_and!; [by apply (stored_pad32 KeyEthChainId (kv_of st))| |done|by repeat split].
    intros n (t' & H1 & H2). exists t'. split; [|done]. unfold kv_of in H1 |- *. cbn.
    rewrite lookup_insert_ne; [done|]. intros Hk. rewrite Hk, H1 in Ht. done.
Qed.
(** Started on what a successful start left, the state finds the same numbers and writes nothing. *)
Lemma New_again db c st d' : 0 <= UniqueChainId c < 2 ^ 256 -> New db c = (Ok st, d') ->
  (exists b, lastEthFinalized st = Some b) /\ redeem_table (State.statedb st) = redeem_table db /\
  mint_table (State.statedb st) = mint_table db /\
  forall d2, kv_table d2 = kv_table (State.statedb st) -> db_fault d2 = no_faults ->
    exists st2, New d2 c = (Ok st2, d2) /\ State.statedb st2 = d2 /\ lastEthFinalized st2 = lastEthFinalized st.
Proof.
  intros Hc. unfold New. rewrite bind_eq.
  destruct (initEthFinalizedBlock _) as [[[]|e|w] st1] eqn:H1; [|done..].
  destruct (initEthChainID st1) as [[[]|e|w] st2] eqn:H2; [|done..]. intros [= <- _].
  apply initEthFinalizedBlock_stores in H1 as (n & Hn & Hs1 & Hl & Hr & Hm & Hcfg). cbn in Hr, Hm, Hcfg.
  apply initEthChainID_stores in H2 as (Hs2 & Hk & Hl2 & Hr2 & Hm2 & _); [|by rewrite Hcfg].
  rewrite Hcfg in Hs2. split; [rewrite Hl2, Hl; eauto|]. split; [by rewrite Hr2|]. split; [by rewrite Hm2|].
  intros d2 Hkv Hf. destruct (Hk n Hs1) as (t1 & Ht1 & <-), Hs2 as (t2 & Ht2 & Hv2).
  unfold kv_of in Ht1, Ht2. rewrite <-Hkv in Ht1, Ht2. rewrite bind_eq. unfold initEthFinalizedBlock. mstep.
  rewrite with_err_eq, on_db_eq, GetKeyedValue_eq by done. cbn [State_init State.statedb]. rewrite Ht1.
  cbn [fmap option_fmap option_map map_err]. destruct (Z.ltb_spec (big_SetBytes (HexStrToBytes32 t1)) EthStartingBlock); [lia|].
  unfold store_eth at 1, modify. unfold initEthChainID. mstep. rewrite with_err_eq, on_db_eq.
  cbn [State.statedb set_statedb State_init set_cache].
  rewrite GetKeyedValue_eq, Ht2 by done. cbn [fmap option_fmap option_map map_err]. mstep.
  cbn [State.cfg set_statedb State_init set_cache]. rewrite Hv2, Z.eqb_refl. cbn [negb].
  eexists. split; [reflexivity|]. by rewrite Hl2, Hl.
Qed.
End again.

(** *** What a started server holds *)
Section started.
Context `{B : BtcLib, EL : EthLibLaws, GL : GobLaws, R : RlpLib, SG : SigLib}.
Context {N D W V K A P : Type} `{AN : AptosNode N, DB : ChainTxMgrDB D, MS : !MultisigSigner W,
  VS : VaultUTXOStorage V, BN : @BtcNode B K, RA : RedeemActionStorage A, DS : DepositStorage P}.
Abbreviation Server := (BridgeServer N D W V K A P).
Variables (params : BtcTx.Params) (bsc : BridgeServerConfig W) (k : K) (v : V) (aptman : Aptosman) (n : N).

Lemma NewChainSync_cached st b force : lastEthFinalized st = Some b -> force <> -1 ->
  NewChainSync force st = (Ok {| LastChecked := force; at_ := AtSelect |}, st).
Proof.
  intros Hb Hf. unfold NewChainSync, GetBlockchainFinalizedBlockNumber. rewrite bind_eq. mstep. rewrite Hb.
  mstep. by rewrite (proj2 (Z.eqb_neq _ _) Hf).
Qed.
(** the server [NewBridgeServer] has put together of its parts *)
Record built_from (db : StateDB) (d : D) (a : A) (op : NativeOperator) (p : P) (s : Server) : Prop := {
  bf_state : New db server_state_config = (Ok (MyState s), State.statedb (MyState s));
  bf_sync : MyAptosSynchronizer s = {| LastChecked := server_ForceScanBlkNum; at_ := AtSelect |};
  bf_given : MyAptosMan s = aptman /\ aptos_node s = n /\ MyBtcVault s = v /\ schnorrWallet s = MSchnorrSigner bsc;
  bf_opened : MyAptosTxMgrDb s = d /\ btcMgrStorage s = a /\ MyDepositStorage s = p /\ operator s = op;
  bf_address : EncodeAddress (P2PKH op) = Server.BtcCoreAccountAddr bsc;
  bf_monitored : DecodeAddress (Server.BtcCoreAccountAddr bsc) params = Ok (monitored s) }.
Lemma New_result db st d' : New db server_state_config = (Ok st, d') -> d' = State.statedb st.
Proof. unfold New. destruct ((initEthFinalizedBlock ;; initEthChainID) _) as [[[]|e|w] st']; [|done..]. by intros [= <- <-]. Qed.
Lemma NewBridgeServer_built db d a op p s : NewBridgeServer params bsc k v aptman n db d a op p = Ok s ->
  exists db0 d0 a0 op0 p0, db = Ok db0 /\ d = Ok d0 /\ a = Ok a0 /\ op = Ok op0 /\ p = Ok p0 /\
    built_from db0 d0 a0 op0 p0 s.
Proof.
  unfold NewBridgeServer. destruct db as [db| |]; [|done..]. cbn [mbind outcome_bind].
  destruct (New db server_state_config) as [[st|e|x] d'] eqn:Hnew; [|done..]. cbn [fst fatal mbind outcome_bind].
  destruct d as [d| |]; [|done..]. cbn [fatal mbind outcome_bind].
  pose proof (New_result _ _ _ Hnew) as ->.
  destruct (New_again db server_state_config st _ ltac:(cbn; lia) Hnew) as ([b Hb] & _).
  rewrite (NewChainSync_cached _ _ _ Hb) by done. cbn [fatal mbind outcome_bind].
  destruct a as [a| |]; [|done..]. destruct op as [op| |]; [|done..]. cbn [fatal mbind outcome_bind].
  destruct (String.eqb_spec (EncodeAddress (P2PKH op)) (Server.BtcCoreAccountAddr bsc)) as [Haddr|]; [|done].
  cbn [negb]. destruct (if _ : bool then _ else _) as [h k'].
  destruct (setupBtcMonitor _ _ _ _ _) as [mon|e|x] eqn:Hmon; [|done..]. cbn [mbind outcome_bind].
  destruct p as [p| |]; [|done..]. intros [= <-].
  unfold setupBtcMonitor, NewBTCMonitor in Hmon.
  destruct (DecodeAddress _ params) as [x|e|w] eqn:Hdec; [|done..]. injection Hmon as <-.
  exists db, d, a, op, p. split_and!; try done; by constructor.
Qed.
Lemma NewBridgeServer_starts db d a op p st addr :
  New db server_state_config = (Ok st, State.statedb st) ->
  EncodeAddress (P2PKH op) = Server.BtcCoreAccountAddr bsc ->
  DecodeAddress (Server.BtcCoreAccountAddr bsc) params = Ok addr ->
  exists s, NewBridgeServer params bsc k v aptman n (Ok db) (Ok d) (Ok a) (Ok op) (Ok p) = Ok s /\
    MyState s = st /\ built_from db d a op p s.
Proof.
  intros Hnew Haddr Hdec. pose proof Hnew as Hst. unfold NewBridgeServer. cbn [mbind outcome_bind]. rewrite Hnew.
  cbn [fst fatal mbind outcome_bind].
  destruct (New_again db server_state_config st _ ltac:(cbn; lia) Hnew) as ([b Hb] & _).
  rewrite (NewChainSync_cached _ _ _ Hb) by done. cbn [fatal mbind outcome_bind].
  rewrite (proj2 (String.eqb_eq _ _) Haddr). cbn [negb]. destruct (if _ : bool then _ else _) as [h k'].
  unfold setupBtcMonitor, NewBTCMonitor. rewrite Hdec. cbn [wrap_err fatal mbind outcome_bind].
  eexists. split; [reflexivity|]. split; [done|]. by constructor.
Qed.
End started.

(** *** Restart *)
Section restart.
Context `{B : BtcLib, EL : EthLibLaws, GL : GobLaws, R : RlpLib, SG : SigLib, Q : SqlSort} `{BK : @BtcKeyLib B}.
Context {N W K : Type} `{AN : !AptosNode N} `{AK : !AptosKit N} `{KT : @AptosAccountKit N AK SL SG}
  `{MS : !MultisigSigner W} `{BN : @BtcNode B K} `{WN : !BtcWalletNode K}.
Abbreviation ServerOnFile :=
  (BridgeServer N SQLiteChainTxMgrDB W VaultSQLiteStorage K SQLiteRedeemStorage SQLiteDepositStorage).

Lemma fatal_ok {X} what (o : outcome X) x : fatal what o = Ok x -> o = Ok x.
Proof. by destruct o. Qed.
Lemma lift_run_ok {X Y} (o : outcome X) (f : X -> M N Y) n y n' :
  (lift o ≫= f) n = (Ok y, n') -> exists x, o = Ok x /\ f x n = (Ok y, n').
Proof. rewrite bind_eq. unfold lift. destruct o as [x|e|w]; [eauto|done..]. Qed.
(** what a set-up that succeeds has gone through *)
Lemma SetupBridgeServer_built dr disk k (bsc : BridgeServerConfig W) n s n' :
  let path := Server.DbFilePath bsc in
  SetupBridgeServer dr disk k bsc n = (Ok s, n') ->
  exists rpc v sim db d a op p,
    SetupBtcRpc (Server.BtcRpcServer bsc) (Server.BtcRpcPort bsc) (Server.BtcRpcUsername bsc)
      (Server.BtcRpcPwd bsc) = Ok rpc /\
    NewVaultSQLiteStorage dr (disk path) path (Server.BtcCoreAccountAddr bsc) = Ok v /\
    NewSimAptosman_from_privateKey (Server.AptosCoreAccountPriv bsc) n = (Ok sim, n') /\
    open_state_db dr (disk path) path = Ok db /\ NewSQLiteChainTxMgrDB dr (disk path) path = Ok d /\
    NewSQLiteRedeemStorage dr (disk path) path = Ok a /\ bridge_operator bsc = Ok op /\
    NewSQLiteDepositStorage dr (disk path) path = Ok p /\
    NewBridgeServer GetRegtestParams bsc k v (sim_Aptosman sim) n' (Ok db) (Ok d) (Ok a) (Ok op) (Ok p) = Ok s /\
    built_from GetRegtestParams bsc v (sim_Aptosman sim) n' db d a op p s.
Proof.
  intros path. unfold SetupBridgeServer. fold path.
  intros (rpc & Hrpc & (v & Hv%fatal_ok & H)%lift_run_ok)%lift_run_ok. rewrite bind_eq in H.
  destruct (NewSimAptosman_from_privateKey _ n) as [o n1] eqn:Hsim. destruct o as [sim|e|w]; [|done..].
  cbn [fatal] in H. rewrite bind_eq in H. cbn [get] in H. unfold lift in H. injection H as H <-.
  destruct (NewBridgeServer_built _ _ _ _ _ _ _ _ _ _ _ _ H) as (db & d & a & op & p & Hdb & Hd & Ha & Hop & Hp & Hb).
  rewrite Hdb, Hd, Ha, Hop, Hp in H. by exists rpc, v, sim, db, d, a, op, p.
Qed.

(** a driver under which nothing fails while the server starts *)
Definition driver_healthy (dr : Driver) : Prop :=
  (forall path, sql_Open dr path = Ok tt) /\ (forall t, sql_CreateTable dr t = Ok tt) /\ state_fault dr = no_faults.
Lemma opened_again dr disk (bsc : BridgeServerConfig W) (s : ServerOnFile) :
  let path := Server.DbFilePath bsc in let file := saved bsc s disk path in
  driver_healthy dr ->
  exists v db d a p,
    NewVaultSQLiteStorage dr file path (Server.BtcCoreAccountAddr bsc) = Ok v /\
    open_state_db dr file path = Ok db /\ NewSQLiteChainTxMgrDB dr file path = Ok d /\
    NewSQLiteRedeemStorage dr file path = Ok a /\ NewSQLiteDepositStorage dr file path = Ok p /\
    v_table v = v_table (MyBtcVault s) /\ redeem_table db = redeem_table (State.statedb (MyState s)) /\
    kv_table db = kv_table (State.statedb (MyState s)) /\ mint_table db = mint_table (State.statedb (MyState s)) /\
    db_fault db = no_faults /\ tx_table d = tx_table (MyAptosTxMgrDb s) /\ a_rows a = a_rows (btcMgrStorage s) /\
    a_rows p = a_rows (MyDepositStorage s).
Proof.
  intros path file (Ho & Hc & Hf). unfold NewVaultSQLiteStorage, open_state_db, NewSQLiteChainTxMgrDB,
    NewSQLiteRedeemStorage, NewSQLiteDepositStorage. rewrite !Ho, !Hc. cbn [fatal mbind outcome_bind].
  subst file path. unfold saved. rewrite String.eqb_refl.
  do 5 eexists. split_and!; try reflexivity; [|done]. cbn. by rewrite lookup_insert_eq.
Qed.

(** Whichever module address and endpoints are configured, the server is the same: the Aptos client is
    built from constants. *)
Lemma unused_fields dr disk (k : K) (bsc bsc' : BridgeServerConfig W) n :
  Server.AptosCoreAccountPriv bsc = Server.AptosCoreAccountPriv bsc' ->
  Server.MSchnorrSigner bsc = Server.MSchnorrSigner bsc' -> Server.DbFilePath bsc = Server.DbFilePath bsc' ->
  Server.BtcRpcServer bsc = Server.BtcRpcServer bsc' -> Server.BtcRpcPort bsc = Server.BtcRpcPort bsc' ->
  Server.BtcRpcUsername bsc = Server.BtcRpcUsername bsc' -> Server.BtcRpcPwd bsc = Server.BtcRpcPwd bsc' ->
  Server.BtcChainConfig bsc = Server.BtcChainConfig bsc' -> Server.BtcStartBlk bsc = Server.BtcStartBlk bsc' ->
  Server.BtcCoreAccountPriv bsc = Server.BtcCoreAccountPriv bsc' ->
  Server.BtcCoreAccountAddr bsc = Server.BtcCoreAccountAddr bsc' ->
  SetupBridgeServer dr disk k bsc n = SetupBridgeServer dr disk k bsc' n.
Proof. destruct bsc, bsc'. cbn. intros. by subst. Qed.
(** A configuration for another network does not start when the regression network does not have its
    address: the monitor decodes it with the parameters of that network. *)
Lemma other_network_refused dr disk (k : K) (bsc : BridgeServerConfig W) n :
  is_ok (DecodeAddress (Server.BtcCoreAccountAddr bsc) RegressionNetParams) = false ->
  is_ok (result (SetupBridgeServer dr disk k bsc) n) = false.
Proof.
  intros Hdec. unfold result. destruct (SetupBridgeServer dr disk k bsc n) as [[s|e|w] n'] eqn:Hs; [|done..].
  destruct (SetupBridgeServer_built _ _ _ _ _ _ _ Hs) as (? & ? & ? & ? & ? & ? & ? & ? & _ & _ & _ & _ & _ & _ & _ & _ & _ & Hb).
  pose proof (bf_monitored _ _ _ _ _ _ _ _ _ _ _ Hb) as Hm. unfold GetRegtestParams in Hm. by rewrite Hm in Hdec.
Qed.

(** C15: the server can be stopped and started again: after any run, on the file it leaves, with the same
    configuration, a working database driver and an Aptos node that answers, the set-up succeeds again,
    whatever driver errors the first process had met. Every table has the rows it had, the operator, the
    watched address (the one its key pays from) and the finalized number are those of the first start;
    what waited in the channels is gone, and the synchronizer begins again at 0, from where it reads
    the whole ledger once more. *)
Theorem server_restarts dr0 disk k0 (bsc : BridgeServerConfig W) n0 n0' s0 s dr k n n' sim :
  SetupBridgeServer dr0 disk k0 bsc n0 = (Ok s0, n0') -> rtc server_step s0 s -> driver_healthy dr ->
  NewSimAptosman_from_privateKey (Server.AptosCoreAccountPriv bsc) n = (Ok sim, n') ->
  exists s1, SetupBridgeServer dr (saved bsc s disk) k bsc n = (Ok s1, n') /\ same_tables s s1 /\
    operator s1 = operator s0 /\ monitored s1 = monitored s0 /\
    EncodeAddress (P2PKH (operator s1)) = Server.BtcCoreAccountAddr bsc /\
    lastEthFinalized (MyState s1) = lastEthFinalized (MyState s0) /\
    nothing_queued (MyState s1) /\ MyAptosSynchronizer s1 = {| LastChecked := 0; at_ := AtSelect |}.
Proof.
  intros H0 Hrun Hdr Hsim.
  destruct (SetupBridgeServer_built _ _ _ _ _ _ _ H0)
    as (rpc & v0 & sim0 & db0 & d0 & a0 & op & p0 & Hrpc & _ & _ & _ & _ & _ & Hop & _ & Hnew0 & Hb0).
  destruct (server_run_kept s0 s (NewBridgeServer_first _ _ _ _ _ _ _ _ _ _ _ _ Hnew0) Hrun) as (_ & _ & Hkept).
  destruct (New_again db0 server_state_config _ _ ltac:(cbn; lia) (bf_state _ _ _ _ _ _ _ _ _ _ _ Hb0))
    as (_ & _ & _ & Hagain).
  destruct (opened_again dr disk bsc s Hdr)
    as (v & db & d & a & p & Hv & Hdb & Hd & Ha & Hp & Tv & Tr & Tk & Tm & Hf & Td & Ta & Tp).
  destruct (Hagain db) as (st2 & Hnew & Hst2 & Hlast); [by rewrite Tk, (proj2 Hkept)|done|].
  destruct (NewBridgeServer_starts GetRegtestParams bsc k v (sim_Aptosman sim) n' db d a op p st2
    (monitored s0)) as (s1 & Hs1 & Hms & Hb1);
    [by rewrite Hst2|apply Hb0|apply Hb0|].
  exists s1. split.
  { unfold SetupBridgeServer. rewrite Hrpc, Hv, Hdb, Hd, Ha, Hop, Hp. rewrite bind_eq. cbn [lift].
    rewrite bind_eq. cbn [fatal lift]. rewrite bind_eq, Hsim. cbn [fatal]. rewrite bind_eq. cbn [get].
    unfold lift. by rewrite Hs1. }
  destruct (bf_given _ _ _ _ _ _ _ _ _ _ _ Hb1) as (_ & _ & Hv1 & _).
  destruct (bf_opened _ _ _ _ _ _ _ _ _ _ _ Hb1) as (Hd1 & Ha1 & Hp1 & Hop1).
  destruct (bf_opened _ _ _ _ _ _ _ _ _ _ _ Hb0) as (_ & _ & _ & Hop0).
  pose proof (bf_monitored _ _ _ _ _ _ _ _ _ _ _ Hb0) as M0. pose proof (bf_monitored _ _ _ _ _ _ _ _ _ _ _ Hb1) as M1.
  split; [|split_and!].
  - unfold same_tables, same_redeems. by rewrite Hms, Hst2, Hv1, Hd1, Ha1, Hp1.
  - by rewrite Hop1, Hop0.
  - rewrite M0 in M1. by injection M1.
  - rewrite Hop1. apply Hb1.
  - by rewrite Hms.
  - rewrite Hms. apply (New_nothing_queued db). by rewrite Hnew.
  - apply (bf_sync _ _ _ _ _ _ _ _ _ _ _ Hb1).
Qed.
End restart.

(** ** A server on an empty file, stopped with an announced number in its channel *)
#[local] Existing Instance toy_contract.
#[local] Existing Instance ToySigner.toy_schnorr.
#[local] Existing Instance ToySigner.toy_siglib.
#[local] Instance toy_kit : AptosKit toy_list := {|
  ed_key := bytes; Account := bytes; ed25519_GenerateKey := (mret (zeros 32, zeros 64) : M toy_list _);
  GenerateEd25519PrivateKey := (mret (zeros 32) : M toy_list _); key_FromBytes b := Ok b; NewAccountFromSigner k := Ok k;
  AccountAPTBalance _ := mret 0;
  CoinTransferPayload a _ := Ok {| ef_Address := a; ef_Name := "coin"; ef_Function := "transfer"; ef_Args := [] |};
  BuildSignAndSubmitTransaction _ _ _ := mret ""%string; Fund _ _ := mret tt; ParseTypeTag s := Ok (TypeTag s);
  bcs_SerializeBool _ := Ok [] |}.
#[local] Instance toy_account_kit : AptosAccountKit toy_list := {|
  rand_Read n := mret (zeros n); ed25519_NewKeyFromSeed b := b ++ zeros 32;
  btcec_NewPrivateKey := (mret (zeros 32) : M toy_list _); account_bytes a := a |}.
Definition user_config : BridgeServerConfig (B := btc_model) LocalSchnorrSigner := {|
  Server.AptosRpcUrl := ""; Server.AptosCoreAccountPriv := "0x01"; Server.AptosModuleAddress := "";
  Server.EthRpcUrl := ""; Server.EthCoreAccountPriv := ""; Server.MSchnorrSigner := ToySigner.toy_signer;
  Server.DbFilePath := "bridge.db"; Server.BtcRpcServer := "127.0.0.1"; Server.BtcRpcPort := "18443";
  Server.BtcRpcUsername := ""; Server.BtcRpcPwd := ""; Server.BtcChainConfig := tt; Server.BtcStartBlk := -1;
  Server.BtcCoreAccountPriv := "key"; Server.BtcCoreAccountAddr := "user"; Server.HttpIp := "";
  Server.HttpPort := ""; Server.PredefinedBridgeContractAddr := ""; Server.PredefinedTwbtcContractAddr := "" |}.
Definition good_driver : Driver := {|
  sql_Open _ := Ok tt; sql_CreateTable _ := Ok tt; sql_fault _ := None; state_fault := no_faults |}.
Definition empty_file : DbFile := {|
  f_redeems := []; f_kv := empty; f_mints := []; f_vaults := empty; f_tracked := []; f_payments := [];
  f_deposits := [] |}.
Definition first_start :=
  SetupBridgeServer (B := btc_model) (N := toy_list) good_driver (fun _ => empty_file) sample_account user_config [].
Abbreviation ToyServer := (BridgeServer (B := btc_model) toy_list SQLiteChainTxMgrDB LocalSchnorrSigner
  VaultSQLiteStorage toy_account SQLiteRedeemStorage SQLiteDepositStorage).
(** the synchronizer sees number 1300 and announces it *)
Lemma first_announcement (s : ToyServer) :
  MyAptosSynchronizer s = {| LastChecked := 0; at_ := AtSelect |} -> nothing_queued (MyState s) ->
  exists s', rtc server_step s s' /\ newEthFinalizedBlockCh (MyState s') = [1300].
Proof.
  intros Hcs (Hq & _).
  set (s1 := with_sync {| LastChecked := 0; at_ := SendingNumber 1300 |} (MyState s) (aptos_node s) s).
  exists (with_sync {| LastChecked := 0; at_ := Fetching 1300 |} (l_st (do_env (SendBlk 1300) (start (MyState s1))))
            (aptos_node s1) s1). split; [apply (rtc_l _ s s1); [|apply rtc_once]|].
  - split; [by unfold process_runs; rewrite Hcs|].
    apply (go_sync s (Tick (Ok 1300)) {| LastChecked := 0; at_ := SendingNumber 1300 |} (start (MyState s))).
    + unfold sync_answer. by rewrite Hcs.
    + unfold sync_step. by rewrite Hcs.
  - split; [done|].
    apply (go_sync s1 Go {| LastChecked := 0; at_ := Fetching 1300 |} (do_env (SendBlk 1300) (start (MyState s1)))).
    + done.
    + unfold sync_step, do_env. cbn. by rewrite Hq.
  - unfold do_env. cbn. by rewrite Hq.
Qed.
Lemma server_restarts_witness : exists s0 s s1 : ToyServer,
  rtc server_step s0 s /\ newEthFinalizedBlockCh (MyState s) = [1300] /\
  result (SetupBridgeServer good_driver (saved user_config s (fun _ => empty_file)) sample_account user_config)
    ([] : toy_list) = Ok s1 /\
  same_tables s s1 /\ newEthFinalizedBlockCh (MyState s1) = [] /\ LastChecked (MyAptosSynchronizer s1) = 0.
Proof.
  destruct first_start as [o n0] eqn:H0. assert (is_ok o = true) as Ho.
  { change (is_ok (o, n0).1 = true). rewrite <-H0. vm_compute. reflexivity. }
  destruct o as [s0|e|w]; [|discriminate Ho..]. unfold first_start in H0.
  destruct (SetupBridgeServer_built _ _ _ _ _ _ _ H0)
    as (? & ? & ? & db & ? & ? & ? & ? & _ & _ & _ & _ & _ & _ & _ & _ & _ & Hb).
  destruct (first_announcement s0) as (s & Hrun & Hs).
  - apply (bf_sync _ _ _ _ _ _ _ _ _ _ _ Hb).
  - apply (New_nothing_queued db). by rewrite (bf_state _ _ _ _ _ _ _ _ _ _ _ Hb).
  - destruct (NewSimAptosman_from_privateKey (Server.AptosCoreAccountPriv user_config) ([] : toy_list)) as [sim n'] eqn:Hsim.
    assert (is_ok sim = true) as Hok.
    { change (is_ok (sim, n').1 = true). rewrite <-Hsim. vm_compute. reflexivity. }
    destruct sim as [sim|e|w]; [|discriminate Hok..].
    destruct (server_restarts (B := btc_model) good_driver (fun _ => empty_file) sample_account user_config [] n0 s0 s
      good_driver sample_account [] n' sim H0 Hrun) as (s1 & Hs1 & Ht & _ & _ & _ & _ & (Hq & _) & Hcs).
    + by repeat split.
    + exact Hsim.
    + exists s0, s, s1. split; [exact Hrun|]. split; [exact Hs|]. split; [exact (f_equal fst Hs1)|].
      split; [exact Ht|]. split; [exact Hq|exact (f_equal LastChecked Hcs)].
Defined.
