(* ===== verification/EndToEnd.v ===== *)
(** * EndToEnd: a deposit from the user's tool to the mint.

    The components meet here: the tool that sends the deposit ([BtcUser]), the monitor that finds it
    ([BtcSync]), the state that records it ([State]) and the manager that submits its mint
    ([ChainTxMgr]). The proof only composes what is shown of each. *)
From S2P Require Export BtcUser BtcSync ChainTxMgrDue.
From S2P Require State.

Section deposit_to_mint.
Context `{BL : BtcLibLaws, EL : EthLibLaws, RL : RlpLaws, GL : GobLaws} `{K : @BtcKeyLib B}.
(** the node of the user, the node of the monitor, and the parts of the manager *)
Context {NU : Type} `{UL : @BtcUserLaws B NU BU}.
Context {NM A : Type} `{NL : @BtcNodeLaws B NM BN, SL : RedeemStorageLaws A}.
Context {D W V S : Type} `{DL : ChainTxMgrDBLaws D} `{WL : MgrWorkerLaws W}
  `{UR : BtcUTXOResponder V} `{SG : SchnorrAsyncSigner S}.
Abbreviation Mgr := (ChainTxMgr D (logged W) V S).
Variables IsPayToPubKeyHash IsPayToWitnessPubKeyHash : bytes -> bool.

(** the mint of a deposit, as the manager submits it *)
Definition mint_for (tx : MsgTx) (evm : string) (amount : Z) : MintParameter :=
  {| mp_BtcTxId := rev (TxHash tx); mp_Receiver := HexToAddress evm; mp_Amount := amount |}.
(** the transaction is in a block that the next scan of [m] covers, and no transaction stops the scan *)
Definition in_window (m : BTCMonitor NM A) (tx : MsgTx) : Prop :=
  exists h b, chain (RpcClient m) !! h = Some b /\ tx ∈ Transactions b /\
    Z.of_nat h < tip (RpcClient m) /\ tip (RpcClient (run Scan m)) <= Z.of_nat h + 36 /\
    node_up (RpcClient m) /\ 0 <= LastVistedBlockHeight m < tip (RpcClient m) /\ 36 <= tip (RpcClient m) /\
    Forall (fun b => Forall (safe m) (Transactions b)) (chain (RpcClient (run Scan m))).
(** the state has no mint of the transaction yet *)
Definition fresh_for (tx : MsgTx) (st : State) : Prop :=
  db_fault (State.statedb st) = no_faults /\ StateDB_inv (State.statedb st) /\ TxHash tx <> zeros 32 /\
  mint_at (State.statedb st) (rev (TxHash tx)) = None.

(** among all the submissions the chain accepted, [mp] is the one for its deposit *)
Definition minted_once (mp : MintParameter) (g : Mgr) : Prop :=
  filter (fun x => mp_BtcTxId x = mp_BtcTxId mp) (mint_log (chainWorker g)) = [mp].
(** it is so now and after every further tick of the process *)
Definition minted_for_good (mp : MintParameter) (g : Mgr) : Prop :=
  minted_once mp g /\ forall l, Forall (fun p => StateDB_inv p.1) l -> minted_once mp (ticks l g).2.
Lemma minted_good mp (g : Mgr) : tracked g -> mp ∈ mint_log (chainWorker g) -> minted_for_good mp g.
Proof.
  intros Ht Hin. split; [apply (filter_unique mp_BtcTxId); [apply (tracked_once _ Ht)|done]|]. intros l Hl.
  pose proof (ticks_tracked l g Hl Ht) as H. pose proof (ticks_log l g) as [k Hk]. destruct (ticks l g) as [alive g'].
  cbn [snd] in *. destruct H as [[H _] _]. apply (filter_unique mp_BtcTxId); [exact H|]. rewrite Hk. apply elem_of_app. by left.
Qed.
Lemma deposit_due d (st : State) tx evm amount (g : Mgr) :
  handled_deposit d st (rev (TxHash tx)) (HexToAddress evm) amount ->
  ChainTxMgr.statedb g = State.statedb (run (BTC2EVMObserver_handle d) st) ->
  tracked g -> rev (TxHash tx) ∉ refs g -> accepts (m_BtcTxId <$> due g) ->
  exists g', procedureMint g = (Ok tt, g') /\ minted_for_good (mint_for tx evm amount) g'.
Proof.
  intros (Hq & Hinv & Hf) Hdb Ht Hr Hacc.
  destruct (due_submitted g) as (g' & H1 & _ & _ & H2 & _); [by rewrite Hdb|by rewrite Hdb|done|done|].
  exists g'. split; [done|]. pose proof (procedureMint_tracked g ltac:(by rewrite Hdb) Ht) as Ht'. rewrite H1 in Ht'.
  apply minted_good; [exact Ht'|]. rewrite H2. apply elem_of_app. right.
  set (row := {| m_BtcTxId := rev (TxHash tx); m_MintTxHash := zeros 32; m_Receiver := HexToAddress evm; m_Amount := Some amount |}) in *.
  change (mint_for tx evm amount) with (submission_of row). apply list_elem_of_fmap_2.
  unfold due. apply list_elem_of_filter. split; [done|]. rewrite Hdb.
  unfold result in Hq. rewrite GetUnMinted_eq in Hq by done. cbn [fst] in Hq.
  apply (f_equal (fun o => match o with Ok l => l | _ => [] end)) in Hq. cbv beta iota in Hq. unfold unminted. rewrite Hq.
  apply elem_of_app. right. by apply list_elem_of_singleton.
Qed.

(** C1: a deposit ends as exactly one mint, across the components. When the user's tool returns an
    identifier, it has sent one transaction of that identifier; once that transaction is in a block that a
    scan of the monitor covers, and no transaction of the chain stops the scan, every observer of
    deposits is sent a deposit that, handled by the observer that writes the shared state, the token chain
    manager submits in its next procedure on a chain that accepts (every call succeeds and the ledger
    number of a submission is known): the mint of this transaction, to the receiver and of the amount the
    user gave. It is the only submission for this deposit that the chain accepted, then and after any
    further ticks of the process, whatever the chain answers later. *)
Theorem deposit_is_minted (bu : BtcUser) bridge evm change_scr scr id amount fee (s s' : NU) txid (m : BTCMonitor NM A) :
  bm_ChainConfig m = asm_ChainConfig bu ->
  DecodeAddress bridge (bm_ChainConfig m) = Ok (BridgeBTCAddress m) ->
  pay_script (asm_ChainConfig bu) bridge = Ok scr ->
  pay_script (asm_ChainConfig bu) (BtcCoreAccountAddr (MyUserConfig bu)) = Ok change_scr ->
  0 < amount /\ 0 <= fee /\ amount + fee < 2 ^ 63 /\ 0 <= id < 2 ^ 32 ->
  HexToAddress evm <> zeros 20 ->
  wallet_up s ->
  total_in (funds IsPayToPubKeyHash IsPayToWitnessPubKeyHash (view s) (P2PKH (MyLegacySigner bu))) < 2 ^ 63 ->
  DepositToBridge IsPayToPubKeyHash IsPayToWitnessPubKeyHash bu amount fee bridge evm id s = (Ok txid, s') ->
  exists tx, txid = HashStr (TxHash tx) /\ w_sent (view s') = w_sent (view s) ++ [tx] /\
    (in_window m tx ->
     result Scan m = Ok tt /\
     Forall (fun c => exists d, d ∈ chan_all c /\
       forall st (g : Mgr), fresh_for tx st ->
         ChainTxMgr.statedb g = State.statedb (run (BTC2EVMObserver_handle d) st) ->
         tracked g -> rev (TxHash tx) ∉ refs g -> accepts (m_BtcTxId <$> due g) ->
         exists g', procedureMint g = (Ok tt, g') /\ minted_for_good (mint_for tx evm amount) g')
       (DepositObservers (Publisher (run Scan m)))).
Proof.
  intros Hcfg Hbr Hpay Hch Ham Hz Hs Ht Hrun. rewrite Hcfg in Hbr.
  destruct (deposit_sent IsPayToPubKeyHash IsPayToWitnessPubKeyHash bu bridge evm (BridgeBTCAddress m) scr change_scr id
    amount fee Hbr Hpay Hch Ham s s' txid Hs Ht Hrun) as (tx & Hid & Hsent & Hmay & Hread).
  exists tx. split; [done|]. split; [done|]. intros (h & b & Hb & Htx & Hh & Htip & Hup & Hlast & Hlong & Hsafe).
  destruct (deposit_scanned m amount evm tx h b) as [H1 H2]; try done; [by rewrite Hcfg| |lia|].
  { intros height block. rewrite Hcfg. destruct (Hread height block) as (d & ? & ? & _ & ? & ?). by exists d. }
  split; [done|]. eapply Forall_impl; [exact H2|]. intros c (d & Hd & Hst). exists d. split; [done|].
  intros st g (Hf & Hinv & Hnz & Hnew) Hdb. eapply deposit_due; [|done]. by apply Hst.
Qed.
End deposit_to_mint.

(** ** A concrete run *)
Definition tool_state : toy_account := run sample_tool_run sample_account.
Definition tool_txid : string := match result sample_tool_run sample_account with Ok t => t | _ => ""%string end.
Definition tool_tx : MsgTx := default NewMsgTx (head (acc_sent tool_state)).
Lemma tool_ran : sample_tool_run sample_account = (Ok tool_txid, tool_state).
Proof.
  assert (is_ok (result sample_tool_run sample_account) = true) as Hok by (vm_compute; reflexivity).
  unfold tool_txid, tool_state, run, result in *. destruct (sample_tool_run sample_account) as [[t|e|w] s']; done.
Qed.
Definition tool_monitor := toy_monitor 39 (toy_blocks 42 40 [tool_tx]).
Lemma tool_monitor_up : node_up (RpcClient tool_monitor).
Proof. split; [apply NoDup_eval; vm_compute; reflexivity|vm_compute; reflexivity]. Qed.
Lemma tool_tx_safe : safe tool_monitor tool_tx.
Proof.
  destruct (deposit_sent (B := btc_model) no_script no_script sample_user "bridge"
    "0x00000000000000000000000000000000000000ab" "bridge"%string (byte_of_Z 118 :: bytes_of_string "bridge")
    (byte_of_Z 118 :: bytes_of_string "user") 11155111 50000 10000 eq_refl eq_refl eq_refl
    ltac:(split_and!; lia) sample_account tool_state tool_txid) as (tx & _ & Hsent & _ & Hread);
    [vm_compute; reflexivity|vm_compute; reflexivity|exact tool_ran|].
  assert (tool_tx = tx) as ->.
  { unfold tool_tx. change (acc_sent tool_state) with (w_sent (view tool_state)). by rewrite Hsent. }
  intros h b w _. destruct (Hread h b) as (d & Hd & _).
  change (CraftDepositAction tx h b "bridge"%string (asm_ChainConfig sample_user) <> Panic w). by rewrite Hd.
Qed.
(** the manager after the deposit [d] *)
Definition tool_mgr (d : DepositAction) : ChainTxMgr SQLiteChainTxMgrDB (logged ChainTxMgr.toy_chain) unit unit := {|
  cfg := {| TimeoutTxLedgerNumber := 50 |};
  statedb := State.statedb (run (BTC2EVMObserver_handle d) fresh_state); mgrdb := sample_txdb;
  chainWorker := toy_logged; btcUTXOResponder := tt; schnorrParty := tt |}.
Lemma tool_tracked d : tracked (tool_mgr d).
Proof.
  unfold tracked. split_and!; [exact sample_txdb_ok|..]; try constructor;
    cbn; intros x Hx; by apply not_elem_of_nil in Hx.
Qed.
Lemma tool_untracked d id : id ∉ refs (tool_mgr d).
Proof. apply not_elem_of_nil. Qed.
Lemma deposit_is_minted_witness :
  tool_txid = HashStr (TxHash tool_tx) /\ result Scan tool_monitor = Ok tt /\
  Forall (fun c => exists d, d ∈ chan_all c /\ exists g', procedureMint (tool_mgr d) = (Ok tt, g') /\
      minted_for_good (mint_for tool_tx "0x00000000000000000000000000000000000000ab" 50000) g')
    (DepositObservers (Publisher (run Scan tool_monitor))).
Proof.
  destruct (deposit_is_minted (B := btc_model) (NM := toy_node) (A := SQLiteRedeemStorage) (D := SQLiteChainTxMgrDB)
    (W := ChainTxMgr.toy_chain) (V := unit) (S := unit) no_script no_script sample_user "bridge"
    "0x00000000000000000000000000000000000000ab" (byte_of_Z 118 :: bytes_of_string "user")
    (byte_of_Z 118 :: bytes_of_string "bridge") 11155111 50000 10000 sample_account tool_state tool_txid tool_monitor)
    as (tx & Hid & Hsent & H);
    [reflexivity|reflexivity|reflexivity|reflexivity|split_and!; lia|vm_compute; discriminate
    |vm_compute; reflexivity|vm_compute; reflexivity|exact tool_ran|].
  assert (tool_tx = tx) as <-.
  { unfold tool_tx. change (acc_sent tool_state) with (w_sent (view tool_state)). rewrite Hsent. reflexivity. }
  assert (chain (RpcClient (run Scan tool_monitor)) = BtcRpc.toy_chain (toy_blocks 42 40 [tool_tx])) as Hc
    by (vm_compute; reflexivity).
  destruct H as [H1 H2].
  { exists 40%nat, {| Header := [byte_of_Z 40]; Transactions := [tool_tx] |}.
    split_and!; [vm_compute; reflexivity|by left|vm_compute; reflexivity|unfold tip; rewrite Hc; vm_compute; discriminate
      |exact tool_monitor_up|done|vm_compute; reflexivity|vm_compute; discriminate|].
    rewrite Hc. apply blocks_safe. constructor; [exact tool_tx_safe|constructor]. }
  split; [exact Hid|]. split; [exact H1|]. eapply Forall_impl; [exact H2|]. intros c (d & Hd & Hg). exists d. split; [exact Hd|].
  apply (Hg fresh_state (tool_mgr d)); [|reflexivity|apply tool_tracked|apply tool_untracked|apply toy_accepts].
  split_and!; [reflexivity|exact sample_db_inv|vm_compute; discriminate|vm_compute; reflexivity].
Defined.
