(* ===== verification/RedeemFlow.v ===== *)
(** * RedeemFlow: a redeem from the request on the token chain to its payment on Bitcoin.

    The counterpart of [EndToEnd]: the event of the request is handled by the state ([State]), the
    manager of the token chain prepares the redeem with outpoints that the vault locks for it
    ([ChainTxMgr], [Vault]), the event of the preparation is handled by the state, and the manager of
    the payments builds the transaction that spends exactly these outpoints ([BtcTxManager]). *)
From S2P Require Export ChainTxMgrDue BtcTxManager.

Section redeem_to_payment.
Context `{BL : BtcLibLaws, EL : EthLibLaws, GL : GobLaws}.
Context {D W S : Type} `{DL : ChainTxMgrDBLaws D} `{WL : MgrWorkerLaws W} `{SG : SchnorrAsyncSigner S}.
Context {V N A : Type} `{VL : VaultStorageLaws V, BN : @BtcNode B N, RS : RedeemActionStorage A}.
(** the clock of the vault, which is the manager's source of outpoints *)
Variable now : nat -> Z.
#[local] Instance vault_responder : BtcUTXOResponder V := Vault.Request now.
Abbreviation Mgr := (ChainTxMgr D (logged W) V S).
Implicit Types (g : Mgr) (rq : RedeemRequestedEvent) (pr : RedeemPreparedEvent) (st : State).

(** a request of [a] satoshi that the contract accepts, with a receiver that can be packed *)
Definition requestable rq (a : Z) : Prop :=
  length (rr_RequestTxHash rq) = 32%nat /\ rr_RequestTxHash rq <> zeros 32 /\ rr_Requester rq <> zeros 20 /\
  rr_Amount rq = Some a /\ 0 < a < 2 ^ 63 - SAFE_MARGIN /\ rr_IsValidReceiver rq = true /\
  is_ok (encodeString (rr_Receiver rq)) = true.
Definition fresh_request rq st : Prop :=
  db_fault (statedb st) = no_faults /\ StateDB_inv (statedb st) /\ redeem_at (statedb st) (rr_RequestTxHash rq) = None.
(** the vault can serve it: enough usable outputs, none of them linked to the request *)
Definition can_fund (v : V) rq (a : Z) : Prop :=
  healthy v /\ amounts_ok v /\ Forall utxo_wf (rows v) /\
  (forall u, u ∈ rows v -> LinkedId u <> ByteSliceToPureHexStr (rr_RequestTxHash rq)) /\
  a + SAFE_MARGIN <= sum_amounts (filter usable (rows v)).
(** the event the chain emits for a preparation *)
Definition reports pr (pp : PrepareParameter) : Prop :=
  rp_RequestTxHash pr = pp_RequestTxHash pp /\ rp_Requester pr = pp_Requester pp /\
  rp_Receiver pr = pp_Receiver pp /\ rp_Amount pr = Some (pp_Amount pp) /\
  rp_OutpointTxIds pr = pp_OutpointTxIds pp /\ rp_OutpointIdxs pr = pp_OutpointIdxs pp /\
  length (rp_PrepareTxHash pr) = 32%nat /\ prepared_event_ok pr.

(** the vault has [o] locked for the request *)
Definition reserved (v : V) rq (o : BtcOutpoint) : Prop :=
  exists u, u ∈ rows v /\ outpoint_of u = o /\ Lockup u = true /\ LinkedId u = ByteSliceToPureHexStr (rr_RequestTxHash rq).

(** ** The request is stored, and the vault serves it *)
Lemma request_stored rq a st : requestable rq a -> fresh_request rq st ->
  handleRedeemRequestEvent rq st = (Ok tt, st_with st (requested_row (request_redeem rq a) a)) /\
  StateDB_inv (statedb (st_with st (requested_row (request_redeem rq a) a))).
Proof.
  intros (Hl & Hz & Hrq & Ha & Hr & Hv & _) (Hf & Hinv & Hnew). unfold SAFE_MARGIN in Hr.
  assert (InsertAfterRequested (request_redeem rq a) (statedb st) =
    (Ok tt, set_redeems (redeem_table (statedb st) ++ [requested_row (request_redeem rq a) a]) (statedb st))) as He.
  { rewrite (InsertAfterRequested_eq _ _ a); [|done|done|lia]. unfold insert_or_ignore_redeem.
    rewrite redeemTable_snoc; [|by apply Hinv|done|done].
    rewrite (proj2 (requested_row_check (request_redeem rq a) a Hl)).
    - rewrite bool_decide_eq_true_2; [done|]. by apply find_row_None in Hnew.
    - split_and!; try done; [|lia]. unfold status_known. set_solver. }
  split.
  - unfold handleRedeemRequestEvent. rewrite bind_eq, with_err_eq, on_db_eq, (has_redeem_no_faults st) by done.
    rewrite Hnew, set_statedb_same. cbn [map_err fmap option_fmap option_map].
    unfold createRedeemFromRequestedEvent. rewrite (proj2 (is_zero_hash_false _) Hz), Ha, Hv.
    replace (a <=? 0) with false by lia. cbn [map_err]. mstep. rewrite with_err_eq, on_db_eq.
    change (InsertAfterRequested _) with (InsertAfterRequested (request_redeem rq a)). by rewrite He.
  - assert (Redeem_typed (request_redeem rq a)) as Hty by by split_and!.
    pose proof (keeps_InsertAfterRequested _ Hty _ Hinv) as Hk. unfold run in Hk. by rewrite He in Hk.
Qed.
Lemma vault_serves rq a (v : V) : requestable rq a -> can_fund v rq a ->
  exists ops v', Vault.Request now (rr_RequestTxHash rq) (Some a) v = (Ok ops, v') /\ ops <> [] /\
    Forall BtcOutpoint_wf ops /\ Forall (reserved v' rq) ops.
Proof.
  intros (_ & _ & _ & _ & Ha & _) (Hh & Hok & _ & Hlink & Hsum). unfold SAFE_MARGIN in *.
  assert (exists ops v', Vault.Request now (rr_RequestTxHash rq) (Some a) v = (Ok ops, v')) as (ops & v' & He).
  { rewrite Request_eq by (unfold SAFE_MARGIN; done || lia). unfold SAFE_MARGIN.
    pose proof (ChooseAndLock_cases v now (a + 10000) (ByteSliceToPureHexStr (rr_RequestTxHash rq)) Hh Hok ltac:(lia)) as Hc.
    destruct (ChooseAndLock _ _ _ v) as [[l|e|x] v1]; [by eexists _, _|exfalso|done].
    destruct Hc as [_ [(u & Hu & Hul)|Hlt]]; [by apply (Hlink u Hu)|lia]. }
  exists ops, v'. split; [done|]. destruct (Request_cases v now _ a ops v' Hh Hok ltac:(lia) ltac:(unfold SAFE_MARGIN; lia) He)
    as (l & -> & _ & _ & Hcov & _ & Hlock). split_and!.
  - intros Hn%fmap_nil_inv. subst l. cbn in Hcov. unfold SAFE_MARGIN in Hcov. lia.
  - apply Forall_fmap, Forall_forall. intros u _. apply outpoint_of_wf.
  - apply Forall_fmap, Forall_forall. intros u Hu. destruct (Hlock u Hu) as (w & Hw & [= Hk1 Hk2] & _ & Hid & Hlk).
    exists w. split_and!; [done| |done|done]. unfold outpoint_of. by rewrite Hk1, Hk2.
Qed.

(** ** The manager prepares it *)
Lemma with_status_snoc status d row r :
  StateDB_inv d -> StateDB_inv (set_redeems (redeem_table d ++ [row]) d) -> db_fault d = no_faults ->
  read_redeem row = Ok r -> row_status row = status ->
  with_status status (set_redeems (redeem_table d ++ [row]) d) = with_status status d ++ [r].
Proof.
  intros Hd Hd' Hf Hr Hs. destruct (with_status_eq status d Hd Hf) as (_ & H1 & _).
  destruct (with_status_eq status _ Hd' Hf) as (_ & H2 & _). cbn [set_redeems redeem_table] in H2.
  rewrite filter_app, filter_cons_True in H2 by done. apply Forall2_app_inv_l in H2 as (l1 & l2 & H2 & H3 & ->).
  f_equal.
  - clear -H1 H2. revert H2. generalize l1. induction H1 as [|row x t l Hx _ IH]; intros k Hk; inversion Hk; subst; [done|].
    f_equal; [congruence|by apply IH].
  - inversion H3 as [|? ? ? ? Hx Hn]; subst. inversion Hn; subst. congruence.
Qed.
(** every redeem requested before has been submitted already *)
Definition others_tracked g st : Prop := Forall (fun r => RequestTxHash r ∈ refs g) (waiting (statedb st)).
Lemma request_due rq a st g : requestable rq a -> fresh_request rq st ->
  ChainTxMgr.statedb g = statedb (run (handleRedeemRequestEvent rq) st) ->
  rr_RequestTxHash rq ∉ refs g -> others_tracked g st -> due_redeems g = [request_redeem rq a].
Proof.
  intros Hrq Hfr Hdb Hnew Hold. destruct (request_stored rq a st Hrq Hfr) as [He Hinv'].
  unfold run in Hdb. rewrite He in Hdb. cbn [snd] in Hdb. destruct Hrq as (Hl & _ & _ & Ha & _). destruct Hfr as (Hf & Hinv & _).
  unfold due_redeems. rewrite Hdb. unfold waiting. cbn [st_with set_statedb statedb] in Hinv' |- *.
  rewrite (with_status_snoc _ _ _ (request_redeem rq a)); [|done|done|done| |done].
  2: by apply (read_requested_row (request_redeem rq a) a).
  rewrite filter_app, (filter_none_of _ (with_status _ _)).
  - rewrite filter_cons_True by done. done.
  - intros r Hr Hn. apply Hn. exact (proj1 (Forall_forall _ _) Hold r Hr).
Qed.
Lemma request_prepared rq a st g done_ : requestable rq a -> fresh_request rq st ->
  ChainTxMgr.statedb g = statedb (run (handleRedeemRequestEvent rq) st) ->
  tracked g -> rr_RequestTxHash rq ∉ refs g -> others_tracked g st ->
  can_fund (btcUTXOResponder g) rq a -> done_ (rr_RequestTxHash rq) = false -> accepts_redeems [rr_RequestTxHash rq] ->
  exists g' ops, procedurePrepare done_ g = (Ok tt, g') /\
    Vault.Request now (rr_RequestTxHash rq) (Some a) (btcUTXOResponder g) = (Ok ops, btcUTXOResponder g') /\
    Forall BtcOutpoint_wf ops /\ Forall (reserved (btcUTXOResponder g') rq) ops /\
    prepare_log (chainWorker g') = prepare_log (chainWorker g) ++ [preparation_of (request_redeem rq a) ops].
Proof.
  intros Hrq Hfr Hdb Ht Hnew Hold Hv Hd Hacc. pose proof (request_due rq a st g Hrq Hfr Hdb Hnew Hold) as Hdue.
  destruct (vault_serves rq a _ Hrq Hv) as (ops & v' & Hreq & Hne & Hwf & Hres).
  destruct (request_stored rq a st Hrq Hfr) as [He Hinv']. unfold run in Hdb. rewrite He in Hdb. cbn [snd] in Hdb.
  destruct (due_prepared done_ [ops] v' g) as (g' & H1 & _ & Hv' & _ & H2 & _).
  - by rewrite Hdb.
  - rewrite Hdb. by destruct Hfr.
  - done.
  - rewrite Hdue. apply Forall_singleton. split; [|done]. by apply Hrq.
  - rewrite Hdue. by exists v'.
  - by rewrite Hdue.
  - exists g', ops. rewrite Hv'. split_and!; [done|done|done|done|]. rewrite H2, Hdue. done.
Qed.

(** ** The event of the preparation *)
Lemma zip_outpoints (ops : list BtcOutpoint) : zip_with Build_BtcOutpoint (BtcTxId <$> ops) (BtcIdx <$> ops) = ops.
Proof. induction ops as [|[h i] ops IH]; [done|]. rewrite !fmap_cons. cbn [zip_with]. by rewrite IH. Qed.
Lemma preparation_listed rq a st pr ops : requestable rq a -> fresh_request rq st -> Forall BtcOutpoint_wf ops ->
  reports pr (preparation_of (request_redeem rq a) ops) ->
  hex_encode (rp_PrepareTxHash pr) ∉ omap row_prepareTxHash (redeem_table (statedb st)) ->
  let st2 := run (handlePreparedEvent pr) (run (handleRedeemRequestEvent rq) st) in
  let r := prepared (request_redeem rq a) pr in
  GetRedeemsByStatus RedeemStatusPrepared (statedb st2) = (Ok (with_status RedeemStatusPrepared (statedb st2)), statedb st2) /\
  r ∈ with_status RedeemStatusPrepared (statedb st2) /\ Outpoints r = Some ops.
Proof.
  intros Hrq Hfr Hops (E1 & E2 & E3 & E4 & E5 & E6 & Hpl & Hok) Hfresh.
  destruct (request_stored rq a st Hrq Hfr) as [He Hinv']. pose proof Hfr as (Hf & Hinv & Hnew).
  assert (matching_events rq pr a) as Hev.
  { destruct Hrq as (? & ? & ? & ? & ? & ? & _). unfold matching_events, SAFE_MARGIN in *. cbn in *. split_and!; try done; lia. }
  intros st2 r. assert (st2 = st_with st (prepared_row rq pr a)) as ->.
  { unfold st2, run. rewrite He. cbn [snd]. by rewrite (prepare_second st rq pr a Hev (proj1 Hinv) Hf Hnew Hfresh). }
  set (st2 := st_with st (prepared_row rq pr a)).
  assert (Outpoints r = Some ops) as Hout.
  { subst r. unfold prepared. cbn [Outpoints]. rewrite E5, E6. cbn. by rewrite zip_outpoints. }
  pose proof Hinv as (Ht & Hm & Hw & Hmw & Hkv).
  assert (StateDB_inv (statedb st2)) as Hinv2.
  { split; [by apply (prepared_row_ok st rq pr a Hev)|]. split; [done|]. split; [|done].
    apply Forall_app. split; [done|]. apply Forall_singleton. destruct Hrq as (Hl & _ & _ & _ & Ha & _). unfold SAFE_MARGIN in Ha.
    split; [by exists (rr_RequestTxHash rq)|]. split; [intros s [= <-]; by exists (rp_PrepareTxHash pr)|].
    split; [done|]. split; [by eexists|]. split; [cbn; lia|].
    intros b [= <-]. eexists. split; [|done]. rewrite E5, E6. cbn. by rewrite zip_outpoints. }
  split; [by apply with_status_eq|]. split; [|done].
  unfold st2. cbn [st_with set_statedb statedb].
  rewrite (with_status_snoc RedeemStatusPrepared (statedb st) _ r); [|done|exact Hinv2|done| |done].
  - apply elem_of_app. right. by apply list_elem_of_singleton.
  - unfold read_redeem, sqlRedeem_decode, scan_redeem. cbn [s_Outpoints prepared_row row_outpoints].
    rewrite E5, E6. cbn [preparation_of pp_OutpointTxIds pp_OutpointIdxs ConvertOutpoints fst snd]. rewrite zip_outpoints.
    assert (ops <> []) as Hne by (destruct Hok as (_ & Hne & _); rewrite E5 in Hne; by destruct ops).
    pose proof (DecodeOutpoints_nonempty ops Hne Hops) as Ho.
    cbn [s_RequestTxHash s_PrepareTxHash s_BtcTxId s_Requester s_Receiver s_Amount s_Outpoints s_Status prepared_row
      row_requestTxHash row_prepareTxHash row_btcTxId row_requester row_receiver row_amount row_status from_option id].
    rewrite Ho. cbn [mbind outcome_bind].
    rewrite !HexStrToBytes32_0x, HexStrToBytes32_empty, HexStrToByteSlice_hex by (done || apply Hrq).
    subst r. unfold prepared, request_redeem. cbn. rewrite E5, E6. cbn. by rewrite zip_outpoints.
Qed.

(** C2: a redeem goes from its request to its payment, across the components. The state stores the request;
    the next procedure of the token chain manager, on a chain that accepts (every call succeeds and the
    ledger number of a submission is known) and with a vault that can fund it, asks the vault, which
    locks outpoints for the request, and submits one preparation with its hash, requester, receiver and
    amount and exactly these outpoints. When the event of this preparation is handled, the manager of
    payments finds the redeem among the prepared ones and builds a transaction that pays the amount to the
    receiver and spends exactly the outputs on Bitcoin that these outpoints name, inputs = outputs + fee;
    only the wallet's signing can still fail. *)
Theorem redeem_is_funded rq a st g done_ :
  requestable rq a -> fresh_request rq st ->
  let st1 := run (handleRedeemRequestEvent rq) st in
  ChainTxMgr.statedb g = statedb st1 ->
  tracked g -> rr_RequestTxHash rq ∉ refs g -> others_tracked g st ->
  can_fund (btcUTXOResponder g) rq a -> done_ (rr_RequestTxHash rq) = false -> accepts_redeems [rr_RequestTxHash rq] ->
  exists g' ops pp, procedurePrepare done_ g = (Ok tt, g') /\
    Vault.Request now (rr_RequestTxHash rq) (Some a) (btcUTXOResponder g) = (Ok ops, btcUTXOResponder g') /\
    Forall (reserved (btcUTXOResponder g') rq) ops /\
    prepare_log (chainWorker g') = prepare_log (chainWorker g) ++ [pp] /\
    pp_RequestTxHash pp = rr_RequestTxHash rq /\ pp_Requester pp = rr_Requester rq /\
    pp_Receiver pp = rr_Receiver rq /\ pp_Amount pp = a /\
    pp_OutpointTxIds pp = BtcTxId <$> ops /\ pp_OutpointIdxs pp = BtcIdx <$> ops /\
    forall pr (m : BtcTxManager V N A) dst_scr chg_scr, reports pr pp ->
      hex_encode (rp_PrepareTxHash pr) ∉ omap row_prepareTxHash (redeem_table (statedb st)) ->
      sharedState m = run (handlePreparedEvent pr) st1 ->
      healthy (treasureVault m) -> holds (treasureVault m) (rows (btcUTXOResponder g')) ->
      pay_script (ChainConfig (native (legacySigner m))) (Remove0xPrefix (rr_Receiver rq)) = Ok dst_scr ->
      pay_script (ChainConfig (native (legacySigner m))) (EncodeAddress (P2PKH (legacySigner m))) = Ok chg_scr ->
      exists redeems r prev outs, FindRedeemsFromState m = (Ok redeems, m) /\ r ∈ redeems /\
        RequestTxHash r = rr_RequestTxHash rq /\
        CreateBTCRedeemTx r m =
          on_wallet (Unlock {| tx_in := []; tx_out := {| Value := a; to_PkScript := dst_scr |} :: outs |} prev) m /\
        total_in prev = a + total_out outs + BTC_TX_FEE /\
        outpoint_of_utxo <$> prev = Some ∘ btc_outpoint <$> ops.
Proof.
  intros Hrq Hfr st1 Hdb Ht Hnew Hold Hv Hd Hacc.
  destruct (request_prepared rq a st g done_ Hrq Hfr Hdb Ht Hnew Hold Hv Hd Hacc) as (g' & ops & H1 & Hreq & Hwf & Hres & H2).
  exists g', ops, (preparation_of (request_redeem rq a) ops). split_and!; try done.
  intros pr m dst_scr chg_scr Hrep Hfresh Hst Hh Hh' Hdst Hchg.
  destruct (preparation_listed rq a st pr ops Hrq Hfr Hwf Hrep Hfresh) as (Hg & Hin & Hout). fold st1 in Hg, Hin.
  destruct Hrq as (_ & _ & _ & _ & Ha & _). unfold SAFE_MARGIN in Ha. destruct Hv as (Hvh & Hvok & Hvwf & _).
  pose proof Hrep as (_ & _ & Hrcv & _).
  destruct (allocation_funds (btcUTXOResponder g) (btcUTXOResponder g') now (rr_RequestTxHash rq) a ops m
    (prepared (request_redeem rq a) pr) dst_scr chg_scr) as (prev & outs & Hc & Hsum & Hops);
    [done|done|done|lia|unfold SAFE_MARGIN; lia|done..|].
  eexists _, _, prev, outs. split; [|split; [exact Hin|]].
  - unfold FindRedeemsFromState, GetPreparedRedeems, on_state, on_db, zoom. rewrite Hst, Hg.
    rewrite set_statedb_same, <-Hst. by destruct m.
  - by split_and!.
Qed.
End redeem_to_payment.

(** ** A concrete redeem *)
Definition clock : nat -> Z := fun _ => 1000.
Definition flow_mgr : ChainTxMgr SQLiteChainTxMgrDB (logged ChainTxMgr.toy_chain) VaultSQLiteStorage unit := {|
  ChainTxMgr.cfg := {| TimeoutTxLedgerNumber := 50 |};
  ChainTxMgr.statedb := statedb (run (handleRedeemRequestEvent sample_request) sample_state);
  mgrdb := sample_txdb; chainWorker := toy_logged; btcUTXOResponder := rich_vault; schnorrParty := tt |}.
Definition flow_prepared := run (procedurePrepare (UR := vault_responder clock) (fun _ => false)) flow_mgr.
Definition flow_parameter : PrepareParameter :=
  preparation_of (request_redeem sample_request 100) served_ops.
Lemma flow_can_fund : can_fund rich_vault sample_request 100.
Proof.
  split; [exact rich_vault_healthy|]. split; [split; [repeat constructor; cbn; lia|vm_compute; done]|].
  split; [exact rich_vault_wf|]. split; [|vm_compute; done].
  apply (Forall_forall (fun u => LinkedId u <> _)). repeat constructor; vm_compute; done.
Qed.
Lemma flow_tracked : tracked flow_mgr.
Proof.
  unfold tracked. split_and!; [exact sample_txdb_ok|..]; try constructor; intros x Hx; by apply not_elem_of_nil in Hx.
Qed.
Definition is_hex_32 (s : string) : bool :=
  (length (hex_decode s).1 =? 32)%nat && String.eqb (hex_encode (hex_decode s).1) s.
Lemma hex_of_decode s : is_hex_32 s = true -> hex_of 32 s.
Proof.
  unfold is_hex_32. intros [H1%Nat.eqb_eq H2%String.eqb_eq]%andb_true_iff. by exists (hex_decode s).1.
Qed.
Lemma kv_hex (m : gmap string string) :
  forallb (fun p => is_hex_32 p.2) (map_to_list m) = true -> map_Forall (fun _ v => hex_of 32 v) m.
Proof.
  intros Hb. apply map_Forall_to_list, Forall_forall. intros [k v] Hp. apply hex_of_decode.
  apply (proj1 (forallb_forall _ _) Hb (k, v)). by apply list_elem_of_In.
Qed.
Lemma flow_reports : reports prepared_event flow_parameter.
Proof.
  assert (bool_decide (rp_OutpointTxIds prepared_event <> [] /\
    Forall (fun h => h <> zeros 32) (rp_OutpointTxIds prepared_event)) = true) as [H1 H2]%bool_decide_eq_true
    by (vm_compute; reflexivity).
  unfold reports, prepared_event_ok. split_and!; try exact H1; try exact H2; vm_compute; done.
Qed.
Lemma redeem_is_funded_witness :
  exists g', procedurePrepare (UR := vault_responder clock) (fun _ => false) flow_mgr = (Ok tt, g') /\
    prepare_log (chainWorker g') = [flow_parameter] /\
    exists redeems r prev outs, FindRedeemsFromState sample_manager = (Ok redeems, sample_manager) /\ r ∈ redeems /\
      RequestTxHash r = sample_hash 1 /\
      CreateBTCRedeemTx r sample_manager =
        on_wallet (Unlock {| tx_in := [];
          tx_out := {| Value := 100; to_PkScript := byte_of_Z 118 :: bytes_of_string "bc1q" |} :: outs |} prev) sample_manager /\
      total_in prev = 100 + total_out outs + BTC_TX_FEE /\
      outpoint_of_utxo <$> prev = Some ∘ btc_outpoint <$> served_ops.
Proof.
  destruct (redeem_is_funded (V := VaultSQLiteStorage) (N := sent_log toy_node) (A := SQLiteRedeemStorage) clock
    sample_request 100 sample_state flow_mgr (fun _ => false)) as (g' & ops & pp & H1 & Hreq & _ & H2 & _ & _ & _ & _ & _ & _ & H3).
  - unfold requestable. split_and!; try done.
  - split; [done|]. split; [|done]. split; [reflexivity|]. split; [reflexivity|]. split; [constructor|]. split; [constructor|].
    apply kv_hex. vm_compute. reflexivity.
  - done.
  - exact flow_tracked.
  - apply not_elem_of_nil.
  - constructor.
  - exact flow_can_fund.
  - done.
  - apply toy_accepts_redeems.
  - assert (ops = served_ops) as ->.
    { assert (served = (Ok ops, btcUTXOResponder g')) as Hs by exact Hreq. unfold served_ops. by rewrite Hs. }
    exists g'. split; [exact H1|]. assert (g' = flow_prepared) as ->.
    { unfold flow_prepared, run. by rewrite H1. }
    assert (prepare_log (chainWorker flow_prepared) = [flow_parameter]) as Hlog by (vm_compute; reflexivity).
    rewrite Hlog in H2. assert (pp = flow_parameter) as -> by (by injection H2).
    split; [done|]. destruct (H3 prepared_event sample_manager (byte_of_Z 118 :: bytes_of_string "bc1q")
      (byte_of_Z 118 :: bytes_of_string (EncodeAddress (P2PKH sample_operator)))) as (redeems & r & prev & outs & ? & ? & ? & ? & ? & ?).
    + exact flow_reports.
    + assert (redeem_table (statedb sample_state) = []) as -> by (vm_compute; reflexivity). apply not_elem_of_nil.
    + done.
    + split; [done|]. apply (bool_decide_eq_true_1 _). vm_compute. reflexivity.
    + intros u Hu. exists u. split; [|split; reflexivity].
      assert (rows (btcUTXOResponder flow_prepared) = rows (treasureVault sample_manager)) as <- by (vm_compute; reflexivity). exact Hu.
    + done.
    + done.
    + exists redeems, r, prev, outs. split_and!; done.
Defined.
