(* ===== verification/Custody.v ===== *)
(** * Custody: the bridge's bitcoins, from the vault to the payments.

    The vault gives outpoints to requests ([Vault]), the token chain reports the preparations that carry
    them, the loop of the state stores these ([State]) and the manager of payments spends them
    ([BtcTxManager]). Here they run together, interleaved in any way, against a specification that has
    only a pool of outpoints, what was given to which request and what was paid for which request. *)
From S2P Require Export SyncSystem BtcTxManager.

(** ** The specification *)
Definition outpoint_key : Type := string * Z.
Record bank := {
  pool : list outpoint_key;                          (** the outpoints received *)
  allocated : list (bytes * list outpoint_key);      (** what was given to which request *)
  paid : list (bytes * list outpoint_key) }.         (** what was spent for which request *)
(** An outpoint is received once; a request is given outpoints of the pool once, never ones given
    before; a request is paid once, with all that it was given. *)
Inductive bank_step : bank -> bank -> Prop :=
  | bank_receive b k : k ∉ pool b ->
      bank_step b {| pool := pool b ++ [k]; allocated := allocated b; paid := paid b |}
  | bank_allocate b req ks : req ∉ (allocated b).*1 -> NoDup ks -> (forall k, k ∈ ks -> k ∈ pool b) ->
      (forall k, k ∈ ks -> k ∉ concat (allocated b).*2) ->
      bank_step b {| pool := pool b; allocated := allocated b ++ [(req, ks)]; paid := paid b |}
  | bank_pay b req ks : (req, ks) ∈ allocated b -> req ∉ (paid b).*1 ->
      bank_step b {| pool := pool b; allocated := allocated b; paid := paid b ++ [(req, ks)] |}.
Definition bank_ok (b : bank) : Prop :=
  NoDup (allocated b).*1 /\ NoDup (concat (allocated b).*2) /\ NoDup (paid b).*1 /\
  forall p, p ∈ paid b -> p ∈ allocated b.

Lemma elem_of_concat {A} (l : list (list A)) k : k ∈ concat l <-> exists ks, ks ∈ l /\ k ∈ ks.
Proof. rewrite list_elem_of_In, in_concat. by setoid_rewrite list_elem_of_In. Qed.
Lemma elem_of_concat_snd {A B} (l : list (A * list B)) a ks k : (a, ks) ∈ l -> k ∈ ks -> k ∈ concat l.*2.
Proof.
  intros Hl Hk. apply elem_of_concat. exists ks. split; [|done]. apply list_elem_of_fmap. by exists (a, ks).
Qed.
Lemma bank_step_ok b b' : bank_step b b' -> bank_ok b -> bank_ok b'.
Proof.
  intros [b0 k _|b0 req ks Hr Hn _ Hd|b0 req ks Hin Hr] (H1 & H2 & H3 & H4); unfold bank_ok; cbn.
  - by split_and!.
  - rewrite !fmap_app, concat_app. cbn. rewrite app_nil_r. split_and!; [by apply NoDup_snoc| |done|].
    + apply NoDup_app. split_and!; [done| |done]. intros k Hk1 Hk2. by apply (Hd k).
    + intros p Hp. apply elem_of_app. left. by apply H4.
  - rewrite fmap_app. split_and!; [done|done|by apply NoDup_snoc|].
    intros p [Hp|Hp%list_elem_of_singleton]%elem_of_app; [by apply H4|by subst].
Qed.
Lemma bank_run_ok b b' : rtc bank_step b b' -> bank_ok b -> bank_ok b'.
Proof. induction 1 as [|b b1 b' Hs _ IH]; [done|]. intros Hb. by apply IH, (bank_step_ok b). Qed.

(** Two allocations of different requests share no outpoint, *)
Lemma allocations_disjoint (l : list (bytes * list outpoint_key)) a1 ks1 a2 ks2 k :
  NoDup (concat l.*2) -> (a1, ks1) ∈ l -> (a2, ks2) ∈ l -> a1 <> a2 -> k ∈ ks1 -> k ∉ ks2.
Proof.
  induction l as [|[a ks] l IH]; [intros _ []%not_elem_of_nil|]. cbn. intros (Hn & Hd & Hl)%NoDup_app H1 H2 Ha Hk1 Hk2.
  apply elem_of_cons in H1 as [[= -> ->]|H1], H2 as [[= -> ->]|H2]; [done|..].
  - apply (Hd k); [done|]. by eapply elem_of_concat_snd.
  - apply (Hd k); [done|]. by eapply elem_of_concat_snd.
  - by apply IH.
Qed.
Lemma allocation_NoDup (l : list (bytes * list outpoint_key)) a ks :
  NoDup (concat l.*2) -> (a, ks) ∈ l -> NoDup ks.
Proof.
  induction l as [|[a' ks'] l IH]; [intros _ []%not_elem_of_nil|]. cbn. intros (Hn & _ & Hl)%NoDup_app H.
  apply elem_of_cons in H as [[= -> ->]|H]; [done|]. by apply IH.
Qed.
(** and so no outpoint is spent twice. *)
Lemma bank_no_double_spend b : bank_ok b -> NoDup (concat (paid b).*2).
Proof.
  intros (_ & Ha & Hp & Hin). revert Hp Hin. induction (paid b) as [|[a ks] l IH]; [constructor|]. cbn.
  intros [Hn Hl]%NoDup_cons Hin. apply NoDup_app. split_and!.
  - eapply allocation_NoDup; [exact Ha|]. apply (Hin (a, ks)). by left.
  - intros k Hk (ks' & ([a' ks2] & -> & Hp)%list_elem_of_fmap & Hks')%elem_of_concat.
    revert Hks'. apply (allocations_disjoint (allocated b) a ks a' ks2); try done; [apply Hin; by left|apply Hin; by right|].
    intros <-. apply Hn, list_elem_of_fmap. by exists (a, ks2).
  - apply IH; [done|]. intros p H. apply Hin. by right.
Qed.
(** Several payments in a row *)
Lemma bank_pay_all b new : NoDup (paid b ++ new).*1 -> (forall p, p ∈ new -> p ∈ allocated b) ->
  rtc bank_step b {| pool := pool b; allocated := allocated b; paid := paid b ++ new |}.
Proof.
  revert b. induction new as [|[a ks] new IH]; intros b Hn Hin.
  { rewrite app_nil_r. by destruct b. }
  eapply rtc_l.
  - apply (bank_pay b a ks); [apply Hin; by left|]. rewrite fmap_app in Hn. apply NoDup_app in Hn as (_ & Hd & _).
    intros H. apply (Hd a H). cbn. by left.
  - specialize (IH {| pool := pool b; allocated := allocated b; paid := paid b ++ [(a, ks)] |}). cbn in IH.
    rewrite <-app_assoc in IH. apply IH; [done|]. intros p Hp. apply Hin. by right.
Qed.

(** ** What the state stores of the preparations *)
Section echo.
Context `{EL : EthLibLaws, GL : GobLaws}.
(** what the vault gave to which request *)
Variable given : list (bytes * list BtcOutpoint).
Definition given_wf : Prop := Forall (fun p => length p.1 = 32%nat /\ Forall BtcOutpoint_wf p.2) given.
(** the event carries outpoints given to its request *)
Definition echoes (ev : RedeemPreparedEvent) : Prop := (rp_RequestTxHash ev, event_outpoints ev) ∈ given.
Definition redeem_echoes (r : Redeem) : Prop := exists ops, Outpoints r = Some ops /\ (RequestTxHash r, ops) ∈ given.
Definition row_echoes (row : redeem_row) : Prop :=
  row_status row = RedeemStatusPrepared -> forall r, read_redeem row = Ok r -> redeem_echoes r.
Definition rows_echo (st : State) : Prop := Forall row_echoes (redeem_table (statedb st)).

Hypothesis Hgiven : given_wf.
Lemma prepared_row_echoes row r ev : echoes ev -> of_prepared ev r -> RequestTxHash r = rp_RequestTxHash ev ->
  row_requestTxHash row = hex_encode (RequestTxHash r) -> EncodeOutpoints (Outpoints r) = Ok (row_outpoints row) ->
  row_echoes row.
Proof using Hgiven GL EL.
  intros Hev (_ & Ho & Hne) Hr Hk He _ r' Hread. destruct (proj1 (Forall_forall _ _) Hgiven _ Hev) as [Hl Hwf]. cbn in Hl, Hwf.
  rewrite Ho in He. injection He as He. pose proof (DecodeOutpoints_nonempty _ Hne Hwf) as Hd.
  rewrite He in Hd. unfold read_redeem, sqlRedeem_decode in Hread.
  cbn [scan_redeem s_Outpoints s_RequestTxHash] in Hread. rewrite Hd in Hread. cbn [mbind outcome_bind] in Hread.
  injection Hread as <-. exists (event_outpoints ev). split; [done|]. cbn.
  rewrite Hk, Hr, HexStrToBytes32_0x by done. exact Hev.
Qed.
Lemma appended_echo r d d' : appended r d d' -> Forall row_echoes (redeem_table d) ->
  (Status r = RedeemStatusPrepared -> exists ev, echoes ev /\ of_prepared ev r /\ RequestTxHash r = rp_RequestTxHash ev) ->
  Forall row_echoes (redeem_table d').
Proof using Hgiven GL EL.
  intros (row & Hk & Hs & Ho & _ & ->) Ht Hev. apply Forall_app. split; [done|]. apply Forall_singleton.
  intros Hp. rewrite Hs in Hp. destruct (Hev Hp) as (ev & H1 & H2 & H3).
  eapply prepared_row_echoes; try done; [by apply Ho|congruence].
Qed.
Lemma updated_echo r d d' ev : updated r d d' -> Forall row_echoes (redeem_table d) ->
  echoes ev -> of_prepared ev r -> RequestTxHash r = rp_RequestTxHash ev -> Forall row_echoes (redeem_table d').
Proof using Hgiven GL EL.
  intros (q & Hq & ->) Ht H1 H2 H3. apply sqlRedeem_encode_key in Hq as (_ & _ & _ & Ho). cbn.
  apply Forall_fmap, (Forall_impl _ _ _ Ht). intros row Hrow. unfold compose. case_decide as Hk; [|done].
  by eapply prepared_row_echoes.
Qed.

Lemma same_table_echo st st' : redeem_table (statedb st') = redeem_table (statedb st) -> rows_echo st -> rows_echo st'.
Proof. unfold rows_echo. by intros ->. Qed.
Lemma handlePreparedEvent_echo ev st : echoes ev -> rows_echo st -> rows_echo (run (handlePreparedEvent ev) st).
Proof using Hgiven GL EL.
  intros Hev Ht. destruct (handlePreparedEvent_run ev st)
    as [->|(_ & [(_ & r & d & Hk & Hs & Ha & ->)|(_ & r & d & _ & _ & _ & _ & Hk & Hs & Hu & ->)])]; [done| |].
  - eapply appended_echo; [exact Ha|done|]. intros _. by exists ev.
  - by eapply updated_echo.
Qed.
Lemma handleRedeemRequestEvent_echo ev st : rows_echo st -> rows_echo (run (handleRedeemRequestEvent ev) st).
Proof using Hgiven GL EL.
  intros Ht. destruct (handleRedeemRequestEvent_run ev st) as [->|(_ & _ & r & d & _ & Hs & Ha & ->)]; [done|].
  by eapply appended_echo; [exact Ha|done|].
Qed.
Lemma handleMintedEvent_table ev st :
  redeem_table (statedb (run (handleMintedEvent ev) st)) = redeem_table (statedb st).
Proof.
  pose proof (UpdateMint_redeems (createMintFromMintedEvent ev) (statedb st)) as H. unfold run, handleMintedEvent in *.
  rewrite with_err_eq, on_db_eq. by destruct (UpdateMint _ _).
Qed.

(** ** The loop of the state and the queue of preparations *)
Definition queue_echoes (st : State) : Prop := Forall echoes (newRedeemPreparedEvCh st).
Lemma select_echo c l l' : select_step c l = Some l' -> queue_echoes (l_st l) -> rows_echo (l_st l) ->
  queue_echoes (l_st l') /\ rows_echo (l_st l').
Proof using Hgiven GL EL.
  intros Hs Hq Ht. pose proof (select_streams _ _ _ Hs) as (_ & _ & _ & Hqueue). split.
  { unfold queue_echoes in *. rewrite <-Hqueue in Hq. by apply Forall_app in Hq as [_ ?]. }
  clear Hqueue. unfold select_step in Hs. destruct (ctl l); [|done..]. destruct c.
  - by injection Hs as <-.
  - destruct (errCh l); [done|]. by injection Hs as <-.
  - destruct (newEthFinalizedBlockCh _); [done|]. injection Hs as <-. rewrite after_handler_st.
    eapply same_table_echo; [apply handleNewBlockNumber_redeems|exact Ht].
  - destruct (newMintedEventCh _); [done|]. injection Hs as <-. rewrite after_handler_st.
    eapply same_table_echo; [apply handleMintedEvent_table|exact Ht].
  - destruct (newRedeemRequestedEvCh _); [done|]. injection Hs as <-. rewrite after_handler_st.
    by apply handleRedeemRequestEvent_echo.
  - destruct (newRedeemPreparedEvCh (l_st l)) as [|ev q] eqn:Hq'; [done|]. injection Hs as <-. rewrite after_handler_st.
    apply handlePreparedEvent_echo; [|done]. unfold queue_echoes in Hq. rewrite Hq' in Hq. by apply Forall_cons in Hq as [? _].
Qed.
(** what the other goroutines send is what the token chain emits *)
Definition honest (i : input) : Prop := match i with SendPrepared ev => echoes ev | _ => True end.
Lemma env_echo i l l' : honest i -> env_step i l = Some l' -> queue_echoes (l_st l) -> rows_echo (l_st l) ->
  queue_echoes (l_st l') /\ rows_echo (l_st l').
Proof.
  intros Hi Hs Hq Ht. pose proof (env_streams _ _ _ Hs) as (_ & _ & _ & Hqueue). split.
  { unfold queue_echoes in *. rewrite Hqueue. apply Forall_app. split; [done|]. destruct i; cbn; try constructor; try done. }
  eapply same_table_echo; [|exact Ht]. unfold env_step in Hs. destruct i; try (case_match; [|done]); injection Hs as <-; try done.
  - cbn [l_st]. pose proof (UpdateMint_redeems m (statedb (l_st l))) as Hm. unfold run, SetNewBTC2EVMMint in *.
    rewrite on_db_eq. by destruct (UpdateMint _ _).
  - cbn [l_st]. unfold run. by destruct (SetRedeemCompleted_run req btc (l_st l)) as [[e Hr]|Hr]; rewrite Hr.
Qed.
(** the redeems the manager of payments finds *)
Lemma found_echo st l : rows_echo st -> result GetPreparedRedeems st = Ok l -> Forall redeem_echoes l.
Proof.
  intros Ht. unfold result, GetPreparedRedeems. rewrite on_db_eq. unfold GetRedeemsByStatus, prepare, exec, may_fail.
  mstep. destruct (db_fault _ Preparing _); [done|]. mstep. destruct (db_fault _ Executing _); [done|]. mstep. cbn [fst].
  intros Hl. assert (Forall row_echoes (filter (fun row => row_status row = RedeemStatusPrepared) (redeem_table (statedb st)))
    /\ Forall (fun row => row_status row = RedeemStatusPrepared) (filter (fun row => row_status row = RedeemStatusPrepared) (redeem_table (statedb st)))) as [H1 H2].
  { split; apply Forall_forall; intros row [Hs Hin]%list_elem_of_filter; [|done]. by apply (proj1 (Forall_forall _ _) Ht). }
  revert H1 H2 Hl. generalize (filter (fun row => row_status row = RedeemStatusPrepared) (redeem_table (statedb st))).
  intros t. revert l. induction t as [|row t IH]; intros l H1 H2; cbn; [intros [= <-]; constructor|].
  apply Forall_cons in H1 as [Hr H1], H2 as [Hs H2].
  destruct (read_redeem row) as [r|e|w] eqn:Hread; cbn; [|done..].
  destruct (mapM read_redeem t) as [rs|e|w] eqn:Hrs; cbn; [|done..]. intros [= <-].
  constructor; [by apply (Hr Hs)|by apply IH].
Qed.
End echo.

(** ** What a payment spends *)
Section payments.
Context `{BL : BtcLibLaws, EL : EthLibLaws, GL : GobLib}.
Context {V N A : Type} `{VL : VaultStorageLaws V, BN : @BtcNode B N, RL : RedeemStorageLaws A}.
Abbreviation Mgr := (BtcTxManager V (sent_log N) A).

Definition key_of (o : BtcOutpoint) : outpoint_key := (Remove0xPrefix (HashString (BtcTxId o)), BtcIdx o).
Definition grants (given : list (bytes * list BtcOutpoint)) : list (bytes * list outpoint_key) :=
  (fun p : bytes * list BtcOutpoint => (p.1, key_of <$> p.2)) <$> given.
Definition input_keys (tx : MsgTx) : list outpoint_key :=
  (fun i => (HashStr (op_Hash (PreviousOutPoint i)), op_Index (PreviousOutPoint i))) <$> tx_in tx.
Definition payment (tx : MsgTx) : bytes * list outpoint_key := (request_of tx, input_keys tx).
Definition vault_wf (v : V) : Prop := healthy v /\ Forall utxo_wf (rows v).

Lemma GetUTXODetail_run (v : V) t i : healthy v ->
  run (GetUTXODetail t i) v = v /\ forall w, result (GetUTXODetail t i) v = Ok w -> w ∈ rows v /\ utxo_key w = (t, i).
Proof.
  intros Hv. unfold run, result, GetUTXODetail. rewrite bind_eq, law_one by done.
  destruct (find_row utxo_key (rows v) (t, i)) as [u|] eqn:Hf; cbn; [|done]. split; [done|]. intros w [= <-].
  by apply find_row_Some in Hf.
Qed.
Lemma on_vault_GetUTXODetail (m : Mgr) t i : healthy (treasureVault m) ->
  on_vault (GetUTXODetail t i) m = (result (GetUTXODetail t i) (treasureVault m), m).
Proof.
  intros Hv. destruct (GetUTXODetail_run (treasureVault m) t i Hv) as [Hr _]. unfold run, result, on_vault, zoom in *.
  destruct (GetUTXODetail t i (treasureVault m)) as [o v]. cbn in *. subst v. by destruct m.
Qed.
Lemma FetchUTXOs_run ops (m : Mgr) : healthy (treasureVault m) ->
  run (FetchUTXOs_loop ops) m = m /\ forall ws, result (FetchUTXOs_loop ops) m = Ok ws ->
    utxo_key <$> ws = key_of <$> ops /\ Forall (fun w => w ∈ rows (treasureVault m)) ws.
Proof.
  intros Hv. unfold run, result. induction ops as [|o ops [IH1 IH2]]; [by split; [|intros ws [= <-]; split; [|constructor]]|].
  cbn [FetchUTXOs_loop]. rewrite bind_eq, on_vault_GetUTXODetail by done.
  destruct (GetUTXODetail_run (treasureVault m) (Remove0xPrefix (HashString (BtcTxId o))) (BtcIdx o) Hv) as [_ Hw].
  destruct (result _ _) as [w|e|p]; [|done..]. destruct (Hw w eq_refl) as [Hin Hk]. rewrite bind_eq.
  destruct (FetchUTXOs_loop ops m) as [[us|e|p] m1]; cbn in *; subst m1; [|done..]. split; [done|]. intros ws [= <-].
  destruct (IH2 us eq_refl) as [Hks Hus]. rewrite !fmap_cons, Hks. split; [f_equal; exact Hk|by constructor].
Qed.
Lemma spends_keys tx ws : Forall utxo_wf ws -> spends tx (ConvertUTXO <$> ws) -> input_keys tx = utxo_key <$> ws.
Proof.
  unfold spends, input_keys. generalize (tx_in tx). intros ins Hws. revert ins.
  induction Hws as [|w ws Hw Hws IH]; intros [|i ins]; try done. rewrite !fmap_cons. intros Heq.
  destruct (ConvertUTXO_outpoint w w Hw eq_refl) as (h & Hh & Ho). rewrite Ho in Heq. injection Heq as Hi Hins.
  rewrite (IH ins Hins). f_equal. rewrite Hi. cbn. destruct Hw as (h0 & Hl & Ht & _). unfold utxo_key.
  rewrite Ht in Hh |- *. rewrite law_NewHashFromStr in Hh by done. by injection Hh as <-.
Qed.

(** a transaction built for a redeem spends the redeem's outpoints *)
Lemma CreateBTCRedeemTx_pays r (m : Mgr) tx m' : vault_wf (treasureVault m) -> length (RequestTxHash r) = 32%nat ->
  CreateBTCRedeemTx r m = (Ok tx, m') -> payment tx = (RequestTxHash r, key_of <$> default [] (Outpoints r)).
Proof.
  intros [Hv Hwf] Hl Hc. apply CreateBTCRedeemTx_made in Hc as [Hr (prev & m1 & Hp & Hs)]; [|done].
  unfold payment. rewrite Hr. f_equal. unfold CollectUTXOs in Hp. rewrite bind_eq in Hp.
  pose proof (FetchUTXOs_run (default [] (Outpoints r)) m Hv) as [_ Hf]. unfold result, FetchUTXOs in *.
  destruct (FetchUTXOs_loop _ m) as [[ws|e|w] m2]; [|done..]. injection Hp as <- _.
  destruct (Hf ws eq_refl) as [<- Hin]. apply spends_keys; [|done]. eapply Forall_impl; [exact Hin|].
  by apply (proj1 (Forall_forall _ _) Hwf).
Qed.

Section round.
Variables (given : list (bytes * list BtcOutpoint)) (v0 : V) (st0 : State) (log0 : list MsgTx).
Hypothesis Hv0 : vault_wf v0.
(** only the log, the wallet and the actions change, and what is sent is what was given *)
Definition pays (m : Mgr) : Prop :=
  treasureVault m = v0 /\ sharedState m = st0 /\
  exists new, sent_txs m = log0 ++ new /\ Forall (fun tx => payment tx ∈ grants given) new.
Lemma pays_wallet {T} (w : M NativeOperator T) : keeps pays (on_wallet w).
Proof. intros m Hm. unfold run, on_wallet, zoom. by destruct (w (legacySigner m)). Qed.
Lemma pays_actions {T} (w : M A T) : keeps pays (on_actions w).
Proof. intros m Hm. unfold run, on_actions, zoom. by destruct (w (mgrState m)). Qed.
Lemma pays_fetch ops : keeps pays (FetchUTXOs_loop ops).
Proof using Hv0 BL.
  intros m Hm. pose proof Hm as (Hv & _). destruct Hv0 as [Hh _].
  destruct (FetchUTXOs_run ops m) as [-> _]; [by rewrite Hv|done].
Qed.
#[local] Hint Resolve pays_wallet pays_actions pays_fetch : golib.
Lemma pays_create r : keeps pays (CreateBTCRedeemTx r).
Proof using Hv0 BL. unfold CreateBTCRedeemTx, CollectUTXOs, FetchUTXOs. keeps_auto. Qed.
Lemma pays_withdraw r : redeem_echoes given r -> length (RequestTxHash r) = 32%nat -> keeps pays (WithdrawBTC r).
Proof using Hv0 BL.
  intros (ops & Ho & Hin) Hl m Hm. pose proof (pays_create r m Hm) as Hc. pose proof Hm as (Hv & _).
  unfold run, WithdrawBTC in *. rewrite bind_eq.
  destruct (CreateBTCRedeemTx r m) as [[tx|e|w] m1] eqn:Hr; [|exact Hc..].
  apply CreateBTCRedeemTx_pays in Hr; [|by rewrite Hv|done]. rewrite Ho in Hr. cbn [snd] in Hc.
  destruct m1 as [v1 lo1 [n1 log1] st1 a1]. destruct Hc as (Hv1 & Hs1 & new & Hlog & Hnew).
  unfold on_node, zoom, SendRawTx. cbn [SendRawTransaction logged_node]. rewrite bind_eq.
  unfold pass_node, zoom. cbn [myBtcClient inner sent treasureVault sharedState sent_txs] in *.
  destruct (SendRawTransaction tx n1) as [[h|e|w] n2]; [|by split_and!; [..|exists new]..].
  split_and!; [done..|]. exists (new ++ [tx]). unfold sent_txs in *. cbn in Hlog |- *. split; [by rewrite Hlog, app_assoc|].
  apply Forall_app. split; [done|]. apply Forall_singleton. rewrite Hr. apply list_elem_of_fmap.
  by exists (RequestTxHash r, ops).
Qed.
#[local] Hint Resolve pays_withdraw : golib.
Lemma pays_withdraw_one r : redeem_echoes given r /\ length (RequestTxHash r) = 32%nat -> keeps pays (withdraw_one r).
Proof using Hv0 BL.
  intros [He Hl]. unfold withdraw_one. apply keeps_bind; [auto with golib|intros [e|[]]]; [auto with golib|..].
  - apply keeps_bind; [auto with golib|]. intros [e|[[x|] [y|]]]; auto with golib. by intros m.
  - apply keeps_bind; [auto with golib|intros _]. apply keeps_bind; [auto with golib|intros [e|h]]; auto with golib.
Qed.
End round.

Lemma GetPreparedRedeems_same (m : Mgr) : FindRedeemsFromState m = (result GetPreparedRedeems (sharedState m), m).
Proof.
  unfold FindRedeemsFromState, on_state, zoom, result. destruct (GetPreparedRedeems (sharedState m)) as [o st] eqn:He.
  cbn. f_equal. assert (st = sharedState m) as ->; [|by destruct m]. revert He.
  unfold GetPreparedRedeems. rewrite on_db_eq.
  assert (run (GetRedeemsByStatus RedeemStatusPrepared) (statedb (sharedState m)) = statedb (sharedState m)) as Hr.
  { unfold run, GetRedeemsByStatus, prepare, exec, may_fail. mstep. destruct (db_fault _ Preparing _); [done|]. mstep.
    destruct (db_fault _ Executing _); [done|]. by mstep. }
  unfold run in Hr. destruct (GetRedeemsByStatus _ _) as [o' d]. cbn in Hr. subst d. intros [= _ <-]. by destruct (sharedState m).
Qed.
(** a round pays redeems with what was given to them, and leaves the vault and the state *)
Lemma WithdrawLoop_round_pays given (m : Mgr) : vault_wf (treasureVault m) -> rows_echo given (sharedState m) ->
  pays given (treasureVault m) (sharedState m) (sent_txs m) (run WithdrawLoop_round m).
Proof.
  intros Hv Ht. assert (pays given (treasureVault m) (sharedState m) (sent_txs m) m) as Hm.
  { split_and!; [done..|]. exists []. by rewrite app_nil_r. }
  unfold run, WithdrawLoop_round, try. rewrite bind_eq, GetPreparedRedeems_same.
  destruct (result GetPreparedRedeems (sharedState m)) as [l|e|w] eqn:Hl; [|exact Hm..].
  apply (keeps_for_each_Forall _ _ _ _ (pays_withdraw_one given _ _ (sent_txs m) Hv)); [|exact Hm].
  apply Forall_and. split; [by eapply found_echo|by eapply GetPreparedRedeems_hashes].
Qed.
End payments.

(** ** Vault, loop of the state and manager of payments together *)
Section custody.
Context `{BL : BtcLibLaws, EL : EthLibLaws, GL : GobLaws}.
Context {V N A : Type} `{VL : VaultStorageLaws V, BN : @BtcNode B N, RL : RedeemStorageLaws A}.
Abbreviation Mgr := (BtcTxManager V (sent_log N) A).

(** [paying] holds the vault and the state that the components share. *)
Record custody := {
  paying : Mgr; loop_errs : list error; loop_ctl : control;
  given : list (bytes * list BtcOutpoint)    (** what the vault gave to which request so far *) }.
Definition vault_of (c : custody) : V := treasureVault (paying c).
Definition state_loop (c : custody) : loop :=
  {| l_st := sharedState (paying c); errCh := loop_errs c; ctl := loop_ctl c |}.
Definition set_loop (l : loop) (c : custody) : custody := {|
  paying := {| treasureVault := treasureVault (paying c); legacySigner := legacySigner (paying c);
    myBtcClient := myBtcClient (paying c); sharedState := l_st l; mgrState := mgrState (paying c) |};
  loop_errs := errCh l; loop_ctl := ctl l; given := given c |}.
Definition set_vault (v : V) (c : custody) : Mgr :=
  {| treasureVault := v; legacySigner := legacySigner (paying c); myBtcClient := myBtcClient (paying c);
     sharedState := sharedState (paying c); mgrState := mgrState (paying c) |}.
Definition set_paying (m : Mgr) (g : list (bytes * list BtcOutpoint)) (c : custody) : custody :=
  {| paying := m; loop_errs := loop_errs c; loop_ctl := loop_ctl c; given := g |}.

(** The components take steps in any order: a round of payments; the wallet, the node and the
    monitor's record of actions; the vault serves a request or receives an output; the loop of the
    state handles a message; the other goroutines send one, where the preparations are those that the
    token chain emits, of outpoints that the vault gave. *)
Inductive custody_step : custody -> custody -> Prop :=
  | cs_round c : custody_step c (set_paying (run WithdrawLoop_round (paying c)) (given c) c)
  | cs_other c m : treasureVault m = vault_of c -> sharedState m = sharedState (paying c) ->
      sent_txs m = sent_txs (paying c) -> ra_healthy (mgrState m) ->
      (forall k, k ∈ keys_of (paying c) -> k ∈ keys_of m) -> custody_step c (set_paying m (given c) c)
  | cs_request c now req amount : length req = 32%nat -> 0 <= amount -> amount + SAFE_MARGIN < 2 ^ 63 ->
      custody_step c
        (let '(o, v) := Request now req (Some amount) (vault_of c) in
         set_paying (set_vault v c) (given c ++ match o with Ok ops => [(req, ops)] | _ => [] end) c)
  | cs_receive c bn bh h vout amount pk : length h = 32%nat -> 0 <= vout < 2 ^ 16 -> 0 <= amount ->
      sum_amounts (rows (vault_of c)) + amount < 2 ^ 63 ->
      custody_step c (set_paying (set_vault (run (AddUTXO bn bh (HashStr h) vout amount pk) (vault_of c)) c) (given c) c)
  | cs_select c s l : select_step s (state_loop c) = Some l -> custody_step c (set_loop l c)
  | cs_env c i l : honest (given c) i -> env_step i (state_loop c) = Some l -> custody_step c (set_loop l c).

(** The specification's view *)
Definition bank_of (c : custody) : bank := {|
  pool := utxo_key <$> rows (vault_of c); allocated := grants (given c);
  paid := payment <$> sent_txs (paying c) |}.

(** what was given stays locked, for its request *)
Definition held (v : V) (g : list (bytes * list BtcOutpoint)) : Prop :=
  forall req ks, (req, ks) ∈ grants g -> locked_keys v ks /\
    exists u, u ∈ rows v /\ Lockup u = true /\ LinkedId u = ByteSliceToPureHexStr req.
Definition custody_inv (c : custody) : Prop :=
  recorded (paying c) /\ vault_wf (vault_of c) /\ amounts_ok (vault_of c) /\ held (vault_of c) (given c) /\
  given_wf (given c) /\ bank_ok (bank_of c) /\
  queue_echoes (given c) (sharedState (paying c)) /\ rows_echo (given c) (sharedState (paying c)).

(** *** The vault *)
Definition key_wf (k : outpoint_key) : Prop := exists h, length h = 32%nat /\ k.1 = HashStr h /\ 0 <= k.2 < 2 ^ 16.
Lemma rows_wf (l : list VaultUTXO) : Forall utxo_wf l <-> Forall key_wf (utxo_key <$> l).
Proof. by rewrite Forall_fmap. Qed.
Lemma outpoint_of_keys (l : list VaultUTXO) : Forall utxo_wf l -> key_of <$> (outpoint_of <$> l) = utxo_key <$> l.
Proof.
  induction 1 as [|u l Hu _ IH]; [done|]. rewrite !fmap_cons, IH. f_equal. unfold key_of.
  by destruct (clean_txid u Hu) as [-> ->].
Qed.
Lemma changed_keeps_locked (v v' : V) id l u : healthy v ->
  changed_on (utxo_key <$> l) (locked_for id) (rows v) (rows v') -> l ⊆+ filter usable (rows v) ->
  u ∈ rows v -> Lockup u = true -> u ∈ rows v'.
Proof.
  intros Hv Hch Hsub Hu Hl. pose proof Hu as Hin. apply list_elem_of_lookup in Hin as [i Hi].
  destruct (Forall2_lookup_l _ _ _ _ _ Hch Hi) as (w & Hw & [[Hk _]|[_ ->]]); [|by eapply list_elem_of_lookup_2].
  exfalso. apply (usable_not_locked v [utxo_key u] l Hv) with (utxo_key u); [|done|by left|done].
  intros k ->%list_elem_of_singleton. by exists u.
Qed.
Lemma serve_run (v : V) g now req amount : vault_wf v -> amounts_ok v -> held v g -> length req = 32%nat ->
  0 <= amount -> amount + SAFE_MARGIN < 2 ^ 63 ->
  let '(o, v') := Request now req (Some amount) v in
  match o with
  | Ok ops => vault_wf v' /\ amounts_ok v' /\ held v' (g ++ [(req, ops)]) /\ Forall BtcOutpoint_wf ops /\
      utxo_key <$> rows v' = utxo_key <$> rows v /\ (req ∉ (grants g).*1) /\ NoDup (key_of <$> ops) /\
      (forall k, k ∈ key_of <$> ops -> k ∈ utxo_key <$> rows v) /\
      forall k, k ∈ key_of <$> ops -> k ∉ concat (grants g).*2
  | _ => v' = v
  end.
Proof.
  intros [Hh Hwf] Hok Hheld Hlen Ha Hm. pose proof (Request_run v now req amount Hh Hok Ha Hm) as Hr.
  destruct (Request now req (Some amount) v) as [[ops|e|w] v']; [|done..].
  destruct Hr as (l & -> & Hn & Hsub & Hcov & Hfresh & Hch & Hh').
  assert (forall u, u ∈ l -> u ∈ rows v) as Hin by (intros u Hu; by eapply sub_usable in Hu as [_ ?]).
  assert (utxo_key <$> rows v' = utxo_key <$> rows v) as Hkeys by (eapply changed_on_keys; [apply locked_for_key|exact Hch]).
  assert (key_of <$> (outpoint_of <$> l) = utxo_key <$> l) as Hlk.
  { apply outpoint_of_keys, Forall_forall. intros u Hu. apply (proj1 (Forall_forall _ _) Hwf). by apply Hin. }
  rewrite Hlk. split_and!; try done.
  - split; [done|]. by rewrite rows_wf, Hkeys, <-rows_wf.
  - by eapply amounts_ok_changed.
  - intros r ks. unfold grants. rewrite fmap_app. intros [Hg|Hg%list_elem_of_singleton]%elem_of_app.
    + destruct (Hheld r ks Hg) as [Hk (u & Hu & Hl & Hid)]. split; [by eapply locked_keys_changed|].
      exists u. split; [|done]. exact (changed_keeps_locked _ _ _ _ u Hh Hch Hsub Hu Hl).
    + cbn in Hg. injection Hg as -> ->. rewrite Hlk. split; [by eapply locked_keys_new|].
      destruct l as [|u l]; [cbn in Hcov; unfold SAFE_MARGIN in *; lia|].
      destruct (changed_on_locked _ _ _ _ u Hch ltac:(by left) (Hin u ltac:(by left))) as (w & ? & _ & _ & ? & ?). by exists w.
  - apply Forall_fmap, Forall_forall. intros u _. apply outpoint_of_wf.
  - intros ([r ks] & -> & Hg)%list_elem_of_fmap. destruct (Hheld r ks Hg) as [_ (u & Hu & _ & Hid)]. by apply (Hfresh u Hu).
  - intros k (u & -> & Hu)%list_elem_of_fmap. apply list_elem_of_fmap. exists u. split; [done|by apply Hin].
  - intros k Hk (ks & ([r ks'] & -> & Hg)%list_elem_of_fmap & Hks)%elem_of_concat.
    destruct (Hheld r ks' Hg) as [Hl _]. by apply (usable_not_locked v ks' l Hh Hl Hsub k).
Qed.
Lemma receive_run (v : V) g bn bh h vout amount pk : vault_wf v -> amounts_ok v -> held v g ->
  length h = 32%nat -> 0 <= vout < 2 ^ 16 -> 0 <= amount -> sum_amounts (rows v) + amount < 2 ^ 63 ->
  let v' := run (AddUTXO bn bh (HashStr h) vout amount pk) v in
  vault_wf v' /\ amounts_ok v' /\ held v' g /\
  (v' = v \/ ((HashStr h, vout) ∉ utxo_key <$> rows v) /\
             utxo_key <$> rows v' = (utxo_key <$> rows v) ++ [(HashStr h, vout)]).
Proof.
  intros [Hh Hwf] [Hp Hs] Hheld Hl Hv Ha Hsum. cbv zeta. unfold run.
  destruct (AddUTXO_run v bn bh (HashStr h) vout amount pk Hh) as [[-> _]|(v' & -> & Hn & Hh' & Hr)]; cbn [snd].
  { split_and!; try done. by left. }
  unfold vault_wf, amounts_ok, held. rewrite Hr, sum_amounts_app, fmap_app. cbn [sum_amounts foldr u_Amount].
  split_and!; try done; try lia; [..|by right].
  - apply Forall_app. split; [done|]. apply Forall_singleton. by exists h.
  - apply Forall_app. split; [done|]. by apply Forall_singleton.
  - intros r ks Hg. destruct (Hheld r ks Hg) as [Hk (u & Hu & ?)]. split.
    + intros k Hin. destruct (Hk k Hin) as (w & Hw & ?). exists w. split; [|done]. rewrite Hr. apply elem_of_app. by left.
    + exists u. split; [|done]. apply elem_of_app. by left.
Qed.

(** *** The simulation *)
Lemma echo_mono g x st : queue_echoes g st -> rows_echo g st -> queue_echoes (g ++ x) st /\ rows_echo (g ++ x) st.
Proof.
  intros Hq Ht. split.
  - eapply Forall_impl; [exact Hq|]. intros ev Hev. apply elem_of_app. by left.
  - eapply Forall_impl; [exact Ht|]. intros row Hrow Hs r Hr. destruct (Hrow Hs r Hr) as (ops & Ho & Hin).
    exists ops. split; [done|]. apply elem_of_app. by left.
Qed.
(** what the steps of the loop of the state leave *)
Lemma custody_inv_loop l c : custody_inv c -> queue_echoes (given c) (l_st l) /\ rows_echo (given c) (l_st l) ->
  custody_inv (set_loop l c).
Proof. intros (H1 & H2 & H3 & H4 & H5 & H6 & _) [H7 H8]. by split_and!. Qed.
(** [bank_ok] follows from the steps of the specification *)
Lemma custody_inv_bank c c' : bank_ok (bank_of c) -> rtc bank_step (bank_of c) (bank_of c') ->
  (bank_ok (bank_of c') -> custody_inv c') -> custody_inv c' /\ rtc bank_step (bank_of c) (bank_of c').
Proof. intros Hb Hr Hi. split; [apply Hi; by eapply bank_run_ok|done]. Qed.

Lemma custody_round c : custody_inv c -> let c' := set_paying (run WithdrawLoop_round (paying c)) (given c) c in
  custody_inv c' /\ rtc bank_step (bank_of c) (bank_of c').
Proof.
  intros (Hrec & Hv & Ha & Hh & Hg & Hb & Hq & Ht). cbv zeta.
  pose proof (WithdrawLoop_round_recorded (paying c) Hrec) as Hrec'.
  destruct (WithdrawLoop_round_pays (given c) (paying c) Hv Ht) as (Ev & Es & new & Hlog & Hnew).
  apply custody_inv_bank; [done|..].
  - unfold bank_of, vault_of, set_paying. cbn [paying given]. rewrite Ev, Hlog, fmap_app.
    apply (bank_pay_all (bank_of c)); cbn [bank_of paid allocated].
    + rewrite <-fmap_app, <-Hlog, <-list_fmap_compose. by destruct Hrec' as (_ & ? & _).
    + intros p (tx & -> & Htx)%list_elem_of_fmap. by apply (proj1 (Forall_forall _ _) Hnew).
  - intros Hb'. unfold custody_inv, vault_of, set_paying in *. cbn [paying given]. rewrite Ev, Es. by split_and!.
Qed.
Lemma custody_request c now req amount : length req = 32%nat -> 0 <= amount -> amount + SAFE_MARGIN < 2 ^ 63 ->
  custody_inv c ->
  let '(o, v) := Request now req (Some amount) (vault_of c) in
  let c' := set_paying (set_vault v c) (given c ++ match o with Ok ops => [(req, ops)] | _ => [] end) c in
  custody_inv c' /\ rtc bank_step (bank_of c) (bank_of c').
Proof.
  intros Hl Ha Hm Hi. pose proof Hi as (Hrec & Hv & Hok & Hh & Hg & Hb & Hq & Ht).
  pose proof (serve_run (vault_of c) (given c) now req amount Hv Hok Hh Hl Ha Hm) as Hr.
  destruct (Request now req (Some amount) (vault_of c)) as [[ops|e|w] v]; cbv zeta.
  2-3: subst v; rewrite app_nil_r; destruct c as [[]]; by split.
  destruct Hr as (Hv' & Hok' & Hh' & Hops & Hkeys & Hfresh & Hnd & Hpool & Hnew).
  apply custody_inv_bank; [done|..].
  - apply rtc_once. unfold bank_of, vault_of, set_paying, set_vault. cbn [paying given treasureVault].
    rewrite Hkeys. unfold grants at 2. rewrite fmap_app. by apply (bank_allocate (bank_of c) req (key_of <$> ops)).
  - intros Hb'. destruct (echo_mono (given c) [(req, ops)] _ Hq Ht) as [Hq' Ht']. split_and!; try done.
    apply Forall_app. split; [done|]. by apply Forall_singleton.
Qed.
Lemma custody_receive c bn bh h vout amount pk : length h = 32%nat -> 0 <= vout < 2 ^ 16 -> 0 <= amount ->
  sum_amounts (rows (vault_of c)) + amount < 2 ^ 63 -> custody_inv c ->
  let c' := set_paying (set_vault (run (AddUTXO bn bh (HashStr h) vout amount pk) (vault_of c)) c) (given c) c in
  custody_inv c' /\ rtc bank_step (bank_of c) (bank_of c').
Proof.
  intros Hl Hvo Ha Hs (Hrec & Hv & Hok & Hh & Hg & Hb & Hq & Ht). cbv zeta.
  destruct (receive_run (vault_of c) (given c) bn bh h vout amount pk Hv Hok Hh Hl Hvo Ha Hs) as (Hv' & Hok' & Hh' & Hk).
  apply custody_inv_bank; [done| |by intros; split_and!].
  unfold bank_of, vault_of, set_paying, set_vault in *. cbn [paying given treasureVault].
  destruct Hk as [->|[Hn ->]]; [done|]. apply rtc_once. by apply (bank_receive (bank_of c)).
Qed.
Lemma custody_sim c c' : custody_step c c' -> custody_inv c -> custody_inv c' /\ rtc bank_step (bank_of c) (bank_of c').
Proof.
  intros Hstep Hi. pose proof Hi as (Hrec & Hv & Hok & Hh & Hg & Hb & Hq & Ht).
  destruct Hstep as [c|c m Ev Es Hlog Hra Hkeys|c now req amount Hl Ha Hm|c bn bh h vout amount pk Hl Hvo Ha Hs|c s l Hs|c i l Hhon Hs].
  - by apply custody_round.
  - apply custody_inv_bank; [done|..].
    + unfold bank_of, vault_of, set_paying in *. cbn [paying given]. by rewrite Ev, Hlog.
    + intros Hb'. unfold custody_inv, vault_of, set_paying in *. cbn [paying given]. rewrite Ev, Es. split_and!; try done.
      destruct Hrec as (_ & Hn & Hin). unfold recorded. rewrite Hlog. split_and!; auto.
  - pose proof (custody_request c now req amount Hl Ha Hm Hi) as Hr. by destruct (Request _ _ _ _).
  - by apply custody_receive.
  - split; [|done]. apply custody_inv_loop; [done|]. by apply (select_echo (given c) Hg s (state_loop c)).
  - split; [|done]. apply custody_inv_loop; [done|]. by apply (env_echo (given c) i (state_loop c)).
Qed.
Lemma custody_run c c' : rtc custody_step c c' -> custody_inv c -> custody_inv c' /\ rtc bank_step (bank_of c) (bank_of c').
Proof.
  induction 1 as [c|c c1 c' Hs _ IH]; [done|]. intros Hi. destruct (custody_sim c c1 Hs Hi) as [Hi1 Hb1].
  destruct (IH Hi1) as [Hi' Hb']. split; [done|]. by etrans.
Qed.

(** A bridge that starts: nothing given, sent or prepared yet *)
Definition custody_start (c : custody) : Prop :=
  given c = [] /\ sent_txs (paying c) = [] /\ ra_healthy (mgrState (paying c)) /\
  vault_wf (vault_of c) /\ amounts_ok (vault_of c) /\ newRedeemPreparedEvCh (sharedState (paying c)) = [] /\
  Forall (fun row => row_status row <> RedeemStatusPrepared) (redeem_table (statedb (sharedState (paying c)))).
Lemma custody_start_inv c : custody_start c -> custody_inv c.
Proof.
  intros (Hg & Hl & Hra & Hv & Hok & Hq & Ht). unfold custody_inv, recorded, held, given_wf, bank_ok, bank_of, queue_echoes.
  rewrite Hg, Hl, Hq. cbn. split_and!; try done; try constructor; try (by intros ? ?%not_elem_of_nil);
    try by apply not_elem_of_nil in H.
  eapply Forall_impl; [exact Ht|]. by intros row Hrow Hs.
Qed.

(** C3: the custody of the bridge refines its specification: however the rounds of payments, the
    requests to the vault, the deposits, the loop of the state and the other goroutines are
    interleaved, what happens to the outpoints is a run of a bank that receives an outpoint once,
    gives each request outpoints of its pool once, never ones given before, and pays a
    request at most once, with exactly what it was given. The token chain is
    trusted to emit preparations of what the vault gave, the storages not to fail. *)
Theorem custody_refines c c' : custody_start c -> rtc custody_step c c' -> rtc bank_step (bank_of c) (bank_of c').
Proof. intros Hs Hr. exact (proj2 (custody_run c c' Hr (custody_start_inv c Hs))). Qed.

(** C4: the bridge never spends an outpoint twice: in every interleaving of the components, the
    inputs of all the transactions that the node accepted are distinct, and each transaction
    spends exactly the outpoints that the vault gave to the request it pays. *)
Theorem payments_disjoint c c' : custody_start c -> rtc custody_step c c' ->
  NoDup (concat (input_keys <$> sent_txs (paying c'))) /\
  forall tx, tx ∈ sent_txs (paying c') -> exists ops, (request_of tx, ops) ∈ given c' /\ input_keys tx = key_of <$> ops.
Proof.
  intros Hs Hr. destruct (custody_run c c' Hr (custody_start_inv c Hs)) as [(_ & _ & _ & _ & _ & Hb & _) _]. split.
  - pose proof (bank_no_double_spend _ Hb) as H. cbn [bank_of paid] in H. by rewrite <-list_fmap_compose in H.
  - intros tx Htx. destruct Hb as (_ & _ & _ & Hp). specialize (Hp (payment tx) ltac:(by apply list_elem_of_fmap_2)).
    apply list_elem_of_fmap in Hp as ([r ops] & [= -> ->] & Hg). by exists ops.
Qed.
End custody.

(** ** A concrete run *)
Abbreviation toy_custody := (custody (V := VaultSQLiteStorage) (N := toy_node) (A := SQLiteRedeemStorage)).
(** the vault of three UTXOs, a state that knows no request yet *)
Definition sample_custody : toy_custody := {|
  paying := {| treasureVault := rich_vault; legacySigner := legacySigner sample_manager;
    myBtcClient := myBtcClient sample_manager; sharedState := sample_state; mgrState := mgrState sample_manager |};
  loop_errs := []; loop_ctl := Running; given := [] |}.
Definition after_input (i : input) (c : toy_custody) : toy_custody :=
  set_loop (default (state_loop c) (env_step i (state_loop c))) c.
Definition after_select (s : select_case) (c : toy_custody) : toy_custody :=
  set_loop (default (state_loop c) (select_step s (state_loop c))) c.
(** The vault serves the request; the request and its preparation come from the token chain. *)
Definition sample_given : toy_custody :=
  let '(o, v) := Request (fun _ => 1000) (sample_hash 1) (Some 100) (vault_of sample_custody) in
  set_paying (set_vault v sample_custody)
    (given sample_custody ++ match o with Ok ops => [(sample_hash 1, ops)] | _ => [] end) sample_custody.
Definition sample_requested : toy_custody := after_select RecvRequested (after_input (SendRequested sample_request) sample_given).
Definition sample_prepared : toy_custody := after_select RecvPrepared (after_input (SendPrepared prepared_event) sample_requested).
(** Two rounds, of which the second has nothing to pay *)
Definition sample_round (c : toy_custody) : toy_custody := set_paying (run WithdrawLoop_round (paying c)) (given c) c.
Definition sample_paid : toy_custody := sample_round (sample_round sample_prepared).

Lemma after_input_step i (c : toy_custody) : honest (given c) i -> option_map (fun _ => tt) (env_step i (state_loop c)) = Some tt ->
  custody_step c (after_input i c).
Proof. intros Hi Hs. unfold after_input. destruct (env_step i (state_loop c)) eqn:He; [|done]. by eapply cs_env. Qed.
Lemma after_select_step s (c : toy_custody) : option_map (fun _ => tt) (select_step s (state_loop c)) = Some tt ->
  custody_step c (after_select s c).
Proof. intros Hs. unfold after_select. destruct (select_step s (state_loop c)) eqn:He; [|done]. by eapply cs_select. Qed.
Lemma round_step (c : toy_custody) : custody_step c (sample_round c).
Proof. apply cs_round. Qed.
Lemma sample_custody_start : custody_start sample_custody.
Proof.
  assert (amounts_ok rich_vault) as Hok by (split; [repeat constructor; cbn; lia|vm_compute; done]).
  do 2 (split; [done|]). split; [by intros q|]. split; [split; [exact rich_vault_healthy|exact rich_vault_wf]|].
  split; [exact Hok|]. split; [done|]. vm_compute. constructor.
Qed.
Lemma sample_custody_run : rtc custody_step sample_custody sample_paid.
Proof.
  eapply rtc_l; [apply (cs_request _ (fun _ => 1000) (sample_hash 1) 100); [done|lia|unfold SAFE_MARGIN; lia]|].
  change (rtc custody_step sample_given sample_paid).
  eapply rtc_l; [apply (after_input_step (SendRequested sample_request)); [done|vm_compute; done]|].
  eapply rtc_l; [apply (after_select_step RecvRequested); vm_compute; done|]. change (rtc custody_step sample_requested sample_paid).
  eapply rtc_l; [apply (after_input_step (SendPrepared prepared_event)); [apply list_elem_of_singleton; vm_compute; reflexivity|vm_compute; done]|].
  eapply rtc_l; [apply (after_select_step RecvPrepared); vm_compute; done|]. change (rtc custody_step sample_prepared sample_paid).
  unfold sample_paid. eapply rtc_l; [apply round_step|]. apply rtc_once, round_step.
Qed.
Lemma custody_refines_witness :
  length (paid (bank_of sample_paid)) = 1%nat /\ rtc bank_step (bank_of sample_custody) (bank_of sample_paid).
Proof. split; [vm_compute; reflexivity|]. apply custody_refines; [exact sample_custody_start|exact sample_custody_run]. Defined.
Lemma payments_disjoint_witness :
  (length <$> (input_keys <$> sent_txs (paying sample_paid))) = [1%nat] /\
  NoDup (concat (input_keys <$> sent_txs (paying sample_paid))).
Proof.
  split; [vm_compute; reflexivity|].
  exact (proj1 (payments_disjoint sample_custody sample_paid sample_custody_start sample_custody_run)).
Defined.
